(* ===== verification/_CoqProject ===== *)
-Q . S2P
Prelude.v
Events.v
Machine.v
Frame.v
RefEnv.v
Irq.v
Flash.v
Dma.v
Pins.v
Tim.v
Alarm.v
Uart.v
Pio.v
Line.v
Spi.v
I2c.v
Adc.v
UartLog.v
Hid.v
Usb.v
UsbDescriptors.v
Alloc.v
Wifi.v
LwipSock.v
SockWrite.v
Platform.v
Completion.v
Claim.v
SpiQueue.v
SpiSteps.v
Main.v
Loop.v
Confine.v
