(* ===== verification/Prelude.v ===== *)
(** * A verification of the DeviceScript firmware for the RP2040

    The repository is the platform layer that runs the DeviceScript virtual
    machine on the Raspberry Pi Pico: start-up, drivers for the single-wire
    Jacdac bus, SPI, I2C, ADC, flash, USB, a log on a UART, Wi-Fi and one TCP
    socket, and the loop that ties them together.  The virtual machine, the
    Pico SDK, TinyUSB, lwIP and the CYW43 driver are submodules and not part of
    it.  This library models every C file of [src/src/] as pure Rocq functions
    and proves what makes each driver, and their composition, correct.

    ** How a C function becomes a definition

    [Events.v] lists everything the firmware can do to the outside: loads and
    stores of memory-mapped registers, calls into the libraries, and the
    instructions [cpsid], [cpsie] and [wfe].  A run leaves a trace of them,
    newest first.  [Machine.v] holds the static variables, one [Record] per
    translation unit, in one [machine] with the trace and the interrupt mask,
    and the monad [M] in which code runs: a computation returns a value and a
    machine, or stops in a panic (a failed [JD_ASSERT]), in undefined behaviour
    (an index outside an array, a null dereference, a wide shift), in a reset, or
    because a polling loop used up its fuel.  A C static is a lens: [get x] reads
    it, [x <~ v] assigns it; [r <-~ v] stores to a register.  Integers are [Z] with
    the wrap of their C type written where the code narrows ([u8], [u16], [u32],
    [u64], [i8], [i32]).

    What the outside answers is the class [Env]: register contents, results of
    calls and the flash as functions of the trace so far, the fuel of polling
    loops, and the machine transformers of the code that calls back into the
    firmware ([reenter], client callbacks).  A theorem that needs more says so
    through a class of documented behaviour:

    - [Flash.FlashChip]: programming clears bits, erasing sets them;
    - [Pins.GpioHw]: pad and output-enable registers read back what was written;
    - [Tim.ClockOk]: the two halves of the microsecond counter;
    - [Uart.PhysClient]: the runtime's receive and transmit callbacks;
    - [Adc.AdcOk]: samples have twelve bits;
    - [Usb.CdcRx], [Usb.CdcTx]: the CDC FIFOs; [UsbDescriptors.HexOk]: [jd_to_hex];
    - [Wifi.WifiClient], [LwipSock.SockClient], [Main.MainClient]: what nested calls
      of the runtime keep; [Completion.RxClient]: the report of a reception
      starts nothing on the bus;
    - [Main.Dmesg], [Main.LogDma]: the runtime's log, read at a cursor, and the end
      of a transfer;
    - [Loop.IrqClient], [Loop.DmaRaises]: callbacks of interrupt handlers leave
      the log alone; a DMA channel interrupts only for a transfer it was given;
    - [Alarm.AlarmHw]: the alarm register reads back; [SpiSteps.SpiDma]: when a
      channel raises its interrupt; [Confine.ConfinedClient]: the runtime's
      interrupt callbacks keep to the driver's rules;
    - [SpiQueue.SpiQueue]: a client whose callbacks start its next transfer;
    - [SockWrite.LwipTcp]: what one [tcp_write] can take.

    Each has an instance in a witness.  [RefEnv.v] is the reference environment
    that the witnesses evaluate in.

    ** The files

    - [Prelude.v] (this file): widths, bits, transition sequences, automation.
    - [Events.v], [Machine.v]: the outside, the state and the monad.
    - [Frame.v]: what an operation leaves alone; [Framed] and the tactic [frame].
    - [Irq.v]: the interrupt lock of [platform.c], a refinement of a depth.
    - [Flash.v] ([flash.c]): the one-page write-back buffer.
    - [Dma.v] ([dma.c]): completion dispatch; drivers plug in through [DmaClient].
    - [Pins.v] ([pins.c]): GPIO, PWM, pin-change interrupts.
    - [Tim.v] ([tim.c]): the clock, the alarm, busy waiting.
    - [Alarm.v]: [tim_handler] statement by statement, refining a one-shot timer,
      while the timer is set between its statements.
    - [Uart.v] ([uart.c]): the single-wire half-duplex driver.
    - [Pio.v] ([sws.pio]): the two state-machine programs of the bus, cycle by
      cycle, with the configuration that [uart.c] loads.
    - [Line.v]: the DMA channels as [uart.c] sets them up, and a frame's way from
      a buffer of one board through both programs to a buffer of another.
    - [Spi.v], [I2c.v], [Adc.v] ([spi.c], [i2c.c], [adc.c]).
    - [UartLog.v] ([uart_log.c]): the log's UART.
    - [Hid.v], [Usb.v], [UsbDescriptors.v] ([hid.c], [usb.c], [usb_descriptors.c],
      [tusb_config.h]).
    - [Alloc.v], [Platform.v] ([platform.c]): heap, random numbers, LED, panic,
      start-up.
    - [Wifi.v] ([wifi_impl.c], [cyw43_fixes.c]), [LwipSock.v] ([lwip_sock.c]),
      [SockWrite.v] ([lwipopts.h] and what it means for [jd_tcpsock_write]).
    - [Completion.v]: the DMA dispatcher of [dma.c] composed with the handlers of
      the three drivers that use it ([uart.c], [spi.c], [uart_log.c]).
    - [Claim.v]: [uart_start_tx] statement by statement, with the interrupts of
      the driver between any two.
    - [SpiQueue.v]: transfers of [spi.c] that start the next one, through that
      dispatcher and the main loop.
    - [SpiSteps.v]: [jd_spi_xfer] and [jd_spi_process] statement by statement,
      refining a driver of one transfer at a time.
    - [Main.v] ([main.c]): the program: start-up, the loop, the copy of the log.
    - [Loop.v]: the loop statement by statement - a program counter over the
      statements of [main], [dmesg_to_stdout], [uart_log_write] and
      [dma_set_ch_cb] - with interrupts between any two and with [wfe].
    - [Confine.v]: what interrupts leave alone.

    A definition has the name of the C function or variable it models.  Where a
    loop or a block of a function is a definition of its own ([scan_update],
    [dispatch], [crypto_round]) the comment names the function it belongs to.

    ** What the theorems show

    - Safety along sequences of operations and interrupts: transmitter and
      receiver of the bus are never on together ([uart_half_duplex]; with one
      exclusion also when the start of a transmission is interrupted between its
      statements, [start_tx_claims]; [start_tx_window_race] shows what the
      exclusion avoids);
      flash is only touched in whole
      pages and sectors of its region with interrupts masked
      and the configuration area below it stays as it is
      ([flash_spares_configuration]); the log is handed to its DMA channel and
      back without a race ([loop_log_handover]) and no wake-up is lost
      ([loop_no_lost_wakeup]); interrupts touch neither the main program's
      variables nor its libraries ([interrupts_confined]); the transmitter's stall
      means that all was sent ([tx_stall_means_sent]); the socket's fields stay
      consistent ([sock_state_invariant]; [sock_leak_revives] and
      [sock_late_answer] show what its provisos exclude); Wi-Fi notices alternate
      ([wifi_notices_alternate]); mouse motion is conserved
      ([hid_mouse_conserves]).
    - Refinement and equivalence: the interrupt lock implements a depth
      ([irq_lock_refines_depth]); the timer, outside two windows, a one-shot timer
      ([refines_one_shot]; [timer_races] shows what happens in them); the SPI driver one transfer at a time
      ([spi_one_transfer]); a turn of the loop is what its statements do
      when no interrupt strikes ([main_turn_statements]), the start of a
      transmission what its are ([start_tx_statements]); the table of access points, grown in place,
      is a map from BSSIDs to their latest reports ([wifi_scan_table]).
    - Round trips: programming and syncing flash; string descriptors; bytes
      from the buffer of one board over the line to the buffer of another
      ([line_carries_frame], on the word-level [sws_roundtrip]), frame after
      frame ([rx_frames_delimited]).
    - Functional behaviour on every branch of the drivers' entry points and
      interrupt handlers, with the panics and the silent refusals.  Where the
      runtime is told of something in the middle ([sock_error_reports],
      [sock_write_cases], [sock_recv_delivers], [uart_rx_rearms]) it is arbitrary
      code.
    - Termination and progress: the CDC FIFO is drained ([tud_cdc_rx_cb_drains]),
      the panic handler resets ([hw_panic_resets]), the log drains
      ([main_log_drains]), queued SPI transfers all complete
      ([spi_queue_completes]).
    - Bounds: the clock deviation the receiver tolerates ([rx_tolerates_skew]),
      temperature arithmetic, random fills, counters.
    - Composition: [platform_init_boots] runs start-up through pins, timer, bus
      driver and USB; [uart_rx_rearms] and [spi_queue_completes] follow
      transfers from their start through the DMA interrupt to the next one;
      [loop_log_handover] and [main_log_drains] run the loop, the interrupts, the
      log driver and the other drivers' handlers together.

    Some theorems state what the code does where this is not what it means to
    do: a full flash page cannot be written, a pending page survives an erase,
    an answer of the resolver that comes late is not checked, one that comes at
    once is acted on in every turn of the loop, a large write ends a connection, a break leaves a byte in the receive FIFO, a reception that ends
    between two statements of [uart_start_tx] lets it transmit while receiving, a
    timer set while the timer interrupt is at work can be lost.

    ** Fuel and bounds

    Loops with a bound in the code ([for_]) recurse on it.  A polling loop takes
    the environment's [fuel]; theorems about it assume or derive that the fuel
    exceeds the number of rounds the hardware model needs, and conclude that it
    returns: one more round than bytes divided by the chunk for FIFOs, two for
    the clock, the waiting time for [target_wait_us].  [jd_crypto_get_random] has
    a fuel of its size plus one, always enough.  The endless loop of [main] is a
    finite number of turns, for every number; from its head at most 17
    statements lead back to it ([main_turn_statements]).

    One cycle of [Pio.v] is a tick of the state machine's divided clock, eight to
    the bit.  A run takes the levels or the deliveries of each cycle as a list;
    a transmission needs 80 cycles per word, which the hypotheses ask for.

    ** Not modelled

    - The submodules.  Their calls are events; only documented behaviour is
      assumed, in the classes above.
    - Of the PIO: the input synchroniser, the divider's fraction (an even
      cycle is assumed; the tolerance of [rx_tolerates_skew] covers its jitter),
      the receive FIFO running full (DMA drains it), and the instructions that
      [sws.pio] does not use.  [Uart.v] sees the bus as state machines being
      enabled and pins being driven; [Pio.v] says what they do then.
    - Interrupts arrive between the statements of the loop and of the copy of
      the log ([Loop.v]), of the start of a transmission ([Claim.v]), of the timer
      interrupt ([Alarm.v]) and of SPI transfers ([SpiSteps.v]), elsewhere between
      the operations of a step relation; code that runs with interrupts masked is atomic anyway.  Memory order, the
      second core and clock trees are left out.
    - Formatting of log messages: [DMESG] is an event with its format and
      arguments.  The bytes behind TinyUSB's descriptor macros stay symbolic.
    - Variants compiled out for every board: [DEBUG_PIN], [JD_INFINITE_PANIC],
      [#if 0].
    - Board files, build files, and in the headers the prototypes and the
      switches that only configure the submodules; [jd_user_config.h] and
      [lwipopts.h] are modelled where a size matters to the code here.

    ** What could follow

    The start of a transmission, the timer interrupt, SPI transfers and the loop
    have their statements as steps; I2C, the ADC and the socket run in the main
    program and are atomic here.  Beyond that, what is left is outside the
    repository: the runtime's side of the callbacks, which appears here as
    classes of hypotheses, and the libraries. *)

From Stdlib Require Export ZArith Lia Bool String.
From stdpp Require Export base list numbers option strings.

#[global] Open Scope Z_scope.

(** ** Machine-width integers

    The program runs on a 32-bit Cortex-M0+.  A [w]-bit integer is a [Z];
    every place where the C code stores into a narrower or unsigned type
    applies the matching wrap. *)

Definition u8 (z : Z) : Z := z mod 256.
Definition u16 (z : Z) : Z := z mod 65536.
Definition u32 (z : Z) : Z := z mod 4294967296.
Definition u64 (z : Z) : Z := z mod 18446744073709551616.
Definition i8 (z : Z) : Z := (z + 128) mod 256 - 128.
Definition i32 (z : Z) : Z := (z + 2147483648) mod 4294967296 - 2147483648.

(** C booleans. *)
Definition bool_to_bit (b : bool) : Z := if b then 1 else 0.
Definition z2b (z : Z) : bool := negb (z =? 0).

(** [mask & (1 << i)] as a test, and a bit mask of one bit. *)
Definition bit (i : Z) : Z := Z.shiftl 1 i.

(** ** Transition sequences *)

Section Star.
Context {S : Type} (R : S -> S -> Prop).

Inductive star : S -> S -> Prop :=
| star_refl s : star s s
| star_step s1 s2 s3 : R s1 s2 -> star s2 s3 -> star s1 s3.

(** Rule induction for invariants: what every step keeps, every run keeps. *)
Lemma star_invariant (I : S -> Prop) :
  (forall s s', I s -> R s s' -> I s') ->
  forall s s', star s s' -> I s -> I s'.
Proof. intros HR s s' Hs; induction Hs; eauto. Qed.

Lemma star_trans s1 s2 s3 : star s1 s2 -> star s2 s3 -> star s1 s3.
Proof. induction 1; eauto using star. Qed.

Lemma star_one s1 s2 : R s1 s2 -> star s1 s2.
Proof. eauto using star. Qed.
End Star.

(** ** Labelled sequences and simulation

    A step of an implementation may show several labels, or none; a
    specification accepts labels one by one. *)

Section Labelled.
Context {S L : Type}.

Inductive accepts (R : L -> S -> S -> Prop) : list L -> S -> S -> Prop :=
| acc_nil w : accepts R [] w w
| acc_cons l ls w1 w2 w3 : R l w1 w2 -> accepts R ls w2 w3 -> accepts R (l :: ls) w1 w3.

Inductive lrun (R : S -> list L -> S -> Prop) : S -> list L -> S -> Prop :=
| lrun_nil x : lrun R x [] x
| lrun_cons x y z ls1 ls2 : R x ls1 y -> lrun R y ls2 z -> lrun R x (ls1 ++ ls2) z.

Lemma accepts_one R l w w' : R l w w' -> accepts R [l] w w'.
Proof. eauto using accepts. Qed.
Lemma accepts_app R ls1 ls2 w1 w2 w3 : accepts R ls1 w1 w2 -> accepts R ls2 w2 w3 -> accepts R (ls1 ++ ls2) w1 w3.
Proof. induction 1; cbn [app]; eauto using accepts. Qed.
End Labelled.

(** A relation that every step of the implementation keeps, with the labels it
    shows accepted, extends to runs. *)
Lemma lrun_simulates {S1 S2 L} (R1 : S1 -> list L -> S1 -> Prop) (R2 : L -> S2 -> S2 -> Prop) (I : S1 -> S2 -> Prop) :
  (forall x ls y w, R1 x ls y -> I x w -> exists w', accepts R2 ls w w' /\ I y w') ->
  forall x ls y, lrun R1 x ls y -> forall w, I x w -> exists w', accepts R2 ls w w' /\ I y w'.
Proof.
  intros Hs x ls y Hr. induction Hr as [x | x y z ls1 ls2 H1 _ IH]; intros w Hw; [eauto using accepts |].
  destruct (Hs x ls1 y w H1 Hw) as (w1 & A1 & Hw1). destruct (IH w1 Hw1) as (w2 & A2 & Hw2).
  eauto using accepts_app.
Qed.

(** ** Automation *)

Create Rewrite HintDb wraps.

(** Linear arithmetic with [/] and [mod] by constants, wraps unfolded. *)
Ltac unwrap := unfold u8, u16, u32, u64, i8, i32, bool_to_bit in *.
Ltac zlia := unwrap; Z.div_mod_to_equations; lia.

(** Split conjunctions in the context. *)
Ltac destruct_ands :=
  repeat match goal with H : _ /\ _ |- _ => destruct H end.

(** Boolean comparisons in the context and the goal become propositions. *)
Ltac b2p :=
  repeat match goal with
  | H : (_ =? _) = true |- _ => apply Z.eqb_eq in H
  | H : (_ =? _) = false |- _ => apply Z.eqb_neq in H
  | H : (_ <? _) = true |- _ => apply Z.ltb_lt in H
  | H : (_ <? _) = false |- _ => apply Z.ltb_ge in H
  | H : (_ <=? _) = true |- _ => apply Z.leb_le in H
  | H : (_ <=? _) = false |- _ => apply Z.leb_gt in H
  | H : _ && _ = true |- _ => apply andb_true_iff in H; destruct H
  | H : _ || _ = false |- _ => apply orb_false_iff in H; destruct H
  | H : negb _ = true |- _ => apply negb_true_iff in H
  | H : negb _ = false |- _ => apply negb_false_iff in H
  end.

(** ** Wrap lemmas *)

Lemma u8_range z : 0 <= u8 z < 256.
Proof. zlia. Qed.
Lemma u16_range z : 0 <= u16 z < 65536.
Proof. zlia. Qed.
Lemma u32_range z : 0 <= u32 z < 4294967296.
Proof. zlia. Qed.
Lemma i8_range z : -128 <= i8 z < 128.
Proof. zlia. Qed.
Lemma i32_range z : -2147483648 <= i32 z < 2147483648.
Proof. zlia. Qed.

Lemma u8_id z : 0 <= z < 256 -> u8 z = z.
Proof. intros; zlia. Qed.
Lemma u16_id z : 0 <= z < 65536 -> u16 z = z.
Proof. intros; zlia. Qed.
Lemma u32_id z : 0 <= z < 4294967296 -> u32 z = z.
Proof. intros; zlia. Qed.
Lemma i8_id z : -128 <= z < 128 -> i8 z = z.
Proof. intros; zlia. Qed.
Lemma i32_id z : -2147483648 <= z < 2147483648 -> i32 z = z.
Proof. intros; zlia. Qed.

Lemma i8_add_l a b : i8 (i8 a + b) = i8 (a + b).
Proof. zlia. Qed.

#[export] Hint Rewrite u8_id u16_id u32_id i8_id i32_id using lia : wraps.

(** ** Bits *)

Lemma bit_pow i : 0 <= i -> bit i = 2 ^ i.
Proof. intros; unfold bit; rewrite Z.shiftl_mul_pow2 by lia; lia. Qed.

Lemma bit_pos i : 0 <= i -> 0 < bit i.
Proof. intros; rewrite bit_pow by lia; lia. Qed.

Lemma testbit_bit i j : 0 <= i -> Z.testbit (bit i) j = (i =? j).
Proof.
  intros Hi. rewrite bit_pow by lia. rewrite Z.pow2_bits_eqb by lia.
  reflexivity.
Qed.

Lemma land_bit z i : 0 <= i -> z2b (Z.land z (bit i)) = Z.testbit z i.
Proof.
  intros Hi. unfold z2b. destruct (Z.testbit z i) eqn:E.
  - apply negb_true_iff, Z.eqb_neq. intros H.
    assert (Z.testbit (Z.land z (bit i)) i = false) as C by (rewrite H; apply Z.bits_0).
    rewrite Z.land_spec, E, testbit_bit, Z.eqb_refl in C by lia. discriminate.
  - apply negb_false_iff, Z.eqb_eq. apply Z.bits_inj'. intros n Hn.
    rewrite Z.land_spec, testbit_bit, Z.bits_0 by lia.
    destruct (Z.eqb_spec i n); subst; [by rewrite E | apply andb_false_r].
Qed.

(** [x & ~((1 << k) - 1)] on 32-bit words rounds down to a multiple of [1 << k]. *)
Lemma land_lnot_ones k a :
  0 <= k <= 32 -> 0 <= a < 4294967296 ->
  Z.land a (u32 (Z.lnot (Z.ones k))) = a / 2 ^ k * 2 ^ k.
Proof.
  intros Hk Ha. unfold u32. change 4294967296 with (2 ^ 32) in *.
  rewrite <- Z.land_ones, (Z.land_comm (Z.lnot _)), Z.land_assoc by lia.
  rewrite (Z.land_ones a) by lia. rewrite (Z.mod_small a) by lia.
  rewrite <- Z.ldiff_land, Z.ldiff_ones_r, Z.shiftl_mul_pow2, Z.shiftr_div_pow2 by lia.
  reflexivity.
Qed.

Lemma land_ones_mod k a : 0 <= k -> Z.land a (Z.ones k) = a mod 2 ^ k.
Proof. intros. by apply Z.land_ones. Qed.

(** ** Lists read with a default *)

Lemma nth_insert {A} (l : list A) i j (v d : A) :
  (i < length l)%nat ->
  nth j (<[i := v]> l) d = if decide (i = j) then v else nth j l d.
Proof.
  intros Hi. rewrite !nth_lookup. case_decide.
  - subst. by rewrite list_lookup_insert_eq.
  - by rewrite list_lookup_insert_ne.
Qed.

Lemma nth_drop {A} (l : list A) n i (d : A) : nth i (drop n l) d = nth (n + i) l d.
Proof. rewrite !nth_lookup, lookup_drop. reflexivity. Qed.

Lemma nth_take_lt {A} (l : list A) n i (d : A) : (i < n)%nat -> nth i (take n l) d = nth i l d.
Proof. intros. rewrite !nth_lookup, lookup_take_lt by lia. reflexivity. Qed.

(** Consecutive integers. *)
Fixpoint seqZ_from (off : Z) (n : nat) : list Z :=
  match n with O => [] | S n => off :: seqZ_from (off + 1) n end.

Lemma length_seqZ_from off n : length (seqZ_from off n) = n.
Proof. revert off. induction n; intros; cbn; auto. Qed.

Lemma nth_map_seqZ (f : Z -> Z) off n i d :
  (i < n)%nat -> nth i (map f (seqZ_from off n)) d = f (off + Z.of_nat i).
Proof.
  revert off i. induction n; intros off i Hi; [lia |].
  destruct i; cbn [seqZ_from map nth]; [f_equal; lia |].
  rewrite IHn by lia. f_equal. lia.
Qed.

(** A finite check on an initial segment. *)
Lemma forallb_seqZ (f : Z -> bool) n :
  forallb f (seqZ_from 0 n) = true -> forall i, 0 <= i < Z.of_nat n -> f i = true.
Proof.
  intros Hf i Hi. rewrite List.forallb_forall in Hf. apply Hf.
  assert (forall k off, off <= i < off + Z.of_nat k -> In i (seqZ_from off k)) as Hin.
  { induction k as [| k IH]; intros off Ho; [lia |]. cbn.
    destruct (Z.eq_dec off i); [by left | right; apply IH; lia]. }
  apply Hin. lia.
Qed.
