(* ===== verification/Events.v ===== *)
(** * Events: what the firmware does to the world outside [src/]

    The registers it loads and stores, the calls it makes into the Pico SDK,
    TinyUSB, lwIP, the CYW43 driver and the Jacdac/DeviceScript runtime.
    None of that code is part of the repository, so a call is an event with
    its arguments; what it returns is chosen by the environment
    ([Machine.Env]).  SDK builder functions that only fill in a configuration
    structure are the constructors of a term type: the configuration a call
    receives is the term that built it. *)

From S2P Require Import Prelude.

(** ** Function pointers *)

(** [cb_t]: a parameterless callback.  The firmware itself only installs
    [jd_line_falling]; every other one belongs to a client. *)
Inductive cb_t :=
| cb_jd_line_falling
| cb_client (id : Z).

(** [cb_arg_t]: the DMA completion handlers of the firmware. *)
Inductive cb_arg_t :=
| uart_rx_handler
| uart_tx_handler
| spi_dma_cb_handler
| uart_log_tx_handler.

#[export] Instance cb_t_eq_dec : EqDecision cb_t.
Proof. solve_decision. Defined.
#[export] Instance cb_arg_t_eq_dec : EqDecision cb_arg_t.
Proof. solve_decision. Defined.

(** ** Memory-mapped registers *)

Inductive reg :=
| TIMER_INTR | TIMER_INTE | TIMER_ALARM (n : Z) | TIMERAWL | TIMERAWH
| DMA_INTS0 | DMA_INTE0 | DMA_ABORT
| PIO_FDEBUG (pio : Z) | PIO_IRQ (pio : Z) | PIO_SM_PINCTRL (pio sm : Z)
| NVIC_ICPR | NVIC_ISER | NVIC_ICER | NVIC_IPR (n : Z)
| SIO_GPIO_IN | SIO_GPIO_OE | SIO_GPIO_OE_SET | SIO_GPIO_OE_CLR | SIO_GPIO_CLR
| IO_CTRL (gpio : Z) | IO_INTR (n : Z)
| IO_PROC0_INTE (n : Z) | IO_PROC0_INTS (n : Z)
| PADS_IO (gpio : Z)
| ROSC_RANDOMBIT | SCB_ICSR.

#[export] Instance reg_eq_dec : EqDecision reg.
Proof. solve_decision. Defined.

(** ** Addresses handed to DMA and to libraries *)

Inductive addr :=
| NULL
| mem (p : Z)                        (* a buffer in RAM *)
| pio_rxf_byte (pio sm off : Z)      (* (uint8_t * ) &pio->rxf[sm] + off *)
| pio_txf (pio sm : Z)               (* &pio->txf[sm] *)
| spi_dr (inst : Z)                  (* &spi_get_hw(inst)->dr *)
| uart_dr (inst : Z).                (* &uart_get_hw(inst)->dr *)

#[export] Instance addr_eq_dec : EqDecision addr.
Proof. solve_decision. Defined.

(** ** Configuration terms *)

Inductive pwm_config :=
| pwm_get_default_config
| pwm_config_set_clkdiv_int (c : pwm_config) (div : Z)
| pwm_config_set_wrap (c : pwm_config) (wrap : Z).

Inductive dreq :=
| DREQ_PIO0_RX (sm : Z)
| pio_get_dreq (pio sm : Z) (is_tx : bool)
| spi_get_dreq (inst : Z) (is_tx : bool)
| uart_get_dreq (inst : Z) (is_tx : bool).

Inductive dma_size := DMA_SIZE_8 | DMA_SIZE_16 | DMA_SIZE_32.

Inductive dma_channel_config :=
| dma_channel_get_default_config (ch : Z)
| channel_config_set_bswap (c : dma_channel_config) (b : bool)
| channel_config_set_read_increment (c : dma_channel_config) (b : bool)
| channel_config_set_write_increment (c : dma_channel_config) (b : bool)
| channel_config_set_transfer_data_size (c : dma_channel_config) (sz : dma_size)
| channel_config_set_dreq (c : dma_channel_config) (d : dreq).

Inductive pio_fifo_join := PIO_FIFO_JOIN_NONE | PIO_FIFO_JOIN_TX | PIO_FIFO_JOIN_RX.

(** The two PIO programs of [sws.pio]. *)
Inductive pio_program := jd_tx_program | jd_rx_program.

(** [sm_config_set_clkdiv] takes a [float]; the term keeps the operands of
    the division the code performs. *)
Inductive pio_sm_config :=
| pio_get_default_sm_config
| jd_tx_program_get_default_config (offset : Z)
| jd_rx_program_get_default_config (offset : Z)
| sm_config_set_out_shift (c : pio_sm_config) (shift_right autopull : bool) (threshold : Z)
| sm_config_set_in_shift (c : pio_sm_config) (shift_right autopush : bool) (threshold : Z)
| sm_config_set_out_pins (c : pio_sm_config) (base count : Z)
| sm_config_set_in_pins (c : pio_sm_config) (base : Z)
| sm_config_set_jmp_pin (c : pio_sm_config) (pin : Z)
| sm_config_set_sideset_pins (c : pio_sm_config) (base : Z)
| sm_config_set_fifo_join (c : pio_sm_config) (j : pio_fifo_join)
| sm_config_set_clkdiv (c : pio_sm_config) (num den : Z).

Inductive pio_dest := pio_pins | pio_pindirs.

Inductive pio_instr :=
| pio_encode_set (d : pio_dest) (v : Z)
| pio_encode_jmp (a : Z).

Inductive clock_index := clk_sys.

(** ** The access points of a scan

    [jd_wifi_results_t], and what the driver reports
    ([cyw43_ev_scan_result_t]). *)

Record wifi_result := mkWifiResult {
  wr_flags : Z; wr_rssi : Z; wr_channel : Z; wr_ssid : list Z; wr_bssid : list Z
}.

Record scan_ev := mkScanEv {
  ev_ssid_len : Z; ev_ssid : list Z; ev_bssid : list Z; ev_rssi : Z; ev_channel : Z; ev_auth_mode : Z
}.

(** What a socket tells the runtime ([JD_CONN_EV_...]). *)
Inductive conn_ev := JD_CONN_EV_OPEN | JD_CONN_EV_MESSAGE | JD_CONN_EV_CLOSE | JD_CONN_EV_ERROR.

(** ** Calls *)

Inductive call :=
(* hardware_gpio, hardware_pwm *)
| gpio_put (pin v : Z)
| gpio_get (pin : Z)
| gpio_set_dir (pin out : Z)
| gpio_set_function (pin fn : Z)
| gpio_set_irq_enabled (pin events : Z) (enabled : bool)
| gpio_acknowledge_irq (pin events : Z)
| gpio_pull_up (pin : Z)
| hw_set_bits (r : reg) (mask : Z)
| hw_clear_bits (r : reg) (mask : Z)
| hw_write_masked (r : reg) (values mask : Z)
| pwm_gpio_to_slice_num (pin : Z)
| pwm_init (slice : Z) (c : pwm_config) (start : bool)
| pwm_set_gpio_level (pin level : Z)
(* hardware_pio *)
| pio_add_program (pio : Z) (p : pio_program)
| pio_sm_exec (pio sm : Z) (i : pio_instr)
| pio_sm_set_enabled (pio sm : Z) (enabled : bool)
| pio_sm_set_config (pio sm : Z) (c : pio_sm_config)
| pio_sm_clear_fifos (pio sm : Z)
| pio_sm_restart (pio sm : Z)
| pio_sm_clkdiv_restart (pio sm : Z)
| pio_set_irq0_source_enabled (pio src : Z) (enabled : bool)
(* hardware_dma *)
| dma_claim_unused_channel (required : bool)
| dma_channel_configure (ch : Z) (c : dma_channel_config) (write_addr read_addr : addr)
    (count : Z) (trigger : bool)
| dma_channel_set_irq0_enabled (ch : Z) (enabled : bool)
| dma_channel_transfer_from_buffer_now (ch : Z) (src : addr) (count : Z)
| dma_channel_transfer_to_buffer_now (ch : Z) (dst : addr) (count : Z)
| dma_channel_set_read_addr (ch : Z) (a : addr) (trigger : bool)
| dma_channel_set_write_addr (ch : Z) (a : addr) (trigger : bool)
| dma_channel_set_trans_count (ch count : Z) (trigger : bool)
| dma_start_channel_mask (mask : Z)
(* hardware_timer, hardware_irq, hardware_clocks *)
| hardware_alarm_claim (n : Z)
| irq_set_exclusive_handler (irq : Z)
| irq_clear (irq : Z)
| irq_is_enabled (irq : Z)
| clock_get_hz (c : clock_index)
(* hardware_flash *)
| flash_range_program (off : Z) (data : list Z) (count : Z)
| flash_range_erase (off count : Z)
(* hardware_spi, hardware_i2c, hardware_adc, hardware_uart, pico_stdio *)
| spi_init (inst hz : Z)
| spi_set_format (inst bits cpol cpha : Z)
| i2c_init (inst baud : Z)
| i2c_read_blocking (inst dev : Z) (dst : addr) (len : Z) (nostop : bool)
| i2c_write_blocking (inst dev : Z) (src : addr) (len : Z) (nostop : bool)
| adc_init
| adc_select_input (ch : Z)
| adc_read
| adc_set_temp_sensor_enabled (b : bool)
| uart_init (inst baud : Z)
| stdio_set_driver_enabled (b : bool)
(* core and boot ROM, C library *)
| NVIC_SystemReset
| reset_usb_boot (a b : Z)
| pico_get_unique_board_id
| calloc (n size : Z)
| free (p : addr)
(* TinyUSB *)
| tusb_init
| tud_task
| tud_cdc_available
| tud_cdc_read (count : Z)
| tud_cdc_connected
| tud_cdc_n_write_available (itf : Z)
| tud_cdc_n_write (itf : Z) (data : list Z)
| tud_cdc_n_write_flush (itf : Z)
| tud_hid_n_ready (itf : Z)
| tud_hid_n_keyboard_report (itf id modifier : Z) (keycode : list Z)
| tud_hid_n_mouse_report (itf id buttons x y wheel pan : Z)
| tud_hid_n_report (itf id : Z) (report : list Z)
(* Jacdac and DeviceScript runtime *)
| DMESG (msg : string) (args : list Z)
| jd_dmesg_write (data : list Z)
| jd_dmesg_read (max ptr : Z)
| jd_dmesg_next (max ptr : Z)        (* what [jd_dmesg_read] stores through its pointer *)
| dcfg_get_pin (key : string)
| dcfg_get_i32 (key : string) (default : Z)
| dcfg_get_u32 (key : string) (default : Z)
| jd_hash_fnv1a (data : list Z)
| jd_seed_random (r : Z)
| jd_usb_push (data : list Z)
| jd_usb_pull
| jd_device_id
| jd_to_hex (v : Z) (n : Z)
| jd_init
| jd_process_everything
| jd_set_max_sleep (us : Z)
| jd_rx_has_frame
| devs_service_full_init
| jd_scan_all
| jd_strdup (p : addr)
| jd_vsprintf_a (fmt : string) (args : list Z)
| strlen (p : addr)
| jd_tcpsock_on_event (ev : conn_ev) (data : addr) (size : Z)
| jd_wifi_scan_done_cb (res : option (Z * list wifi_result)) (num : Z)
| jd_wifi_got_ip_cb (ip : Z)
| jd_wifi_lost_ip_cb
(* cyw43 driver *)
| cyw43_init
| cyw43_poll_ptr                     (* the function pointer [cyw43_poll] itself *)
| cyw43_poll
| cyw43_wifi_scan_active
| cyw43_wifi_scan
| cyw43_arch_wifi_connect_async (ssid : addr) (pw : option (list Z)) (auth : Z)
| cyw43_wifi_leave (itf : Z)
| cyw43_tcpip_link_status (itf : Z)
| cyw43_arch_enable_sta_mode
| cyw43_arch_gpio_put (pin : Z) (on : bool)
| cyw43_state_mac                    (* the field [cyw43_state.mac] *)
| cyw43_state_ip_addr (itf : Z)      (* the field [cyw43_state.netif[itf].ip_addr.addr] *)
| get_core_num
| get_current_exception
(* lwIP *)
| lwip_init
| sys_check_timeouts
| ip_get_type (ip : Z)
| dns_gethostbyname (host : addr)
| dns_result (host : addr)           (* the address a successful lookup stored *)
| tcp_new_ip_type (ty : Z)
| tcp_arg (pcb : Z) (arg : bool)        (* true: [&sock_state] *)
| tcp_poll (pcb : Z) (cb : bool) (interval : Z)
| tcp_sent (pcb : Z) (cb : bool)
| tcp_recv (pcb : Z) (cb : bool)
| tcp_err (pcb : Z) (cb : bool)
| tcp_connect (pcb ip port : Z)
| tcp_close (pcb : Z)
| tcp_abort (pcb : Z)
| tcp_write (pcb : Z) (buf : addr) (size flags : Z)
| tcp_output (pcb : Z)
| tcp_recved (pcb len : Z)
| pbuf_free (p : addr).

(** ** The trace of a run, newest event first *)

Inductive event :=
| E_read (r : reg) (v : Z)              (* a volatile load and what it returned *)
| E_write (r : reg) (v : Z)             (* a volatile store *)
| E_call (c : call)                     (* a call whose result, if any, is unused *)
| E_ret (c : call) (v : Z)              (* a call and the integer it returned *)
| E_bytes (c : call) (bs : list Z)      (* a call and the buffer it filled *)
| E_cpsid | E_cpsie | E_wfe.            (* the assembly instructions *)

Definition trace := list event.
