(* ===== verification/Machine.v ===== *)
(** * Machine: the static state of the firmware and the monad its code runs in

    One [Record] per translation unit holds that unit's static variables; the
    [machine] is their product with the PRIMASK bit and the trace.  A C static
    is a [var]: a lens into the machine, read with [get] and assigned with
    [x <~ v], so that a definition reads like the function it translates.

    A computation returns a value and the next machine, or stops: a failed
    [JD_ASSERT], an access the C standard leaves undefined, a reset, or a
    polling loop that ran out of the fuel the environment grants it. *)

From S2P Require Import Prelude Events.

(** ** Structures of the statics *)

(** [DMAHandler]; the context is the [cb_t] the SPI driver passes, or NULL. *)
Record DMAHandler := mkDMAHandler {
  context : option cb_t;
  handler : option cb_arg_t
}.

(** [jd_hid_keyboard_report_t] and [jd_hid_mouse_report_t]. *)
Record kbd_report_t := mkKbd { modifier : Z; keycode : list Z }.
Record mouse_report_t := mkMouse {
  buttons : Z; mouse_x : Z; mouse_y : Z; wheel : Z; pan : Z
}.

(** ** Static variables, one record per translation unit *)

(** [platform.c] *)
Record platform_st := {
  f_device_id : Z;                          (* uint64_t *)
  f_irq_disabled : Z;                       (* int8_t *)
  f_cpu_mhz : Z;                            (* uint8_t *)
  f_is_pico_w : bool;
  f_use_pico_led : Z                        (* uint8_t *)
}.

(** [tim.c] *)
Record tim_st := {
  f_timer_cb : option cb_t;
  f_int2 : Z;                               (* uint32_t *)
  f_last_delay : Z;                         (* uint32_t *)
  f_last_delay_now : Z                      (* uint32_t *)
}.

(** [flash.c] *)
Record flash_st := {
  f_last_page_addr : Z;                     (* uint32_t *)
  f_flash_page_buf : list Z                 (* uint8_t[256] *)
}.

(** [pins.c] *)
Record pins_st := {
  f_exti_cb : list (option cb_t);           (* cb_t[30] *)
  f_exti_ev : list Z                        (* uint8_t[30] *)
}.

(** [dma.c] *)
Record dma_st := {
  f_dmaHandler : list DMAHandler            (* DMAHandler[12] *)
}.

(** [uart.c] *)
Record uart_st := {
  f_dmachTx : Z;                            (* int *)
  f_dmachRx : Z;                            (* int *)
  f_txprog : Z;                             (* uint *)
  f_rxprog : Z;                             (* uint *)
  f_smtx : Z;                               (* uint8_t *)
  f_smrx : Z;                               (* uint8_t *)
  f_uart_status : Z;                        (* uint16_t *)
  f_jacdac_pin : Z                          (* uint8_t *)
}.

(** [spi.c] *)
Record spi_st := {
  f_spi_in_use : bool;
  f_dma_claimed : bool;                     (* uint8_t used as a flag *)
  f_dma_tx : Z;                             (* uint8_t *)
  f_dma_rx : Z;                             (* uint8_t *)
  f_spi : option Z;                         (* spi_inst_t * *)
  f_spi_done_cb : option cb_t
}.

(** [i2c.c] *)
Record i2c_st := {
  f_i2c_inst : option Z                     (* i2c_inst_t * *)
}.

(** [adc.c] *)
Record adc_st := {
  f_adc_inited : bool
}.

(** [uart_log.c] *)
Record log_st := {
  f_log_dmachTx : Z;                        (* int *)
  f_in_tx : bool;
  f_prev_tx_pin : Z                         (* uint8_t *)
}.

(** [hid.c] *)
Record hid_st := {
  f_kbd_report : kbd_report_t;
  f_kbd_dirty : bool;
  f_mouse_report : mouse_report_t;
  f_mouse_dirty : bool;
  f_gamepad_report : list Z;                (* raw bytes *)
  f_gamepad_dirty : bool
}.

(** [usb_descriptors.c] *)
Record usbd_st := {
  f_serial_str : list Z;                    (* char[19] *)
  f_desc_str : list Z                       (* uint16_t[32] *)
}.

(** [lwip_sock.c] *)
Record sock_st := {
  f_ipaddr : Z;                             (* ip_addr_t *)
  f_hostname : option Z;                    (* char * *)
  f_tcp_pcb : option Z;                     (* struct tcp_pcb * *)
  f_port_num : Z;                           (* uint16_t *)
  f_host_found_pending : bool;              (* one bit *)
  f_connected : bool;                       (* one bit *)
  f_connecting : bool                       (* one bit *)
}.

(** [wifi_impl.c, cyw43_fixes.c] *)
Record wifi_st := {
  f_scan_res : option (Z * list wifi_result);  (* jd_wifi_results_t *: address, block *)
  f_scan_ptr : Z;                           (* uint16_t *)
  f_scan_size : Z;                          (* uint16_t *)
  f_inited : bool;
  f_in_scan : bool;
  f_prev_status : Z;                        (* int, static in jd_wifi_process *)
  f_is_on : bool;                           (* static in pico_w_set_led *)
  f_cyw43_core_num : Z                      (* uint8_t *)
}.

(** [main.c] *)
Record main_st := {
  f_dmesg_ptr : Z                           (* uint32_t, static in dmesg_to_stdout *)
}.


(** ** The machine *)

Record machine := {
  tr : trace;
  primask : bool;                           (* true: interrupts are masked *)
  m_platform : platform_st;
  m_tim : tim_st;
  m_flash : flash_st;
  m_pins : pins_st;
  m_dma : dma_st;
  m_uart : uart_st;
  m_spi : spi_st;
  m_i2c : i2c_st;
  m_adc : adc_st;
  m_log : log_st;
  m_hid : hid_st;
  m_usbd : usbd_st;
  m_sock : sock_st;
  m_wifi : wifi_st;
  m_main : main_st
}.

(** The zeroed [.bss] and the initialisers of [.data]. *)
Definition machine_init : machine := {|
  tr := []; primask := false;
  m_platform := {| f_device_id := 0; f_irq_disabled := 0; f_cpu_mhz := 0; f_is_pico_w := false; f_use_pico_led := 0 |};
  m_tim := {| f_timer_cb := None; f_int2 := 0; f_last_delay := 0; f_last_delay_now := 0 |};
  m_flash := {| f_last_page_addr := 0; f_flash_page_buf := replicate 256 0 |};
  m_pins := {| f_exti_cb := replicate 30 None; f_exti_ev := replicate 30 0 |};
  m_dma := {| f_dmaHandler := replicate 12 (mkDMAHandler None None) |};
  m_uart := {| f_dmachTx := -1; f_dmachRx := -1; f_txprog := 0; f_rxprog := 0; f_smtx := 0; f_smrx := 1; f_uart_status := 0; f_jacdac_pin := 0 |};
  m_spi := {| f_spi_in_use := false; f_dma_claimed := false; f_dma_tx := 0; f_dma_rx := 0; f_spi := None; f_spi_done_cb := None |};
  m_i2c := {| f_i2c_inst := None |};
  m_adc := {| f_adc_inited := false |};
  m_log := {| f_log_dmachTx := -1; f_in_tx := false; f_prev_tx_pin := 0 |};
  m_hid := {| f_kbd_report := mkKbd 0 (replicate 6 0); f_kbd_dirty := false; f_mouse_report := mkMouse 0 0 0 0 0; f_mouse_dirty := false; f_gamepad_report := replicate 8 0; f_gamepad_dirty := false |};
  m_usbd := {| f_serial_str := replicate 19 0; f_desc_str := replicate 32 0 |};
  m_sock := {| f_ipaddr := 0; f_hostname := None; f_tcp_pcb := None; f_port_num := 0; f_host_found_pending := false; f_connected := false; f_connecting := false |};
  m_wifi := {| f_scan_res := None; f_scan_ptr := 0; f_scan_size := 0; f_inited := false; f_in_scan := false; f_prev_status := -1000; f_is_on := false; f_cyw43_core_num := 0 |};
  m_main := {| f_dmesg_ptr := 0 |}
|}.

(** Record update, one function per field. *)

Definition upd_tr (f : trace -> trace) (s : machine) : machine := {|
  tr := f (tr s); primask := primask s; m_platform := m_platform s; m_tim := m_tim s;
  m_flash := m_flash s; m_pins := m_pins s; m_dma := m_dma s; m_uart := m_uart s;
  m_spi := m_spi s; m_i2c := m_i2c s; m_adc := m_adc s; m_log := m_log s; m_hid := m_hid s;
  m_usbd := m_usbd s; m_sock := m_sock s; m_wifi := m_wifi s; m_main := m_main s |}.
Definition set_primask (b : bool) (s : machine) : machine := {|
  tr := tr s; primask := b; m_platform := m_platform s; m_tim := m_tim s;
  m_flash := m_flash s; m_pins := m_pins s; m_dma := m_dma s; m_uart := m_uart s;
  m_spi := m_spi s; m_i2c := m_i2c s; m_adc := m_adc s; m_log := m_log s; m_hid := m_hid s;
  m_usbd := m_usbd s; m_sock := m_sock s; m_wifi := m_wifi s; m_main := m_main s |}.
Definition upd_platform (f : platform_st -> platform_st) (s : machine) : machine := {|
  tr := tr s; primask := primask s; m_platform := f (m_platform s); m_tim := m_tim s;
  m_flash := m_flash s; m_pins := m_pins s; m_dma := m_dma s; m_uart := m_uart s;
  m_spi := m_spi s; m_i2c := m_i2c s; m_adc := m_adc s; m_log := m_log s; m_hid := m_hid s;
  m_usbd := m_usbd s; m_sock := m_sock s; m_wifi := m_wifi s; m_main := m_main s |}.
Definition upd_tim (f : tim_st -> tim_st) (s : machine) : machine := {|
  tr := tr s; primask := primask s; m_platform := m_platform s; m_tim := f (m_tim s);
  m_flash := m_flash s; m_pins := m_pins s; m_dma := m_dma s; m_uart := m_uart s;
  m_spi := m_spi s; m_i2c := m_i2c s; m_adc := m_adc s; m_log := m_log s; m_hid := m_hid s;
  m_usbd := m_usbd s; m_sock := m_sock s; m_wifi := m_wifi s; m_main := m_main s |}.
Definition upd_flash (f : flash_st -> flash_st) (s : machine) : machine := {|
  tr := tr s; primask := primask s; m_platform := m_platform s; m_tim := m_tim s;
  m_flash := f (m_flash s); m_pins := m_pins s; m_dma := m_dma s; m_uart := m_uart s;
  m_spi := m_spi s; m_i2c := m_i2c s; m_adc := m_adc s; m_log := m_log s; m_hid := m_hid s;
  m_usbd := m_usbd s; m_sock := m_sock s; m_wifi := m_wifi s; m_main := m_main s |}.
Definition upd_pins (f : pins_st -> pins_st) (s : machine) : machine := {|
  tr := tr s; primask := primask s; m_platform := m_platform s; m_tim := m_tim s;
  m_flash := m_flash s; m_pins := f (m_pins s); m_dma := m_dma s; m_uart := m_uart s;
  m_spi := m_spi s; m_i2c := m_i2c s; m_adc := m_adc s; m_log := m_log s; m_hid := m_hid s;
  m_usbd := m_usbd s; m_sock := m_sock s; m_wifi := m_wifi s; m_main := m_main s |}.
Definition upd_dma (f : dma_st -> dma_st) (s : machine) : machine := {|
  tr := tr s; primask := primask s; m_platform := m_platform s; m_tim := m_tim s;
  m_flash := m_flash s; m_pins := m_pins s; m_dma := f (m_dma s); m_uart := m_uart s;
  m_spi := m_spi s; m_i2c := m_i2c s; m_adc := m_adc s; m_log := m_log s; m_hid := m_hid s;
  m_usbd := m_usbd s; m_sock := m_sock s; m_wifi := m_wifi s; m_main := m_main s |}.
Definition upd_uart (f : uart_st -> uart_st) (s : machine) : machine := {|
  tr := tr s; primask := primask s; m_platform := m_platform s; m_tim := m_tim s;
  m_flash := m_flash s; m_pins := m_pins s; m_dma := m_dma s; m_uart := f (m_uart s);
  m_spi := m_spi s; m_i2c := m_i2c s; m_adc := m_adc s; m_log := m_log s; m_hid := m_hid s;
  m_usbd := m_usbd s; m_sock := m_sock s; m_wifi := m_wifi s; m_main := m_main s |}.
Definition upd_spi (f : spi_st -> spi_st) (s : machine) : machine := {|
  tr := tr s; primask := primask s; m_platform := m_platform s; m_tim := m_tim s;
  m_flash := m_flash s; m_pins := m_pins s; m_dma := m_dma s; m_uart := m_uart s;
  m_spi := f (m_spi s); m_i2c := m_i2c s; m_adc := m_adc s; m_log := m_log s;
  m_hid := m_hid s; m_usbd := m_usbd s; m_sock := m_sock s; m_wifi := m_wifi s;
  m_main := m_main s |}.
Definition upd_i2c (f : i2c_st -> i2c_st) (s : machine) : machine := {|
  tr := tr s; primask := primask s; m_platform := m_platform s; m_tim := m_tim s;
  m_flash := m_flash s; m_pins := m_pins s; m_dma := m_dma s; m_uart := m_uart s;
  m_spi := m_spi s; m_i2c := f (m_i2c s); m_adc := m_adc s; m_log := m_log s;
  m_hid := m_hid s; m_usbd := m_usbd s; m_sock := m_sock s; m_wifi := m_wifi s;
  m_main := m_main s |}.
Definition upd_adc (f : adc_st -> adc_st) (s : machine) : machine := {|
  tr := tr s; primask := primask s; m_platform := m_platform s; m_tim := m_tim s;
  m_flash := m_flash s; m_pins := m_pins s; m_dma := m_dma s; m_uart := m_uart s;
  m_spi := m_spi s; m_i2c := m_i2c s; m_adc := f (m_adc s); m_log := m_log s;
  m_hid := m_hid s; m_usbd := m_usbd s; m_sock := m_sock s; m_wifi := m_wifi s;
  m_main := m_main s |}.
Definition upd_log (f : log_st -> log_st) (s : machine) : machine := {|
  tr := tr s; primask := primask s; m_platform := m_platform s; m_tim := m_tim s;
  m_flash := m_flash s; m_pins := m_pins s; m_dma := m_dma s; m_uart := m_uart s;
  m_spi := m_spi s; m_i2c := m_i2c s; m_adc := m_adc s; m_log := f (m_log s);
  m_hid := m_hid s; m_usbd := m_usbd s; m_sock := m_sock s; m_wifi := m_wifi s;
  m_main := m_main s |}.
Definition upd_hid (f : hid_st -> hid_st) (s : machine) : machine := {|
  tr := tr s; primask := primask s; m_platform := m_platform s; m_tim := m_tim s;
  m_flash := m_flash s; m_pins := m_pins s; m_dma := m_dma s; m_uart := m_uart s;
  m_spi := m_spi s; m_i2c := m_i2c s; m_adc := m_adc s; m_log := m_log s;
  m_hid := f (m_hid s); m_usbd := m_usbd s; m_sock := m_sock s; m_wifi := m_wifi s;
  m_main := m_main s |}.
Definition upd_usbd (f : usbd_st -> usbd_st) (s : machine) : machine := {|
  tr := tr s; primask := primask s; m_platform := m_platform s; m_tim := m_tim s;
  m_flash := m_flash s; m_pins := m_pins s; m_dma := m_dma s; m_uart := m_uart s;
  m_spi := m_spi s; m_i2c := m_i2c s; m_adc := m_adc s; m_log := m_log s; m_hid := m_hid s;
  m_usbd := f (m_usbd s); m_sock := m_sock s; m_wifi := m_wifi s; m_main := m_main s |}.
Definition upd_sock (f : sock_st -> sock_st) (s : machine) : machine := {|
  tr := tr s; primask := primask s; m_platform := m_platform s; m_tim := m_tim s;
  m_flash := m_flash s; m_pins := m_pins s; m_dma := m_dma s; m_uart := m_uart s;
  m_spi := m_spi s; m_i2c := m_i2c s; m_adc := m_adc s; m_log := m_log s; m_hid := m_hid s;
  m_usbd := m_usbd s; m_sock := f (m_sock s); m_wifi := m_wifi s; m_main := m_main s |}.
Definition upd_wifi (f : wifi_st -> wifi_st) (s : machine) : machine := {|
  tr := tr s; primask := primask s; m_platform := m_platform s; m_tim := m_tim s;
  m_flash := m_flash s; m_pins := m_pins s; m_dma := m_dma s; m_uart := m_uart s;
  m_spi := m_spi s; m_i2c := m_i2c s; m_adc := m_adc s; m_log := m_log s; m_hid := m_hid s;
  m_usbd := m_usbd s; m_sock := m_sock s; m_wifi := f (m_wifi s); m_main := m_main s |}.
Definition upd_main (f : main_st -> main_st) (s : machine) : machine := {|
  tr := tr s; primask := primask s; m_platform := m_platform s; m_tim := m_tim s;
  m_flash := m_flash s; m_pins := m_pins s; m_dma := m_dma s; m_uart := m_uart s;
  m_spi := m_spi s; m_i2c := m_i2c s; m_adc := m_adc s; m_log := m_log s; m_hid := m_hid s;
  m_usbd := m_usbd s; m_sock := m_sock s; m_wifi := m_wifi s; m_main := f (m_main s) |}.

(** ** Variables *)

Record var (A : Type) := mkVar { rd : machine -> A; wr : A -> machine -> machine }.
Arguments mkVar {A}.
Arguments rd {A}.
Arguments wr {A}.

(** ** Computations *)

Inductive stop := Panic | UB | NoFuel | Reset.

Inductive res (A : Type) :=
| Ret (a : A) (s : machine)
| Stop (why : stop) (s : machine).
Arguments Ret {A}.
Arguments Stop {A}.

Definition M (A : Type) := machine -> res A.

Definition ret {A} (a : A) : M A := fun s => Ret a s.
Definition halt {A} (why : stop) : M A := fun s => Stop why s.
Definition bind {A B} (m : M A) (k : A -> M B) : M B := fun s =>
  match m s with Ret a s' => k a s' | Stop w s' => Stop w s' end.

Declare Scope c_scope.
Delimit Scope c_scope with c.
Notation "'let!' x := m 'in' k" := (bind m (fun x => k))
  (at level 10, x name, m at level 99, k at level 200) : c_scope.
Notation "m ;; k" := (bind m (fun _ => k))
  (at level 100, k at level 200, right associativity) : c_scope.
Notation "'when' b 'do' m" := (if b then m else ret tt)
  (at level 99, b at level 99, m at level 99) : c_scope.
#[global] Open Scope c_scope.

Definition get {A} (x : var A) : M A := fun s => Ret (rd x s) s.
Definition put {A} (x : var A) (v : A) : M unit := fun s => Ret tt (wr x v s).
Notation "x <~ v" := (put x v) (at level 95, no associativity) : c_scope.

(** [JD_ASSERT] panics when its condition does not hold. *)
Definition JD_ASSERT (b : bool) : M unit := if b then ret tt else halt Panic.

(** Accesses to a C array: outside its bounds the behaviour is undefined. *)
Definition nth_Z {A} (l : list A) (i : Z) : option A :=
  if i <? 0 then None else l !! Z.to_nat i.
Definition index {A} (l : list A) (i : Z) : M A :=
  match nth_Z l i with Some a => ret a | None => halt UB end.
Definition store {A} (x : var (list A)) (i : Z) (v : A) : M unit :=
  let! l := get x in
  match nth_Z l i with
  | Some _ => x <~ <[Z.to_nat i := v]> l
  | None => halt UB
  end.

(** [memcpy(l + off, bs, n)] for all [n] bytes of [bs]. *)
Definition write_at {A} (l : list A) (off : nat) (bs : list A) : M (list A) :=
  if (off + length bs <=? length l)%nat
  then ret (take off l ++ bs ++ drop (off + length bs) l) else halt UB.

(** The first [n] elements of [l]. *)
Definition read_at {A} (l : list A) (n : nat) : M (list A) :=
  if (n <=? length l)%nat then ret (take n l) else halt UB.

(** [1 << n] in C: undefined unless [0 <= n < 32]. *)
Definition c_shl1 (n : Z) : M Z :=
  if (0 <=? n) && (n <? 32) then ret (u32 (bit n)) else halt UB.

(** ** Loops *)

(** [for (i = from; i < from + n; i++) body(i)] *)
Fixpoint for_ (n : nat) (from : Z) (body : Z -> M unit) : M unit :=
  match n with
  | O => ret tt
  | S n => body from ;; for_ n (from + 1) body
  end.

(** [while (cond) body]; [cond] may have effects. *)
Fixpoint while_ (fuel : nat) (cond : M bool) (body : M unit) : M unit :=
  match fuel with
  | O => halt NoFuel
  | S n => let! b := cond in if b then body ;; while_ n cond body else ret tt
  end.

(** A loop that carries local variables and leaves by [break]. *)
Fixpoint loop {A B} (fuel : nat) (body : A -> M (A + B)) (a : A) : M B :=
  match fuel with
  | O => halt NoFuel
  | S n => let! r := body a in
           match r with inl a' => loop n body a' | inr b => ret b end
  end.

(** ** The environment

    What the world answers: each register load, call result, filled buffer
    and flash byte is some function of the history so far, so that two loads
    of one register may differ.  The functions of the Jacdac runtime that call
    back into the firmware are computations. *)
Class Env := {
  rd_reg : trace -> reg -> Z;
  ret_of : trace -> call -> Z;
  bytes_of : trace -> call -> list Z;
  xip : trace -> Z -> Z;
  fuel : nat;                           (* bound on the polls of one busy-wait *)
  JD_MIN_MAX_SLEEP : Z;                 (* of the Jacdac runtime *)
  jd_max_sleep : trace -> Z;
  jd_line_falling : M unit;
  jd_rx_completed : Z -> M unit;
  jd_tx_completed : Z -> M unit;
  client_cb : Z -> M unit;
  reenter : call -> M unit              (* what a call does by calling back *)
}.

Definition emit (e : event) (s : machine) : machine := upd_tr (cons e) s.

Section Effects.
Context `{E : Env}.

Definition log (e : event) : M unit := fun s => Ret tt (emit e s).

(** A volatile load and store. *)
Definition load (r : reg) : M Z := fun s =>
  let v := rd_reg (tr s) r in Ret v (emit (E_read r v) s).
Definition setreg (r : reg) (v : Z) : M unit := log (E_write r v).

(** A call whose result is not used, one that returns an integer, one that
    fills a buffer. *)
Definition sdk (c : call) : M unit := log (E_call c).
Definition sdkv (c : call) : M Z := fun s =>
  let v := ret_of (tr s) c in Ret v (emit (E_ret c v) s).
Definition sdkb (c : call) : M (list Z) := fun s =>
  let bs := bytes_of (tr s) c in Ret bs (emit (E_bytes c bs) s).

(** A call into code that may call back into the firmware before it returns. *)
Definition sdkr (c : call) : M unit := fun s => reenter c (emit (E_call c) s).

(** A byte of flash, read through the XIP window: ordinary memory, so the
    load leaves no event. *)
Definition xip_load (off : Z) : M Z := fun s => Ret (xip (tr s) off) s.

(** The interrupt mask. *)
Definition cpsid : M unit := fun s => Ret tt (set_primask true (emit E_cpsid s)).
Definition cpsie : M unit := fun s => Ret tt (set_primask false (emit E_cpsie s)).

(** Calling a [cb_t]. *)
Definition run_cb (f : cb_t) : M unit :=
  match f with
  | cb_jd_line_falling => jd_line_falling
  | cb_client id => client_cb id
  end.
End Effects.
Notation "r <-~ v" := (setreg r v) (at level 95, no associativity) : c_scope.

(** ** Weakest preconditions

    [wpE m Q X s]: from [s], [m] returns into [Q] or stops into [X].
    [wp m Q s]: it returns, into [Q]. *)

Definition wpE {A} (m : M A) (Q : A -> machine -> Prop)
    (X : stop -> machine -> Prop) (s : machine) : Prop :=
  match m s with Ret a s' => Q a s' | Stop w s' => X w s' end.
Definition wp {A} (m : M A) (Q : A -> machine -> Prop) : machine -> Prop :=
  wpE m Q (fun _ _ => False).

(** [keeps I m]: [m] returns only into states of [I] when started in one. *)
Definition keeps {A} (I : machine -> Prop) (m : M A) : Prop :=
  forall s, I s -> wpE m (fun _ s' => I s') (fun _ _ => True) s.

Lemma wpE_bind {A B} (m : M A) (k : A -> M B) Q X s :
  wpE (bind m k) Q X s <-> wpE m (fun a s' => wpE (k a) Q X s') X s.
Proof. unfold wpE, bind. destruct (m s); reflexivity. Qed.

Lemma wpE_mono {A} (m : M A) (Q Q' : A -> machine -> Prop) (X X' : stop -> machine -> Prop) s :
  wpE m Q X s -> (forall a s', Q a s' -> Q' a s') -> (forall w s', X w s' -> X' w s') ->
  wpE m Q' X' s.
Proof. unfold wpE. destruct (m s); auto. Qed.

Lemma wp_ret_inv {A} (m : M A) Q s :
  wp m Q s -> exists a s', m s = Ret a s' /\ Q a s'.
Proof. unfold wp, wpE. destruct (m s); [eauto | tauto]. Qed.

Lemma wpE_run {A} (m m' : M A) Q X s s' : m s = m' s' -> wpE m' Q X s' -> wpE m Q X s.
Proof. unfold wpE. by intros ->. Qed.

Lemma bind_ret {A B} (m : M A) (k : A -> M B) s a s' :
  m s = Ret a s' -> bind m k s = k a s'.
Proof. unfold bind. intros ->. reflexivity. Qed.

Lemma bind_stop {A B} (m : M A) (k : A -> M B) s w s' :
  m s = Stop w s' -> bind m k s = Stop w s'.
Proof. unfold bind. intros ->. reflexivity. Qed.

Lemma bind_assoc {A B C} (m : M A) (k : A -> M B) (h : B -> M C) s :
  bind (bind m k) h s = bind m (fun a => bind (k a) h) s.
Proof. unfold bind. by destruct (m s). Qed.

Lemma bind_get {A B} (x : var A) (k : A -> M B) s : (let! v := get x in k v) s = k (rd x s) s.
Proof. reflexivity. Qed.

Lemma bind_ext {A B} (m : M A) (k k' : A -> M B) s :
  (forall a s, k a s = k' a s) -> bind m k s = bind m k' s.
Proof. intros H. unfold bind. by destruct (m s). Qed.

Lemma bind_inv {A B} (m : M A) (k : A -> M B) s b s' :
  bind m k s = Ret b s' -> exists a s1, m s = Ret a s1 /\ k a s1 = Ret b s'.
Proof. unfold bind. destruct (m s); [eauto | discriminate]. Qed.

(** Array accesses inside the bounds. *)
Lemma nth_Z_some {A} (l : list A) i a :
  0 <= i -> l !! Z.to_nat i = Some a -> nth_Z l i = Some a.
Proof. intros Hi Ha. unfold nth_Z. by rewrite (proj2 (Z.ltb_ge i 0)) by lia. Qed.

Lemma index_run {A} (l : list A) i a s :
  0 <= i -> l !! Z.to_nat i = Some a -> index l i s = Ret a s.
Proof. intros Hi Ha. unfold index. by rewrite (nth_Z_some l i a). Qed.

Lemma store_run {A} (x : var (list A)) i v s :
  0 <= i < Z.of_nat (length (rd x s)) ->
  store x i v s = Ret tt (wr x (<[Z.to_nat i := v]> (rd x s)) s).
Proof.
  intros Hi. unfold store, bind, get.
  destruct (lookup_lt_is_Some_2 (rd x s) (Z.to_nat i)) as [a Ha]; [lia |].
  by rewrite (nth_Z_some _ _ a) by (lia || done).
Qed.

(** ... and outside them. *)
Lemma nth_Z_none {A} (l : list A) i :
  i < 0 \/ Z.of_nat (length l) <= i -> nth_Z l i = None.
Proof.
  intros Hi. unfold nth_Z. destruct (Z.ltb_spec i 0); [done |].
  apply lookup_ge_None_2. lia.
Qed.

Lemma index_ub {A} (l : list A) i s :
  i < 0 \/ Z.of_nat (length l) <= i -> index l i s = Stop UB s.
Proof. intros Hi. unfold index. by rewrite nth_Z_none. Qed.

Lemma store_ub {A} (x : var (list A)) i v s :
  i < 0 \/ Z.of_nat (length (rd x s)) <= i -> store x i v s = Stop UB s.
Proof. intros Hi. unfold store, bind, get. by rewrite nth_Z_none. Qed.

Section Keeps.
Context (I : machine -> Prop).

Lemma keeps_ret {A} (a : A) : keeps I (ret a).
Proof. intros s Hs. exact Hs. Qed.

Lemma keeps_halt {A} w : keeps I (@halt A w).
Proof. intros s Hs. exact Logic.I. Qed.

Lemma keeps_bind {A B} (m : M A) (k : A -> M B) :
  keeps I m -> (forall a, keeps I (k a)) -> keeps I (bind m k).
Proof.
  intros Hm Hk s Hs. apply wpE_bind.
  eapply wpE_mono; [exact (Hm s Hs) | | done]. intros a s' Hs'. exact (Hk a s' Hs').
Qed.

Lemma keeps_if {A} (b : bool) (m m' : M A) :
  keeps I m -> keeps I m' -> keeps I (if b then m else m').
Proof. destruct b; auto. Qed.

Lemma keeps_get {A} (x : var A) : keeps I (get x).
Proof. intros s Hs. exact Hs. Qed.

Lemma keeps_ret_inv {A} (m : M A) s a s' :
  keeps I m -> I s -> m s = Ret a s' -> I s'.
Proof. intros Hm Hs E. specialize (Hm s Hs). unfold wpE in Hm. by rewrite E in Hm. Qed.

Lemma keeps_for n from body :
  (forall i, keeps I (body i)) -> keeps I (for_ n from body).
Proof.
  intros Hb. revert from. induction n; intros; cbn [for_];
    [apply keeps_ret | apply keeps_bind; auto].
Qed.

Lemma keeps_while f cond body : keeps I cond -> keeps I body -> keeps I (while_ f cond body).
Proof.
  intros Hc Hb. induction f; cbn [while_]; [apply keeps_halt |].
  apply keeps_bind; [done | intros []; [by apply keeps_bind | apply keeps_ret]].
Qed.
End Keeps.

Create HintDb keeps.
#[export] Hint Resolve keeps_ret keeps_halt keeps_bind keeps_if keeps_get keeps_for keeps_while
  : keeps.

(** ** Reading a run

    [msimp] executes a computation as far as the machine is known, keeping the
    machine a composition of [wr], [emit] and [set_primask]; [vsimp] resolves
    the reads of such a composition.  Both only replace convertible terms. *)

Ltac vstep :=
  match goal with
  | |- context [rd ?x (wr ?x ?v ?s)] => change (rd x (wr x v s)) with v
  | |- context [rd ?x (wr ?y ?v ?s)] => change (rd x (wr y v s)) with (rd x s)
  | |- context [rd ?x (emit ?e ?s)] => change (rd x (emit e s)) with (rd x s)
  | |- context [rd ?x (set_primask ?b ?s)] => change (rd x (set_primask b s)) with (rd x s)
  | |- context [rd ?x (upd_tr ?f ?s)] => change (rd x (upd_tr f s)) with (rd x s)
  | |- context [tr (upd_tr ?f ?s)] => change (tr (upd_tr f s)) with (f (tr s))
  | |- context [primask (upd_tr ?f ?s)] => change (primask (upd_tr f s)) with (primask s)
  | |- context [tr (wr ?y ?v ?s)] => change (tr (wr y v s)) with (tr s)
  | |- context [tr (emit ?e ?s)] => change (tr (emit e s)) with (e :: tr s)
  | |- context [tr (set_primask ?b ?s)] => change (tr (set_primask b s)) with (tr s)
  | |- context [primask (wr ?y ?v ?s)] => change (primask (wr y v s)) with (primask s)
  | |- context [primask (emit ?e ?s)] => change (primask (emit e s)) with (primask s)
  | |- context [primask (set_primask ?b ?s)] => change (primask (set_primask b s)) with b
  end.
Ltac vsimp := repeat vstep.
Tactic Notation "vsimp" "in" hyp(H) := revert H; vsimp; intros H.

Ltac mexec :=
  cbv beta iota zeta delta [bind ret halt get put log load setreg sdk sdkv sdkb xip_load
                            cpsid cpsie JD_ASSERT].
Ltac msimp := mexec; vsimp.
