(* ===== verification/Frame.v ===== *)
(** * Frame: what an operation leaves alone

    A predicate on the machine that looks at a few variables and at a few kinds
    of event is kept by every operation that assigns only other variables and
    emits only other events.  [frame_step] proves such a [keeps] goal along the
    structure of the operation: a file that states the predicate supplies the
    class [Framed] and, for each assignment it meets, a one-line side condition. *)

From S2P Require Import Prelude Events Machine.

(** [other e]: [I] does not look at event [e]. *)
Class Framed (I : machine -> Prop) (other : event -> bool) : Prop := {
  framed_emit e s : other e = true -> I s -> I (emit e s);
  framed_primask b s : I s -> I (set_primask b s)
}.

Section Steps.
Context {E : Env} (I : machine -> Prop) (other : event -> bool) {F : Framed I other}.

Lemma frame_log e : other e = true -> keeps I (log e).
Proof. intros He s Hs. by apply framed_emit. Qed.
Lemma frame_load r : (forall v, other (E_read r v) = true) -> keeps I (load r).
Proof. intros He s Hs. by apply framed_emit. Qed.
Lemma frame_sdkv c : (forall v, other (E_ret c v) = true) -> keeps I (sdkv c).
Proof. intros He s Hs. by apply framed_emit. Qed.
Lemma frame_sdkb c : (forall v, other (E_bytes c v) = true) -> keeps I (sdkb c).
Proof. intros He s Hs. by apply framed_emit. Qed.
Lemma frame_sdkr c : other (E_call c) = true -> keeps I (reenter c) -> keeps I (sdkr c).
Proof. intros He Hc s Hs. apply Hc. by apply framed_emit. Qed.
Lemma frame_cpsid : other E_cpsid = true -> keeps I cpsid.
Proof. intros He s Hs. by apply framed_primask, framed_emit. Qed.
Lemma frame_cpsie : other E_cpsie = true -> keeps I cpsie.
Proof. intros He s Hs. by apply framed_primask, framed_emit. Qed.
End Steps.

Section Structure.
Context (I : machine -> Prop).

Lemma frame_put {A} (x : var A) v : (forall s, I s -> I (wr x v s)) -> keeps I (x <~ v).
Proof. intros H s Hs. exact (H s Hs). Qed.
Lemma frame_store {A} (x : var (list A)) i v : (forall v s, I s -> I (wr x v s)) -> keeps I (store x i v).
Proof.
  intros H. unfold store. apply keeps_bind; [apply keeps_get |]. intros l.
  destruct (nth_Z l i); [apply frame_put, H | apply keeps_halt].
Qed.
Lemma frame_index {A} (l : list A) i : keeps I (index l i).
Proof. unfold index. destruct (nth_Z l i); [apply keeps_ret | apply keeps_halt]. Qed.
Lemma frame_shl n : keeps I (c_shl1 n).
Proof. unfold c_shl1. apply keeps_if; [apply keeps_ret | apply keeps_halt]. Qed.
Lemma frame_loop {A B} f (body : A -> M (A + B)) a : (forall a, keeps I (body a)) -> keeps I (loop f body a).
Proof.
  intros Hb. revert a. induction f as [| f IH]; intros a; cbn [loop]; [apply keeps_halt |].
  apply keeps_bind; [apply Hb | intros []; [apply IH | apply keeps_ret]].
Qed.
End Structure.

Ltac frame_step :=
  cbv zeta;
  match goal with
  | |- keeps _ (bind _ _) => apply keeps_bind; [| intros ?]
  | |- keeps _ (ret _) => apply keeps_ret
  | |- keeps _ (halt _) => apply keeps_halt
  | |- keeps _ (get _) => apply keeps_get
  | |- keeps _ (if _ then _ else _) => apply keeps_if
  | |- keeps _ (match ?x with _ => _ end) => destruct x
  | |- keeps _ (load _) => eapply frame_load; [exact _ | reflexivity]
  | |- keeps _ (sdkv _) => eapply frame_sdkv; [exact _ | reflexivity]
  | |- keeps _ (sdkb _) => eapply frame_sdkb; [exact _ | reflexivity]
  | |- keeps _ (sdk _) => eapply frame_log; [exact _ | reflexivity]
  | |- keeps _ (setreg _ _) => eapply frame_log; [exact _ | reflexivity]
  | |- keeps _ (sdkr _) => eapply frame_sdkr; [exact _ | reflexivity |]
  | |- keeps _ cpsid => eapply frame_cpsid; [exact _ | reflexivity]
  | |- keeps _ cpsie => eapply frame_cpsie; [exact _ | reflexivity]
  | |- keeps _ (put _ _) => apply frame_put; intros ? Hkeep; exact Hkeep
  | |- keeps _ (store _ _ _) => apply frame_store; intros ? ? Hkeep; exact Hkeep
  | |- keeps _ (index _ _) => apply frame_index
  | |- keeps _ (c_shl1 _) => apply frame_shl
  | |- keeps _ (loop _ _ _) => apply frame_loop; intros ?
  | |- keeps _ (while_ _ _ _) => apply keeps_while
  | |- keeps _ (for_ _ _ _) => apply keeps_for; intros ?
  | |- keeps _ _ => solve [eauto with keeps]
  end.
Ltac frame := repeat frame_step.

(** Along the whole call tree. *)
Ltac frame_enter :=
  match goal with |- keeps _ ?m =>
    let rec hd t := match t with ?f _ => hd f | _ => t end in
    let h := hd m in
    lazymatch h with
    | @put => fail | @store => fail | @log => fail | @bind => fail
    | _ => unfold h
    end
  end.
Ltac frame_all := repeat first [frame_step | frame_enter].
