(* ===== verification/RefEnv.v ===== *)
(** * RefEnv: a reference environment

    A concrete world in which every hypothesis the development makes about the
    code and the hardware outside [src/] holds, so that the theorems can be
    evaluated: a flash chip and a register file folded over the trace, and a
    clock that advances by one microsecond with every event.  Nothing here
    models code of the repository. *)

From S2P Require Import Prelude Events Machine.

(** The chip starts erased. *)
Fixpoint ref_xip (t : trace) (a : Z) : Z :=
  match t with
  | [] => 255
  | e :: t =>
    match e with
    | E_call (flash_range_program off data n) =>
      if (off <=? a) && (a <? off + n)
      then Z.land (ref_xip t a) (nth (Z.to_nat (a - off)) data 0) else ref_xip t a
    | E_call (flash_range_erase off n) =>
      if (off <=? a) && (a <? off + n) then 255 else ref_xip t a
    | _ => ref_xip t a
    end
  end.

(** Microseconds since [t0]. *)
Definition ref_clock (t0 : Z) (t : trace) : Z := t0 + Z.of_nat (length t).

(** The registers that read back what was written; the others read zero. *)
Fixpoint ref_store (t : trace) (r : reg) : Z :=
  match t with
  | [] => 0
  | e :: t =>
    match e with
    | E_write SIO_GPIO_OE_CLR m =>
      if decide (SIO_GPIO_OE = r) then Z.ldiff (ref_store t r) m else ref_store t r
    | E_write r' v => if decide (r' = r) then v else ref_store t r
    | E_call (gpio_set_dir p out) =>
      if decide (SIO_GPIO_OE = r)
      then if out =? 0 then Z.ldiff (ref_store t r) (bit p) else Z.lor (ref_store t r) (bit p)
      else ref_store t r
    | E_call (hw_set_bits r' m) =>
      if decide (r' = r) then Z.lor (ref_store t r) m else ref_store t r
    | E_call (hw_clear_bits r' m) =>
      if decide (r' = r) then Z.ldiff (ref_store t r) m else ref_store t r
    | E_call (hw_write_masked r' v m) =>
      if decide (r' = r) then Z.lor (Z.ldiff (ref_store t r) m) (Z.land v m) else ref_store t r
    | _ => ref_store t r
    end
  end.

(** Registers with contents of their own are given by [own]. *)
Definition ref_env (t0 : Z) (own : trace -> reg -> option Z)
    (rets : trace -> call -> Z) (bytes : trace -> call -> list Z) : Env := {|
  rd_reg t r :=
    match own t r with
    | Some v => v
    | None =>
      match r with
      | TIMERAWL => u32 (ref_clock t0 t)
      | TIMERAWH => u32 (ref_clock t0 t / 4294967296)
      | _ => ref_store t r
      end
    end;
  ret_of := rets;
  bytes_of := bytes;
  xip := ref_xip;
  fuel := 1000%nat;
  JD_MIN_MAX_SLEEP := 10000;
  jd_max_sleep _ := 50000;
  jd_line_falling := ret tt;
  jd_rx_completed _ := ret tt;
  jd_tx_completed _ := ret tt;
  client_cb _ := ret tt;
  reenter _ := ret tt
|}.

Definition env0 : Env :=
  ref_env 0 (fun _ _ => None) (fun _ _ => 0) (fun _ _ => []).
