(* ===== verification/Irq.v ===== *)
(** * Irq: the nesting interrupt lock of [platform.c]

    [target_disable_irq] and [target_enable_irq] bracket every critical
    section of the firmware.  The component keeps one [int8_t] counter and
    drives PRIMASK.  Its contract is a nesting depth ([depth_step]):
    interrupts are masked exactly while the depth is positive.  The counter
    implements it up to depth 128, and no further. *)

From S2P Require Import Prelude Events Machine.

(** ** Definitions *)

Definition irq_disabled : var Z := {|
  rd s := f_irq_disabled (m_platform s);
  wr v := upd_platform (fun x => {| f_device_id := f_device_id x; f_irq_disabled := v; f_cpu_mhz := f_cpu_mhz x;
      f_is_pico_w := f_is_pico_w x; f_use_pico_led := f_use_pico_led x |}) |}.

Definition target_enable_irq : M unit :=
  let! d := get irq_disabled in
  irq_disabled <~ i8 (d - 1) ;;
  let! d := get irq_disabled in
  when d <=? 0 do
    (irq_disabled <~ 0 ;;
     cpsie).

Definition target_disable_irq : M unit :=
  cpsid ;;
  let! d := get irq_disabled in
  irq_disabled <~ i8 (d + 1).

(** ** The contract: a nesting depth *)

Inductive irq_op := Disable | Enable.

Definition irq_run (o : irq_op) : M unit :=
  match o with Disable => target_disable_irq | Enable => target_enable_irq end.

Fixpoint irq_runs (ops : list irq_op) : M unit :=
  match ops with
  | [] => ret tt
  | o :: ops => irq_run o ;; irq_runs ops
  end.

(** An unmatched enable leaves the depth at zero. *)
Definition depth_step (o : irq_op) (d : Z) : Z :=
  match o with Disable => d + 1 | Enable => Z.max 0 (d - 1) end.

Fixpoint depth_of (ops : list irq_op) (d : Z) : Z :=
  match ops with [] => d | o :: ops => depth_of ops (depth_step o d) end.

(** No prefix of [ops] nests deeper than [bound]. *)
Fixpoint depth_within (bound : Z) (ops : list irq_op) (d : Z) : Prop :=
  match ops with
  | [] => d <= bound
  | o :: ops => d <= bound /\ depth_within bound ops (depth_step o d)
  end.

(** The machine is at depth [d]. *)
Definition at_depth (d : Z) (s : machine) : Prop :=
  rd irq_disabled s = i8 d /\ primask s = (0 <? d).

(** What an operation of the lock leaves alone. *)
Definition irq_frame (s s' : machine) : Prop :=
  m_tim s' = m_tim s /\ m_flash s' = m_flash s /\ m_pins s' = m_pins s /\
  m_dma s' = m_dma s /\ m_uart s' = m_uart s /\ m_spi s' = m_spi s.

(** ** Lemmas *)

Lemma target_disable_irq_run s :
  target_disable_irq s =
  Ret tt (wr irq_disabled (i8 (rd irq_disabled s + 1)) (set_primask true (emit E_cpsid s))).
Proof. reflexivity. Qed.

Lemma target_enable_irq_run s :
  target_enable_irq s =
  if i8 (rd irq_disabled s - 1) <=? 0
  then Ret tt (set_primask false (emit E_cpsie (wr irq_disabled 0 s)))
  else Ret tt (wr irq_disabled (i8 (rd irq_disabled s - 1)) s).
Proof.
  unfold target_enable_irq. msimp.
  destruct (i8 (rd irq_disabled s - 1) <=? 0); reflexivity.
Qed.

Lemma disable_depth d s :
  0 <= d < 128 -> at_depth d s ->
  exists s', target_disable_irq s = Ret tt s' /\ at_depth (d + 1) s' /\ irq_frame s s'.
Proof.
  intros Hd [Hc Hp]. rewrite target_disable_irq_run. eexists; split; [reflexivity |].
  split; [split; vsimp | repeat split]; [rewrite Hc; zlia |].
  symmetry. apply Z.ltb_lt. lia.
Qed.

Lemma enable_depth d s :
  0 <= d <= 128 -> at_depth d s ->
  exists s', target_enable_irq s = Ret tt s' /\ at_depth (Z.max 0 (d - 1)) s' /\ irq_frame s s'.
Proof.
  intros Hd [Hc Hp]. rewrite target_enable_irq_run, Hc.
  destruct (Z.leb_spec (i8 (i8 d - 1)) 0) as [H | H]; (eexists; split; [reflexivity |]);
    (split; [split; vsimp | repeat split]).
  - assert (d <= 1) by zlia. replace (Z.max 0 (d - 1)) with 0 by lia. reflexivity.
  - symmetry. apply Z.ltb_ge. zlia.
  - assert (1 < d) by zlia. rewrite Z.max_r by lia. zlia.
  - assert (1 < d) by zlia. rewrite Hp.
    destruct (Z.ltb_spec 0 d), (Z.ltb_spec 0 (Z.max 0 (d - 1))); lia.
Qed.

(** What [target_enable_irq] does to the trace, at any depth. *)
Lemma target_enable_irq_trace s :
  exists s' t, target_enable_irq s = Ret tt s' /\ irq_frame s s' /\
    tr s' = t ++ tr s /\ (t = [] \/ t = [E_cpsie]) /\
    (forall d, 0 <= d < 128 -> at_depth (d + 1) s -> at_depth d s').
Proof.
  rewrite target_enable_irq_run.
  destruct (i8 (rd irq_disabled s - 1) <=? 0) eqn:Hc;
    [eexists _, [E_cpsie] | eexists _, []]; (split; [reflexivity |]);
    (split; [repeat split |]); (split; [reflexivity |]); (split; [auto |]);
    intros d Hd [H1 H2]; split; vsimp; rewrite H1 in *; b2p.
  - assert (d = 0) by zlia. by subst.
  - symmetry. apply Z.ltb_ge. zlia.
  - zlia.
  - assert (d <> 0) by zlia. rewrite H2. destruct (Z.ltb_spec 0 (d + 1)), (Z.ltb_spec 0 d); lia.
Qed.

Lemma irq_run_depth o d s :
  0 <= d <= 128 -> depth_step o d <= 128 -> at_depth d s ->
  exists s', irq_run o s = Ret tt s' /\ at_depth (depth_step o d) s' /\ irq_frame s s'.
Proof.
  intros Hd Hs H. destruct o; cbn in *; [apply disable_depth | apply enable_depth]; auto; lia.
Qed.

Lemma irq_frame_refl s : irq_frame s s.
Proof. repeat split. Qed.

Lemma irq_frame_trans s1 s2 s3 : irq_frame s1 s2 -> irq_frame s2 s3 -> irq_frame s1 s3.
Proof. unfold irq_frame. intuition congruence. Qed.

Lemma depth_step_nonneg o d : 0 <= d -> 0 <= depth_step o d.
Proof. destruct o; cbn; lia. Qed.

Lemma irq_runs_app ops1 ops2 s :
  irq_runs (ops1 ++ ops2) s = bind (irq_runs ops1) (fun _ => irq_runs ops2) s.
Proof.
  revert s. induction ops1 as [| o ops1 IH]; intros s; [reflexivity |].
  cbn [app irq_runs]. unfold bind at 1 2 3. destruct (irq_run o s); [apply IH | reflexivity].
Qed.

Lemma irq_runs_disables n d s :
  0 <= d -> d + Z.of_nat n <= 128 -> at_depth d s ->
  exists s', irq_runs (replicate n Disable) s = Ret tt s' /\
             at_depth (d + Z.of_nat n) s' /\ irq_frame s s'.
Proof.
  revert d s. induction n as [| n IH]; intros d s Hd Hn Hs.
  - exists s. rewrite Z.add_0_r. repeat split; apply Hs.
  - destruct (disable_depth d s) as (s1 & E1 & D1 & F1); [lia | done |].
    destruct (IH (d + 1) s1) as (s2 & E2 & D2 & F2); [lia.. | done |].
    exists s2. cbn [replicate irq_runs irq_run]. unfold bind. rewrite E1, E2.
    replace (d + Z.of_nat (S n)) with (d + 1 + Z.of_nat n) by lia.
    eauto using irq_frame_trans.
Qed.

(** ** Properties *)

(** C11: the counter refines the nesting depth.  From depth [d], any sequence
    of disables and enables that never nests deeper than 128 leaves the
    counter at the abstract depth (wrapped to [int8_t]) with interrupts masked
    exactly when that depth is positive, and touches no other component. *)
Theorem irq_lock_refines_depth ops d s :
  0 <= d -> depth_within 128 ops d -> at_depth d s ->
  exists s', irq_runs ops s = Ret tt s' /\ at_depth (depth_of ops d) s' /\ irq_frame s s'.
Proof.
  revert d s. induction ops as [| o ops IH]; intros d s Hd Hw Hs; cbn in *.
  - exists s; auto using irq_frame_refl.
  - destruct Hw as [Hb Hw].
    assert (depth_step o d <= 128) as Hb' by (destruct ops; cbn in Hw; tauto).
    destruct (irq_run_depth o d s) as (s1 & E1 & D1 & F1); [lia.. | done |].
    destruct (IH (depth_step o d) s1) as (s2 & E2 & D2 & F2);
      auto using depth_step_nonneg.
    exists s2. unfold bind. rewrite E1. eauto using irq_frame_trans.
Qed.

Lemma irq_lock_refines_depth_witness :
  exists s', irq_runs [Disable; Disable; Enable] machine_init = Ret tt s' /\
             at_depth 1 s' /\ irq_frame machine_init s'.
Proof.
  apply (irq_lock_refines_depth [Disable; Disable; Enable] 0 machine_init);
    [lia | cbn; lia | split; reflexivity].
Defined.

(** Beyond depth 128 the [int8_t] counter wraps: with 129 critical
    sections open, closing one of them already unmasks interrupts. *)
Theorem irq_lock_overflow s :
  at_depth 0 s ->
  exists s', irq_runs (replicate 129 Disable ++ [Enable]) s = Ret tt s' /\
             depth_of (replicate 129 Disable ++ [Enable]) 0 = 128 /\ primask s' = false.
Proof.
  intros H0.
  destruct (irq_runs_disables 128 0 s) as (s1 & E1 & [Hc Hp] & _); [lia.. | done |].
  eexists. split; [| split; [reflexivity |]].
  { change (replicate 129 Disable ++ [Enable])
      with (replicate 128 Disable ++ [Disable; Enable]).
    rewrite irq_runs_app. unfold bind at 1. rewrite E1. cbn [irq_runs irq_run].
    unfold bind. rewrite target_disable_irq_run, target_enable_irq_run. vsimp.
    rewrite Hc. reflexivity. }
  reflexivity.
Qed.

Lemma irq_lock_overflow_witness :
  at_depth 0 machine_init /\
  exists s', irq_runs (replicate 129 Disable ++ [Enable]) machine_init = Ret tt s' /\
             depth_of (replicate 129 Disable ++ [Enable]) 0 = 128 /\ primask s' = false.
Proof.
  split; [split; reflexivity |].
  apply (irq_lock_overflow machine_init). split; reflexivity.
Defined.
