(* ===== verification/Flash.v ===== *)
(** * Flash: the write-back page buffer of [flash.c]

    Writes to the storage region go through one 256-byte page buffer; the page
    reaches the flash chip when another page is written or on [flash_sync].
    The abstract view of the storage ([view]) is the chip overlaid with the
    buffered page.  [flash_program] is a write to the view, [flash_sync] makes
    the chip equal to the view, and [flash_erase] erases the chip under it. *)

From S2P Require Import Prelude Events Machine RefEnv Irq.

(** ** Definitions *)

(** *** Configuration ([jd_user_config.h]) *)

Definition JD_FLASH_PAGE_SIZE : Z := 4096.
Definition JD_FSTOR_TOTAL_SIZE : Z := 128 * 1024.
Definition SPI_FLASH_MEGS : Z := 1.
Definition SPI_STORAGE_SIZE : Z := JD_FSTOR_TOTAL_SIZE.
Definition SPI_STORAGE_OFFSET : Z := SPI_FLASH_MEGS * 1024 * 1024 - SPI_STORAGE_SIZE.
Definition JD_FSTOR_BASE_ADDR : Z := 0x10000000 + SPI_STORAGE_OFFSET.
Definition JD_DCFG_BASE_ADDR : Z := JD_FSTOR_BASE_ADDR - 16 * 1024.

(** Fixed by the RP2040: the XIP window and the program granularity. *)
Definition XIP_BASE : Z := 0x10000000.
Definition FLASH_PAGE_SIZE : Z := 256.
Definition PAGE_MASK : Z := FLASH_PAGE_SIZE - 1.

(** *** State *)

Definition last_page_addr : var Z := {|
  rd s := f_last_page_addr (m_flash s);
  wr v := upd_flash (fun x => {| f_last_page_addr := v; f_flash_page_buf := f_flash_page_buf x |}) |}.
Definition flash_page_buf : var (list Z) := {|
  rd s := f_flash_page_buf (m_flash s);
  wr v := upd_flash (fun x => {| f_last_page_addr := f_last_page_addr x; f_flash_page_buf := v |}) |}.

(** *** Operations *)

Definition flash_sync : M unit :=
  let! a := get last_page_addr in
  when z2b a do
    (target_disable_irq ;;
     let! buf := get flash_page_buf in
     sdk (flash_range_program a buf FLASH_PAGE_SIZE) ;;
     target_enable_irq ;;
     last_page_addr <~ 0).

Section Operations.
Context {E : Env}.

(** The bytes of flash from offset [off]: the [memcpy] out of the window. *)
Definition xip_block (off : Z) (n : nat) : M (list Z) := fun s =>
  Ret (map (xip (tr s)) (seqZ_from off n)) s.

Definition flash_program_page (addr : Z) (src : list Z) (len : Z) : M unit :=
  JD_ASSERT (len <? FLASH_PAGE_SIZE) ;;
  JD_ASSERT (addr / FLASH_PAGE_SIZE =? u32 (addr + len - 1) / FLASH_PAGE_SIZE) ;;
  let page_addr := Z.land addr (u32 (Z.lnot PAGE_MASK)) in
  let dst := page_addr in                  (* an offset into the XIP window *)
  let! last := get last_page_addr in
  (when negb (last =? page_addr) do
     (flash_sync ;;
      last_page_addr <~ page_addr ;;
      let! page := xip_block dst 256 in
      flash_page_buf <~ page)) ;;
  let dp := Z.land addr PAGE_MASK in
  for_ (Z.to_nat len) 0 (fun i =>
    let! old := xip_load (dst + (dp + i)) in
    JD_ASSERT (old =? 0xff) ;;
    let! b := index src i in
    store flash_page_buf (dp + i) b).

(** One iteration of the [while] of [flash_program]: the locals are the
    offset, the source pointer and the bytes left. *)
Definition flash_program_step (st : Z * list Z * Z) : M ((Z * list Z * Z) + unit) :=
  let '(off, src, len) := st in
  if 0 <? len then
    let n := FLASH_PAGE_SIZE - Z.land off PAGE_MASK in
    let n := if len <? n then len else n in
    flash_program_page off src n ;;
    ret (inl (u32 (off + n), drop (Z.to_nat n) src, u32 (len - n)))
  else ret (inr tt).

(** Every iteration but the first consumes a page. *)
Definition flash_program_fuel (len : Z) : nat := Z.to_nat (len / FLASH_PAGE_SIZE + 3).

Definition flash_program (dst : Z) (src : list Z) (len : Z) : M unit :=
  let diff := i32 (dst - XIP_BASE - SPI_STORAGE_OFFSET) in
  JD_ASSERT ((0 <=? diff) && (u32 (diff + len) <=? SPI_STORAGE_SIZE)) ;;
  JD_ASSERT (Z.land diff (8 - 1) =? 0) ;;
  let off := diff + SPI_STORAGE_OFFSET in
  loop (flash_program_fuel len) flash_program_step (off, src, len).

Definition flash_erase (page_addr : Z) : M unit :=
  let diff := i32 (page_addr - XIP_BASE - SPI_STORAGE_OFFSET) in
  JD_ASSERT ((0 <=? diff) && (diff <=? SPI_STORAGE_SIZE - JD_FLASH_PAGE_SIZE)) ;;
  JD_ASSERT (Z.land diff (JD_FLASH_PAGE_SIZE - 1) =? 0) ;;
  target_disable_irq ;;
  sdk (flash_range_erase (diff + SPI_STORAGE_OFFSET) JD_FLASH_PAGE_SIZE) ;;
  target_enable_irq.
End Operations.

(** *** The chip

    What the SDK documents of the two flash calls: programming a page-aligned
    range clears bits and never sets one, erasing a sector-aligned range sets
    every byte to [0xff], and nothing else changes the chip. *)
Definition flash_call (e : event) : bool :=
  match e with
  | E_call (flash_range_program _ _ _) | E_call (flash_range_erase _ _) => true
  | _ => false
  end.

Class FlashChip {E : Env} : Prop := {
  chip_byte t a : 0 <= xip t a < 256;
  chip_program t off data n a :
    off mod FLASH_PAGE_SIZE = 0 -> n mod FLASH_PAGE_SIZE = 0 ->
    xip (E_call (flash_range_program off data n) :: t) a =
    if (off <=? a) && (a <? off + n)
    then Z.land (xip t a) (nth (Z.to_nat (a - off)) data 0) else xip t a;
  chip_erase t off n a :
    off mod JD_FLASH_PAGE_SIZE = 0 -> n mod JD_FLASH_PAGE_SIZE = 0 ->
    xip (E_call (flash_range_erase off n) :: t) a =
    if (off <=? a) && (a <? off + n) then 255 else xip t a;
  chip_other t e a : flash_call e = false -> xip (e :: t) a = xip t a
}.

(** *** The abstract storage *)

Definition in_page (p a : Z) : bool := (p <=? a) && (a <? p + FLASH_PAGE_SIZE).

Section View.
Context {E : Env}.

(** The chip overlaid with the buffered page. *)
Definition view (s : machine) (a : Z) : Z :=
  let p := rd last_page_addr s in
  if z2b p && in_page p a
  then nth (Z.to_nat (a - p)) (rd flash_page_buf s) 0
  else xip (tr s) a.

(** A write of [src] at [off] to an abstract storage. *)
Definition write_at (off : Z) (src : list Z) (v : Z -> Z) (a : Z) : Z :=
  if (off <=? a) && (a <? off + Z.of_nat (length src))
  then nth (Z.to_nat (a - off)) src 0 else v a.

(** The buffered page is a page of the storage region, and it differs from
    the chip only where the chip is erased. *)
Record flash_inv (s : machine) : Prop := {
  fi_len : length (rd flash_page_buf s) = 256%nat;
  fi_bytes : Forall (fun b => 0 <= b < 256) (rd flash_page_buf s);
  fi_page : rd last_page_addr s <> 0 ->
    rd last_page_addr s mod FLASH_PAGE_SIZE = 0 /\
    SPI_STORAGE_OFFSET <= rd last_page_addr s < SPI_STORAGE_OFFSET + SPI_STORAGE_SIZE;
  fi_merge : forall i, (i < 256)%nat -> rd last_page_addr s <> 0 ->
    xip (tr s) (rd last_page_addr s + Z.of_nat i) = 255 \/
    xip (tr s) (rd last_page_addr s + Z.of_nat i) = nth i (rd flash_page_buf s) 0
}.
End View.

(** No chunk of a write of [len] bytes at [off] covers a whole page. *)
Definition no_full_page (off len : Z) : bool :=
  off + len <? (off + PAGE_MASK) / FLASH_PAGE_SIZE * FLASH_PAGE_SIZE + FLASH_PAGE_SIZE.

(** ** Lemmas *)

Ltac flash_consts :=
  unfold SPI_STORAGE_OFFSET, SPI_STORAGE_SIZE, SPI_FLASH_MEGS, JD_FSTOR_TOTAL_SIZE,
    JD_FLASH_PAGE_SIZE, PAGE_MASK, FLASH_PAGE_SIZE, XIP_BASE in *.

Section Lemmas.
Context {E : Env}.

(** *** Addresses *)

Lemma page_addr_eq addr :
  0 <= addr < 4294967296 ->
  Z.land addr (u32 (Z.lnot PAGE_MASK)) = addr / 256 * 256.
Proof. intros. change PAGE_MASK with (Z.ones 8). rewrite land_lnot_ones by lia. reflexivity. Qed.

Lemma page_off_eq addr : Z.land addr PAGE_MASK = addr mod 256.
Proof. change PAGE_MASK with (Z.ones 8). rewrite Z.land_ones by lia. reflexivity. Qed.

Lemma in_page_div p a : p mod 256 = 0 -> in_page p a = (a / 256 * 256 =? p).
Proof. unfold in_page, FLASH_PAGE_SIZE. intros. destruct (Z.eqb_spec (a / 256 * 256) p); zlia. Qed.

(** *** Write-back *)

Lemma flash_sync_run s :
  exists s', flash_sync s = Ret tt s' /\ rd flash_page_buf s' = rd flash_page_buf s /\
    rd last_page_addr s' = 0 /\
    if z2b (rd last_page_addr s) then
      exists t, (t = [] \/ t = [E_cpsie]) /\
        tr s' = t ++ E_call (flash_range_program (rd last_page_addr s) (rd flash_page_buf s) 256)
                  :: E_cpsid :: tr s
    else s' = s.
Proof.
  unfold flash_sync. mexec. destruct (z2b (rd last_page_addr s)) eqn:Hp.
  2:{ exists s. unfold z2b in Hp. b2p. auto. }
  rewrite target_disable_irq_run. vsimp.
  match goal with |- context [target_enable_irq ?x] =>
    destruct (target_enable_irq_trace x) as (s' & t & -> & (_ & Hf & _) & Ht & Hc & _) end.
  eexists. repeat split.
  - change (f_flash_page_buf (m_flash s') = rd flash_page_buf s). rewrite Hf. reflexivity.
  - exists t. split; [done |]. vsimp. rewrite Ht. reflexivity.
Qed.

(** Programming the buffered page turns the view into the chip. *)
Lemma chip_sync `{!FlashChip} s s' :
  flash_inv s -> flash_sync s = Ret tt s' ->
  forall a, xip (tr s') a = view s a.
Proof.
  intros [Hl Hb Hp Hm] Hr a. destruct (flash_sync_run s) as (s1 & E1 & _ & _ & Ht).
  rewrite E1 in Hr. injection Hr as <-.
  unfold view. destruct (z2b (rd last_page_addr s)) eqn:Hz; [| by subst].
  unfold z2b in Hz. b2p. destruct (Hp Hz) as [Hal Hrg]. destruct Ht as (t & Hc & ->).
  assert (xip (t ++ E_call (flash_range_program (rd last_page_addr s)
            (rd flash_page_buf s) 256) :: E_cpsid :: tr s) a =
          xip (E_call (flash_range_program (rd last_page_addr s)
            (rd flash_page_buf s) 256) :: E_cpsid :: tr s) a) as ->.
  { destruct Hc as [-> | ->]; cbn; [done | by apply chip_other]. }
  rewrite chip_program, (chip_other (tr s)) by (done || reflexivity).
  cbn [andb]. unfold in_page, FLASH_PAGE_SIZE.
  destruct ((rd last_page_addr s <=? a) && (a <? rd last_page_addr s + 256)) eqn:Hin; [| done].
  b2p. specialize (Hm (Z.to_nat (a - rd last_page_addr s)) ltac:(lia) Hz).
  replace (rd last_page_addr s + Z.of_nat (Z.to_nat (a - rd last_page_addr s))) with a in Hm by lia.
  set (b := nth (Z.to_nat (a - rd last_page_addr s)) (rd flash_page_buf s) 0) in *.
  destruct Hm as [Hm | Hm]; rewrite Hm; [| apply Z.land_diag].
  rewrite Z.land_comm. change 255 with (Z.ones 8). rewrite Z.land_ones, Z.mod_small; try lia.
  assert (0 <= b < 256); [| lia].
  apply (Forall_nth (fun b => 0 <= b < 256)); [done | lia].
Qed.

Lemma flash_sync_spec `{!FlashChip} s :
  flash_inv s ->
  exists s', flash_sync s = Ret tt s' /\ flash_inv s' /\ rd last_page_addr s' = 0 /\
    (forall a, xip (tr s') a = view s a) /\ (forall a, view s' a = view s a).
Proof.
  intros Hi. destruct (flash_sync_run s) as (s' & E1 & Hbuf & Hlast & _).
  exists s'. split; [done |].
  pose proof (chip_sync s s' Hi E1) as Hx. destruct Hi as [Hl Hb Hp Hm].
  split; [constructor; rewrite ?Hbuf, ?Hlast; try done; lia |].
  repeat split; auto. intros a. rewrite <- Hx. unfold view. by rewrite Hlast.
Qed.

(** *** Copying into the buffer *)

Lemma wr_page_buf_id s : wr flash_page_buf (rd flash_page_buf s) s = s.
Proof. destruct s as [? ? ? ? [] ]. reflexivity. Qed.

Lemma index_nth (l : list Z) i s :
  0 <= i < Z.of_nat (length l) -> index l i s = Ret (nth (Z.to_nat i) l 0) s.
Proof.
  intros Hi. destruct (lookup_lt_is_Some_2 l (Z.to_nat i)) as [x Hx]; [lia |].
  rewrite (nth_lookup_Some _ _ _ _ Hx). apply index_run; [lia | done].
Qed.

(** The buffer after bytes [i, i + n) of [src] went to offset [dp]. *)
Definition spliced (dp : Z) (src : list Z) (i n : Z) (buf buf' : list Z) : Prop :=
  length buf' = length buf /\
  forall j, nth j buf' 0 =
    if (dp + i <=? Z.of_nat j) && (Z.of_nat j <? dp + i + n)
    then nth (Z.to_nat (Z.of_nat j - dp)) src 0 else nth j buf 0.

Lemma copy_loop n dst dp src i s :
  0 <= i -> 0 <= dp -> dp + i + Z.of_nat n <= Z.of_nat (length (rd flash_page_buf s)) ->
  i + Z.of_nat n <= Z.of_nat (length src) ->
  (forall k, i <= k < i + Z.of_nat n -> xip (tr s) (dst + (dp + k)) = 255) ->
  exists buf',
    for_ n i (fun i => let! old := xip_load (dst + (dp + i)) in
                       JD_ASSERT (old =? 0xff) ;;
                       let! b := index src i in store flash_page_buf (dp + i) b) s
    = Ret tt (wr flash_page_buf buf' s) /\
    spliced dp src i (Z.of_nat n) (rd flash_page_buf s) buf'.
Proof.
  revert i s. induction n as [| n IH]; intros i s Hi Hdp Hb Hs He; cbn [for_].
  - exists (rd flash_page_buf s). rewrite wr_page_buf_id. split; [done | split; [done |]].
    intros j. destruct (Z.leb_spec (dp + i) (Z.of_nat j)), (Z.ltb_spec (Z.of_nat j) (dp + i + Z.of_nat 0));
      try done; lia.
  - unfold bind at 1 2 3, xip_load. rewrite He by lia. rewrite Z.eqb_refl.
    cbn [JD_ASSERT]. unfold bind at 1. unfold ret at 1.
    rewrite index_nth, store_run by lia.
    set (s1 := wr flash_page_buf _ s).
    assert (length (rd flash_page_buf s1) = length (rd flash_page_buf s)) as Hl
      by (unfold s1; vsimp; apply length_insert).
    destruct (IH (i + 1) s1) as (buf' & E1 & Hl' & Hj); [lia | lia | lia | lia | |].
    { intros k Hk. apply (He k). lia. }
    exists buf'. split; [exact E1 |]. split; [congruence |].
    intros j. rewrite Hj. unfold s1. vsimp. rewrite nth_insert by lia.
    destruct (Z.leb_spec (dp + (i + 1)) (Z.of_nat j)),
      (Z.ltb_spec (Z.of_nat j) (dp + (i + 1) + Z.of_nat n)),
      (Z.leb_spec (dp + i) (Z.of_nat j)), (Z.ltb_spec (Z.of_nat j) (dp + i + Z.of_nat (S n)));
      cbn; try lia; try done; case_decide; try lia; try done.
    f_equal. lia.
Qed.

(** *** Opening a page *)

Definition open_page (page : Z) : M unit :=
  let! last := get last_page_addr in
  when negb (last =? page) do
    (flash_sync ;;
     last_page_addr <~ page ;;
     let! b := xip_block page 256 in
     flash_page_buf <~ b).

Definition storage_page (p : Z) : Prop :=
  p mod 256 = 0 /\ SPI_STORAGE_OFFSET <= p < SPI_STORAGE_OFFSET + SPI_STORAGE_SIZE.

Lemma view_open s p :
  flash_inv s -> storage_page p -> rd last_page_addr s = p ->
  forall a, view s a =
    if in_page p a then nth (Z.to_nat (a - p)) (rd flash_page_buf s) 0 else xip (tr s) a.
Proof.
  intros Hi [_ Hp] Hlast a. unfold view. rewrite Hlast.
  replace (z2b p) with true; [done |]. symmetry. apply negb_true_iff, Z.eqb_neq.
  flash_consts. lia.
Qed.

Lemma open_page_spec `{!FlashChip} p s :
  flash_inv s -> storage_page p ->
  exists s', open_page p s = Ret tt s' /\ flash_inv s' /\ rd last_page_addr s' = p /\
    forall a, view s' a = view s a.
Proof.
  intros Hi Hp. unfold open_page. mexec.
  destruct (Z.eqb_spec (rd last_page_addr s) p) as [He | He]; cbn [negb].
  { exists s. auto. }
  destruct (flash_sync_spec s Hi) as (s1 & -> & Hi1 & _ & Hx & Hv).
  unfold xip_block. vsimp. eexists. split; [reflexivity |].
  set (b := map (xip (tr s1)) (seqZ_from p 256)).
  assert (forall i, (i < 256)%nat -> nth i b 0 = xip (tr s1) (p + Z.of_nat i)) as Hb
    by (intros; unfold b; by rewrite nth_map_seqZ).
  split; [| split; [by vsimp |]].
  - constructor; vsimp.
    + unfold b. by rewrite length_map, length_seqZ_from.
    + apply Forall_forall. intros x Hin. apply list_elem_of_In, in_map_iff in Hin.
      destruct Hin as (? & <- & _). apply chip_byte.
    + intros _. exact Hp.
    + intros i Hlt _. right. symmetry. by apply Hb.
  - intros a. rewrite <- Hx. unfold view. vsimp.
    destruct (z2b p && in_page p a) eqn:Hc; [| done].
    apply andb_true_iff in Hc as [_ Hin]. unfold in_page, FLASH_PAGE_SIZE in Hin. b2p.
    rewrite Hb by lia. f_equal. lia.
Qed.

Lemma view_erased_chip s a :
  flash_inv s -> view s a = 255 -> xip (tr s) a = 255.
Proof.
  intros [Hl Hb Hp Hm]. unfold view.
  destruct (z2b (rd last_page_addr s) && in_page (rd last_page_addr s) a) eqn:Hc; [| done].
  unfold z2b, in_page, FLASH_PAGE_SIZE in Hc. b2p. intros Hn.
  destruct (Hm (Z.to_nat (a - rd last_page_addr s))) as [H' | H']; [lia.. | |];
    replace (rd last_page_addr s + Z.of_nat (Z.to_nat (a - rd last_page_addr s))) with a in H'
      by lia; congruence.
Qed.

(** *** Programming within one page *)

(** The contents after a splice into the open page. *)
Lemma page_written p addr src len s1 buf' :
  flash_inv s1 -> storage_page p -> rd last_page_addr s1 = p -> p = addr / 256 * 256 -> 0 < len < 256 ->
  addr / 256 = (addr + len - 1) / 256 -> len <= Z.of_nat (length src) ->
  (forall j, nth j buf' 0 =
     if (addr mod 256 + 0 <=? Z.of_nat j) && (Z.of_nat j <? addr mod 256 + 0 + Z.of_nat (Z.to_nat len))
     then nth (Z.to_nat (Z.of_nat j - addr mod 256)) src 0 else nth j (rd flash_page_buf s1) 0) ->
  forall a, view (wr flash_page_buf buf' s1) a = write_at addr (take (Z.to_nat len) src) (view s1) a.
Proof.
  intros Hi1 Hp Hl1 Hpa Hlen Hpg Hsrc Hj a. pose proof (proj1 Hp) as Hp1. flash_consts.
  unfold write_at. rewrite (view_open s1 p), length_take by done. unfold view. vsimp. rewrite Hl1.
  replace (z2b p) with true by (symmetry; apply negb_true_iff, Z.eqb_neq; unfold storage_page in Hp; flash_consts; lia).
  cbn [andb]. rewrite in_page_div by apply Hp.
  replace (Z.of_nat (Z.to_nat len `min` length src)) with len by lia.
  destruct (Z.eqb_spec (a / 256 * 256) p) as [Ha | Ha].
  - rewrite Hj.
    destruct (Z.leb_spec addr a), (Z.ltb_spec a (addr + len)),
      (Z.leb_spec (addr mod 256 + 0) (Z.of_nat (Z.to_nat (a - p)))),
      (Z.ltb_spec (Z.of_nat (Z.to_nat (a - p))) (addr mod 256 + 0 + Z.of_nat (Z.to_nat len)));
      cbn [andb]; try done; try (exfalso; subst p; zlia).
    rewrite nth_take_lt by lia. f_equal. subst p. zlia.
  - destruct (Z.leb_spec addr a), (Z.ltb_spec a (addr + len)); cbn [andb]; try done.
    exfalso. subst p. zlia.
Qed.

Lemma flash_program_page_spec `{!FlashChip} addr src len s :
  flash_inv s -> SPI_STORAGE_OFFSET <= addr -> 0 < len < 256 ->
  addr / 256 = (addr + len - 1) / 256 ->
  addr + len <= SPI_STORAGE_OFFSET + SPI_STORAGE_SIZE ->
  len <= Z.of_nat (length src) -> Forall (fun b => 0 <= b < 256) src ->
  (forall a, addr <= a < addr + len -> view s a = 255) ->
  exists s', flash_program_page addr src len s = Ret tt s' /\ flash_inv s' /\
    forall a, view s' a = write_at addr (take (Z.to_nat len) src) (view s) a.
Proof.
  intros Hi Hlo Hlen Hpg Hhi Hsrc Hbytes Her.
  flash_consts. unfold flash_program_page, FLASH_PAGE_SIZE.
  rewrite (u32_id (addr + len - 1)), page_addr_eq, page_off_eq by lia.
  rewrite (proj2 (Z.ltb_lt len 256)), (proj2 (Z.eqb_eq _ _) Hpg) by lia.
  set (p := addr / 256 * 256). cbn [JD_ASSERT].
  assert (storage_page p) as Hp.
  { unfold storage_page, p. flash_consts. zlia. }
  destruct (open_page_spec p s Hi Hp) as (s1 & E1 & Hi1 & Hl1 & Hv1).
  pose proof (fi_len s1 Hi1) as Hlen1.
  destruct (copy_loop (Z.to_nat len) p (addr mod 256) src 0 s1) as (buf' & E2 & Hlb & Hj);
    [lia | zlia | zlia | lia | |].
  { intros k Hk. apply view_erased_chip; [done |]. rewrite Hv1. apply Her. unfold p. zlia. }
  exists (wr flash_page_buf buf' s1). split.
  { etransitivity; [| exact E2]. exact (bind_ret (open_page p) _ s tt s1 E1). }
  pose proof (fi_bytes s1 Hi1) as Hb1.
  pose proof (page_written p addr src len s1 buf' Hi1 Hp Hl1 eq_refl Hlen Hpg Hsrc Hj) as Hview.
  split; [| intros a; rewrite Hview; unfold write_at; by rewrite Hv1].
  constructor; vsimp; rewrite ?Hl1.
  - congruence.
  - apply (Forall_nth _ 0). intros k Hk. rewrite Hj.
    destruct (_ && _) eqn:Hc; b2p; apply (Forall_nth (fun b => 0 <= b < 256)); try done; lia.
  - intros _. exact Hp.
  - intros k Hk _. rewrite Hj.
    destruct (_ && _) eqn:Hc; b2p.
    + left. apply view_erased_chip; [done |]. rewrite Hv1. apply Her. unfold p. zlia.
    + rewrite <- Hl1. apply (fi_merge s1 Hi1 k Hk). rewrite Hl1.
      destruct Hp as [_ Hp]. flash_consts. lia.
Qed.

(** *** The whole write *)

Lemma write_at_split off src n (v v1 v2 : Z -> Z) :
  (n <= length src)%nat ->
  (forall a, v1 a = write_at off (take n src) v a) ->
  (forall a, v2 a = write_at (off + Z.of_nat n) (drop n src) v1 a) ->
  forall a, v2 a = write_at off src v a.
Proof.
  intros Hn H1 H2 a. rewrite H2. unfold write_at in *. rewrite length_drop, H1, length_take.
  destruct (Z.leb_spec off a), (Z.ltb_spec a (off + Z.of_nat (length src))),
    (Z.leb_spec (off + Z.of_nat n) a),
    (Z.ltb_spec a (off + Z.of_nat n + Z.of_nat (length src - n))),
    (Z.ltb_spec a (off + Z.of_nat (n `min` length src))); cbn [andb]; try lia; try done.
  - rewrite nth_drop. f_equal. lia.
  - rewrite nth_take_lt by lia. done.
Qed.

Definition in_storage (off len : Z) : Prop :=
  SPI_STORAGE_OFFSET <= off /\ off + len <= SPI_STORAGE_OFFSET + SPI_STORAGE_SIZE.

(** The length of the next chunk. *)
Definition chunk (off len : Z) : Z := Z.min (256 - off mod 256) len.

(** The number of chunks left, and the fuel of [flash_program]. *)
Definition chunks_left (off len : Z) : Z :=
  if len =? 0 then 0 else (off mod 256 + len + 255) / 256.

Lemma chunks_left_nonneg off len : 0 <= len -> ~ chunks_left off len < Z.of_nat 0.
Proof. unfold chunks_left. intros. destruct (Z.eqb_spec len 0); zlia. Qed.

Lemma chunks_left_step off len f :
  0 < len -> chunks_left off len < Z.of_nat (S f) ->
  chunks_left (off + chunk off len) (len - chunk off len) < Z.of_nat f.
Proof.
  unfold chunks_left, chunk. intros Hl.
  destruct (Z.eqb_spec len 0); [lia |].
  destruct (Z.eqb_spec (len - Z.min (256 - off mod 256) len) 0); zlia.
Qed.

Lemma chunks_left_fuel off len :
  0 <= len -> chunks_left off len < Z.of_nat (flash_program_fuel len).
Proof.
  unfold chunks_left, flash_program_fuel, FLASH_PAGE_SIZE. intros.
  destruct (Z.eqb_spec len 0); zlia.
Qed.

Lemma flash_program_step_eq off src len :
  0 < len ->
  flash_program_step (off, src, len) =
  (flash_program_page off src (chunk off len) ;;
   ret (inl (u32 (off + chunk off len), drop (Z.to_nat (chunk off len)) src,
             u32 (len - chunk off len)))).
Proof.
  intros Hl. unfold flash_program_step. rewrite (proj2 (Z.ltb_lt 0 len)) by lia.
  rewrite page_off_eq. unfold chunk, FLASH_PAGE_SIZE.
  replace (if len <? 256 - off mod 256 then len else 256 - off mod 256)
    with (Z.min (256 - off mod 256) len); [done |].
  destruct (Z.ltb_spec len (256 - off mod 256)); lia.
Qed.

Lemma no_full_page_chunk off len :
  0 <= off -> 0 < len -> no_full_page off len = true ->
  0 < chunk off len < 256 /\ off / 256 = (off + chunk off len - 1) / 256 /\
  no_full_page (off + chunk off len) (len - chunk off len) = true.
Proof.
  unfold no_full_page, chunk, PAGE_MASK, FLASH_PAGE_SIZE. intros Ho Hl Hn. b2p.
  split; [| split]; [zlia | zlia |]. apply Z.ltb_lt. zlia.
Qed.

Lemma program_loop_spec `{!FlashChip} f off src len s :
  chunks_left off len < Z.of_nat f ->
  flash_inv s -> 0 <= len -> in_storage off len -> no_full_page off len = true ->
  len = Z.of_nat (length src) -> Forall (fun b => 0 <= b < 256) src ->
  (forall a, off <= a < off + len -> view s a = 255) ->
  exists s', loop f flash_program_step (off, src, len) s = Ret tt s' /\ flash_inv s' /\
    forall a, view s' a = write_at off src (view s) a.
Proof.
  revert off src len s. induction f as [| f IH]; intros off src len s Hf Hi Hl Hr Hn Hs Hb He;
    [by destruct (chunks_left_nonneg off len) |]. cbn [loop].
  destruct (Z.eq_dec len 0) as [-> | Hz].
  { exists s. split; [reflexivity |]. split; [done |]. intros a. unfold write_at.
    rewrite <- Hs. destruct (Z.leb_spec off a), (Z.ltb_spec a (off + 0)); cbn; try lia; done. }
  rewrite flash_program_step_eq by lia.
  destruct (no_full_page_chunk off len) as (Hc & Hpg & Hn'); [| lia | done |].
  { unfold in_storage in Hr. flash_consts. lia. }
  set (n := chunk off len) in *.
  assert (n <= len) by (unfold n, chunk; lia).
  destruct Hr as [Hr1 Hr2].
  destruct (flash_program_page_spec off src n s) as (s1 & E1 & Hi1 & Hv1);
    [done | done | done | done | lia | lia | done | intros; apply He; lia |].
  mexec. rewrite E1. rewrite !u32_id
    by (unfold SPI_STORAGE_OFFSET, SPI_STORAGE_SIZE, SPI_FLASH_MEGS, JD_FSTOR_TOTAL_SIZE in *; lia).
  destruct (IH (off + n) (drop (Z.to_nat n) src) (len - n) s1) as (s2 & E2 & Hi2 & Hv2).
  - apply chunks_left_step; [lia | done].
  - done.
  - lia.
  - split; lia.
  - done.
  - rewrite length_drop. lia.
  - by apply Forall_drop.
  - intros a Ha. rewrite Hv1. unfold write_at. rewrite length_take.
    destruct (Z.ltb_spec a (off + Z.of_nat (Z.to_nat n `min` length src))); [lia |].
    rewrite andb_false_r. apply He. lia.
  - exists s2. split; [exact E2 |]. split; [done |].
    apply (write_at_split off src (Z.to_nat n) (view s) (view s1)); [lia | done |].
    by rewrite Z2Nat.id by lia.
Qed.

(** *** Every outcome of a page write *)

Lemma copy_loop_outcome n dst dp src i s :
  0 <= i -> 0 <= dp -> dp + i + Z.of_nat n <= Z.of_nat (length (rd flash_page_buf s)) ->
  i + Z.of_nat n <= Z.of_nat (length src) ->
  wpE (for_ n i (fun i => let! old := xip_load (dst + (dp + i)) in
                          JD_ASSERT (old =? 0xff) ;;
                          let! b := index src i in store flash_page_buf (dp + i) b))
    (fun _ s' => exists buf', s' = wr flash_page_buf buf' s /\
                              length buf' = length (rd flash_page_buf s))
    (fun w _ => w = Panic) s.
Proof.
  revert i s. induction n as [| n IH]; intros i s Hi Hdp Hb Hs; cbn [for_].
  - exists (rd flash_page_buf s). by rewrite wr_page_buf_id.
  - rewrite !wpE_bind. unfold wpE at 1, xip_load. rewrite wpE_bind.
    destruct (xip (tr s) (dst + (dp + i)) =? 255); [| reflexivity].
    unfold wpE at 1. cbn [JD_ASSERT]. unfold ret at 1. rewrite wpE_bind.
    unfold wpE at 1. rewrite index_nth by lia.
    unfold wpE at 1. rewrite store_run by lia.
    set (s1 := wr flash_page_buf _ s).
    assert (length (rd flash_page_buf s1) = length (rd flash_page_buf s)) as Hl
      by (unfold s1; vsimp; apply length_insert).
    eapply wpE_mono; [apply (IH (i + 1) s1); lia | | done].
    intros _ s' (buf' & -> & Hl'). exists buf'. split; [done | congruence].
Qed.

Lemma open_page_run p s :
  length (rd flash_page_buf s) = 256%nat ->
  exists s', open_page p s = Ret tt s' /\ rd last_page_addr s' = p /\
    length (rd flash_page_buf s') = 256%nat.
Proof.
  intros Hl. unfold open_page. mexec.
  destruct (Z.eqb_spec (rd last_page_addr s) p) as [He | He]; cbn [negb]; [by exists s |].
  destruct (flash_sync_run s) as (s1 & -> & _). unfold xip_block. vsimp.
  eexists. split; [reflexivity |]. split; [done |]. vsimp.
  by rewrite length_map, length_seqZ_from.
Qed.

Lemma flash_program_page_outcome addr src len s :
  length (rd flash_page_buf s) = 256%nat ->
  0 <= addr < 4294967296 -> 0 <= len <= Z.of_nat (length src) ->
  addr + len < 4294967296 ->
  wpE (flash_program_page addr src len)
    (fun _ s' => len < 256 /\ exists s1 buf', open_page (addr / 256 * 256) s = Ret tt s1 /\
       s' = wr flash_page_buf buf' s1 /\ length buf' = 256%nat)
    (fun w _ => w = Panic) s.
Proof.
  intros Hb Ha Hl Hal. unfold flash_program_page. rewrite page_addr_eq, page_off_eq by lia.
  unfold FLASH_PAGE_SIZE. destruct (Z.ltb_spec len 256); [| reflexivity].
  rewrite !wpE_bind. unfold wpE at 1. cbn [JD_ASSERT]. unfold ret at 1. rewrite wpE_bind.
  destruct (Z.eqb_spec (addr / 256) (u32 (addr + len - 1) / 256)) as [Hp | Hp]; [| reflexivity].
  unfold wpE at 1. cbn [JD_ASSERT]. unfold ret at 1.
  destruct (open_page_run (addr / 256 * 256) s Hb) as (s1 & E1 & _ & Hl1).
  eapply (proj2 (wpE_bind (open_page (addr / 256 * 256)) _ _ _ _)).
  unfold wpE at 1. rewrite E1.
  eapply wpE_mono; [apply copy_loop_outcome; try lia | | done].
  - zlia.
  - rewrite Hl1. destruct (Z.eq_dec len 0); zlia.
  - intros _ s' (buf' & -> & Hl'). split; [done |]. exists s1, buf'. repeat split. congruence.
Qed.

Lemma no_full_page_false off len :
  0 <= off -> 0 <= len -> no_full_page off len = false ->
  256 <= len /\ chunk off len = 256 - off mod 256 /\
  (off mod 256 <> 0 -> 256 <= len - chunk off len).
Proof.
  unfold no_full_page, chunk. flash_consts. intros Ho Hl Hn. b2p.
  assert (256 <= len) by zlia. repeat split; [done | zlia | intros; zlia].
Qed.

Lemma full_chunk_panics off src len s :
  off mod 256 = 0 -> 256 <= len ->
  flash_program_step (off, src, len) s = Stop Panic s.
Proof.
  intros Ho Hl. rewrite flash_program_step_eq by lia. unfold chunk. rewrite Ho.
  rewrite Z.min_l by lia. reflexivity.
Qed.

Lemma program_loop_full_page f off src len s :
  (2 <= f)%nat -> length (rd flash_page_buf s) = 256%nat ->
  0 <= off < 4294967296 - 256 -> 0 <= len < 4294967296 -> len <= Z.of_nat (length src) ->
  no_full_page off len = false ->
  exists s', loop f flash_program_step (off, src, len) s = Stop Panic s'.
Proof.
  intros Hf Hb Ho Hl Hs Hn.
  destruct (no_full_page_false off len) as (H256 & Hc & Hrest); [lia | lia | done |].
  destruct f as [| [| f]]; [lia | lia |]. cbn [loop].
  destruct (Z.eq_dec (off mod 256) 0) as [Ha | Ha].
  { eexists. by apply bind_stop, full_chunk_panics. }
  assert (0 < chunk off len < 256) as Hcr by zlia.
  rewrite flash_program_step_eq by lia.
  pose proof (flash_program_page_outcome off src (chunk off len) s) as Ho1.
  specialize (Ho1 Hb ltac:(lia) ltac:(lia) ltac:(lia)).
  mexec. unfold wpE in Ho1.
  destruct (flash_program_page off src (chunk off len) s) as [[] s1 | w s1];
    [| subst; by eexists].
  rewrite full_chunk_panics; [by eexists | |]; rewrite u32_id by lia.
  - rewrite Hc. zlia.
  - auto.
Qed.

Lemma flash_program_run `{!FlashChip} off src s :
  flash_inv s -> in_storage off (Z.of_nat (length src)) -> off mod 8 = 0 ->
  no_full_page off (Z.of_nat (length src)) = true ->
  Forall (fun b => 0 <= b < 256) src ->
  (forall a, off <= a < off + Z.of_nat (length src) -> view s a = 255) ->
  exists s', flash_program (XIP_BASE + off) src (Z.of_nat (length src)) s = Ret tt s' /\
    flash_inv s' /\ forall a, view s' a = write_at off src (view s) a.
Proof.
  intros Hi Hr Hal Hn Hb He. unfold flash_program.
  set (diff := i32 _). assert (diff = off - SPI_STORAGE_OFFSET) as ->.
  { destruct Hr. unfold diff. flash_consts. zlia. }
  replace ((0 <=? off - SPI_STORAGE_OFFSET) && _) with true.
  2:{ symmetry. destruct Hr. rewrite u32_id by (flash_consts; lia).
      apply andb_true_iff. split; apply Z.leb_le; lia. }
  replace (Z.land (off - SPI_STORAGE_OFFSET) (8 - 1) =? 0) with true.
  2:{ symmetry. apply Z.eqb_eq. change (8 - 1) with (Z.ones 3).
      rewrite Z.land_ones by lia. flash_consts. zlia. }
  cbn [JD_ASSERT]. mexec. rewrite Z.sub_add.
  apply program_loop_spec; auto; [apply chunks_left_fuel |]; lia.
Qed.

(** The guard of [flash_erase]; [erase_off addr] is the chip offset it passes on. *)
Definition erase_off (addr : Z) : Z := i32 (addr - XIP_BASE - SPI_STORAGE_OFFSET) + SPI_STORAGE_OFFSET.
Definition erase_guard (addr : Z) : Prop :=
  in_storage (erase_off addr) 4096 /\ erase_off addr mod 4096 = 0.

Lemma flash_erase_outcome addr s :
  (erase_guard addr /\
   exists s', flash_erase addr s = Ret tt s' /\ m_flash s' = m_flash s /\
     exists t, (t = [] \/ t = [E_cpsie]) /\
       tr s' = t ++ E_call (flash_range_erase (erase_off addr) 4096) :: E_cpsid :: tr s) \/
  (~ erase_guard addr /\ flash_erase addr s = Stop Panic s).
Proof.
  unfold flash_erase, erase_guard, in_storage, erase_off. set (diff := i32 _).
  destruct ((0 <=? diff) && _) eqn:Hg.
  2:{ right. split; [| done]. apply andb_false_iff in Hg. intros [Hin _].
      flash_consts. destruct Hg as [Hg | Hg]; b2p; lia. }
  b2p. change (JD_FLASH_PAGE_SIZE - 1) with (Z.ones 12). rewrite Z.land_ones by lia.
  destruct (Z.eqb_spec (diff mod 2 ^ 12) 0) as [Hal | Hal].
  2:{ right. split; [| done]. intros [_ Hal']. flash_consts. zlia. }
  left. split; [flash_consts; split; [lia | zlia] |].
  mexec. rewrite target_disable_irq_run.
  match goal with |- context [target_enable_irq ?x] =>
    destruct (target_enable_irq_trace x) as (s' & t & -> & (_ & Hf & _) & Ht & Hc & _) end.
  eexists. split; [reflexivity |]. split; [done |]. by exists t.
Qed.

(** *** Flash traffic *)

(** Interrupts are masked after the events of [t]. *)
Fixpoint irqs_masked (t : trace) : bool :=
  match t with
  | [] => false
  | E_cpsid :: _ => true
  | E_cpsie :: _ => false
  | _ :: t => irqs_masked t
  end.

(** Every flash operation of the trace is of a whole, aligned unit inside the
    storage region, and ran with interrupts masked. *)
Fixpoint flash_traffic_ok (t : trace) : Prop :=
  match t with
  | [] => True
  | e :: t =>
    match e with
    | E_call (flash_range_program off data n) =>
      n = 256 /\ length data = 256%nat /\ storage_page off /\ irqs_masked t = true
    | E_call (flash_range_erase off n) =>
      n = 4096 /\ off mod 4096 = 0 /\ in_storage off n /\ irqs_masked t = true
    | _ => True
    end /\ flash_traffic_ok t
  end.

Record flash_safe (s : machine) : Prop := {
  fs_traffic : flash_traffic_ok (tr s);
  fs_len : length (rd flash_page_buf s) = 256%nat;
  fs_page : rd last_page_addr s <> 0 -> storage_page (rd last_page_addr s)
}.

Lemma flash_sync_safe s s' :
  flash_safe s -> flash_sync s = Ret tt s' -> flash_safe s' /\ rd last_page_addr s' = 0.
Proof.
  intros [Ht Hl Hp] Hr. destruct (flash_sync_run s) as (s1 & E1 & Hb1 & Hl1 & Ht1).
  rewrite E1 in Hr. injection Hr as <-. split; [| done].
  constructor; [| congruence | congruence].
  destruct (z2b (rd last_page_addr s)) eqn:Hz; [| by subst].
  unfold z2b in Hz. b2p. destruct Ht1 as (t & [-> | ->] & ->); cbn; auto 10.
Qed.

Lemma open_page_safe p s s' :
  flash_safe s -> storage_page p -> open_page p s = Ret tt s' ->
  flash_safe s' /\ rd last_page_addr s' = p.
Proof.
  intros Hs Hp Hr. destruct (open_page_run p s (fs_len s Hs)) as (s1 & E1 & Hl1 & Hb1).
  rewrite E1 in Hr. injection Hr as <-. split; [| done].
  constructor; [| done | by rewrite Hl1]. unfold open_page in E1.
  apply bind_inv in E1 as (a & s2 & E2 & E1). injection E2 as <- <-.
  destruct (negb _); [| injection E1 as <-; apply Hs].
  apply bind_inv in E1 as ([] & s3 & E3 & E1).
  destruct (flash_sync_safe s s3 Hs E3) as [Hs3 _].
  injection E1 as <-. apply Hs3.
Qed.

Lemma flash_program_page_safe addr src len s s' :
  flash_safe s -> storage_page (addr / 256 * 256) ->
  0 <= addr < 4294967296 -> 0 <= len <= Z.of_nat (length src) -> addr + len < 4294967296 ->
  flash_program_page addr src len s = Ret tt s' -> flash_safe s'.
Proof.
  intros Hs Hp Ha Hl Hal Hr.
  pose proof (flash_program_page_outcome addr src len s (fs_len s Hs) Ha Hl Hal) as Ho.
  unfold wpE in Ho. rewrite Hr in Ho. destruct Ho as (_ & s1 & buf' & E1 & -> & Hb).
  destruct (open_page_safe _ s s1 Hs Hp E1) as [[Ht Hl1 Hp1] _].
  constructor; vsimp; auto.
Qed.

Lemma program_loop_safe f off src len s s' :
  flash_safe s -> 0 <= len <= Z.of_nat (length src) -> in_storage off len ->
  loop f flash_program_step (off, src, len) s = Ret tt s' -> flash_safe s'.
Proof.
  revert off src len s. induction f as [| f IH]; intros off src len s Hs Hl [Hlo Hhi] Hr;
    [discriminate |]. cbn [loop] in Hr.
  destruct (Z.eq_dec len 0) as [-> | Hz]; [injection Hr as <-; done |].
  rewrite flash_program_step_eq in Hr by lia.
  apply bind_inv in Hr as (r & s2 & E1 & Hr).
  apply bind_inv in E1 as ([] & s1 & E1 & E2). injection E2 as <- <-.
  assert (0 < chunk off len <= len) as Hc by (unfold chunk; zlia).
  rewrite !u32_id in Hr by (flash_consts; lia).
  eapply (IH _ _ _ s1); [| | | exact Hr].
  - eapply flash_program_page_safe; [exact Hs | | | | | exact E1]; try (flash_consts; lia).
    unfold storage_page. flash_consts. zlia.
  - rewrite length_drop. lia.
  - split; lia.
Qed.

(** The operations a client may run, in any order, between other events. *)
Inductive flash_step : machine -> machine -> Prop :=
| fst_sync s s' : flash_sync s = Ret tt s' -> flash_step s s'
| fst_program dst src len s s' :
    0 <= len < 4294967296 -> len <= Z.of_nat (length src) ->
    flash_program dst src len s = Ret tt s' -> flash_step s s'
| fst_erase addr s s' : flash_erase addr s = Ret tt s' -> flash_step s s'
| fst_other e s : flash_call e = false -> flash_step s (emit e s).

Lemma flash_program_safe dst src len s s' :
  flash_safe s -> 0 <= len < 4294967296 -> len <= Z.of_nat (length src) ->
  flash_program dst src len s = Ret tt s' -> flash_safe s'.
Proof.
  intros Hs Hl Hsrc Hr. unfold flash_program in Hr. set (diff := i32 _) in *.
  pose proof (i32_range (dst - XIP_BASE - SPI_STORAGE_OFFSET)) as Hd. fold diff in Hd.
  destruct ((0 <=? diff) && _) eqn:Hg; [| discriminate]. b2p.
  destruct (Z.land diff (8 - 1) =? 0); [| discriminate].
  change (loop (flash_program_fuel len) flash_program_step
            (diff + SPI_STORAGE_OFFSET, src, len) s = Ret tt s') in Hr.
  destruct (no_full_page (diff + SPI_STORAGE_OFFSET) len) eqn:Hn.
  - apply program_loop_safe in Hr; [done | done | lia |].
    unfold no_full_page, in_storage in *. flash_consts. b2p. rewrite u32_id in * by zlia. lia.
  - destruct (program_loop_full_page (flash_program_fuel len) (diff + SPI_STORAGE_OFFSET) src len s)
      as (s1 & E1); [unfold flash_program_fuel; flash_consts; zlia | apply Hs
        | flash_consts; lia | lia | lia | done | congruence].
Qed.

Lemma flash_erase_safe addr s s' :
  flash_safe s -> flash_erase addr s = Ret tt s' -> flash_safe s'.
Proof.
  intros [Ht Hl Hp] Hr. destruct (flash_erase_outcome addr s) as [(Hg & s1 & E1 & Hm & t & Hc & E2) | [_ E1]];
    rewrite E1 in Hr; [| discriminate]. injection Hr as <-.
  destruct Hg as [Hin Hal].
  constructor; [| change (length (f_flash_page_buf (m_flash s1)) = 256%nat); by rewrite Hm |].
  - rewrite E2. destruct Hc as [-> | ->]; cbn; split_and!; auto; apply Hin.
  - change (f_last_page_addr (m_flash s1) <> 0 -> storage_page (f_last_page_addr (m_flash s1))).
    by rewrite Hm.
Qed.

Lemma flash_step_safe s s' : flash_safe s -> flash_step s s' -> flash_safe s'.
Proof.
  intros Hs Hst. destruct Hst as [s s' Hr | dst src len s s' Hl Hsrc Hr | addr s s' Hr | e s He].
  - by eapply flash_sync_safe in Hr as [Hr _].
  - by eapply flash_program_safe.
  - by eapply flash_erase_safe.
  - destruct Hs as [Ht Hl Hp]. constructor; vsimp; [| done | done].
    destruct e; cbn in *; try tauto. destruct c; cbn in *; try tauto; discriminate.
Qed.
End Lemmas.

(** *** The reference environment is a flash chip *)

#[export] Instance ref_chip t0 own rets bytes : @FlashChip (ref_env t0 own rets bytes).
Proof.
  constructor; cbn.
  - induction t as [| e t IH]; intros a; cbn; [lia |].
    destruct e; auto. destruct c; auto; destruct (_ && _); auto; [| lia].
    specialize (IH a). rewrite Z.land_comm.
    split; [apply Z.land_nonneg; lia |].
    assert (ref_xip t a = Z.land (ref_xip t a) (Z.ones 8)) as ->
      by (rewrite Z.land_ones, Z.mod_small; lia).
    rewrite Z.land_assoc, Z.land_ones by lia. zlia.
  - done.
  - done.
  - intros t e a He. destruct e; try done. destruct c; done.
Qed.

(** A machine whose buffer is empty satisfies the invariant. *)
Lemma flash_inv_idle {E : Env} s :
  rd last_page_addr s = 0 -> rd flash_page_buf s = replicate 256 0 -> flash_inv s.
Proof.
  intros Hl Hb. constructor; rewrite ?Hl, ?Hb; try done.
  apply Forall_replicate. lia.
Qed.

(** ** Properties *)

(** C7: programming and syncing.  A write to the storage that starts at a
    multiple of 8, covers no whole page and targets bytes that are erased, in the
    chip and in the buffer - the code asserts the first three - returns,
    keeps the buffer invariant, and changes the abstract storage exactly at the
    bytes written; a [flash_sync] after it makes the chip hold that storage. *)
Theorem flash_program_sync_roundtrip {E : Env} `{!FlashChip} off src s :
  flash_inv s -> in_storage off (Z.of_nat (length src)) -> off mod 8 = 0 ->
  no_full_page off (Z.of_nat (length src)) = true ->
  Forall (fun b => 0 <= b < 256) src ->
  (forall a, off <= a < off + Z.of_nat (length src) -> view s a = 255) ->
  exists s1 s2,
    flash_program (XIP_BASE + off) src (Z.of_nat (length src)) s = Ret tt s1 /\
    flash_inv s1 /\ (forall a, view s1 a = write_at off src (view s) a) /\
    flash_sync s1 = Ret tt s2 /\ flash_inv s2 /\ rd last_page_addr s2 = 0 /\
    forall a, xip (tr s2) a = write_at off src (view s) a.
Proof.
  intros Hi Hr Hal Hn Hb He.
  destruct (flash_program_run off src s) as (s1 & E1 & Hi1 & Hv1); auto.
  destruct (flash_sync_spec s1 Hi1) as (s2 & E2 & Hi2 & Hl2 & Hx & _).
  exists s1, s2. split_and!; auto. intros a. by rewrite Hx.
Qed.

Lemma flash_program_sync_roundtrip_witness :
  exists s1 s2,
    @flash_program env0 (XIP_BASE + 917504) [1; 2; 3] 3 machine_init = Ret tt s1 /\
    @flash_inv env0 s1 /\
    (forall a, @view env0 s1 a = write_at 917504 [1; 2; 3] (@view env0 machine_init) a) /\
    flash_sync s1 = Ret tt s2 /\ @flash_inv env0 s2 /\ rd last_page_addr s2 = 0 /\
    forall a, @xip env0 (tr s2) a = write_at 917504 [1; 2; 3] (@view env0 machine_init) a.
Proof.
  apply (@flash_program_sync_roundtrip env0 _ 917504 [1; 2; 3] machine_init).
  - by apply flash_inv_idle.
  - cbn. unfold in_storage. flash_consts. lia.
  - reflexivity.
  - reflexivity.
  - repeat constructor; lia.
  - intros a Ha. reflexivity.
Defined.

(** C28: a write that covers a whole 256-byte page always panics, whatever the
    flash holds: the chunk that covers the page has length 256 and
    [flash_program_page] asserts [len < FLASH_PAGE_SIZE]. *)
Theorem flash_program_full_page_panics {E : Env} dst src len s :
  length (rd flash_page_buf s) = 256%nat ->
  0 <= len < 4294967296 -> len <= Z.of_nat (length src) ->
  no_full_page (i32 (dst - XIP_BASE - SPI_STORAGE_OFFSET) + SPI_STORAGE_OFFSET) len = false ->
  exists s', flash_program dst src len s = Stop Panic s'.
Proof.
  intros Hb Hl Hs Hn. unfold flash_program. set (diff := i32 _) in *.
  pose proof (i32_range (dst - XIP_BASE - SPI_STORAGE_OFFSET)) as Hd. fold diff in Hd.
  destruct ((0 <=? diff) && _) eqn:Hr; [| by eexists]. b2p. mexec.
  destruct (Z.land diff (8 - 1) =? 0); [| by eexists]. mexec.
  apply program_loop_full_page; [| done | flash_consts; lia | lia | lia | done].
  unfold flash_program_fuel. flash_consts. zlia.
Qed.


Lemma flash_program_full_page_panics_witness :
  no_full_page 917504 256 = false /\
  exists s', @flash_program env0 (XIP_BASE + 917504) (replicate 256 7) 256 machine_init
             = Stop Panic s'.
Proof.
  split; [reflexivity |].
  apply (@flash_program_full_page_panics env0 (XIP_BASE + 917504) (replicate 256 7) 256);
    [reflexivity | lia | rewrite length_replicate; lia | reflexivity].
Defined.

(** Every flash operation the firmware ever issues, through any sequence
    of programs, erases and syncs that return, is a whole page or sector inside
    the storage region, issued with interrupts masked. *)
Theorem flash_traffic_safe {E : Env} s :
  star flash_step machine_init s -> flash_traffic_ok (tr s).
Proof.
  intros Hs. apply fs_traffic.
  apply (star_invariant flash_step flash_safe flash_step_safe machine_init s Hs).
  constructor; [exact I | reflexivity | done].
Qed.

Lemma flash_traffic_safe_witness :
  exists s1 s2, @flash_program env0 (XIP_BASE + 917504) [1; 2; 3] 3 machine_init = Ret tt s1 /\
                flash_sync s1 = Ret tt s2 /\ length (tr s2) = 3%nat /\ flash_traffic_ok (tr s2).
Proof.
  eexists _, _. split; [vm_compute; reflexivity |]. split; [vm_compute; reflexivity |].
  split; [reflexivity |]. apply (@flash_traffic_safe env0).
  eapply star_step; [eapply (@fst_program env0 (XIP_BASE + 917504) [1; 2; 3] 3) |].
  - lia.
  - cbn. lia.
  - vm_compute. reflexivity.
  - apply star_one, fst_sync. vm_compute. reflexivity.
Defined.

(** C29: [flash_erase] erases one sector of the chip, and panics exactly when
    the address is not a sector of the storage region; but the page waiting in
    the buffer survives it, also when it belongs to that sector: the next
    [flash_sync] programs its old contents back, and then the chip holds them
    there and the erased sector elsewhere. *)
Theorem flash_erase_keeps_pending_page {E : Env} `{!FlashChip} addr s (p := rd last_page_addr s) :
  flash_inv s ->
  (erase_guard addr /\
   exists s1 s2, flash_erase addr s = Ret tt s1 /\ flash_inv s1 /\
     (forall a, xip (tr s1) a =
        if (erase_off addr <=? a) && (a <? erase_off addr + 4096) then 255 else xip (tr s) a) /\
     flash_sync s1 = Ret tt s2 /\ flash_inv s2 /\ rd last_page_addr s2 = 0 /\
     (forall a, xip (tr s2) a =
        if z2b p && in_page p a then nth (Z.to_nat (a - p)) (rd flash_page_buf s) 0 else xip (tr s1) a)) \/
  (~ erase_guard addr /\ flash_erase addr s = Stop Panic s).
Proof.
  intros [Hl Hb Hp Hm].
  destruct (flash_erase_outcome addr s) as [(Hg & s1 & E1 & Hf & t & Hc & E2) | Hs]; [| by right].
  left. split; [done |].
  assert (rd last_page_addr s1 = p /\ rd flash_page_buf s1 = rd flash_page_buf s) as [Hr1 Hr2]
    by (split; unfold p, rd; cbn; by rewrite Hf).
  assert (forall a, xip (tr s1) a =
    if (erase_off addr <=? a) && (a <? erase_off addr + 4096) then 255 else xip (tr s) a) as Hx.
  { intros a. rewrite E2.
    transitivity (xip (E_call (flash_range_erase (erase_off addr) 4096) :: E_cpsid :: tr s) a).
    { destruct Hc as [-> | ->]; cbn; [done | by apply chip_other]. }
    rewrite chip_erase by (apply Hg || reflexivity). by rewrite (chip_other (tr s)). }
  assert (flash_inv s1) as Hi1.
  { constructor; rewrite ?Hr1, ?Hr2; auto. intros i Hi Hne. rewrite Hx. destruct (_ && _); auto. }
  destruct (flash_sync_spec s1 Hi1) as (s2 & Es & Hi2 & Hz & Hx2 & _).
  exists s1, s2. split_and!; try done. intros a. rewrite Hx2. unfold view. rewrite Hr1, Hr2. reflexivity.
Qed.

(** Three bytes are waiting for the first page of the storage when its sector is
    erased. *)
Definition flash_pending : machine :=
  match @flash_program env0 (XIP_BASE + 917504) [1; 2; 3] 3 machine_init with Ret _ s => s | Stop _ s => s end.

Lemma flash_pending_inv : @flash_inv env0 flash_pending.
Proof.
  destruct (@flash_program_run env0 _ 917504 [1; 2; 3] machine_init) as (s1 & E1 & Hi1 & _).
  - by apply flash_inv_idle.
  - cbn. unfold in_storage. flash_consts. lia.
  - reflexivity.
  - reflexivity.
  - repeat constructor; lia.
  - intros a Ha. reflexivity.
  - unfold flash_pending. change (Z.of_nat (length [1; 2; 3])) with 3 in E1. by rewrite E1.
Qed.

Lemma flash_erase_keeps_pending_page_witness :
  rd last_page_addr flash_pending = 917504 /\
  exists s1 s2, @flash_erase (XIP_BASE + 917504) flash_pending = Ret tt s1 /\ flash_sync s1 = Ret tt s2 /\
    @xip env0 (tr s1) 917505 = 255 /\ @xip env0 (tr s2) 917505 = 2 /\ @xip env0 (tr s2) 917507 = 255.
Proof.
  split; [vm_compute; reflexivity |].
  destruct (@flash_erase_keeps_pending_page env0 _ (XIP_BASE + 917504) flash_pending flash_pending_inv)
    as [(_ & s1 & s2 & E1 & _ & Hx1 & E2 & _ & _ & Hx2) | [_ Hstop]].
  - exists s1, s2. split; [exact E1 |]. split; [exact E2 |].
    rewrite !Hx2, Hx1. vm_compute. by split_and!.
  - exfalso. vm_compute in Hstop. discriminate.
Defined.

(** *** What the storage is not *)

(** Traffic inside the storage leaves every other byte of the chip as it was. *)
Lemma traffic_spares {E : Env} `{!FlashChip} t a : flash_traffic_ok t ->
  a < SPI_STORAGE_OFFSET \/ SPI_STORAGE_OFFSET + SPI_STORAGE_SIZE <= a -> xip t a = xip [] a.
Proof.
  intros Ht Ha. induction t as [| e t IH]; [done |]. destruct Ht as [He Ht]. rewrite <- (IH Ht).
  destruct (flash_call e) eqn:Hf; [| by apply chip_other].
  destruct e as [| | c | | | | |]; try done. destruct c; try done.
  - destruct He as (-> & _ & [Hal [H1 H2]] & _). rewrite chip_program by done.
    rewrite (proj2 (andb_false_iff _ _)); [done |]. destruct Ha; [left; apply Z.leb_gt | right; apply Z.ltb_ge];
      flash_consts; zlia.
  - destruct He as (-> & Hal & [H1 H2] & _). rewrite chip_erase by done.
    rewrite (proj2 (andb_false_iff _ _)); [done |]. destruct Ha; [left; apply Z.leb_gt | right; apply Z.ltb_ge];
      flash_consts; lia.
Qed.

(** C18: whatever sequence of programs, erases and syncs returns, every operation
    on the chip was a whole page or sector of the storage region, issued with
    interrupts masked; so the flash outside the storage region is as it was at reset: the program, and the
    configuration area of 16 KiB at [JD_DCFG_BASE_ADDR], which consists of whole
    sectors directly below the storage and shares none with it. *)
Theorem flash_spares_configuration {E : Env} `{!FlashChip} s a :
  star flash_step machine_init s ->
  flash_traffic_ok (tr s) /\
  (a < SPI_STORAGE_OFFSET \/ SPI_STORAGE_OFFSET + SPI_STORAGE_SIZE <= a -> xip (tr s) a = xip [] a) /\
  (JD_DCFG_BASE_ADDR <= XIP_BASE + a < JD_DCFG_BASE_ADDR + 16 * 1024 ->
     xip (tr s) a = xip [] a /\ ~ in_storage (a / JD_FLASH_PAGE_SIZE * JD_FLASH_PAGE_SIZE) JD_FLASH_PAGE_SIZE).
Proof.
  intros Hs. assert (flash_traffic_ok (tr s)) as Ht.
  { apply fs_traffic, (star_invariant flash_step flash_safe flash_step_safe machine_init s Hs).
    constructor; [exact I | reflexivity | done]. }
  split; [done |]. split; [by apply traffic_spares |]. unfold JD_DCFG_BASE_ADDR, JD_FSTOR_BASE_ADDR, XIP_BASE. intros Ha.
  split; [apply (traffic_spares _ a Ht); left; lia |]. intros [Hlo _]. revert Hlo Ha. flash_consts. zlia.
Qed.

(** A sector of the storage is erased; the configuration area is spared. *)
Lemma flash_spares_configuration_witness :
  exists s1, flash_erase (XIP_BASE + 917504) machine_init = Ret tt s1 /\ length (tr s1) <> O /\
    flash_traffic_ok (tr s1) /\
    (900000 < SPI_STORAGE_OFFSET \/ SPI_STORAGE_OFFSET + SPI_STORAGE_SIZE <= 900000 ->
       @xip env0 (tr s1) 900000 = @xip env0 [] 900000) /\
    (JD_DCFG_BASE_ADDR <= XIP_BASE + 905000 < JD_DCFG_BASE_ADDR + 16 * 1024 ->
       @xip env0 (tr s1) 905000 = @xip env0 [] 905000 /\
       ~ in_storage (905000 / JD_FLASH_PAGE_SIZE * JD_FLASH_PAGE_SIZE) JD_FLASH_PAGE_SIZE).
Proof.
  eexists. split; [vm_compute; reflexivity |]. split; [discriminate |].
  split; [apply (@flash_spares_configuration env0 _ _ 0) | split];
    [| apply (@flash_spares_configuration env0 _ _ 900000) | apply (@flash_spares_configuration env0 _ _ 905000)];
    apply star_one, (@fst_erase env0 (XIP_BASE + 917504)); vm_compute; reflexivity.
Defined.
