(* ===== verification/Dma.v ===== *)
(** * Dma: the completion dispatcher and the NVIC helpers of [dma.c]

    Twelve one-shot handlers, one per DMA channel.  A driver arms a channel
    with [dma_set_ch_cb]; the interrupt serves every pending armed channel in
    ascending order and disarms it before it calls the handler.  The handlers
    are code of the drivers: the dispatcher is stated against the interface
    [DmaClient]. *)

From S2P Require Import Prelude Events Machine RefEnv.

(** ** Definitions *)

Definition DMA_IRQ_0 : Z := 11.
Definition NUM_DMA_CHANNELS : Z := 12.

(** [num & ~3u]: the offset of the IPR word. *)
Definition ipr_offset (num : Z) : Z := Z.land num (u32 (Z.lnot 3)).

Definition dmaHandler : var (list DMAHandler) := {|
  rd s := f_dmaHandler (m_dma s);
  wr v := upd_dma (fun x => {| f_dmaHandler := v |}) |}.

(** What the drivers provide: calling a completion handler with its context. *)
Class DmaClient := run_cb_arg : cb_arg_t -> option cb_t -> M unit.

Section Operations.
Context {E : Env}.

Definition irq_set_mask_enabled_ (mask : Z) (enabled : bool) : M unit :=
  if enabled then (NVIC_ICPR <-~ mask ;; NVIC_ISER <-~ mask)
  else NVIC_ICER <-~ mask.

Definition ram_irq_set_priority (num hardware_priority : Z) : M unit :=
  let p := NVIC_IPR (ipr_offset num) in
  let sh := 8 * Z.land num 3 in
  let! w := load p in
  p <-~ Z.lor (Z.land w (u32 (Z.lnot (Z.shiftl 0xff sh))))
              (u32 (Z.shiftl hardware_priority sh)).

Definition ram_irq_set_enabled (num : Z) (enabled : bool) : M unit :=
  let! m := c_shl1 num in
  irq_set_mask_enabled_ m enabled.

Definition isr_dma_0 `{!DmaClient} : M unit :=
  let! mask := load DMA_INTS0 in
  DMA_INTS0 <-~ mask ;;
  for_ 12 0 (fun ch =>
    when z2b (Z.land (bit ch) mask) do
      (let! tbl := get dmaHandler in
       let! e := index tbl ch in
       match handler e with
       | Some f =>
         sdk (dma_channel_set_irq0_enabled ch false) ;;
         store dmaHandler ch (mkDMAHandler (context e) None) ;;
         run_cb_arg f (context e)
       | None => ret tt
       end)).

Definition dma_dump : M unit :=
  let! ints0 := load DMA_INTS0 in
  let! inte0 := load DMA_INTE0 in
  let! en := sdkv (irq_is_enabled DMA_IRQ_0) in
  sdk (DMESG "DMA ints0=%x inte0=%x en=%d" [ints0; inte0; en]).

Definition dma_set_ch_cb (channel : Z) (h : option cb_arg_t) (ctx : option cb_t) : M unit :=
  let channel := u8 channel in
  if NUM_DMA_CHANNELS <=? channel then ret tt
  else
    (let! tbl := get dmaHandler in
     let! e := index tbl channel in
     JD_ASSERT (match handler e with Some _ => false | None => true end) ;;
     store dmaHandler channel (mkDMAHandler ctx h) ;;
     DMA_INTS0 <-~ bit channel ;;
     sdk (dma_channel_set_irq0_enabled channel true) ;;
     ram_irq_set_enabled DMA_IRQ_0 true).
End Operations.

(** *** The specification of the interrupt: a list of calls *)

(** The channels of [chs] that are pending in [mask] and armed in [tbl]. *)
Definition fired_in (mask : Z) (tbl : list DMAHandler) (ch : Z) : list (Z * cb_arg_t * option cb_t) :=
  match tbl !! Z.to_nat ch with
  | Some (mkDMAHandler ctx (Some f)) =>
    if z2b (Z.land (bit ch) mask) then [(ch, f, ctx)] else []
  | _ => []
  end.

Definition fired (mask : Z) (tbl : list DMAHandler) (from : Z) (n : nat)
  : list (Z * cb_arg_t * option cb_t) :=
  concat (map (fired_in mask tbl) (seqZ_from from n)).

Section Spec.
Context {E : Env} `{!DmaClient}.

Definition serve (call : Z * cb_arg_t * option cb_t) : M unit :=
  let '(ch, f, ctx) := call in
  sdk (dma_channel_set_irq0_enabled ch false) ;;
  store dmaHandler ch (mkDMAHandler ctx None) ;;
  run_cb_arg f ctx.

Fixpoint serve_all (calls : list (Z * cb_arg_t * option cb_t)) : M unit :=
  match calls with
  | [] => ret tt
  | c :: calls => serve c ;; serve_all calls
  end.

(** The handlers leave the table as they find it. *)
Class DmaClientFrame : Prop := {
  client_frame f ctx s :
    wpE (run_cb_arg f ctx) (fun _ s' => rd dmaHandler s' = rd dmaHandler s) (fun _ _ => True) s
}.
End Spec.

(** ** Lemmas *)

Section Lemmas.
Context {E : Env} `{DC : !DmaClient}.

Lemma fired_app mask tbl from n :
  fired mask tbl from (S n) = fired_in mask tbl from ++ fired mask tbl (from + 1) n.
Proof. reflexivity. Qed.

Lemma fired_update mask tbl from n ch e :
  0 <= ch < from ->
  fired mask (<[Z.to_nat ch := e]> tbl) from n = fired mask tbl from n.
Proof.
  intros Hch. revert from Hch. induction n as [| n IH]; intros from Hch; [reflexivity |].
  rewrite !fired_app, IH by lia. f_equal. unfold fired_in.
  by rewrite list_lookup_insert_ne by lia.
Qed.

Lemma serve_frame f ctx ch s `{!DmaClientFrame} :
  0 <= ch < Z.of_nat (length (rd dmaHandler s)) ->
  wpE (serve (ch, f, ctx))
    (fun _ s' => rd dmaHandler s' = <[Z.to_nat ch := mkDMAHandler ctx None]> (rd dmaHandler s))
    (fun _ _ => True) s.
Proof.
  intros Hch. unfold serve, wpE. mexec. rewrite store_run by (vsimp; lia).
  exact (client_frame f ctx (wr dmaHandler _ _)).
Qed.

(** One iteration of the dispatch loop. *)
Definition dispatch (mask ch : Z) : M unit :=
  when z2b (Z.land (bit ch) mask) do
    (let! tbl := get dmaHandler in
     let! e := index tbl ch in
     match handler e with
     | Some f => sdk (dma_channel_set_irq0_enabled ch false) ;;
                 store dmaHandler ch (mkDMAHandler (context e) None) ;;
                 run_cb_arg f (context e)
     | None => ret tt
     end).

Lemma dispatch_serve mask ch s :
  0 <= ch < Z.of_nat (length (rd dmaHandler s)) ->
  dispatch mask ch s = serve_all (fired_in mask (rd dmaHandler s) ch) s.
Proof.
  intros Hch. destruct (lookup_lt_is_Some_2 (rd dmaHandler s) (Z.to_nat ch)) as [e Hx]; [lia |].
  unfold dispatch, fired_in. rewrite Hx.
  destruct e as [ctx [f |]], (z2b (Z.land (bit ch) mask)); try reflexivity;
    unfold bind at 1, get at 1, bind at 1; rewrite (index_run _ _ _ _ (proj1 Hch) Hx);
    [| reflexivity].
  cbn [serve_all handler context]. unfold bind at 3.
  change ((sdk (dma_channel_set_irq0_enabled ch false) ;;
           store dmaHandler ch (mkDMAHandler ctx None) ;; run_cb_arg f ctx) s)
    with (serve (ch, f, ctx) s).
  by destruct (serve (ch, f, ctx) s) as [[] s' |].
Qed.

Lemma serve_all_app l1 l2 s :
  serve_all (l1 ++ l2) s = bind (serve_all l1) (fun _ => serve_all l2) s.
Proof.
  revert s. induction l1 as [| c l1 IH]; intros s; [reflexivity |].
  cbn [app serve_all]. unfold bind at 1 2 3. destruct (serve c s); [apply IH | reflexivity].
Qed.

Lemma dispatch_frame `{!DmaClientFrame} mask ch s :
  0 <= ch < Z.of_nat (length (rd dmaHandler s)) ->
  wpE (dispatch mask ch)
    (fun _ s' => exists e, rd dmaHandler s' = <[Z.to_nat ch := e]> (rd dmaHandler s) /\
       (z2b (Z.land (bit ch) mask) = true -> handler e = None))
    (fun _ _ => True) s.
Proof.
  intros Hch. unfold wpE. rewrite dispatch_serve by done.
  destruct (lookup_lt_is_Some_2 (rd dmaHandler s) (Z.to_nat ch)) as [e Hx]; [lia |].
  unfold fired_in. rewrite Hx.
  destruct e as [ctx [f |]], (z2b (Z.land (bit ch) mask)); cbn [serve_all];
    try (eexists; split; [symmetry; by apply list_insert_id | done]).
  pose proof (serve_frame f ctx ch s Hch) as Hs. unfold wpE in Hs. unfold bind.
  destruct (serve (ch, f, ctx) s) as [[] s' |]; [| done]. cbn. eexists; split; done.
Qed.

Lemma isr_loop `{!DmaClientFrame} mask n from s :
  0 <= from -> from + Z.of_nat n <= 12 -> length (rd dmaHandler s) = 12%nat ->
  for_ n from (dispatch mask) s = serve_all (fired mask (rd dmaHandler s) from n) s /\
  wpE (for_ n from (dispatch mask))
    (fun _ s' => length (rd dmaHandler s') = 12%nat /\ forall ch,
       (0 <= ch < from -> rd dmaHandler s' !! Z.to_nat ch = rd dmaHandler s !! Z.to_nat ch) /\
       (from <= ch < from + Z.of_nat n -> fired_in mask (rd dmaHandler s') ch = []))
    (fun _ _ => True) s.
Proof.
  revert from s. induction n as [| n IH]; intros from s Hf Hn Hl.
  { split; [reflexivity |]. split; [done |]. intros. split; [done | lia]. }
  rewrite fired_app, serve_all_app. unfold bind at 1. rewrite <- dispatch_serve by lia.
  pose proof (dispatch_frame mask from s ltac:(lia)) as Hd. unfold wpE in Hd |- *.
  cbn [for_]. unfold bind. destruct (dispatch mask from s) as [[] s1 | w s1]; [| done].
  destruct Hd as (e & Hs1 & He). destruct (IH (from + 1) s1) as [E1 W1]; [lia | lia | |].
  { by rewrite Hs1, length_insert. }
  rewrite E1, Hs1, fired_update by lia. split; [done |].
  unfold wpE in W1. rewrite E1, Hs1, fired_update in W1 by lia.
  clear E1. destruct (serve_all _ s1) as [[] s2 |]; [| done]. destruct W1 as [Hl2 Hc]. split; [done |].
  intros ch. destruct (Hc ch) as [Hlo Hhi]. split; intros Hch.
  - rewrite Hlo by lia. by rewrite list_lookup_insert_ne by lia.
  - destruct (Z.eq_dec ch from) as [-> |]; [| apply Hhi; lia].
    unfold fired_in. rewrite Hlo by lia. rewrite list_lookup_insert_eq by lia.
    destruct e as [ctx [f |]]; [| done].
    destruct (z2b (Z.land (bit from) mask)); [| done]. by specialize (He eq_refl).
Qed.
End Lemmas.

(** *** Arming a channel *)

Lemma shl1_run n s : 0 <= n < 32 -> c_shl1 n s = Ret (bit n) s.
Proof.
  intros Hn. unfold c_shl1. rewrite (proj2 (Z.leb_le 0 n)), (proj2 (Z.ltb_lt n 32)) by lia.
  cbn. unfold ret. f_equal. apply u32_id. rewrite bit_pow by lia.
  split; [lia |]. change 4294967296 with (2 ^ 32). apply Z.pow_lt_mono_r; lia.
Qed.

Lemma dma_set_run ch f ctx old s :
  0 <= ch < 12 -> rd dmaHandler s !! Z.to_nat ch = Some (mkDMAHandler old None) ->
  dma_set_ch_cb ch f ctx s =
  Ret tt (emit (E_write NVIC_ISER (bit DMA_IRQ_0)) (emit (E_write NVIC_ICPR (bit DMA_IRQ_0))
    (emit (E_call (dma_channel_set_irq0_enabled ch true)) (emit (E_write DMA_INTS0 (bit ch))
      (wr dmaHandler (<[Z.to_nat ch := mkDMAHandler ctx f]> (rd dmaHandler s)) s))))).
Proof.
  intros Hch Hh. unfold dma_set_ch_cb, NUM_DMA_CHANNELS. rewrite u8_id by lia.
  rewrite (proj2 (Z.leb_gt 12 ch)) by lia. unfold bind at 1 2, get at 1.
  rewrite (index_run _ _ _ _ (proj1 Hch) Hh). cbn [handler JD_ASSERT].
  unfold bind at 1, ret at 1. unfold bind at 1.
  rewrite store_run by (apply lookup_lt_Some in Hh; lia). reflexivity.
Qed.

Lemma dma_set_panic ch f ctx old g s :
  0 <= ch < 12 -> rd dmaHandler s !! Z.to_nat ch = Some (mkDMAHandler old (Some g)) ->
  dma_set_ch_cb ch f ctx s = Stop Panic s.
Proof.
  intros Hch Hh. unfold dma_set_ch_cb, NUM_DMA_CHANNELS. rewrite u8_id by lia.
  rewrite (proj2 (Z.leb_gt 12 ch)) by lia. unfold bind at 1 2, get at 1.
  by rewrite (index_run _ _ _ _ (proj1 Hch) Hh).
Qed.

(** *** Byte lanes *)

(** Byte [k] of a 32-bit word. *)
Definition lane (w k : Z) : Z := Z.land (Z.shiftr w (8 * k)) 255.

Lemma testbit_shiftl_ff sh n :
  0 <= sh -> 0 <= n -> Z.testbit (Z.shiftl 255 sh) n = (sh <=? n) && (n <? sh + 8).
Proof.
  intros Hs Hn. rewrite Z.shiftl_spec by lia. change 255 with (Z.ones 8).
  destruct (Z.leb_spec sh n); [| rewrite Z.testbit_neg_r by lia; reflexivity].
  destruct (Z.ltb_spec n (sh + 8));
    [rewrite Z.ones_spec_low by lia | rewrite Z.ones_spec_high by lia]; reflexivity.
Qed.

Lemma testbit_u32 z n : 0 <= n -> Z.testbit (u32 z) n = (n <? 32) && Z.testbit z n.
Proof.
  intros Hn. unfold u32. change 4294967296 with (2 ^ 32).
  destruct (Z.ltb_spec n 32);
    [rewrite Z.mod_pow2_bits_low by lia | rewrite Z.mod_pow2_bits_high by lia]; reflexivity.
Qed.

Lemma lane_write w p j k :
  0 <= p < 256 -> 0 <= j < 4 -> 0 <= k < 4 ->
  lane (Z.lor (Z.land w (u32 (Z.lnot (Z.shiftl 255 (8 * j))))) (u32 (Z.shiftl p (8 * j)))) k =
  if k =? j then p else lane w k.
Proof.
  intros Hp Hj Hk. apply Z.bits_inj'. intros n Hn. unfold lane.
  assert (forall x, Z.testbit (Z.land (Z.shiftr x (8 * k)) 255) n =
                    (n <? 8) && Z.testbit x (n + 8 * k)) as Hlane.
  { intros x. rewrite Z.land_spec, Z.shiftr_spec by lia. change 255 with (Z.ones 8).
    destruct (Z.ltb_spec n 8);
      [rewrite Z.ones_spec_low by lia; apply andb_true_r
      | rewrite Z.ones_spec_high by lia; apply andb_false_r]. }
  assert (forall m, 8 <= m -> Z.testbit p m = false) as Hhi.
  { intros m Hm. replace p with (p mod 2 ^ 8) by (apply Z.mod_small; lia).
    apply Z.mod_pow2_bits_high. lia. }
  rewrite Hlane, Z.lor_spec, Z.land_spec, !testbit_u32, Z.lnot_spec, testbit_shiftl_ff,
    Z.shiftl_spec by lia.
  destruct (Z.ltb_spec n 8) as [Hn8 | Hn8]; cbn [andb].
  2:{ destruct (Z.eqb_spec k j); [by rewrite Hhi by lia | by rewrite Hlane]. }
  rewrite (proj2 (Z.ltb_lt (n + 8 * k) 32)) by lia. cbn [andb].
  destruct (Z.eqb_spec k j) as [-> | Hkj].
  - rewrite (proj2 (Z.leb_le (8 * j) (n + 8 * j))),
      (proj2 (Z.ltb_lt (n + 8 * j) (8 * j + 8))) by lia.
    cbn [andb negb]. rewrite andb_false_r. cbn [orb]. f_equal. lia.
  - rewrite Hlane. cbn [andb].
    assert ((8 * j <=? n + 8 * k) && (n + 8 * k <? 8 * j + 8) = false) as ->.
    { apply andb_false_iff. destruct (Z.lt_total k j) as [|[|]]; [left | lia | right]; b2p.
      - apply Z.leb_gt. lia.
      - apply Z.ltb_ge. lia. }
    cbn [negb]. rewrite andb_true_r.
    destruct (Z.lt_total k j) as [|[|]]; [| lia |].
    + rewrite (Z.testbit_neg_r p) by lia. by rewrite orb_false_r.
    + rewrite Hhi by lia. by rewrite orb_false_r.
Qed.

(** ** Properties *)

(** C10: the DMA interrupt is a list of calls fixed at its entry: it serves
    exactly the channels that are pending in [ints0] and armed, in ascending
    order, each once; when it returns none of them is armed any more. *)
Theorem isr_dma_0_serves_pending {E : Env} `{!DmaClient} `{!DmaClientFrame} s :
  length (rd dmaHandler s) = 12%nat ->
  let mask := rd_reg (tr s) DMA_INTS0 in
  isr_dma_0 s =
    (load DMA_INTS0 ;; DMA_INTS0 <-~ mask ;; serve_all (fired mask (rd dmaHandler s) 0 12)) s /\
  forall s', isr_dma_0 s = Ret tt s' ->
    fired mask (rd dmaHandler s') 0 12 = [].
Proof.
  intros Hl mask.
  set (s0 := emit (E_write DMA_INTS0 mask) (emit (E_read DMA_INTS0 mask) s)).
  assert (isr_dma_0 s = for_ 12 0 (dispatch mask) s0) as E1 by reflexivity.
  destruct (isr_loop mask 12 0 s0) as [E2 W]; [lia | lia | done |].
  rewrite E1. split; [exact E2 |].
  intros s' Hr. unfold wpE in W. rewrite Hr in W. destruct W as [_ W].
  unfold fired. cbn [seqZ_from map concat].
  repeat rewrite (proj2 (W _)) by lia. reflexivity.
Qed.

(** Channels 0 and 2 are pending, channels 2 and 5 armed. *)
Definition dma_demo_env : Env :=
  ref_env 0 (fun _ r => if decide (r = DMA_INTS0) then Some 5 else None)
    (fun _ _ => 0) (fun _ _ => []).
Definition dma_demo_client : DmaClient := fun f ctx => log (E_call (DMESG "handler" [])).
Definition dma_demo : machine :=
  wr dmaHandler (<[2%nat := mkDMAHandler None (Some uart_tx_handler)]>
    (<[5%nat := mkDMAHandler None (Some uart_rx_handler)]> (rd dmaHandler machine_init)))
    machine_init.

Lemma dma_demo_frame : @DmaClientFrame dma_demo_client.
Proof. constructor. intros f ctx s. reflexivity. Qed.

Lemma isr_dma_0_serves_pending_witness :
  fired 5 (rd dmaHandler dma_demo) 0 12 = [(2, uart_tx_handler, None)] /\
  let mask := @rd_reg dma_demo_env (tr dma_demo) DMA_INTS0 in
  @isr_dma_0 dma_demo_env dma_demo_client dma_demo =
    (@load dma_demo_env DMA_INTS0 ;; DMA_INTS0 <-~ mask ;;
     @serve_all dma_demo_client (fired mask (rd dmaHandler dma_demo) 0 12)) dma_demo /\
  forall s', @isr_dma_0 dma_demo_env dma_demo_client dma_demo = Ret tt s' ->
    fired mask (rd dmaHandler s') 0 12 = [].
Proof.
  split; [reflexivity |].
  apply (@isr_dma_0_serves_pending dma_demo_env dma_demo_client dma_demo_frame dma_demo).
  reflexivity.
Defined.

(** [dma_set_ch_cb] on every branch: a channel number past the last is
    ignored; arming an armed channel panics; otherwise the channel, and no
    other, is armed so that a pending completion runs this handler with this
    context, and its stale interrupt is cleared before it is enabled. *)
Theorem dma_set_ch_cb_cases ch f ctx s :
  length (rd dmaHandler s) = 12%nat -> 0 <= ch < 256 ->
  (12 <= ch -> dma_set_ch_cb ch (Some f) ctx s = Ret tt s) /\
  (ch < 12 -> forall e, rd dmaHandler s !! Z.to_nat ch = Some e ->
     match handler e with
     | Some _ => dma_set_ch_cb ch (Some f) ctx s = Stop Panic s
     | None => exists s', dma_set_ch_cb ch (Some f) ctx s = Ret tt s' /\
         rd dmaHandler s' = <[Z.to_nat ch := mkDMAHandler ctx (Some f)]> (rd dmaHandler s) /\
         (forall mask, Z.testbit mask ch = true ->
            fired_in mask (rd dmaHandler s') ch = [(ch, f, ctx)]) /\
         tr s' = E_write NVIC_ISER (bit 11) :: E_write NVIC_ICPR (bit 11)
                 :: E_call (dma_channel_set_irq0_enabled ch true)
                 :: E_write DMA_INTS0 (bit ch) :: tr s
     end).
Proof.
  intros Hl Hch. unfold dma_set_ch_cb, NUM_DMA_CHANNELS. rewrite u8_id by lia. split.
  { intros H. by rewrite (proj2 (Z.leb_le 12 ch)) by lia. }
  intros Hlt [c h] Hx. rewrite (proj2 (Z.leb_gt 12 ch)) by lia. cbn [handler].
  mexec. rewrite (index_run _ _ _ _ (proj1 Hch) Hx). cbn [handler].
  destruct h as [f' |]; [reflexivity |]. rewrite store_run by lia.
  eexists. split; [reflexivity |]. vsimp. split; [done |]. split; [| done].
  intros mask Hm. unfold fired_in. rewrite list_lookup_insert_eq by lia.
  by rewrite Z.land_comm, land_bit, Hm by lia.
Qed.

Lemma dma_set_ch_cb_cases_witness :
  length (rd dmaHandler machine_init) = 12%nat /\ 0 <= 3 < 256 /\
  (12 <= 3 -> @dma_set_ch_cb 3 (Some uart_tx_handler) None machine_init
              = Ret tt machine_init) /\
  (3 < 12 -> forall e, rd dmaHandler machine_init !! Z.to_nat 3 = Some e ->
     match handler e with
     | Some _ => @dma_set_ch_cb 3 (Some uart_tx_handler) None machine_init
                 = Stop Panic machine_init
     | None => exists s', @dma_set_ch_cb 3 (Some uart_tx_handler) None machine_init
                          = Ret tt s' /\
         rd dmaHandler s' = <[Z.to_nat 3 := mkDMAHandler None (Some uart_tx_handler)]>
                              (rd dmaHandler machine_init) /\
         (forall mask, Z.testbit mask 3 = true ->
            fired_in mask (rd dmaHandler s') 3 = [(3, uart_tx_handler, None)]) /\
         tr s' = E_write NVIC_ISER (bit 11) :: E_write NVIC_ICPR (bit 11)
                 :: E_call (dma_channel_set_irq0_enabled 3 true)
                 :: E_write DMA_INTS0 (bit 3) :: tr machine_init
     end).
Proof.
  split; [reflexivity |]. split; [lia |].
  apply (@dma_set_ch_cb_cases 3 uart_tx_handler None machine_init); [reflexivity | lia].
Defined.

(** [ram_irq_set_priority] changes one byte of one IPR word: the lane of
    interrupt [num] takes the priority, the other three lanes keep theirs. *)
Theorem ram_irq_set_priority_lane {E : Env} num p s :
  0 <= num < 32 -> 0 <= p < 256 ->
  exists w w', ram_irq_set_priority num p s =
      Ret tt (emit (E_write (NVIC_IPR (num / 4 * 4)) w')
                (emit (E_read (NVIC_IPR (num / 4 * 4)) w) s)) /\
    w = rd_reg (tr s) (NVIC_IPR (num / 4 * 4)) /\
    forall k, 0 <= k < 4 -> lane w' k = if k =? num mod 4 then p else lane w k.
Proof.
  intros Hn Hp. unfold ram_irq_set_priority, ipr_offset.
  change 3 with (Z.ones 2). rewrite land_lnot_ones, Z.land_ones by lia. change (2 ^ 2) with 4.
  eexists _, _. split; [reflexivity |]. split; [reflexivity |].
  intros k Hk. apply lane_write; zlia.
Qed.

Lemma ram_irq_set_priority_lane_witness :
  exists w w', @ram_irq_set_priority env0 13 0xC0 machine_init =
      Ret tt (emit (E_write (NVIC_IPR (13 / 4 * 4)) w')
                (emit (E_read (NVIC_IPR (13 / 4 * 4)) w) machine_init)) /\
    w = @rd_reg env0 (tr machine_init) (NVIC_IPR (13 / 4 * 4)) /\
    forall k, 0 <= k < 4 -> lane w' k = if k =? 13 mod 4 then 0xC0 else lane w k.
Proof. apply (@ram_irq_set_priority_lane env0 13 0xC0 machine_init); lia. Defined.
