(* ===== verification/Pins.v ===== *)
(** * Pins: GPIO set-up, PWM and pin-change interrupts ([pins.c])

    Every operation takes a pin number and does nothing when its low byte is
    [NO_PIN].  The configuration of a pin lives in its pad register, its
    function-select register and its bit of the SIO output-enable word; the
    theorems say what a set-up function makes of that configuration and that it
    leaves every other pin alone.  Pin-change interrupts keep one callback and
    one event mask per pin. *)

From S2P Require Import Prelude Events Machine RefEnv Dma.

(** ** Definitions *)

(** *** Constants of the RP2040 and of the Jacdac runtime *)

Definition NUM_BANK0_GPIOS : Z := 30.
Definition NO_PIN : Z := 0xff.
Definition PIN_PULL_UP : Z := 1.
Definition PIN_PULL_NONE : Z := 0.
Definition GPIO_FUNC_SPI : Z := 1.
Definition GPIO_FUNC_UART : Z := 2.
Definition GPIO_FUNC_I2C : Z := 3.
Definition GPIO_FUNC_PWM : Z := 4.
Definition GPIO_FUNC_SIO : Z := 5.
Definition GPIO_FUNC_PIO0 : Z := 6.
Definition GPIO_FUNC_PIO1 : Z := 7.
Definition GPIO_FUNC_NULL : Z := 0x1f.
Definition PADS_IE_BITS : Z := 0x40.
Definition PADS_OD_BITS : Z := 0x80.
Definition PADS_PUE_LSB : Z := 3.
Definition PADS_PDE_LSB : Z := 2.
Definition FUNCSEL_LSB : Z := 0.
Definition GPIO_IRQ_EDGE_FALL : Z := 0x4.
Definition GPIO_IRQ_EDGE_RISE : Z := 0x8.
Definition IO_IRQ_BANK0 : Z := 13.

(** [jdpico.h] *)
Definition EXTI_FALLING : Z := 0x01.
Definition EXTI_RISING : Z := 0x02.
Definition IRQ_PRIORITY_TIM : Z := Z.shiftl 2 6.
Definition IRQ_PRIORITY_EXTI : Z := Z.shiftl 0 6.
Definition IRQ_PRIORITY_UART : Z := Z.shiftl 0 6.

Definition is_no_pin (pin : Z) : bool := u8 pin =? NO_PIN.

Definition exti_cb : var (list (option cb_t)) := {|
  rd s := f_exti_cb (m_pins s);
  wr v := upd_pins (fun x => {| f_exti_cb := v; f_exti_ev := f_exti_ev x |}) |}.
Definition exti_ev : var (list Z) := {|
  rd s := f_exti_ev (m_pins s);
  wr v := upd_pins (fun x => {| f_exti_cb := f_exti_cb x; f_exti_ev := v |}) |}.

Section Operations.
Context {E : Env}.

(** *** Register access *)

Definition gpio_acknowledge_irq_ (gpio events : Z) : M unit :=
  IO_INTR (gpio / 8) <-~ u32 (Z.shiftl events (4 * (gpio mod 8))).

Definition _gpio_set_irq_enabled (gpio events : Z) (enabled : bool) : M unit :=
  gpio_acknowledge_irq_ gpio events ;;
  let en_reg := IO_PROC0_INTE (gpio / 8) in
  let events := u32 (Z.shiftl events (4 * (gpio mod 8))) in
  if enabled then sdk (hw_set_bits en_reg events)
  else sdk (hw_clear_bits en_reg events).

Definition gpio_set_input_enabled_ (gpio : Z) (enabled : bool) : M unit :=
  if enabled then sdk (hw_set_bits (PADS_IO gpio) PADS_IE_BITS)
  else sdk (hw_clear_bits (PADS_IO gpio) PADS_IE_BITS).

Definition gpio_set_irq_enabled_ (gpio events : Z) (enabled : bool) : M unit :=
  _gpio_set_irq_enabled gpio events enabled.

Definition gpio_set_function_ (gpio fn : Z) : M unit :=
  sdk (hw_write_masked (PADS_IO gpio) PADS_IE_BITS (Z.lor PADS_IE_BITS PADS_OD_BITS)) ;;
  IO_CTRL gpio <-~ Z.shiftl fn FUNCSEL_LSB.

Definition gpio_init_ (gpio : Z) : M unit :=
  SIO_GPIO_OE_CLR <-~ u32 (bit gpio) ;;
  SIO_GPIO_CLR <-~ u32 (bit gpio) ;;
  gpio_set_function_ gpio GPIO_FUNC_SIO.

Definition gpio_set_pulls_ (gpio : Z) (up down : bool) : M unit :=
  sdk (hw_write_masked (PADS_IO gpio)
    (Z.lor (Z.shiftl (bool_to_bit up) PADS_PUE_LSB)
           (Z.shiftl (bool_to_bit down) PADS_PDE_LSB))
    (Z.lor (bit PADS_PUE_LSB) (bit PADS_PDE_LSB))).

(** *** The interrupt *)

Definition isr_io_bank0 : M unit :=
  for_ (Z.to_nat NUM_BANK0_GPIOS) 0 (fun gpio =>
    let! status := load (IO_PROC0_INTS (gpio / 8)) in
    let events := Z.land (Z.shiftr status (4 * (gpio mod 8))) 0xf in
    when z2b events do
      (sdk (gpio_acknowledge_irq gpio events) ;;
       let! cbs := get exti_cb in
       let! cb := index cbs gpio in
       match cb with Some f => run_cb f | None => ret tt end)).

(** *** PWM *)

Definition jd_pwm_init (pin period duty prescaler : Z) : M Z :=
  let c := pwm_get_default_config in
  let c := pwm_config_set_clkdiv_int c prescaler in
  let c := pwm_config_set_wrap c (u16 (u32 (period - 1))) in
  let! slice_num := sdkv (pwm_gpio_to_slice_num pin) in
  sdk (pwm_init slice_num c true) ;;
  sdk (pwm_set_gpio_level pin (u16 duty)) ;;
  gpio_set_function_ pin GPIO_FUNC_PWM ;;
  ret pin.

Definition jd_pwm_set_duty (pwm_id duty : Z) : M unit :=
  sdk (pwm_set_gpio_level pwm_id (u16 duty)).

Definition jd_pwm_enable (pwm_id : Z) (enabled : bool) : M unit :=
  if enabled then gpio_set_function_ pwm_id GPIO_FUNC_PWM
  else gpio_init_ pwm_id.

(** *** Pins *)

Definition pin_set (pin v : Z) : M unit :=
  when negb (is_no_pin pin) do sdk (gpio_put pin v).

Definition pin_setup_output (pin : Z) : M unit :=
  when negb (is_no_pin pin) do
    (sdk (gpio_set_dir pin 1) ;;
     gpio_set_function_ pin GPIO_FUNC_SIO).

(** [while (num--)] with a negative count runs into signed overflow. *)
Definition pin_pulse (pin num : Z) : M unit :=
  if is_no_pin pin then ret tt
  else
    (pin_setup_output pin ;;
     if num <? 0 then halt UB
     else for_ (Z.to_nat num) 0 (fun _ =>
            sdk (gpio_put pin 1) ;;
            sdk (gpio_put pin 0))).

Definition pin_get (pin : Z) : M Z :=
  if is_no_pin pin then ret (-1) else sdkv (gpio_get pin).

Definition pin_set_pull (pin pull : Z) : M unit :=
  if is_no_pin pin then ret tt
  else gpio_set_pulls_ pin (0 <? pull) (pull <? 0).

Definition pin_setup_input (pin pull : Z) : M unit :=
  if is_no_pin pin then ret tt
  else
    (pin_set_pull pin pull ;;
     sdk (gpio_set_dir pin 0) ;;
     gpio_set_function_ pin GPIO_FUNC_SIO).

Definition pin_setup_analog_input (pin : Z) : M unit :=
  if is_no_pin pin then ret tt
  else
    (pin_set_pull pin PIN_PULL_NONE ;;
     gpio_set_function_ pin GPIO_FUNC_NULL ;;
     sdk (gpio_set_dir pin 0) ;;
     gpio_set_input_enabled_ pin false).

Definition pin_setup_output_af (pin af : Z) : M unit :=
  if is_no_pin pin then ret tt else gpio_set_function_ pin af.

(** The power hooks are empty. *)
Definition pwr_enter_no_sleep : M unit := ret tt.
Definition pwr_enter_tim : M unit := ret tt.
Definition pwr_leave_tim : M unit := ret tt.
Definition pwr_enter_pll : M unit := ret tt.
Definition pwr_leave_pll : M unit := ret tt.
Definition power_pin_enable (en : Z) : M unit := ret tt.

(** *** Pin-change callbacks *)

Definition exti_set_callback (pin : Z) (callback : option cb_t) (flags : Z) : M unit :=
  store exti_cb pin callback ;;
  let events := 0 in
  let events := if z2b (Z.land flags EXTI_FALLING)
                then Z.lor events GPIO_IRQ_EDGE_FALL else events in
  let events := if z2b (Z.land flags EXTI_RISING)
                then Z.lor events GPIO_IRQ_EDGE_RISE else events in
  store exti_ev pin events ;;
  gpio_set_irq_enabled_ pin events true ;;
  ram_irq_set_enabled IO_IRQ_BANK0 true ;;
  ram_irq_set_priority IO_IRQ_BANK0 IRQ_PRIORITY_EXTI.

Definition exti_disable (pin : Z) : M unit :=
  let! evs := get exti_ev in
  let! ev := index evs pin in
  sdk (gpio_set_irq_enabled pin ev false).

Definition exti_enable (pin : Z) : M unit :=
  let! evs := get exti_ev in
  let! ev := index evs pin in
  sdk (gpio_set_irq_enabled pin ev true).
End Operations.

(** *** The hardware: pad, function-select and output-enable registers *)

Definition config_reg (r : reg) : bool :=
  match r with PADS_IO _ | IO_CTRL _ | SIO_GPIO_OE => true | _ => false end.

(** The events that may change a configuration register. *)
Definition touches (e : event) (r : reg) : bool :=
  match e with
  | E_write SIO_GPIO_OE_SET _ | E_write SIO_GPIO_OE_CLR _ | E_call (gpio_set_dir _ _) =>
    bool_decide (r = SIO_GPIO_OE)
  | E_write r' _ | E_call (hw_set_bits r' _) | E_call (hw_clear_bits r' _)
  | E_call (hw_write_masked r' _ _) => bool_decide (r = r')
  | E_call (gpio_set_function p _) => bool_decide (r = PADS_IO p) || bool_decide (r = IO_CTRL p)
  | E_call (gpio_pull_up p) => bool_decide (r = PADS_IO p)
  | _ => false
  end.

(** Documented effect of the stores and SDK calls the component makes: plain
    registers read back what was stored, the [hw_*] helpers are atomic
    read-modify-writes, [gpio_set_dir] drives one bit of the output enables,
    and no other event changes a configuration register. *)
Class GpioHw {E : Env} : Prop := {
  hw_store t r v : r <> SIO_GPIO_OE -> config_reg r = true -> rd_reg (E_write r v :: t) r = v;
  hw_set t r m : config_reg r = true ->
    rd_reg (E_call (hw_set_bits r m) :: t) r = Z.lor (rd_reg t r) m;
  hw_clear t r m : config_reg r = true ->
    rd_reg (E_call (hw_clear_bits r m) :: t) r = Z.ldiff (rd_reg t r) m;
  hw_masked t r v m : config_reg r = true ->
    rd_reg (E_call (hw_write_masked r v m) :: t) r = Z.lor (Z.ldiff (rd_reg t r) m) (Z.land v m);
  hw_dir t p out :
    rd_reg (E_call (gpio_set_dir p out) :: t) SIO_GPIO_OE =
    if out =? 0 then Z.ldiff (rd_reg t SIO_GPIO_OE) (bit p)
    else Z.lor (rd_reg t SIO_GPIO_OE) (bit p);
  hw_oe_clr t m :
    rd_reg (E_write SIO_GPIO_OE_CLR m :: t) SIO_GPIO_OE = Z.ldiff (rd_reg t SIO_GPIO_OE) m;
  hw_frame t e r : config_reg r = true -> touches e r = false -> rd_reg (e :: t) r = rd_reg t r
}.

(** *** The configuration of a pin *)

Record pin_cfg := mkPinCfg {
  pc_func : Z;        (* function select *)
  pc_oe : bool;       (* driven by SIO *)
  pc_ie : bool;       (* pad input enabled *)
  pc_od : bool;       (* pad output disabled *)
  pc_up : bool;       (* pull-up *)
  pc_down : bool      (* pull-down *)
}.

Section State.
Context {E : Env}.

Definition pin_state (t : trace) (p : Z) : pin_cfg :=
  let pad := rd_reg t (PADS_IO p) in
  mkPinCfg (Z.land (rd_reg t (IO_CTRL p)) 0x1f)
    (Z.testbit (rd_reg t SIO_GPIO_OE) p)
    (Z.testbit pad 6) (Z.testbit pad 7) (Z.testbit pad 3) (Z.testbit pad 2).

(** [m] returns and reconfigures pin [p] by [f], and no other pin. *)
Definition sets_pin (m : M unit) (p : Z) (f : pin_cfg -> pin_cfg) : Prop :=
  forall s, exists s', m s = Ret tt s' /\
    pin_state (tr s') p = f (pin_state (tr s) p) /\
    (forall q, q <> p -> pin_state (tr s') q = pin_state (tr s) q) /\
    m_pins s' = m_pins s.
End State.

(** ** Lemmas *)

Section Lemmas.
Context {E : Env} `{HW : !GpioHw}.

Lemma sets_pin_seq m1 m2 p f g :
  sets_pin m1 p f -> sets_pin m2 p g -> sets_pin (m1 ;; m2) p (fun c => g (f c)).
Proof.
  intros H1 H2 s. destruct (H1 s) as (s1 & E1 & P1 & Q1 & M1).
  destruct (H2 s1) as (s2 & E2 & P2 & Q2 & M2).
  exists s2. unfold bind. rewrite E1. split_and!; [done | congruence | | congruence].
  intros q Hq. by rewrite Q2, Q1.
Qed.

Lemma sets_pin_ext m p f g : (forall c, f c = g c) -> sets_pin m p f -> sets_pin m p g.
Proof.
  intros Hfg H s. destruct (H s) as (s' & E1 & P1 & Q1 & M1). exists s'.
  rewrite <- Hfg. auto.
Qed.

(** A register of another pin is not touched by the events of pin [p]. *)
Lemma ctrl_frame t e q : touches e (IO_CTRL q) = false -> rd_reg (e :: t) (IO_CTRL q) = rd_reg t (IO_CTRL q).
Proof. by apply hw_frame. Qed.
Lemma pads_frame t e q : touches e (PADS_IO q) = false -> rd_reg (e :: t) (PADS_IO q) = rd_reg t (PADS_IO q).
Proof. by apply hw_frame. Qed.
Lemma oe_frame t e : touches e SIO_GPIO_OE = false -> rd_reg (e :: t) SIO_GPIO_OE = rd_reg t SIO_GPIO_OE.
Proof. by apply hw_frame. Qed.

(** The pad bits after a masked write. *)
Lemma testbit_masked x v m i :
  0 <= i ->
  Z.testbit (Z.lor (Z.ldiff x m) (Z.land v m)) i =
  if Z.testbit m i then Z.testbit v i else Z.testbit x i.
Proof.
  intros Hi. rewrite Z.lor_spec, Z.ldiff_spec, Z.land_spec.
  destruct (Z.testbit m i); cbn; [by rewrite !andb_false_r, andb_true_r
                                 | by rewrite !andb_true_r, andb_false_r, orb_false_r].
Qed.

Lemma gpio_set_function_sets p fn :
  0 <= fn < 32 ->
  sets_pin (gpio_set_function_ p fn) p
    (fun c => mkPinCfg fn (pc_oe c) true false (pc_up c) (pc_down c)).
Proof.
  intros Hfn s. eexists. split; [reflexivity |]. vsimp. unfold pin_state.
  assert (Z.land (Z.shiftl fn FUNCSEL_LSB) 31 = fn) as Hfs.
  { unfold FUNCSEL_LSB. rewrite Z.shiftl_0_r. change 31 with (Z.ones 5).
    rewrite Z.land_ones, Z.mod_small; lia. }
  split_and!; [| | done].
  - rewrite hw_store, Hfs by done.
    rewrite (pads_frame _ (E_write _ _)), hw_masked, !testbit_masked by (done || lia).
    by rewrite !oe_frame.
  - intros q Hq.
    rewrite !ctrl_frame, !pads_frame, !oe_frame; try done;
      cbn; apply bool_decide_false; congruence.
Qed.

Lemma gpio_set_pulls_sets p up down :
  sets_pin (gpio_set_pulls_ p up down) p
    (fun c => mkPinCfg (pc_func c) (pc_oe c) (pc_ie c) (pc_od c) up down).
Proof.
  intros s. eexists. split; [reflexivity |]. vsimp. unfold pin_state.
  split_and!; [| | done].
  - rewrite ctrl_frame, hw_masked, !testbit_masked, oe_frame by (done || lia).
    destruct up, down; reflexivity.
  - intros q Hq. rewrite ctrl_frame, pads_frame, oe_frame; try done.
    cbn; apply bool_decide_false; congruence.
Qed.

Lemma gpio_set_dir_sets p out :
  0 <= p ->
  sets_pin (sdk (gpio_set_dir p out)) p
    (fun c => mkPinCfg (pc_func c) (negb (out =? 0)) (pc_ie c) (pc_od c) (pc_up c) (pc_down c)).
Proof.
  intros Hp s. eexists. split; [reflexivity |]. vsimp. unfold pin_state.
  assert (forall q, Z.testbit (bit p) q = (p =? q)) as Hb by (intros; by apply testbit_bit).
  split_and!; [| | done].
  - rewrite ctrl_frame, pads_frame, hw_dir by done. f_equal.
    destruct (out =? 0); cbn [negb];
      [rewrite Z.ldiff_spec | rewrite Z.lor_spec]; rewrite Hb, Z.eqb_refl; cbn;
      [apply andb_false_r | apply orb_true_r].
  - intros q Hq. rewrite ctrl_frame, pads_frame, hw_dir by done. f_equal.
    destruct (out =? 0); [rewrite Z.ldiff_spec | rewrite Z.lor_spec];
      rewrite Hb, (proj2 (Z.eqb_neq p q)) by lia; cbn; [apply andb_true_r | apply orb_false_r].
Qed.

Lemma gpio_set_input_enabled_sets p b :
  sets_pin (gpio_set_input_enabled_ p b) p
    (fun c => mkPinCfg (pc_func c) (pc_oe c) b (pc_od c) (pc_up c) (pc_down c)).
Proof.
  intros s. unfold gpio_set_input_enabled_.
  destruct b; (eexists; split; [reflexivity |]; vsimp; unfold pin_state;
    split_and!; [| | done]);
    try (intros q Hq; rewrite ctrl_frame, pads_frame, oe_frame; try done;
         cbn; apply bool_decide_false; congruence).
  - rewrite ctrl_frame, hw_set, oe_frame, !Z.lor_spec by done. cbn.
    by rewrite !orb_false_r, orb_true_r.
  - rewrite ctrl_frame, hw_clear, oe_frame, !Z.ldiff_spec by done. cbn.
    by rewrite !andb_true_r, andb_false_r.
Qed.
End Lemmas.

Section PinOps.
Context {E : Env} `{HW : !GpioHw}.

Lemma valid_pin p : 0 <= p < 30 -> is_no_pin p = false.
Proof. intros Hp. unfold is_no_pin, NO_PIN. rewrite u8_id by lia. apply Z.eqb_neq. lia. Qed.

Lemma pin_setup_output_sets p :
  0 <= p < 30 ->
  sets_pin (pin_setup_output p) p
    (fun c => mkPinCfg GPIO_FUNC_SIO true true false (pc_up c) (pc_down c)).
Proof.
  intros Hp. unfold pin_setup_output. rewrite valid_pin by done. cbn [negb].
  eapply sets_pin_ext; [| apply sets_pin_seq;
    [apply gpio_set_dir_sets; lia | apply gpio_set_function_sets; done]]. done.
Qed.

Lemma pin_setup_input_sets p pull :
  0 <= p < 30 ->
  sets_pin (pin_setup_input p pull) p
    (fun _ => mkPinCfg GPIO_FUNC_SIO false true false (0 <? pull) (pull <? 0)).
Proof.
  intros Hp. unfold pin_setup_input, pin_set_pull. rewrite !valid_pin by done.
  eapply sets_pin_ext; [| apply sets_pin_seq; [apply gpio_set_pulls_sets | apply sets_pin_seq;
    [apply gpio_set_dir_sets; lia | apply gpio_set_function_sets; done]]]. done.
Qed.

Lemma pin_setup_analog_input_sets p :
  0 <= p < 30 ->
  sets_pin (pin_setup_analog_input p) p
    (fun _ => mkPinCfg GPIO_FUNC_NULL false false false false false).
Proof.
  intros Hp. unfold pin_setup_analog_input, pin_set_pull. rewrite !valid_pin by done.
  eapply sets_pin_ext; [| apply sets_pin_seq; [apply gpio_set_pulls_sets | apply sets_pin_seq;
    [apply gpio_set_function_sets; done | apply sets_pin_seq;
      [apply gpio_set_dir_sets; lia | apply gpio_set_input_enabled_sets]]]]. done.
Qed.

Lemma pin_setup_output_af_sets p af :
  0 <= p < 30 -> 0 <= af < 32 ->
  sets_pin (pin_setup_output_af p af) p
    (fun c => mkPinCfg af (pc_oe c) true false (pc_up c) (pc_down c)).
Proof.
  intros Hp Ha. unfold pin_setup_output_af. rewrite valid_pin by done.
  by apply gpio_set_function_sets.
Qed.
End PinOps.

(** *** Event nibbles *)

(** The four event bits of [gpio] in the status word that holds it. *)
Definition nibble (w gpio : Z) : Z := Z.land (Z.shiftr w (4 * (gpio mod 8))) 0xf.

Lemma testbit_small n z i : 0 <= z < 2 ^ n -> n <= i -> Z.testbit z i = false.
Proof.
  intros Hz Hi. destruct (Z.lt_decidable n 0); [rewrite Z.pow_neg_r in Hz by done; lia |].
  rewrite <- (Z.mod_small z (2 ^ n)) by done. apply Z.mod_pow2_bits_high. lia.
Qed.

Lemma nibble_shift ev p q :
  0 <= ev < 16 -> p / 8 = q / 8 ->
  nibble (u32 (Z.shiftl ev (4 * (p mod 8)))) q = if q =? p then ev else 0.
Proof.
  intros He Hpq. unfold nibble. apply Z.bits_inj'. intros n Hn.
  rewrite Z.land_spec, Z.shiftr_spec, testbit_u32, Z.shiftl_spec by zlia.
  change 15 with (Z.ones 4). destruct (Z.ltb_spec n 4).
  2:{ rewrite Z.ones_spec_high, andb_false_r by lia.
      destruct (q =? p); [| by rewrite Z.bits_0].
      symmetry. apply (testbit_small 4); [done | lia]. }
  rewrite Z.ones_spec_low, andb_true_r by lia.
  rewrite (proj2 (Z.ltb_lt (n + 4 * (q mod 8)) 32)) by zlia. cbn [andb].
  destruct (Z.eqb_spec q p) as [-> | Hne]; [f_equal; lia |].
  rewrite Z.bits_0. destruct (Z.lt_total (q mod 8) (p mod 8)) as [|[|]]; [| zlia |].
  - apply Z.testbit_neg_r. lia.
  - apply (testbit_small 4); [done | lia].
Qed.

(** The event mask [exti_set_callback] derives from its flags. *)
Definition exti_events (flags : Z) : Z :=
  Z.lor (if Z.testbit flags 0 then GPIO_IRQ_EDGE_FALL else 0)
        (if Z.testbit flags 1 then GPIO_IRQ_EDGE_RISE else 0).

Lemma exti_events_flags flags :
  (if z2b (Z.land flags EXTI_RISING)
   then Z.lor (if z2b (Z.land flags EXTI_FALLING) then Z.lor 0 GPIO_IRQ_EDGE_FALL else 0)
          GPIO_IRQ_EDGE_RISE
   else if z2b (Z.land flags EXTI_FALLING) then Z.lor 0 GPIO_IRQ_EDGE_FALL else 0)
  = exti_events flags.
Proof.
  change EXTI_FALLING with (bit 0). change EXTI_RISING with (bit 1).
  rewrite !land_bit by lia. unfold exti_events.
  by destruct (Z.testbit flags 0), (Z.testbit flags 1).
Qed.

Lemma exti_events_range flags : 0 <= exti_events flags < 16.
Proof.
  unfold exti_events.
  destruct (Z.testbit flags 0), (Z.testbit flags 1); split; vm_compute; congruence.
Qed.

Lemma pulses_run p n from s :
  exists s', for_ n from (fun _ => sdk (gpio_put p 1) ;; sdk (gpio_put p 0)) s = Ret tt s' /\
    tr s' = concat (replicate n [E_call (gpio_put p 0); E_call (gpio_put p 1)]) ++ tr s.
Proof.
  revert from s. induction n as [| n IH]; intros from s; [by exists s |].
  cbn [for_]. unfold bind at 1.
  change ((sdk (gpio_put p 1) ;; sdk (gpio_put p 0)) s)
    with (Ret tt (emit (E_call (gpio_put p 0)) (emit (E_call (gpio_put p 1)) s))).
  destruct (IH (from + 1) (emit (E_call (gpio_put p 0)) (emit (E_call (gpio_put p 1)) s)))
    as (s' & E1 & Ht). rewrite E1.
  exists s'. split; [done |]. rewrite Ht. vsimp.
  rewrite replicate_S_end, concat_app, <- app_assoc. reflexivity.
Qed.

(** *** The reference environment is such a register file *)

#[export] Instance ref_gpio : @GpioHw env0.
Proof.
  constructor; cbn.
  - intros t r v Hr Hc. destruct r; try done; cbn; by rewrite decide_True.
  - intros t r m Hc. destruct r; try done; cbn; by rewrite decide_True.
  - intros t r m Hc. destruct r; try done; cbn; by rewrite decide_True.
  - intros t r v m Hc. destruct r; try done; cbn; by rewrite decide_True.
  - done.
  - done.
  - intros t e r Hc Ht.
    destruct r; try done; destruct e as [| r' ? | c | | | | |]; try done;
      try (destruct r'; cbn in *; try done; rewrite ?bool_decide_eq_false in Ht;
           by rewrite decide_False by congruence);
      try (destruct c; cbn in *; try done; rewrite ?bool_decide_eq_false in Ht;
           by rewrite decide_False by congruence).
Qed.

(** ** Properties *)

(** C30: the three set-up functions make of a pin what their names say and
    leave every other pin alone: an output is driven by SIO with its input
    buffer on; an input is undriven with exactly the pull asked for; an analog
    input has no function, no driver, no pull and no input buffer. *)
Theorem pin_setup_configures {E : Env} `{!GpioHw} p pull :
  0 <= p < 30 ->
  sets_pin (pin_setup_output p) p
    (fun c => mkPinCfg GPIO_FUNC_SIO true true false (pc_up c) (pc_down c)) /\
  sets_pin (pin_setup_input p pull) p
    (fun _ => mkPinCfg GPIO_FUNC_SIO false true false (0 <? pull) (pull <? 0)) /\
  sets_pin (pin_setup_analog_input p) p
    (fun _ => mkPinCfg GPIO_FUNC_NULL false false false false false).
Proof.
  intros Hp. split_and!; [by apply pin_setup_output_sets | by apply pin_setup_input_sets
              | by apply pin_setup_analog_input_sets].
Qed.

Lemma pin_setup_configures_witness :
  @sets_pin env0 (pin_setup_output 9) 9
    (fun c => mkPinCfg GPIO_FUNC_SIO true true false (pc_up c) (pc_down c)) /\
  @sets_pin env0 (pin_setup_input 9 PIN_PULL_UP) 9
    (fun _ => mkPinCfg GPIO_FUNC_SIO false true false (0 <? PIN_PULL_UP) (PIN_PULL_UP <? 0)) /\
  @sets_pin env0 (pin_setup_analog_input 9) 9
    (fun _ => mkPinCfg GPIO_FUNC_NULL false false false false false).
Proof. apply (@pin_setup_configures env0 _ 9 PIN_PULL_UP). lia. Defined.

(** A pin number whose low byte is [NO_PIN] makes every pin operation a
    no-op on the machine, and reading it yields -1. *)
Theorem no_pin_is_noop {E : Env} p v num pull af s :
  is_no_pin p = true ->
  pin_set p v s = Ret tt s /\ pin_pulse p num s = Ret tt s /\
  pin_setup_output p s = Ret tt s /\ pin_get p s = Ret (-1) s /\
  pin_setup_input p pull s = Ret tt s /\ pin_set_pull p pull s = Ret tt s /\
  pin_setup_analog_input p s = Ret tt s /\ pin_setup_output_af p af s = Ret tt s.
Proof.
  intros Hp. unfold pin_set, pin_pulse, pin_setup_output, pin_get, pin_setup_input, pin_set_pull,
    pin_setup_analog_input, pin_setup_output_af. rewrite Hp. by split_and!.
Qed.

Lemma no_pin_is_noop_witness :
  is_no_pin (-1) = true /\ is_no_pin 255 = true /\
  @pin_set 255 1 machine_init = Ret tt machine_init /\
  @pin_pulse 255 3 machine_init = Ret tt machine_init /\
  @pin_setup_output 255 machine_init = Ret tt machine_init /\
  @pin_get env0 255 machine_init = Ret (-1) machine_init /\
  @pin_setup_input 255 1 machine_init = Ret tt machine_init /\
  @pin_set_pull 255 1 machine_init = Ret tt machine_init /\
  @pin_setup_analog_input 255 machine_init = Ret tt machine_init /\
  @pin_setup_output_af 255 5 machine_init = Ret tt machine_init.
Proof.
  split; [reflexivity |]. split; [reflexivity |].
  apply (@no_pin_is_noop env0 255 1 3 1 5 machine_init). reflexivity.
Defined.

(** [exti_set_callback] registers the callback and the event mask of the
    pin; the word it acknowledges and enables carries that mask in the nibble
    [isr_io_bank0] reads for this pin and nothing in the nibble of any other.
    A pin past the last one is an access outside both tables. *)
Theorem exti_set_callback_registers {E : Env} p cb flags s :
  0 <= p -> length (rd exti_cb s) = 30%nat -> length (rd exti_ev s) = 30%nat ->
  (p < 30 -> exists s' w ipr ipr', exti_set_callback p cb flags s = Ret tt s' /\
     rd exti_cb s' = <[Z.to_nat p := cb]> (rd exti_cb s) /\
     rd exti_ev s' = <[Z.to_nat p := exti_events flags]> (rd exti_ev s) /\
     tr s' = E_write (NVIC_IPR 12) ipr' :: E_read (NVIC_IPR 12) ipr
             :: E_write NVIC_ISER (bit 13) :: E_write NVIC_ICPR (bit 13)
             :: E_call (hw_set_bits (IO_PROC0_INTE (p / 8)) w)
             :: E_write (IO_INTR (p / 8)) w :: tr s /\
     (forall q, q / 8 = p / 8 -> nibble w q = if q =? p then exti_events flags else 0)) /\
  (30 <= p -> exti_set_callback p cb flags s = Stop UB s).
Proof.
  intros Hp Hl1 Hl2. split.
  2:{ intros H. unfold exti_set_callback, bind at 1. by rewrite store_ub by lia. }
  intros Hlt. unfold exti_set_callback. rewrite (exti_events_flags flags).
  mexec. rewrite !store_run by (vsimp; lia).
  eexists _, _, _, _. split; [reflexivity |]. vsimp. split; [done |]. split; [done |].
  split; [reflexivity |].
  intros q Hq. apply nibble_shift; [apply exti_events_range | lia].
Qed.

Lemma exti_set_callback_registers_witness :
  exists s' w ipr ipr', @exti_set_callback env0 9 (Some cb_jd_line_falling) EXTI_FALLING machine_init
                = Ret tt s' /\
    rd exti_cb s' = <[9%nat := Some cb_jd_line_falling]> (rd exti_cb machine_init) /\
    rd exti_ev s' = <[9%nat := exti_events EXTI_FALLING]> (rd exti_ev machine_init) /\
    tr s' = E_write (NVIC_IPR 12) ipr' :: E_read (NVIC_IPR 12) ipr
            :: E_write NVIC_ISER (bit 13) :: E_write NVIC_ICPR (bit 13)
            :: E_call (hw_set_bits (IO_PROC0_INTE (9 / 8)) w)
            :: E_write (IO_INTR (9 / 8)) w :: tr machine_init /\
    (forall q, q / 8 = 9 / 8 -> nibble w q = if q =? 9 then exti_events EXTI_FALLING else 0).
Proof.
  apply (@exti_set_callback_registers env0 9 (Some cb_jd_line_falling) EXTI_FALLING machine_init);
    [lia | reflexivity | reflexivity | lia].
Defined.

(** [pin_pulse] on a real pin makes it an output and then emits exactly
    [num] pulses, high then low, and nothing else. *)
Theorem pin_pulse_pulses p num s :
  0 <= p < 30 -> 0 <= num ->
  exists s' s1, pin_setup_output p s = Ret tt s1 /\ pin_pulse p num s = Ret tt s' /\
    tr s' = concat (replicate (Z.to_nat num)
              [E_call (gpio_put p 0); E_call (gpio_put p 1)]) ++ tr s1.
Proof.
  intros Hp Hn. unfold pin_pulse. rewrite valid_pin by done.
  destruct (pin_setup_output p s) as [[] s1 | w s1] eqn:E1;
    [| unfold pin_setup_output in E1; rewrite valid_pin in E1 by done; discriminate].
  unfold bind at 1. rewrite E1, (proj2 (Z.ltb_ge num 0)) by lia.
  destruct (pulses_run p (Z.to_nat num) 0 s1) as (s' & -> & Ht). by exists s', s1.
Qed.

Lemma pin_pulse_pulses_witness :
  exists s' s1, pin_setup_output 3 machine_init = Ret tt s1 /\
    pin_pulse 3 2 machine_init = Ret tt s' /\
    tr s' = concat (replicate 2 [E_call (gpio_put 3 0); E_call (gpio_put 3 1)]) ++ tr s1.
Proof. apply (pin_pulse_pulses 3 2 machine_init); lia. Defined.
