(* ===== verification/Tim.v ===== *)
(** * Tim: the one-shot timer and the microsecond clock of [tim.c]

    One hardware alarm, one callback.  [tim_set_timer] arms them,
    [tim_handler] fires the callback or re-arms an alarm that came early.  The
    64-bit clock is read as two 32-bit halves while it runs. *)

From S2P Require Import Prelude Events Machine RefEnv Irq Dma Pins.

(** ** Definitions *)

Definition ALARM_NUM : Z := 0.
Definition TIMER_IRQ_0 : Z := 0.

Definition timer_cb : var (option cb_t) := {|
  rd s := f_timer_cb (m_tim s);
  wr v := upd_tim (fun x => {| f_timer_cb := v; f_int2 := f_int2 x; f_last_delay := f_last_delay x;
      f_last_delay_now := f_last_delay_now x |}) |}.
Definition int2 : var Z := {|
  rd s := f_int2 (m_tim s);
  wr v := upd_tim (fun x => {| f_timer_cb := f_timer_cb x; f_int2 := v; f_last_delay := f_last_delay x;
      f_last_delay_now := f_last_delay_now x |}) |}.
Definition last_delay : var Z := {|
  rd s := f_last_delay (m_tim s);
  wr v := upd_tim (fun x => {| f_timer_cb := f_timer_cb x; f_int2 := f_int2 x; f_last_delay := v;
      f_last_delay_now := f_last_delay_now x |}) |}.
Definition last_delay_now : var Z := {|
  rd s := f_last_delay_now (m_tim s);
  wr v := upd_tim (fun x => {| f_timer_cb := f_timer_cb x; f_int2 := f_int2 x; f_last_delay := f_last_delay x;
      f_last_delay_now := v |}) |}.

Definition harware_alarm_irq_number (alarm_num : Z) : Z := TIMER_IRQ_0 + alarm_num.

Section Operations.
Context {E : Env}.

Definition tim_handler : M unit :=
  TIMER_INTR <-~ bit ALARM_NUM ;;
  let! cb := get timer_cb in
  match cb with
  | None => ret tt
  | Some f =>
    target_disable_irq ;;
    let! tal := load (TIMER_ALARM ALARM_NUM) in
    let! now := load TIMERAWL in
    if Z.shiftr (u32 (tal - u32 (now + 5))) 29 =? 0 then
      (* re-arm the alarm *)
      TIMER_ALARM ALARM_NUM <-~ tal ;;
      last_delay <~ tal ;;
      last_delay_now <~ now ;;
      let! v := load TIMER_INTR in
      int2 <~ v ;;
      sdk (DMESG "timer problem: al=%u now=%u" [tal; now]) ;;
      target_enable_irq
    else
      (target_enable_irq ;;
       last_delay <~ 0 ;;
       timer_cb <~ None ;;
       run_cb f)
  end.

Definition tim_init : M unit :=
  let irq_num := harware_alarm_irq_number ALARM_NUM in
  sdk (hardware_alarm_claim ALARM_NUM) ;;
  sdk (irq_set_exclusive_handler irq_num) ;;
  ram_irq_set_priority irq_num IRQ_PRIORITY_TIM ;;
  ram_irq_set_enabled irq_num true ;;
  sdk (hw_set_bits TIMER_INTE (bit ALARM_NUM)).

(** The upper half, then the lower half and the upper half again until the
    upper half is stable. *)
Definition tim_get_micros : M Z :=
  let! hi := load TIMERAWH in
  loop fuel (fun hi =>
    let! lo := load TIMERAWL in
    let! next_hi := load TIMERAWH in
    if hi =? next_hi
    then ret (inr (Z.lor (u64 (Z.shiftl hi 32)) lo))
    else ret (inl next_hi)) hi.

Definition tim_set_timer (delta : Z) (cb : option cb_t) : M unit :=
  let delta := if delta <? 10 then 10 else delta in
  let! delta := (fun s => Ret (if delta =? JD_MIN_MAX_SLEEP
                               then i32 (jd_max_sleep (tr s)) else delta) s) in
  target_disable_irq ;;
  timer_cb <~ cb ;;
  let! us := tim_get_micros in
  TIMER_ALARM ALARM_NUM <-~ u32 (u32 us + delta) ;;
  TIMER_INTR <-~ bit ALARM_NUM ;;
  sdk (irq_clear (harware_alarm_irq_number ALARM_NUM)) ;;
  target_enable_irq.

Definition target_wait_us (n : Z) : M unit :=
  let! start := load TIMERAWL in
  while_ fuel (let! t := load TIMERAWL in ret (u32 (t - start) <? n)) (ret tt).
End Operations.

(** *** The hardware clock

    [now64] is the 64-bit microsecond counter at a point of the history; the
    two registers show its halves.  It never runs backwards, and no single
    event takes longer than [2^29] us (nine minutes). *)
Definition TICK : Z := 2 ^ 29.

Class ClockOk {E : Env} (now64 : trace -> Z) : Prop := {
  clk_low t : rd_reg t TIMERAWL = u32 (now64 t);
  clk_high t : rd_reg t TIMERAWH = u32 (now64 t / 4294967296);
  clk_nonneg t : 0 <= now64 t;
  clk_mono e t : now64 t <= now64 (e :: t);
  clk_tick e t : now64 (e :: t) <= now64 t + TICK
}.

(** An alarm for instant [a], seen at instant [n], is premature. *)
Definition premature (a n : Z) : bool := n + 5 <=? a.

(** ** Lemmas *)

Section Lemmas.
Context {E : Env} (now64 : trace -> Z) {CK : ClockOk now64}.

Lemma halves_eq n : 0 <= n < 18446744073709551616 ->
  Z.lor (u64 (Z.shiftl (n / 4294967296) 32)) (u32 n) = n.
Proof.
  intros Hn. unfold u64. rewrite Z.mod_small, Z.shiftl_mul_pow2 by (rewrite ?Z.shiftl_mul_pow2; zlia).
  unfold u32. change 4294967296 with (2 ^ 32). rewrite <- Z.land_ones, <- Z.shiftl_mul_pow2 by lia.
  rewrite <- Z.shiftr_div_pow2 by lia.
  apply Z.bits_inj'. intros i Hi. rewrite Z.lor_spec, Z.land_spec, Z.shiftl_spec by lia.
  destruct (Z.ltb_spec i 32).
  - rewrite Z.testbit_neg_r, Z.ones_spec_low, andb_true_r by lia. reflexivity.
  - rewrite Z.shiftr_spec, Z.ones_spec_high, andb_false_r, orb_false_r by lia. f_equal. lia.
Qed.

(** Time over a stretch of history. *)
Lemma clk_mono_app es t : now64 t <= now64 (es ++ t).
Proof. induction es; cbn; [lia |]. etransitivity; [exact IHes | apply clk_mono]. Qed.

Lemma clk_tick_app es t : now64 (es ++ t) <= now64 t + TICK * Z.of_nat (length es).
Proof. induction es as [| e es IH]; cbn [app length]; [lia |]. pose proof (clk_tick e (es ++ t)). lia. Qed.

(** One round of the reading loop. *)
Definition micros_round (hi : Z) : M (Z + Z) :=
  let! lo := load TIMERAWL in
  let! next_hi := load TIMERAWH in
  if hi =? next_hi
  then ret (inr (Z.lor (u64 (Z.shiftl hi 32)) lo))
  else ret (inl next_hi).

Definition micros_state (s : machine) : machine :=
  let s1 := emit (E_read TIMERAWL (u32 (now64 (tr s)))) s in
  emit (E_read TIMERAWH (u32 (now64 (tr s1) / 4294967296))) s1.

Lemma micros_round_run hi s :
  micros_round hi s =
  Ret (if hi =? u32 (now64 (E_read TIMERAWL (u32 (now64 (tr s))) :: tr s) / 4294967296)
       then inr (Z.lor (u64 (Z.shiftl hi 32)) (u32 (now64 (tr s))))
       else inl (u32 (now64 (E_read TIMERAWL (u32 (now64 (tr s))) :: tr s) / 4294967296)))
    (micros_state s).
Proof.
  unfold micros_round. mexec. rewrite !clk_low, !clk_high. cbn [tr emit upd_tr].
  by destruct (hi =? _).
Qed.

Lemma micros_state_time s :
  now64 (tr s) <= now64 (tr (micros_state s)) <= now64 (tr s) + 2 * TICK.
Proof.
  unfold micros_state. vsimp.
  set (e1 := E_read TIMERAWL _). set (e2 := E_read TIMERAWH _).
  pose proof (clk_mono e1 (tr s)). pose proof (clk_mono e2 (e1 :: tr s)).
  pose proof (clk_tick e1 (tr s)). pose proof (clk_tick e2 (e1 :: tr s)). lia.
Qed.

Lemma tim_get_micros_run s :
  (2 <= fuel)%nat -> now64 (tr s) + 5 * TICK < 18446744073709551616 ->
  exists v es, tim_get_micros s = Ret v (upd_tr (app es) s) /\
    (length es <= 5)%nat /\ now64 (tr s) <= v <= now64 (es ++ tr s).
Proof.
  intros Hf Hr. change tim_get_micros with (bind (load TIMERAWH) (loop fuel micros_round)).
  unfold bind, load. rewrite clk_high. destruct fuel as [| [| f]]; [lia | lia |].
  set (e0 := E_read TIMERAWH _). set (s0 := emit e0 s).
  pose proof (clk_nonneg (tr s)) as H0.
  pose proof (clk_mono e0 (tr s)) as M0. pose proof (clk_tick e0 (tr s)) as K0.
  change (e0 :: tr s) with (tr s0) in M0, K0.
  set (e1 := E_read TIMERAWL (u32 (now64 (tr s0)))).
  pose proof (clk_mono e1 (tr s0)) as M1. pose proof (clk_tick e1 (tr s0)) as K1.
  pose proof (micros_state_time s0) as K2.
  set (s2 := micros_state s0) in *.
  set (e3 := E_read TIMERAWL (u32 (now64 (tr s2)))).
  pose proof (clk_mono e3 (tr s2)) as M3. pose proof (clk_tick e3 (tr s2)) as K3.
  assert (now64 (e1 :: tr s0) <= now64 (tr s2)) as M2 by (apply clk_mono).
  pose proof (micros_state_time s2) as K4.
  unfold TICK in *.
  cbn [loop]. unfold bind at 1. rewrite micros_round_run. fold e1.
  rewrite !(u32_id (_ / _)) by zlia.
  destruct (Z.eqb_spec (now64 (tr s) / 4294967296) (now64 (e1 :: tr s0) / 4294967296)) as [Hh | Hh].
  - exists (now64 (tr s0)), [E_read TIMERAWH (u32 (now64 (e1 :: tr s0) / 4294967296)); e1; e0].
    split_and!; [| cbn; lia | lia | apply M2 || (etransitivity; [exact M1 | exact M2])].
    unfold ret. f_equal.
    replace (now64 (tr s) / 4294967296) with (now64 (tr s0) / 4294967296) by zlia.
    apply halves_eq. lia.
  - unfold bind at 1. rewrite micros_round_run. fold s2 e3. rewrite !(u32_id (_ / _)) by zlia.
    rewrite (proj2 (Z.eqb_eq _ _)) by zlia.
    exists (now64 (tr s2)),
      [E_read TIMERAWH (u32 (now64 (e3 :: tr s2) / 4294967296)); e3;
       E_read TIMERAWH (u32 (now64 (e1 :: tr s0) / 4294967296)); e1; e0].
    split_and!; [| cbn; lia | lia | apply K4].
    unfold ret. f_equal.
    replace (now64 (e1 :: tr s0) / 4294967296) with (now64 (tr s2) / 4294967296) by zlia.
    apply halves_eq. lia.
Qed.

(** *** Busy waiting *)

(** Every [k] events take at least a microsecond. *)
Definition progress (k : nat) : Prop :=
  forall t es, length es = k -> now64 t + 1 <= now64 (es ++ t).

Lemma clk_progress k q es t :
  progress k -> (k * q <= length es)%nat -> now64 t + Z.of_nat q <= now64 (es ++ t).
Proof.
  intros Hk. revert es t. induction q as [| q IH]; intros es t Hl.
  - pose proof (clk_mono_app es t). lia.
  - rewrite <- (take_drop (length es - k) es), <- app_assoc.
    assert (length (drop (length es - k) es) = k) as Hd by (rewrite length_drop; lia).
    pose proof (Hk t _ Hd).
    pose proof (IH (take (length es - k) es) (drop (length es - k) es ++ t)) as H1.
    rewrite length_take in H1. lia.
Qed.

Definition wait_cond (start n : Z) : M bool :=
  let! t := load TIMERAWL in ret (u32 (t - start) <? n).

Lemma u32_add_l a b : u32 (u32 a + b) = u32 (a + b).
Proof. zlia. Qed.

Lemma u32_diff a b : u32 (u32 a - u32 b) = u32 (a - b).
Proof. zlia. Qed.

Lemma wait_loop k t0 n f es s :
  progress k -> 0 <= n -> n + TICK < 4294967296 ->
  (1 <= f)%nat -> (k * Z.to_nat n + 1 < f + length es)%nat ->
  tr s = es ++ t0 -> now64 (tr s) <= now64 t0 + n + TICK ->
  exists es', while_ f (wait_cond (u32 (now64 t0)) n) (ret tt) s = Ret tt (upd_tr (app es') s) /\
    now64 t0 + n <= now64 (es' ++ tr s).
Proof.
  intros Hk Hn Hw. revert es s. induction f as [| f IH]; intros es s Hf1 Hf Ht Hb; [lia |].
  pose proof (clk_mono_app es t0) as Hm. rewrite <- Ht in Hm.
  set (e := E_read TIMERAWL (u32 (now64 (tr s)))).
  assert (wait_cond (u32 (now64 t0)) n s =
          Ret (now64 (tr s) - now64 t0 <? n) (emit e s)) as Hc.
  { unfold wait_cond. mexec. rewrite clk_low, u32_diff, u32_id by lia. done. }
  cbn [while_]. unfold bind at 1. rewrite Hc.
  destruct (Z.ltb_spec (now64 (tr s) - now64 t0) n) as [Hlt | Hge].
  - assert (length es < k * Z.to_nat n)%nat as Hlen.
    { apply Nat.nle_gt. intros Hle. pose proof (clk_progress k _ es t0 Hk Hle) as Hp.
      rewrite <- Ht in Hp. lia. }
    pose proof (clk_tick e (tr s)).
    destruct (IH (e :: es) (emit e s)) as (es' & E1 & Hd); cbn [length];
      [lia | lia | vsimp; by rewrite Ht | vsimp; lia |].
    exists (es' ++ [e]). unfold bind, ret at 1. rewrite E1, <- app_assoc. split; [| exact Hd].
    f_equal. unfold upd_tr, emit. cbn. by rewrite <- app_assoc.
  - exists [e]. split; [done |]. pose proof (clk_mono e (tr s)). cbn [app]. lia.
Qed.

Lemma target_wait_us_run k n s :
  progress k -> (k * Z.to_nat n + 2 <= fuel)%nat -> 0 <= n -> n + TICK < 4294967296 ->
  exists es, target_wait_us n s = Ret tt (upd_tr (app es) s) /\
    now64 (tr s) + n <= now64 (es ++ tr s).
Proof.
  intros Hk Hf Hn Hw.
  change (target_wait_us n) with
    (bind (load TIMERAWL) (fun start => while_ fuel (wait_cond start n) (ret tt))).
  unfold bind, load at 1. rewrite clk_low.
  set (e := E_read TIMERAWL _). pose proof (clk_tick e (tr s)).
  destruct (wait_loop k (tr s) n fuel [e] (emit e s)) as (es & E1 & Hd);
    [done | done | done | lia | cbn; lia | done | vsimp; lia |].
  exists (es ++ [e]). rewrite E1, <- app_assoc. split; [| exact Hd].
  f_equal. unfold upd_tr, emit. cbn. by rewrite <- app_assoc.
Qed.

(** *** The handler *)

(** The unsigned comparison of [tim_handler] is a comparison of instants as
    long as alarm and clock are less than half a wrap apart. *)
Lemma premature_test a n :
  -2147483648 <= a - n < 536870912 ->
  (Z.shiftr (u32 (u32 a - u32 (u32 n + 5))) 29 =? 0) = premature a n.
Proof.
  intros H. rewrite Z.shiftr_div_pow2 by lia. change (2 ^ 29) with 536870912.
  replace (u32 (u32 a - u32 (u32 n + 5))) with (u32 (a - n - 5)) by zlia.
  unfold premature. destruct (Z.leb_spec (n + 5) a); [apply Z.eqb_eq | apply Z.eqb_neq]; zlia.
Qed.
End Lemmas.

(** The traces at which [tim_handler] reads the alarm and the clock. *)
Definition alarm_trace (t : trace) : trace := E_cpsid :: E_write TIMER_INTR (bit ALARM_NUM) :: t.
Definition clock_trace (a : Z) (t : trace) : trace :=
  E_read (TIMER_ALARM ALARM_NUM) (u32 a) :: alarm_trace t.

(** *** The reference environment has such a clock *)

Lemma ref_clock_ok t0 rets bytes :
  0 <= t0 -> @ClockOk (ref_env t0 (fun _ _ => None) rets bytes) (ref_clock t0).
Proof.
  intros H0. constructor; unfold ref_clock, TICK; intros; cbn [length rd_reg ref_env]; try done; lia.
Qed.

(** The delay [tim_set_timer] uses. *)
Definition timer_delay {E : Env} (t : trace) (delta : Z) : Z :=
  let delta := if delta <? 10 then 10 else delta in
  if delta =? JD_MIN_MAX_SLEEP then i32 (jd_max_sleep t) else delta.

(** A call of [tim_set_timer], at any depth of the interrupt lock. *)
Lemma tim_set_timer_run {E : Env} now64 {CK : ClockOk now64} delta cb s :
  (2 <= fuel)%nat -> now64 (tr s) + 6 * TICK < 18446744073709551616 ->
  exists v s' es t, tim_set_timer delta cb s = Ret tt s' /\
    rd timer_cb s' = cb /\ (forall d, 0 <= d < 128 -> at_depth d s -> at_depth d s') /\
    now64 (tr s) <= v <= now64 (tr s') /\
    tr s' = t ++ E_call (irq_clear 0) :: E_write TIMER_INTR 1
              :: E_write (TIMER_ALARM 0) (u32 (v + timer_delay (tr s) delta))
              :: es ++ E_cpsid :: tr s /\
    (t = [] \/ t = [E_cpsie]).
Proof.
  intros Hf Hr. unfold tim_set_timer. mexec.
  rewrite target_disable_irq_run. vsimp.
  set (s1 := wr timer_cb cb _).
  pose proof (clk_tick E_cpsid (tr s)). pose proof (clk_mono E_cpsid (tr s)).
  destruct (tim_get_micros_run now64 s1) as (v & es & -> & Hl & Hv);
    [done | unfold s1; vsimp; unfold TICK in *; lia |].
  match goal with |- context [target_enable_irq ?x] =>
    destruct (target_enable_irq_trace x) as (s' & t & -> & Hfr & Ht & Hc & Hat) end.
  exists v, s', es, t. split; [done |]. destruct Hfr as (Hfr & _).
  assert (tr s' = t ++ E_call (irq_clear 0) :: E_write TIMER_INTR 1
              :: E_write (TIMER_ALARM 0) (u32 (v + timer_delay (tr s) delta))
              :: es ++ E_cpsid :: tr s) as Htr.
  { rewrite Ht. unfold s1. vsimp. by rewrite u32_add_l. }
  split; [unfold rd; cbn; rewrite Hfr; reflexivity |]. split; [| split; [| done]].
  - intros d Hd Hdep. apply Hat; [done |]. unfold s1. split; vsimp; [by rewrite (proj1 Hdep); zlia |].
    symmetry. apply Z.ltb_lt. lia.
  - unfold s1 in Hv; vsimp in Hv. split; [lia |]. rewrite Htr.
    pose proof (clk_mono_app now64
      (t ++ [E_call (irq_clear 0); E_write TIMER_INTR 1;
             E_write (TIMER_ALARM 0) (u32 (v + timer_delay (tr s) delta))])
      (es ++ E_cpsid :: tr s)) as Hm.
    rewrite <- app_assoc in Hm. cbn [app] in Hm. lia.
Qed.

(** ** Properties *)

(** C19: [tim_get_micros] returns the 64-bit time of an instant between its
    call and its return although it reads the halves separately, needs at most
    two rounds, and so successive calls never go backwards. *)
Theorem tim_get_micros_linearizable {E : Env} now64 (CK : ClockOk now64) s :
  (2 <= fuel)%nat -> now64 (tr s) + 10 * TICK < 18446744073709551616 ->
  exists v1 s1 v2 s2, tim_get_micros s = Ret v1 s1 /\ tim_get_micros s1 = Ret v2 s2 /\
    now64 (tr s) <= v1 <= now64 (tr s1) /\ now64 (tr s1) <= v2 <= now64 (tr s2) /\
    (length (tr s1) <= length (tr s) + 5)%nat.
Proof.
  intros Hf Hr.
  destruct (tim_get_micros_run now64 s) as (v1 & es1 & E1 & L1 & B1);
    [done | unfold TICK in *; lia |].
  pose proof (clk_tick_app now64 es1 (tr s)) as Ht. unfold TICK in *.
  destruct (tim_get_micros_run now64 (upd_tr (app es1) s)) as (v2 & es2 & E2 & L2 & B2);
    [done | vsimp; unfold TICK; lia |].
  exists v1, (upd_tr (app es1) s), v2, (upd_tr (app es2) (upd_tr (app es1) s)).
  vsimp in B2. vsimp. rewrite length_app. split_and!; try done; lia.
Qed.

Lemma tim_get_micros_linearizable_witness :
  exists v1 s1 v2 s2, @tim_get_micros env0 machine_init = Ret v1 s1 /\
    @tim_get_micros env0 s1 = Ret v2 s2 /\
    ref_clock 0 (tr machine_init) <= v1 <= ref_clock 0 (tr s1) /\
    ref_clock 0 (tr s1) <= v2 <= ref_clock 0 (tr s2) /\
    (length (tr s1) <= length (tr machine_init) + 5)%nat.
Proof.
  apply (@tim_get_micros_linearizable env0 (ref_clock 0) (ref_clock_ok 0 _ _ ltac:(lia)));
    [vm_compute; lia | reflexivity].
Defined.

(** C25: when the alarm interrupt fires with a callback armed, the callback is
    disarmed and called, with the interrupt lock released, unless the alarm
    instant is still at least 5 us away; then the same alarm is armed again and
    the callback stays.  Alarm and clock may be on different sides of a 32-bit
    wrap.  With no callback the handler only acknowledges. *)
Theorem tim_handler_fires_when_due {E : Env} now64 (CK : ClockOk now64) f a d s :
  (rd timer_cb s = None -> tim_handler s = Ret tt (emit (E_write TIMER_INTR 1) s)) /\
  (rd timer_cb s = Some f ->
  rd_reg (alarm_trace (tr s)) (TIMER_ALARM ALARM_NUM) = u32 a ->
  -2147483648 <= a - now64 (clock_trace a (tr s)) < 536870912 ->
  0 <= d < 128 -> at_depth d s ->
  if premature a (now64 (clock_trace a (tr s)))
  then exists s' es, tim_handler s = Ret tt s' /\ rd timer_cb s' = Some f /\ at_depth d s' /\
         tr s' = es ++ E_write (TIMER_ALARM ALARM_NUM) (u32 a)
                    :: E_read TIMERAWL (u32 (now64 (clock_trace a (tr s)))) :: clock_trace a (tr s)
  else exists s1, tim_handler s = run_cb f s1 /\ rd timer_cb s1 = None /\
         rd last_delay s1 = 0 /\ at_depth d s1).
Proof.
  split; intros Hcb; [unfold tim_handler; mexec; vsimp; by rewrite Hcb |].
  intros Ha Hw Hd Hdep. unfold tim_handler. mexec. vsimp. rewrite Hcb.
  rewrite target_disable_irq_run. vsimp. fold (alarm_trace (tr s)). rewrite Ha.
  fold (clock_trace a (tr s)). rewrite clk_low, premature_test by done.
  set (n := now64 _) in *.
  destruct (premature a n);
    match goal with |- context [target_enable_irq ?x] =>
      destruct (target_enable_irq_trace x) as (s' & t & -> & Hf & Ht & Hc & Hat) end.
  - eexists s', (t ++ [_; _]). split; [done |].
    destruct Hf as (Hf & _). split; [| split].
    + transitivity (rd timer_cb s); [| done]. unfold rd at 1. cbn. rewrite Hf. reflexivity.
    + apply Hat; [done |]. split; vsimp; [by rewrite (proj1 Hdep); zlia |].
      symmetry. apply Z.ltb_lt. lia.
    + rewrite Ht, <- app_assoc. vsimp. reflexivity.
  - eexists. split; [reflexivity |]. vsimp. split; [done |]. split; [done |].
    split; vsimp; apply Hat; try done; split; vsimp;
      try (rewrite (proj1 Hdep); zlia); symmetry; apply Z.ltb_lt; lia.
Qed.

(** An alarm due at 100 us, seen just before the 32-bit wrap at 4294967296 us
    (premature) and after it (due). *)
Definition tim_demo_env (a t0 : Z) : Env :=
  ref_env t0 (fun _ r => if decide (r = TIMER_ALARM 0) then Some (u32 a) else None)
    (fun _ _ => 0) (fun _ _ => []).
Definition tim_demo : machine := wr timer_cb (Some (cb_client 7)) machine_init.

Lemma tim_demo_clock a t0 : 0 <= t0 -> @ClockOk (tim_demo_env a t0) (ref_clock t0).
Proof.
  intros H0. constructor; unfold ref_clock, TICK; intros; cbn [length rd_reg tim_demo_env ref_env];
    try (rewrite decide_False by done); try done; lia.
Qed.

Lemma tim_handler_fires_when_due_witness :
  rd timer_cb tim_demo = Some (cb_client 7) /\
  premature 4294967396 (ref_clock 4294967200 (clock_trace 4294967396 (tr tim_demo))) = true /\
  exists s' es, @tim_handler (tim_demo_env 4294967396 4294967200) tim_demo = Ret tt s' /\
    rd timer_cb s' = Some (cb_client 7) /\ at_depth 0 s' /\
    tr s' = es ++ E_write (TIMER_ALARM ALARM_NUM) (u32 4294967396)
               :: E_read TIMERAWL (u32 (ref_clock 4294967200 (clock_trace 4294967396 (tr tim_demo))))
               :: clock_trace 4294967396 (tr tim_demo).
Proof.
  split; [reflexivity |]. split; [reflexivity |].
  apply (@tim_handler_fires_when_due (tim_demo_env 4294967396 4294967200) (ref_clock 4294967200)
           (tim_demo_clock 4294967396 4294967200 ltac:(lia)) (cb_client 7) 4294967396 0 tim_demo);
    [reflexivity | reflexivity | split; vm_compute; congruence | lia | split; reflexivity].
Defined.

(** [tim_set_timer] arms the callback for an instant [v + delay], where
    [v] is a time during the call and [delay] is at least 10 us (or the
    runtime's current maximum sleep), with interrupts masked while callback and
    alarm disagree, and leaves the interrupt lock as it found it. *)
Theorem tim_set_timer_arms {E : Env} now64 (CK : ClockOk now64) delta cb d s :
  (2 <= fuel)%nat -> now64 (tr s) + 6 * TICK < 18446744073709551616 ->
  0 <= d < 128 -> at_depth d s ->
  exists v s' es t, tim_set_timer delta cb s = Ret tt s' /\
    rd timer_cb s' = cb /\ at_depth d s' /\
    now64 (tr s) <= v <= now64 (tr s') /\
    tr s' = t ++ E_call (irq_clear 0) :: E_write TIMER_INTR 1
              :: E_write (TIMER_ALARM 0) (u32 (v + timer_delay (tr s) delta))
              :: es ++ E_cpsid :: tr s /\
    (t = [] \/ t = [E_cpsie]).
Proof.
  intros Hf Hr Hd Hdep.
  destruct (tim_set_timer_run now64 delta cb s Hf Hr) as (v & s' & es & t & E1 & Hcb & Hat & Hv & Htr & Ht).
  exists v, s', es, t. split_and!; auto; lia.
Qed.

Lemma tim_set_timer_arms_witness :
  (2 <= @fuel env0)%nat /\
  exists v s' es t, @tim_set_timer env0 3 (Some (cb_client 1)) machine_init = Ret tt s' /\
    rd timer_cb s' = Some (cb_client 1) /\ at_depth 0 s' /\
    0 <= v <= ref_clock 0 (tr s') /\
    tr s' = t ++ E_call (irq_clear 0) :: E_write TIMER_INTR 1
              :: E_write (TIMER_ALARM 0) (u32 (v + 10))
              :: es ++ [E_cpsid] /\
    (t = [] \/ t = [E_cpsie]).
Proof.
  split; [vm_compute; lia |].
  apply (@tim_set_timer_arms env0 (ref_clock 0) (ref_clock_ok 0 _ _ ltac:(lia)) 3
           (Some (cb_client 1)) 0 machine_init);
    [vm_compute; lia | reflexivity | lia | split; reflexivity].
Defined.

(** [target_wait_us n] returns, and not before [n] microseconds have
    passed, whatever side of a 32-bit wrap of the timer it starts on, provided
    every [k] loads take a microsecond. *)
Theorem target_wait_us_waits {E : Env} now64 (CK : ClockOk now64) k n s :
  progress now64 k -> (k * Z.to_nat n + 2 <= fuel)%nat -> 0 <= n -> n + TICK < 4294967296 ->
  exists s', target_wait_us n s = Ret tt s' /\ now64 (tr s) + n <= now64 (tr s').
Proof.
  intros Hk Hf Hn Hw.
  destruct (target_wait_us_run now64 k n s Hk Hf Hn Hw) as (es & -> & Hd).
  eexists. split; [done | exact Hd].
Qed.

Lemma target_wait_us_waits_witness :
  let s := emit E_wfe (emit E_wfe machine_init) in
  exists s', @target_wait_us env0 8 s = Ret tt s' /\
    ref_clock 0 (tr s) + 8 <= ref_clock 0 (tr s').
Proof.
  apply (@target_wait_us_waits env0 (ref_clock 0) (ref_clock_ok 0 _ _ ltac:(lia)) 1 8
           (emit E_wfe (emit E_wfe machine_init)));
    [intros u es Hes; unfold ref_clock; rewrite length_app, Hes; lia
    | vm_compute; lia | lia | reflexivity].
Defined.
