(* ===== verification/Alarm.v ===== *)
(** * Alarm: the timer interrupt, statement by statement

    [tim_handler] runs at the lowest interrupt priority and takes the interrupt
    lock only for part of its work; interrupts of a higher priority set the timer
    between its statements.  Here the handler is a program counter, and what it
    promises is a one-shot timer: [refines_one_shot] shows that it keeps the
    promise as long as nothing sets the timer in one short window. *)

From S2P Require Import Prelude Events Machine RefEnv Irq Dma Pins Tim.

(** ** Definitions *)

(** The next statement of [tim_handler], with its local variables. *)
Inductive th_point :=
| th_idle                          (* not in the handler *)
| th_ack                           (* timer_hw->intr = ... *)
| th_load                          (* f = timer_cb; if (f) *)
| th_lock (f : cb_t)               (* target_disable_irq() *)
| th_alarm (f : cb_t)              (* tal = timer_hw->alarm[ALARM_NUM] *)
| th_now (f : cb_t) (tal : Z)      (* now = timer_hw->timerawl *)
| th_test (f : cb_t) (tal now : Z) (* if (((tal - (now + 5)) >> 29) == 0) *)
| th_rearm (tal now : Z)           (* timer_hw->alarm[ALARM_NUM] = tal *)
| th_note (tal now : Z)            (* last_delay = tal *)
| th_note_now (tal now : Z)        (* last_delay_now = now *)
| th_int2 (tal now : Z)            (* int2 = timer_hw->intr *)
| th_dmesg (tal now : Z)           (* DMESG(...) *)
| th_leave                         (* target_enable_irq(); return *)
| th_unlock (f : cb_t)             (* target_enable_irq() *)
| th_delay (f : cb_t)              (* last_delay = 0 *)
| th_clear (f : cb_t)              (* timer_cb = NULL *)
| th_call (f : cb_t)               (* f() *)
| th_running.                      (* ... and the callback until it returns *)

Section Operations.
Context {E : Env}.

(** One statement, and where it leads.  The call of the callback is only begun. *)
Definition exec_th (p : th_point) : M th_point :=
  match p with
  | th_idle => ret th_idle
  | th_ack => TIMER_INTR <-~ bit ALARM_NUM ;; ret th_load
  | th_load => let! cb := get timer_cb in ret (match cb with Some f => th_lock f | None => th_idle end)
  | th_lock f => target_disable_irq ;; ret (th_alarm f)
  | th_alarm f => let! tal := load (TIMER_ALARM ALARM_NUM) in ret (th_now f tal)
  | th_now f tal => let! now := load TIMERAWL in ret (th_test f tal now)
  | th_test f tal now =>
    ret (if Z.shiftr (u32 (tal - u32 (now + 5))) 29 =? 0 then th_rearm tal now else th_unlock f)
  | th_rearm tal now => TIMER_ALARM ALARM_NUM <-~ tal ;; ret (th_note tal now)
  | th_note tal now => last_delay <~ tal ;; ret (th_note_now tal now)
  | th_note_now tal now => last_delay_now <~ now ;; ret (th_int2 tal now)
  | th_int2 tal now => let! v := load TIMER_INTR in int2 <~ v ;; ret (th_dmesg tal now)
  | th_dmesg tal now => sdk (DMESG "timer problem: al=%u now=%u" [tal; now]) ;; ret th_leave
  | th_leave => target_enable_irq ;; ret th_idle
  | th_unlock f => target_enable_irq ;; ret (th_delay f)
  | th_delay f => last_delay <~ 0 ;; ret (th_clear f)
  | th_clear f => timer_cb <~ None ;; ret (th_call f)
  | th_call f => ret th_running
  | th_running => ret th_running
  end.

(** Statement after statement to the end, the callback included. *)
Fixpoint to_end (fuel : nat) (p : th_point) : M unit :=
  match fuel with
  | O => halt NoFuel
  | S fuel =>
    match p with
    | th_idle | th_running => ret tt
    | th_call f => run_cb f
    | _ => let! q := exec_th p in to_end fuel q
    end
  end.
End Operations.

(** *** The specification: a one-shot timer *)

(** What can be observed: the timer is set, some time between [t0] and [t1], to
    call [cb] after [delay]; at [t] the handler takes [f]; it calls [f]. *)
Inductive label :=
| L_set (cb : option cb_t) (delay t0 t1 : Z)
| L_take (f : cb_t) (t : Z)
| L_call (f : cb_t).

(** The callback that is armed, with its deadline, and the one that has been
    taken and is to be called. *)
Record one_shot := mkShot { armed : option (cb_t * Z); due : option cb_t }.

Inductive shot_step : label -> one_shot -> one_shot -> Prop :=
| sp_set cb delay t0 t1 v w : t0 <= v <= t1 ->
    shot_step (L_set cb delay t0 t1) w (mkShot (option_map (fun f => (f, v + delay)) cb) (due w))
| sp_take f d t : d < t + 5 ->
    shot_step (L_take f t) (mkShot (Some (f, d)) None) (mkShot None (Some f))
| sp_call f a : shot_step (L_call f) (mkShot a (Some f)) (mkShot a None).

(** *** The handler with what preempts it *)

(** The statements under the interrupt lock. *)
Definition locked (p : th_point) : bool :=
  match p with
  | th_alarm _ | th_now _ _ | th_test _ _ _ | th_rearm _ _ | th_note _ _ | th_note_now _ _
  | th_int2 _ _ | th_dmesg _ _ | th_leave | th_unlock _ => true
  | _ => false
  end.

(** The lock has been released but the callback is still to be cleared. *)
Definition in_gap (p : th_point) : bool :=
  match p with th_delay _ | th_clear _ => true | _ => false end.

(** The handler has found an alarm due that is not the one of the callback it
    loaded. *)
Definition stale (p q : th_point) (s : machine) : Prop :=
  exists f tal now, p = th_test f tal now /\ q = th_unlock f /\ rd timer_cb s <> Some f.

(** The alarm that was last written to the register. *)
Fixpoint last_alarm (t : trace) : option Z :=
  match t with
  | [] => None
  | E_write r v :: t => if decide (r = TIMER_ALARM ALARM_NUM) then Some v else last_alarm t
  | _ :: t => last_alarm t
  end.

(** The alarm register reads back what was written. *)
Class AlarmHw {E : Env} : Prop :=
  alarm_reads t v : last_alarm t = Some v -> rd_reg t (TIMER_ALARM ALARM_NUM) = v.

(** Something else happened: the timer's variables and its alarm are as they
    were. *)
Definition elsewhere (s s' : machine) : Prop :=
  rd timer_cb s' = rd timer_cb s /\ last_alarm (tr s') = last_alarm (tr s) /\
  exists es, tr s' = es ++ tr s.

(** Delays of less than nine minutes, and a clock that does not run out. *)
Definition in_range {E : Env} (now64 : trace -> Z) (delta : Z) (s : machine) : Prop :=
  0 <= timer_delay (tr s) delta < 536870912 /\ now64 (tr s) + 6 * TICK < 18446744073709551616.

Definition emits {E : Env} (now64 : trace -> Z) (p : th_point) (s : machine) : list label :=
  match p with
  | th_clear f => [L_take f (now64 (tr s))]
  | th_call f => [L_call f]
  | _ => []
  end.

(** [late] allows the timer to be set in the gap, and a callback to be called for
    an alarm that is not its own.  The interrupt arrives at any time, due or not;
    the timer is set from anywhere that the lock lets run, the callback
    included. *)
Inductive th_step {E : Env} (now64 : trace -> Z) (late : bool) :
    th_point * machine -> list label -> th_point * machine -> Prop :=
| ts_irq s : primask s = false -> th_step now64 late (th_idle, s) [] (th_ack, s)
| ts_exec p q s s' : exec_th p s = Ret q s' -> (stale p q s -> late = true) ->
    th_step now64 late (p, s) (emits now64 p s) (q, s')
| ts_return s : th_step now64 late (th_running, s) [] (th_idle, s)
| ts_set delta cb p s s' : (locked p = true -> primask s = false) -> (in_gap p = true -> late = true) ->
    in_range now64 delta s -> tim_set_timer delta cb s = Ret tt s' ->
    th_step now64 late (p, s) [L_set cb (timer_delay (tr s) delta) (now64 (tr s)) (now64 (tr s'))] (p, s')
| ts_other p s s' : (locked p = true -> primask s = false) -> elsewhere s s' ->
    th_step now64 late (p, s) [] (p, s').

(** ** A handler that nothing preempts *)

Section Alone.
Context {E : Env}.

(** One statement further. *)
Definition is_statement (p : th_point) : bool :=
  match p with th_idle | th_call _ | th_running => false | _ => true end.
Lemma to_end_S fuel p s : is_statement p = true ->
  to_end (S fuel) p s = (let! q := exec_th p in to_end fuel q) s.
Proof. by destruct p. Qed.
Lemma to_end_ret fuel p q s s' : is_statement p = true -> exec_th p s = Ret q s' ->
  to_end (S fuel) p s = to_end fuel q s'.
Proof. intros Hp He. rewrite to_end_S by done. unfold bind at 1. by rewrite He. Qed.
(** A statement that is a call. *)
Lemma to_end_call {A} fuel p q (m : M A) s : is_statement p = true -> (forall s, exec_th p s = (m ;; ret q) s) ->
  to_end (S fuel) p s = (m ;; to_end fuel q) s.
Proof.
  intros Hp He. rewrite to_end_S by done. unfold bind at 1. rewrite He. unfold bind, ret.
  by destruct (m s).
Qed.

Lemma leave_statements fuel s : to_end (2 + fuel) th_leave s = target_enable_irq s.
Proof.
  cbn [Nat.add]. rewrite (to_end_call (S fuel) th_leave th_idle target_enable_irq s eq_refl (fun _ => eq_refl)).
  unfold bind. by destruct (target_enable_irq s) as [[] s1 |].
Qed.

Lemma rearm_statements fuel tal now s :
  to_end (7 + fuel) (th_rearm tal now) s =
  (TIMER_ALARM ALARM_NUM <-~ tal ;;
   last_delay <~ tal ;;
   last_delay_now <~ now ;;
   let! v := load TIMER_INTR in
   int2 <~ v ;;
   sdk (DMESG "timer problem: al=%u now=%u" [tal; now]) ;;
   target_enable_irq) s.
Proof.
  cbn [Nat.add]. rewrite (to_end_ret _ _ (th_note tal now) _ (emit (E_write (TIMER_ALARM ALARM_NUM) tal) s)) by done.
  unfold bind at 1, setreg, log. generalize (emit (E_write (TIMER_ALARM ALARM_NUM) tal) s). clear s. intros s.
  rewrite (to_end_ret _ _ (th_note_now tal now) _ (wr last_delay tal s)) by done.
  unfold bind at 1, put at 1. generalize (wr last_delay tal s). clear s. intros s.
  rewrite (to_end_ret _ _ (th_int2 tal now) _ (wr last_delay_now now s)) by done.
  unfold bind at 1, put at 1. generalize (wr last_delay_now now s). clear s. intros s.
  set (v := rd_reg (tr s) TIMER_INTR). set (s1 := emit (E_read TIMER_INTR v) s).
  rewrite (to_end_ret _ _ (th_dmesg tal now) _ (wr int2 v s1)) by done.
  unfold bind at 1, load. fold v s1. unfold bind at 1, put. generalize (wr int2 v s1). clear. intros s.
  rewrite (to_end_ret _ _ th_leave _ (emit (E_call (DMESG "timer problem: al=%u now=%u" [tal; now])) s)) by done.
  exact (leave_statements fuel _).
Qed.

Lemma fire_statements fuel f s :
  to_end (4 + fuel) (th_unlock f) s = (target_enable_irq ;; last_delay <~ 0 ;; timer_cb <~ None ;; run_cb f) s.
Proof.
  cbn [Nat.add]. rewrite (to_end_call _ (th_unlock f) (th_delay f) target_enable_irq s eq_refl (fun _ => eq_refl)).
  unfold bind at 1 2. destruct (target_enable_irq s) as [[] s1 |]; [| done].
  rewrite (to_end_ret _ _ (th_clear f) _ (wr last_delay 0 s1)) by done.
  by rewrite (to_end_ret _ _ (th_call f) _ (wr timer_cb None (wr last_delay 0 s1))) by done.
Qed.

(** Run without interruption, the statements are [tim_handler], from every
    state. *)
Theorem tim_handler_statements s : to_end 13 th_ack s = tim_handler s.
Proof.
  rewrite (to_end_ret _ _ th_load _ (emit (E_write TIMER_INTR (bit ALARM_NUM)) s)) by done.
  unfold tim_handler. unfold bind at 1, setreg, log. set (s1 := emit _ s). rewrite bind_get.
  destruct (rd timer_cb s1) as [f |] eqn:Hf.
  2:{ rewrite (to_end_ret _ _ th_idle _ s1); [done | done |]. cbn [exec_th]. by rewrite bind_get, Hf. }
  rewrite (to_end_ret _ _ (th_lock f) _ s1); [| done | cbn [exec_th]; by rewrite bind_get, Hf].
  rewrite (to_end_call _ (th_lock f) (th_alarm f) target_disable_irq s1 eq_refl (fun _ => eq_refl)).
  unfold bind at 1 2. rewrite target_disable_irq_run. generalize (wr irq_disabled (i8 (rd irq_disabled s1 + 1))
    (set_primask true (emit E_cpsid s1))). clear. intros s.
  set (tal := rd_reg (tr s) (TIMER_ALARM ALARM_NUM)). set (s3 := emit (E_read (TIMER_ALARM ALARM_NUM) tal) s).
  set (now := rd_reg (tr s3) TIMERAWL). set (s4 := emit (E_read TIMERAWL now) s3).
  rewrite (to_end_ret _ _ (th_now f tal) _ s3), (to_end_ret _ _ (th_test f tal now) _ s4) by done.
  unfold bind at 1 2, load. fold tal s3. fold now s4.
  erewrite to_end_ret; [| done | reflexivity].
  destruct (Z.shiftr (u32 (tal - u32 (now + 5))) 29 =? 0); [exact (rearm_statements 0 tal now s4) | exact (fire_statements 3 f s4)].
Qed.
End Alone.

(** ** The simulation *)

(** The armed callback is in [timer_cb] and its deadline in the alarm register,
    less than [2^29] us away. *)
Definition on_time (now64 : trace -> Z) (w : one_shot) (s : machine) : Prop :=
  forall f d, armed w = Some (f, d) -> last_alarm (tr s) = Some (u32 d) /\ d - now64 (tr s) < 536870912.
Definition tracks (now64 : trace -> Z) (w : one_shot) (s : machine) : Prop :=
  rd timer_cb s = option_map fst (armed w) /\ on_time now64 w s.

(** What the local variables of the handler hold. *)
Definition holds (w : one_shot) (tal : Z) : Prop := forall f d, armed w = Some (f, d) -> tal = u32 d.
Definition locals (now64 : trace -> Z) (p : th_point) (w : one_shot) (s : machine) : Prop :=
  match p with
  | th_now _ tal | th_rearm tal _ => holds w tal
  | th_test _ tal now => holds w tal /\
      exists n, now = u32 n /\ n <= now64 (tr s) /\ forall f d, armed w = Some (f, d) -> d - n < 536870912
  | th_unlock f | th_delay f | th_clear f => exists d, armed w = Some (f, d) /\ d < now64 (tr s) + 5
  | _ => True
  end.

Definition refines (now64 : trace -> Z) (p : th_point) (w : one_shot) (s : machine) : Prop :=
  tracks now64 w s /\ due w = match p with th_call f => Some f | _ => None end /\
  (locked p = true -> primask s = true) /\ locals now64 p w s.

Section Simulation.
Context {E : Env} (now64 : trace -> Z) {CK : ClockOk now64} {AH : AlarmHw}.

(** Time goes on. *)
Lemma later s s' es : tr s' = es ++ tr s -> now64 (tr s) <= now64 (tr s').
Proof. intros ->. by apply clk_mono_app. Qed.

Lemma elsewhere_tracks w s s' : elsewhere s s' -> tracks now64 w s -> tracks now64 w s'.
Proof.
  intros (Hcb & Ha & es & Ht) [H1 H2]. split; [by rewrite Hcb |]. intros f d Hw.
  destruct (H2 f d Hw). pose proof (later _ _ _ Ht). rewrite Ha. split; [done | lia].
Qed.
Lemma elsewhere_locals p w s s' : elsewhere s s' -> locals now64 p w s -> locals now64 p w s'.
Proof.
  intros (_ & _ & es & Ht). pose proof (later _ _ _ Ht).
  destruct p; cbn [locals]; try done.
  - intros (? & n & ? & ? & ?). split; [done |]. exists n. split_and!; [done | lia | done].
  - intros (d & ? & ?). exists d. split; [done | lia].
  - intros (d & ? & ?). exists d. split; [done | lia].
  - intros (d & ? & ?). exists d. split; [done | lia].
Qed.

(** The operations of the handler that leave the timer alone. *)
Lemma elsewhere_emit e s : last_alarm (e :: tr s) = last_alarm (tr s) -> elsewhere s (emit e s).
Proof. intros He. split; [done |]. split; [exact He |]. by exists [e]. Qed.
Lemma elsewhere_lock s s' : target_disable_irq s = Ret tt s' -> elsewhere s s' /\ primask s' = true.
Proof.
  rewrite target_disable_irq_run. intros [= <-]. split; [| done]. split; [done |]. split; [done |]. by exists [E_cpsid].
Qed.
Lemma elsewhere_unlock s s' : target_enable_irq s = Ret tt s' -> elsewhere s s'.
Proof.
  destruct (target_enable_irq_trace s) as (s1 & t & E1 & (Hf & _) & Ht & Hc & _). rewrite E1. intros [= <-].
  split; [unfold rd; cbn; by rewrite Hf |]. split; [| by exists t].
  rewrite Ht. by destruct Hc as [-> | ->].
Qed.

(** Setting the timer. *)
Lemma set_tracks delta cb w s s' : (2 <= fuel)%nat -> in_range now64 delta s ->
  tim_set_timer delta cb s = Ret tt s' ->
  exists w', shot_step (L_set cb (timer_delay (tr s) delta) (now64 (tr s)) (now64 (tr s'))) w w' /\
    due w' = due w /\ tracks now64 w' s'.
Proof.
  intros Hf [Hd Hc] Hr.
  destruct (tim_set_timer_run now64 delta cb s Hf Hc) as (v & s1 & es & t & E1 & Hcb & _ & Hv & Htr & Ht).
  rewrite E1 in Hr. injection Hr as ->. eexists. split; [by apply (sp_set cb _ _ _ v) |]. split; [done |].
  split; [rewrite Hcb; by destruct cb |]. intros f d. destruct cb as [g |]; [| done]. intros [= <- <-].
  split; [| lia]. rewrite Htr. by destruct Ht as [-> | ->].
Qed.

(** The comparison of [tim_handler] finds an alarm due at most 5 us early. *)
Lemma test_due d n : d - n < 536870912 -> (Z.shiftr (u32 (u32 d - u32 (u32 n + 5))) 29 =? 0) = false -> d < n + 5.
Proof.
  intros Hd. rewrite Z.shiftr_div_pow2 by lia. change (2 ^ 29) with 536870912.
  replace (u32 (u32 d - u32 (u32 n + 5))) with (u32 (d - n - 5)) by zlia. intros H%Z.eqb_neq.
  destruct (Z.lt_ge_cases d (n + 5)); [done |]. exfalso. apply H. zlia.
Qed.

(** A statement that leaves the timer alone. *)
Definition calls (p : th_point) : bool := match p with th_call _ => true | _ => false end.
Lemma quiet_step p q w s s' : refines now64 p w s -> elsewhere s s' ->
  calls p = false -> calls q = false -> (locked q = true -> primask s' = true) ->
  locals now64 q w s' -> refines now64 q w s'.
Proof.
  intros (Ht & Hd & _ & _) He Hp1 Hp2 Hq Hl. split; [by apply (elsewhere_tracks w s) |]. split; [| done].
  rewrite Hd. by destruct p, q.
Qed.
(** Its locals are not about the machine. *)
Lemma local_step p q w e s : refines now64 p w s -> calls p = false -> calls q = false ->
  last_alarm (e :: tr s) = last_alarm (tr s) -> (locked q = true -> locked p = true) ->
  locals now64 q w (emit e s) -> refines now64 q w (emit e s).
Proof.
  intros Hr Hp1 Hp2 He Hq Hl. apply (quiet_step p q w s); [done | by apply elsewhere_emit | done | done | | done].
  intros H. exact (proj1 (proj2 (proj2 Hr)) (Hq H)).
Qed.

Lemma alarm_sim f w s : refines now64 (th_alarm f) w s ->
  refines now64 (th_now f (rd_reg (tr s) (TIMER_ALARM ALARM_NUM))) w
    (emit (E_read (TIMER_ALARM ALARM_NUM) (rd_reg (tr s) (TIMER_ALARM ALARM_NUM))) s).
Proof.
  intros Hr. apply (local_step (th_alarm f)); [done.. |]. destruct Hr as ([_ Ho] & _).
  intros g d Hw. apply alarm_reads. by destruct (Ho g d Hw).
Qed.

Lemma now_sim f tal w s : refines now64 (th_now f tal) w s ->
  refines now64 (th_test f tal (rd_reg (tr s) TIMERAWL)) w (emit (E_read TIMERAWL (rd_reg (tr s) TIMERAWL)) s).
Proof.
  intros Hr. apply (local_step (th_now f tal)); [done.. |].
  destruct Hr as ([_ Ho] & _ & _ & Hl). split; [exact Hl |]. exists (now64 (tr s)).
  split; [apply clk_low |]. split; [apply clk_mono |]. intros g d Hw. by destruct (Ho g d Hw).
Qed.

Lemma test_sim f tal now q w s s' : refines now64 (th_test f tal now) w s ->
  exec_th (th_test f tal now) s = Ret q s' -> (stale (th_test f tal now) q s -> False) -> refines now64 q w s'.
Proof.
  intros Hr He Hs. cbn [exec_th] in He.
  destruct (Z.shiftr (u32 (tal - u32 (now + 5))) 29 =? 0) eqn:Ht; injection He as <- <-;
    (apply (quiet_step (th_test f tal now) _ w s);
      [done | split; [done | split; [done | by exists []]] | done | done | intros _; by apply Hr |]);
    destruct Hr as ([Hcb Ho] & _ & _ & Hl & n & -> & Hn & Hd); cbn [locals]; [exact Hl |].
  destruct (armed w) as [[g d] |] eqn:Hw; cbn [option_map fst] in Hcb.
  - destruct (decide (g = f)) as [-> | Hg].
    + exists d. split; [done |]. rewrite (Hl f d Hw) in Ht. pose proof (test_due d n (Hd f d eq_refl) Ht). lia.
    + exfalso. apply Hs. exists f, tal, (u32 n). rewrite Hcb. split_and!; congruence.
  - exfalso. apply Hs. exists f, tal, (u32 n). by rewrite Hcb.
Qed.

Lemma rearm_sim tal now w s : refines now64 (th_rearm tal now) w s ->
  refines now64 (th_note tal now) w (emit (E_write (TIMER_ALARM ALARM_NUM) tal) s).
Proof.
  intros ([Hcb Ho] & Hd & Hp & Hl). split; [| by split_and!]. split; [done |].
  intros f d Hw. rewrite <- (Hl f d Hw). split; [done |]. destruct (Ho f d Hw).
  pose proof (clk_mono (E_write (TIMER_ALARM ALARM_NUM) tal) (tr s)). unfold emit, upd_tr. cbn [tr]. lia.
Qed.

Lemma clear_sim f w s : refines now64 (th_clear f) w s ->
  exists w', shot_step (L_take f (now64 (tr s))) w w' /\ refines now64 (th_call f) w' (wr timer_cb None s).
Proof.
  intros ([Hcb Ho] & Hd & Hp & d & Hw & Ht). destruct w as [a o]. cbn [armed due] in *. subst a o.
  exists (mkShot None (Some f)). split; [by apply (sp_take f d) |]. by split_and!.
Qed.

Lemma elsewhere_vars s s' : rd timer_cb s' = rd timer_cb s -> tr s' = tr s -> elsewhere s s'.
Proof. intros Hc Ht. split; [done |]. rewrite Ht. split; [done |]. by exists []. Qed.

(** A statement that leaves the specification where it is. *)
Definition silent (p q : th_point) (w : one_shot) (s s' : machine) : Prop :=
  refines now64 p w s -> exec_th p s = Ret q s' -> refines now64 q w s'.

Lemma note_sim tal now q w s s' : silent (th_note tal now) q w s s'.
Proof. intros Hr [= <- <-]. apply (quiet_step (th_note tal now) _ w s); try done; [by apply elsewhere_vars | intros _; by apply Hr]. Qed.
Lemma note_now_sim tal now q w s s' : silent (th_note_now tal now) q w s s'.
Proof. intros Hr [= <- <-]. apply (quiet_step (th_note_now tal now) _ w s); try done; [by apply elsewhere_vars | intros _; by apply Hr]. Qed.
Lemma int2_sim tal now q w s s' : silent (th_int2 tal now) q w s s'.
Proof.
  intros Hr [= <- <-]. apply (quiet_step (th_int2 tal now) _ w s); try done; [| intros _; by apply Hr].
  split; [done |]. split; [done |]. by exists [E_read TIMER_INTR (rd_reg (tr s) TIMER_INTR)].
Qed.
Lemma dmesg_sim tal now q w s s' : silent (th_dmesg tal now) q w s s'.
Proof. intros Hr [= <- <-]. by apply (local_step (th_dmesg tal now)). Qed.
Lemma ack_sim q w s s' : silent th_ack q w s s'.
Proof. intros Hr [= <- <-]. by apply (local_step th_ack). Qed.
Lemma load_sim q w s s' : silent th_load q w s s'.
Proof.
  intros Hr. cbn [exec_th]. rewrite bind_get. destruct (rd timer_cb s); intros [= <- <-];
    (apply (quiet_step th_load _ w s); try done; by apply elsewhere_vars).
Qed.
Lemma lock_sim f q w s s' : silent (th_lock f) q w s s'.
Proof.
  intros Hr (a & s1 & H1 & [= <- <-])%bind_inv. destruct a. destruct (elsewhere_lock _ _ H1).
  by apply (quiet_step (th_lock f) _ w s).
Qed.
Lemma leave_sim q w s s' : silent th_leave q w s s'.
Proof.
  intros Hr (a & s1 & H1 & [= <- <-])%bind_inv. destruct a.
  apply (quiet_step th_leave _ w s); try done. by apply elsewhere_unlock.
Qed.
Lemma unlock_sim f q w s s' : silent (th_unlock f) q w s s'.
Proof.
  intros Hr (a & s1 & H1 & [= <- <-])%bind_inv. destruct a. pose proof (elsewhere_unlock _ _ H1) as He.
  apply (quiet_step (th_unlock f) _ w s); try done. by apply (elsewhere_locals (th_unlock f) w s), Hr.
Qed.
Lemma delay_sim f q w s s' : silent (th_delay f) q w s s'.
Proof.
  intros Hr [= <- <-]. apply (quiet_step (th_delay f) _ w s); try done; [by apply elsewhere_vars |].
  exact (proj2 (proj2 (proj2 Hr))).
Qed.

Lemma exec_sim p q w s s' : refines now64 p w s -> exec_th p s = Ret q s' -> (stale p q s -> False) ->
  exists w', accepts shot_step (emits now64 p s) w w' /\ refines now64 q w' s'.
Proof.
  intros Hr He Hs.
  assert ((exists f, p = th_clear f) \/ (exists f, p = th_call f) \/ (emits now64 p s = [] /\ refines now64 q w s')) as
    [[f ->] | [[f ->] | [-> H]]].
  { destruct p; eauto; right; right; (split; [done |]).
    - by injection He as <- <-.
    - by apply (ack_sim q w s).
    - by apply (load_sim q w s).
    - by apply (lock_sim f q w s).
    - injection He as <- <-. by apply alarm_sim.
    - injection He as <- <-. by apply now_sim.
    - by apply (test_sim f tal now q w s).
    - injection He as <- <-. by apply rearm_sim.
    - by apply (note_sim tal now q w s).
    - by apply (note_now_sim tal now q w s).
    - by apply (int2_sim tal now q w s).
    - by apply (dmesg_sim tal now q w s).
    - by apply (leave_sim q w s).
    - by apply (unlock_sim f q w s).
    - by apply (delay_sim f q w s).
    - by injection He as <- <-. }
  - injection He as <- <-. destruct (clear_sim f w s Hr) as (w' & H1 & H2). exists w'. split; [| done].
    by apply accepts_one.
  - injection He as <- <-. destruct Hr as (Ht & Hd & _). destruct w as [a o]. cbn [due] in Hd. subst o.
    exists (mkShot a None). split; [| done]. exact (accepts_one _ _ _ _ (sp_call f a)).
  - exists w. split; [apply acc_nil | done].
Qed.

Lemma step_sim ls x y w : (2 <= fuel)%nat -> th_step now64 false x ls y -> refines now64 (fst x) w (snd x) ->
  exists w', accepts shot_step ls w w' /\ refines now64 (fst y) w' (snd y).
Proof.
  intros Hf Hst Hr. destruct Hst as [s _ | p q s s' He Hs | s | delta cb p s s' Hp Hg Hi He | p s s' Hp He];
    cbn [fst snd] in *.
  - exists w. split; [apply acc_nil |]. destruct Hr as (? & ? & _). by split_and!.
  - apply (exec_sim p q w s s' Hr He). intros H. by specialize (Hs H).
  - exists w. split; [apply acc_nil |]. destruct Hr as (? & ? & _). by split_and!.
  - destruct (set_tracks delta cb w s s' Hf Hi He) as (w' & H1 & Hd & Ht). exists w'.
    split; [by apply accepts_one |]. destruct Hr as (_ & Hd0 & Hl & _).
    split; [done |]. split; [by rewrite Hd |].
    destruct (locked p) eqn:Hlk; [specialize (Hl eq_refl); specialize (Hp eq_refl); congruence |]. split; [done |].
    destruct p; try done; by specialize (Hg eq_refl).
  - exists w. split; [apply acc_nil |]. destruct Hr as (Ht & Hd & Hl & Hloc).
    split; [by apply (elsewhere_tracks w s) |]. split; [done |]. split; [| by apply (elsewhere_locals p w s)].
    intros Hlk. specialize (Hl Hlk). specialize (Hp Hlk). congruence.
Qed.

End Simulation.

(** ** Concrete runs *)

(** What happens next. *)
Inductive turn := go_irq | go_exec | go_return | go_set (delta : Z) (cb : option cb_t) | go_wait.

Definition staleb (p q : th_point) (s : machine) : bool :=
  match p, q with th_test f _ _, th_unlock g => bool_decide (f = g /\ rd timer_cb s <> Some f) | _, _ => false end.
Definition in_rangeb {E : Env} (now64 : trace -> Z) (delta : Z) (s : machine) : bool :=
  (0 <=? timer_delay (tr s) delta) && (timer_delay (tr s) delta <? 536870912) &&
  (now64 (tr s) + 6 * TICK <? 18446744073709551616).

Section Turns.
Context {E : Env} (now64 : trace -> Z) (late : bool).

Definition turn_of (m : turn) (x : th_point * machine) : option (list label * (th_point * machine)) :=
  let (p, s) := x in
  match m with
  | go_irq => match p with th_idle => if primask s then None else Some ([], (th_ack, s)) | _ => None end
  | go_exec =>
    match exec_th p s with
    | Ret q s' => if staleb p q s && negb late then None else Some (emits now64 p s, (q, s'))
    | Stop _ _ => None
    end
  | go_return => match p with th_running => Some ([], (th_idle, s)) | _ => None end
  | go_set delta cb =>
    if (locked p && primask s) || (in_gap p && negb late) || negb (in_rangeb now64 delta s) then None
    else match tim_set_timer delta cb s with
         | Ret _ s' => Some ([L_set cb (timer_delay (tr s) delta) (now64 (tr s)) (now64 (tr s'))], (p, s'))
         | Stop _ _ => None
         end
  | go_wait => if locked p && primask s then None else Some ([], (p, emit E_wfe s))
  end.
Fixpoint turns (ms : list turn) (x : th_point * machine) : option (list label * (th_point * machine)) :=
  match ms with
  | [] => Some ([], x)
  | m :: ms =>
    match turn_of m x with
    | Some (ls, y) => match turns ms y with Some (ls', z) => Some (ls ++ ls', z) | None => None end
    | None => None
    end
  end.

Lemma staleb_sound p q s : stale p q s -> staleb p q s = true.
Proof. intros (f & tal & now & -> & -> & Hf). by apply bool_decide_eq_true. Qed.
Lemma in_rangeb_sound delta s : in_rangeb now64 delta s = true -> in_range now64 delta s.
Proof. unfold in_rangeb, in_range. intros H. b2p. lia. Qed.

Lemma turn_of_sound m x ls y : turn_of m x = Some (ls, y) -> th_step now64 late x ls y.
Proof.
  destruct x as [p s]. destruct m as [| | | delta cb |]; cbn [turn_of].
  - destruct p; try done. destruct (primask s) eqn:Hp; [done |]. intros [= <- <-]. by apply ts_irq.
  - destruct (exec_th p s) as [q s' |] eqn:He; [| done]. destruct (staleb p q s && negb late) eqn:Hs; [done |].
    intros [= <- <-]. apply ts_exec; [done |]. intros H%staleb_sound. rewrite H in Hs. by destruct late.
  - destruct p; try done. intros [= <- <-]. apply ts_return.
  - destruct (_ || _) eqn:Hc; [done |]. destruct (tim_set_timer delta cb s) as [[] s' |] eqn:He; [| done].
    intros [= <- <-]. apply orb_false_elim in Hc as [[H1 H2]%orb_false_elim H3%negb_false_iff].
    apply ts_set; [| | by apply in_rangeb_sound | done].
    + intros Hl. by rewrite Hl in H1.
    + intros Hg. rewrite Hg in H2. by destruct late.
  - destruct (locked p && primask s) eqn:Hc; [done |]. intros [= <- <-]. apply ts_other.
    + intros Hl. by rewrite Hl in Hc.
    + split; [done |]. split; [done |]. by exists [E_wfe].
Qed.
Lemma turns_sound ms x ls y : turns ms x = Some (ls, y) -> lrun (th_step now64 late) x ls y.
Proof.
  revert x ls. induction ms as [| m ms IH]; intros x ls; cbn [turns]; [intros [= <- <-]; apply lrun_nil |].
  destruct (turn_of m x) as [[ls1 z] |] eqn:Hm; [| done]. destruct (turns ms z) as [[ls2 z2] |] eqn:Hz; [| done].
  intros [= <- <-]. apply (lrun_cons _ x z z2); [by apply (turn_of_sound m) | by apply IH].
Qed.
End Turns.

(** The reference clock and an alarm register. *)
Definition alarm_env : Env :=
  ref_env 0 (fun t r => if decide (r = TIMER_ALARM ALARM_NUM) then last_alarm t else None) (fun _ _ => 0) (fun _ _ => []).
#[export] Instance alarm_env_clock : @ClockOk alarm_env (ref_clock 0).
Proof. constructor; unfold ref_clock, TICK; intros; cbn [length]; try done; lia. Qed.
#[export] Instance alarm_env_hw : @AlarmHw alarm_env.
Proof.
  intros t v Ht. cbn [rd_reg alarm_env ref_env]. rewrite decide_True by done. by rewrite Ht.
Qed.

Definition demo_turns (late : bool) (ms : list turn) : list label * (th_point * machine) :=
  default ([], (th_running, machine_init)) (@turns alarm_env (ref_clock 0) late ms (th_idle, machine_init)).

(** ** The theorems *)

(** C4: [tim.c] implements a one-shot timer, outside two windows.  Calls of
    [tim_set_timer], with delays below nine minutes, from the program, from other interrupts and from callbacks,
    interleave with the statements of the timer interrupt, with two exceptions: none
    comes between the handler's release of the lock and its clearing of
    [timer_cb]; and one that comes between the handler's load of [timer_cb] and its
    taking of the lock sets an alarm that is not yet due when the handler reads the
    clock.  Then what is observed is a behaviour of the specification: a callback is
    taken at most 5 us before the deadline of the call that set it, never after it
    was replaced or cancelled, and called exactly once; none is lost.  Outside the
    handler, [timer_cb] and the alarm register hold what is armed.  In each of
    the two windows a callback can be lost: [timer_races]. *)
Theorem refines_one_shot {E : Env} now64 {CK : ClockOk now64} {AH : AlarmHw} ls s p s' :
  (2 <= fuel)%nat -> rd timer_cb s = None -> lrun (th_step now64 false) (th_idle, s) ls (p, s') ->
  exists w', accepts shot_step ls (mkShot None None) w' /\
    (p = th_idle -> due w' = None /\ rd timer_cb s' = option_map fst (armed w')) /\
    (forall f d, armed w' = Some (f, d) -> last_alarm (tr s') = Some (u32 d)).
Proof.
  intros Hf Hn Hr.
  destruct (lrun_simulates _ shot_step (fun x w => refines now64 (fst x) w (snd x))
    (fun x ls y w => step_sim now64 ls x y w Hf) _ _ _ Hr (mkShot None None)) as (w' & H1 & (Hcb & Ho) & Hd & _);
    [by split_and! |].
  exists w'. split; [done |]. split; [intros ->; split; [exact Hd | exact Hcb] |].
  intros f d Hw. exact (proj1 (Ho f d Hw)).
Qed.

(** A callback whose alarm is due; while the handler has it in hand, an interrupt
    sets another one, which comes in its own time. *)
Definition demo_preempted : list turn :=
  [go_set 10 (Some (cb_client 1))] ++ replicate 20 go_wait ++ [go_irq; go_exec; go_exec; go_set 100 (Some (cb_client 2))] ++
  replicate 10 go_exec ++ replicate 100 go_wait ++ [go_irq] ++ replicate 10 go_exec ++ [go_return].

Lemma refines_one_shot_witness (r := demo_turns false demo_preempted) :
  (exists t0 t1 t2 t3 t, fst r = [L_set (Some (cb_client 1)) 10 t0 t1; L_set (Some (cb_client 2)) 100 t2 t3;
     L_take (cb_client 2) t; L_call (cb_client 2)]) /\
  exists w', accepts shot_step (fst r) (mkShot None None) w' /\
    (fst (snd r) = th_idle -> due w' = None /\ rd timer_cb (snd (snd r)) = option_map fst (armed w')) /\
    (forall f d, armed w' = Some (f, d) -> last_alarm (tr (snd (snd r))) = Some (u32 d)).
Proof.
  split; [do 5 eexists; vm_compute; reflexivity |].
  apply (@refines_one_shot alarm_env (ref_clock 0) alarm_env_clock alarm_env_hw (fst r) machine_init);
    [vm_compute; lia | reflexivity |].
  apply (@turns_sound alarm_env (ref_clock 0) false demo_preempted). vm_compute. reflexivity.
Defined.

(** The specification does not take a callback that has been replaced. *)
Lemma take_replaced f g delay t0 t1 t ls w w' :
  accepts shot_step (L_set (Some f) delay t0 t1 :: L_take g t :: ls) w w' -> f = g.
Proof.
  intros H. repeat match goal with
  | H : accepts shot_step (_ :: _) _ _ |- _ => inversion H; clear H; subst
  | H : shot_step _ _ _ |- _ => inversion H; clear H; subst
  end. done.
Qed.

(** The exclusions are needed.  An interrupt between the release of the lock and
    the clearing of [timer_cb] sets a second callback: the handler clears that
    one, and calls the first. *)
Definition demo_gap : list turn :=
  [go_set 10 (Some (cb_client 1))] ++ replicate 20 go_wait ++ [go_irq] ++ replicate 7 go_exec ++
  [go_set 100 (Some (cb_client 2))] ++ replicate 3 go_exec ++ [go_return].
(** One before the lock sets it and takes so long that the alarm it set is due:
    the handler takes that for the alarm of the first. *)
Definition demo_stale : list turn :=
  [go_set 10 (Some (cb_client 1))] ++ replicate 20 go_wait ++ [go_irq; go_exec; go_exec; go_set 10 (Some (cb_client 2))] ++
  replicate 20 go_wait ++ replicate 8 go_exec ++ [go_return].

(** In both the second callback is lost: at the end nothing is armed, though it
    was neither replaced nor called, and no one-shot timer behaves like this. *)
Theorem timer_races ms : ms = demo_gap \/ ms = demo_stale ->
  exists ls s', lrun (@th_step alarm_env (ref_clock 0) true) (th_idle, machine_init) ls (th_idle, s') /\
    (exists d1 t1 t2 d2 t3 t4 t, ls = [L_set (Some (cb_client 1)) d1 t1 t2; L_set (Some (cb_client 2)) d2 t3 t4;
       L_take (cb_client 1) t; L_call (cb_client 1)]) /\
    rd timer_cb s' = None /\ forall w', accepts shot_step ls (mkShot None None) w' -> False.
Proof.
  intros Hm. set (r := demo_turns true ms). exists (fst r), (snd (snd r)).
  assert (@turns alarm_env (ref_clock 0) true ms (th_idle, machine_init) = Some (fst r, (th_idle, snd (snd r))) /\
    (exists d1 t1 t2 d2 t3 t4 t, fst r = [L_set (Some (cb_client 1)) d1 t1 t2; L_set (Some (cb_client 2)) d2 t3 t4;
       L_take (cb_client 1) t; L_call (cb_client 1)]) /\ rd timer_cb (snd (snd r)) = None) as (H1 & H2 & H3).
  { destruct Hm as [-> | ->]; (split; [vm_compute; reflexivity |]); (split; [| vm_compute; reflexivity]);
      do 7 eexists; vm_compute; reflexivity. }
  split; [by apply (@turns_sound alarm_env (ref_clock 0) true ms) |]. split; [done |]. split; [done |].
  destruct H2 as (d1 & t1 & t2 & d2 & t3 & t4 & t & ->). intros w' Hw. inversion Hw; subst.
  match goal with H : accepts shot_step (_ :: _) _ _ |- _ => by apply take_replaced in H end.
Qed.
