(* ===== verification/Uart.v ===== *)
(** * Uart: the single-wire Jacdac line of [uart.c]

    One pin carries both directions.  Two PIO state machines shift bits, two
    DMA channels feed them, a falling edge on the idle line and a break
    condition arrive as interrupts.  The driver keeps one status word; what it
    promises is that the status always agrees with the hardware it last
    commanded, and that transmitter and receiver are never enabled together. *)

From S2P Require Import Prelude Events Machine RefEnv Irq Dma Pins Tim.

(** ** Definitions *)

Definition STATUS_IDLE : Z := 0.
Definition STATUS_TX : Z := 0x10.
Definition STATUS_RX : Z := 0x20.
Definition PIO_BREAK_IRQ : Z := 0x2.

(** Constants of the Pico SDK. *)
Definition pio0 : Z := 0.
Definition PIO0_IRQ_0 : Z := 7.
Definition pis_interrupt1 : Z := 9.
Definition PIO_SM0_PINCTRL_SET_COUNT_LSB : Z := 26.
Definition PIO_SM0_PINCTRL_SET_BASE_LSB : Z := 5.
Definition PIO_FDEBUG_RXSTALL_LSB : Z := 0.
Definition PIO_FDEBUG_RXUNDER_LSB : Z := 8.
Definition PIO_FDEBUG_TXOVER_LSB : Z := 16.
Definition PIO_FDEBUG_TXSTALL_LSB : Z := 24.

Definition dmachTx : var Z := {|
  rd s := f_dmachTx (m_uart s);
  wr v := upd_uart (fun x => {| f_dmachTx := v; f_dmachRx := f_dmachRx x; f_txprog := f_txprog x;
      f_rxprog := f_rxprog x; f_smtx := f_smtx x; f_smrx := f_smrx x;
      f_uart_status := f_uart_status x; f_jacdac_pin := f_jacdac_pin x |}) |}.
Definition dmachRx : var Z := {|
  rd s := f_dmachRx (m_uart s);
  wr v := upd_uart (fun x => {| f_dmachTx := f_dmachTx x; f_dmachRx := v; f_txprog := f_txprog x;
      f_rxprog := f_rxprog x; f_smtx := f_smtx x; f_smrx := f_smrx x;
      f_uart_status := f_uart_status x; f_jacdac_pin := f_jacdac_pin x |}) |}.
Definition txprog : var Z := {|
  rd s := f_txprog (m_uart s);
  wr v := upd_uart (fun x => {| f_dmachTx := f_dmachTx x; f_dmachRx := f_dmachRx x; f_txprog := v;
      f_rxprog := f_rxprog x; f_smtx := f_smtx x; f_smrx := f_smrx x;
      f_uart_status := f_uart_status x; f_jacdac_pin := f_jacdac_pin x |}) |}.
Definition rxprog : var Z := {|
  rd s := f_rxprog (m_uart s);
  wr v := upd_uart (fun x => {| f_dmachTx := f_dmachTx x; f_dmachRx := f_dmachRx x; f_txprog := f_txprog x;
      f_rxprog := v; f_smtx := f_smtx x; f_smrx := f_smrx x;
      f_uart_status := f_uart_status x; f_jacdac_pin := f_jacdac_pin x |}) |}.
Definition smtx : var Z := {|
  rd s := f_smtx (m_uart s);
  wr v := upd_uart (fun x => {| f_dmachTx := f_dmachTx x; f_dmachRx := f_dmachRx x; f_txprog := f_txprog x;
      f_rxprog := f_rxprog x; f_smtx := v; f_smrx := f_smrx x;
      f_uart_status := f_uart_status x; f_jacdac_pin := f_jacdac_pin x |}) |}.
Definition smrx : var Z := {|
  rd s := f_smrx (m_uart s);
  wr v := upd_uart (fun x => {| f_dmachTx := f_dmachTx x; f_dmachRx := f_dmachRx x; f_txprog := f_txprog x;
      f_rxprog := f_rxprog x; f_smtx := f_smtx x; f_smrx := v;
      f_uart_status := f_uart_status x; f_jacdac_pin := f_jacdac_pin x |}) |}.
Definition uart_status : var Z := {|
  rd s := f_uart_status (m_uart s);
  wr v := upd_uart (fun x => {| f_dmachTx := f_dmachTx x; f_dmachRx := f_dmachRx x; f_txprog := f_txprog x;
      f_rxprog := f_rxprog x; f_smtx := f_smtx x; f_smrx := f_smrx x;
      f_uart_status := v; f_jacdac_pin := f_jacdac_pin x |}) |}.
Definition jacdac_pin : var Z := {|
  rd s := f_jacdac_pin (m_uart s);
  wr v := upd_uart (fun x => {| f_dmachTx := f_dmachTx x; f_dmachRx := f_dmachRx x; f_txprog := f_txprog x;
      f_rxprog := f_rxprog x; f_smtx := f_smtx x; f_smrx := f_smrx x;
      f_uart_status := f_uart_status x; f_jacdac_pin := v |}) |}.

(** [__builtin_ctz], for a nonzero word. *)
Fixpoint ctz_pos (p : positive) : Z :=
  match p with xO p => 1 + ctz_pos p | _ => 0 end.
Definition ctz (m : Z) : Z := match m with Zpos p => ctz_pos p | _ => 0 end.

Definition pinctrl_set (count base : Z) : Z :=
  Z.lor (u32 (Z.shiftl count PIO_SM0_PINCTRL_SET_COUNT_LSB))
        (u32 (Z.shiftl base PIO_SM0_PINCTRL_SET_BASE_LSB)).

Section Operations.
Context {E : Env}.

(** *** PIO helpers *)

Definition pio_gpio_init_ (pio pin : Z) : M unit :=
  pin_setup_output_af pin (if pio =? pio0 then GPIO_FUNC_PIO0 else GPIO_FUNC_PIO1).

(** [count] decreases by 5 in every round. *)
Definition pio_sm_set_consecutive_pindirs_ (pio sm pin count : Z) (is_out : bool) : M unit :=
  let! pinctrl_saved := load (PIO_SM_PINCTRL pio sm) in
  let pindir_val := if is_out then 0x1f else 0 in
  let! last := loop (S (Z.to_nat count)) (fun '(pin, count) =>
    if 5 <? count then
      PIO_SM_PINCTRL pio sm <-~ pinctrl_set 5 pin ;;
      sdk (pio_sm_exec pio sm (pio_encode_set pio_pindirs pindir_val)) ;;
      ret (inl (Z.land (u32 (pin + 5)) 0x1f, count - 5))
    else ret (inr (pin, count))) (pin, count) in
  PIO_SM_PINCTRL pio sm <-~ pinctrl_set (snd last) (fst last) ;;
  sdk (pio_sm_exec pio sm (pio_encode_set pio_pindirs pindir_val)) ;;
  PIO_SM_PINCTRL pio sm <-~ pinctrl_saved.

(** Every round clears one of at most 32 bits. *)
Definition pio_sm_set_pins_with_mask_ (pio sm pinvals pin_mask : Z) : M unit :=
  let! pinctrl_saved := load (PIO_SM_PINCTRL pio sm) in
  loop 33 (fun pin_mask =>
    if z2b pin_mask then
      let base := ctz pin_mask in
      PIO_SM_PINCTRL pio sm <-~ pinctrl_set 1 base ;;
      sdk (pio_sm_exec pio sm (pio_encode_set pio_pins (Z.land (Z.shiftr pinvals base) 1))) ;;
      ret (inl (Z.land pin_mask (pin_mask - 1)))
    else ret (inr tt)) pin_mask ;;
  PIO_SM_PINCTRL pio sm <-~ pinctrl_saved.

Definition pio_sm_set_pindirs_with_mask_ (pio sm pindirs pin_mask : Z) : M unit :=
  let! pinctrl_saved := load (PIO_SM_PINCTRL pio sm) in
  loop 33 (fun pin_mask =>
    if z2b pin_mask then
      let base := ctz pin_mask in
      PIO_SM_PINCTRL pio sm <-~ pinctrl_set 1 base ;;
      sdk (pio_sm_exec pio sm (pio_encode_set pio_pindirs (Z.land (Z.shiftr pindirs base) 1))) ;;
      ret (inl (Z.land pin_mask (pin_mask - 1)))
    else ret (inr tt)) pin_mask ;;
  PIO_SM_PINCTRL pio sm <-~ pinctrl_saved.

Definition pio_sm_init_ (pio sm initial_pc : Z) (config : option pio_sm_config) : M unit :=
  sdk (pio_sm_set_enabled pio sm false) ;;
  match config with
  | Some c => sdk (pio_sm_set_config pio sm c)
  | None => sdk (pio_sm_set_config pio sm pio_get_default_sm_config)
  end ;;
  sdk (pio_sm_clear_fifos pio sm) ;;
  let fdebug_sm_mask :=
    Z.lor (Z.lor (Z.lor (bit PIO_FDEBUG_TXOVER_LSB) (bit PIO_FDEBUG_RXUNDER_LSB))
                 (bit PIO_FDEBUG_TXSTALL_LSB)) (bit PIO_FDEBUG_RXSTALL_LSB) in
  PIO_FDEBUG pio <-~ u32 (Z.shiftl fdebug_sm_mask sm) ;;
  sdk (pio_sm_restart pio sm) ;;
  sdk (pio_sm_clkdiv_restart pio sm) ;;
  sdk (pio_sm_exec pio sm (pio_encode_jmp initial_pc)).

(** *** Releasing the line *)

Definition uart_disable : M unit :=
  let! pin := get jacdac_pin in
  if pin =? NO_PIN then ret tt
  else
    (uart_status <~ STATUS_IDLE ;;
     target_disable_irq ;;
     let! rx := get dmachRx in
     let! tx := get dmachTx in
     let! rxm := c_shl1 rx in
     let! txm := c_shl1 tx in
     DMA_ABORT <-~ Z.lor rxm txm ;;
     pin_setup_input pin PIN_PULL_UP ;;
     pin_setup_output_af pin GPIO_FUNC_SIO ;;
     let! sm := get smtx in
     sdk (pio_sm_set_enabled pio0 sm false) ;;
     let! sm := get smrx in
     sdk (pio_sm_set_enabled pio0 sm false) ;;
     sdk (pio_set_irq0_source_enabled pio0 pis_interrupt1 false) ;;
     exti_enable pin ;;
     target_enable_irq).

(** *** Interrupts *)

Definition rx_done : M unit :=
  let! st := get uart_status in
  when z2b (Z.land st STATUS_RX) do
    (uart_status <~ u16 (Z.land st (Z.lnot STATUS_RX)) ;;
     uart_disable ;;
     jd_rx_completed 0).

Definition rx_handler : M unit := rx_done.

Definition tx_handler : M unit :=
  let! sm := get smtx in
  let! m := c_shl1 (PIO_FDEBUG_TXSTALL_LSB + sm) in
  PIO_FDEBUG pio0 <-~ m ;;
  while_ fuel
    (let! v := load (PIO_FDEBUG pio0) in
     let! sm := get smtx in
     let! m := c_shl1 (PIO_FDEBUG_TXSTALL_LSB + sm) in
     ret (negb (z2b (Z.land v m))))
    (ret tt) ;;
  let! pin := get jacdac_pin in
  pin_set pin 1 ;;
  pin_setup_output pin ;;
  pin_setup_output_af pin GPIO_FUNC_SIO ;;
  target_wait_us 1 ;;
  pin_set pin 0 ;;
  target_wait_us 12 ;;
  pin_set pin 1 ;;
  uart_disable ;;
  jd_tx_completed 0.

Definition isr_pio0_0 : M unit :=
  let! n := load (PIO_IRQ pio0) in
  PIO_IRQ pio0 <-~ n ;;
  when z2b (Z.land n PIO_BREAK_IRQ) do rx_done.

(** *** Arming *)

Definition jd_tx_arm_pin (pio sm pin : Z) : M unit :=
  let! m := c_shl1 pin in
  pio_sm_set_pins_with_mask_ pio sm m m ;;
  pio_sm_set_pindirs_with_mask_ pio sm m m ;;
  pio_gpio_init_ pio pin.

Definition jd_tx_program_init (pio sm offset pin baud : Z) : M unit :=
  jd_tx_arm_pin pio sm pin ;;
  let c := jd_tx_program_get_default_config offset in
  let c := sm_config_set_out_shift c true false 32 in
  let c := sm_config_set_out_pins c pin 1 in
  let c := sm_config_set_sideset_pins c pin in
  let c := sm_config_set_fifo_join c PIO_FIFO_JOIN_NONE in
  let! hz := sdkv (clock_get_hz clk_sys) in
  let c := sm_config_set_clkdiv c hz (u32 (8 * baud)) in
  pio_sm_init_ pio sm offset (Some c) ;;
  sdk (pio_sm_set_enabled pio sm false).

Definition jd_rx_arm_pin (pio sm pin : Z) : M unit :=
  pio_sm_set_consecutive_pindirs_ pio sm pin 1 false ;;
  exti_disable pin ;;
  pio_gpio_init_ pio pin ;;
  pin_set_pull pin PIN_PULL_UP.

Definition jd_rx_program_init (pio sm offset pin baud : Z) : M unit :=
  jd_rx_arm_pin pio sm pin ;;
  let c := jd_rx_program_get_default_config offset in
  let c := sm_config_set_in_pins c pin in
  let c := sm_config_set_jmp_pin c pin in
  let c := sm_config_set_in_shift c true true 8 in
  let c := sm_config_set_fifo_join c PIO_FIFO_JOIN_RX in
  let! hz := sdkv (clock_get_hz clk_sys) in
  let c := sm_config_set_clkdiv c hz (u32 (8 * baud)) in
  pio_sm_init_ pio sm offset (Some c) ;;
  sdk (pio_sm_set_enabled pio sm false).

(** *** Entry points *)

Definition uart_init_ : M unit :=
  let! pin := sdkv (dcfg_get_pin "jacdac.pin") in
  let pin := u8 pin in
  jacdac_pin <~ pin ;;
  if pin =? NO_PIN then ret tt
  else
    (pin_set pin 1 ;;
     pin_setup_output pin ;;
     pin_setup_input pin PIN_PULL_UP ;;
     let! prog := sdkv (pio_add_program pio0 jd_tx_program) in
     txprog <~ prog ;;
     let! prog := sdkv (pio_add_program pio0 jd_rx_program) in
     rxprog <~ prog ;;
     let baudrate := 1000000 in
     let! sm := get smtx in
     let! prog := get txprog in
     jd_tx_program_init pio0 sm prog pin baudrate ;;
     let! sm := get smrx in
     let! prog := get rxprog in
     jd_rx_program_init pio0 sm prog pin baudrate ;;
     let! ch := sdkv (dma_claim_unused_channel true) in
     dmachRx <~ ch ;;
     let! ch := sdkv (dma_claim_unused_channel true) in
     dmachTx <~ ch ;;
     let! rx := get dmachRx in
     let! sm := get smrx in
     let c := dma_channel_get_default_config rx in
     let c := channel_config_set_bswap c true in
     let c := channel_config_set_read_increment c false in
     let c := channel_config_set_write_increment c true in
     let c := channel_config_set_transfer_data_size c DMA_SIZE_8 in
     let c := channel_config_set_dreq c (DREQ_PIO0_RX sm) in
     sdk (dma_channel_configure rx c NULL (pio_rxf_byte pio0 sm 3) 0 false) ;;
     let! tx := get dmachTx in
     let! sm := get smtx in
     let c := dma_channel_get_default_config tx in
     let c := channel_config_set_transfer_data_size c DMA_SIZE_8 in
     let c := channel_config_set_dreq c (pio_get_dreq pio0 sm true) in
     sdk (dma_channel_configure tx c (pio_txf pio0 sm) NULL 0 false) ;;
     exti_set_callback pin (Some cb_jd_line_falling) EXTI_FALLING ;;
     ram_irq_set_priority DMA_IRQ_0 IRQ_PRIORITY_UART ;;
     ram_irq_set_priority PIO0_IRQ_0 IRQ_PRIORITY_UART ;;
     ram_irq_set_enabled PIO0_IRQ_0 true ;;
     uart_disable).

(** [while (timeout-- > 0 && !pin_get(pin));] leaves the decremented count. *)
Definition uart_wait_high : M Z :=
  let! pin := get jacdac_pin in
  let! timeout := loop (Z.to_nat 50001) (fun timeout =>
    if 0 <? timeout then
      let! v := pin_get pin in
      ret (if z2b v then inr (timeout - 1) else inl (timeout - 1))
    else ret (inr (timeout - 1))) 50000 in
  ret (if timeout <=? 0 then -1 else 0).

Definition uart_flush_rx : M unit := ret tt.

Definition gpio_probe_and_set (pin : Z) : M Z :=
  let! v := load SIO_GPIO_IN in
  let v := Z.land v pin in
  SIO_GPIO_OE_SET <-~ v ;;
  ret v.

Definition uart_start_tx (data : addr) (len : Z) : M Z :=
  let! pin := get jacdac_pin in
  if pin =? NO_PIN then (jd_tx_completed 0 ;; ret 0)
  else
    (exti_disable pin ;;
     let! st := get uart_status in
     if z2b (Z.land st STATUS_RX) then ret (-1)
     else
       (JD_ASSERT (st =? 0) ;;
        uart_status <~ STATUS_TX ;;
        pin_set pin 0 ;;
        let! m := c_shl1 pin in
        let! v := gpio_probe_and_set m in
        if v =? 0 then
          (target_disable_irq ;;
           jd_line_falling ;;
           target_enable_irq ;;
           ret (-1))
        else
          (target_wait_us 12 ;;
           pin_set pin 1 ;;
           target_wait_us 49 ;;
           let! sm := get smtx in
           jd_tx_arm_pin pio0 sm pin ;;
           let! sm := get smtx in
           sdk (pio_sm_set_enabled pio0 sm true) ;;
           let! ch := get dmachTx in
           dma_set_ch_cb ch (Some uart_tx_handler) None ;;
           let! ch := get dmachTx in
           sdk (dma_channel_transfer_from_buffer_now ch data len) ;;
           let! sm := get smtx in
           let! m := c_shl1 (PIO_FDEBUG_TXSTALL_LSB + sm) in
           PIO_FDEBUG pio0 <-~ m ;;
           ret 0))).

Definition uart_start_rx (data : addr) (len : Z) : M unit :=
  let! pin := get jacdac_pin in
  JD_ASSERT (negb (pin =? NO_PIN)) ;;
  uart_status <~ STATUS_RX ;;
  let! sm := get smrx in
  let! pin := get jacdac_pin in
  jd_rx_arm_pin pio0 sm pin ;;
  let! sm := get smrx in
  sdk (pio_sm_set_enabled pio0 sm true) ;;
  PIO_IRQ pio0 <-~ PIO_BREAK_IRQ ;;
  let! ch := get dmachRx in
  dma_set_ch_cb ch (Some uart_rx_handler) None ;;
  let! ch := get dmachRx in
  sdk (dma_channel_transfer_to_buffer_now ch data len) ;;
  sdk (pio_set_irq0_source_enabled pio0 pis_interrupt1 true).
End Operations.

(** *** The line as the hardware was last told

    A view of the trace: which state machine is enabled, whether the break
    interrupt and the edge interrupt of the pin are enabled, and whether
    transmitter and receiver were ever enabled together. *)
Record line_t := mkLine {
  l_tx : bool; l_rx : bool; l_break : bool; l_exti : bool; l_clash : bool
}.

Definition line_step (pin : Z) (e : event) (h : line_t) : line_t :=
  match e with
  | E_call (pio_sm_set_enabled _ sm b) =>
    let tx := if sm =? 0 then b else l_tx h in
    let rx := if sm =? 1 then b else l_rx h in
    mkLine tx rx (l_break h) (l_exti h) (l_clash h || (tx && rx))
  | E_call (pio_set_irq0_source_enabled _ _ b) => mkLine (l_tx h) (l_rx h) b (l_exti h) (l_clash h)
  | E_call (gpio_set_irq_enabled p _ b) =>
    mkLine (l_tx h) (l_rx h) (l_break h) (if p =? pin then b else l_exti h) (l_clash h)
  | E_call (hw_set_bits (IO_PROC0_INTE _) m) =>
    mkLine (l_tx h) (l_rx h) (l_break h) (z2b m || l_exti h) (l_clash h)
  | _ => h
  end.

Definition line_off : line_t := mkLine false false false false false.

Definition line (pin : Z) (t : trace) : line_t := fold_right (line_step pin) line_off t.

(** The status word agrees with the line. *)
Definition line_agrees (st : Z) (h : line_t) : Prop :=
  l_clash h = false /\
  ((st = STATUS_IDLE /\ h = mkLine false false false true false) \/
   (st = STATUS_TX /\ l_rx h = false /\ l_break h = false /\ l_exti h = false) \/
   (st = STATUS_RX /\ h = mkLine false true true false false)).

(** A driver that was initialised on [pin]. *)
Definition uart_ready (pin : Z) (s : machine) : Prop :=
  0 <= pin < 30 /\ rd jacdac_pin s = pin /\ rd smtx s = 0 /\ rd smrx s = 1 /\
  0 <= rd dmachRx s < 12 /\ 0 <= rd dmachTx s < 12 /\
  length (rd exti_ev s) = 30%nat /\ length (rd dmaHandler s) = 12%nat.

Definition uart_inv (pin : Z) (s : machine) : Prop :=
  uart_ready pin s /\ line_agrees (rd uart_status s) (line pin (tr s)).

(** *** The pins a PIO state machine sets

    The SET instruction writes [count] consecutive pins from [base], modulo 32,
    the fields of PINCTRL; [pio_set_view] is the last value every pin got. *)
Definition set_base (pinctrl : Z) : Z := Z.land (Z.shiftr pinctrl PIO_SM0_PINCTRL_SET_BASE_LSB) 31.
Definition set_count (pinctrl : Z) : Z := Z.land (Z.shiftr pinctrl PIO_SM0_PINCTRL_SET_COUNT_LSB) 7.

#[export] Instance pio_dest_eq_dec : EqDecision pio_dest.
Proof. solve_decision. Defined.

Definition set_view_step (pio sm : Z) (d : pio_dest) (e : event) (st : Z * (Z -> bool))
  : Z * (Z -> bool) :=
  match e with
  | E_write r v => if decide (r = PIO_SM_PINCTRL pio sm) then (v, snd st) else st
  | E_call (pio_sm_exec p m (pio_encode_set d' v)) =>
    if (p =? pio) && (m =? sm) && bool_decide (d' = d) then
      (fst st, fun i => let k := (i - set_base (fst st)) mod 32 in
                        if k <? set_count (fst st) then Z.testbit v k else snd st i)
    else st
  | _ => st
  end.

Definition set_view (pio sm : Z) (d : pio_dest) (t : trace) : Z * (Z -> bool) :=
  fold_right (set_view_step pio sm d) (0, fun _ => false) t.

(** ** Lemmas *)

(** *** Masks *)

Lemma pinctrl_set_fields c b :
  0 <= c < 8 -> 0 <= b < 32 ->
  set_base (pinctrl_set c b) = b /\ set_count (pinctrl_set c b) = c.
Proof.
  intros Hc Hb.
  assert (forallb (fun c => forallb (fun b =>
    (set_base (pinctrl_set c b) =? b) && (set_count (pinctrl_set c b) =? c))
    (seqZ_from 0 32)) (seqZ_from 0 8) = true) as Hall by (vm_compute; reflexivity).
  apply (forallb_seqZ _ 8) with (i := c) in Hall; [| lia].
  apply (forallb_seqZ _ 32) with (i := b) in Hall; [| lia]. b2p. done.
Qed.

Lemma ctz_spec m :
  0 < m -> 0 <= ctz m /\ Z.testbit m (ctz m) = true /\
  (forall i, 0 <= i < ctz m -> Z.testbit m i = false) /\
  (forall i, 0 <= i -> Z.testbit (Z.land m (m - 1)) i = Z.testbit m i && negb (i =? ctz m)).
Proof.
  intros Hm. destruct m as [| p |]; try lia. cbn [ctz].
  induction p as [p IH | p IH |].
  - cbn [ctz_pos]. split_and!; [done | done | lia |]. intros i Hi.
    change (Zpos p~1 - 1) with (Zpos p~0). rewrite Z.land_spec.
    destruct (Z.eqb_spec i 0) as [-> | Hi0]; [done |].
    change (Zpos p~1) with (2 * Zpos p + 1). change (Zpos p~0) with (2 * Zpos p).
    replace i with (Z.succ (i - 1)) by lia.
    rewrite Z.testbit_odd_succ, Z.testbit_even_succ by lia. cbn.
    by rewrite andb_diag, andb_true_r.
  - destruct IH as (H0 & H1 & H2 & H3); [done |]. cbn [ctz_pos].
    change (Zpos p~0) with (2 * Zpos p) at 1 2.
    split_and!; [lia | | |].
    + replace (1 + ctz_pos p) with (Z.succ (ctz_pos p)) by lia.
      by rewrite Z.testbit_even_succ.
    + intros i Hi. destruct (Z.eq_dec i 0) as [-> |]; [done |].
      replace i with (Z.succ (i - 1)) by lia. rewrite Z.testbit_even_succ by lia. apply H2. lia.
    + intros i Hi. rewrite Z.land_spec.
      change (Zpos p~0) with (2 * Zpos p).
      replace (2 * Z.pos p - 1) with (2 * (Z.pos p - 1) + 1) by lia.
      destruct (Z.eq_dec i 0) as [-> | Hi0]; [by rewrite Z.testbit_even_0 |].
      replace i with (Z.succ (i - 1)) by lia.
      rewrite Z.testbit_even_succ, Z.testbit_odd_succ by lia.
      rewrite <- Z.land_spec, H3 by lia. f_equal. f_equal.
      destruct (Z.eqb_spec (i - 1) (ctz_pos p)), (Z.eqb_spec (Z.succ (i - 1)) (1 + ctz_pos p)); lia.
  - cbn. split_and!; [done | done | lia |]. intros i Hi. rewrite Z.bits_0.
    destruct (Z.eqb_spec i 0) as [-> |]; [done |]. rewrite andb_true_r.
    symmetry. apply (testbit_small 1); lia.
Qed.

Lemma land_le a b : 0 <= a -> Z.land a b <= a.
Proof.
  intros Ha. assert (Z.ldiff (Z.land a b) a = 0) as Hd.
  { apply Z.bits_inj'. intros n Hn. rewrite Z.ldiff_spec, Z.land_spec, Z.bits_0.
    by destruct (Z.testbit a n), (Z.testbit b n). }
  pose proof (Z.sub_nocarry_ldiff a (Z.land a b) Hd) as Hs.
  assert (0 <= Z.ldiff a (Z.land a b)) by (apply Z.ldiff_nonneg; lia). lia.
Qed.

(** The number of set bits at or above [k]: the measure of the mask loops. *)
Lemma mask_zero m : 0 <= m -> (forall i, 0 <= i < 32 -> Z.testbit m i = false) ->
  m < 4294967296 -> m = 0.
Proof.
  intros H0 Hb Hm. apply Z.bits_inj'. intros n Hn. rewrite Z.bits_0.
  destruct (Z.lt_ge_cases n 32); [by apply Hb | by apply (testbit_small 32)].
Qed.

Section Pio.
Context {E : Env}.

(** One round of the mask loops, for either destination. *)
Definition mask_round (pio sm : Z) (d : pio_dest) (vals pin_mask : Z) : M (Z + unit) :=
  if z2b pin_mask then
    let base := ctz pin_mask in
    PIO_SM_PINCTRL pio sm <-~ pinctrl_set 1 base ;;
    sdk (pio_sm_exec pio sm (pio_encode_set d (Z.land (Z.shiftr vals base) 1))) ;;
    ret (inl (Z.land pin_mask (pin_mask - 1)))
  else ret (inr tt).

Definition set_with_mask (pio sm : Z) (d : pio_dest) (vals pin_mask : Z) : M unit :=
  let! saved := load (PIO_SM_PINCTRL pio sm) in
  loop 33 (mask_round pio sm d vals) pin_mask ;;
  PIO_SM_PINCTRL pio sm <-~ saved.

(** The events of the helpers concern one state machine only. *)
Definition pio_event (pio sm : Z) (e : event) : bool :=
  match e with
  | E_read r _ | E_write r _ => bool_decide (r = PIO_SM_PINCTRL pio sm)
  | E_call (pio_sm_exec p m (pio_encode_set _ _)) => (p =? pio) && (m =? sm)
  | _ => false
  end.

Lemma bit_0_of_shift v b k : 0 <= b -> 0 <= k -> Z.testbit (Z.land (Z.shiftr v b) 1) k =
  (k =? 0) && Z.testbit v b.
Proof.
  intros Hb Hk. rewrite Z.land_spec, Z.shiftr_spec by lia. change 1 with (Z.ones 1).
  destruct (Z.eqb_spec k 0) as [-> |].
  - rewrite Z.ones_spec_low by lia. cbn. apply andb_true_r.
  - rewrite Z.ones_spec_high by lia. apply andb_false_r.
Qed.

(** [n] rounds clear a mask whose bits lie in [32 - n .. 31]. *)
Lemma mask_loop pio sm d vals n m s :
  (n <= 32)%nat -> 0 <= m < 4294967296 ->
  (forall i, 0 <= i < 32 - Z.of_nat n -> Z.testbit m i = false) ->
  exists es, loop (S n) (mask_round pio sm d vals) m s = Ret tt (upd_tr (app es) s) /\
    Forall (fun e => pio_event pio sm e = true) es /\ (length es <= 2 * n)%nat /\
    forall i, 0 <= i < 32 ->
      snd (set_view pio sm d (es ++ tr s)) i =
      if Z.testbit m i then Z.testbit vals i else snd (set_view pio sm d (tr s)) i.
Proof.
  intros Hn. revert m s. induction n as [| n IH]; intros m s Hm Hz.
  { assert (m = 0) as -> by (apply mask_zero; [lia | intros; apply Hz; lia | lia]).
    exists []. split_and!; [by destruct s | done | cbn; lia |]. intros i Hi. by rewrite Z.bits_0. }
  destruct (Z.eq_dec m 0) as [-> | Hm0].
  { exists []. split_and!; [by destruct s | done | cbn; lia |]. intros i Hi. by rewrite Z.bits_0. }
  destruct (ctz_spec m) as (H0 & H1 & H2 & H3); [lia |].
  assert (ctz m < 32) as Hb.
  { apply Z.nle_gt. intros Hle. rewrite (testbit_small 32) in H1; [done | lia | done]. }
  set (b := ctz m) in *. set (m' := Z.land m (m - 1)) in *.
  assert (32 - Z.of_nat (S n) <= b) as Hlow.
  { apply Z.nlt_ge. intros Hlt. rewrite Hz in H1 by lia. done. }
  set (e1 := E_write (PIO_SM_PINCTRL pio sm) (pinctrl_set 1 b)).
  set (e2 := E_call (pio_sm_exec pio sm (pio_encode_set d (Z.land (Z.shiftr vals b) 1)))).
  set (s1 := emit e2 (emit e1 s)).
  assert (0 <= m') as Hm'0 by (apply Z.land_nonneg; lia).
  destruct (IH ltac:(lia) m' s1) as (es & E1 & Hes & Hlen & Hv).
  - split; [done |]. apply Z.le_lt_trans with m; [| lia]. apply land_le. lia.
  - intros i Hi. unfold m'. rewrite H3 by lia.
    destruct (Z.eqb_spec i b); [by rewrite andb_false_r |].
    destruct (Z.lt_ge_cases i b); [rewrite H2 by lia; done | rewrite Hz by lia; done].
  - exists (es ++ [e2; e1]). split_and!.
    + change (loop (S (S n)) (mask_round pio sm d vals) m s) with
        (bind (mask_round pio sm d vals m)
           (fun r => match r with inl a' => loop (S n) (mask_round pio sm d vals) a'
                     | inr b => ret b end) s).
      unfold bind at 1, mask_round at 1. unfold z2b.
      rewrite (proj2 (Z.eqb_neq m 0)) by done. cbn [negb]. fold b m'.
      change (loop (S n) (mask_round pio sm d vals) m' s1 = Ret tt (upd_tr (app (es ++ [e2; e1])) s)).
      rewrite E1. unfold s1. f_equal. unfold upd_tr, emit. cbn. by rewrite <- app_assoc.
    + apply Forall_app. split; [done |]. repeat constructor; cbn.
      * by rewrite !Z.eqb_refl.
      * by apply bool_decide_true.
    + rewrite length_app. cbn. lia.
    + intros i Hi. rewrite <- app_assoc. specialize (Hv i Hi). unfold s1 in Hv. vsimp in Hv.
      cbn [app]. rewrite Hv. unfold m'. rewrite H3 by lia.
      unfold set_view. cbn [fold_right set_view_step e1 e2].
      rewrite !Z.eqb_refl, bool_decide_true by done. cbn [andb].
      rewrite decide_True by done. cbn [fst snd].
      destruct (pinctrl_set_fields 1 b) as [-> ->]; [lia | lia |].
      destruct (Z.eqb_spec i b) as [-> | Hib].
      * rewrite Z.sub_diag, H1. cbn. by rewrite bit_0_of_shift.
      * rewrite andb_true_r. rewrite (proj2 (Z.ltb_ge ((i - b) mod 32) 1)) by zlia. done.
Qed.
End Pio.

Section PioOps.
Context {E : Env}.

(** What a PIO helper leaves behind: events of its state machine only, PINCTRL
    as it was, and the pins of [d] changed to [f]. *)
Definition sets_pins (pio sm : Z) (d : pio_dest) (m : M unit) (f : (Z -> bool) -> Z -> bool) : Prop :=
  forall s, exists es, m s = Ret tt (upd_tr (app es) s) /\
    Forall (fun e => pio_event pio sm e = true) es /\
    fst (set_view pio sm d (es ++ tr s)) = rd_reg (tr s) (PIO_SM_PINCTRL pio sm) /\
    forall i, 0 <= i < 32 ->
      snd (set_view pio sm d (es ++ tr s)) i = f (snd (set_view pio sm d (tr s))) i.

Lemma upd_tr_app es1 es2 s : upd_tr (app es1) (upd_tr (app es2) s) = upd_tr (app (es1 ++ es2)) s.
Proof. unfold upd_tr. cbn. by rewrite <- app_assoc. Qed.

Lemma pio_event_pinctrl pio sm v :
  pio_event pio sm (E_write (PIO_SM_PINCTRL pio sm) v) = true /\
  pio_event pio sm (E_read (PIO_SM_PINCTRL pio sm) v) = true.
Proof. split; by apply bool_decide_true. Qed.

Lemma set_with_mask_sets pio sm d vals m :
  0 <= m < 4294967296 ->
  sets_pins pio sm d (set_with_mask pio sm d vals m)
    (fun f i => if Z.testbit m i then Z.testbit vals i else f i).
Proof.
  intros Hm s. unfold set_with_mask, load, bind at 1.
  set (saved := rd_reg (tr s) (PIO_SM_PINCTRL pio sm)).
  destruct (mask_loop pio sm d vals 32 m (emit (E_read (PIO_SM_PINCTRL pio sm) saved) s))
    as (es & E1 & Hes & _ & Hv); [lia | done | intros; lia |].
  exists (E_write (PIO_SM_PINCTRL pio sm) saved :: es ++ [E_read (PIO_SM_PINCTRL pio sm) saved]).
  split_and!.
  - unfold bind. rewrite E1. unfold setreg, log, emit. f_equal.
    unfold upd_tr. cbn. by rewrite <- app_assoc.
  - constructor; [apply pio_event_pinctrl |]. apply Forall_app. split; [done |].
    constructor; [apply pio_event_pinctrl | done].
  - cbn [app set_view fold_right set_view_step]. by rewrite decide_True.
  - intros i Hi. specialize (Hv i Hi). vsimp in Hv.
    cbn [app set_view fold_right set_view_step]. rewrite decide_True, <- app_assoc by done.
    cbn [snd app]. exact Hv.
Qed.

Definition dirs_round (pio sm v : Z) (st : Z * Z) : M (Z * Z + Z * Z) :=
  let '(pin, count) := st in
  if 5 <? count then
    PIO_SM_PINCTRL pio sm <-~ pinctrl_set 5 pin ;;
    sdk (pio_sm_exec pio sm (pio_encode_set pio_pindirs v)) ;;
    ret (inl (Z.land (u32 (pin + 5)) 0x1f, count - 5))
  else ret (inr (pin, count)).

Definition dir_val (is_out : bool) : Z := if is_out then 0x1f else 0.

Lemma dir_val_bit is_out k : 0 <= k < 5 -> Z.testbit (dir_val is_out) k = is_out.
Proof.
  intros Hk. destruct is_out; cbn [dir_val]; [| apply Z.bits_0].
  change 31 with (Z.ones 5). apply Z.ones_spec_low. lia.
Qed.

(** One SET instruction over a window of at most five pins. *)
Lemma set_window pio sm is_out c b t i :
  0 <= c <= 5 -> 0 <= b < 32 ->
  snd (set_view pio sm pio_pindirs
    (E_call (pio_sm_exec pio sm (pio_encode_set pio_pindirs (dir_val is_out)))
     :: E_write (PIO_SM_PINCTRL pio sm) (pinctrl_set c b) :: t)) i =
  if (i - b) mod 32 <? c then is_out else snd (set_view pio sm pio_pindirs t) i.
Proof.
  intros Hc Hb. unfold set_view. cbn [fold_right set_view_step].
  rewrite !Z.eqb_refl, bool_decide_true by done. cbn [andb]. rewrite decide_True by done.
  cbn [fst snd]. destruct (pinctrl_set_fields c b) as [-> ->]; [lia | lia |].
  destruct (Z.ltb_spec ((i - b) mod 32) c); [| done]. apply dir_val_bit. zlia.
Qed.

Lemma dirs_loop pio sm is_out n pin count s :
  0 <= pin < 32 -> 0 <= count <= 5 * Z.of_nat n + 5 ->
  exists es pin' count',
    loop (S n) (dirs_round pio sm (dir_val is_out)) (pin, count) s =
      Ret (pin', count') (upd_tr (app es) s) /\
    Forall (fun e => pio_event pio sm e = true) es /\
    0 <= pin' < 32 /\ 0 <= count' <= 5 /\
    forall i, 0 <= i < 32 ->
      (if (i - pin') mod 32 <? count' then is_out
       else snd (set_view pio sm pio_pindirs (es ++ tr s)) i) =
      (if (i - pin) mod 32 <? count then is_out
       else snd (set_view pio sm pio_pindirs (tr s)) i).
Proof.
  revert pin count s. induction n as [| n IH]; intros pin count s Hp Hc.
  all: destruct (Z.ltb_spec 5 count) as [H5 | H5];
    [| exists [], pin, count; cbn [loop]; unfold bind at 1, dirs_round at 1;
       rewrite (proj2 (Z.ltb_ge 5 count)) by lia;
       split_and!; try done; try lia; by destruct s].
  { lia. }
  set (e1 := E_write (PIO_SM_PINCTRL pio sm) (pinctrl_set 5 pin)).
  set (e2 := E_call (pio_sm_exec pio sm (pio_encode_set pio_pindirs (dir_val is_out)))).
  assert (Z.land (u32 (pin + 5)) 31 = (pin + 5) mod 32) as Hpin.
  { change 31 with (Z.ones 5). rewrite land_ones_mod, u32_id by lia. done. }
  destruct (IH ((pin + 5) mod 32) (count - 5) (emit e2 (emit e1 s)))
    as (es & pin' & count' & E1 & Hes & Hp' & Hc' & Hv); [zlia | lia |].
  exists (es ++ [e2; e1]), pin', count'. split_and!; try lia.
  - cbn [loop]. unfold bind at 1, dirs_round at 1.
    rewrite (proj2 (Z.ltb_lt 5 count)), Hpin by lia.
    change (loop (S n) (dirs_round pio sm (dir_val is_out)) ((pin + 5) mod 32, count - 5)
              (emit e2 (emit e1 s)) = Ret (pin', count') (upd_tr (app (es ++ [e2; e1])) s)).
    rewrite E1. by rewrite <- upd_tr_app.
  - apply Forall_app. split; [done |]. repeat constructor; [cbn; by rewrite !Z.eqb_refl |].
    apply pio_event_pinctrl.
  - intros i Hi. rewrite <- app_assoc. cbn [app]. specialize (Hv i Hi). vsimp in Hv.
    rewrite Hv. unfold e1, e2. rewrite set_window by lia.
    destruct (Z.ltb_spec ((i - (pin + 5) mod 32) mod 32) (count - 5)),
      (Z.ltb_spec ((i - pin) mod 32) 5), (Z.ltb_spec ((i - pin) mod 32) count);
      try done; exfalso; zlia.
Qed.

Lemma consecutive_sets pio sm pin count is_out :
  0 <= pin < 32 -> 0 <= count ->
  sets_pins pio sm pio_pindirs (pio_sm_set_consecutive_pindirs_ pio sm pin count is_out)
    (fun f i => if (i - pin) mod 32 <? count then is_out else f i).
Proof.
  intros Hp Hc s.
  change (pio_sm_set_consecutive_pindirs_ pio sm pin count is_out) with
    (let! saved := load (PIO_SM_PINCTRL pio sm) in
     let! last := loop (S (Z.to_nat count)) (dirs_round pio sm (dir_val is_out)) (pin, count) in
     PIO_SM_PINCTRL pio sm <-~ pinctrl_set (snd last) (fst last) ;;
     sdk (pio_sm_exec pio sm (pio_encode_set pio_pindirs (dir_val is_out))) ;;
     PIO_SM_PINCTRL pio sm <-~ saved).
  unfold load, bind at 1. set (saved := rd_reg (tr s) (PIO_SM_PINCTRL pio sm)).
  set (r := E_read (PIO_SM_PINCTRL pio sm) saved).
  destruct (dirs_loop pio sm is_out (Z.to_nat count) pin count (emit r s))
    as (es & pin' & count' & E1 & Hes & Hp' & Hc' & Hv); [done | lia |].
  set (e1 := E_write (PIO_SM_PINCTRL pio sm) (pinctrl_set count' pin')).
  set (e2 := E_call (pio_sm_exec pio sm (pio_encode_set pio_pindirs (dir_val is_out)))).
  exists (E_write (PIO_SM_PINCTRL pio sm) saved :: e2 :: e1 :: es ++ [r]). split_and!.
  - unfold bind. rewrite E1. cbn [fst snd].
    change (Ret tt (emit (E_write (PIO_SM_PINCTRL pio sm) saved)
      (emit e2 (emit e1 (upd_tr (app es) (emit r s))))) =
      Ret tt (upd_tr (app (E_write (PIO_SM_PINCTRL pio sm) saved :: e2 :: e1 :: es ++ [r])) s)).
    f_equal. unfold upd_tr, emit. cbn. by rewrite <- app_assoc.
  - do 3 (constructor; [first [apply pio_event_pinctrl | cbn; by rewrite !Z.eqb_refl] |]).
    apply Forall_app. split; [done |]. constructor; [apply pio_event_pinctrl | done].
  - cbn [app set_view fold_right set_view_step]. by rewrite decide_True.
  - intros i Hi. specialize (Hv i Hi). vsimp in Hv.
    change (set_view pio sm pio_pindirs (r :: tr s)) with (set_view pio sm pio_pindirs (tr s)) in Hv.
    rewrite <- Hv.
    change (snd (set_view pio sm pio_pindirs ((E_write (PIO_SM_PINCTRL pio sm) saved :: e2 :: e1 :: es ++ [r]) ++ tr s)) i)
      with (snd (set_view_step pio sm pio_pindirs (E_write (PIO_SM_PINCTRL pio sm) saved)
              (set_view pio sm pio_pindirs (e2 :: e1 :: (es ++ [r]) ++ tr s))) i).
    cbn [set_view_step]. rewrite decide_True by done. cbn [snd].
    unfold e1, e2. rewrite set_window by lia. by rewrite <- app_assoc.
Qed.
End PioOps.

(** *** Operations that do not concern the line *)

Section Quiet.
Context {E : Env} (pin : Z).

Definition at_line (h : line_t) (u : uart_st) (p : pins_st) (s : machine) : Prop :=
  line pin (tr s) = h /\ m_uart s = u /\ m_pins s = p /\ length (rd dmaHandler s) = 12%nat.

Definition quiet {A} (m : M A) : Prop := forall h u p, keeps (at_line h u p) m.

Definition quiet_event (e : event) : Prop := forall h, line_step pin e h = h.

Lemma at_line_emit e h u p s : at_line h u p s -> at_line (line_step pin e h) u p (emit e s).
Proof. intros (Hh & Hu & Hp & Hd). split_and!; try done. cbn. by rewrite <- Hh. Qed.

Lemma quiet_log e : quiet_event e -> quiet (log e).
Proof.
  intros He h u p s Hs. unfold wpE, log. rewrite <- (He h). by apply at_line_emit.
Qed.
Lemma quiet_load r : quiet (load r).
Proof. intros h u p s Hs. exact (at_line_emit (E_read r _) h u p s Hs). Qed.
Lemma quiet_sdkv c : (forall v, quiet_event (E_ret c v)) -> quiet (sdkv c).
Proof.
  intros Hc h u p s Hs. unfold wpE, sdkv. rewrite <- (Hc (ret_of (tr s) c) h).
  by apply at_line_emit.
Qed.
Lemma quiet_bind {A B} (m : M A) (k : A -> M B) :
  quiet m -> (forall a, quiet (k a)) -> quiet (bind m k).
Proof. intros Hm Hk h u p. apply keeps_bind; [apply Hm | intros a; apply Hk]. Qed.
Lemma quiet_ret {A} (a : A) : quiet (ret a).
Proof. intros h u p. apply keeps_ret. Qed.
Lemma quiet_halt {A} w : quiet (@halt A w).
Proof. intros h u p. apply keeps_halt. Qed.
Lemma quiet_get {A} (x : var A) : quiet (get x).
Proof. intros h u p. apply keeps_get. Qed.
Lemma quiet_if {A} (b : bool) (m m' : M A) : quiet m -> quiet m' -> quiet (if b then m else m').
Proof. by destruct b. Qed.
Lemma quiet_while f cond body : quiet cond -> quiet body -> quiet (while_ f cond body).
Proof. intros Hc Hb h u p. by apply keeps_while. Qed.
Lemma quiet_index {A} (l : list A) i : quiet (index l i).
Proof. unfold index. destruct (nth_Z l i); [apply quiet_ret | apply quiet_halt]. Qed.
Lemma quiet_cpsid : quiet cpsid.
Proof. intros h u p s Hs. exact (at_line_emit E_cpsid h u p s Hs). Qed.
Lemma quiet_cpsie : quiet cpsie.
Proof. intros h u p s Hs. exact (at_line_emit E_cpsie h u p s Hs). Qed.
Lemma quiet_irq_disabled v : quiet (irq_disabled <~ v).
Proof. intros h u p s Hs. exact Hs. Qed.
Lemma quiet_handler ch e : quiet (store dmaHandler ch e).
Proof.
  intros h u p s Hs. unfold store, wpE, bind, get.
  destruct (nth_Z (rd dmaHandler s) ch); [| done].
  destruct Hs as (? & ? & ? & Hl). split_and!; try done. vsimp. by rewrite length_insert.
Qed.

End Quiet.

Ltac quiet_step :=
  match goal with
  | |- quiet _ (bind _ _) => apply quiet_bind; [| intros ?]
  | |- quiet _ (ret _) => apply quiet_ret
  | |- quiet _ (halt _) => apply quiet_halt
  | |- quiet _ (get _) => apply quiet_get
  | |- quiet _ (load _) => apply quiet_load
  | |- quiet _ (sdkv _) => apply quiet_sdkv; done
  | |- quiet _ (sdk _) => apply quiet_log; done
  | |- quiet _ (setreg _ _) => apply quiet_log; done
  | |- quiet _ (log _) => apply quiet_log; done
  | |- quiet _ (index _ _) => apply quiet_index
  | |- quiet _ (while_ _ _ _) => apply quiet_while
  | |- quiet _ (irq_disabled <~ _) => apply quiet_irq_disabled
  | |- quiet _ (store dmaHandler _ _) => apply quiet_handler
  | |- quiet _ cpsid => apply quiet_cpsid
  | |- quiet _ cpsie => apply quiet_cpsie
  | |- quiet _ (if ?b then _ else _) => apply quiet_if
  | |- quiet _ (let _ := _ in _) => cbv zeta
  | |- quiet _ (match ?x with _ => _ end) => destruct x
  | |- quiet _ (c_shl1 _) => unfold c_shl1
  | |- quiet _ (JD_ASSERT _) => unfold JD_ASSERT
  | |- quiet _ _ => solve [eauto with quiet]
  end.
Ltac quiet := repeat quiet_step.

Create HintDb quiet.

Section QuietOps.
Context {E : Env} (pin : Z).

Lemma quiet_disable_irq : quiet pin target_disable_irq.
Proof. unfold target_disable_irq. quiet. Qed.
Lemma quiet_enable_irq : quiet pin target_enable_irq.
Proof. unfold target_enable_irq. quiet. Qed.
Lemma quiet_wait n : quiet pin (target_wait_us n).
Proof. unfold target_wait_us. quiet. Qed.
Lemma quiet_set_function p fn : quiet pin (gpio_set_function_ p fn).
Proof. unfold gpio_set_function_. quiet. Qed.
Lemma quiet_pin_set p v : quiet pin (pin_set p v).
Proof. unfold pin_set. quiet. Qed.
Lemma quiet_pin_get p : quiet pin (pin_get p).
Proof. unfold pin_get. quiet. Qed.
Lemma quiet_set_pull p v : quiet pin (pin_set_pull p v).
Proof. unfold pin_set_pull, gpio_set_pulls_. quiet. Qed.
#[local] Hint Resolve quiet_set_function quiet_set_pull : quiet.
Lemma quiet_output p : quiet pin (pin_setup_output p).
Proof. unfold pin_setup_output. quiet. Qed.
Lemma quiet_input p v : quiet pin (pin_setup_input p v).
Proof. unfold pin_setup_input. quiet. Qed.
Lemma quiet_af p f : quiet pin (pin_setup_output_af p f).
Proof. unfold pin_setup_output_af. quiet. Qed.
Lemma quiet_gpio_init pio p : quiet pin (pio_gpio_init_ pio p).
Proof. apply quiet_af. Qed.

(** The helpers that set the pins of a state machine. *)
Lemma line_pio_events pio sm es t :
  Forall (fun e => pio_event pio sm e = true) es -> line pin (es ++ t) = line pin t.
Proof.
  induction 1 as [| e es He Hes IH]; [done |]. cbn. unfold line in IH. rewrite IH.
  destruct e as [| | c | | | | |]; try done. by destruct c.
Qed.

Lemma quiet_sets_pins pio sm d m f : sets_pins pio sm d m f -> quiet pin m.
Proof.
  intros Hm h u p s (Hl & Hu & Hp & Hd). unfold wpE.
  destruct (Hm s) as (es & -> & Hes & _).
  split_and!; try done. vsimp. by rewrite (line_pio_events pio sm).
Qed.

Lemma quiet_set_pins pio sm v m :
  0 <= m < 4294967296 -> quiet pin (pio_sm_set_pins_with_mask_ pio sm v m).
Proof. intros Hm. exact (quiet_sets_pins _ _ _ _ _ (set_with_mask_sets pio sm pio_pins v m Hm)). Qed.
Lemma quiet_set_pindirs pio sm v m :
  0 <= m < 4294967296 -> quiet pin (pio_sm_set_pindirs_with_mask_ pio sm v m).
Proof. intros Hm. exact (quiet_sets_pins _ _ _ _ _ (set_with_mask_sets pio sm pio_pindirs v m Hm)). Qed.
Lemma quiet_consecutive pio sm p c b :
  0 <= p < 32 -> 0 <= c -> quiet pin (pio_sm_set_consecutive_pindirs_ pio sm p c b).
Proof. intros Hp Hc. eapply quiet_sets_pins, consecutive_sets; done. Qed.

Lemma quiet_shl1 {A} n (k : Z -> M A) :
  (forall m, 0 <= m < 4294967296 -> quiet pin (k m)) -> quiet pin (bind (c_shl1 n) k).
Proof.
  intros Hk. unfold c_shl1. destruct ((0 <=? n) && (n <? 32)).
  - exact (Hk _ (u32_range _)).
  - intros h u p s Hs. exact Logic.I.
Qed.

Lemma quiet_tx_arm pio sm p : quiet pin (jd_tx_arm_pin pio sm p).
Proof.
  apply quiet_shl1. intros m Hm. apply quiet_bind; [by apply quiet_set_pins | intros _].
  apply quiet_bind; [by apply quiet_set_pindirs | intros _; apply quiet_gpio_init].
Qed.

Lemma quiet_set_priority n p : quiet pin (ram_irq_set_priority n p).
Proof. unfold ram_irq_set_priority. quiet. Qed.
Lemma quiet_set_enabled n b : quiet pin (ram_irq_set_enabled n b).
Proof. unfold ram_irq_set_enabled, irq_set_mask_enabled_. quiet. Qed.
#[local] Hint Resolve quiet_set_enabled : quiet.
Lemma quiet_dma_set ch f c : quiet pin (dma_set_ch_cb ch f c).
Proof. unfold dma_set_ch_cb. cbv zeta. quiet. Qed.
End QuietOps.

#[export] Hint Resolve quiet_disable_irq quiet_enable_irq quiet_wait quiet_set_function
  quiet_pin_set quiet_pin_get quiet_set_pull quiet_output quiet_input quiet_af quiet_gpio_init
  quiet_tx_arm quiet_set_priority quiet_set_enabled quiet_dma_set : quiet.

(** *** Operations that always return *)

Definition total {A} (m : M A) : Prop := forall s, exists a s', m s = Ret a s'.

Lemma total_bind {A B} (m : M A) (k : A -> M B) :
  total m -> (forall a, total (k a)) -> total (bind m k).
Proof.
  intros Hm Hk s. destruct (Hm s) as (a & s1 & E1). destruct (Hk a s1) as (b & s2 & E2).
  exists b, s2. unfold bind. by rewrite E1.
Qed.
Lemma total_if {A} (b : bool) (m m' : M A) : total m -> total m' -> total (if b then m else m').
Proof. by destruct b. Qed.

Ltac total :=
  cbv zeta;
  lazymatch goal with
  | |- total (bind _ _) => apply total_bind; [total | intros ?; total]
  | |- total (if _ then _ else _) => apply total_if; total
  | |- total (match ?x with _ => _ end) => destruct x; total
  | |- total _ => first [solve [eauto with total] | intros ?; eexists _, _; reflexivity]
  end.

Create HintDb total.

Section TotalOps.
Context {E : Env}.

Lemma total_enable_irq : total target_enable_irq.
Proof. unfold target_enable_irq. total. Qed.
Lemma total_set_function p fn : total (gpio_set_function_ p fn).
Proof. unfold gpio_set_function_. total. Qed.
Lemma total_pin_set p v : total (pin_set p v).
Proof. unfold pin_set. total. Qed.
Lemma total_set_pull p v : total (pin_set_pull p v).
Proof. unfold pin_set_pull, gpio_set_pulls_. total. Qed.
#[local] Hint Resolve total_set_function total_set_pull : total.
Lemma total_output p : total (pin_setup_output p).
Proof. unfold pin_setup_output. total. Qed.
Lemma total_input p v : total (pin_setup_input p v).
Proof. unfold pin_setup_input. total. Qed.
Lemma total_af p f : total (pin_setup_output_af p f).
Proof. unfold pin_setup_output_af. total. Qed.
Lemma total_gpio_init pio p : total (pio_gpio_init_ pio p).
Proof. apply total_af. Qed.
Lemma total_sets_pins pio sm d m f : sets_pins pio sm d m f -> total m.
Proof. intros Hm s. destruct (Hm s) as (es & -> & _). eauto. Qed.
Lemma total_consecutive pio sm p c b :
  0 <= p < 32 -> 0 <= c -> total (pio_sm_set_consecutive_pindirs_ pio sm p c b).
Proof. intros Hp Hc. eapply total_sets_pins, consecutive_sets; done. Qed.
Lemma total_set_priority n p : total (ram_irq_set_priority n p).
Proof. unfold ram_irq_set_priority. total. Qed.
Lemma total_shl1 n : 0 <= n < 32 -> total (c_shl1 n).
Proof.
  intros Hn s. unfold c_shl1. rewrite (proj2 (Z.leb_le 0 n)), (proj2 (Z.ltb_lt n 32)) by lia.
  cbn. unfold ret. eauto.
Qed.
Lemma total_set_enabled n b : 0 <= n < 32 -> total (ram_irq_set_enabled n b).
Proof.
  intros Hn. unfold ram_irq_set_enabled, irq_set_mask_enabled_.
  apply total_bind; [by apply total_shl1 | intros m; total].
Qed.
Lemma total_tx_arm pio sm p : 0 <= p < 30 -> total (jd_tx_arm_pin pio sm p).
Proof.
  intros Hp s. destruct (total_shl1 p ltac:(lia) s) as (m & s1 & E1).
  unfold c_shl1 in E1. rewrite (proj2 (Z.leb_le 0 p)), (proj2 (Z.ltb_lt p 32)) in E1 by lia.
  cbn in E1. unfold ret in E1. simplify_eq.
  unfold jd_tx_arm_pin, c_shl1. rewrite (proj2 (Z.leb_le 0 p)), (proj2 (Z.ltb_lt p 32)) by lia.
  cbn [andb]. revert s1. pose proof (u32_range (bit p)) as Hr.
  change (total (pio_sm_set_pins_with_mask_ pio sm (u32 (bit p)) (u32 (bit p)) ;;
    pio_sm_set_pindirs_with_mask_ pio sm (u32 (bit p)) (u32 (bit p)) ;; pio_gpio_init_ pio p)).
  apply total_bind; [| intros ?; apply total_bind; [| intros ?; apply total_gpio_init]].
  - eapply total_sets_pins. exact (set_with_mask_sets pio sm pio_pins _ _ Hr).
  - eapply total_sets_pins. exact (set_with_mask_sets pio sm pio_pindirs _ _ Hr).
Qed.
Lemma total_disable_irq : total target_disable_irq.
Proof. intros s. eexists _, _. reflexivity. Qed.
End TotalOps.

#[export] Hint Resolve total_enable_irq total_disable_irq total_set_function total_pin_set
  total_set_pull total_output total_input total_af total_gpio_init total_set_priority : total.

(** *** The driver keeps status and line in agreement *)

(** What the driver asks of the runtime that it calls back: its callbacks use
    the driver only in states the driver can be in. *)
Class PhysClient {E : Env} (pin : Z) : Prop := {
  phys_rx_done n : keeps (uart_inv pin) (jd_rx_completed n);
  phys_tx_done n : keeps (uart_inv pin) (jd_tx_completed n);
  phys_falling s :
    uart_inv pin s -> l_tx (line pin (tr s)) = false ->
    wpE jd_line_falling (fun _ => uart_inv pin) (fun _ _ => True) s
}.

Definition set_status (v : Z) (u : uart_st) : uart_st := {|
  f_dmachTx := f_dmachTx u; f_dmachRx := f_dmachRx u; f_txprog := f_txprog u;
  f_rxprog := f_rxprog u; f_smtx := f_smtx u; f_smrx := f_smrx u;
  f_uart_status := v; f_jacdac_pin := f_jacdac_pin u |}.

Section Inv.
Context {E : Env} (pin : Z).

(** [m] returns into [Q], or stops if [X] allows it. *)
Definition runs {A} (X : Prop) (m : M A) (Q : machine -> Prop) (s : machine) : Prop :=
  wpE m (fun _ => Q) (fun _ _ => X) s.
Definition cfg_ok (u : uart_st) (p : pins_st) : Prop :=
  0 <= pin < 30 /\ f_jacdac_pin u = pin /\ f_smtx u = 0 /\ f_smrx u = 1 /\
  0 <= f_dmachRx u < 12 /\ 0 <= f_dmachTx u < 12 /\ length (f_exti_ev p) = 30%nat.

Lemma uart_inv_iff s :
  uart_inv pin s <-> exists h u p, cfg_ok u p /\ at_line pin h u p s /\ line_agrees (f_uart_status u) h.
Proof.
  split.
  - intros [(? & ? & ? & ? & ? & ? & ? & ?) Hl].
    exists (line pin (tr s)), (m_uart s), (m_pins s). by split_and!.
  - intros (h & u & p & (? & ? & ? & ? & ? & ? & ?) & (<- & <- & <- & ?) & Hl).
    split; [unfold uart_ready; repeat first [assumption | split] | done].
Qed.

Lemma run_inv {A} {X} (m : M A) Q s a s' : runs X m Q s -> m s = Ret a s' -> Q s'.
Proof. unfold runs, wpE. intros H E1. by rewrite E1 in H. Qed.

Context {X : Prop}.
#[local] Abbreviation go := (runs X).

Lemma run_bind {A B} (m : M A) (k : A -> M B) (P : machine -> Prop) Q s :
  go m P s -> (forall a s', P s' -> go (k a) Q s') -> go (bind m k) Q s.
Proof.
  intros Hm Hk. unfold runs. apply wpE_bind. eapply wpE_mono; [exact Hm | | done].
  intros a s' Ha. exact (Hk a s' Ha).
Qed.

Lemma quiet_run {A} (m : M A) h u p s :
  quiet pin m -> X \/ total m -> at_line pin h u p s -> go m (at_line pin h u p) s.
Proof.
  intros Hm HX Hs. pose proof (Hm h u p s Hs) as H1. unfold runs, wpE in *.
  destruct (m s) as [a s' | w s'] eqn:E1; [done |].
  destruct HX as [HX | Ht]; [done | destruct (Ht s) as (a & s1 & E2); congruence].
Qed.

Lemma quiet_seq {A B} (m : M A) (k : A -> M B) Q h u p s :
  quiet pin m -> X \/ total m -> at_line pin h u p s ->
  (forall a s', at_line pin h u p s' -> go (k a) Q s') -> go (bind m k) Q s.
Proof. intros Hm HX Hs Hk. eapply run_bind; [by apply quiet_run | exact Hk]. Qed.

Lemma call_seq {B} c (k : M B) Q h u p s :
  at_line pin h u p s ->
  (forall s', at_line pin (line_step pin (E_call c) h) u p s' -> go k Q s') ->
  go (bind (sdk c) (fun _ => k)) Q s.
Proof. intros Hs Hk. apply Hk. by apply at_line_emit. Qed.

Lemma uget_seq {A B} (x : var A) (g : uart_st -> A) (k : A -> M B) Q h u p s :
  (forall s, rd x s = g (m_uart s)) -> at_line pin h u p s ->
  (at_line pin h u p s -> go (k (g u)) Q s) -> go (bind (get x) k) Q s.
Proof.
  intros Hx Hs Hk. unfold runs, wpE, bind, get. rewrite Hx. pose proof Hs as (_ & -> & _).
  by apply Hk.
Qed.

Lemma status_seq {B} v (k : M B) Q h u p s :
  at_line pin h u p s ->
  (forall s', at_line pin h (set_status v u) p s' -> go k Q s') ->
  go (bind (uart_status <~ v) (fun _ => k)) Q s.
Proof.
  intros (Hh & Hu & Hp & Hd) Hk. apply Hk. split_and!; try done. cbn. by rewrite Hu.
Qed.

Lemma shl1_seq {B} n (k : Z -> M B) Q s :
  0 <= n < 32 -> go (k (u32 (bit n))) Q s -> go (bind (c_shl1 n) k) Q s.
Proof.
  intros Hn Hk. unfold c_shl1.
  by rewrite (proj2 (Z.leb_le 0 n)), (proj2 (Z.ltb_lt n 32)) by lia.
Qed.

(** The pin and its entry in the event table are in range. *)
Definition exti_ok (p : pins_st) : Prop := 0 <= pin < 30 /\ length (f_exti_ev p) = 30%nat.
Lemma cfg_exti u p : cfg_ok u p -> exti_ok p.
Proof. by intros (? & ? & ? & ? & ? & ? & ?). Qed.

Lemma exti_seq {B} b (k : M B) Q h u p s :
  exti_ok p -> at_line pin h u p s ->
  (forall s', at_line pin (mkLine (l_tx h) (l_rx h) (l_break h) b (l_clash h)) u p s' -> go k Q s') ->
  go (bind (if b then exti_enable pin else exti_disable pin) (fun _ => k)) Q s.
Proof.
  intros Hc Hs Hk. destruct Hc as (Hp & Hl).
  pose proof Hs as (_ & _ & Hps & _).
  destruct (lookup_lt_is_Some_2 (rd exti_ev s) (Z.to_nat pin)) as [ev Hev].
  { unfold rd. cbn. rewrite Hps. lia. }
  assert ((if b then exti_enable pin else exti_disable pin) s =
          Ret tt (emit (E_call (gpio_set_irq_enabled pin ev b)) s)) as E1.
  { destruct b; unfold exti_enable, exti_disable, bind, get;
      rewrite (index_run _ _ _ _ (proj1 Hp) Hev); reflexivity. }
  unfold runs, wpE, bind. rewrite E1. apply Hk.
  pose proof (at_line_emit pin (E_call (gpio_set_irq_enabled pin ev b)) _ _ _ _ Hs) as Hs'.
  cbn [line_step] in Hs'. by rewrite Z.eqb_refl in Hs'.
Qed.

(** The released line. *)
Definition released (h : line_t) : line_t := mkLine false false false true (l_clash h).

Lemma not_no_pin : 0 <= pin < 30 -> (pin =? NO_PIN) = false.
Proof. intros. apply Z.eqb_neq. unfold NO_PIN. lia. Qed.

End Inv.

Ltac lstep :=
  cbv zeta;
  match goal with
  | Hs : at_line _ _ _ _ ?s |- runs _ (bind ?m ?k) _ ?s =>
    lazymatch m with
    | get smtx => apply (uget_seq _ smtx f_smtx _ _ _ _ _ _ (fun _ => eq_refl) Hs); clear Hs; intros Hs
    | get smrx => apply (uget_seq _ smrx f_smrx _ _ _ _ _ _ (fun _ => eq_refl) Hs); clear Hs; intros Hs
    | get jacdac_pin =>
      apply (uget_seq _ jacdac_pin f_jacdac_pin _ _ _ _ _ _ (fun _ => eq_refl) Hs); clear Hs; intros Hs
    | get uart_status =>
      apply (uget_seq _ uart_status f_uart_status _ _ _ _ _ _ (fun _ => eq_refl) Hs); clear Hs; intros Hs
    | get dmachRx => apply (uget_seq _ dmachRx f_dmachRx _ _ _ _ _ _ (fun _ => eq_refl) Hs); clear Hs; intros Hs
    | get dmachTx => apply (uget_seq _ dmachTx f_dmachTx _ _ _ _ _ _ (fun _ => eq_refl) Hs); clear Hs; intros Hs
    | uart_status <~ _ => apply (status_seq _ _ _ _ _ _ _ _ Hs); clear s Hs; intros s Hs
    | c_shl1 _ => apply shl1_seq; [unfold PIO_FDEBUG_TXSTALL_LSB; lia |]
    | exti_enable _ => match type of Hs with at_line ?pin ?h ?u ?p _ =>
        apply (exti_seq pin true _ _ h u p s ltac:(first [assumption | eapply cfg_exti; eassumption]) Hs) end; clear s Hs; intros s Hs
    | exti_disable _ => match type of Hs with at_line ?pin ?h ?u ?p _ =>
        apply (exti_seq pin false _ _ h u p s ltac:(first [assumption | eapply cfg_exti; eassumption]) Hs) end; clear s Hs; intros s Hs
    | sdk (pio_sm_set_enabled _ _ _) => apply (call_seq _ _ _ _ _ _ _ _ Hs); clear s Hs; intros s Hs
    | sdk (pio_set_irq0_source_enabled _ _ _) =>
      apply (call_seq _ _ _ _ _ _ _ _ Hs); clear s Hs; intros s Hs
    | _ => eapply (quiet_seq _ m); [solve [quiet] | solve [left; exact Logic.I | right; total] | exact Hs | clear s Hs; intros ? s Hs]
    end
  end;
  cbn [set_status f_dmachTx f_dmachRx f_smtx f_smrx f_uart_status f_jacdac_pin].

Section Release.
Context {E : Env} (pin : Z) {X : Prop}.

Lemma uart_disable_line h u p s :
  cfg_ok pin u p -> at_line pin h u p s ->
  runs X uart_disable (at_line pin (released h) (set_status STATUS_IDLE u) p) s.
Proof.
  intros Hc Hs. pose proof Hc as (Hpin & Hj & Htx & Hrx & Hdr & Hdt & Hl).
  assert (cfg_ok pin (set_status STATUS_IDLE u) p) as Hc' by done.
  unfold uart_disable. lstep. rewrite Hj, not_no_pin by done.
  do 10 lstep. rewrite Htx. do 2 lstep. rewrite Hrx. do 3 lstep.
  eapply wpE_mono; [apply (quiet_run pin (X := X) target_enable_irq _ _ _ _ ltac:(quiet) ltac:(right; total) Hs) | | done].
  cbn. intros _ s2. by rewrite !orb_false_r.
Qed.

Lemma rx_arm_line pio sm h u p s :
  exti_ok pin p -> at_line pin h u p s ->
  runs X (jd_rx_arm_pin pio sm pin)
    (at_line pin (mkLine (l_tx h) (l_rx h) (l_break h) false (l_clash h)) u p) s.
Proof.
  intros Hc Hs. pose proof (proj1 Hc). unfold jd_rx_arm_pin.
  eapply quiet_seq; [apply quiet_consecutive; lia | right; apply total_consecutive; lia | exact Hs |]. clear s Hs. intros [] s Hs.
  do 2 lstep. apply quiet_run; [solve [quiet] | right; total | done].
Qed.
End Release.

Abbreviation may := (runs True).

Section Ops.
Context {E : Env} (pin : Z).

Lemma released_agrees h u : l_clash h = false -> f_uart_status u = STATUS_IDLE ->
  line_agrees (f_uart_status u) (released h).
Proof. intros Hc Hu. split; [done |]. left. unfold released. by rewrite Hc. Qed.

Lemma cfg_status v u p : cfg_ok pin u p -> cfg_ok pin (set_status v u) p.
Proof. done. Qed.

(** Releasing the line is always possible. *)
Lemma uart_disable_inv {X} s : uart_inv pin s ->
  runs X uart_disable (fun s' => uart_inv pin s' /\ l_tx (line pin (tr s')) = false /\
                              rd uart_status s' = STATUS_IDLE) s.
Proof.
  rewrite uart_inv_iff. intros (h & u & p & Hc & Hs & Hcl & _).
  eapply wpE_mono; [exact (uart_disable_line pin (X := X) h u p s Hc Hs) | | done].
  intros [] s' Hs'. split_and!.
  - apply uart_inv_iff. exists (released h), (set_status STATUS_IDLE u), p.
    split_and!; [done | done | by apply released_agrees].
  - destruct Hs' as (Hl & _). by rewrite Hl.
  - destruct Hs' as (_ & Hu & _). unfold rd. cbn. by rewrite Hu.
Qed.

Context {PC : PhysClient pin}.

(** The receive paths: the status is RX or the call does nothing. *)
Lemma rx_done_inv s : uart_inv pin s -> may rx_done (uart_inv pin) s.
Proof.
  rewrite uart_inv_iff. intros (h & u & p & Hc & Hs & Hcl & Hst).
  unfold rx_done. lstep. destruct (z2b (Z.land (f_uart_status u) STATUS_RX)).
  2:{ apply uart_inv_iff. exists h, u, p. by split_and!. }
  lstep. eapply run_bind; [apply (uart_disable_line pin h _ p s ltac:(by apply cfg_status) Hs) |].
  intros [] s1 Hs1. apply phys_rx_done. apply uart_inv_iff.
  eexists (released h), _, p. split_and!; [| exact Hs1 | by apply released_agrees]. done.
Qed.

Lemma uart_start_rx_inv data len s :
  uart_inv pin s -> l_tx (line pin (tr s)) = false -> may (uart_start_rx data len) (uart_inv pin) s.
Proof.
  rewrite uart_inv_iff. intros (h & u & p & Hc & Hs & Hcl & _) Htx0.
  pose proof Hc as (_ & Hj & _ & Hrx & _). pose proof Hs as (Hh & _). rewrite Hh in Htx0.
  clear Hh. unfold uart_start_rx. do 5 lstep. rewrite Hrx, Hj.
  eapply run_bind; [apply rx_arm_line; [by eapply cfg_exti | exact Hs] | clear s Hs; intros [] s Hs].
  lstep. rewrite Hrx. do 6 lstep.
  apply uart_inv_iff. eexists _, _, p. split_and!; [| by apply at_line_emit |]; [done |].
  split; [cbn; by rewrite Htx0, Hcl |]. right. right. split; [done |].
  cbn. by rewrite Htx0, Hcl.
Qed.

Lemma uart_start_tx_inv data len s :
  uart_inv pin s -> may (uart_start_tx data len) (uart_inv pin) s.
Proof.
  rewrite uart_inv_iff. intros (h & u & p & Hc & Hs & Hcl & Hst).
  pose proof Hc as (Hpin & Hj & Htx & _).
  unfold uart_start_tx. lstep. rewrite Hj, not_no_pin by done. do 2 lstep.
  destruct Hst as [(Hst & ->) | [(Hst & Hr & Hb & He) | (Hst & ->)]]; rewrite Hst.
  2: exact Logic.I.
  2:{ apply uart_inv_iff. eexists _, u, p. split_and!; [done | exact Hs | split; [done |]].
      right. right. by split. }
  change (z2b (Z.land STATUS_IDLE STATUS_RX)) with false. cbv iota. do 4 lstep.
  eapply quiet_seq; [unfold gpio_probe_and_set; solve [quiet] | left; exact Logic.I | exact Hs | clear s Hs; intros v s Hs].
  destruct (v =? 0).
  - lstep. eapply run_bind.
    + apply phys_falling; [| by destruct Hs as (Hh & _); rewrite Hh].
      apply uart_inv_iff. eexists _, _, p. split_and!; [| exact Hs | split; [done |]]; [done |].
      right. left. done.
    + clear s Hs. intros [] s (h' & u' & p' & Hc' & Hs & Ha)%uart_inv_iff. lstep.
      apply uart_inv_iff. by exists h', u', p'.
  - do 6 lstep. rewrite Htx. do 8 lstep. apply uart_inv_iff.
    eexists _, _, p. split_and!; [| exact Hs | split; [done |]]; [done |].
    right. left. done.
Qed.

Lemma tx_handler_inv s : uart_inv pin s -> may tx_handler (uart_inv pin) s.
Proof.
  rewrite uart_inv_iff. intros (h & u & p & Hc & Hs & Hst).
  pose proof Hc as (_ & Hj & Htx & _).
  unfold tx_handler. lstep. rewrite Htx. lstep. lstep. lstep. lstep. rewrite Hj. do 7 lstep.
  eapply run_bind; [apply uart_disable_inv, uart_inv_iff; by exists h, u, p |].
  intros [] s1 [Hi _]. by apply phys_tx_done.
Qed.

Lemma isr_pio0_0_inv s : uart_inv pin s -> may isr_pio0_0 (uart_inv pin) s.
Proof.
  rewrite uart_inv_iff. intros (h & u & p & Hc & Hs & Hst).
  unfold isr_pio0_0. do 2 lstep. assert (uart_inv pin s) by (apply uart_inv_iff; by exists h, u, p).
  destruct (z2b _); [by apply rx_done_inv | done].
Qed.
End Ops.

(** *** The driver as a state machine

    Every entry point and interrupt of the driver, and anything else the
    firmware does meanwhile.  A falling edge interrupts only while the edge
    interrupt of the pin is enabled; the runtime starts a reception only from
    its falling-edge callback, when the transmitter is off. *)
Inductive uart_step {E : Env} (pin : Z) : machine -> machine -> Prop :=
| US_start_tx data len r s s' : uart_start_tx data len s = Ret r s' -> uart_step pin s s'
| US_start_rx data len s s' :
    l_tx (line pin (tr s)) = false -> uart_start_rx data len s = Ret tt s' -> uart_step pin s s'
| US_edge s s' :
    l_exti (line pin (tr s)) = true -> run_cb cb_jd_line_falling s = Ret tt s' -> uart_step pin s s'
| US_break s s' : isr_pio0_0 s = Ret tt s' -> uart_step pin s s'
| US_rx_dma s s' : rx_handler s = Ret tt s' -> uart_step pin s s'
| US_tx_dma s s' : tx_handler s = Ret tt s' -> uart_step pin s s'
| US_disable s s' : uart_disable s = Ret tt s' -> uart_step pin s s'
| US_other h u p s s' : at_line pin h u p s -> at_line pin h u p s' -> uart_step pin s s'.

Lemma uart_step_inv {E : Env} pin `{PC : !PhysClient pin} s s' :
  uart_inv pin s -> uart_step pin s s' -> uart_inv pin s'.
Proof.
  intros Hi Hst.
  destruct Hst as [data len r s s' He | data len s s' Htx He | s s' Hx He | s s' He | s s' He
                  | s s' He | s s' He | h u p s s' H1 H2].
  - exact (run_inv _ _ _ _ _ (uart_start_tx_inv pin data len s Hi) He).
  - exact (run_inv _ _ _ _ _ (uart_start_rx_inv pin data len s Hi Htx) He).
  - refine (run_inv _ _ _ _ _ (phys_falling s Hi _) He).
    destruct Hi as (_ & _ & [(_ & Hl) | [(_ & _ & _ & Hl) | (_ & Hl)]]);
      [by rewrite Hl | congruence | by rewrite Hl].
  - exact (run_inv _ _ _ _ _ (isr_pio0_0_inv pin s Hi) He).
  - exact (run_inv _ _ _ _ _ (rx_done_inv pin s Hi) He).
  - exact (run_inv _ _ _ _ _ (tx_handler_inv pin s Hi) He).
  - exact (proj1 (run_inv (X := True) _ _ _ _ _ (uart_disable_inv pin s Hi) He)).
  - apply uart_inv_iff in Hi as (h0 & u0 & p0 & Hc & Hs & Ha).
    destruct Hs as (? & ? & ? & ?), H1 as (? & ? & ? & ?). simplify_eq.
    apply uart_inv_iff. by eexists _, _, _.
Qed.

(** *** Runs of a transmission *)

Section Runs.
Context {E : Env}.

Lemma exti_disable_run p s :
  0 <= p < 30 -> length (rd exti_ev s) = 30%nat ->
  exti_disable p s = Ret tt (emit (E_call (gpio_set_irq_enabled p (nth (Z.to_nat p) (rd exti_ev s) 0) false)) s).
Proof.
  intros Hp Hl. unfold exti_disable, bind, get.
  rewrite (index_run _ _ (nth (Z.to_nat p) (rd exti_ev s) 0)); [done | lia |].
  rewrite nth_lookup. destruct (lookup_lt_is_Some_2 (rd exti_ev s) (Z.to_nat p)) as [x ->]; [lia | done].
Qed.

Lemma pin_set_run p v s : 0 <= p < 30 -> pin_set p v s = Ret tt (emit (E_call (gpio_put p v)) s).
Proof. intros Hp. unfold pin_set. by rewrite valid_pin. Qed.

Lemma bit_u32_range n : 0 <= n < 32 -> 0 <= bit n < 4294967296.
Proof.
  intros Hn. rewrite bit_pow by lia. split; [lia |].
  change 4294967296 with (2 ^ 32). apply Z.pow_lt_mono_r; lia.
Qed.

Lemma tx_arm_run pio sm p s :
  0 <= p < 30 -> exists es, jd_tx_arm_pin pio sm p s = Ret tt (upd_tr (app es) s).
Proof.
  intros Hp. unfold jd_tx_arm_pin. unfold bind at 1. rewrite shl1_run by lia.
  pose proof (bit_u32_range p ltac:(lia)) as Hb.
  destruct (set_with_mask_sets pio sm pio_pins (bit p) (bit p) Hb s) as (e1 & E1 & _).
  destruct (set_with_mask_sets pio sm pio_pindirs (bit p) (bit p) Hb (upd_tr (app e1) s))
    as (e2 & E2 & _).
  change (set_with_mask pio sm pio_pins (bit p) (bit p)) with
    (pio_sm_set_pins_with_mask_ pio sm (bit p) (bit p)) in E1.
  change (set_with_mask pio sm pio_pindirs (bit p) (bit p)) with
    (pio_sm_set_pindirs_with_mask_ pio sm (bit p) (bit p)) in E2.
  unfold bind. rewrite E1, E2. unfold pio_gpio_init_, pin_setup_output_af, gpio_set_function_.
  rewrite valid_pin by done. eexists (_ :: _ :: e2 ++ e1). mexec. unfold emit.
  f_equal. unfold upd_tr. cbn. by rewrite <- app_assoc.
Qed.

End Runs.

(** The machine when [uart_start_tx] has pulled the line low: edge interrupt
    off, status TX. *)
Definition tx_claimed (pin : Z) (s : machine) : machine :=
  emit (E_call (gpio_put pin 0)) (wr uart_status STATUS_TX
    (emit (E_call (gpio_set_irq_enabled pin (nth (Z.to_nat pin) (rd exti_ev s) 0) false)) s)).

(** ... and when it has probed it: what it read is [v]. *)
Definition tx_probed (pin v : Z) (s : machine) : machine :=
  emit (E_write SIO_GPIO_OE_SET (Z.land v (bit pin)))
    (emit (E_read SIO_GPIO_IN v) (tx_claimed pin s)).

Lemma tx_probe_run {E : Env} pin data len s (k := rd_reg (tr (tx_claimed pin s)) SIO_GPIO_IN) :
  uart_ready pin s -> rd uart_status s = STATUS_IDLE ->
  uart_start_tx data len s =
  (if Z.land k (bit pin) =? 0 then
     (target_disable_irq ;; jd_line_falling ;; target_enable_irq ;; ret (-1))
   else
     (target_wait_us 12 ;;
      pin_set pin 1 ;;
      target_wait_us 49 ;;
      let! sm := get smtx in
      jd_tx_arm_pin pio0 sm pin ;;
      let! sm := get smtx in
      sdk (pio_sm_set_enabled pio0 sm true) ;;
      let! ch := get dmachTx in
      dma_set_ch_cb ch (Some uart_tx_handler) None ;;
      let! ch := get dmachTx in
      sdk (dma_channel_transfer_from_buffer_now ch data len) ;;
      let! sm := get smtx in
      let! m := c_shl1 (PIO_FDEBUG_TXSTALL_LSB + sm) in
      PIO_FDEBUG pio0 <-~ m ;;
      ret 0)) (tx_probed pin k s).
Proof.
  intros (Hp & Hj & Htx & Hrx & Hdr & Hdt & Hl & Hlh) Hst.
  unfold uart_start_tx. unfold bind at 1, get at 1. rewrite Hj, not_no_pin by done.
  unfold bind at 1. rewrite exti_disable_run by done.
  unfold bind at 1, get at 1. vsimp. rewrite Hst.
  change (z2b (Z.land STATUS_IDLE STATUS_RX)) with false. change (STATUS_IDLE =? 0) with true.
  cbv iota. unfold JD_ASSERT, bind at 1, ret at 1. unfold bind at 1, put at 1.
  unfold bind at 1. rewrite pin_set_run by done. unfold bind at 1. rewrite shl1_run by lia.
  unfold bind at 1. unfold gpio_probe_and_set at 1. unfold load, setreg, log, ret, bind at 1 2.
  fold (tx_claimed pin s). fold k. fold (tx_probed pin k s).
  by destruct (Z.land k (bit pin) =? 0).
Qed.

Section TxRun.
Context {E : Env} (now64 : trace -> Z) {CK : ClockOk now64}.

(** A transmission that finds the line high. *)
Lemma tx_send_run pin data len s k old :
  uart_ready pin s -> rd uart_status s = STATUS_TX ->
  rd dmaHandler s !! Z.to_nat (rd dmachTx s) = Some (mkDMAHandler old None) ->
  progress now64 k -> (k * 49 + 2 <= fuel)%nat ->
  exists s' e1 e2 e3 e4,
    (target_wait_us 12 ;;
     pin_set pin 1 ;;
     target_wait_us 49 ;;
     let! sm := get smtx in
     jd_tx_arm_pin pio0 sm pin ;;
     let! sm := get smtx in
     sdk (pio_sm_set_enabled pio0 sm true) ;;
     let! ch := get dmachTx in
     dma_set_ch_cb ch (Some uart_tx_handler) None ;;
     let! ch := get dmachTx in
     sdk (dma_channel_transfer_from_buffer_now ch data len) ;;
     let! sm := get smtx in
     let! m := c_shl1 (PIO_FDEBUG_TXSTALL_LSB + sm) in
     PIO_FDEBUG pio0 <-~ m ;;
     ret 0) s = Ret 0 s' /\
    tr s' = e4 ++ E_call (dma_channel_transfer_from_buffer_now (rd dmachTx s) data len)
               :: e3 ++ E_call (pio_sm_set_enabled pio0 0 true)
               :: e2 ++ E_call (gpio_put pin 1) :: e1 ++ tr s /\
    now64 (tr s) + 12 <= now64 (e1 ++ tr s) /\
    now64 (E_call (gpio_put pin 1) :: e1 ++ tr s) + 49 <=
      now64 (e2 ++ E_call (gpio_put pin 1) :: e1 ++ tr s) /\
    rd uart_status s' = STATUS_TX /\
    rd dmaHandler s' =
      <[Z.to_nat (rd dmachTx s) := mkDMAHandler None (Some uart_tx_handler)]> (rd dmaHandler s).
Proof.
  intros (Hp & Hj & Htx & Hrx & Hdr & Hdt & Hl & Hlh) Hst Hh Hk Hf.
  destruct (target_wait_us_run now64 k 12 s) as (e1 & E1 & W1);
    [done | lia | lia | reflexivity |].
  unfold bind at 1. rewrite E1. unfold bind at 1. rewrite pin_set_run by done.
  set (s2 := emit (E_call (gpio_put pin 1)) (upd_tr (app e1) s)).
  assert (rd smtx s2 = 0 /\ rd dmachTx s2 = rd dmachTx s /\ rd dmaHandler s2 = rd dmaHandler s)
    as (H1 & H2 & H3) by (unfold s2; vsimp; done).
  destruct (target_wait_us_run now64 k 49 s2) as (e2 & E2 & W2);
    [done | lia | lia | reflexivity |].
  unfold bind at 1. rewrite E2. unfold bind at 1, get at 1. vsimp. rewrite H1.
  destruct (tx_arm_run pio0 0 pin (upd_tr (app e2) s2)) as (ea & Ea); [done |].
  unfold bind at 1. rewrite Ea. unfold bind at 1, get at 1. vsimp. rewrite H1.
  unfold sdk at 1, log, bind at 1. unfold bind at 1, get at 1. vsimp. rewrite H2.
  unfold bind at 1. erewrite dma_set_run by (vsimp; rewrite ?H2, ?H3; done).
  unfold bind at 1, get at 1. vsimp. rewrite H2, H3. unfold sdk at 1, log, bind at 1.
  unfold bind at 1, get at 1. vsimp. rewrite H1.
  unfold bind at 1. rewrite shl1_run by (unfold PIO_FDEBUG_TXSTALL_LSB; lia).
  mexec. eexists _, e1, (ea ++ e2), [_; _; _; _], [_]. split; [reflexivity |].
  unfold s2. vsimp. split_and!; try done.
  - by rewrite <- app_assoc.
  - unfold s2 in W2. vsimp in W2. rewrite <- app_assoc. etransitivity; [exact W2 |].
    by apply (clk_mono_app now64).
Qed.
End TxRun.

(** *** Polling *)

Section Polls.
Context {E : Env}.

(** The trace after [n] polls of a pin, and whether the next one reads high. *)
Fixpoint polled (pin : Z) (n : nat) (t : trace) : trace :=
  match n with
  | O => t
  | S n => let t' := polled pin n t in E_ret (gpio_get pin) (ret_of t' (gpio_get pin)) :: t'
  end.
Definition high_at (pin : Z) (t : trace) (n : nat) : Prop :=
  ret_of (polled pin n t) (gpio_get pin) <> 0.

Definition wait_round (pin timeout : Z) : M (Z + Z) :=
  if 0 <? timeout then
    let! v := pin_get pin in
    ret (if z2b v then inr (timeout - 1) else inl (timeout - 1))
  else ret (inr (timeout - 1)).

Lemma wait_high_loop pin n d s t :
  0 <= pin < 30 -> tr s = polled pin d t -> (forall i, (i < d)%nat -> ~ high_at pin t i) ->
  exists r p s', loop (S n) (wait_round pin) (Z.of_nat n) s = Ret r s' /\
    tr s' = polled pin p t /\ (d <= p <= d + n)%nat /\
    ((r = -1 /\ p = (d + n)%nat /\ forall i, (i < p)%nat -> ~ high_at pin t i) \/
     (0 <= r /\ r = Z.of_nat (d + n) - Z.of_nat p /\ (0 < p)%nat /\ high_at pin t (p - 1) /\
      forall i, (i < p - 1)%nat -> ~ high_at pin t i)).
Proof.
  intros Hp. revert d s. induction n as [| n IH]; intros d s Ht Hlow.
  { exists (-1), d, s. rewrite Nat.add_0_r. split_and!; [done | done | lia | lia |]. by left. }
  change (loop (S (S n)) (wait_round pin) (Z.of_nat (S n)) s) with
    (bind (wait_round pin (Z.of_nat (S n)))
       (fun r => match r with inl a' => loop (S n) (wait_round pin) a' | inr b => ret b end) s).
  unfold bind at 1, wait_round at 1, pin_get. rewrite valid_pin by done.
  rewrite (proj2 (Z.ltb_lt 0 (Z.of_nat (S n)))) by lia. unfold bind at 1, sdkv.
  set (v := ret_of (tr s) (gpio_get pin)). unfold ret at 1.
  replace (Z.of_nat (S n) - 1) with (Z.of_nat n) by lia.
  assert (tr (emit (E_ret (gpio_get pin) v) s) = polled pin (S d) t) as Ht'.
  { vsimp. unfold v. by rewrite Ht. }
  unfold z2b. destruct (Z.eqb_spec v 0) as [Hv | Hv]; cbn [negb].
  - destruct (IH (S d) (emit (E_ret (gpio_get pin) v) s) Ht') as (r & p & s' & E1 & Hts & Hpp & Hr).
    { intros i Hi. destruct (decide (i = d)) as [-> |]; [| apply Hlow; lia].
      unfold high_at. rewrite <- Ht. fold v. lia. }
    exists r, p, s'. split_and!; [done | done | lia | lia |].
    replace (d + S n)%nat with (S d + n)%nat by lia. done.
  - exists (Z.of_nat n), (S d), (emit (E_ret (gpio_get pin) v) s).
    split_and!; [done | done | lia | lia |]. right.
    replace (S d - 1)%nat with d by lia. split_and!; [lia | lia | lia | | done].
    unfold high_at. by rewrite <- Ht.
Qed.
End Polls.

(** *** Initialisation *)

Section Init.
Context {E : Env} (pin : Z) {X : Prop}.

Lemma uput_seq {A B} (x : var A) v (f : uart_st -> uart_st) (k : M B) Q h u p s :
  (forall s, wr x v s = upd_uart f s) -> at_line pin h u p s ->
  (forall s', at_line pin h (f u) p s' -> runs X k Q s') ->
  runs X (bind (x <~ v) (fun _ => k)) Q s.
Proof.
  intros Hx (Hh & Hu & Hp & Hd) Hk. unfold runs, wpE, bind, put. rewrite Hx. apply Hk.
  split_and!; try done. cbn. by rewrite Hu.
Qed.

Lemma exti_callback_line cb flags h u p s :
  0 <= pin < 30 -> length (f_exti_cb p) = 30%nat -> length (f_exti_ev p) = 30%nat ->
  at_line pin h u p s ->
  runs X (exti_set_callback pin cb flags)
    (fun s' => exists x p', length (f_exti_ev p') = 30%nat /\
       at_line pin (mkLine (l_tx h) (l_rx h) (l_break h) x (l_clash h)) u p' s') s.
Proof.
  intros Hp H1 H2 (Hh & Hu & Hps & Hd).
  assert (rd exti_cb s = f_exti_cb p /\ rd exti_ev s = f_exti_ev p) as [Ec Ee].
  { unfold rd. cbn. by rewrite Hps. }
  unfold exti_set_callback, runs, wpE. mexec. rewrite !store_run by (vsimp; rewrite ?Ec, ?Ee; lia).
  vsimp. eexists _, (Build_pins_st _ _). split.
  2:{ split_and!; [| done | |done].
      - vsimp. cbn. rewrite <- Hh. reflexivity.
      - cbn. rewrite Hps. reflexivity. }
  cbn. by rewrite length_insert.
Qed.

Lemma tx_init_line pio sm off p' baud h u p s :
  0 <= p' < 30 -> sm = 0 -> l_rx h = false -> at_line pin h u p s ->
  runs X (jd_tx_program_init pio sm off p' baud)
    (at_line pin (mkLine false (l_rx h) (l_break h) (l_exti h) (l_clash h)) u p) s.
Proof.
  intros Hp' -> Hr Hs. unfold jd_tx_program_init.
  eapply quiet_seq; [apply quiet_tx_arm | right; by apply total_tx_arm | exact Hs |].
  clear s Hs. intros [] s Hs. lstep.
  eapply run_bind.
  - unfold pio_sm_init_. do 6 lstep. apply quiet_run; [quiet | right; total | exact Hs].
  - clear s Hs. intros [] s Hs. unfold sdk, log, runs, wpE.
    pose proof (at_line_emit pin (E_call (pio_sm_set_enabled pio 0 false)) _ _ _ _ Hs) as H1.
    cbn in H1. rewrite !orb_false_r in H1. exact H1.
Qed.

Lemma rx_init_line pio sm off baud h u p s :
  exti_ok pin p -> sm = 1 -> l_tx h = false -> at_line pin h u p s ->
  runs X (jd_rx_program_init pio sm off pin baud)
    (at_line pin (mkLine (l_tx h) false (l_break h) false (l_clash h)) u p) s.
Proof.
  intros Hx -> Ht Hs. unfold jd_rx_program_init.
  eapply run_bind; [by apply rx_arm_line |].
  clear s Hs. intros [] s Hs. lstep.
  eapply run_bind.
  - unfold pio_sm_init_. do 6 lstep. apply quiet_run; [quiet | right; total | exact Hs].
  - clear s Hs. intros [] s Hs. unfold sdk, log, runs, wpE.
    pose proof (at_line_emit pin (E_call (pio_sm_set_enabled pio 1 false)) _ _ _ _ Hs) as H1.
    cbn in H1. rewrite Ht, !orb_false_r in H1. rewrite Ht. exact H1.
Qed.

Lemma claim_seq {B} c lo hi (k : Z -> M B) Q h u p s :
  (forall t, lo <= ret_of t c < hi) -> at_line pin h u p s ->
  (forall a s', lo <= a < hi -> at_line pin h u p s' -> runs X (k a) Q s') ->
  runs X (bind (sdkv c) k) Q s.
Proof.
  intros Hc Hs Hk. apply Hk; [apply Hc | exact (at_line_emit pin (E_ret c _) _ _ _ _ Hs)].
Qed.

Ltac ustep :=
  match goal with
  | Hs : at_line ?pin ?h ?u ?p ?s |- runs _ (bind (?x <~ _) _) _ ?s =>
    eapply (uput_seq x); [intros; reflexivity | exact Hs | clear s Hs; intros s Hs];
    cbn [f_dmachTx f_dmachRx f_txprog f_rxprog f_smtx f_smrx f_uart_status f_jacdac_pin] in Hs |- *
  end.

Lemma uart_init_line v s p :
  u8 v = pin -> (forall t, ret_of t (dcfg_get_pin "jacdac.pin") = v) ->
  (forall t, 0 <= ret_of t (dma_claim_unused_channel true) < 12) ->
  0 <= pin < 30 -> m_pins s = p -> length (f_exti_cb p) = 30%nat -> length (f_exti_ev p) = 30%nat ->
  line pin (tr s) = line_off -> length (rd dmaHandler s) = 12%nat ->
  rd smtx s = 0 -> rd smrx s = 1 ->
  runs X uart_init_ (fun s' => uart_inv pin s' /\ rd uart_status s' = STATUS_IDLE) s.
Proof.
  intros Hv Hcfg Hch Hp Hps Hl1 Hl2 Hl Hd Htx Hrx.
  assert (at_line pin line_off (m_uart s) p s) as Hs by done.
  change (f_smtx (m_uart s) = 0) in Htx. change (f_smrx (m_uart s) = 1) in Hrx.
  set (u := m_uart s) in *. clearbody u. clear Hps Hl Hd.
  assert (exti_ok pin p) as Hx by done.
  unfold uart_init_, sdkv at 1. unfold runs, wpE, bind at 1. rewrite Hcfg, Hv.
  apply (at_line_emit pin (E_ret (dcfg_get_pin "jacdac.pin") v)) in Hs. cbn [line_step] in Hs.
  set (s1 := emit _ s) in *. clearbody s1. clear s. rename s1 into s.
  match goal with |- match ?m s with _ => _ end => change (runs X m (fun s' =>
    uart_inv pin s' /\ rd uart_status s' = STATUS_IDLE) s) end.
  ustep. rewrite not_no_pin by done. do 4 lstep. ustep. lstep. ustep. do 2 lstep.
  eapply run_bind; [eapply tx_init_line; [| | | exact Hs]; done |].
  clear s Hs. intros [] s Hs. do 2 lstep.
  eapply run_bind; [eapply rx_init_line; [| | | exact Hs]; done |].
  clear s Hs. intros [] s Hs.
  eapply claim_seq; [exact Hch | exact Hs |]. clear s Hs. intros rx s Hrxr Hs. ustep.
  eapply claim_seq; [exact Hch | exact Hs |]. clear s Hs. intros tx s Htxr Hs. ustep.
  do 6 lstep.
  eapply run_bind; [eapply exti_callback_line; [| | | exact Hs]; done |].
  clear s Hs. intros [] s (x & p' & Hl' & Hs). do 3 lstep.
  match type of Hs with at_line _ ?h ?u ?p _ =>
    assert (cfg_ok pin u p) as Hc by (split_and!; try done; cbn; lia);
    eapply wpE_mono; [exact (uart_disable_line pin (X := X) h u p s Hc Hs) | | done] end.
  intros [] s' Hs'. split.
  - apply uart_inv_iff. eexists _, _, p'. split_and!; [| exact Hs' |]; [by apply cfg_status |].
    by apply released_agrees.
  - destruct Hs' as (_ & Hu & _). unfold rd. cbn. by rewrite Hu.
Qed.
End Init.

(** *** Waiting for the last bit to leave the shift register *)

Section Stall.
Context {E : Env}.

(** The trace after [n] loads of a register. *)
Fixpoint reads (r : reg) (n : nat) (t : trace) : trace :=
  match n with
  | O => t
  | S n => let t' := reads r n t in E_read r (rd_reg t' r) :: t'
  end.

(** The stall flag of the transmitter, as the [n]-th poll sees it. *)
Definition stalled_at (t : trace) (n : nat) : Prop :=
  Z.testbit (rd_reg (reads (PIO_FDEBUG 0) n t) (PIO_FDEBUG 0)) 24 = true.

Definition stall_cond : M bool :=
  let! v := load (PIO_FDEBUG pio0) in
  let! sm := get smtx in
  let! m := c_shl1 (PIO_FDEBUG_TXSTALL_LSB + sm) in
  ret (negb (z2b (Z.land v m))).

Lemma stall_loop t f d s :
  rd smtx s = 0 -> tr s = reads (PIO_FDEBUG 0) d t ->
  (exists n, (d <= n < d + f)%nat /\ stalled_at t n) ->
  exists m, while_ f stall_cond (ret tt) s =
              Ret tt (upd_tr (fun _ => reads (PIO_FDEBUG 0) (S m) t) s) /\
    (d <= m)%nat /\ stalled_at t m /\ forall i, (d <= i < m)%nat -> ~ stalled_at t i.
Proof.
  revert d s. induction f as [| f IH]; intros d s Hsm Ht (n & Hn & Hst); [lia |].
  set (e := E_read (PIO_FDEBUG 0) (rd_reg (reads (PIO_FDEBUG 0) d t) (PIO_FDEBUG 0))).
  assert (stall_cond s = Ret (negb (Z.testbit (rd_reg (reads (PIO_FDEBUG 0) d t) (PIO_FDEBUG 0)) 24))
                             (emit e s)) as Hc.
  { unfold stall_cond, load, bind at 1. rewrite Ht. unfold bind at 1, get at 1. vsimp. rewrite Hsm.
    unfold bind at 1. rewrite shl1_run by (unfold PIO_FDEBUG_TXSTALL_LSB; lia).
    unfold ret. rewrite land_bit by (unfold PIO_FDEBUG_TXSTALL_LSB; lia). reflexivity. }
  cbn [while_]. unfold bind at 1. rewrite Hc.
  destruct (Z.testbit _ 24) eqn:Hd; cbn [negb].
  - exists d. split_and!; [| lia | done | intros; lia]. unfold ret, emit. f_equal.
    unfold upd_tr. cbn. by rewrite Ht.
  - assert (n <> d) by (intros ->; unfold stalled_at in Hst; congruence).
    destruct (IH (S d) (emit e s)) as (m & E1 & Hm & Hsm' & Hlo).
    + by vsimp.
    + vsimp. by rewrite Ht.
    + exists n. split; [lia | done].
    + exists m. unfold bind, ret at 1. rewrite E1. split_and!; [done | lia | done |].
      intros i Hi. destruct (decide (i = d)) as [-> | Hne]; [unfold stalled_at; congruence |].
      apply Hlo. lia.
Qed.
End Stall.

(** *** The client of the witnesses: a runtime that answers a falling edge by
    starting a reception *)

Definition phys_env (own : trace -> reg -> option Z) (rets : trace -> call -> Z) : Env :=
  let e := ref_env 0 own rets (fun _ _ => []) in {|
  rd_reg := @rd_reg e; ret_of := rets; bytes_of := @bytes_of e; xip := @xip e; fuel := @fuel e;
  JD_MIN_MAX_SLEEP := @JD_MIN_MAX_SLEEP e; jd_max_sleep := @jd_max_sleep e;
  jd_line_falling := @uart_start_rx e (mem 0) 252;
  jd_rx_completed _ := ret tt; jd_tx_completed _ := ret tt; client_cb _ := ret tt;
  reenter _ := ret tt
|}.

#[export] Instance phys_demo own rets pin : @PhysClient (phys_env own rets) pin.
Proof.
  constructor.
  - intros n s Hs. exact Hs.
  - intros n s Hs. exact Hs.
  - intros s Hs Ht. exact (@uart_start_rx_inv (ref_env 0 own rets (fun _ _ => [])) pin _ _ s Hs Ht).
Qed.

(** The driver initialised on pin 9, idle. *)
Definition uart_demo : machine :=
  wr jacdac_pin 9 (wr dmachRx 3 (wr dmachTx 4
    (emit (E_call (gpio_set_irq_enabled 9 4 true)) machine_init))).

Lemma uart_demo_inv : uart_inv 9 uart_demo.
Proof.
  split; [unfold uart_ready; split_and!; by vm_compute |]. split; [done |]. by left.
Qed.

Definition after {A} (m : M A) (s : machine) : machine :=
  match m s with Ret _ s' | Stop _ s' => s' end.

(** ** Properties *)

(** C1: the line is half duplex, operation by operation.  In every sequence of
    transmissions, receptions (started while the transmitter is off, as from the
    edge interrupt), edge, break and DMA interrupts, releases and activity
    elsewhere, each of them run to its end before the next, the PIO transmitter
    and receiver are never enabled together at any point of the history, also
    inside an operation, and whenever an operation returns the status word agrees
    with the hardware: idle means both are off and the edge interrupt is on; TX or
    RX means the edge interrupt is off and only that direction may run.  Interrupts
    that strike inside [uart_start_tx] are the subject of [Claim.v]: there the
    statement needs a proviso. *)
Theorem uart_half_duplex {E : Env} pin `{!PhysClient pin} s s' :
  uart_inv pin s -> star (uart_step pin) s s' ->
  l_clash (line pin (tr s')) = false /\
  line_agrees (rd uart_status s') (line pin (tr s')).
Proof.
  intros Hi Hs.
  assert (uart_inv pin s') as [_ Ha].
  { eapply star_invariant; [| exact Hs | exact Hi]. intros s1 s2. apply uart_step_inv. done. }
  split; [apply Ha | exact Ha].
Qed.

Lemma uart_half_duplex_witness :
  let E := phys_env (fun _ _ => None) (fun _ _ => 0) in
  let s1 := after (@uart_start_tx E (mem 8) 16) uart_demo in
  let s2 := after (@rx_handler E) s1 in
  rd uart_status s1 = STATUS_RX /\ rd uart_status s2 = STATUS_IDLE /\
  l_clash (line 9 (tr s2)) = false /\ line_agrees (rd uart_status s2) (line 9 (tr s2)).
Proof.
  intros E s1 s2.
  split; [by vm_compute |]. split; [by vm_compute |].
  apply (@uart_half_duplex E 9 (phys_demo _ _ 9) uart_demo); [exact uart_demo_inv |].
  apply star_step with s1; [apply (US_start_tx (E := E) 9 (mem 8) 16 (-1)); vm_compute; reflexivity |].
  apply star_one. apply (US_rx_dma (E := E)). vm_compute. reflexivity.
Defined.

(** C9: [uart_start_tx] on every branch.  Without a pin it completes at once.
    With a reception under way it reports failure and leaves the edge interrupt
    off for the reception to restore.  While transmitting it panics.  On an
    idle line it claims the line, pulls it low and probes it: if someone else
    holds it low the edge handler runs under the interrupt lock and the call
    fails without starting the transmitter; otherwise the start pulse is at
    least 12 us low and 49 us high before the transmitter is enabled, and the
    DMA of exactly [len] bytes from [data] starts after its handler is armed. *)
Theorem uart_start_tx_cases {E : Env} now64 (CK : ClockOk now64) k pin data len old s :
  progress now64 k -> (k * 49 + 2 <= fuel)%nat -> uart_ready pin s ->
  rd dmaHandler s !! Z.to_nat (rd dmachTx s) = Some (mkDMAHandler old None) ->
  let level := rd_reg (tr (tx_claimed pin s)) SIO_GPIO_IN in
  (forall s0, rd jacdac_pin s0 = NO_PIN ->
     uart_start_tx data len s0 = (jd_tx_completed 0 ;; ret 0) s0) /\
  (rd uart_status s = STATUS_RX -> exists ev,
     uart_start_tx data len s = Ret (-1) (emit (E_call (gpio_set_irq_enabled pin ev false)) s)) /\
  (rd uart_status s = STATUS_TX -> exists s', uart_start_tx data len s = Stop Panic s') /\
  (rd uart_status s = STATUS_IDLE -> Z.testbit level pin = false ->
     uart_start_tx data len s =
     (target_disable_irq ;; jd_line_falling ;; target_enable_irq ;; ret (-1)) (tx_probed pin level s)) /\
  (rd uart_status s = STATUS_IDLE -> Z.testbit level pin = true ->
     exists s' e1 e2 e3 e4, uart_start_tx data len s = Ret 0 s' /\
       tr s' = e4 ++ E_call (dma_channel_transfer_from_buffer_now (rd dmachTx s) data len)
                  :: e3 ++ E_call (pio_sm_set_enabled 0 0 true)
                  :: e2 ++ E_call (gpio_put pin 1) :: e1 ++ tr (tx_probed pin level s) /\
       now64 (tr (tx_probed pin level s)) + 12 <= now64 (e1 ++ tr (tx_probed pin level s)) /\
       now64 (E_call (gpio_put pin 1) :: e1 ++ tr (tx_probed pin level s)) + 49 <=
         now64 (e2 ++ E_call (gpio_put pin 1) :: e1 ++ tr (tx_probed pin level s)) /\
       rd uart_status s' = STATUS_TX /\
       rd dmaHandler s' =
         <[Z.to_nat (rd dmachTx s) := mkDMAHandler None (Some uart_tx_handler)]> (rd dmaHandler s)).
Proof.
  intros Hk Hf Hr Hh level. pose proof Hr as (Hp & Hj & Htx & Hrx & Hdr & Hdt & Hl & Hlh).
  split; [intros s0 H0; unfold uart_start_tx, bind at 1, get at 1; by rewrite H0 |].
  split; [| split].
  1,2: intros Hst; unfold uart_start_tx, bind at 1, get at 1; rewrite Hj, not_no_pin by done;
    unfold bind at 1; rewrite exti_disable_run by done; unfold bind at 1, get at 1; vsimp;
    rewrite Hst; eexists; reflexivity.
  assert (Z.testbit level pin = negb (Z.land level (bit pin) =? 0)) as Hb
    by (rewrite <- land_bit by lia; done).
  rewrite Hb. split; intros Hst Hlev; rewrite (tx_probe_run pin) by done; fold level;
    destruct (Z.land level (bit pin) =? 0); try done.
  exact (tx_send_run now64 pin data len (tx_probed pin level s) k old Hr eq_refl Hh Hk Hf).
Qed.

(** Pin 9 reads high. *)
Definition tx_demo_env : Env :=
  phys_env (fun _ r => if decide (r = SIO_GPIO_IN) then Some 512 else None) (fun _ _ => 0).

Lemma tx_demo_clock : @ClockOk tx_demo_env (ref_clock 0).
Proof. constructor; unfold ref_clock, TICK; intros; cbn [length]; try done; lia. Qed.

Lemma uart_start_tx_cases_witness :
  rd uart_status uart_demo = STATUS_IDLE /\
  Z.testbit (@rd_reg tx_demo_env (tr (tx_claimed 9 uart_demo)) SIO_GPIO_IN) 9 = true /\
  exists s' e1 e2 e3 e4, @uart_start_tx tx_demo_env (mem 8) 16 uart_demo = Ret 0 s' /\
    tr s' = e4 ++ E_call (dma_channel_transfer_from_buffer_now 4 (mem 8) 16)
               :: e3 ++ E_call (pio_sm_set_enabled 0 0 true)
               :: e2 ++ E_call (gpio_put 9 1) :: e1 ++ tr (tx_probed 9 512 uart_demo) /\
    ref_clock 0 (tr (tx_probed 9 512 uart_demo)) + 12 <=
      ref_clock 0 (e1 ++ tr (tx_probed 9 512 uart_demo)) /\
    ref_clock 0 (E_call (gpio_put 9 1) :: e1 ++ tr (tx_probed 9 512 uart_demo)) + 49 <=
      ref_clock 0 (e2 ++ E_call (gpio_put 9 1) :: e1 ++ tr (tx_probed 9 512 uart_demo)) /\
    rd uart_status s' = STATUS_TX /\
    rd dmaHandler s' =
      <[4%nat := mkDMAHandler None (Some uart_tx_handler)]> (rd dmaHandler uart_demo).
Proof.
  split; [reflexivity |]. split; [reflexivity |].
  apply (@uart_start_tx_cases tx_demo_env (ref_clock 0) tx_demo_clock 1 9 (mem 8) 16 None uart_demo);
    [intros u es Hes; unfold ref_clock; rewrite length_app, Hes; lia | vm_compute; lia
    | apply uart_demo_inv | reflexivity | reflexivity | reflexivity].
Defined.

(** C26: initialisation returns with the driver released and idle on the
    configured pin, its invariant established; without a configured pin it
    only records that. *)
Theorem uart_init_ready {E : Env} pin v s :
  (forall t, ret_of t (dcfg_get_pin "jacdac.pin") = v) ->
  (forall t, 0 <= ret_of t (dma_claim_unused_channel true) < 12) ->
  length (rd exti_cb s) = 30%nat -> length (rd exti_ev s) = 30%nat ->
  length (rd dmaHandler s) = 12%nat -> rd smtx s = 0 -> rd smrx s = 1 ->
  line pin (tr s) = line_off ->
  (u8 v = NO_PIN -> exists s', uart_init_ s = Ret tt s' /\ rd jacdac_pin s' = NO_PIN /\
     tr s' = E_ret (dcfg_get_pin "jacdac.pin") v :: tr s) /\
  (u8 v = pin -> 0 <= pin < 30 -> exists s', uart_init_ s = Ret tt s' /\
     uart_inv pin s' /\ rd uart_status s' = STATUS_IDLE).
Proof.
  intros Hcfg Hch H1 H2 H3 H4 H5 Hl. split.
  - intros Hv. eexists. unfold uart_init_. mexec. rewrite Hcfg, Hv. cbn [Z.eqb NO_PIN].
    split; [reflexivity | by vsimp].
  - intros Hv Hp.
    pose proof (uart_init_line pin (X := False) v s _ Hv Hcfg Hch Hp eq_refl H1 H2 Hl H3 H4 H5) as Hw.
    unfold runs, wpE in Hw. destruct (uart_init_ s) as [[] s' |]; [by exists s' | done].
Qed.

(** The configuration names pin 9; channels 3 are handed out. *)
Definition init_demo_env : Env :=
  phys_env (fun _ _ => None)
    (fun _ c => match c with dcfg_get_pin _ => 9 | dma_claim_unused_channel _ => 3 | _ => 0 end).

Lemma uart_init_ready_witness :
  exists s', @uart_init_ init_demo_env machine_init = Ret tt s' /\
    uart_inv 9 s' /\ rd uart_status s' = STATUS_IDLE.
Proof.
  apply (@uart_init_ready init_demo_env 9 9 machine_init); try reflexivity; try done; cbn; lia.
Defined.

(** The three PIO helpers set exactly the pins they are asked to set - the
    masked ones one by one, the consecutive ones in windows of five modulo 32 -
    and return with PINCTRL as they found it, whatever the mask or count. *)
Theorem pio_helpers_set_pins {E : Env} pio sm vals mask pin count is_out :
  0 <= mask < 4294967296 -> 0 <= pin < 32 -> 0 <= count ->
  sets_pins pio sm pio_pins (pio_sm_set_pins_with_mask_ pio sm vals mask)
    (fun f i => if Z.testbit mask i then Z.testbit vals i else f i) /\
  sets_pins pio sm pio_pindirs (pio_sm_set_pindirs_with_mask_ pio sm vals mask)
    (fun f i => if Z.testbit mask i then Z.testbit vals i else f i) /\
  sets_pins pio sm pio_pindirs (pio_sm_set_consecutive_pindirs_ pio sm pin count is_out)
    (fun f i => if (i - pin) mod 32 <? count then is_out else f i).
Proof.
  intros Hm Hp Hc. split; [exact (set_with_mask_sets pio sm pio_pins vals mask Hm) |].
  split; [exact (set_with_mask_sets pio sm pio_pindirs vals mask Hm) |].
  by apply consecutive_sets.
Qed.

Lemma pio_helpers_set_pins_witness :
  @sets_pins env0 0 0 pio_pins (@pio_sm_set_pins_with_mask_ env0 0 0 0x200 0x80000201)
    (fun f i => if Z.testbit 0x80000201 i then Z.testbit 0x200 i else f i) /\
  @sets_pins env0 0 0 pio_pindirs (@pio_sm_set_pindirs_with_mask_ env0 0 0 0x200 0x80000201)
    (fun f i => if Z.testbit 0x80000201 i then Z.testbit 0x200 i else f i) /\
  @sets_pins env0 0 0 pio_pindirs (@pio_sm_set_consecutive_pindirs_ env0 0 0 29 12 true)
    (fun f i => if (i - 29) mod 32 <? 12 then true else f i).
Proof. apply (@pio_helpers_set_pins env0 0 0 0x200 0x80000201 29 12 true); lia. Defined.

(** [uart_wait_high] returns after at most 50000 polls of the pin.  It
    reports success exactly when one of the first 49999 polls reads high, and
    stops at the first such poll; a line that rises only at the last permitted
    poll is still reported as a timeout. *)
Theorem uart_wait_high_bounded {E : Env} pin s :
  rd jacdac_pin s = pin -> 0 <= pin < 30 ->
  exists r p s', uart_wait_high s = Ret r s' /\ tr s' = polled pin p (tr s) /\
    (1 <= p <= Z.to_nat 50000)%nat /\ (forall i, (i < p - 1)%nat -> ~ high_at pin (tr s) i) /\
    (r = 0 /\ (p < Z.to_nat 50000)%nat /\ high_at pin (tr s) (p - 1) \/
     r = -1 /\ p = Z.to_nat 50000).
Proof.
  intros Hj Hp.
  change uart_wait_high with
    (let! pin := get jacdac_pin in
     let! timeout := loop (Z.to_nat 50001) (wait_round pin) 50000 in
     ret (if timeout <=? 0 then -1 else 0)).
  unfold bind at 1, get. rewrite Hj. remember (Z.to_nat 50000) as n eqn:Hn.
  replace (Z.to_nat 50001) with (S n) by (rewrite Hn; lia).
  replace 50000 with (Z.of_nat n) by (rewrite Hn; lia).
  destruct (wait_high_loop pin n 0 s (tr s) Hp eq_refl) as (r & p & s' & E1 & Ht & Hr & Hc);
    [intros; lia |].
  unfold bind. rewrite E1. eexists _, p, s'. split; [reflexivity |]. split; [done |].
  destruct Hc as [(-> & -> & Hlow) | (H0 & -> & Hp0 & Hhigh & Hlow)].
  - split; [lia |]. split; [intros i Hi; apply Hlow; lia |]. right. split; [done | lia].
  - split; [lia |]. split; [done |].
    destruct (Z.leb_spec (Z.of_nat (0 + n) - Z.of_nat p) 0).
    + right. split; [done | lia].
    + left. split_and!; [done | lia | done].
Qed.

(** A line that stays low: the bound is reached. *)
Lemma uart_wait_high_bounded_witness :
  exists r p s', @uart_wait_high env0 uart_demo = Ret r s' /\
    tr s' = @polled env0 9 p (tr uart_demo) /\
    (1 <= p <= Z.to_nat 50000)%nat /\
    (forall i, (i < p - 1)%nat -> ~ @high_at env0 9 (tr uart_demo) i) /\
    (r = 0 /\ (p < Z.to_nat 50000)%nat /\ @high_at env0 9 (tr uart_demo) (p - 1) \/
     r = -1 /\ p = Z.to_nat 50000).
Proof. apply (@uart_wait_high_bounded env0 9 uart_demo); [reflexivity | lia]. Defined.

(** The end of a reception: the line is released, then the runtime is told. *)
Lemma rx_done_run {E : Env} pin s : uart_inv pin s -> rd uart_status s = STATUS_RX ->
  exists s1, rx_done s = jd_rx_completed 0 s1 /\ uart_disable (wr uart_status 0 s) = Ret tt s1 /\
    uart_inv pin s1 /\ rd uart_status s1 = STATUS_IDLE.
Proof.
  rewrite uart_inv_iff. intros (h & u & p & Hc & Hs & Hcl & Hst) Hrx.
  unfold rx_done. unfold bind at 1, get at 1. rewrite Hrx.
  change (z2b (Z.land STATUS_RX STATUS_RX)) with true.
  unfold bind at 1, put at 1. unfold bind at 1.
  change (u16 (Z.land STATUS_RX (Z.lnot STATUS_RX))) with 0.
  set (s0 := wr uart_status 0 s).
  assert (at_line pin h (set_status 0 u) p s0) as Hs0.
  { destruct Hs as (? & Hu' & ? & ?). split_and!; try done. cbn. by rewrite Hu'. }
  pose proof (uart_disable_line pin (X := False) h _ p s0 (cfg_status pin 0 u p Hc) Hs0) as Hw.
  unfold runs, wpE in Hw. destruct (uart_disable s0) as [[] s1 |]; [| done].
  exists s1. split; [done |]. split; [done |]. split.
  - apply uart_inv_iff. eexists _, _, p. split_and!; [| exact Hw |]; [done |].
    by apply released_agrees.
  - destruct Hw as (_ & Hu' & _). unfold rd. cbn. by rewrite Hu'.
Qed.

(** A reception completes exactly once.  Whichever of the DMA completion
    and the break interrupt comes first releases the line, goes idle and then
    reports to the runtime; the other one, and any later one, does nothing
    until a new reception is started.  The break interrupt acts only on its own
    flag, which it acknowledges. *)
Theorem uart_rx_completes_once {E : Env} pin s (n := rd_reg (tr s) (PIO_IRQ 0)) :
  uart_inv pin s ->
  (rd uart_status s = STATUS_RX -> exists s1, rx_handler s = jd_rx_completed 0 s1 /\
     uart_inv pin s1 /\ rd uart_status s1 = STATUS_IDLE) /\
  (rd uart_status s <> STATUS_RX -> rx_handler s = Ret tt s) /\
  isr_pio0_0 s =
    (when Z.testbit n 1 do rx_handler) (emit (E_write (PIO_IRQ 0) n) (emit (E_read (PIO_IRQ 0) n) s)).
Proof.
  rewrite uart_inv_iff. intros (h & u & p & Hc & Hs & Hcl & Hst).
  assert (rd uart_status s = f_uart_status u) as Hu.
  { destruct Hs as (_ & Hu & _). unfold rd. cbn. by rewrite Hu. }
  rewrite Hu. split; [| split].
  - intros Hrx. destruct (rx_done_run pin s) as (s1 & E1 & _ & H1 & H2); [| by rewrite Hu | by exists s1].
    apply uart_inv_iff. by exists h, u, p.
  - intros Hn. unfold rx_handler, rx_done, bind, get. rewrite Hu.
    destruct Hst as [(-> & _) | [(-> & _) | (Hx & _)]]; [done | done | congruence].
  - unfold isr_pio0_0. mexec. fold n. change PIO_BREAK_IRQ with (bit 1).
    by rewrite land_bit by lia.
Qed.

Lemma uart_rx_completes_once_witness :
  let s1 := after (@uart_start_rx env0 (mem 0) 252) uart_demo in
  let n := @rd_reg env0 (tr s1) (PIO_IRQ 0) in
  (rd uart_status s1 = STATUS_RX /\ Z.testbit n 1 = true) /\
  (rd uart_status s1 = STATUS_RX -> exists s2, @rx_handler env0 s1 = @jd_rx_completed env0 0 s2 /\
     uart_inv 9 s2 /\ rd uart_status s2 = STATUS_IDLE) /\
  (rd uart_status s1 <> STATUS_RX -> @rx_handler env0 s1 = Ret tt s1) /\
  @isr_pio0_0 env0 s1 =
    (when Z.testbit n 1 do @rx_handler env0)
      (emit (E_write (PIO_IRQ 0) n) (emit (E_read (PIO_IRQ 0) n) s1)).
Proof.
  intros s1 n. split; [split; by vm_compute |].
  apply (@uart_rx_completes_once env0 9 s1).
  refine (run_inv (X := True) _ _ _ _ _ (@uart_start_rx_inv env0 9 (mem 0) 252 uart_demo uart_demo_inv _) _);
    vm_compute; reflexivity.
Defined.

(** C27: at the end of a transmission the handler waits for the transmitter to
    stall - and if it ever does, it goes on - then takes the pin over as a
    high output and sends the final break, at least 12 us low, before it
    releases the line and reports completion. *)
Theorem tx_handler_sends_break {E : Env} now64 (CK : ClockOk now64) k pin s
    (t0 := E_write (PIO_FDEBUG 0) (bit 24) :: tr s) :
  progress now64 k -> (k * 12 + 2 <= fuel)%nat -> uart_ready pin s ->
  (exists n, (n < fuel)%nat /\ stalled_at t0 n) ->
  exists m s1 e1 e2 e3, tx_handler s = (uart_disable ;; jd_tx_completed 0) s1 /\
    m_uart s1 = m_uart s /\ stalled_at t0 m /\ (forall i, (i < m)%nat -> ~ stalled_at t0 i) /\
    tr s1 = E_call (gpio_put pin 1) :: e3 ++ E_call (gpio_put pin 0)
            :: e2 ++ e1 ++ E_call (gpio_put pin 1) :: reads (PIO_FDEBUG 0) (S m) t0 /\
    let t1 := E_call (gpio_put pin 0) :: e2 ++ e1 ++ E_call (gpio_put pin 1)
                :: reads (PIO_FDEBUG 0) (S m) t0 in
    now64 t1 + 12 <= now64 (e3 ++ t1).
Proof.
  intros Hk Hf (Hp & Hj & Htx & _) (n & Hn & Hst).
  change tx_handler with
    (let! sm := get smtx in
     let! m := c_shl1 (PIO_FDEBUG_TXSTALL_LSB + sm) in
     PIO_FDEBUG pio0 <-~ m ;;
     while_ fuel stall_cond (ret tt) ;;
     let! pin := get jacdac_pin in
     pin_set pin 1 ;; pin_setup_output pin ;; pin_setup_output_af pin GPIO_FUNC_SIO ;;
     target_wait_us 1 ;; pin_set pin 0 ;; target_wait_us 12 ;; pin_set pin 1 ;;
     uart_disable ;; jd_tx_completed 0).
  unfold bind at 1, get at 1. rewrite Htx. unfold bind at 1.
  rewrite shl1_run by (unfold PIO_FDEBUG_TXSTALL_LSB; lia).
  unfold setreg at 1, log at 1, bind at 1. set (s0 := emit _ s).
  destruct (stall_loop t0 fuel 0 s0) as (m & E1 & _ & Hm & Hlo); [done | done | exists n; split; [lia | done] |].
  unfold bind at 1. rewrite E1. set (s1 := upd_tr _ s0).
  assert (rd jacdac_pin s1 = pin /\ m_uart s1 = m_uart s) as (H1 & H2) by done.
  unfold bind at 1, get at 1. rewrite H1. unfold bind at 1. rewrite pin_set_run by done.
  unfold pin_setup_output, pin_setup_output_af, gpio_set_function_. rewrite !valid_pin by done.
  cbn [negb]. unfold bind at 1 2, sdk at 1, log at 1. unfold bind at 1, sdk at 1, log at 1.
  unfold setreg at 1, log at 1. unfold bind at 1 2, sdk at 1, log at 1. unfold setreg at 1, log at 1.
  match goal with |- context [bind (target_wait_us 1) _ ?x] => set (s2 := x) end.
  destruct (target_wait_us_run now64 k 1 s2) as (w1 & W1 & _); [done | lia | lia | reflexivity |].
  unfold bind at 1. rewrite W1. unfold bind at 1. rewrite pin_set_run by done.
  set (s3 := emit _ (upd_tr _ s2)).
  destruct (target_wait_us_run now64 k 12 s3) as (w2 & W2 & T2); [done | lia | lia | reflexivity |].
  unfold bind at 1. rewrite W2. unfold bind at 1. rewrite pin_set_run by done.
  eexists m, _, [_; _; _; _; _], w1, w2. split; [reflexivity |].
  split_and!; try done. intros i Hi. apply Hlo. lia.
Qed.

(** The transmitter stalls at the third poll. *)
Definition stall_demo_env : Env :=
  phys_env (fun t r => if decide (r = PIO_FDEBUG 0)
                       then Some (if 4 <=? Z.of_nat (length t) then bit 24 else 0) else None)
    (fun _ _ => 0).

Lemma stall_demo_clock : @ClockOk stall_demo_env (ref_clock 0).
Proof. constructor; unfold ref_clock, TICK; intros; cbn [length]; try done; lia. Qed.

Lemma tx_handler_sends_break_witness :
  let t0 := E_write (PIO_FDEBUG 0) (bit 24) :: tr uart_demo in
  exists m s1 e1 e2 e3,
    @tx_handler stall_demo_env uart_demo =
      (uart_disable ;; @jd_tx_completed stall_demo_env 0) s1 /\
    m_uart s1 = m_uart uart_demo /\ @stalled_at stall_demo_env t0 m /\
    (forall i, (i < m)%nat -> ~ @stalled_at stall_demo_env t0 i) /\
    tr s1 = E_call (gpio_put 9 1) :: e3 ++ E_call (gpio_put 9 0)
            :: e2 ++ e1 ++ E_call (gpio_put 9 1) :: @reads stall_demo_env (PIO_FDEBUG 0) (S m) t0 /\
    let t1 := E_call (gpio_put 9 0) :: e2 ++ e1 ++ E_call (gpio_put 9 1)
                :: @reads stall_demo_env (PIO_FDEBUG 0) (S m) t0 in
    ref_clock 0 t1 + 12 <= ref_clock 0 (e3 ++ t1).
Proof.
  apply (@tx_handler_sends_break stall_demo_env (ref_clock 0) stall_demo_clock 1 9 uart_demo);
    [intros u es Hes; unfold ref_clock; rewrite length_app, Hes; lia | vm_compute; lia
    | apply uart_demo_inv |].
  exists 2%nat. split; [vm_compute; lia | reflexivity].
Defined.
