(* ===== verification/Pio.v ===== *)
(** * Pio: the two state-machine programs of [sws.pio]

    The bus is driven by two programs for the PIO block.  This file models the
    instructions the programs use, one clock cycle of a state machine at a
    time, as the RP2040 defines them, and the programs as [sws.pio] has them.
    What the C code configures is read off the configuration that
    [jd_tx_program_init] and [jd_rx_program_init] of [uart.c] load: the term of
    SDK calls is evaluated to the fields it sets. *)

From S2P Require Import Prelude Events Machine RefEnv Uart.

(** ** Definitions *)

(** *** Instructions *)

Inductive pio_cond := ALWAYS | X_DEC | PIN_HIGH.

(** [PULL] is the blocking form; [OUT_PIN] and [IN_PIN] move one bit; [WAIT_PIN]
    waits for the input pin to have a level; [IRQ_SET] does not wait; [NOP] is
    [mov y, y]. *)
Inductive pio_op :=
| PULL
| SET_X (v : Z)
| OUT_PIN
| IN_PIN
| JMP (c : pio_cond) (target : nat)
| WAIT_PIN (level : bool)
| IRQ_SET (n : Z)
| NOP.

(** An instruction with its optional side-set and its delay. *)
Record pio_ins := mkIns { op : pio_op; side : option bool; cycles : nat }.

(** *** [sws.pio] *)

Definition jd_tx : list pio_ins := [
  mkIns PULL (Some true) 7;
  mkIns (SET_X 7) (Some false) 7;
  (* bitloop: *)
  mkIns OUT_PIN None 0;
  mkIns (JMP X_DEC 2) None 6 ].

Definition jd_rx : list pio_ins := [
  (* start: *)
  mkIns (WAIT_PIN false) None 0;
  mkIns (SET_X 7) (Some false) 7;
  mkIns NOP None 1;
  (* bitloop: *)
  mkIns IN_PIN (Some true) 0;
  mkIns NOP (Some false) 0;
  mkIns (JMP X_DEC 3) None 5;
  mkIns (JMP PIN_HIGH 10) (Some true) 0;
  mkIns (IRQ_SET 1) (Some false) 0;
  mkIns (WAIT_PIN true) None 0;
  mkIns (JMP ALWAYS 0) (Some true) 0;
  (* good_stop: *)
  mkIns NOP None 0 ].

(** *** Configuration *)

Record sm_cfg := mkCfg {
  code : list pio_ins;
  out_right : bool; autopull : bool; pull_thresh : Z;
  in_right : bool; autopush : bool; push_thresh : Z
}.

(** The fields that the SDK calls set; the pins are those of the bus. *)
Fixpoint cfg_of (c : pio_sm_config) : sm_cfg :=
  match c with
  | pio_get_default_sm_config => mkCfg [] true false 32 true false 32
  | jd_tx_program_get_default_config _ => mkCfg jd_tx true false 32 true false 32
  | jd_rx_program_get_default_config _ => mkCfg jd_rx true false 32 true false 32
  | sm_config_set_out_shift c r a n =>
    let k := cfg_of c in mkCfg (code k) r a n (in_right k) (autopush k) (push_thresh k)
  | sm_config_set_in_shift c r a n =>
    let k := cfg_of c in mkCfg (code k) (out_right k) (autopull k) (pull_thresh k) r a n
  | sm_config_set_out_pins c _ _ | sm_config_set_in_pins c _ | sm_config_set_jmp_pin c _
  | sm_config_set_sideset_pins c _ | sm_config_set_fifo_join c _ | sm_config_set_clkdiv c _ _ => cfg_of c
  end.

(** The configuration a state machine was last given. *)
Fixpoint loaded (pio sm : Z) (t : trace) : option pio_sm_config :=
  match t with
  | [] => None
  | E_call (pio_sm_set_config p m c) :: t => if (p =? pio) && (m =? sm) then Some c else loaded pio sm t
  | _ :: t => loaded pio sm t
  end.

(** *** One cycle *)

(** Registers of a state machine: program counter, scratch register X, the two
    shift registers with their counts, the delay cycles left, and the level it
    drives. *)
Record sm := mkSm {
  pc : nat; X : Z; osr : Z; osr_cnt : Z; isr : Z; isr_cnt : Z; delay : nat; driven : bool
}.

(** What it sees: the level of the pin, the word at the head of the transmit
    FIFO, and whether the receive FIFO has room. *)
Record sm_in := mkIn { level : bool; tx_head : option Z; rx_room : bool }.

(** What it does: take that word, append one to the receive FIFO, raise a flag,
    or wait. *)
Record sm_out := mkOut { popped : bool; pushed : option Z; raised : option Z; stalled : bool }.
Definition quiet_cycle : sm_out := mkOut false None None false.
Definition stall_cycle : sm_out := mkOut false None None true.

(** The program wraps around at its end. *)
Definition next_pc (k : sm_cfg) (s : sm) : nat := if (S (pc s) =? length (code k))%nat then O else S (pc s).

Definition at_pc (n : nat) (s : sm) : sm :=
  mkSm n (X s) (osr s) (osr_cnt s) (isr s) (isr_cnt s) (delay s) (driven s).
Definition set_X (v : Z) (s : sm) : sm :=
  mkSm (pc s) v (osr s) (osr_cnt s) (isr s) (isr_cnt s) (delay s) (driven s).
Definition set_osr (v n : Z) (s : sm) : sm :=
  mkSm (pc s) (X s) v n (isr s) (isr_cnt s) (delay s) (driven s).
Definition set_isr (v n : Z) (s : sm) : sm :=
  mkSm (pc s) (X s) (osr s) (osr_cnt s) v n (delay s) (driven s).
Definition set_delay (n : nat) (s : sm) : sm :=
  mkSm (pc s) (X s) (osr s) (osr_cnt s) (isr s) (isr_cnt s) n (driven s).
Definition drive (b : bool) (s : sm) : sm :=
  mkSm (pc s) (X s) (osr s) (osr_cnt s) (isr s) (isr_cnt s) (delay s) b.

(** Executing an operation: the next registers, what happened, and whether the
    instruction is complete (otherwise it is executed again). *)
Definition exec (k : sm_cfg) (o : pio_op) (i : sm_in) (s : sm) : sm * sm_out * bool :=
  match o with
  | PULL =>
    match tx_head i with
    | Some w => (at_pc (next_pc k s) (set_osr w 0 s), mkOut true None None false, true)
    | None => (s, stall_cycle, false)
    end
  | SET_X v => (at_pc (next_pc k s) (set_X v s), quiet_cycle, true)
  | OUT_PIN =>
    if autopull k && (pull_thresh k <=? osr_cnt s) then
      match tx_head i with
      | Some w => (set_osr w 0 s, mkOut true None None true, false)
      | None => (s, stall_cycle, false)
      end
    else
      let b := if out_right k then Z.testbit (osr s) 0 else Z.testbit (osr s) 31 in
      let v := if out_right k then Z.shiftr (osr s) 1 else u32 (Z.shiftl (osr s) 1) in
      (at_pc (next_pc k s) (drive b (set_osr v (osr_cnt s + 1) s)), quiet_cycle, true)
  | IN_PIN =>
    (* a full count means that the shifted word still waits for room *)
    let waiting := autopush k && (push_thresh k <=? isr_cnt s) in
    let bit := bool_to_bit (level i) in
    let v := if waiting then isr s
             else if in_right k then Z.lor (Z.shiftr (isr s) 1) (Z.shiftl bit 31)
             else Z.lor (u32 (Z.shiftl (isr s) 1)) bit in
    let n := if waiting then isr_cnt s else isr_cnt s + 1 in
    if autopush k && (push_thresh k <=? n) then
      if rx_room i then (at_pc (next_pc k s) (set_isr 0 0 s), mkOut false (Some v) None false, true)
      else (set_isr v n s, stall_cycle, false)
    else (at_pc (next_pc k s) (set_isr v n s), quiet_cycle, true)
  | JMP c target =>
    let taken := match c with ALWAYS => true | X_DEC => negb (X s =? 0) | PIN_HIGH => level i end in
    let s := match c with X_DEC => set_X (u32 (X s - 1)) s | _ => s end in
    (at_pc (if taken : bool then target else next_pc k s) s, quiet_cycle, true)
  | WAIT_PIN b => if Bool.eqb (level i) b then (at_pc (next_pc k s) s, quiet_cycle, true) else (s, stall_cycle, false)
  | IRQ_SET n => (at_pc (next_pc k s) s, mkOut false None (Some n) false, true)
  | NOP => (at_pc (next_pc k s) s, quiet_cycle, true)
  end.

(** The side-set takes effect in the first cycle of an instruction, also of one
    that has to wait; the delay follows its completion. *)
Definition cycle (k : sm_cfg) (i : sm_in) (s : sm) : sm * sm_out :=
  match delay s with
  | S d => (set_delay d s, quiet_cycle)
  | O =>
    match code k !! pc s with
    | None => (s, stall_cycle)
    | Some ins =>
      let '(s1, out, complete) := exec k (op ins) i s in
      let s1 := if complete : bool then set_delay (cycles ins) s1 else s1 in
      (match side ins with Some b => drive b s1 | None => s1 end, out)
    end
  end.

(** *** Runs *)

(** A transmitter: in every cycle DMA may append words to the FIFO.  The result
    is the level driven in each cycle, and what is left. *)
Fixpoint tx_run (k : sm_cfg) (feeds : list (list Z)) (s : sm) (fifo : list Z) : list bool * (sm * list Z) :=
  match feeds with
  | [] => ([], (s, fifo))
  | f :: feeds =>
    let fifo := fifo ++ f in
    let '(s, out) := cycle k (mkIn true (head fifo) true) s in
    let fifo := if popped out then tail fifo else fifo in
    let '(ls, r) := tx_run k feeds s fifo in
    (driven s :: ls, r)
  end.

(** A receiver whose FIFO is drained in time: the words it received and the
    flags it raised. *)
Fixpoint rx_run (k : sm_cfg) (levels : list bool) (s : sm) : list Z * list Z * sm :=
  match levels with
  | [] => ([], [], s)
  | l :: levels =>
    let '(s, out) := cycle k (mkIn l None true) s in
    let '(ws, irqs, s) := rx_run k levels s in
    (option_list (pushed out) ++ ws, option_list (raised out) ++ irqs, s)
  end.

(** *** What travels on the line *)

(** A byte as the transmitter sends it: eight cycles of stop bit (or idle), of
    start bit, and of every data bit, lowest first. *)
Definition data_levels (w : Z) : list bool :=
  concat (map (fun i => replicate 8 (Z.testbit w i)) [0; 1; 2; 3; 4; 5; 6; 7]).
Definition byte_levels (w : Z) : list bool := replicate 8 true ++ replicate 8 false ++ data_levels w.

(** The line while [ws] are sent, with any pauses before, between and after. *)
Inductive wave : list Z -> list bool -> Prop :=
| wave_nil : wave [] []
| wave_idle ws ls : wave ws ls -> wave ws (true :: ls)
| wave_byte w ws ls : wave ws ls -> wave (w :: ws) (byte_levels w ++ ls).

(** ** The configurations the firmware loads *)

Definition tx_cfg : sm_cfg := mkCfg jd_tx true false 32 true false 32.
Definition rx_cfg : sm_cfg := mkCfg jd_rx true false 32 true true 8.

(** ** The transmitter *)

(** Waiting for a word. *)
Definition tx_idle (s : sm) : Prop := pc s = O /\ delay s = O.

Lemma tx_run_app k f1 f2 s q :
  tx_run k (f1 ++ f2) s q =
  (fst (tx_run k f1 s q) ++ fst (tx_run k f2 (fst (snd (tx_run k f1 s q))) (snd (snd (tx_run k f1 s q)))),
   snd (tx_run k f2 (fst (snd (tx_run k f1 s q))) (snd (snd (tx_run k f1 s q))))).
Proof.
  revert s q. induction f1 as [| f f1 IH]; intros s q; cbn [app tx_run].
  { cbn [fst snd app]. by destruct (tx_run k f2 s q) as [ls r]. }
  destruct (cycle k _ s) as [s1 out]. rewrite (IH s1 _).
  by destruct (tx_run k f1 s1 _) as [ls1 [s2 q2]].
Qed.

(** Nothing to send: the line idles high. *)
Lemma tx_idle_cycle s : tx_idle s ->
  cycle tx_cfg (mkIn true None true) s = (drive true s, stall_cycle).
Proof. intros [Hp Hd]. unfold cycle. rewrite Hd. cbn [code tx_cfg]. by rewrite Hp. Qed.

(** Away from [PULL] a cycle does not look at the FIFO. *)
Lemma tx_busy_cycle s h : pc s <> O \/ delay s <> O ->
  cycle tx_cfg (mkIn true h true) s = cycle tx_cfg (mkIn true None true) s /\
  popped (snd (cycle tx_cfg (mkIn true h true) s)) = false.
Proof.
  intros Hb. unfold cycle. destruct (delay s) as [| d] eqn:Hd; [| done]. destruct Hb as [Hb | []]; [| done].
  cbn [code tx_cfg]. destruct (pc s) as [| [| [| [| n]]]]; try done; cbn; by destruct (X s =? 0).
Qed.

(** [n] cycles in which the FIFO is not looked at. *)
Fixpoint core_run (n : nat) (s : sm) : list bool * sm :=
  match n with
  | O => ([], s)
  | S n => let s := fst (cycle tx_cfg (mkIn true None true) s) in
           let '(ls, s') := core_run n s in (driven s :: ls, s')
  end.
Fixpoint busy (n : nat) (s : sm) : Prop :=
  match n with
  | O => True
  | S n => (pc s <> O \/ delay s <> O) /\ busy n (fst (cycle tx_cfg (mkIn true None true) s))
  end.

Lemma busy_run n s feeds q : busy n s -> length feeds = n ->
  tx_run tx_cfg feeds s q = (fst (core_run n s), (snd (core_run n s), q ++ concat feeds)).
Proof.
  revert s feeds q. induction n as [| n IH]; intros s feeds q Hb Hl.
  { apply length_zero_iff_nil in Hl as ->. cbn. by rewrite app_nil_r. }
  destruct feeds as [| f feeds]; [done |]. destruct Hb as [Hb Hn]. cbn [tx_run core_run].
  destruct (tx_busy_cycle s (head (q ++ f)) Hb) as [E1 E2]. rewrite E1 in E2 |- *.
  destruct (cycle tx_cfg (mkIn true None true) s) as [s1 out]. cbn [fst snd] in *. rewrite E2.
  rewrite (IH s1 feeds (q ++ f)) by (done || by injection Hl).
  destruct (core_run n s1) as [ls s2]. cbn. by rewrite <- app_assoc.
Qed.

Lemma core_run_app n m s :
  core_run (n + m) s = (fst (core_run n s) ++ fst (core_run m (snd (core_run n s))), snd (core_run m (snd (core_run n s)))).
Proof.
  revert s. induction n as [| n IH]; intros s; cbn [Nat.add core_run fst snd app]; [by destruct (core_run m s) |].
  rewrite IH. by destruct (core_run n _).
Qed.
Lemma busy_app n m s : busy n s -> busy m (snd (core_run n s)) -> busy (n + m) s.
Proof.
  revert s. induction n as [| n IH]; intros s; [done |]. cbn [Nat.add busy core_run].
  intros [H1 H2] H3. split; [done |]. apply IH; [done |]. by destruct (core_run n _).
Qed.

(** One bit: eight cycles, then the next bit or the wait for a word. *)
Definition at_bit (x o c : Z) (s : sm) (d : bool) : sm := mkSm 2 x o c (isr s) (isr_cnt s) 0 d.

Lemma bit_run (i : nat) o c s d : (i < 8)%nat ->
  let x := Z.of_nat i in
  core_run 8 (at_bit x o c s d) =
    (replicate 8 (Z.testbit o 0),
     if x =? 0 then mkSm 0 (u32 (-1)) (Z.shiftr o 1) (c + 1) (isr s) (isr_cnt s) 0 (Z.testbit o 0)
     else at_bit (x - 1) (Z.shiftr o 1) (c + 1) s (Z.testbit o 0)) /\
  busy 8 (at_bit x o c s d).
Proof.
  intros Hi. do 8 (destruct i as [| i]; [split; [reflexivity | cbn; intuition discriminate] |]). lia.
Qed.

(** The data bits from bit [i] on. *)
Lemma bits_run (n : nat) w o c s d : (n < 8)%nat -> o = Z.shiftr w (7 - Z.of_nat n) ->
  exists s', core_run (8 * S n) (at_bit (Z.of_nat n) o c s d) =
    (concat (map (fun i => replicate 8 (Z.testbit w i)) (seqZ_from (7 - Z.of_nat n) (S n))), s') /\
    tx_idle s' /\ busy (8 * S n) (at_bit (Z.of_nat n) o c s d).
Proof.
  revert o c d. induction n as [| n IH]; intros o c d Hn Ho; destruct (bit_run _ o c s d Hn) as [E1 B1];
    cbv zeta in E1.
  - cbn [Z.of_nat] in *. rewrite Ho, Z.shiftr_spec in E1 by lia. rewrite <- Ho in E1.
    eexists. split; [cbn [seqZ_from map concat]; rewrite app_nil_r; exact E1 | by split].
  - rewrite (proj2 (Z.eqb_neq (Z.of_nat (S n)) 0)) in E1 by lia.
    replace (Z.of_nat (S n) - 1) with (Z.of_nat n) in E1 by lia.
    destruct (IH (Z.shiftr o 1) (c + 1) (Z.testbit o 0)) as (s' & E2 & Hi & B2); [lia | |].
    { subst o. rewrite Z.shiftr_shiftr by lia. f_equal. lia. }
    exists s'. replace (8 * S (S n))%nat with (8 + 8 * S n)%nat by lia. split; [| split; [done |]].
    + rewrite core_run_app, E1. cbn [fst snd]. rewrite E2. cbn [fst snd].
      rewrite Ho at 1. rewrite Z.shiftr_spec by lia.
      change (seqZ_from (7 - Z.of_nat (S n)) (S (S n))) with
        (7 - Z.of_nat (S n) :: seqZ_from (7 - Z.of_nat (S n) + 1) (S n)).
      replace (7 - Z.of_nat (S n) + 1) with (7 - Z.of_nat n) by lia. reflexivity.
    + apply busy_app; [done |]. by rewrite E1.
Qed.

Lemma tail_app {A} (l r : list A) a : head l = Some a -> tail (l ++ r) = tail l ++ r.
Proof. by destruct l. Qed.

(** Taking a word: eighty cycles in which the FIFO is looked at once. *)
Lemma tx_taken w s : tx_idle s -> exists s1 s',
  cycle tx_cfg (mkIn true (Some w) true) s = (s1, mkOut true None None false) /\
  busy (15 + 8 * 8) s1 /\ core_run (15 + 8 * 8) s1 = (tail (byte_levels w), s') /\ driven s1 = true /\ tx_idle s'.
Proof.
  intros [Hp Hd]. set (s1 := mkSm 1 (X s) w 0 (isr s) (isr_cnt s) 7 true). set (s2 := at_bit 7 w 0 s false).
  assert (core_run 15 s1 = (replicate 7 true ++ replicate 8 false, s2)) as E1 by reflexivity.
  assert (busy 15 s1) as B1 by (cbn; intuition discriminate).
  destruct (bits_run 7 w w 0 s false) as (s' & E2 & Hi & B2); [lia | by rewrite Z.shiftr_0_r |].
  change (core_run (8 * 8) s2 = (data_levels w, s')) in E2. change (busy (8 * 8) s2) in B2.
  exists s1, s'. split; [destruct s; cbn in Hp, Hd; by subst |].
  split; [apply busy_app; [exact B1 | rewrite E1; exact B2] |].
  rewrite core_run_app, E1. cbn [fst snd]. rewrite E2. cbn [fst snd].
  assert (tail (byte_levels w) = (replicate 7 true ++ replicate 8 false) ++ data_levels w) as -> by reflexivity.
  exact (conj eq_refl (conj eq_refl Hi)).
Qed.

(** A word that has been taken is sent, whatever is queued meanwhile. *)
Lemma tx_byte w s feeds q : tx_idle s -> length feeds = 80%nat -> head (q ++ hd [] feeds) = Some w ->
  exists s', tx_run tx_cfg feeds s q = (byte_levels w, (s', tail (q ++ concat feeds))) /\ tx_idle s'.
Proof.
  intros Hi Hl Hh. destruct feeds as [| f feeds]; [done |]. cbn [hd] in Hh. cbn [tx_run]. rewrite Hh.
  destruct (tx_taken w s Hi) as (s1 & s' & -> & B & Eb & Hb & Hi'). cbn [popped].
  rewrite (busy_run _ _ _ _ B), Eb, Hb by (cbn [length] in Hl; lia). exists s'. split; [| exact Hi']. cbn [fst snd].
  assert (byte_levels w = true :: tail (byte_levels w)) as -> by reflexivity.
  assert (tail (q ++ concat (f :: feeds)) = tail (q ++ f) ++ concat feeds) as ->; [| reflexivity].
  cbn [concat]. rewrite app_assoc. exact (tail_app _ _ _ Hh).
Qed.

Lemma concat_replicate_nil {A} n : concat (replicate n ([] : list A)) = [].
Proof. induction n; [done | assumption]. Qed.

(** One idle cycle. *)
Lemma tx_idle_run s feeds : tx_idle s ->
  tx_run tx_cfg ([] :: feeds) s [] =
  (true :: fst (tx_run tx_cfg feeds (drive true s) []), snd (tx_run tx_cfg feeds (drive true s) [])).
Proof.
  intros Hi. cbn [tx_run app head]. rewrite tx_idle_cycle by done. cbn [popped stall_cycle].
  by destruct (tx_run tx_cfg feeds (drive true s) []).
Qed.

(** The schedule, cut after eighty cycles. *)
Lemma feeds_cut w A m q (R := replicate m ([] : list Z)) :
  head (q ++ hd [] (A ++ R)) = Some w -> (80 <= length A + m)%nat ->
  A ++ R = take 80 (A ++ R) ++ (drop 80 A ++ replicate (m - (80 - length A)) []) /\
  length (take 80 (A ++ R)) = 80%nat /\ concat (take 80 (A ++ R)) = concat (take 80 A) /\
  q ++ concat A = w :: tail (q ++ concat (take 80 A)) ++ concat (drop 80 A).
Proof.
  intros Hh Hm. split_and!.
  - rewrite <- (take_drop 80 (A ++ R)) at 1. f_equal. rewrite drop_app. f_equal. unfold R. apply drop_replicate.
  - rewrite length_take, length_app. unfold R. rewrite length_replicate. lia.
  - rewrite take_app, concat_app. unfold R. by rewrite take_replicate, concat_replicate_nil, app_nil_r.
  - rewrite <- (take_drop 80 A) at 1. rewrite concat_app, app_assoc.
    assert (head (q ++ concat (take 80 A)) = Some w) as Hw.
    { destruct q as [| a q]; [| done]. destruct A as [| f A]; [unfold R in Hh; by destruct m |].
      cbn in Hh |- *. by destruct f. }
    destruct (q ++ concat (take 80 A)) as [| a l]; [done |]. cbn in Hw |- *. congruence.
Qed.

(** Whatever the schedule on which DMA delivers the words: if it leaves time to
    send them, they are sent, in order. *)
Lemma tx_sends n A m s q : (length A + m <= n)%nat -> tx_idle s ->
  (80 * length (q ++ concat A) <= m)%nat ->
  exists ls s', tx_run tx_cfg (A ++ replicate m []) s q = (ls, (s', [])) /\ tx_idle s' /\ wave (q ++ concat A) ls.
Proof.
  revert A m s q. induction n as [| n IH]; intros A m s q Hn Hi Hm.
  { destruct A; [| cbn in Hn; lia]. assert (m = 0%nat) as -> by lia. destruct q; [| cbn in Hm; lia].
    exists [], s. split; [done |]. split; [done | constructor]. }
  set (R := replicate m ([] : list Z)).
  destruct (head (q ++ hd [] (A ++ R))) as [w |] eqn:Hh.
  - (* a word is there: eighty cycles later it has been sent *)
    assert (80 <= length A + m)%nat as H80.
    { assert (1 <= length (q ++ concat A))%nat; [| lia]. destruct q as [| a q]; [| cbn; lia].
      destruct A as [| f A]; [unfold R in Hh; by destruct m |]. cbn in Hh |- *. destruct f; [done | cbn; lia]. }
    destruct (feeds_cut w A m q Hh H80) as (Ec & Hl & Hcat & Hq). fold R in Ec, Hl, Hcat.
    set (q1 := tail (q ++ concat (take 80 A))) in *. rewrite Hq in Hm |- *. cbn [length] in Hm. rewrite Ec.
    destruct (tx_byte w s (take 80 (A ++ R)) q Hi Hl) as (s1 & E1 & Hi1).
    { rewrite <- Hh. do 2 f_equal. by destruct (A ++ R). }
    rewrite tx_run_app, E1, Hcat. cbn [fst snd]. fold q1.
    destruct (IH (drop 80 A) (m - (80 - length A))%nat s1 q1) as (ls & s' & E2 & Hi' & Hwv);
      [rewrite length_drop; lia | done | lia |].
    rewrite E2. exists (byte_levels w ++ ls), s'. split; [done |]. split; [done |]. by constructor.
  - (* nothing is there: an idle cycle *)
    assert (q = []) as -> by (by destruct q). cbn [app] in Hh, Hm |- *.
    destruct A as [| f A].
    + destruct m as [| m]; [exists [], s; split; [done | split; [done | constructor]] |].
      cbn [app] in *. unfold R. cbn [replicate]. rewrite tx_idle_run by done.
      destruct (IH [] m (drive true s) []) as (ls & s' & E2 & Hi' & Hwv); [cbn in *; lia | done | cbn; lia |].
      cbn [app] in E2. rewrite E2. exists (true :: ls), s'. split; [done |]. split; [done |]. by constructor.
    + cbn in Hh. assert (f = []) as -> by (by destruct f). cbn [app]. rewrite tx_idle_run by done.
      destruct (IH A m (drive true s) []) as (ls & s' & E2 & Hi' & Hwv); [cbn in *; lia | done | exact Hm |].
      unfold R. rewrite E2. exists (true :: ls), s'. split; [done |]. split; [done |]. by constructor.
Qed.

(** *** Stalls *)

(** The state after [n] of [n + S m] busy cycles. *)
Lemma busy_at n m s : busy (n + S m) s ->
  busy n s /\ (pc (snd (core_run n s)) <> O \/ delay (snd (core_run n s)) <> O).
Proof.
  revert s. induction n as [| n IH]; intros s; cbn [Nat.add busy core_run snd]; [by intros [H _] |].
  intros [H1 [H2 H3]%IH]. split; [done |]. by destruct (core_run n _).
Qed.

(** In its program the transmitter can only stall at [PULL]. *)
Lemma pc_bound i s : (pc s < 4)%nat -> (pc (fst (cycle tx_cfg i s)) < 4)%nat.
Proof.
  intros Hp. unfold cycle. destruct (delay s); [| done]. cbn [code tx_cfg].
  destruct (pc s) as [| [| [| [| n]]]] eqn:E; try lia; cbn [lookup list_lookup op side cycles jd_tx exec];
    unfold next_pc; cbn [code tx_cfg autopull andb]; rewrite ?E.
  - destruct (tx_head i); cbn; lia.
  - cbn. lia.
  - cbn. lia.
  - destruct (negb _); cbn; rewrite ?E; cbn; lia.
Qed.
Lemma pc_run feeds s q : (pc s < 4)%nat -> (pc (fst (snd (tx_run tx_cfg feeds s q))) < 4)%nat.
Proof.
  revert s q. induction feeds as [| f feeds IH]; intros s q Hp; cbn [tx_run]; [done |].
  pose proof (pc_bound (mkIn true (head (q ++ f)) true) s Hp) as H1.
  destruct (cycle tx_cfg _ s) as [s1 out]. specialize (IH s1 (if popped out then tail (q ++ f) else q ++ f) H1).
  by destruct (tx_run tx_cfg feeds s1 _) as [ls r].
Qed.
Lemma stalled_idle i s : (pc s < 4)%nat -> stalled (snd (cycle tx_cfg i s)) = true -> tx_idle s /\ tx_head i = None.
Proof.
  intros Hp. unfold cycle, tx_idle. destruct (delay s); [| done]. cbn [code tx_cfg].
  destruct (pc s) as [| [| [| [| n]]]] eqn:E; try lia; cbn [lookup list_lookup op side cycles jd_tx exec].
  - by destruct (tx_head i).
  - done.
  - done.
  - done.
Qed.

(** A run that ends idle with an empty FIFO has sent everything. *)
Lemma idle_sent n feeds s q : (length feeds <= n)%nat -> tx_idle s ->
  tx_idle (fst (snd (tx_run tx_cfg feeds s q))) -> snd (snd (tx_run tx_cfg feeds s q)) = [] ->
  wave (q ++ concat feeds) (fst (tx_run tx_cfg feeds s q)).
Proof.
  revert feeds s q. induction n as [| n IH]; intros feeds s q Hn Hi.
  { destruct feeds; [| cbn in Hn; lia]. cbn. intros _ ->. constructor. }
  destruct (head (q ++ hd [] feeds)) as [w |] eqn:Hh.
  - destruct (Nat.le_gt_cases 80 (length feeds)) as [Hl | Hl].
    + (* a whole byte *)
      destruct (tx_byte w s (take 80 feeds) q Hi) as (s1 & E1 & H1);
        [rewrite length_take; lia | by destruct feeds |].
      rewrite <- (take_drop 80 feeds). rewrite tx_run_app, E1. cbn [fst snd]. intros H2 H3.
      specialize (IH (drop 80 feeds) s1 (tail (q ++ concat (take 80 feeds)))). rewrite length_drop in IH.
      specialize (IH ltac:(lia) H1 H2 H3). rewrite concat_app, app_assoc.
      assert (head (q ++ concat (take 80 feeds)) = Some w) as Hw.
      { destruct q as [| a q]; [| done]. destruct feeds as [| f feeds]; [done |]. cbn in Hh |- *. by destruct f. }
      destruct (q ++ concat (take 80 feeds)) as [| a l]; [done |]. cbn in Hw, IH |- *. injection Hw as ->. by constructor.
    + (* in the middle of a byte *)
      intros [Hp Hd] Hq. exfalso. destruct feeds as [| f feeds]; [cbn in Hq; by rewrite Hq in Hh |].
      cbn [hd] in Hh. clear Hq. revert Hp Hd. cbn [tx_run]. rewrite Hh. destruct (tx_taken w s Hi) as (s1 & s' & -> & B & _). cbn [popped length] in *.
      replace (15 + 8 * 8)%nat with (length feeds + S (78 - length feeds))%nat in B by lia. apply busy_at in B as [B1 B2].
      rewrite (busy_run _ _ _ _ B1) by done. cbn [fst snd]. intros Hp Hd. by destruct B2.
  - (* an idle cycle *)
    assert (q = []) as -> by (by destruct q). destruct feeds as [| f feeds]; [intros; constructor |].
    cbn in Hh. assert (f = []) as -> by (by destruct f). rewrite tx_idle_run by done. cbn [fst snd]. intros H2 H3.
    cbn [app concat length] in *. constructor. apply (IH feeds (drive true s) []); [lia | done | done | done].
Qed.

(** ** The receiver *)

Lemma rx_run_app k l1 l2 s :
  rx_run k (l1 ++ l2) s =
  let '(w1, i1, s1) := rx_run k l1 s in
  let '(w2, i2, s2) := rx_run k l2 s1 in (w1 ++ w2, i1 ++ i2, s2).
Proof.
  revert s. induction l1 as [| l l1 IH]; intros s; cbn [app rx_run].
  { by destruct (rx_run k l2 s) as [[w i] s']. }
  destruct (cycle k _ s) as [s1 out]. rewrite IH.
  destruct (rx_run k l1 s1) as [[w1 i1] s2]. destruct (rx_run k l2 s2) as [[w2 i2] s3].
  by rewrite !app_assoc.
Qed.

Lemma rx_run_seq k l1 l2 s w1 i1 s1 w2 i2 s2 :
  rx_run k l1 s = (w1, i1, s1) -> rx_run k l2 s1 = (w2, i2, s2) ->
  rx_run k (l1 ++ l2) s = (w1 ++ w2, i1 ++ i2, s2).
Proof. intros E1 E2. by rewrite rx_run_app, E1, E2. Qed.

(** Shifting the samples of a byte in from the left; the byte they spell. *)
Definition shift_in (v : Z) (l : bool) : Z := Z.lor (Z.shiftr v 1) (Z.shiftl (bool_to_bit l) 31).
Definition rx_word (samples : list bool) : Z := fold_left shift_in samples 0.
Fixpoint spell (samples : list bool) : Z :=
  match samples with [] => 0 | b :: bs => bool_to_bit b + 2 * spell bs end.

(** The byte at offset 3 of the received word. *)
Definition byte3 (v : Z) : Z := Z.shiftr v 24.

Lemma byte3_word b0 b1 b2 b3 b4 b5 b6 b7 (bs := [b0; b1; b2; b3; b4; b5; b6; b7]) :
  byte3 (rx_word bs) = spell bs.
Proof. by destruct b0, b1, b2, b3, b4, b5, b6, b7. Qed.

(** The bits of a word spell its low byte. *)
Definition bits_of (w : Z) : list bool := map (Z.testbit w) (seqZ_from 0 8).

Lemma spell_mod w n k : 0 <= k -> spell (map (Z.testbit w) (seqZ_from k n)) = (w / 2 ^ k) mod 2 ^ Z.of_nat n.
Proof.
  revert k. induction n as [| n IH]; intros k Hk; cbn [seqZ_from map spell].
  { by rewrite Z.mod_1_r. }
  rewrite IH by lia. change (bool_to_bit (Z.testbit w k)) with (Z.b2z (Z.testbit w k)).
  rewrite Z.testbit_spec' by lia. replace (w / 2 ^ (k + 1)) with (w / 2 ^ k / 2).
  2:{ rewrite Z.pow_add_r, Z.div_div by lia. done. }
  generalize (w / 2 ^ k). intros v. rewrite Nat2Z.inj_succ, Z.pow_succ_r by lia.
  rewrite (Z.rem_mul_r v 2) by lia. lia.
Qed.

Lemma spell_bits w : spell (bits_of w) = w mod 256.
Proof. unfold bits_of. rewrite spell_mod by lia. by rewrite Z.div_1_r. Qed.

(** About to sample with [n] bits to go, [v] shifted in so far. *)
Definition sampling (n : nat) (v : Z) (s : sm) (d : bool) : sm :=
  mkSm 3 (Z.of_nat n) (osr s) (osr_cnt s) v (7 - Z.of_nat n) 0 d.
(** After the last data bit, [d] delay cycles before the stop bit is tested. *)
Definition tested_in (d : nat) (s : sm) : sm := mkSm 6 4294967295 (osr s) (osr_cnt s) 0 0 d false.

(** Idle, or [j] cycles before it, the stop bit being high. *)
Definition rx_tail (j : nat) (s : sm) : Prop :=
  isr s = 0 /\ isr_cnt s = 0 /\
  match j with
  | O => pc s = O /\ delay s = O
  | 1%nat => pc s = 10%nat /\ delay s = O
  | S (S d) => (d <= 3)%nat /\ pc s = 6%nat /\ delay s = d
  end.
Definition rx_idle := rx_tail 0.

(** Eight cycles that start with a sample. *)
Lemma sample_run n v s d l g : (0 < n < 8)%nat -> length g = 7%nat ->
  rx_run rx_cfg (l :: g) (sampling n v s d) = ([], [], sampling (n - 1) (shift_in v l) s false).
Proof.
  intros Hn Hg. do 7 (destruct g as [| ? g]; [done |]; cbn [length] in Hg). destruct g; [| done].
  do 8 (destruct n as [| n]; [try lia; reflexivity |]). lia.
Qed.

(** The last sample completes the word, whatever the stop bit will be. *)
Lemma last_sample_run v s d l g : length g = 4%nat ->
  rx_run rx_cfg (l :: g) (sampling 0 v s d) = ([shift_in v l], [], tested_in 3 s).
Proof. intros Hg. do 4 (destruct g as [| ? g]; [done |]; cbn [length] in Hg). by destruct g. Qed.

Lemma samples_run gs n v s d : length gs = n -> (n < 8)%nat -> Forall (fun g => length g = 8%nat) gs ->
  rx_run rx_cfg (concat gs) (sampling n v s d) =
    ([], [], sampling 0 (fold_left shift_in (map (hd false) gs) v) s (if n =? 0 then d else false)%nat).
Proof.
  revert n v d. induction gs as [| g gs IH]; intros n v d Hl Hn Hg.
  { cbn in Hl. by subst n. }
  inversion Hg as [| ? ? Hg1 Hg2]; subst. destruct g as [| l g]; [done |].
  cbn [concat map hd fold_left length] in *.
  erewrite rx_run_seq; [| apply sample_run; [lia | lia] | apply IH; [lia | lia | done]].
  destruct gs; reflexivity.
Qed.

(** The first 72 cycles from a falling edge: eight samples, a word. *)
Definition frame (a : list bool) (gs : list (list bool)) (e : list bool) : list bool := a ++ concat gs ++ e.
Definition samples (gs : list (list bool)) (e : list bool) : list bool := map (hd false) gs ++ [hd false e].

Lemma frame_run s a gs e : rx_idle s -> length a = 10%nat -> length gs = 7%nat ->
  Forall (fun g => length g = 8%nat) gs -> length e = 5%nat ->
  rx_run rx_cfg (frame (false :: a) gs e) s = ([rx_word (samples gs e)], [], tested_in 3 s).
Proof.
  intros (Hi & Hc & Hp & Hd) Ha Hl Hg He. destruct e as [| l e]; [done |]. unfold frame, samples, rx_word.
  rewrite fold_left_app. cbn [hd fold_left].
  assert (rx_run rx_cfg (false :: a) s = ([], [], sampling 7 0 s false)) as E1.
  { do 10 (destruct a as [| ? a]; [done |]; cbn [length] in Ha). destruct a; [| done].
    destruct s. cbn in *. subst. reflexivity. }
  eapply (rx_run_seq _ (false :: a) _ _ [] []); [exact E1 |].
  eapply (rx_run_seq _ _ _ _ [] []); [apply samples_run; [done | lia | done] |].
  apply last_sample_run. cbn in He. lia.
Qed.

(** *** The stop bit *)

Lemma tail_high j s n : rx_tail j s -> exists s', rx_run rx_cfg (replicate n true) s = ([], [], s') /\ rx_tail (j - n) s'.
Proof.
  revert j s. induction n as [| n IH]; intros j s Hj.
  { exists s. split; [done |]. by rewrite Nat.sub_0_r. }
  assert (exists s1, rx_run rx_cfg [true] s = ([], [], s1) /\ rx_tail (j - 1) s1) as (s1 & E1 & H1).
  { destruct Hj as (Hi & Hc & Hj). destruct s as [p x o oc i ic d dr]. cbn in Hi, Hc. subst i ic.
    destruct j as [| [| j]]; cbn in Hj.
    - destruct Hj as [-> ->]. eexists. by repeat split.
    - destruct Hj as [-> ->]. eexists. by repeat split.
    - destruct Hj as (Hj & -> & ->). destruct j as [| j]; eexists; (split; [reflexivity |]); [by repeat split |].
      repeat split. cbn. lia. }
  destruct (IH (j - 1)%nat s1 H1) as (s' & E2 & H2). exists s'. change (replicate (S n) true) with ([true] ++ replicate n true).
  rewrite (rx_run_seq _ _ _ _ [] [] _ _ _ _ E1 E2). split; [done |]. by replace (j - S n)%nat with (j - 1 - n)%nat by lia.
Qed.

Lemma tested_tail s : rx_tail 5 (tested_in 3 s).
Proof. repeat split. cbn. lia. Qed.

(** A good stop bit, and a missing one: the flag is raised, and the receiver
    waits for the line to go up again. *)
Lemma good_stop_run s x y z u : rx_run rx_cfg [x; y; z; true; u] (tested_in 3 s) =
  ([], [], mkSm 0 4294967295 (osr s) (osr_cnt s) 0 0 0 true).
Proof. reflexivity. Qed.
Definition rx_waiting (s : sm) : sm := mkSm 8 4294967295 (osr s) (osr_cnt s) 0 0 0 false.
Lemma no_stop_run s x y z u : rx_run rx_cfg [x; y; z; false; u] (tested_in 3 s) = ([], [1], rx_waiting s).
Proof. reflexivity. Qed.
Lemma waiting_run s n l : exists s', rx_run rx_cfg (replicate n false ++ [true; l]) (rx_waiting s) = ([], [], s') /\ rx_idle s'.
Proof.
  assert (rx_run rx_cfg (replicate n false) (rx_waiting s) = ([], [], rx_waiting s)) as E1.
  { induction n as [| n IH]; [done |]. change (replicate (S n) false) with ([false] ++ replicate n false).
    by rewrite (rx_run_seq _ _ _ _ [] [] _ _ _ _ (eq_refl : rx_run rx_cfg [false] (rx_waiting s) = ([], [], rx_waiting s)) IH). }
  eexists. split; [eapply (rx_run_seq _ _ _ _ [] []); [exact E1 | reflexivity] |]. by repeat split.
Qed.

(** *** What the transmitter sends is received *)

Lemma byte_received w s : rx_idle s ->
  exists v, rx_run rx_cfg (replicate 8 false ++ data_levels w) s = ([v], [], tested_in 3 s) /\ byte3 v = w mod 256.
Proof.
  intros Hi. set (b := Z.testbit w).
  pose (gs := map (fun i => replicate 5 (b i) ++ replicate 3 (b (i + 1))) (seqZ_from 0 7)).
  exists (rx_word (samples gs (replicate 5 (b 7)))). split.
  - assert (replicate 8 false ++ data_levels w =
      frame (false :: replicate 7 false ++ replicate 3 (b 0)) gs (replicate 5 (b 7))) as -> by reflexivity.
    apply frame_run; [done | done | done | by repeat constructor | done].
  - change (samples gs (replicate 5 (b 7))) with [b 0; b 1; b 2; b 3; b 4; b 5; b 6; b 7].
    rewrite byte3_word. apply (spell_bits w).
Qed.

Lemma wave_received ws ls : wave ws ls -> forall j s, (j <= 5)%nat -> rx_tail j s ->
  exists vs j' s', rx_run rx_cfg ls s = (vs, [], s') /\ (j' <= 5)%nat /\ rx_tail j' s' /\
    map byte3 vs = map (fun w => w mod 256) ws.
Proof.
  induction 1 as [| ws ls _ IH | w ws ls _ IH]; intros j s Hj Hs.
  - exists [], j, s. by split_and!.
  - destruct (tail_high j s 1 Hs) as (s1 & E1 & H1).
    destruct (IH (j - 1)%nat s1) as (vs & j' & s' & E2 & H2 & H3 & H4); [lia | done |].
    exists vs, j', s'. split; [| by split_and!]. exact (rx_run_seq _ [true] _ _ [] [] _ _ _ _ E1 E2).
  - destruct (tail_high j s 8 Hs) as (s1 & E1 & H1). replace (j - 8)%nat with 0%nat in H1 by lia.
    destruct (byte_received w s1 H1) as (v & E2 & Hv).
    destruct (IH 5%nat _ (le_n _) (tested_tail s1)) as (vs & j' & s' & E3 & H2 & H3 & H4).
    exists (v :: vs), j', s'. split; [| split_and!; [done.. | cbn; by rewrite Hv, H4]].
    unfold byte_levels. rewrite <- app_assoc.
    exact (rx_run_seq _ _ _ _ [] [] _ _ _ _ E1 (rx_run_seq _ _ _ _ [v] [] _ _ _ _ E2 E3)).
Qed.

(** ** What the firmware loads *)

Section Loaded.
Context {E : Env}.

Lemma tx_loaded pio m off pin baud s s' : jd_tx_program_init pio m off pin baud s = Ret tt s' ->
  exists c, loaded pio m (tr s') = Some c /\ cfg_of c = tx_cfg.
Proof.
  unfold jd_tx_program_init. intros ([] & s1 & _ & H)%bind_inv. revert H. cbv zeta. unfold pio_sm_init_. mexec.
  intros [= <-]. eexists. split; [cbn [tr emit upd_tr loaded]; by rewrite !Z.eqb_refl | reflexivity].
Qed.
Lemma rx_loaded pio m off pin baud s s' : jd_rx_program_init pio m off pin baud s = Ret tt s' ->
  exists c, loaded pio m (tr s') = Some c /\ cfg_of c = rx_cfg.
Proof.
  unfold jd_rx_program_init. intros ([] & s1 & _ & H)%bind_inv. revert H. cbv zeta. unfold pio_sm_init_. mexec.
  intros [= <-]. eexists. split; [cbn [tr emit upd_tr loaded]; by rewrite !Z.eqb_refl | reflexivity].
Qed.
End Loaded.

(** ** Other clocks *)

(** The receiver in a line of its own: [L j] is the level in the [j]-th cycle
    after a falling edge. *)
Definition sampled_at (L : Z -> bool) : list bool := map L [11; 19; 27; 35; 43; 51; 59; 67].

Lemma frame_levels (L : Z -> bool) : exists a gs e,
  map L (seqZ_from 0 77) = frame (L 0 :: a) gs e ++ [L 72; L 73; L 74; L 75; L 76] /\
  length a = 10%nat /\ length gs = 7%nat /\ Forall (fun g => length g = 8%nat) gs /\ length e = 5%nat /\
  samples gs e = sampled_at L.
Proof.
  exists (map L (seqZ_from 1 10)), (map (fun i => map L (seqZ_from (11 + 8 * i) 8)) (seqZ_from 0 7)),
    (map L (seqZ_from 67 5)).
  split; [reflexivity |]. do 2 (split; [reflexivity |]). split; [by repeat constructor |]. by split.
Qed.

(** Seventy-seven cycles after a falling edge, by the level of the stop bit. *)
Lemma edge_run L s : rx_idle s -> L 0 = false ->
  exists v s', byte3 v = spell (sampled_at L) /\
    rx_run rx_cfg (map L (seqZ_from 0 77)) s = ([v], if L 75 then [] else [1], s') /\
    if L 75 then rx_idle s' else s' = rx_waiting s.
Proof.
  intros Hi H0. destruct (frame_levels L) as (a & gs & e & -> & Ha & Hl & Hg & He & Hs). rewrite H0.
  pose proof (frame_run s a gs e Hi Ha Hl Hg He) as E1. rewrite Hs in E1.
  exists (rx_word (sampled_at L)). destruct (L 75) eqn:H75.
  - eexists. split; [apply byte3_word |]. split; [exact (rx_run_seq _ _ _ _ [_] [] _ [] [] _ E1 (good_stop_run s _ _ _ _)) |].
    by repeat split.
  - eexists. split; [apply byte3_word |]. split; [| reflexivity].
    exact (rx_run_seq _ _ _ _ [_] [] _ [] [1] _ E1 (no_stop_run s _ _ _ _)).
Qed.

(** A sender of its own clock: [n]-th bit time of a byte, the start bit being
    the zeroth. *)
Definition sym (w n : Z) : bool := if n =? 0 then false else if n <? 9 then Z.testbit w (n - 1) else true.

(** The line at time [t], when the bit time is [p] and every byte of [evs]
    follows a pause. *)
Fixpoint line (p : Z) (evs : list (Z * Z)) (t : Z) : bool :=
  match evs with
  | [] => true
  | (pause, w) :: evs =>
    if t <? pause then true
    else if t <? pause + 10 * p then sym w ((t - pause) / p)
    else line p evs (t - pause - 10 * p)
  end.
Fixpoint line_ends (p : Z) (evs : list (Z * Z)) : Z :=
  match evs with [] => 0 | (pause, _) :: evs => pause + 10 * p + line_ends p evs end.

(** Its levels in [n] cycles of length [q], the first at time [t]. *)
Fixpoint sampled (p q : Z) (evs : list (Z * Z)) (t : Z) (n : nat) : list bool :=
  match n with O => [] | S n => line p evs t :: sampled p q evs (t + q) n end.

Lemma line_app p q evs n m t :
  sampled p q evs t (n + m) = sampled p q evs t n ++ sampled p q evs (t + Z.of_nat n * q) m.
Proof.
  revert t. induction n as [| n IH]; intros t; cbn [Nat.add sampled app]; [f_equal; lia |].
  rewrite IH. do 3 f_equal. lia.
Qed.
Lemma sampled_map p q evs n t k :
  sampled p q evs (t + k * q) n = map (fun j => line p evs (t + j * q)) (seqZ_from k n).
Proof.
  revert k. induction n as [| n IH]; intros k; cbn [sampled seqZ_from map]; [done |].
  rewrite <- IH. do 2 f_equal. lia.
Qed.

Lemma line_before p evs t : Forall (fun e => 0 <= fst e) evs -> t < 0 -> line p evs t = true.
Proof.
  destruct 1 as [| [g w] evs Hg _]; intros Ht; [done |]. cbn in *.
  by rewrite (proj2 (Z.ltb_lt t g)) by lia.
Qed.
Lemma line_ends_nonneg p evs : 0 <= p -> Forall (fun e => 0 <= fst e) evs -> 0 <= line_ends p evs.
Proof. intros Hp. induction 1 as [| [g w] evs Hg _ IH]; cbn in *; lia. Qed.

(** During the [n]-th bit time of a byte; after its data bits. *)
Lemma line_bit p g w evs t n : 0 < p -> 0 <= n < 10 -> n * p <= t - g < (n + 1) * p ->
  line p ((g, w) :: evs) t = sym w n.
Proof.
  intros Hp Hn Ht. cbn [line]. rewrite (proj2 (Z.ltb_ge t g)), (proj2 (Z.ltb_lt t (g + 10 * p))) by nia.
  f_equal. symmetry. apply (Z.div_unique_pos _ _ _ (t - g - n * p)); lia.
Qed.
Lemma line_stop p g w evs t : 0 < p -> Forall (fun e => 0 <= fst e) evs -> 9 * p <= t - g ->
  line p ((g, w) :: evs) t = line p evs (t - g - 10 * p).
Proof.
  intros Hp Hg Ht. destruct (Z.lt_ge_cases (t - g) (10 * p)) as [Hlt | Hge].
  - rewrite (line_bit p g w evs t 9) by lia. rewrite line_before by (done || lia). reflexivity.
  - cbn [line]. by rewrite (proj2 (Z.ltb_ge t g)), (proj2 (Z.ltb_ge t (g + 10 * p))) by lia.
Qed.
Lemma sampled_stop p q g w evs t n : 0 < p -> 0 < q -> Forall (fun e => 0 <= fst e) evs -> 9 * p <= t - g ->
  sampled p q ((g, w) :: evs) t n = sampled p q evs (t - g - 10 * p) n.
Proof.
  intros Hp Hq Hg. revert t. induction n as [| n IH]; intros t Ht; cbn [sampled]; [done |].
  rewrite line_stop, IH by (done || lia). do 2 f_equal. lia.
Qed.

(** Between 7.7 and 8.33 cycles to the bit. *)
Definition tolerated (p q : Z) : Prop := 0 < q /\ 77 * q <= 10 * p /\ 9 * p <= 75 * q.

(** A byte whose start bit began at [g], less than a cycle ago. *)
Lemma skewed_byte p q g w evs t s : tolerated p q -> 0 <= t - g < q -> rx_idle s ->
  exists v s', rx_run rx_cfg (sampled p q ((g, w) :: evs) t 77) s = ([v], [], s') /\
    byte3 v = w mod 256 /\ rx_idle s'.
Proof.
  intros (Hq & H1 & H2) Ht Hi. set (L := fun j => line p ((g, w) :: evs) (t + j * q)).
  assert (forall j n, 0 <= n < 10 -> n * p <= j * q -> (j + 1) * q <= (n + 1) * p -> L j = sym w n) as HL.
  { intros j n Hn Ha Hb. apply line_bit; lia. }
  replace (sampled p q ((g, w) :: evs) t 77) with (map L (seqZ_from 0 77)).
  2:{ unfold L. rewrite <- sampled_map. f_equal. lia. }
  assert (L 75 = true) as H75 by (by rewrite (HL 75 9) by lia).
  destruct (edge_run L s Hi) as (v & s' & Hv & E1 & Hi'); [by rewrite (HL 0 0) by lia |].
  rewrite H75 in E1, Hi'. exists v, s'. split; [done |]. split; [| done].
  rewrite Hv, <- spell_bits. f_equal. unfold sampled_at, bits_of. cbn [map seqZ_from].
  rewrite (HL 11 1), (HL 19 2), (HL 27 3), (HL 35 4), (HL 43 5), (HL 51 6), (HL 59 7), (HL 67 8) by lia.
  reflexivity.
Qed.

Lemma idle_high s : rx_idle s -> exists s', rx_run rx_cfg [true] s = ([], [], s') /\ rx_idle s'.
Proof. exact (tail_high 0 s 1). Qed.

(** The next falling edge has not been missed by a whole cycle. *)
Definition in_time (q : Z) (evs : list (Z * Z)) (t : Z) : Prop :=
  match evs with [] => True | (pause, _) :: _ => t < pause + q end.

(** However long the pauses and wherever the edges fall between two cycles. *)
Lemma skewed_line p q evs n t s : tolerated p q -> Forall (fun e => 0 <= fst e) evs ->
  in_time q evs t -> line_ends p evs <= t + Z.of_nat n * q -> rx_idle s ->
  exists vs s', rx_run rx_cfg (sampled p q evs t n) s = (vs, [], s') /\ rx_idle s' /\
    map byte3 vs = map (fun e => snd e mod 256) evs.
Proof.
  intros Hpq. revert evs t s. induction n as [n IH] using lt_wf_ind. intros evs t s Hg Ht Hn Hi.
  pose proof Hpq as (Hq & H1 & H2).
  assert (forall n', n = S n' -> line p evs t = true -> in_time q evs (t + q) ->
    exists vs s', rx_run rx_cfg (sampled p q evs t n) s = (vs, [], s') /\ rx_idle s' /\
      map byte3 vs = map (fun e => snd e mod 256) evs) as Hhigh.
  { intros n' -> Hl Ht'. cbn [sampled]. rewrite Hl. destruct (idle_high s Hi) as (s1 & E1 & H1').
    destruct (IH n' (Nat.lt_succ_diag_r _) evs (t + q) s1) as (vs & s' & E2 & Hs); [done | done | lia | done |].
    exists vs, s'. split; [exact (rx_run_seq _ [true] _ _ [] [] _ _ _ _ E1 E2) | done]. }
  destruct evs as [| [g w] evs].
  { destruct n as [| n]; [exists [], s; by split_and! | by apply (Hhigh n)]. }
  inversion Hg as [| ? ? Hg1 Hg2]; subst. cbn [fst] in Hg1. cbn [in_time line_ends] in Ht, Hn.
  pose proof (line_ends_nonneg p evs ltac:(lia) Hg2) as He.
  destruct (Z.lt_ge_cases t g) as [Hlt | Hge].
  { destruct n as [| n]; [lia |]. apply (Hhigh n); [done | | cbn; lia].
    cbn [line]. by rewrite (proj2 (Z.ltb_lt t g)). }
  assert (76 < Z.of_nat n) as H76 by (apply (Z.mul_lt_mono_pos_r q); lia).
  destruct (Nat.le_exists_sub 77 n) as (m & -> & _); [lia |]. rewrite (Nat.add_comm m) in *.
  destruct (skewed_byte p q g w evs t s Hpq ltac:(lia) Hi) as (v & s1 & E1 & Hv & Hi1).
  rewrite line_app, (sampled_stop _ _ _ _ _ (t + Z.of_nat 77 * q)) by (done || lia).
  destruct (IH m ltac:(lia) evs (t + Z.of_nat 77 * q - g - 10 * p) s1) as (vs & s' & E2 & Hi' & Hvs);
    [done | destruct Hg2 as [| [g' ?] ? ?]; [done | cbn in *; lia] | lia | done |].
  exists (v :: vs), s'. split; [exact (rx_run_seq _ _ _ _ [v] [] _ _ _ _ E1 E2) |].
  split; [done |]. cbn. by rewrite Hv, Hvs.
Qed.

(** ** Frames *)

(** A frame on the line: a pause of at least two cycles, the bytes, the stop bit
    of the last one, and the break that ends it. *)
Record framing := mkFraming { lead : nat; words : list Z; body : list bool; low : nat }.
Definition framing_levels (f : framing) : list bool :=
  replicate (2 + lead f) true ++ body f ++ replicate 5 true ++ replicate (77 + low f) false.

(** Where a receiver is before a frame: idle, or still waiting for the line to
    go up after the break of the last one. *)
Definition between_frames (s : sm) : Prop := rx_idle s \/ exists s0, s = rx_waiting s0.

Lemma between_lead s n : between_frames s ->
  exists s', rx_run rx_cfg (replicate (2 + n) true) s = ([], [], s') /\ rx_idle s'.
Proof.
  intros [Hi | [s0 ->]]; [exact (tail_high 0 s (2 + n) Hi) |].
  destruct (waiting_run s0 0 true) as (s1 & E1 & H1). destruct (tail_high 0 s1 n H1) as (s' & E2 & H2).
  exists s'. split; [exact (rx_run_seq _ [true; true] _ _ [] [] _ [] [] _ E1 E2) | done].
Qed.

Lemma low_levels : map (fun _ : Z => false) (seqZ_from 0 77) = replicate 77 false.
Proof. reflexivity. Qed.

Lemma break_run s n : rx_idle s -> exists v s',
  rx_run rx_cfg (replicate (77 + n) false) s = ([v], [1], rx_waiting s') /\ byte3 v = 0.
Proof.
  intros Hi. destruct (edge_run (fun _ => false) s Hi eq_refl) as (v & s1 & Hv & E1 & ->). cbn iota in E1.
  rewrite low_levels in E1. exists v, s. split; [| exact Hv].
  rewrite replicate_add. apply (rx_run_seq _ _ _ _ [v] [1] _ [] [] _ E1).
  induction n as [| n IH]; [done |]. change (replicate (S n) false) with ([false] ++ replicate n false).
  exact (rx_run_seq _ _ _ _ [] [] _ [] [] _ (eq_refl : rx_run rx_cfg [false] (rx_waiting s) = ([], [], rx_waiting s)) IH).
Qed.

Lemma framing_run f s : wave (words f) (body f) -> between_frames s ->
  exists vs s', rx_run rx_cfg (framing_levels f) s = (vs, [1], s') /\ between_frames s' /\
    map byte3 vs = map (fun w => w mod 256) (words f) ++ [0].
Proof.
  intros Hw Hs. destruct (between_lead s (lead f) Hs) as (s1 & E1 & H1).
  destruct (wave_received _ _ Hw 0%nat s1 (Nat.le_0_l 5) H1) as (vs & j & s2 & E2 & Hj & H2 & Hv).
  destruct (tail_high j s2 5 H2) as (s3 & E3 & H3). replace (j - 5)%nat with 0%nat in H3 by lia.
  destruct (break_run s3 (low f) H3) as (v & s4 & E4 & Hb).
  exists (vs ++ [v]), (rx_waiting s4). split; [| split; [right; by eexists | by rewrite map_app, Hv; cbn; rewrite Hb]].
  exact (rx_run_seq _ _ _ _ [] [] _ _ [1] _ E1 (rx_run_seq _ _ _ _ vs [] _ [v] [1] _ E2
    (rx_run_seq _ _ _ _ [] [] _ [v] [1] _ E3 E4))).
Qed.

(** ** The theorems *)

Section Theorems.
Context {E : Env}.

(** What one board sends, another receives: with the programs and
    configurations that [jd_tx_program_init] and [jd_rx_program_init] load, and
    on whatever schedule DMA delivers the words to the FIFO, provided the time
    suffices to send them, the line returns to idle, the receiver pushes exactly
    one word per word sent, in order, without raising its flag, and the byte at
    offset 3 of each - where the receive DMA channel reads - is the low byte of
    the word sent. *)
Theorem sws_roundtrip pio m off pin baud s s1 c pio' m' off' pin' baud' t t1 d tx rx feeds n :
  jd_tx_program_init pio m off pin baud s = Ret tt s1 -> loaded pio m (tr s1) = Some c ->
  jd_rx_program_init pio' m' off' pin' baud' t = Ret tt t1 -> loaded pio' m' (tr t1) = Some d ->
  tx_idle tx -> rx_idle rx -> (80 * length (concat feeds) <= n)%nat ->
  exists levels tx' words rx',
    tx_run (cfg_of c) (feeds ++ replicate n []) tx [] = (levels, (tx', [])) /\ tx_idle tx' /\
    rx_run (cfg_of d) (levels ++ replicate 5 true) rx = (words, [], rx') /\ rx_idle rx' /\
    map byte3 words = map (fun w => w mod 256) (concat feeds).
Proof.
  intros (c' & Hc & Ec)%tx_loaded Hc' (d' & Hd & Ed)%rx_loaded Hd' Htx Hrx Hn.
  assert (c' = c) as -> by congruence. assert (d' = d) as -> by congruence. rewrite Ec, Ed.
  destruct (tx_sends _ feeds n tx [] (le_n _) Htx Hn) as (ls & tx' & E1 & Htx' & Hw). cbn [app] in Hw.
  destruct (wave_received _ _ Hw 0%nat rx (Nat.le_0_l 5) Hrx) as (vs & j & rx1 & E2 & Hj & Hr & Hv).
  destruct (tail_high j rx1 5 Hr) as (rx' & E3 & Hr'). replace (j - 5)%nat with 0%nat in Hr' by lia.
  exists ls, tx', vs, rx'. split; [done |]. split; [done |]. split; [| done].
  rewrite <- (app_nil_r vs). exact (rx_run_seq _ _ _ _ _ [] _ [] [] _ E2 E3).
Qed.

(** C8: the driver may take the transmitter's stall for the end of a frame: on
    whatever schedule the words come, when the state machine stalls, the FIFO is
    empty and everything delivered so far has been sent, to the last cycle of the
    last bit; the break that [tx_handler] then sends cuts nothing off. *)
Theorem tx_stall_means_sent pio m off pin baud s s1 c tx feeds levels tx' fifo :
  jd_tx_program_init pio m off pin baud s = Ret tt s1 -> loaded pio m (tr s1) = Some c ->
  tx_idle tx -> tx_run (cfg_of c) feeds tx [] = (levels, (tx', fifo)) ->
  stalled (snd (cycle (cfg_of c) (mkIn true (head fifo) true) tx')) = true ->
  fifo = [] /\ wave (concat feeds) levels.
Proof.
  intros (c' & Hc & Ec)%tx_loaded Hc' Hi Hr Hst. assert (c' = c) as -> by congruence. rewrite Ec in Hr, Hst.
  assert (pc tx < 4)%nat as Hp by (destruct Hi as [-> _]; lia).
  apply (pc_run feeds tx []) in Hp. rewrite Hr in Hp. cbn [fst snd] in Hp.
  apply stalled_idle in Hst as [Hi' Hf]; [| exact Hp].
  assert (fifo = []) as -> by (by destruct fifo). split; [done |].
  pose proof (idle_sent _ feeds tx [] (le_n _) Hi) as H. rewrite Hr in H. exact (H Hi' eq_refl).
Qed.

(** C14: the receiver tolerates a sender whose clock is off: any bytes with any
    pauses (also none) between them, sent with a bit time of [p] where a cycle of
    the receiver lasts [q], are received without error, in order and once,
    wherever the edges fall between two cycles, as long as the ratio is between
    7.7 and 8.33 cycles to the bit; the deviation does not add up from byte to
    byte. *)
Theorem rx_tolerates_skew pio m off pin baud s s1 c p q evs t n rx :
  jd_rx_program_init pio m off pin baud s = Ret tt s1 -> loaded pio m (tr s1) = Some c ->
  0 < q -> 77 * q <= 10 * p -> 9 * p <= 75 * q -> Forall (fun e => 0 <= fst e) evs ->
  t < q -> line_ends p evs <= t + Z.of_nat n * q -> rx_idle rx ->
  exists words rx',
    rx_run (cfg_of c) (sampled p q evs t n) rx = (words, [], rx') /\ rx_idle rx' /\
    map byte3 words = map (fun e => snd e mod 256) evs.
Proof.
  intros (c' & Hc & Ec)%rx_loaded Hc' Hq H1 H2 Hg Ht Hn Hi. assert (c' = c) as -> by congruence. rewrite Ec.
  apply skewed_line; try done. destruct Hg as [| [g w] evs Hg _]; [done |]. cbn in *. lia.
Qed.

(** When the stop bit is missing (a framing error, or a break), the receiver
    raises its flag exactly once, waits for the line to go up, however long
    that takes, and two cycles later is idle; but the word has been pushed all
    the same, since the eighth bit completes it: in particular a break of 77
    cycles or more leaves a zero byte in front of whatever follows. *)
Theorem rx_break_flags pio m off pin baud s s1 c L n l rx :
  jd_rx_program_init pio m off pin baud s = Ret tt s1 -> loaded pio m (tr s1) = Some c ->
  rx_idle rx -> L 0 = false -> L 75 = false ->
  exists word rx',
    rx_run (cfg_of c) (map L (seqZ_from 0 77) ++ replicate n false ++ [true; l]) rx = ([word], [1], rx') /\
    byte3 word = spell (sampled_at L) /\ rx_idle rx'.
Proof.
  intros (c' & Hc & Ec)%rx_loaded Hc' Hi H0 H75. assert (c' = c) as -> by congruence. rewrite Ec.
  destruct (edge_run L rx Hi H0) as (v & rx1 & Hv & E1 & H1). rewrite H75 in E1, H1. subst rx1.
  destruct (waiting_run rx n l) as (rx' & E2 & Hi'). exists v, rx'. split; [| done].
  exact (rx_run_seq _ _ _ _ [v] [1] _ [] [] _ E1 E2).
Qed.
(** Frame after frame: whatever the receiver did last, every frame - a pause,
    its bytes, a break of at least 77 cycles - leaves its bytes in the FIFO, in
    order, then the zero byte of the break, and raises the flag once, at its end;
    the receiver is then ready for the next frame, also when it is stopped during
    the break and started in the pause before the next frame, as the driver
    does. *)
Theorem rx_frames_delimited pio m off pin baud s s1 c fs rx :
  jd_rx_program_init pio m off pin baud s = Ret tt s1 -> loaded pio m (tr s1) = Some c ->
  Forall (fun f => wave (words f) (body f)) fs -> between_frames rx ->
  exists vs rx',
    rx_run (cfg_of c) (concat (map framing_levels fs)) rx = (vs, map (fun _ => 1) fs, rx') /\
    map byte3 vs = concat (map (fun f => map (fun w => w mod 256) (words f) ++ [0]) fs) /\
    between_frames rx'.
Proof.
  intros (c' & Hc & Ec)%rx_loaded Hc' Hf. assert (c' = c) as -> by congruence. rewrite Ec. clear - Hf.
  revert rx. induction Hf as [| f fs Hf _ IH]; intros rx Hs; [exists [], rx; by split_and! |].
  destruct (framing_run f rx Hf Hs) as (v1 & rx1 & E1 & H1 & Hv1). destruct (IH rx1 H1) as (vs & rx' & E2 & Hv & H2).
  exists (v1 ++ vs), rx'. split; [exact (rx_run_seq _ _ _ _ _ [1] _ _ _ _ E1 E2) |].
  split; [by rewrite map_app, Hv1, Hv | done].
Qed.
End Theorems.

(** *** Concrete runs *)

Definition tx_demo : sm := mkSm 0 0 0 0 0 0 0 true.
Definition tx_started := @jd_tx_program_init init_demo_env 0 0 1 9 1000000 machine_init.
Definition rx_started := @jd_rx_program_init init_demo_env 0 1 2 9 1000000 machine_init.
Definition loaded_cfg (m : Z) (o : res unit) : pio_sm_config :=
  match o with Ret _ s => default pio_get_default_sm_config (loaded 0 m (tr s)) | _ => pio_get_default_sm_config end.
Definition after (o : res unit) : machine := match o with Ret _ s => s | _ => machine_init end.

Lemma tx_started_ret : tx_started = Ret tt (after tx_started).
Proof. vm_compute. reflexivity. Qed.
Lemma rx_started_ret : rx_started = Ret tt (after rx_started).
Proof. vm_compute. reflexivity. Qed.
Lemma tx_started_loaded : loaded 0 0 (tr (after tx_started)) = Some (loaded_cfg 0 tx_started).
Proof. vm_compute. reflexivity. Qed.
Lemma rx_started_loaded : loaded 0 1 (tr (after rx_started)) = Some (loaded_cfg 1 rx_started).
Proof. vm_compute. reflexivity. Qed.

(** Three words, one of them with more than its low byte, in two deliveries. *)
Definition demo_feeds : list (list Z) := [[85; 1234]; []; []; [255]].

Lemma sws_roundtrip_witness : exists levels tx' words rx',
  tx_run (cfg_of (loaded_cfg 0 tx_started)) (demo_feeds ++ replicate 240 []) tx_demo [] = (levels, (tx', [])) /\
  tx_idle tx' /\
  rx_run (cfg_of (loaded_cfg 1 rx_started)) (levels ++ replicate 5 true) tx_demo = (words, [], rx') /\ rx_idle rx' /\
  map byte3 words = map (fun w => w mod 256) (concat demo_feeds).
Proof.
  apply (@sws_roundtrip init_demo_env 0 0 1 9 1000000 machine_init (after tx_started) _
    0 1 2 9 1000000 machine_init (after rx_started) _ tx_demo tx_demo demo_feeds 240
    tx_started_ret tx_started_loaded rx_started_ret rx_started_loaded); [by split | by repeat split | cbn; lia].
Defined.

(** Two words, the second of which comes when the first is half sent. *)
Definition stall_feeds : list (list Z) := [[85]] ++ replicate 39 [] ++ [[1234]] ++ replicate 119 [].
Definition stall_run := tx_run tx_cfg stall_feeds tx_demo [].

Lemma tx_stall_means_sent_witness :
  snd (snd stall_run) = [] /\ wave [85; 1234] (fst stall_run).
Proof.
  apply (@tx_stall_means_sent init_demo_env 0 0 1 9 1000000 machine_init (after tx_started) _ tx_demo stall_feeds
    (fst stall_run) (fst (snd stall_run)) (snd (snd stall_run)) tx_started_ret tx_started_loaded);
    [by split | vm_compute; reflexivity | vm_compute; reflexivity].
Defined.

(** Four per cent fast, and starting between two cycles. *)
Lemma rx_tolerates_skew_witness : exists words rx',
  rx_run (cfg_of (loaded_cfg 1 rx_started)) (sampled 77 10 [(5, 161); (0, 0); (100, 255)] (-2) 250) tx_demo =
    (words, [], rx') /\ rx_idle rx' /\
  map byte3 words = map (fun e => snd e mod 256) [(5, 161); (0, 0); (100, 255)].
Proof.
  apply (@rx_tolerates_skew init_demo_env 0 1 2 9 1000000 machine_init (after rx_started) _
    77 10 [(5, 161); (0, 0); (100, 255)] (-2) 250 tx_demo rx_started_ret rx_started_loaded);
    [lia | lia | lia | repeat constructor; cbn; lia | lia | cbn; lia | by repeat split].
Defined.

(** A break of a hundred cycles. *)
Lemma rx_break_flags_witness : exists word rx',
  rx_run (cfg_of (loaded_cfg 1 rx_started))
    (map (fun _ => false) (seqZ_from 0 77) ++ replicate 23 false ++ [true; true]) tx_demo = ([word], [1], rx') /\
  byte3 word = 0 /\ rx_idle rx'.
Proof.
  apply (@rx_break_flags init_demo_env 0 1 2 9 1000000 machine_init (after rx_started) _
    (fun _ => false) 23 true tx_demo rx_started_ret rx_started_loaded); [by repeat split | reflexivity | reflexivity].
Defined.

(** Two frames, the first with two bytes, the second empty. *)
Definition demo_frames : list framing :=
  [mkFraming 3 [161; 90] (byte_levels 161 ++ true :: byte_levels 90 ++ []) 19; mkFraming 0 [] [] 0].

Lemma rx_frames_delimited_witness : exists vs rx',
  rx_run (cfg_of (loaded_cfg 1 rx_started)) (concat (map framing_levels demo_frames)) (rx_waiting tx_demo) =
    (vs, [1; 1], rx') /\
  map byte3 vs = [161; 90; 0; 0] /\ between_frames rx'.
Proof.
  apply (@rx_frames_delimited init_demo_env 0 1 2 9 1000000 machine_init (after rx_started) _
    demo_frames (rx_waiting tx_demo) rx_started_ret rx_started_loaded).
  - constructor; [| constructor; [exact wave_nil | constructor]].
    exact (wave_byte 161 [90] _ (wave_idle _ _ (wave_byte 90 [] [] wave_nil))).
  - right. by eexists.
Defined.
