(* ===== verification/Line.v ===== *)
(** * Line: from a buffer on one board to a buffer on another

    The DMA channels move bytes between memory and the FIFOs of the state
    machines.  Here their set-up is read off what [uart_init_] told the SDK, and
    the two channels, the two programs of [Pio.v] and the line are put together:
    what one board sends, byte for byte, is what another finds in its buffer. *)

From S2P Require Import Prelude Events Machine Frame RefEnv Irq Dma Pins Tim Uart Pio.

(** ** Definitions *)

(** *** The channels *)

(** The fields the SDK calls set; a default channel reads consecutive words and
    writes to one place. *)
Record dma_fields := mkDma { width : dma_size; read_inc : bool; write_inc : bool }.
Fixpoint dma_of (c : dma_channel_config) : dma_fields :=
  match c with
  | dma_channel_get_default_config _ => mkDma DMA_SIZE_32 true false
  | channel_config_set_read_increment c b => let k := dma_of c in mkDma (width k) b (write_inc k)
  | channel_config_set_write_increment c b => let k := dma_of c in mkDma (width k) (read_inc k) b
  | channel_config_set_transfer_data_size c sz => let k := dma_of c in mkDma sz (read_inc k) (write_inc k)
  | channel_config_set_bswap c _ | channel_config_set_dreq c _ => dma_of c
  end.

(** The configuration a channel was last given, with its two addresses. *)
Fixpoint channel_of (ch : Z) (t : trace) : option (dma_channel_config * addr * addr) :=
  match t with
  | [] => None
  | E_call (dma_channel_configure c k w r _ _) :: t => if c =? ch then Some (k, w, r) else channel_of ch t
  | _ :: t => channel_of ch t
  end.

(** What reaches a transmit FIFO when bytes are moved to it: a narrow store
    to a register puts the byte on all four lanes.  Byte swapping does nothing
    to bytes.  Other set-ups are not described. *)
Definition moved_out (k : dma_fields) (bs : list Z) : option (list Z) :=
  match k with
  | mkDma DMA_SIZE_8 true false => Some (map (fun b => b * 0x01010101) bs)
  | _ => None
  end.

(** What reaches a buffer of [len] bytes when words are moved to it from byte
    [off] of a receive FIFO. *)
Definition moved_in (k : dma_fields) (off : Z) (len : nat) (ws : list Z) : option (list Z) :=
  match k with
  | mkDma DMA_SIZE_8 false true => Some (take len (map (fun w => (w / 2 ^ (8 * off)) mod 256) ws))
  | _ => None
  end.

(** *** The two sides of a board, as it is set up *)

(** The state machine that sends, and the words it is given for a buffer. *)
Definition tx_side (s : machine) (bs : list Z) : option (sm_cfg * list Z) :=
  match loaded pio0 (rd smtx s) (tr s), channel_of (rd Uart.dmachTx s) (tr s) with
  | Some c, Some (d, pio_txf p m, _) =>
    if (p =? pio0) && (m =? rd smtx s) then option_map (pair (cfg_of c)) (moved_out (dma_of d) bs) else None
  | _, _ => None
  end.
(** The state machine that receives, and what the words it pushed leave in a
    buffer. *)
Definition rx_side (s : machine) (len : nat) (ws : list Z) : option (sm_cfg * list Z) :=
  match loaded pio0 (rd smrx s) (tr s), channel_of (rd Uart.dmachRx s) (tr s) with
  | Some c, Some (d, _, pio_rxf_byte p m off) =>
    if (p =? pio0) && (m =? rd smrx s) then option_map (pair (cfg_of c)) (moved_in (dma_of d) off len ws) else None
  | _, _ => None
  end.

(** ** What [uart_init_] sets up *)

(** The set-up so far. *)
Definition wiring (a b : option pio_sm_config) (s : machine) : Prop :=
  rd smtx s = 0 /\ rd smrx s = 1 /\ loaded pio0 0 (tr s) = a /\ loaded pio0 1 (tr s) = b.
Definition channels (tx rx : Z) (f g : option (dma_channel_config * addr * addr)) (s : machine) : Prop :=
  rd Uart.dmachTx s = tx /\ rd Uart.dmachRx s = rx /\ channel_of tx (tr s) = f /\ channel_of rx (tr s) = g.

Definition not_set_up (e : event) : bool :=
  match e with
  | E_call (pio_sm_set_config _ _ _) | E_call (dma_channel_configure _ _ _ _ _ _) => false
  | _ => true
  end.
Lemma set_up_other e t pio m ch : not_set_up e = true ->
  loaded pio m (e :: t) = loaded pio m t /\ channel_of ch (e :: t) = channel_of ch t.
Proof. by destruct e as [| | c | | | | |]; try done; destruct c. Qed.

#[export] Instance wiring_framed a b : Framed (wiring a b) not_set_up.
Proof.
  constructor; [| done]. intros e s He (H1 & H2 & H3 & H4).
  destruct (set_up_other e (tr s) pio0 0 0 He) as [F _], (set_up_other e (tr s) pio0 1 0 He) as [G _].
  refine (conj H1 (conj H2 (conj _ _))); [exact (eq_trans F H3) | exact (eq_trans G H4)].
Qed.
#[export] Instance channels_framed tx rx f g : Framed (channels tx rx f g) not_set_up.
Proof.
  constructor; [| done]. intros e s He (H1 & H2 & H3 & H4).
  destruct (set_up_other e (tr s) 0 0 tx He) as [_ F], (set_up_other e (tr s) 0 0 rx He) as [_ G].
  refine (conj H1 (conj H2 (conj _ _))); [exact (eq_trans F H3) | exact (eq_trans G H4)].
Qed.

Section Wires.
Context {E : Env}.

Lemma tx_init_wires off pin baud a b s s' : wiring a b s ->
  jd_tx_program_init pio0 0 off pin baud s = Ret tt s' ->
  exists c, cfg_of c = tx_cfg /\ wiring (Some c) b s'.
Proof.
  intros Hs Hr. pose proof Hr as Hr'. apply tx_loaded in Hr' as (c & Hc & Ec). exists c. split; [done |].
  revert Hr. unfold jd_tx_program_init. intros ([] & s1 & H1 & H)%bind_inv.
  apply (keeps_ret_inv (wiring a b)) in H1; [| frame_all | done]. revert H. cbv zeta. unfold pio_sm_init_. mexec.
  intros [= <-]. destruct H1 as (G1 & G2 & _ & G4).
  split; [exact G1 |]. split; [exact G2 |]. split; [exact Hc |]. cbn [tr emit upd_tr loaded]. exact G4.
Qed.
Lemma rx_init_wires off pin baud a b s s' : wiring a b s ->
  jd_rx_program_init pio0 1 off pin baud s = Ret tt s' ->
  exists c, cfg_of c = rx_cfg /\ wiring a (Some c) s'.
Proof.
  intros Hs Hr. pose proof Hr as Hr'. apply rx_loaded in Hr' as (c & Hc & Ec). exists c. split; [done |].
  revert Hr. unfold jd_rx_program_init. intros ([] & s1 & H1 & H)%bind_inv.
  apply (keeps_ret_inv (wiring a b)) in H1; [| frame_all | done]. revert H. cbv zeta. unfold pio_sm_init_. mexec.
  intros [= <-]. destruct H1 as (G1 & G2 & G3 & _).
  split; [exact G1 |]. split; [exact G2 |]. split; [| exact Hc]. cbn [tr emit upd_tr loaded]. exact G3.
Qed.

(** The channels as [uart_init_] configures them. *)
Definition rx_channel (rx : Z) : dma_channel_config * addr * addr :=
  (channel_config_set_dreq (channel_config_set_transfer_data_size (channel_config_set_write_increment
     (channel_config_set_read_increment (channel_config_set_bswap (dma_channel_get_default_config rx) true) false)
     true) DMA_SIZE_8) (DREQ_PIO0_RX 1), NULL, pio_rxf_byte pio0 1 3).
Definition tx_channel (tx : Z) : dma_channel_config * addr * addr :=
  (channel_config_set_dreq (channel_config_set_transfer_data_size (dma_channel_get_default_config tx) DMA_SIZE_8)
     (pio_get_dreq pio0 0 true), pio_txf pio0 0, NULL).

(** The end of [uart_init_], after the channels were configured. *)
Definition init_tail (pin : Z) : M unit :=
  exti_set_callback pin (Some cb_jd_line_falling) EXTI_FALLING ;;
  ram_irq_set_priority DMA_IRQ_0 IRQ_PRIORITY_UART ;;
  ram_irq_set_priority PIO0_IRQ_0 IRQ_PRIORITY_UART ;;
  ram_irq_set_enabled PIO0_IRQ_0 true ;;
  uart_disable.

Lemma tail_wiring pin a b : keeps (wiring a b) (init_tail pin).
Proof. frame_all. Qed.
Lemma tail_channels pin tx rx f g : keeps (channels tx rx f g) (init_tail pin).
Proof. frame_all. Qed.

(** From the claim of the channels on. *)
Definition init_channels (pin : Z) : M unit :=
  let! ch := sdkv (dma_claim_unused_channel true) in
  Uart.dmachRx <~ ch ;;
  let! ch := sdkv (dma_claim_unused_channel true) in
  Uart.dmachTx <~ ch ;;
  let! rx := get Uart.dmachRx in
  let! sm := get smrx in
  let c := dma_channel_get_default_config rx in
  let c := channel_config_set_bswap c true in
  let c := channel_config_set_read_increment c false in
  let c := channel_config_set_write_increment c true in
  let c := channel_config_set_transfer_data_size c DMA_SIZE_8 in
  let c := channel_config_set_dreq c (DREQ_PIO0_RX sm) in
  sdk (dma_channel_configure rx c NULL (pio_rxf_byte pio0 sm 3) 0 false) ;;
  let! tx := get Uart.dmachTx in
  let! sm := get smtx in
  let c := dma_channel_get_default_config tx in
  let c := channel_config_set_transfer_data_size c DMA_SIZE_8 in
  let c := channel_config_set_dreq c (pio_get_dreq pio0 sm true) in
  sdk (dma_channel_configure tx c (pio_txf pio0 sm) NULL 0 false) ;;
  init_tail pin.

(** The machine before [init_tail]. *)
Definition claimed (rx tx : Z) (s : machine) : machine :=
  wr Uart.dmachTx tx (emit (E_ret (dma_claim_unused_channel true) tx)
    (wr Uart.dmachRx rx (emit (E_ret (dma_claim_unused_channel true) rx) s))).
Definition configured (rx tx : Z) (s : machine) : machine :=
  let '(c, w, r) := tx_channel tx in let '(c', w', r') := rx_channel rx in
  emit (E_call (dma_channel_configure tx c w r 0 false))
    (emit (E_call (dma_channel_configure rx c' w' r' 0 false)) (claimed rx tx s)).

Lemma init_channels_run pin s : rd smtx s = 0 -> rd smrx s = 1 ->
  exists rx tx, init_channels pin s = init_tail pin (configured rx tx s).
Proof.
  intros H0 H1. set (rx := ret_of (tr s) (dma_claim_unused_channel true)).
  set (tx := ret_of (E_ret (dma_claim_unused_channel true) rx :: tr s) (dma_claim_unused_channel true)).
  exists rx, tx. unfold init_channels. unfold bind at 1 2 3 4, sdkv at 1 2, put at 1 2. fold rx.
  change (tr (wr Uart.dmachRx rx (emit ?e s))) with (e :: tr s). fold tx.
  fold (claimed rx tx s). rewrite !bind_get. change (rd smrx (claimed rx tx s)) with (rd smrx s). rewrite H1.
  cbv zeta. unfold bind at 1, sdk at 1, log at 1. rewrite !bind_get.
  change (rd smtx (emit ?e (claimed rx tx s))) with (rd smtx s). rewrite H0. reflexivity.
Qed.

Lemma init_channels_wire pin a b s s' : init_channels pin s = Ret tt s' ->
  wiring a b s -> rd Uart.dmachTx s' <> rd Uart.dmachRx s' ->
  wiring a b s' /\
  channels (rd Uart.dmachTx s') (rd Uart.dmachRx s') (Some (tx_channel (rd Uart.dmachTx s')))
    (Some (rx_channel (rd Uart.dmachRx s'))) s'.
Proof.
  intros H W Hne. pose proof W as (W1 & W2 & W3 & W4). destruct (init_channels_run pin s W1 W2) as (rx & tx & E1).
  rewrite E1 in H. clear E1.
  assert (wiring a b (configured rx tx s)) as W' by (exact (conj W1 (conj W2 (conj W3 W4)))).
  assert (channels tx rx (channel_of tx (tr (configured rx tx s))) (channel_of rx (tr (configured rx tx s)))
    (configured rx tx s)) as C by (exact (conj eq_refl (conj eq_refl (conj eq_refl eq_refl)))).
  apply (keeps_ret_inv _ _ _ _ _ (tail_wiring pin a b) W') in H as W''.
  apply (keeps_ret_inv _ _ _ _ _ (tail_channels pin _ _ _ _) C) in H as (C1 & C2 & C3 & C4).
  rewrite C1, C2 in Hne |- *. split; [done |]. refine (conj C1 (conj C2 (conj _ _))).
  - rewrite C3. cbn [configured tx_channel rx_channel tr emit upd_tr channel_of]. by rewrite Z.eqb_refl.
  - rewrite C4. cbn [configured tx_channel rx_channel tr emit upd_tr channel_of].
    by rewrite (proj2 (Z.eqb_neq tx rx)), Z.eqb_refl.
Qed.

Lemma uart_init_wires s s' : uart_init_ s = Ret tt s' -> rd jacdac_pin s' <> NO_PIN ->
  rd smtx s = 0 -> rd smrx s = 1 -> rd Uart.dmachTx s' <> rd Uart.dmachRx s' ->
  exists c d, cfg_of c = tx_cfg /\ cfg_of d = rx_cfg /\ wiring (Some c) (Some d) s' /\
    channels (rd Uart.dmachTx s') (rd Uart.dmachRx s') (Some (tx_channel (rd Uart.dmachTx s')))
      (Some (rx_channel (rd Uart.dmachRx s'))) s'.
Proof.
  intros H Hpin Htx Hrx Hne. unfold uart_init_ in H.
  set (a := loaded pio0 0 (tr s)). set (b := loaded pio0 1 (tr s)).
  assert (wiring a b s) as W by done.
  apply bind_inv in H as (v & s1 & E1 & H). apply (keeps_ret_inv (wiring a b)) in E1; [| frame_all | exact W].
  cbv zeta in H. revert H. generalize (u8 v). clear v W. intros pin H.
  apply bind_inv in H as ([] & s2 & E2 & H). assert (rd jacdac_pin s2 = pin) as Hj by by injection E2 as <-.
  apply (keeps_ret_inv (wiring a b)) in E2; [| frame_all | exact E1].
  destruct (pin =? NO_PIN) eqn:Hp; [injection H as <-; by apply Z.eqb_eq in Hp; rewrite <- Hj in Hp |].
  clear s1 E1 Hj Hp.
  do 3 (apply bind_inv in H as ([] & ?s & ?E & H);
    match goal with E1 : ?m ?x = Ret tt ?y, W : wiring a b ?x |- _ =>
      apply (keeps_ret_inv (wiring a b)) in E1; [| frame_all | exact W]; clear W end).
  do 4 (apply bind_inv in H as (? & ?s & ?E & H);
    match goal with E1 : ?m ?x = Ret _ ?y, W : wiring a b ?x |- _ =>
      apply (keeps_ret_inv (wiring a b)) in E1; [| frame_all | exact W]; clear W end).
  rewrite !bind_get in H. pose proof E0 as (W1 & _). rewrite W1 in H.
  apply bind_inv in H as ([] & s8 & E1 & H). apply (tx_init_wires _ _ _ _ _ _ _ E0) in E1 as (c & Hc & Wc).
  rewrite !bind_get in H. pose proof Wc as (_ & W2 & _). rewrite W2 in H.
  apply bind_inv in H as ([] & s9 & E1 & H). apply (rx_init_wires _ _ _ _ _ _ _ Wc) in E1 as (d & Hd & Wd).
  exists c, d. split; [done |]. split; [done |]. exact (init_channels_wire pin _ _ s9 s' H Wd Hne).
Qed.
End Wires.

(** The two sides of a board on which [uart_init_] has returned. *)
Lemma tx_side_init {E : Env} s s' bs : uart_init_ s = Ret tt s' -> rd jacdac_pin s' <> NO_PIN ->
  rd smtx s = 0 -> rd smrx s = 1 -> rd Uart.dmachTx s' <> rd Uart.dmachRx s' ->
  tx_side s' bs = Some (tx_cfg, map (fun b => b * 0x01010101) bs).
Proof.
  intros H H0 H1 H2 H3. destruct (uart_init_wires s s' H H0 H1 H2 H3) as (c & d & Hc & _ & (W1 & _ & W3 & _) & (_ & _ & C3 & _)).
  unfold tx_side. rewrite W1, W3, C3. cbn [tx_channel]. change (pio0 =? pio0) with true. cbn. by rewrite Hc.
Qed.
Lemma rx_side_init {E : Env} s s' len ws : uart_init_ s = Ret tt s' -> rd jacdac_pin s' <> NO_PIN ->
  rd smtx s = 0 -> rd smrx s = 1 -> rd Uart.dmachTx s' <> rd Uart.dmachRx s' ->
  rx_side s' len ws = Some (rx_cfg, take len (map (fun w => (w / 2 ^ 24) mod 256) ws)).
Proof.
  intros H H0 H1 H2 H3. destruct (uart_init_wires s s' H H0 H1 H2 H3) as (c & d & _ & Hd & (_ & W2 & _ & W4) & (_ & _ & _ & C4)).
  unfold rx_side. rewrite W2, W4, C4. cbn [rx_channel]. change (pio0 =? pio0) with true. cbn. by rewrite Hd.
Qed.

Lemma bytes_in ws vs : map byte3 vs = map (fun w => w mod 256) ws ++ [0] ->
  map (fun w => (w / 2 ^ 24) mod 256) vs = map (fun w => w mod 256) ws ++ [0].
Proof.
  intros H. transitivity (map (fun w => w mod 256) (map byte3 vs)).
  { rewrite map_map. apply map_ext. intros v. unfold byte3. by rewrite Z.shiftr_div_pow2. }
  rewrite H, map_app, map_map. f_equal. apply map_ext. intros w. apply Z.mod_mod. lia.
Qed.
Lemma bytes_out bs : Forall (fun b => 0 <= b < 256) bs ->
  map (fun w => w mod 256) (map (fun b => b * 0x01010101) bs) = bs.
Proof.
  intros Hb. rewrite map_map. rewrite <- (map_id bs) at 2. apply map_ext_in. intros b Hin.
  rewrite List.Forall_forall in Hb. specialize (Hb b Hin). zlia.
Qed.

(** ** The theorem *)

(** C2: a frame arrives byte for byte.  On two boards whose [uart_init_] has
    returned, with a bus pin and two distinct DMA channels: the channel of the
    first fills the transmit FIFO with the buffer, on any schedule; when the
    transmitter stalls - for which [tx_handler] waits before it sends the break -
    and the line goes high for five cycles and low for 77 or more, then the
    receiver of the second, whatever frame came before, has raised its flag
    once, and its channel has put into the buffer the very bytes of the first, in
    order, followed by one zero byte for the break, as far as there is room. *)
Theorem line_carries_frame {E1 E2 : Env} s s1 t t1 bs len :
  @uart_init_ E1 s = Ret tt s1 -> rd jacdac_pin s1 <> NO_PIN -> rd smtx s = 0 -> rd smrx s = 1 ->
  rd Uart.dmachTx s1 <> rd Uart.dmachRx s1 ->
  @uart_init_ E2 t = Ret tt t1 -> rd jacdac_pin t1 <> NO_PIN -> rd smtx t = 0 -> rd smrx t = 1 ->
  rd Uart.dmachTx t1 <> rd Uart.dmachRx t1 ->
  Forall (fun b => 0 <= b < 256) bs ->
  exists k ws, tx_side s1 bs = Some (k, ws) /\
    forall feeds tx levels tx' fifo, tx_idle tx -> concat feeds = ws ->
      tx_run k feeds tx [] = (levels, (tx', fifo)) ->
      stalled (snd (cycle k (mkIn true (head fifo) true) tx')) = true ->
    forall lead low rx, between_frames rx ->
    exists k' vs rx', rx_side t1 len vs = Some (k', take len (bs ++ [0])) /\
      rx_run k' (framing_levels (mkFraming lead ws levels low)) rx = (vs, [1], rx') /\ between_frames rx'.
Proof.
  intros H H0 H1 H2 H3 G G0 G1 G2 G3 Hb.
  exists tx_cfg, (map (fun b => b * 0x01010101) bs). split; [exact (tx_side_init (E := E1) s s1 bs H H0 H1 H2 H3) |].
  intros feeds tx levels tx' fifo Hi Hw Hr Hst lead low rx Hrx.
  assert (pc tx < 4)%nat as Hp by (destruct Hi as [-> _]; lia).
  apply (pc_run feeds tx []) in Hp. rewrite Hr in Hp. cbn [fst snd] in Hp.
  apply stalled_idle in Hst as [Hi' Hf]; [| exact Hp]. cbn [tx_head] in Hf.
  assert (fifo = []) as -> by (by destruct fifo).
  pose proof (idle_sent _ feeds tx [] (le_n _) Hi) as Hsent. rewrite Hr, Hw in Hsent.
  specialize (Hsent Hi' eq_refl). cbn [app fst] in Hsent.
  destruct (framing_run (mkFraming lead (map (fun b => b * 0x01010101) bs) levels low) rx Hsent Hrx)
    as (vs & rx' & E3 & Hrx' & Hv). cbn [words] in Hv.
  exists rx_cfg, vs, rx'. split; [| done]. rewrite (rx_side_init (E := E2) t t1 len vs G G0 G1 G2 G3).
  by rewrite (bytes_in _ _ Hv), bytes_out.
Qed.

(** Two boards on pin 9; channels 5 and 3 are handed out. *)
Definition board_env : Env :=
  phys_env (fun _ _ => None)
    (fun t c => match c with
       | dcfg_get_pin _ => 9
       | dma_claim_unused_channel _ =>
         match t with E_ret (dma_claim_unused_channel _) _ :: _ => 5 | _ => 3 end
       | _ => 0 end).
Definition board : machine :=
  match @uart_init_ board_env machine_init with Ret _ s => s | Stop _ s => s end.
Lemma board_ret : @uart_init_ board_env machine_init = Ret tt board.
Proof. vm_compute. reflexivity. Qed.

(** Three bytes, the last of which comes late, into a buffer of 252. *)
Definition board_bytes : list Z := [170; 0; 255].
Definition board_feeds : list (list Z) :=
  [[170 * 0x01010101; 0]; []] ++ replicate 500 [] ++ [[255 * 0x01010101]] ++ replicate 120 [].
Definition board_run := tx_run tx_cfg board_feeds tx_demo [].

Lemma line_carries_frame_witness :
  exists k ws, tx_side board board_bytes = Some (k, ws) /\
    forall feeds tx levels tx' fifo, tx_idle tx -> concat feeds = ws ->
      tx_run k feeds tx [] = (levels, (tx', fifo)) ->
      stalled (snd (cycle k (mkIn true (head fifo) true) tx')) = true ->
    forall lead low rx, between_frames rx ->
    exists k' vs rx', rx_side board 252 vs = Some (k', take 252 (board_bytes ++ [0])) /\
      rx_run k' (framing_levels (mkFraming lead ws levels low)) rx = (vs, [1], rx') /\ between_frames rx'.
Proof.
  apply (@line_carries_frame board_env board_env machine_init board machine_init board board_bytes 252
    board_ret); try exact board_ret; try reflexivity; try (vm_compute; discriminate).
  repeat constructor; lia.
Defined.

(** Such a run exists. *)
Example board_run_stalls :
  concat board_feeds = map (fun b => b * 0x01010101) board_bytes /\
  stalled (snd (cycle tx_cfg (mkIn true (head (snd (snd board_run))) true) (fst (snd board_run)))) = true.
Proof. split; vm_compute; reflexivity. Qed.
