(* ===== verification/Spi.v ===== *)
(** * Spi: the SPI master of [spi.c]

    One transfer at a time.  [jd_spi_xfer] starts one or two DMA channels and
    arms the completion handler with the caller's callback as its context; the
    DMA interrupt only records the callback, and [jd_spi_process], called from
    the main loop, frees the driver and then runs it. *)

From S2P Require Import Prelude Events Machine RefEnv Dma Pins.

(** ** Definitions *)

Definition BLOCK_SIZE : Z := 4096.

(** [spi_inst_t *] is the number of the instance. *)
Definition spi0 : Z := 0.
Definition spi1 : Z := 1.

(** [jd_spi_cfg_t] *)
Record jd_spi_cfg_t := {
  cfg_sck : Z; cfg_miso : Z; cfg_mosi : Z; cfg_hz : Z; cfg_mode : Z
}.

Definition spi_in_use : var bool := {|
  rd s := f_spi_in_use (m_spi s);
  wr v := upd_spi (fun x => {| f_spi_in_use := v; f_dma_claimed := f_dma_claimed x; f_dma_tx := f_dma_tx x;
      f_dma_rx := f_dma_rx x; f_spi := f_spi x;
      f_spi_done_cb := f_spi_done_cb x |}) |}.
Definition dma_claimed : var bool := {|
  rd s := f_dma_claimed (m_spi s);
  wr v := upd_spi (fun x => {| f_spi_in_use := f_spi_in_use x; f_dma_claimed := v; f_dma_tx := f_dma_tx x;
      f_dma_rx := f_dma_rx x; f_spi := f_spi x;
      f_spi_done_cb := f_spi_done_cb x |}) |}.
Definition dma_tx : var Z := {|
  rd s := f_dma_tx (m_spi s);
  wr v := upd_spi (fun x => {| f_spi_in_use := f_spi_in_use x; f_dma_claimed := f_dma_claimed x;
      f_dma_tx := v; f_dma_rx := f_dma_rx x; f_spi := f_spi x;
      f_spi_done_cb := f_spi_done_cb x |}) |}.
Definition dma_rx : var Z := {|
  rd s := f_dma_rx (m_spi s);
  wr v := upd_spi (fun x => {| f_spi_in_use := f_spi_in_use x; f_dma_claimed := f_dma_claimed x;
      f_dma_tx := f_dma_tx x; f_dma_rx := v; f_spi := f_spi x;
      f_spi_done_cb := f_spi_done_cb x |}) |}.
Definition spi : var (option Z) := {|
  rd s := f_spi (m_spi s);
  wr v := upd_spi (fun x => {| f_spi_in_use := f_spi_in_use x; f_dma_claimed := f_dma_claimed x;
      f_dma_tx := f_dma_tx x; f_dma_rx := f_dma_rx x; f_spi := v;
      f_spi_done_cb := f_spi_done_cb x |}) |}.
Definition spi_done_cb : var (option cb_t) := {|
  rd s := f_spi_done_cb (m_spi s);
  wr v := upd_spi (fun x => {| f_spi_in_use := f_spi_in_use x; f_dma_claimed := f_dma_claimed x;
      f_dma_tx := f_dma_tx x; f_dma_rx := f_dma_rx x; f_spi := f_spi x;
      f_spi_done_cb := v |}) |}.

Section Operations.
(** The board header picks the instance that [spi_default] names. *)
Context {E : Env} (spi_default : Z).

Definition jd_spi_process : M unit :=
  let! f := get spi_done_cb in
  match f with
  | None => ret tt
  | Some f =>
    spi_done_cb <~ None ;;
    spi_in_use <~ false ;;
    run_cb f
  end.

Definition spi_dma_cb (cb : option cb_t) : M unit :=
  let! old := get spi_done_cb in
  JD_ASSERT (match old with None => true | Some _ => false end) ;;
  spi_done_cb <~ cb.

(** The first pin that is connected, or [NO_PIN]. *)
Fixpoint first_pin (pins : list Z) : Z :=
  match pins with
  | [] => NO_PIN
  | p :: pins => if negb (p =? NO_PIN) then p else first_pin pins
  end.

Fixpoint set_spi_function (pins : list Z) : M unit :=
  match pins with
  | [] => ret tt
  | p :: pins =>
    when negb (p =? NO_PIN) do sdk (gpio_set_function p GPIO_FUNC_SPI) ;;
    set_spi_function pins
  end.

Definition jd_spi_init (cfg : jd_spi_cfg_t) : M Z :=
  let! busy := get spi_in_use in
  if busy then ret (-100)
  else
    let pins := [cfg_sck cfg; cfg_miso cfg; cfg_mosi cfg] in
    let pin := first_pin pins in
    if pin =? NO_PIN then ret (-1)
    else
      let inst := if z2b (Z.land (pin / 8) 1) then spi1 else spi0 in
      spi <~ Some inst ;;
      let! hz := sdkv (spi_init inst (cfg_hz cfg)) in
      sdk (spi_set_format inst 8 (Z.land (Z.shiftr (cfg_mode cfg) 1) 1) (Z.land (cfg_mode cfg) 1)) ;;
      set_spi_function pins ;;
      sdk (DMESG "SPI: sck=%d miso=%d mosi=%d hz=%u->%u"
             [cfg_sck cfg; cfg_miso cfg; cfg_mosi cfg; cfg_hz cfg; hz]) ;;
      let! claimed := get dma_claimed in
      when negb claimed do
        (dma_claimed <~ true ;;
         let! ch := sdkv (dma_claim_unused_channel true) in
         dma_tx <~ u8 ch ;;
         let! ch := sdkv (dma_claim_unused_channel true) in
         dma_rx <~ u8 ch) ;;
      let! tx := get dma_tx in
      let c := dma_channel_get_default_config tx in
      let c := channel_config_set_transfer_data_size c DMA_SIZE_8 in
      let c := channel_config_set_dreq c (spi_get_dreq inst true) in
      sdk (dma_channel_configure tx c (spi_dr inst) NULL 0 false) ;;
      let! rx := get dma_rx in
      let c := dma_channel_get_default_config rx in
      let c := channel_config_set_transfer_data_size c DMA_SIZE_8 in
      let c := channel_config_set_dreq c (spi_get_dreq inst false) in
      let c := channel_config_set_read_increment c false in
      let c := channel_config_set_write_increment c true in
      sdk (dma_channel_configure rx c NULL (spi_dr spi_default) 0 false) ;;
      ret 0.

Definition jd_spi_is_ready : M bool :=
  let! inst := get spi in
  let! busy := get spi_in_use in
  ret (match inst with None => false | Some _ => true end && negb busy).

Definition jd_spi_max_block_size : Z := BLOCK_SIZE.

Definition is_null (a : addr) : bool := bool_decide (a = NULL).

Definition jd_spi_xfer (txdata rxdata : addr) (numbytes : Z) (done_fn : option cb_t) : M Z :=
  JD_ASSERT (match done_fn with Some _ => true | None => false end) ;;
  let! ready := jd_spi_is_ready in
  if negb ready then ret (-1)
  else if BLOCK_SIZE <? numbytes then ret (-2)
  else if numbytes =? 0 then ret (-3)
  else
    (JD_ASSERT (negb (is_null txdata) || negb (is_null rxdata)) ;;
     let! start_ch :=
       (if negb (is_null txdata) then
          let! ch := get dma_tx in
          sdk (dma_channel_set_read_addr ch txdata false) ;;
          sdk (dma_channel_set_trans_count ch numbytes false) ;;
          let! m := c_shl1 ch in
          ret (Z.lor 0 m)
        else ret 0) in
     let! start_ch :=
       (if negb (is_null rxdata) then
          let! ch := get dma_rx in
          sdk (dma_channel_set_write_addr ch rxdata false) ;;
          sdk (dma_channel_set_trans_count ch numbytes false) ;;
          let! m := c_shl1 ch in
          ret (Z.lor start_ch m)
        else ret start_ch) in
     spi_in_use <~ true ;;
     let! rx := get dma_rx in
     let! tx := get dma_tx in
     dma_set_ch_cb (if negb (is_null rxdata) then rx else tx) (Some spi_dma_cb_handler) done_fn ;;
     sdk (dma_start_channel_mask start_ch) ;;
     ret 0).
End Operations.

(** *** The specification of a transfer *)

(** The driver is free, and initialised with channels [tx] and [rx]. *)
Definition spi_ready (tx rx : Z) (s : machine) : Prop :=
  rd spi_in_use s = false /\ rd spi_done_cb s = None /\ (exists i, rd spi s = Some i) /\
  rd dma_tx s = tx /\ rd dma_rx s = rx /\ 0 <= tx < 12 /\ 0 <= rx < 12 /\
  length (rd dmaHandler s) = 12%nat.

(** The channel whose completion ends a transfer, and those that run. *)
Definition done_channel (tx rx : Z) (rxdata : addr) : Z := if is_null rxdata then tx else rx.
Definition started (tx rx : Z) (txdata rxdata : addr) : Z :=
  Z.lor (if is_null txdata then 0 else bit tx) (if is_null rxdata then 0 else bit rx).

(** What the driver programs into the channels before it starts them. *)
Definition programmed (tx rx : Z) (txdata rxdata : addr) (n : Z) : list event :=
  (if is_null rxdata then []
   else [E_call (dma_channel_set_trans_count rx n false);
         E_call (dma_channel_set_write_addr rx rxdata false)]) ++
  (if is_null txdata then []
   else [E_call (dma_channel_set_trans_count tx n false);
         E_call (dma_channel_set_read_addr tx txdata false)]).

(** What [dma_set_ch_cb] does to the hardware, newest first. *)
Definition armed (ch : Z) : list event :=
  [E_write NVIC_ISER (bit DMA_IRQ_0); E_write NVIC_ICPR (bit DMA_IRQ_0);
   E_call (dma_channel_set_irq0_enabled ch true); E_write DMA_INTS0 (bit ch)].

(** ** Lemmas *)

(** Not ready: a transfer or an initialisation is refused and nothing changes. *)
Lemma xfer_refused txdata rxdata n f s :
  rd spi_in_use s = true -> jd_spi_xfer txdata rxdata n (Some f) s = Ret (-1) s.
Proof.
  intros Hb. unfold jd_spi_xfer, jd_spi_is_ready. mexec. rewrite Hb.
  by destruct (rd spi s).
Qed.

(** A transfer from a free driver. *)
Lemma xfer_run tx rx txdata rxdata n f s ctx :
  spi_ready tx rx s -> 0 < n <= 4096 -> is_null txdata && is_null rxdata = false ->
  rd dmaHandler s !! Z.to_nat (done_channel tx rx rxdata) = Some (mkDMAHandler ctx None) ->
  exists s', jd_spi_xfer txdata rxdata n (Some f) s = Ret 0 s' /\
    rd spi_in_use s' = true /\ rd spi_done_cb s' = None /\
    rd dmaHandler s' = <[Z.to_nat (done_channel tx rx rxdata) :=
                          mkDMAHandler (Some f) (Some spi_dma_cb_handler)]> (rd dmaHandler s) /\
    rd spi s' = rd spi s /\ rd dma_tx s' = tx /\ rd dma_rx s' = rx /\
    tr s' = E_call (dma_start_channel_mask (started tx rx txdata rxdata))
              :: armed (done_channel tx rx rxdata) ++ programmed tx rx txdata rxdata n ++ tr s.
Proof.
  intros (Hu & Hd & (i & Hi) & Htx & Hrx & Ht & Hr & Hl) Hn Hnull Hh.
  unfold jd_spi_xfer, jd_spi_is_ready, JD_ASSERT, BLOCK_SIZE.
  unfold bind at 1, ret at 1. unfold bind at 1 2 3, get at 1 2, ret at 1. rewrite Hu, Hi. cbn [andb negb].
  rewrite (proj2 (Z.ltb_ge 4096 n)), (proj2 (Z.eqb_neq n 0)) by lia.
  rewrite <- negb_andb, Hnull. unfold done_channel, started, programmed in *.
  destruct (is_null txdata) eqn:Ent, (is_null rxdata) eqn:Enr; try discriminate; cbn [negb];
    mexec; rewrite ?Htx; rewrite ?shl1_run by (vsimp; lia); vsimp; rewrite ?Hrx;
    rewrite ?shl1_run by (vsimp; lia); vsimp; rewrite ?Htx, ?Hrx.
  all: erewrite dma_set_run by (vsimp; first [eassumption | lia]).
  all: eexists; split; [reflexivity |]; vsimp; split_and!; try done.
  all: cbn [app armed]; rewrite ?Z.lor_0_l, ?Z.lor_0_r; reflexivity.
Qed.

Lemma set_spi_function_run pins s :
  exists es, set_spi_function pins s = Ret tt (upd_tr (app es) s) /\
    forall p, In p pins -> p <> NO_PIN -> In (E_call (gpio_set_function p GPIO_FUNC_SPI)) es.
Proof.
  revert s. induction pins as [| p pins IH]; intros s; [exists []; by destruct s |].
  cbn [set_spi_function]. destruct (Z.eqb_spec p NO_PIN) as [-> | Hp]; cbn [negb].
  - destruct (IH s) as (es & E1 & Hin). exists es. unfold bind, ret. rewrite E1.
    split; [done |]. intros q [-> | Hq] Hn; [done | by apply Hin].
  - destruct (IH (emit (E_call (gpio_set_function p GPIO_FUNC_SPI)) s)) as (es & E1 & Hin).
    exists (es ++ [E_call (gpio_set_function p GPIO_FUNC_SPI)]). split.
    + change ((sdk (gpio_set_function p GPIO_FUNC_SPI) ;; set_spi_function pins) s) with
        (set_spi_function pins (emit (E_call (gpio_set_function p GPIO_FUNC_SPI)) s)).
      rewrite E1. f_equal. unfold upd_tr, emit. cbn. by rewrite <- app_assoc.
    + intros q [-> | Hq] Hn; apply in_or_app; [right; by left | left; by apply Hin].
Qed.

(** The instance a pin belongs to: pins come in groups of eight. *)
Definition inst_of (pin : Z) : Z := if Z.testbit (pin / 8) 0 then spi1 else spi0.

(** The configurations the two channels get. *)
Definition tx_config (ch inst : Z) : dma_channel_config :=
  channel_config_set_dreq
    (channel_config_set_transfer_data_size (dma_channel_get_default_config ch) DMA_SIZE_8)
    (spi_get_dreq inst true).
Definition rx_config (ch inst : Z) : dma_channel_config :=
  channel_config_set_write_increment (channel_config_set_read_increment
    (channel_config_set_dreq
      (channel_config_set_transfer_data_size (dma_channel_get_default_config ch) DMA_SIZE_8)
      (spi_get_dreq inst false)) false) true.

(** ** Properties *)

(** The life of a transfer.  From a free driver a transfer of 1 to 4096
    bytes starts exactly the channels of the buffers it was given, programmed
    with them and the length, and arms the completion of the receive channel,
    or of the transmit channel when nothing is received.  Until it completes
    every other transfer and initialisation is refused and changes nothing.
    The completion only records the callback; the next [jd_spi_process] frees
    the driver, so that the callback can start a transfer, and calls it once. *)
Theorem spi_transfer_lifecycle {E : Env} spi_default tx rx txdata rxdata n f s ctx :
  spi_ready tx rx s -> 0 < n <= 4096 -> is_null txdata && is_null rxdata = false ->
  rd dmaHandler s !! Z.to_nat (done_channel tx rx rxdata) = Some (mkDMAHandler ctx None) ->
  exists s1 s2 s3, jd_spi_xfer txdata rxdata n (Some f) s = Ret 0 s1 /\
    (exists es, tr s1 = E_call (dma_start_channel_mask (started tx rx txdata rxdata)) :: es
                        ++ programmed tx rx txdata rxdata n ++ tr s) /\
    rd dmaHandler s1 !! Z.to_nat (done_channel tx rx rxdata) =
      Some (mkDMAHandler (Some f) (Some spi_dma_cb_handler)) /\
    (forall a b m g, jd_spi_xfer a b m (Some g) s1 = Ret (-1) s1) /\
    (forall cfg, jd_spi_init spi_default cfg s1 = Ret (-100) s1) /\
    jd_spi_process s1 = Ret tt s1 /\
    spi_dma_cb (Some f) s1 = Ret tt s2 /\ tr s2 = tr s1 /\
    jd_spi_process s2 = run_cb f s3 /\ spi_ready tx rx s3 /\ tr s3 = tr s2.
Proof.
  intros Hr Hn Hnull Hh. pose proof Hr as (Hu & Hd & (i & Hi) & Htx & Hrx & Ht & Hrr & Hl).
  destruct (xfer_run tx rx txdata rxdata n f s ctx Hr Hn Hnull Hh)
    as (s1 & E1 & Hu1 & Hd1 & Hh1 & Hi1 & Ht1 & Hr1 & Hes).
  exists s1, (wr spi_done_cb (Some f) s1), (wr spi_in_use false (wr spi_done_cb None (wr spi_done_cb (Some f) s1))).
  split; [done |]. split; [by exists (armed (done_channel tx rx rxdata)) |].
  split; [rewrite Hh1; apply list_lookup_insert_eq; by eapply lookup_lt_Some |].
  split; [intros; by apply xfer_refused |].
  split; [intros; unfold jd_spi_init; mexec; by rewrite Hu1 |].
  split; [unfold jd_spi_process; mexec; by rewrite Hd1 |].
  split; [unfold spi_dma_cb; mexec; by rewrite Hd1 |].
  split; [done |]. split; [reflexivity |]. split; [| done].
  unfold spi_ready. vsimp. rewrite Hi1, Hh1, length_insert. split_and!; try done; try lia. by exists i.
Qed.

(** The driver initialised on instance 0 with channels 1 and 2. *)
Definition spi_demo : machine :=
  wr spi (Some 0) (wr dma_tx 1 (wr dma_rx 2 (wr dma_claimed true machine_init))).

Lemma spi_transfer_lifecycle_witness :
  exists s1 s2 s3, @jd_spi_xfer (mem 16) (mem 32) 8 (Some (cb_client 5)) spi_demo = Ret 0 s1 /\
    (exists es, tr s1 = E_call (dma_start_channel_mask (started 1 2 (mem 16) (mem 32))) :: es
                        ++ programmed 1 2 (mem 16) (mem 32) 8 ++ tr spi_demo) /\
    rd dmaHandler s1 !! Z.to_nat (done_channel 1 2 (mem 32)) =
      Some (mkDMAHandler (Some (cb_client 5)) (Some spi_dma_cb_handler)) /\
    (forall a b m g, @jd_spi_xfer a b m (Some g) s1 = Ret (-1) s1) /\
    (forall cfg, @jd_spi_init env0 0 cfg s1 = Ret (-100) s1) /\
    @jd_spi_process env0 s1 = Ret tt s1 /\
    spi_dma_cb (Some (cb_client 5)) s1 = Ret tt s2 /\ tr s2 = tr s1 /\
    @jd_spi_process env0 s2 = @run_cb env0 (cb_client 5) s3 /\ spi_ready 1 2 s3 /\ tr s3 = tr s2.
Proof.
  apply (@spi_transfer_lifecycle env0 0 1 2 (mem 16) (mem 32) 8 (cb_client 5) spi_demo None);
    [| lia | reflexivity | reflexivity].
  unfold spi_ready. split_and!; try reflexivity; try done. by exists 0.
Defined.

(** [jd_spi_xfer] checks its arguments in order, and a rejected call
    changes nothing: no callback panics; a busy or uninitialised driver is -1;
    more than 4096 bytes is -2; none is -3; no buffer at all panics. *)
Theorem spi_xfer_errors txdata rxdata n f s :
  jd_spi_xfer txdata rxdata n None s = Stop Panic s /\
  ((rd spi s = None \/ rd spi_in_use s = true) -> jd_spi_xfer txdata rxdata n (Some f) s = Ret (-1) s) /\
  (forall i, rd spi s = Some i -> rd spi_in_use s = false ->
     (4096 < n -> jd_spi_xfer txdata rxdata n (Some f) s = Ret (-2) s) /\
     (n = 0 -> jd_spi_xfer txdata rxdata n (Some f) s = Ret (-3) s) /\
     (0 < n <= 4096 -> jd_spi_xfer NULL NULL n (Some f) s = Stop Panic s)).
Proof.
  split; [reflexivity |]. split.
  - intros [Hi | Hu]; [| by apply xfer_refused].
    unfold jd_spi_xfer, jd_spi_is_ready. mexec. by rewrite Hi.
  - intros i Hi Hu. unfold jd_spi_xfer, jd_spi_is_ready, BLOCK_SIZE. mexec. rewrite Hi, Hu.
    cbn [negb andb]. split_and!; intros Hn.
    + by rewrite (proj2 (Z.ltb_lt 4096 n)).
    + by subst.
    + by rewrite (proj2 (Z.ltb_ge 4096 n)), (proj2 (Z.eqb_neq n 0)) by lia.
Qed.

Lemma spi_xfer_errors_witness :
  @jd_spi_xfer (mem 0) NULL 5000 None spi_demo = Stop Panic spi_demo /\
  ((rd spi spi_demo = None \/ rd spi_in_use spi_demo = true) ->
     @jd_spi_xfer (mem 0) NULL 5000 (Some (cb_client 1)) spi_demo = Ret (-1) spi_demo) /\
  (forall i, rd spi spi_demo = Some i -> rd spi_in_use spi_demo = false ->
     (4096 < 5000 -> @jd_spi_xfer (mem 0) NULL 5000 (Some (cb_client 1)) spi_demo = Ret (-2) spi_demo) /\
     (5000 = 0 -> @jd_spi_xfer (mem 0) NULL 5000 (Some (cb_client 1)) spi_demo = Ret (-3) spi_demo) /\
     (0 < 5000 <= 4096 -> @jd_spi_xfer NULL NULL 5000 (Some (cb_client 1)) spi_demo
                          = Stop Panic spi_demo)).
Proof. apply (spi_xfer_errors (mem 0) NULL 5000 (cb_client 1) spi_demo). Defined.

(** [jd_spi_init] refuses while a transfer runs and when no pin is
    connected; otherwise it selects the instance of the first connected pin,
    gives every connected pin its SPI function, claims the two channels at most
    once, and configures both for that instance - except that the receive
    channel reads the data register of the default instance of the board,
    whichever instance is selected. *)
Theorem spi_init_cases {E : Env} spi_default cfg s :
  let pins := [cfg_sck cfg; cfg_miso cfg; cfg_mosi cfg] in
  let inst := inst_of (first_pin pins) in
  (rd spi_in_use s = true -> jd_spi_init spi_default cfg s = Ret (-100) s) /\
  (rd spi_in_use s = false -> first_pin pins = NO_PIN -> jd_spi_init spi_default cfg s = Ret (-1) s) /\
  (rd spi_in_use s = false -> first_pin pins <> NO_PIN -> exists s' tx rx es,
     jd_spi_init spi_default cfg s = Ret 0 s' /\
     rd spi s' = Some inst /\ rd spi_in_use s' = false /\ rd dma_claimed s' = true /\
     rd dma_tx s' = tx /\ rd dma_rx s' = rx /\
     (rd dma_claimed s = true -> tx = rd dma_tx s /\ rx = rd dma_rx s) /\
     tr s' = E_call (dma_channel_configure rx (rx_config rx inst) NULL (spi_dr spi_default) 0 false)
             :: E_call (dma_channel_configure tx (tx_config tx inst) (spi_dr inst) NULL 0 false)
             :: es ++ tr s /\
     forall p, In p pins -> p <> NO_PIN -> In (E_call (gpio_set_function p GPIO_FUNC_SPI)) es).
Proof.
  intros pins inst. split; [intros Hu; unfold jd_spi_init; mexec; by rewrite Hu |].
  split; intros Hu Hp; unfold jd_spi_init; fold pins; unfold bind at 1, get at 1; rewrite Hu.
  { by rewrite Hp. }
  rewrite (proj2 (Z.eqb_neq (first_pin pins) NO_PIN)) by done.
  set (i := if z2b (Z.land (first_pin pins / 8) 1) then spi1 else spi0).
  assert (i = inst) as Hi.
  { unfold i, inst, inst_of. change 1 with (bit 0) at 1. by rewrite land_bit by lia. }
  clearbody i inst. subst i. fold pins.
  unfold bind at 1, put at 1. unfold bind at 1, sdkv at 1. unfold bind at 1, sdk at 1, log at 1.
  match goal with |- context [bind (set_spi_function pins) _ ?x] => set (s1 := x) end.
  destruct (set_spi_function_run pins s1) as (es & E1 & Hin).
  assert (rd spi s1 = Some inst /\ rd spi_in_use s1 = false /\
          rd dma_tx s1 = rd dma_tx s /\ rd dma_rx s1 = rd dma_rx s /\
          exists e1 e2, tr s1 = e1 :: e2 :: tr s) as (H1 & H2 & H3 & H4 & e1 & e2 & H5).
  { unfold s1. vsimp. split_and!; try done. by eexists _, _. }
  unfold bind at 1. rewrite E1. mexec. vsimp.
  change (rd dma_claimed s1) with (rd dma_claimed s).
  destruct (rd dma_claimed s) eqn:Hc; cbn [negb]; vsimp;
    [eexists _, _, _, (_ :: es ++ [e1; e2]) | eexists _, _, _, (_ :: _ :: _ :: es ++ [e1; e2])];
    (split; [reflexivity |]); vsimp; split_and!; try done;
    try (rewrite H5; cbn [app]; by rewrite <- app_assoc);
    intros p Hpi Hpn; cbn [In]; rewrite in_app_iff; auto 10.
Qed.

(** Pins 10 and 11 belong to instance 1, the default is instance 0. *)
Definition spi_demo_cfg : jd_spi_cfg_t :=
  {| cfg_sck := 10; cfg_miso := NO_PIN; cfg_mosi := 11; cfg_hz := 1000000; cfg_mode := 0 |}.

Lemma spi_init_cases_witness :
  first_pin [10; NO_PIN; 11] <> NO_PIN /\ inst_of 10 = spi1 /\
  exists s' tx rx es, @jd_spi_init env0 0 spi_demo_cfg machine_init = Ret 0 s' /\
     rd spi s' = Some spi1 /\ rd spi_in_use s' = false /\ rd dma_claimed s' = true /\
     rd dma_tx s' = tx /\ rd dma_rx s' = rx /\
     (rd dma_claimed machine_init = true -> tx = 0 /\ rx = 0) /\
     tr s' = E_call (dma_channel_configure rx (rx_config rx spi1) NULL (spi_dr 0) 0 false)
             :: E_call (dma_channel_configure tx (tx_config tx spi1) (spi_dr spi1) NULL 0 false)
             :: es ++ tr machine_init /\
     forall p, In p [10; NO_PIN; 11] -> p <> NO_PIN ->
       In (E_call (gpio_set_function p GPIO_FUNC_SPI)) es.
Proof.
  split; [done |]. split; [reflexivity |].
  apply (@spi_init_cases env0 0 spi_demo_cfg machine_init); [reflexivity | done].
Defined.
