(* ===== verification/I2c.v ===== *)
(** * I2c: the I2C master of [i2c.c]

    One instance, chosen by the configured pins.  The data transfers are the
    SDK's blocking calls; what the driver adds is the choice of the instance,
    the checks on the pins, and the repeated start that joins two writes. *)

From S2P Require Import Prelude Events Machine RefEnv Pins.

(** ** Definitions *)

(** [i2c_inst_t *] is the number of the instance. *)
Definition i2c0 : Z := 0.
Definition i2c1 : Z := 1.

Definition i2c_inst : var (option Z) := {|
  rd s := f_i2c_inst (m_i2c s);
  wr v := upd_i2c (fun x => {| f_i2c_inst := v |}) |}.

Definition I2C_INST (pin : Z) : Z := if z2b (Z.land (Z.shiftr pin 1) 1) then i2c1 else i2c0.

(** Signed multiplication: overflow is undefined. *)
Definition c_mul (a b : Z) : M Z :=
  if (-2147483648 <=? a * b) && (a * b <? 2147483648) then ret (a * b) else halt UB.

Section Operations.
Context {E : Env}.

Definition i2c_init_ : M Z :=
  let! inst := get i2c_inst in
  match inst with
  | Some _ => ret 0
  | None =>
    let! sda := sdkv (dcfg_get_pin "i2c.pinSDA") in
    let! scl := sdkv (dcfg_get_pin "i2c.pinSCL") in
    let sda := u8 sda in
    let scl := u8 scl in
    if (sda =? 0xff) || (scl =? 0xff) then ret (-1)
    else if negb (I2C_INST sda =? I2C_INST scl) then
      (sdk (DMESG "i2c: inst(SDA)!=inst(SCL)" []) ;; ret (-2))
    else if z2b (Z.land sda 1) || negb (z2b (Z.land scl 1)) then
      (sdk (DMESG "i2c: sda/scl invalid" []) ;; ret (-3))
    else
      (i2c_inst <~ Some (I2C_INST sda) ;;
       let! khz := sdkv (dcfg_get_i32 "i2c.kHz" 100) in
       let! hz := c_mul (i32 khz) 1000 in
       sdk (i2c_init (I2C_INST sda) (u32 hz)) ;;
       sdk (gpio_set_function sda GPIO_FUNC_I2C) ;;
       sdk (gpio_set_function scl GPIO_FUNC_I2C) ;;
       sdk (gpio_pull_up sda) ;;
       sdk (gpio_pull_up scl) ;;
       ret 0)
  end.

Definition i2c_read_ex (device_address : Z) (dst : addr) (len : Z) : M Z :=
  let! inst := get i2c_inst in
  match inst with
  | None => ret (-1)
  | Some inst =>
    let! r := sdkv (i2c_read_blocking inst device_address dst len false) in
    let r := i32 r in
    ret (if r <? 0 then r else 0)
  end.

Definition i2c_write_ex2 (device_address : Z) (src : addr) (len : Z) (src2 : addr) (len2 : Z)
    (repeated : bool) : M Z :=
  let! inst := get i2c_inst in
  match inst with
  | None => ret (-1)
  | Some inst =>
    let! r := sdkv (i2c_write_blocking inst device_address src len (repeated || (0 <? len2))) in
    let r := i32 r in
    if r <? 0 then ret r
    else
      let! r :=
        (if 0 <? len2 then
           let! r := sdkv (i2c_write_blocking inst device_address src2 len2 repeated) in
           ret (i32 r)
         else ret r) in
      ret (if r <? 0 then r else 0)
  end.
End Operations.

(** *** The specification: which bus transactions a call makes *)

(** A call and its result, as the driver sees it. *)
Definition answered {E : Env} (c : call) (s : machine) : Z * machine :=
  (i32 (ret_of (tr s) c), emit (E_ret c (ret_of (tr s) c)) s).

(** A pin pair the hardware can use: both on one instance, SDA even, SCL odd. *)
Definition i2c_pins_ok (sda scl : Z) : Prop :=
  I2C_INST sda = I2C_INST scl /\ Z.testbit sda 0 = false /\ Z.testbit scl 0 = true.

(** ** Properties *)

(** [i2c_init_] on every branch.  A second call does nothing; a missing pin
    is -1, pins of two instances -2, pins in the wrong places -3, and none of
    these selects an instance; otherwise the common instance is selected and
    initialised at the configured rate, and both pins get the I2C function and
    a pull-up.  Success means the pin pair is usable. *)
Theorem i2c_init_cases {E : Env} s sda scl khz :
  (forall t, ret_of t (dcfg_get_pin "i2c.pinSDA") = sda) ->
  (forall t, ret_of t (dcfg_get_pin "i2c.pinSCL") = scl) ->
  (forall t, ret_of t (dcfg_get_i32 "i2c.kHz" 100) = khz) ->
  0 <= sda < 256 -> 0 <= scl < 256 -> -2147483 <= khz <= 2147483 ->
  (forall i, rd i2c_inst s = Some i -> i2c_init_ s = Ret 0 s) /\
  (rd i2c_inst s = None -> exists r s', i2c_init_ s = Ret r s' /\
     (r = -1 /\ (sda = 255 \/ scl = 255) /\ rd i2c_inst s' = None \/
      r = -2 /\ I2C_INST sda <> I2C_INST scl /\ rd i2c_inst s' = None \/
      r = -3 /\ I2C_INST sda = I2C_INST scl /\ ~ i2c_pins_ok sda scl /\ rd i2c_inst s' = None \/
      r = 0 /\ i2c_pins_ok sda scl /\ rd i2c_inst s' = Some (I2C_INST sda) /\
      exists es, tr s' =
        E_call (gpio_pull_up scl) :: E_call (gpio_pull_up sda)
        :: E_call (gpio_set_function scl GPIO_FUNC_I2C) :: E_call (gpio_set_function sda GPIO_FUNC_I2C)
        :: E_call (i2c_init (I2C_INST sda) (u32 (khz * 1000))) :: es ++ tr s)).
Proof.
  intros Hsda Hscl Hkhz H1 H2 H3. split; [intros i Hi; unfold i2c_init_; mexec; by rewrite Hi |].
  intros Hi. unfold i2c_init_, c_mul. mexec. rewrite Hi, Hsda, Hscl, !u8_id by lia.
  change 1 with (bit 0). rewrite !land_bit by lia. unfold i2c_pins_ok.
  destruct (Z.eqb_spec sda 255); [eexists _, _; split; [reflexivity | vsimp; auto] |].
  destruct (Z.eqb_spec scl 255); [eexists _, _; split; [reflexivity | vsimp; auto] |]. cbn [orb].
  destruct (Z.eqb_spec (I2C_INST sda) (I2C_INST scl)) as [He | He]; cbn [negb];
    [| eexists _, _; split; [reflexivity | vsimp; auto]].
  destruct (Z.testbit sda 0), (Z.testbit scl 0); cbn [orb negb];
    try (eexists _, _; split; [reflexivity | vsimp; right; right; left; split_and!; try done; by intros (? & ? & ?)]).
  rewrite Hkhz, i32_id by lia.
  rewrite (proj2 (Z.leb_le _ (khz * 1000))), (proj2 (Z.ltb_lt (khz * 1000) _)) by lia. cbn [andb].
  eexists _, _. split; [reflexivity |]. vsimp. right. right. right. split_and!; try done.
  by eexists [_; _; _].
Qed.

(** SDA on pin 4, SCL on pin 5, the default rate. *)
Definition i2c_demo_env : Env :=
  ref_env 0 (fun _ _ => None)
    (fun _ c => match c with
                | dcfg_get_pin k => if String.eqb k "i2c.pinSDA" then 4 else 5
                | dcfg_get_i32 _ d => d
                | _ => 0 end) (fun _ _ => []).

Lemma i2c_init_cases_witness :
  (forall i, rd i2c_inst machine_init = Some i -> @i2c_init_ i2c_demo_env machine_init = Ret 0 machine_init) /\
  (rd i2c_inst machine_init = None -> exists r s', @i2c_init_ i2c_demo_env machine_init = Ret r s' /\
     (r = -1 /\ (4 = 255 \/ 5 = 255) /\ rd i2c_inst s' = None \/
      r = -2 /\ I2C_INST 4 <> I2C_INST 5 /\ rd i2c_inst s' = None \/
      r = -3 /\ I2C_INST 4 = I2C_INST 5 /\ ~ i2c_pins_ok 4 5 /\ rd i2c_inst s' = None \/
      r = 0 /\ i2c_pins_ok 4 5 /\ rd i2c_inst s' = Some (I2C_INST 4) /\
      exists es, tr s' =
        E_call (gpio_pull_up 5) :: E_call (gpio_pull_up 4)
        :: E_call (gpio_set_function 5 GPIO_FUNC_I2C) :: E_call (gpio_set_function 4 GPIO_FUNC_I2C)
        :: E_call (i2c_init (I2C_INST 4) (u32 (100 * 1000))) :: es ++ tr machine_init)).
Proof.
  apply (@i2c_init_cases i2c_demo_env machine_init 4 5 100); try reflexivity; lia.
Defined.

(** A write of two buffers is one bus transaction: the first part keeps the
    bus when a second part follows, the second part is sent exactly when it is
    not empty and the first one succeeded, and the bus is released at the end
    unless the caller asked to keep it.  The result is 0 or the first error. *)
Theorem i2c_write_ex2_joins {E : Env} dev src len src2 len2 repeated inst s :
  rd i2c_inst s = Some inst ->
  let '(r1, s1) := answered (i2c_write_blocking inst dev src len (repeated || (0 <? len2))) s in
  let '(r2, s2) := answered (i2c_write_blocking inst dev src2 len2 repeated) s1 in
  i2c_write_ex2 dev src len src2 len2 repeated s =
    if r1 <? 0 then Ret r1 s1
    else if 0 <? len2 then Ret (Z.min r2 0) s2 else Ret 0 s1.
Proof.
  intros Hi. unfold answered, i2c_write_ex2. mexec. rewrite Hi.
  set (r1 := i32 _). destruct (Z.ltb_spec r1 0) as [H1 | H1]; [done |].
  destruct (0 <? len2).
  - set (r2 := i32 _). destruct (Z.ltb_spec r2 0); [by rewrite Z.min_l by lia | by rewrite Z.min_r by lia].
  - by rewrite (proj2 (Z.ltb_ge r1 0)).
Qed.

Lemma i2c_write_ex2_joins_witness :
  let s := wr i2c_inst (Some 0) machine_init in
  let '(r1, s1) := @answered env0 (i2c_write_blocking 0 60 (mem 0) 2 (false || (0 <? 3))) s in
  let '(r2, s2) := @answered env0 (i2c_write_blocking 0 60 (mem 8) 3 false) s1 in
  @i2c_write_ex2 env0 60 (mem 0) 2 (mem 8) 3 false s =
    if r1 <? 0 then Ret r1 s1
    else if 0 <? 3 then Ret (Z.min r2 0) s2 else Ret 0 s1.
Proof.
  apply (@i2c_write_ex2_joins env0 60 (mem 0) 2 (mem 8) 3 false 0). reflexivity.
Defined.
