(* ===== verification/Adc.v ===== *)
(** * Adc: the analogue inputs of [adc.c]

    Four pins and the on-chip temperature sensor.  The conversion to degrees
    runs in 20.12 fixed point; its constants come from a double computation
    that the compiler folds. *)

From S2P Require Import Prelude Events Machine RefEnv.

(** ** Definitions *)

Definition adc_inited : var bool := {|
  rd s := f_adc_inited (m_adc s);
  wr v := upd_adc (fun x => {| f_adc_inited := v |}) |}.

Definition get_adc_ch (pin : Z) : Z :=
  let pin := pin - 26 in
  if (pin <? 0) || (3 <? pin) then -1 else pin.

Definition adc_can_read_pin (pin : Z) : bool := negb (get_adc_ch (u8 pin) =? -1).

(** [(int)((1 << 12) * 0.706 / VOLTS)] and [(int)(VOLTS / 0.001721)] with
    [VOLTS] 3.3: the truncated quotients. *)
Definition temp_offset : Z := 4096 * 706 / 3300.
Definition temp_slope : Z := 3300000 / 1721.

Section Operations.
Context {E : Env}.

Definition init : M unit :=
  let! inited := get adc_inited in
  when negb inited do
    (adc_inited <~ true ;;
     sdk adc_init).

Definition adc_read_pin (pin : Z) : M Z :=
  init ;;
  sdk (adc_select_input (u32 (get_adc_ch (u8 pin)))) ;;
  let! v := sdkv adc_read in
  ret (u16 (Z.shiftl (u16 v) 4)).

Definition adc_read_temp : M Z :=
  init ;;
  sdk (adc_set_temp_sensor_enabled true) ;;
  sdk (adc_select_input 4) ;;
  let! v := sdkv adc_read in
  let adc := u16 v in
  sdk (adc_set_temp_sensor_enabled false) ;;
  let shifted_temp := i32 (Z.shiftl 27 12 - i32 ((adc - temp_offset) * temp_slope)) in
  ret (Z.shiftr shifted_temp 12).
End Operations.

(** ** Lemmas *)

(** The converter is 12 bits wide. *)
Class AdcOk {E : Env} : Prop := { adc_range t : 0 <= ret_of t adc_read < 4096 }.

Lemma adc_ch_range pin :
  (26 <= pin <= 29 /\ get_adc_ch pin = pin - 26) \/
  ((pin < 26 \/ 29 < pin) /\ get_adc_ch pin = -1).
Proof.
  unfold get_adc_ch. destruct (Z.ltb_spec (pin - 26) 0), (Z.ltb_spec 3 (pin - 26)); cbn [orb]; lia.
Qed.

Lemma init_run {E : Env} s :
  exists es, init s = Ret tt (wr adc_inited true (upd_tr (app es) s)) /\
    es = if rd adc_inited s then [] else [E_call adc_init].
Proof.
  unfold init. mexec. destruct (rd adc_inited s) eqn:H; cbn [negb]; eexists; (split; [| reflexivity]).
  - f_equal. destruct s as [? ? ? ? ? ? ? ? ? ? [ai] ? ? ? ? ? ?]. unfold rd in H. cbn in H. by subst.
  - reflexivity.
Qed.

(** ** Properties *)

(** Reading a pin initialises the converter exactly once, selects channels
    0 to 3 for pins 26 to 29, and returns the 12-bit sample scaled to 16 bits
    without loss; the pins that can be read are exactly these. *)
Theorem adc_read_pin_scales {E : Env} (AO : AdcOk) pin s :
  0 <= pin < 256 ->
  adc_can_read_pin pin = (26 <=? pin) && (pin <=? 29) /\
  exists ch v s' es, adc_read_pin pin s = Ret (16 * v) s' /\ 0 <= v < 4096 /\
    (adc_can_read_pin pin = true -> ch = pin - 26) /\
    rd adc_inited s' = true /\
    tr s' = E_ret adc_read v :: E_call (adc_select_input ch) :: es ++ tr s /\
    es = if rd adc_inited s then [] else [E_call adc_init].
Proof.
  intros Hp. unfold adc_can_read_pin. rewrite u8_id by lia. split.
  - destruct (adc_ch_range pin) as [[H ->] | [H ->]];
      [rewrite (proj2 (Z.eqb_neq (pin - 26) (-1))) by lia | cbn [negb Z.eqb]];
      destruct (Z.leb_spec 26 pin), (Z.leb_spec pin 29); cbn; try done; lia.
  - destruct (init_run s) as (es & E1 & Hes). unfold adc_read_pin, bind at 1. rewrite E1.
    mexec. rewrite u8_id by lia.
    match goal with |- context [ret_of ?t adc_read] => set (v := ret_of t adc_read); pose proof (adc_range t) end.
    exists (u32 (get_adc_ch pin)), v. eexists _, es. fold v in H.
    split; [rewrite (u16_id v) by lia; f_equal; rewrite Z.shiftl_mul_pow2 by lia; zlia |].
    vsimp. split_and!; try done; try lia. intros Hc.
    destruct (adc_ch_range pin) as [[H1 ->] | [H1 H2]]; [apply u32_id; lia |].
    rewrite H2 in Hc. done.
Qed.

#[export] Instance adc_demo : @AdcOk env0.
Proof. constructor. intros t. cbn. lia. Qed.

Lemma adc_read_pin_scales_witness :
  adc_can_read_pin 27 = (26 <=? 27) && (27 <=? 29) /\
  exists ch v s' es, @adc_read_pin env0 27 machine_init = Ret (16 * v) s' /\ 0 <= v < 4096 /\
    (adc_can_read_pin 27 = true -> ch = 27 - 26) /\
    rd adc_inited s' = true /\
    tr s' = E_ret adc_read v :: E_call (adc_select_input ch) :: es ++ tr machine_init /\
    es = if rd adc_inited machine_init then [] else [E_call adc_init].
Proof. apply (@adc_read_pin_scales env0 adc_demo 27 machine_init). lia. Defined.

(** C31: the fixed-point temperature never overflows 32 bits and lies within
    two degrees below and half a degree above the formula it approximates,
    [27 - (V - 0.706) / 0.001721] with [V = 3.3 * sample / 4096] (stated here
    multiplied by 4096 * 1721, in whole numbers); the sensor is powered only
    during the conversion. *)
Theorem adc_read_temp_accuracy {E : Env} (AO : AdcOk) s :
  exists temp v s' es, adc_read_temp s = Ret temp s' /\ 0 <= v < 4096 /\
    tr s' = E_call (adc_set_temp_sensor_enabled false) :: E_ret adc_read v
            :: E_call (adc_select_input 4) :: E_call (adc_set_temp_sensor_enabled true) :: es ++ tr s /\
    let exact := 27 * (4096 * 1721) - (v * 3300000 - 706000 * 4096) in
    exact - 2 * (4096 * 1721) <= temp * (4096 * 1721) <= exact + (4096 * 1721) / 2.
Proof.
  destruct (init_run s) as (es & E1 & Hes). unfold adc_read_temp, bind at 1. rewrite E1. mexec.
  match goal with |- context [ret_of ?t adc_read] => set (v := ret_of t adc_read); pose proof (adc_range t) end.
  change temp_offset with 876. change temp_slope with 1917. change (Z.shiftl 27 12) with 110592.
  rewrite u16_id by (fold v in H; lia). fold v in H. rewrite (i32_id ((v - 876) * 1917)) by lia.
  rewrite i32_id by lia. rewrite Z.shiftr_div_pow2 by lia. change (2 ^ 12) with 4096.
  do 3 eexists. exists es. split; [reflexivity |]. vsimp. split; [exact H |]. split; [done |]. cbv zeta.
  Z.div_mod_to_equations. lia.
Qed.

Lemma adc_read_temp_accuracy_witness :
  exists temp v s' es, @adc_read_temp env0 machine_init = Ret temp s' /\ 0 <= v < 4096 /\
    tr s' = E_call (adc_set_temp_sensor_enabled false) :: E_ret adc_read v
            :: E_call (adc_select_input 4) :: E_call (adc_set_temp_sensor_enabled true) :: es ++ tr machine_init /\
    let exact := 27 * (4096 * 1721) - (v * 3300000 - 706000 * 4096) in
    exact - 2 * (4096 * 1721) <= temp * (4096 * 1721) <= exact + (4096 * 1721) / 2.
Proof. apply (@adc_read_temp_accuracy env0 adc_demo machine_init). Defined.
