(* ===== verification/UartLog.v ===== *)
(** * UartLog: the DMA-driven log output of [uart_log.c]

    One UART, one DMA channel, one transfer at a time.  [dmachTx] is the
    channel, -1 before initialisation, -2 when no usable pin is configured. *)

From S2P Require Import Prelude Events Machine RefEnv Dma Pins.

(** ** Definitions *)

(** [uart_inst_t *] is the number of the instance. *)
Definition uart0 : Z := 0.
Definition uart1 : Z := 1.
Definition PICO_ERROR_NO_DATA : Z := -3.

Definition dmachTx : var Z := {|
  rd s := f_log_dmachTx (m_log s);
  wr v := upd_log (fun x => {| f_log_dmachTx := v; f_in_tx := f_in_tx x;
      f_prev_tx_pin := f_prev_tx_pin x |}) |}.
Definition in_tx : var bool := {|
  rd s := f_in_tx (m_log s);
  wr v := upd_log (fun x => {| f_log_dmachTx := f_log_dmachTx x; f_in_tx := v;
      f_prev_tx_pin := f_prev_tx_pin x |}) |}.
Definition prev_tx_pin : var Z := {|
  rd s := f_prev_tx_pin (m_log s);
  wr v := upd_log (fun x => {| f_log_dmachTx := f_log_dmachTx x; f_in_tx := f_in_tx x;
      f_prev_tx_pin := v |}) |}.

Section Operations.
Context {E : Env}.

Definition stdio_uart_out_chars (buf : list Z) : M unit := sdk (jd_dmesg_write buf).

Definition stdio_uart_in_chars : M Z := ret PICO_ERROR_NO_DATA.

Definition bad_tx_pin (tx_pin : Z) : bool := negb (tx_pin =? NO_PIN) && negb (Z.land tx_pin 3 =? 0).

Definition uart_log_init : M unit :=
  let! tx_pin := sdkv (dcfg_get_pin "log.pinTX") in
  let tx_pin := u8 tx_pin in
  let! tx_pin :=
    (if bad_tx_pin tx_pin then (sdk (DMESG "! invalid log.pinTX" []) ;; ret NO_PIN)
     else ret tx_pin) in
  (if tx_pin =? NO_PIN then dmachTx <~ -2
   else
     (let! ch := sdkv (dma_claim_unused_channel true) in
      dmachTx <~ ch ;;
      let! ch := get dmachTx in
      let c := dma_channel_get_default_config ch in
      let c := channel_config_set_transfer_data_size c DMA_SIZE_8 in
      let inst := if z2b (Z.land (Z.shiftr tx_pin 2) 1) then uart1 else uart0 in
      let c := channel_config_set_dreq c (uart_get_dreq inst true) in
      sdk (dma_channel_configure ch c (uart_dr inst) NULL 0 false) ;;
      let! baud := sdkv (dcfg_get_u32 "log.baud" 115200) in
      sdk (uart_init inst baud) ;;
      sdk (gpio_set_function tx_pin GPIO_FUNC_UART))) ;;
  prev_tx_pin <~ tx_pin ;;
  sdk (stdio_set_driver_enabled true).

Definition uart_log_sync_pin : M unit :=
  let! tx_pin := sdkv (dcfg_get_pin "log.pinTX") in
  let tx_pin := u8 tx_pin in
  let! prev := get prev_tx_pin in
  if tx_pin =? prev then ret tt
  else if bad_tx_pin tx_pin then sdk (DMESG "! invalid log.pinTX" [])
  else
    (pin_setup_analog_input prev ;;
     prev_tx_pin <~ tx_pin ;;
     let! ch := get dmachTx in
     if ch =? -2 then uart_log_init
     else sdk (gpio_set_function tx_pin GPIO_FUNC_UART)).

Definition uart_log_can_write : M bool :=
  let! busy := get in_tx in
  ret (negb busy).

Definition tx_handler : M unit := in_tx <~ false.

Definition uart_log_write (buf : addr) (size : Z) : M unit :=
  let! ch := get dmachTx in
  if ch =? -2 then ret tt
  else
    (when ch =? -1 do uart_log_init ;;
     let! busy := get in_tx in
     JD_ASSERT (negb busy) ;;
     in_tx <~ true ;;
     let! ch := get dmachTx in
     dma_set_ch_cb ch (Some uart_log_tx_handler) None ;;
     let! ch := get dmachTx in
     sdk (dma_channel_transfer_from_buffer_now ch buf size)).
End Operations.

(** *** The specification of the channel *)

Definition log_inst (tx_pin : Z) : Z := if Z.testbit tx_pin 2 then uart1 else uart0.
Definition log_config (ch tx_pin : Z) : dma_channel_config :=
  channel_config_set_dreq
    (channel_config_set_transfer_data_size (dma_channel_get_default_config ch) DMA_SIZE_8)
    (uart_get_dreq (log_inst tx_pin) true).

(** A pin a UART can transmit on: a multiple of four below [NO_PIN]. *)
Definition tx_pin_ok (p : Z) : Prop := p <> NO_PIN /\ p mod 4 = 0.

Lemma bad_tx_pin_spec p : 0 <= p < 256 ->
  (bad_tx_pin p = false /\ (p = NO_PIN \/ tx_pin_ok p)) \/
  (bad_tx_pin p = true /\ p <> NO_PIN /\ ~ tx_pin_ok p).
Proof.
  intros Hp. unfold bad_tx_pin, tx_pin_ok. change 3 with (Z.ones 2).
  rewrite land_ones_mod by lia. change (2 ^ 2) with 4.
  destruct (Z.eqb_spec p NO_PIN), (Z.eqb_spec (p mod 4) 0); cbn [negb andb]; auto.
  right. split_and!; [done | done | lia].
Qed.

(** Releasing a pin configures no DMA channel and starts no UART. *)
Lemma analog_run p s :
  exists es, pin_setup_analog_input p s = Ret tt (upd_tr (app es) s) /\
    (forall ch c w r n b, ~ In (E_call (dma_channel_configure ch c w r n b)) es) /\
    (forall i b, ~ In (E_call (uart_init i b)) es).
Proof.
  unfold pin_setup_analog_input. destruct (is_no_pin p) eqn:Hp.
  { exists []. split; [by destruct s | split; intros; intros []]. }
  unfold pin_set_pull. rewrite Hp. eexists [_; _; _; _; _]. split; [reflexivity |].
  split; intros; cbn; intuition discriminate.
Qed.

(** Handing a buffer to a free channel: the machine after the transfer was
    started. *)
Definition log_sent (ch : Z) (buf : addr) (size : Z) (s : machine) : machine :=
  emit (E_call (dma_channel_transfer_from_buffer_now ch buf size))
    (emit (E_write NVIC_ISER (bit DMA_IRQ_0)) (emit (E_write NVIC_ICPR (bit DMA_IRQ_0))
      (emit (E_call (dma_channel_set_irq0_enabled ch true)) (emit (E_write DMA_INTS0 (bit ch))
        (wr dmaHandler (<[Z.to_nat ch := mkDMAHandler None (Some uart_log_tx_handler)]>
           (rd dmaHandler s)) (wr in_tx true s)))))).

Lemma log_send_run {E : Env} ch old buf size s :
  rd dmachTx s = ch -> 0 <= ch < 12 -> rd in_tx s = false ->
  rd dmaHandler s !! Z.to_nat ch = Some (mkDMAHandler old None) ->
  uart_log_write buf size s = Ret tt (log_sent ch buf size s).
Proof.
  intros Hd Hch Hb Hh. unfold uart_log_write. unfold bind at 1, get at 1. rewrite Hd.
  rewrite (proj2 (Z.eqb_neq ch (-2))), (proj2 (Z.eqb_neq ch (-1))) by lia.
  unfold bind at 1, ret at 1, bind at 1, get at 1. rewrite Hb. cbn [negb JD_ASSERT].
  unfold bind at 1, ret at 1, bind at 1, put at 1, bind at 1, get at 1. vsimp. rewrite Hd.
  unfold bind at 1. rewrite (dma_set_run ch _ None old) by done.
  unfold bind, get, sdk, log. vsimp. by rewrite Hd.
Qed.

(** A busy log panics. *)
Lemma log_busy_run {E : Env} buf size s :
  0 <= rd dmachTx s -> rd in_tx s = true -> uart_log_write buf size s = Stop Panic s.
Proof.
  intros Hd Hb. unfold uart_log_write. unfold bind at 1, get at 1.
  rewrite (proj2 (Z.eqb_neq _ (-2))), (proj2 (Z.eqb_neq _ (-1))) by lia.
  unfold bind at 1, ret at 1, bind at 1, get at 1. by rewrite Hb.
Qed.

(** Initialisation without a pin. *)
Lemma log_init_no_pin {E : Env} s :
  ret_of (tr s) (dcfg_get_pin "log.pinTX") = NO_PIN ->
  uart_log_init s = Ret tt (emit (E_call (stdio_set_driver_enabled true))
    (wr prev_tx_pin NO_PIN (wr dmachTx (-2) (emit (E_ret (dcfg_get_pin "log.pinTX") NO_PIN) s)))).
Proof.
  intros Hp. unfold uart_log_init. unfold bind at 1, sdkv at 1. rewrite Hp.
  change (u8 NO_PIN) with NO_PIN. change (bad_tx_pin NO_PIN) with false. reflexivity.
Qed.

(** ** Properties *)

(** Initialisation on every branch.  A missing or unusable pin disables the
    log; otherwise the channel that was claimed is configured for the UART the
    pin belongs to, the UART is started at the configured rate and the pin
    handed to it.  The driver is never left uninitialised. *)
Theorem uart_log_init_cases {E : Env} p s :
  (forall t, ret_of t (dcfg_get_pin "log.pinTX") = p) -> 0 <= p < 256 ->
  exists s' es, uart_log_init s = Ret tt s' /\
    tr s' = E_call (stdio_set_driver_enabled true) :: es ++ tr s /\ rd in_tx s' = rd in_tx s /\
    (rd dmachTx s' = -2 /\ rd prev_tx_pin s' = NO_PIN /\ ~ tx_pin_ok p \/
     tx_pin_ok p /\ rd prev_tx_pin s' = p /\
     exists ch baud t1 t2 es', rd dmachTx s' = ch /\
       ch = ret_of t1 (dma_claim_unused_channel true) /\
       baud = ret_of t2 (dcfg_get_u32 "log.baud" 115200) /\
       es = [E_call (gpio_set_function p GPIO_FUNC_UART); E_call (uart_init (log_inst p) baud);
             E_ret (dcfg_get_u32 "log.baud" 115200) baud;
             E_call (dma_channel_configure ch (log_config ch p) (uart_dr (log_inst p)) NULL 0 false)]
            ++ es').
Proof.
  intros Hp Hr. unfold uart_log_init. unfold bind at 1, sdkv at 1. rewrite Hp, u8_id by lia.
  destruct (bad_tx_pin_spec p Hr) as [(-> & [-> | Hok]) | (-> & Hn & Hok)].
  - mexec. cbn [Z.eqb NO_PIN]. eexists _, [_]. split; [reflexivity |]. vsimp. split_and!; try done.
    left. split_and!; try done. by intros [? _].
  - mexec. rewrite (proj2 (Z.eqb_neq p NO_PIN)) by apply Hok.
    assert ((if z2b (Z.land (Z.shiftr p 2) 1) then uart1 else uart0) = log_inst p) as ->
      by (change 1 with (bit 0); rewrite land_bit, Z.shiftr_spec by lia; done).
    eexists _, [_; _; _; _; _; _]. split; [reflexivity |]. vsimp. split_and!; try done.
    right. split_and!; try done. do 4 eexists. eexists [_; _]. split_and!; reflexivity.
  - mexec. cbn [Z.eqb NO_PIN]. eexists _, [_; _]. split; [reflexivity |]. vsimp. split_and!; try done.
    left. by split_and!.
Qed.

(** The configuration names pin 4 (of UART 1), or pin 5, which cannot transmit. *)
Definition log_demo_env (p : Z) : Env :=
  ref_env 0 (fun _ _ => None)
    (fun _ c => match c with dcfg_get_pin _ => p | dma_claim_unused_channel _ => 6
                | dcfg_get_u32 _ d => d | _ => 0 end) (fun _ _ => []).

Lemma uart_log_init_cases_witness :
  exists s' es, @uart_log_init (log_demo_env 4) machine_init = Ret tt s' /\
    tr s' = E_call (stdio_set_driver_enabled true) :: es ++ tr machine_init /\
    rd in_tx s' = rd in_tx machine_init /\
    (rd dmachTx s' = -2 /\ rd prev_tx_pin s' = NO_PIN /\ ~ tx_pin_ok 4 \/
     tx_pin_ok 4 /\ rd prev_tx_pin s' = 4 /\
     exists ch baud t1 t2 es', rd dmachTx s' = ch /\
       ch = @ret_of (log_demo_env 4) t1 (dma_claim_unused_channel true) /\
       baud = @ret_of (log_demo_env 4) t2 (dcfg_get_u32 "log.baud" 115200) /\
       es = [E_call (gpio_set_function 4 GPIO_FUNC_UART); E_call (uart_init (log_inst 4) baud);
             E_ret (dcfg_get_u32 "log.baud" 115200) baud;
             E_call (dma_channel_configure ch (log_config ch 4) (uart_dr (log_inst 4)) NULL 0 false)]
            ++ es').
Proof. apply (@uart_log_init_cases (log_demo_env 4) 4 machine_init); [reflexivity | lia]. Defined.

(** The log sends one buffer at a time.  A disabled log drops it.  A free
    log starts one transfer of the buffer, reports that it cannot take another
    until the completion handler runs, and panics if it is given one anyway.
    But a log that disables itself during the late initialisation of its first
    write starts the transfer all the same, on channel -2. *)
Theorem uart_log_write_cases {E : Env} buf size s :
  (rd dmachTx s = -2 -> uart_log_write buf size s = Ret tt s) /\
  (forall ch old, rd dmachTx s = ch -> 0 <= ch < 12 -> rd in_tx s = false ->
     rd dmaHandler s !! Z.to_nat ch = Some (mkDMAHandler old None) ->
     exists s1 es s2, uart_log_write buf size s = Ret tt s1 /\
       tr s1 = E_call (dma_channel_transfer_from_buffer_now ch buf size) :: es ++ tr s /\
       (forall a b n, ~ In (E_call (dma_channel_transfer_from_buffer_now a b n)) es) /\
       rd dmaHandler s1 !! Z.to_nat ch = Some (mkDMAHandler None (Some uart_log_tx_handler)) /\
       uart_log_can_write s1 = Ret false s1 /\
       (forall b n, uart_log_write b n s1 = Stop Panic s1) /\
       tx_handler s1 = Ret tt s2 /\ uart_log_can_write s2 = Ret true s2) /\
  (rd dmachTx s = -1 -> rd in_tx s = false ->
     (forall t, ret_of t (dcfg_get_pin "log.pinTX") = NO_PIN) ->
     exists s' es, uart_log_write buf size s = Ret tt s' /\ rd dmachTx s' = -2 /\
       tr s' = E_call (dma_channel_transfer_from_buffer_now (-2) buf size) :: es ++ tr s).
Proof.
  split; [intros Hd; unfold uart_log_write, bind, get; by rewrite Hd |]. split.
  - intros ch old Hd Hch Hb Hh. exists (log_sent ch buf size s), [E_write NVIC_ISER (bit DMA_IRQ_0);
      E_write NVIC_ICPR (bit DMA_IRQ_0); E_call (dma_channel_set_irq0_enabled ch true);
      E_write DMA_INTS0 (bit ch)], (wr in_tx false (log_sent ch buf size s)).
    split; [by apply (log_send_run ch old) |]. split; [reflexivity |].
    split; [intros a b n Hin; cbn in Hin; intuition discriminate |].
    split; [apply list_lookup_insert_eq; by eapply lookup_lt_Some |].
    split; [reflexivity |]. split; [| split; reflexivity].
    intros b n. apply log_busy_run; [change (0 <= rd dmachTx s); lia | reflexivity].
  - intros Hd Hb Hp. unfold uart_log_write. unfold bind at 1, get at 1. rewrite Hd.
    change (-1 =? -2) with false. change (-1 =? -1) with true. cbv iota.
    unfold bind at 1. rewrite log_init_no_pin by apply Hp.
    set (s1 := emit _ _). assert (rd in_tx s1 = false) as H1 by exact Hb.
    assert (rd dmachTx s1 = -2) as H2 by done.
    unfold bind at 1, get at 1. rewrite H1. cbn [negb JD_ASSERT]. unfold bind at 1, ret at 1.
    unfold bind at 1, put at 1, bind at 1, get at 1. vsimp. rewrite H2.
    unfold bind at 1, dma_set_ch_cb at 1. change (NUM_DMA_CHANNELS <=? u8 (-2)) with true.
    cbv beta iota zeta delta [ret]. eexists _, [_; _].
    split; [unfold bind, get, sdk, log; vsimp; rewrite H2; reflexivity |]. by vsimp.
Qed.

Lemma uart_log_write_cases_witness :
  let s := wr dmachTx 6 machine_init in
  (rd dmachTx s = -2 -> @uart_log_write env0 (mem 0) 20 s = Ret tt s) /\
  (forall ch old, rd dmachTx s = ch -> 0 <= ch < 12 -> rd in_tx s = false ->
     rd dmaHandler s !! Z.to_nat ch = Some (mkDMAHandler old None) ->
     exists s1 es s2, @uart_log_write env0 (mem 0) 20 s = Ret tt s1 /\
       tr s1 = E_call (dma_channel_transfer_from_buffer_now ch (mem 0) 20) :: es ++ tr s /\
       (forall a b n, ~ In (E_call (dma_channel_transfer_from_buffer_now a b n)) es) /\
       rd dmaHandler s1 !! Z.to_nat ch = Some (mkDMAHandler None (Some uart_log_tx_handler)) /\
       uart_log_can_write s1 = Ret false s1 /\
       (forall b n, @uart_log_write env0 b n s1 = Stop Panic s1) /\
       tx_handler s1 = Ret tt s2 /\ uart_log_can_write s2 = Ret true s2) /\
  (rd dmachTx s = -1 -> rd in_tx s = false ->
     (forall t, @ret_of env0 t (dcfg_get_pin "log.pinTX") = NO_PIN) ->
     exists s' es, @uart_log_write env0 (mem 0) 20 s = Ret tt s' /\ rd dmachTx s' = -2 /\
       tr s' = E_call (dma_channel_transfer_from_buffer_now (-2) (mem 0) 20) :: es ++ tr s).
Proof. apply (@uart_log_write_cases env0 (mem 0) 20 (wr dmachTx 6 machine_init)). Defined.

(** [uart_log_sync_pin] follows a change of the configured pin: an
    unchanged or unusable pin changes nothing; a disabled log is initialised
    afresh; a running log releases the old pin and hands the new one to its
    UART.  It does not start that UART, nor move the DMA channel to it, so a
    pin of the other UART stays silent; and a configuration without a pin is
    passed on to the pin multiplexer as pin 255. *)
Theorem uart_log_sync_pin_cases {E : Env} p s (t := dcfg_get_pin "log.pinTX") :
  (forall u, ret_of u t = p) -> 0 <= p < 256 ->
  let s0 := emit (E_ret t p) s in
  (rd prev_tx_pin s = p -> uart_log_sync_pin s = Ret tt s0) /\
  (rd prev_tx_pin s <> p -> p <> NO_PIN -> ~ tx_pin_ok p ->
     uart_log_sync_pin s = Ret tt (emit (E_call (DMESG "! invalid log.pinTX" [])) s0)) /\
  (rd prev_tx_pin s <> p -> (p = NO_PIN \/ tx_pin_ok p) -> rd dmachTx s = -2 ->
     uart_log_sync_pin s =
       (pin_setup_analog_input (rd prev_tx_pin s) ;; prev_tx_pin <~ p ;; uart_log_init) s0) /\
  (rd prev_tx_pin s <> p -> (p = NO_PIN \/ tx_pin_ok p) -> rd dmachTx s <> -2 ->
     exists s1 es, pin_setup_analog_input (rd prev_tx_pin s) s0 = Ret tt s1 /\
       tr s1 = es ++ tr s0 /\
       (forall ch c w r n b, ~ In (E_call (dma_channel_configure ch c w r n b)) es) /\
       (forall i b, ~ In (E_call (uart_init i b)) es) /\
       uart_log_sync_pin s =
         Ret tt (emit (E_call (gpio_set_function p GPIO_FUNC_UART)) (wr prev_tx_pin p s1))).
Proof.
  intros Hp Hr s0.
  assert (uart_log_sync_pin s =
    (if p =? rd prev_tx_pin s then ret tt
     else if bad_tx_pin p then sdk (DMESG "! invalid log.pinTX" [])
     else (pin_setup_analog_input (rd prev_tx_pin s) ;; prev_tx_pin <~ p ;;
           let! ch := get dmachTx in
           if ch =? -2 then uart_log_init
           else sdk (gpio_set_function p GPIO_FUNC_UART))) s0) as ->.
  { unfold uart_log_sync_pin, bind at 1, sdkv. fold t. by rewrite Hp, u8_id by lia. }
  destruct (analog_run (rd prev_tx_pin s) s0) as (es & E1 & H1 & H2).
  split; [intros ->; by rewrite Z.eqb_refl |].
  split; [| split]; intros Hne; rewrite (proj2 (Z.eqb_neq _ _)) by congruence.
  - intros Hn Hk. by destruct (bad_tx_pin_spec p Hr) as [[_ [? | ?]] | [-> _]].
  - intros Hk Hd. destruct (bad_tx_pin_spec p Hr) as [[-> _] | (_ & ? & ?)]; [| by destruct Hk].
    unfold bind, put, get. rewrite E1. vsimp. change (rd dmachTx s0) with (rd dmachTx s). by rewrite Hd.
  - intros Hk Hd. destruct (bad_tx_pin_spec p Hr) as [[-> _] | (_ & ? & ?)]; [| by destruct Hk].
    exists (upd_tr (app es) s0), es. split_and!; try done.
    unfold bind, put, get. rewrite E1. vsimp. change (rd dmachTx s0) with (rd dmachTx s).
    by rewrite (proj2 (Z.eqb_neq _ _)) by done.
Qed.

(** From pin 0 (UART 0) to pin 4 (UART 1) of a running log. *)
Lemma uart_log_sync_pin_cases_witness :
  let s := wr dmachTx 6 machine_init in
  let s0 := emit (E_ret (dcfg_get_pin "log.pinTX") 4) s in
  (rd prev_tx_pin s <> 4 /\ rd dmachTx s <> -2) /\
  exists s1 es, pin_setup_analog_input (rd prev_tx_pin s) s0 = Ret tt s1 /\
     tr s1 = es ++ tr s0 /\
     (forall ch c w r n b, ~ In (E_call (dma_channel_configure ch c w r n b)) es) /\
     (forall i b, ~ In (E_call (uart_init i b)) es) /\
     @uart_log_sync_pin (log_demo_env 4) s =
       Ret tt (emit (E_call (gpio_set_function 4 GPIO_FUNC_UART)) (wr prev_tx_pin 4 s1)).
Proof.
  intros s s0. split; [split; discriminate |].
  apply (@uart_log_sync_pin_cases (log_demo_env 4) 4 s); [reflexivity | lia | discriminate | | discriminate].
  right. split; [discriminate | reflexivity].
Defined.
