(* ===== verification/Hid.v ===== *)
(** * Hid: keyboard, mouse and gamepad reports of [hid.c]

    Clients set or accumulate a report at any time; [hid_process], called from
    the main loop, sends each report that changed when its endpoint is ready.
    Keyboard and gamepad send the latest state; the mouse accumulates relative
    movement, which must neither be lost nor sent twice. *)

From S2P Require Import Prelude Events Machine RefEnv.

(** ** Definitions *)

(** The interface numbers of [tusb_config.h]. *)
Definition HID_ITF_GAMEPAD : Z := 0.
Definition HID_ITF_KEYBOARD : Z := 1.
Definition HID_ITF_MOUSE : Z := 2.
Definition HID_ITF_TOTAL : Z := 3.

Definition HID_REPORT_TYPE_OUTPUT : Z := 2.

(** Keyboard: one byte of modifiers, six key codes; gamepad: raw bytes. *)
Definition kbd_zero : kbd_report_t := mkKbd 0 (replicate 6 0).
Definition mouse_zero : mouse_report_t := mkMouse 0 0 0 0 0.
Definition gamepad_zero : list Z := replicate 8 0.

Definition kbd_report : var (kbd_report_t) := {|
  rd s := f_kbd_report (m_hid s);
  wr v := upd_hid (fun x => {| f_kbd_report := v; f_kbd_dirty := f_kbd_dirty x;
      f_mouse_report := f_mouse_report x; f_mouse_dirty := f_mouse_dirty x;
      f_gamepad_report := f_gamepad_report x;
      f_gamepad_dirty := f_gamepad_dirty x |}) |}.
Definition kbd_report_dirty : var bool := {|
  rd s := f_kbd_dirty (m_hid s);
  wr v := upd_hid (fun x => {| f_kbd_report := f_kbd_report x; f_kbd_dirty := v;
      f_mouse_report := f_mouse_report x; f_mouse_dirty := f_mouse_dirty x;
      f_gamepad_report := f_gamepad_report x;
      f_gamepad_dirty := f_gamepad_dirty x |}) |}.
Definition mouse_report : var (mouse_report_t) := {|
  rd s := f_mouse_report (m_hid s);
  wr v := upd_hid (fun x => {| f_kbd_report := f_kbd_report x; f_kbd_dirty := f_kbd_dirty x;
      f_mouse_report := v; f_mouse_dirty := f_mouse_dirty x;
      f_gamepad_report := f_gamepad_report x;
      f_gamepad_dirty := f_gamepad_dirty x |}) |}.
Definition mouse_report_dirty : var bool := {|
  rd s := f_mouse_dirty (m_hid s);
  wr v := upd_hid (fun x => {| f_kbd_report := f_kbd_report x; f_kbd_dirty := f_kbd_dirty x;
      f_mouse_report := f_mouse_report x; f_mouse_dirty := v;
      f_gamepad_report := f_gamepad_report x;
      f_gamepad_dirty := f_gamepad_dirty x |}) |}.
Definition gamepad_report : var (list Z) := {|
  rd s := f_gamepad_report (m_hid s);
  wr v := upd_hid (fun x => {| f_kbd_report := f_kbd_report x; f_kbd_dirty := f_kbd_dirty x;
      f_mouse_report := f_mouse_report x; f_mouse_dirty := f_mouse_dirty x;
      f_gamepad_report := v; f_gamepad_dirty := f_gamepad_dirty x |}) |}.
Definition gamepad_report_dirty : var bool := {|
  rd s := f_gamepad_dirty (m_hid s);
  wr v := upd_hid (fun x => {| f_kbd_report := f_kbd_report x; f_kbd_dirty := f_kbd_dirty x;
      f_mouse_report := f_mouse_report x; f_mouse_dirty := f_mouse_dirty x;
      f_gamepad_report := f_gamepad_report x; f_gamepad_dirty := v |}) |}.

Section Operations.
Context {E : Env}.

(** A NULL report clears the state. *)
Definition jd_hid_keyboard_set_report (report : option kbd_report_t) : M unit :=
  match report with
  | None => kbd_report <~ kbd_zero
  | Some r => kbd_report <~ r
  end ;;
  kbd_report_dirty <~ true.

(** Buttons are [uint8_t], the axes [int8_t]. *)
Definition jd_hid_mouse_move (r : mouse_report_t) : M unit :=
  let! m := get mouse_report in
  mouse_report <~ mkMouse (u8 (Z.lor (buttons m) (buttons r)))
    (i8 (mouse_x m + mouse_x r)) (i8 (mouse_y m + mouse_y r))
    (i8 (wheel m + wheel r)) (i8 (pan m + pan r)) ;;
  mouse_report_dirty <~ true.

Definition jd_hid_gamepad_set_report (report : option (list Z)) : M unit :=
  match report with
  | None => gamepad_report <~ gamepad_zero
  | Some r => gamepad_report <~ r
  end ;;
  gamepad_report_dirty <~ true.

(** [dirty && tud_hid_n_ready(itf)]: readiness is asked only when dirty. *)
Definition dirty_and_ready (dirty : var bool) (itf : Z) : M bool :=
  let! d := get dirty in
  if d then let! r := sdkv (tud_hid_n_ready itf) in ret (z2b r) else ret false.

Definition hid_process : M unit :=
  let! go := dirty_and_ready kbd_report_dirty HID_ITF_KEYBOARD in
  when go do
    (kbd_report_dirty <~ false ;;
     let! r := get kbd_report in
     sdk (tud_hid_n_keyboard_report HID_ITF_KEYBOARD 0 (modifier r) (keycode r))) ;;
  let! go := dirty_and_ready mouse_report_dirty HID_ITF_MOUSE in
  when go do
    (mouse_report_dirty <~ false ;;
     let! r := get mouse_report in
     sdk (tud_hid_n_mouse_report HID_ITF_MOUSE 0 (buttons r) (mouse_x r) (mouse_y r) (wheel r) (pan r)) ;;
     mouse_report <~ mouse_zero) ;;
  let! go := dirty_and_ready gamepad_report_dirty HID_ITF_GAMEPAD in
  when go do
    (gamepad_report_dirty <~ false ;;
     let! r := get gamepad_report in
     sdk (tud_hid_n_report HID_ITF_GAMEPAD 0 r)).

Definition tud_hid_get_report_cb (instance report_type : Z) : M Z :=
  sdk (DMESG "hid: GET REPORT %d/%d" [instance; report_type]) ;;
  ret 0.

(** The state of the keyboard LEDs is looked at and ignored. *)
Definition tud_hid_set_report_cb (instance report_type : Z) (buffer : list Z) (bufsize : Z) : M unit :=
  if (instance =? HID_ITF_KEYBOARD) && (report_type =? HID_REPORT_TYPE_OUTPUT) then
    if bufsize <? 1 then ret tt
    else let! kbd_leds := index buffer 0 in ret tt
  else ret tt.

(** *** Histories of the mouse *)

Inductive mouse_op :=
| Move (r : mouse_report_t)
| Process.

Definition mouse_run (o : mouse_op) : M unit :=
  match o with Move r => jd_hid_mouse_move r | Process => hid_process end.

Fixpoint mouse_runs (ops : list mouse_op) : M unit :=
  match ops with [] => ret tt | o :: ops => mouse_run o ;; mouse_runs ops end.
End Operations.

(** A measure of a report: an axis, or the buttons. *)
Definition axes : list (mouse_report_t -> Z) := [mouse_x; mouse_y; wheel; pan].

(** The movement asked for by a history, and that sent to the host. *)
Fixpoint asked (axis : mouse_report_t -> Z) (ops : list mouse_op) : Z :=
  match ops with
  | [] => 0
  | Move r :: ops => axis r + asked axis ops
  | Process :: ops => asked axis ops
  end.

Definition sent_event (axis : mouse_report_t -> Z) (e : event) : Z :=
  match e with
  | E_call (tud_hid_n_mouse_report _ _ b x y w p) => axis (mkMouse b x y w p)
  | _ => 0
  end.

Fixpoint sent (axis : mouse_report_t -> Z) (t : trace) : Z :=
  match t with [] => 0 | e :: t => sent_event axis e + sent axis t end.

(** ** Lemmas *)

Section Lemmas.
Context {E : Env}.

(** The three sections of [hid_process], one after the other. *)
Definition send_kbd : M unit :=
  let! go := dirty_and_ready kbd_report_dirty HID_ITF_KEYBOARD in
  when go do
    (kbd_report_dirty <~ false ;;
     let! r := get kbd_report in
     sdk (tud_hid_n_keyboard_report HID_ITF_KEYBOARD 0 (modifier r) (keycode r))).
Definition send_mouse : M unit :=
  let! go := dirty_and_ready mouse_report_dirty HID_ITF_MOUSE in
  when go do
    (mouse_report_dirty <~ false ;;
     let! r := get mouse_report in
     sdk (tud_hid_n_mouse_report HID_ITF_MOUSE 0 (buttons r) (mouse_x r) (mouse_y r) (wheel r) (pan r)) ;;
     mouse_report <~ mouse_zero).
Definition send_gamepad : M unit :=
  let! go := dirty_and_ready gamepad_report_dirty HID_ITF_GAMEPAD in
  when go do
    (gamepad_report_dirty <~ false ;;
     let! r := get gamepad_report in
     sdk (tud_hid_n_report HID_ITF_GAMEPAD 0 r)).

Lemma hid_process_eq s : hid_process s = (send_kbd ;; send_mouse ;; send_gamepad) s.
Proof.
  unfold hid_process, send_kbd. rewrite bind_assoc.
  apply bind_ext. intros go s1. apply bind_ext. intros [] s2.
  unfold send_mouse. rewrite bind_assoc. reflexivity.
Qed.

(** The frame of the two sections that are not about the mouse. *)
Definition mouse_same (s s' : machine) : Prop :=
  rd mouse_report s' = rd mouse_report s /\
  (rd mouse_report_dirty s' = rd mouse_report_dirty s) /\
  forall axis, sent axis (tr s') = sent axis (tr s).

Lemma send_kbd_run s : exists s', send_kbd s = Ret tt s' /\ mouse_same s s'.
Proof.
  unfold send_kbd, dirty_and_ready. mexec. destruct (rd kbd_report_dirty s).
  - destruct (z2b _); (eexists; split; [reflexivity |]); repeat split.
  - eexists; split; [reflexivity |]; repeat split.
Qed.

Lemma send_gamepad_run s : exists s', send_gamepad s = Ret tt s' /\ mouse_same s s'.
Proof.
  unfold send_gamepad, dirty_and_ready. mexec. destruct (rd gamepad_report_dirty s).
  - destruct (z2b _); (eexists; split; [reflexivity |]); repeat split.
  - eexists; split; [reflexivity |]; repeat split.
Qed.

Lemma send_mouse_run s :
  exists s', send_mouse s = Ret tt s' /\
    ((mouse_same s s' /\ (rd mouse_report_dirty s = true -> rd mouse_report_dirty s' = true)) \/
     (rd mouse_report_dirty s = true /\ rd mouse_report_dirty s' = false /\
      rd mouse_report s' = mouse_zero /\
      forall axis, In axis axes -> sent axis (tr s') = axis (rd mouse_report s) + sent axis (tr s))).
Proof.
  unfold send_mouse, dirty_and_ready. mexec. destruct (rd mouse_report_dirty s) eqn:Hd.
  - destruct (z2b _); (eexists; split; [reflexivity |]); [right | left].
    + vsimp. split_and!; try done. intros axis Hin. cbn [sent sent_event].
      destruct Hin as [<- | [<- | [<- | [<- | []]]]]; reflexivity.
    + split; [repeat split | by vsimp].
  - eexists; split; [reflexivity |]. left. split; [repeat split | done].
Qed.
End Lemmas.

(** What is sent or pending, modulo the width of an axis. *)
Definition accounted (axis : mouse_report_t -> Z) (s : machine) : Z :=
  sent axis (tr s) + axis (rd mouse_report s).

(** Clean means nothing is pending. *)
Definition mouse_clean (s : machine) : Prop :=
  rd mouse_report_dirty s = false -> rd mouse_report s = mouse_zero.

Lemma axis_zero axis : In axis axes -> axis mouse_zero = 0.
Proof. by intros [<- | [<- | [<- | [<- | []]]]]. Qed.

Section Conservation.
Context {E : Env}.

Lemma move_accounts r s :
  exists s', jd_hid_mouse_move r s = Ret tt s' /\ mouse_clean s' /\
    forall axis, In axis axes -> i8 (accounted axis s') = i8 (accounted axis s + axis r).
Proof.
  eexists. split; [reflexivity |]. split; [intros H; discriminate H |].
  intros axis Hin. unfold accounted. vsimp.
  destruct Hin as [<- | [<- | [<- | [<- | []]]]]; cbn; zlia.
Qed.

Lemma process_accounts s :
  mouse_clean s ->
  exists s', hid_process s = Ret tt s' /\ mouse_clean s' /\
    forall axis, In axis axes -> accounted axis s' = accounted axis s.
Proof.
  intros Hc. rewrite hid_process_eq.
  destruct (send_kbd_run s) as (s1 & E1 & M1 & D1 & S1).
  destruct (send_mouse_run s1) as (s2 & E2 & H2).
  destruct (send_gamepad_run s2) as (s3 & E3 & M3 & D3 & S3).
  exists s3. unfold bind. rewrite E1, E2, E3. split; [done |].
  unfold mouse_clean, accounted in *. rewrite D3, M3. setoid_rewrite S3. rewrite <- M1, <- D1 in *.
  destruct H2 as [[(M2 & D2 & S2) _] | (H1 & Hd & Hz & Hs)].
  - rewrite M2, D2. split; [done |]. intros axis Hin. rewrite S2, S1. by rewrite M1.
  - rewrite Hz. split; [done |]. intros axis Hin. rewrite Hs, S1, axis_zero by done. rewrite M1. lia.
Qed.
End Conservation.

(** The pure specification of one endpoint: asked only when a report is due;
    if ready, the report is sent, marked clean and [done] applied. *)
Definition endpoint {E : Env} (dirty : var bool) (itf : Z) (report : machine -> call)
    (done : machine -> machine) (s : machine) : machine :=
  if rd dirty s then
    let v := ret_of (tr s) (tud_hid_n_ready itf) in
    let s1 := emit (E_ret (tud_hid_n_ready itf) v) s in
    if z2b v then done (emit (E_call (report s)) (wr dirty false s1)) else s1
  else s.

(** The three endpoints. *)
Definition kbd_call (s : machine) : call :=
  tud_hid_n_keyboard_report HID_ITF_KEYBOARD 0 (modifier (rd kbd_report s)) (keycode (rd kbd_report s)).
Definition mouse_call (s : machine) : call :=
  let r := rd mouse_report s in
  tud_hid_n_mouse_report HID_ITF_MOUSE 0 (buttons r) (mouse_x r) (mouse_y r) (wheel r) (pan r).
Definition gamepad_call (s : machine) : call :=
  tud_hid_n_report HID_ITF_GAMEPAD 0 (rd gamepad_report s).

Definition kbd_endpoint {E : Env} : machine -> machine :=
  endpoint kbd_report_dirty HID_ITF_KEYBOARD
    kbd_call id.
Definition mouse_endpoint {E : Env} : machine -> machine :=
  endpoint mouse_report_dirty HID_ITF_MOUSE
    mouse_call
    (wr mouse_report mouse_zero).
Definition gamepad_endpoint {E : Env} : machine -> machine :=
  endpoint gamepad_report_dirty HID_ITF_GAMEPAD
    gamepad_call id.

Section Endpoints.
Context {E : Env}.

Lemma hid_process_endpoints s :
  hid_process s = Ret tt (gamepad_endpoint (mouse_endpoint (kbd_endpoint s))).
Proof.
  rewrite hid_process_eq.
  assert (forall s, send_kbd s = Ret tt (kbd_endpoint s)) as Ek.
  { intros s0. unfold send_kbd, dirty_and_ready, kbd_endpoint, endpoint. mexec.
    destruct (rd kbd_report_dirty s0); [| done]. by destruct (z2b _). }
  assert (forall s, send_mouse s = Ret tt (mouse_endpoint s)) as Em.
  { intros s0. unfold send_mouse, dirty_and_ready, mouse_endpoint, endpoint. mexec.
    destruct (rd mouse_report_dirty s0); [| done]. by destruct (z2b _). }
  assert (forall s, send_gamepad s = Ret tt (gamepad_endpoint s)) as Eg.
  { intros s0. unfold send_gamepad, dirty_and_ready, gamepad_endpoint, endpoint. mexec.
    destruct (rd gamepad_report_dirty s0); [| done]. by destruct (z2b _). }
  unfold bind. by rewrite Ek, Em, Eg.
Qed.

(** The events of a pass concern the HID endpoints only. *)
Definition hid_event (e : event) : bool :=
  match e with
  | E_ret (tud_hid_n_ready _) _ | E_call (tud_hid_n_keyboard_report _ _ _ _)
  | E_call (tud_hid_n_mouse_report _ _ _ _ _ _ _) | E_call (tud_hid_n_report _ _ _) => true
  | _ => false
  end.

Lemma endpoint_trace dirty itf report done s :
  (forall s, tr (done s) = tr s) -> (forall b s, tr (wr dirty b s) = tr s) ->
  (forall s, hid_event (E_call (report s)) = true) ->
  exists es, tr (endpoint dirty itf report done s) = es ++ tr s /\
    Forall (fun e => hid_event e = true) es.
Proof.
  intros Hd Hw Hr. unfold endpoint. destruct (rd dirty s); [| by exists []].
  destruct (z2b _).
  - eexists [_; _]. rewrite Hd. cbn [tr emit upd_tr app]. rewrite Hw. split; [reflexivity |].
    by repeat constructor.
  - eexists [_]. split; [reflexivity |]. by repeat constructor.
Qed.

Lemma hid_process_trace s :
  exists s' es, hid_process s = Ret tt s' /\ tr s' = es ++ tr s /\
    Forall (fun e => hid_event e = true) es.
Proof.
  rewrite hid_process_endpoints.
  destruct (endpoint_trace kbd_report_dirty HID_ITF_KEYBOARD
    kbd_call id s) as (e1 & H1 & F1); [done.. |].
  fold (kbd_endpoint s) in H1. set (s1 := kbd_endpoint s) in *.
  destruct (endpoint_trace mouse_report_dirty HID_ITF_MOUSE
    mouse_call
    (wr mouse_report mouse_zero) s1) as (e2 & H2 & F2); [done.. |].
  fold (mouse_endpoint s1) in H2. set (s2 := mouse_endpoint s1) in *.
  destruct (endpoint_trace gamepad_report_dirty HID_ITF_GAMEPAD
    gamepad_call id s2) as (e3 & H3 & F3);
    [done.. |].
  fold (gamepad_endpoint s2) in H3.
  exists (gamepad_endpoint s2), (e3 ++ e2 ++ e1). split; [done |].
  split; [rewrite H3, H2, H1; by rewrite <- !app_assoc |]. by repeat (apply Forall_app; split).
Qed.
End Endpoints.

(** ** Properties *)

(** C32: no mouse movement is lost or sent twice.  After any history of moves and
    main-loop passes, whatever the endpoint answered, the movement sent plus the
    movement still pending equals the movement asked for, on each axis modulo
    256; and when the report is clean nothing is pending. *)
Theorem hid_mouse_conserves {E : Env} ops s :
  mouse_clean s ->
  exists s', mouse_runs ops s = Ret tt s' /\ mouse_clean s' /\
    forall axis, In axis axes ->
      i8 (accounted axis s') = i8 (accounted axis s + asked axis ops).
Proof.
  revert s. induction ops as [| [r |] ops IH]; intros s Hc.
  - exists s. split; [done |]. split; [done |]. intros axis Hin. cbn. f_equal. lia.
  - destruct (move_accounts r s) as (s1 & E1 & C1 & A1). destruct (IH s1 C1) as (s' & E2 & C2 & A2).
    exists s'. cbn [mouse_runs mouse_run asked]. unfold bind. rewrite E1. split; [done |]. split; [done |].
    intros axis Hin. specialize (A1 axis Hin). rewrite A2 by done. zlia.
  - destruct (process_accounts s Hc) as (s1 & E1 & C1 & A1). destruct (IH s1 C1) as (s' & E2 & C2 & A2).
    exists s'. cbn [mouse_runs mouse_run asked]. unfold bind. rewrite E1. split; [done |]. split; [done |].
    intros axis Hin. by rewrite A2, A1.
Qed.

(** Two moves, a pass that finds the endpoint ready, and another move. *)
Lemma hid_mouse_conserves_witness :
  let E := ref_env 0 (fun _ _ => None) (fun _ _ => 1) (fun _ _ => []) in
  let ops := [Move (mkMouse 1 100 0 0 0); Move (mkMouse 0 100 5 0 0); Process; Move (mkMouse 0 7 0 0 0)] in
  exists s', @mouse_runs E ops machine_init = Ret tt s' /\ mouse_clean s' /\
    forall axis, In axis axes -> i8 (accounted axis s') = i8 (accounted axis machine_init + asked axis ops).
Proof.
  intros E ops. apply (@hid_mouse_conserves E ops machine_init). intros _. reflexivity.
Defined.

(** One pass of [hid_process] serves the three endpoints in turn and always
    returns.  Each sends a report exactly when one is due and its endpoint is
    ready - the latest state of the keyboard, the accumulated movement of the
    mouse, which is then reset, the latest bytes of the gamepad - and a report
    that is not sent stays due. *)
Theorem hid_process_serves {E : Env} s :
  hid_process s = Ret tt
    (endpoint gamepad_report_dirty HID_ITF_GAMEPAD
       (fun s => tud_hid_n_report HID_ITF_GAMEPAD 0 (rd gamepad_report s)) id
    (endpoint mouse_report_dirty HID_ITF_MOUSE
       (fun s => let r := rd mouse_report s in
          tud_hid_n_mouse_report HID_ITF_MOUSE 0 (buttons r) (mouse_x r) (mouse_y r) (wheel r) (pan r))
       (wr mouse_report mouse_zero)
    (endpoint kbd_report_dirty HID_ITF_KEYBOARD
       (fun s => tud_hid_n_keyboard_report HID_ITF_KEYBOARD 0
          (modifier (rd kbd_report s)) (keycode (rd kbd_report s))) id s))).
Proof. exact (hid_process_endpoints s). Qed.
