(* ===== verification/Usb.v ===== *)
(** * Usb: the CDC pipe of [usb.c]

    [tud_cdc_rx_cb] empties the receive FIFO of TinyUSB into the Jacdac
    runtime; [jd_usb_process] moves frames of the runtime into the transmit
    FIFO while a whole packet fits. *)

From S2P Require Import Prelude Events Machine RefEnv Hid.

(** ** Definitions *)

Definition CDC_ITF : Z := 0.

Section Operations.
Context {E : Env}.

Definition jd_usb_pull_ready : M unit := ret tt.
Definition tud_cdc_tx_complete_cb (itf : Z) : M unit := jd_usb_pull_ready.
Definition usb_init : M unit := sdk tusb_init.

(** The callback runs until the FIFO is empty. *)
Definition tud_cdc_rx_cb (itf : Z) : M unit :=
  let! space := sdkv tud_cdc_available in
  loop fuel (fun space =>
    if 0 <? space then
      let! buf := sdkb (tud_cdc_read 64) in
      sdk (jd_usb_push buf) ;;
      let! space := sdkv tud_cdc_available in
      ret (inl space)
    else ret (inr tt)) (i32 space).

Definition jd_usb_looks_connected : M bool :=
  let! c := sdkv tud_cdc_connected in
  ret (z2b c).

Definition jd_usb_process : M unit :=
  sdk tud_task ;;
  hid_process ;;
  let! c := sdkv tud_cdc_connected in
  if negb (z2b c) then ret tt
  else
    (loop fuel (fun _ =>
       let! room := sdkv (tud_cdc_n_write_available CDC_ITF) in
       if 64 <=? room then
         let! buf := sdkb jd_usb_pull in
         if 0 <? Z.of_nat (length buf) then
           sdk (tud_cdc_n_write CDC_ITF buf) ;;
           sdk (tud_cdc_n_write_flush CDC_ITF) ;;
           ret (inl tt)
         else ret (inr tt)
       else ret (inr tt)) tt ;;
     sdk tud_task).

Definition tud_mount_cb : M unit := sdk (DMESG "usb: USB connected" []).
Definition tud_umount_cb : M unit := sdk (DMESG "usb: USB dis-connected" []).
End Operations.

(** *** The two FIFOs of TinyUSB and the queue of the runtime *)

(** Receive: [fifo] is what the host has sent and nobody has read; reading
    takes at most what was asked for from its front. *)
Class CdcRx {E : Env} (fifo : trace -> list Z) : Prop := {
  rx_available t : ret_of t tud_cdc_available = Z.of_nat (length (fifo t));
  rx_small t : Z.of_nat (length (fifo t)) < 65536;
  rx_read t : bytes_of t (tud_cdc_read 64) = take 64 (fifo t);
  rx_after_read t bs : fifo (E_bytes (tud_cdc_read 64) bs :: t) = drop 64 (fifo t);
  rx_after_avail t v : fifo (E_ret tud_cdc_available v :: t) = fifo t;
  rx_after_push t bs : fifo (E_call (jd_usb_push bs) :: t) = fifo t
}.

(** Transmit: [backlog] bounds the frames the runtime has queued. *)
Class CdcTx {E : Env} (backlog : trace -> nat) : Prop := {
  tx_frame t : (length (bytes_of t jd_usb_pull) <= 64)%nat;
  tx_pull t bs : bs <> [] -> bytes_of t jd_usb_pull = bs ->
    (backlog (E_bytes jd_usb_pull bs :: t) < backlog t)%nat;
  tx_other t e : (backlog (e :: t) <= backlog t)%nat
}.

(** Bytes handed to the runtime, oldest first. *)
Fixpoint pushed (t : trace) : list Z :=
  match t with
  | [] => []
  | E_call (jd_usb_push bs) :: t => pushed t ++ bs
  | _ :: t => pushed t
  end.

(** Bytes taken from the runtime, and bytes written to the host. *)
Fixpoint pulled (t : trace) : list Z :=
  match t with
  | [] => []
  | E_bytes jd_usb_pull bs :: t => pulled t ++ bs
  | _ :: t => pulled t
  end.
Fixpoint written (t : trace) : list Z :=
  match t with
  | [] => []
  | E_call (tud_cdc_n_write _ bs) :: t => written t ++ bs
  | _ :: t => written t
  end.

(** Every write was preceded by the check that a whole packet fits, and is one
    packet at most. *)
Fixpoint writes_fit (t : trace) : Prop :=
  match t with
  | E_call (tud_cdc_n_write _ bs) :: (E_bytes jd_usb_pull _ :: E_ret (tud_cdc_n_write_available _) room :: _) as t' =>
    64 <= room /\ (length bs <= 64)%nat /\ writes_fit t'
  | E_call (tud_cdc_n_write _ _) :: _ => False
  | _ :: t => writes_fit t
  | [] => True
  end.

(** ** Lemmas *)

Section Lemmas.
Context {E : Env}.

Definition rx_round (space : Z) : M (Z + unit) :=
  if 0 <? space then
    let! buf := sdkb (tud_cdc_read 64) in
    sdk (jd_usb_push buf) ;;
    let! space := sdkv tud_cdc_available in
    ret (inl space)
  else ret (inr tt).

Lemma rx_loop fifo (C : CdcRx fifo) f s :
  (length (fifo (tr s)) + 64 <= 64 * f)%nat ->
  exists es, loop f rx_round (Z.of_nat (length (fifo (tr s)))) s = Ret tt (upd_tr (app es) s) /\
    pushed (es ++ tr s) = pushed (tr s) ++ fifo (tr s) /\ fifo (es ++ tr s) = [].
Proof.
  revert s. induction f as [| f IH]; intros s Hf; [lia |].
  cbn [loop]. unfold bind at 1, rx_round at 1.
  destruct (Z.ltb_spec 0 (Z.of_nat (length (fifo (tr s))))) as [H | H].
  2:{ exists []. assert (fifo (tr s) = []) as Hn by (apply length_zero_iff_nil; lia).
      split; [by destruct s |]. cbn [app]. by rewrite Hn, app_nil_r. }
  mexec. rewrite rx_read. set (bs := take 64 (fifo (tr s))). vsimp.
  set (s1 := emit (E_call (jd_usb_push bs)) (emit (E_bytes (tud_cdc_read 64) bs) s)).
  change (E_call (jd_usb_push bs) :: E_bytes (tud_cdc_read 64) bs :: tr s) with (tr s1).
  rewrite rx_available. set (s2 := emit (E_ret tud_cdc_available _) s1).
  assert (fifo (tr s2) = drop 64 (fifo (tr s))) as H2.
  { unfold s2, s1. vsimp. by rewrite rx_after_avail, rx_after_push, rx_after_read. }
  assert (fifo (tr s1) = fifo (tr s2)) as H1 by (unfold s2; vsimp; by rewrite rx_after_avail).
  rewrite H1. destruct (IH s2) as (es & E1 & Hp & Hn).
  { rewrite H2, length_drop. lia. }
  rewrite E1. eexists (es ++ [_; _; _]). split; [unfold s2, s1, upd_tr, emit; cbn; by rewrite <- app_assoc |].
  rewrite <- app_assoc. cbn [app].
  split; [| exact Hn].
  transitivity (pushed (es ++ tr s2)); [reflexivity |].
  rewrite Hp, H2. change (pushed (tr s2)) with (pushed (tr s) ++ bs).
  rewrite <- app_assoc. unfold bs. by rewrite take_drop.
Qed.
End Lemmas.

(** *** Sending *)

(** What one pass of the transmit loop may do to the trace. *)
Definition tx_sound (t : trace) : Prop := writes_fit t /\ pulled t = written t.

Section Tx.
Context {E : Env}.

Definition tx_round (_ : unit) : M (unit + unit) :=
  let! room := sdkv (tud_cdc_n_write_available CDC_ITF) in
  if 64 <=? room then
    let! buf := sdkb jd_usb_pull in
    if 0 <? Z.of_nat (length buf) then
      sdk (tud_cdc_n_write CDC_ITF buf) ;;
      sdk (tud_cdc_n_write_flush CDC_ITF) ;;
      ret (inl tt)
    else ret (inr tt)
  else ret (inr tt).

Lemma tx_loop backlog (C : CdcTx backlog) f s :
  (backlog (tr s) < f)%nat -> tx_sound (tr s) ->
  exists s' u, loop f tx_round tt s = Ret u s' /\ tx_sound (tr s') /\
    exists es, tr s' = es ++ tr s.
Proof.
  revert s. induction f as [| f IH]; intros s Hf [Hw Hp]; [lia |].
  cbn [loop]. unfold bind at 1, tx_round at 1. mexec.
  set (room := ret_of _ _). set (s1 := emit (E_ret _ room) s).
  assert (tx_sound (tr s1)) as H1 by done.
  destruct (Z.leb_spec 64 room) as [Hr | Hr].
  2:{ exists s1, tt. split; [done |]. split; [done |]. by eexists [_]. }
  set (bs := bytes_of _ _). set (s2 := emit (E_bytes jd_usb_pull bs) s1).
  destruct (Z.ltb_spec 0 (Z.of_nat (length bs))) as [Hl | Hl].
  2:{ exists s2, tt. split; [done |]. split; [| by eexists [_; _]].
      assert (bs = []) as Hb by (apply length_zero_iff_nil; lia).
      destruct H1 as [? ?]. split; [done |]. unfold s2. vsimp. cbn [pulled]. rewrite Hb, app_nil_r. done. }
  set (s3 := emit (E_call (tud_cdc_n_write CDC_ITF bs)) s2).
  set (s4 := emit (E_call (tud_cdc_n_write_flush CDC_ITF)) s3).
  destruct (IH s4) as (s' & u & E1 & Hs & es & Hes).
  - pose proof (tx_pull (tr s1) bs ltac:(intros ->; cbn in Hl; lia) eq_refl) as Hd.
    pose proof (tx_other (tr s) (E_ret (tud_cdc_n_write_available CDC_ITF) room)).
    pose proof (tx_other (tr s2) (E_call (tud_cdc_n_write CDC_ITF bs))).
    pose proof (tx_other (tr s3) (E_call (tud_cdc_n_write_flush CDC_ITF))).
    unfold s4, s3, s2, s1 in *. vsimp. vsimp in Hd. vsimp in H0. vsimp in H2. lia.
  - split.
    + unfold s4, s3, s2, s1. vsimp. cbn [writes_fit]. split; [done |]. split; [apply tx_frame | done].
    + unfold s4, s3, s2, s1. vsimp. cbn [pulled written]. by rewrite Hp.
  - exists s', u. rewrite E1. split; [done |]. split; [done |].
    exists (es ++ [E_call (tud_cdc_n_write_flush CDC_ITF); E_call (tud_cdc_n_write CDC_ITF bs);
                   E_bytes jd_usb_pull bs; E_ret (tud_cdc_n_write_available CDC_ITF) room]).
    rewrite Hes, <- app_assoc. reflexivity.
Qed.
End Tx.

(** ** Properties *)

(** C33: [tud_cdc_rx_cb] returns, having handed to the runtime every byte of the
    receive FIFO, in order, once, and left the FIFO empty, provided the loop
    bound covers the FIFO in steps of 64 bytes. *)
Theorem tud_cdc_rx_cb_drains {E : Env} fifo (C : CdcRx fifo) itf s :
  (length (fifo (tr s)) + 64 <= 64 * fuel)%nat ->
  exists s', tud_cdc_rx_cb itf s = Ret tt s' /\
    pushed (tr s') = pushed (tr s) ++ fifo (tr s) /\ fifo (tr s') = [].
Proof.
  intros Hf. change (tud_cdc_rx_cb itf) with
    (let! space := sdkv tud_cdc_available in loop fuel rx_round (i32 space)).
  unfold bind, sdkv. rewrite rx_available.
  pose proof (rx_small (tr s)). rewrite i32_id by lia.
  set (s1 := emit _ s).
  assert (fifo (tr s1) = fifo (tr s)) as H1 by (unfold s1; vsimp; by rewrite rx_after_avail).
  rewrite <- H1 in Hf |- *. destruct (rx_loop fifo C fuel s1 Hf) as (es & -> & Hp & Hn).
  eexists. split; [reflexivity |]. by vsimp.
Qed.

(** A host that has sent 150 bytes. *)
Fixpoint demo_fifo (t : trace) : list Z :=
  match t with
  | [] => seqZ_from 0 150
  | E_bytes (tud_cdc_read _) _ :: t => drop 64 (demo_fifo t)
  | _ :: t => demo_fifo t
  end.
Definition usb_demo_env : Env :=
  ref_env 0 (fun _ _ => None)
    (fun t c => match c with tud_cdc_available => Z.of_nat (length (demo_fifo t)) | _ => 1000 end)
    (fun t c => match c with tud_cdc_read _ => take 64 (demo_fifo t) | _ => [] end).

Lemma demo_fifo_length t : (length (demo_fifo t) <= 150)%nat.
Proof.
  induction t as [| e t IH]; [done |]. destruct e as [| | | | c | | |]; try done.
  destruct c; try done. cbn. rewrite length_drop. lia.
Qed.

#[export] Instance usb_demo_rx : @CdcRx usb_demo_env demo_fifo.
Proof. constructor; try done. intros t. pose proof (demo_fifo_length t). lia. Qed.

Lemma tud_cdc_rx_cb_drains_witness :
  exists s', @tud_cdc_rx_cb usb_demo_env 0 machine_init = Ret tt s' /\
    pushed (tr s') = pushed [] ++ demo_fifo [] /\ demo_fifo (tr s') = [].
Proof.
  apply (@tud_cdc_rx_cb_drains usb_demo_env demo_fifo usb_demo_rx 0 machine_init).
  change (@fuel usb_demo_env) with 1000%nat. change (length (demo_fifo (tr machine_init))) with 150%nat. lia.
Defined.

(** [jd_usb_process] returns and is faithful to the pipe: nothing is taken
    from the runtime while the host is not connected; every frame taken is
    written to the host, whole and in order; and each write of at most 64 bytes
    directly follows a check that 64 bytes fit. *)
Theorem jd_usb_process_pipes {E : Env} backlog (C : CdcTx backlog) s :
  (backlog (tr s) < fuel)%nat -> tx_sound (tr s) ->
  exists s', jd_usb_process s = Ret tt s' /\ tx_sound (tr s') /\
    ((forall t, ret_of t tud_cdc_connected = 0) -> pulled (tr s') = pulled (tr s)).
Proof.
  intros Hf Hs.
  change jd_usb_process with
    (sdk tud_task ;; hid_process ;;
     let! c := sdkv tud_cdc_connected in
     if negb (z2b c) then ret tt else (loop fuel tx_round tt ;; sdk tud_task)).
  unfold bind at 1, sdk at 1, log at 1. set (s0 := emit _ s).
  destruct (hid_process_trace s0) as (s1 & es & E1 & Ht & He).
  unfold bind at 1. rewrite E1.
  assert (forall t, tx_sound t -> tx_sound (es ++ t) /\ pulled (es ++ t) = pulled t /\
                    (backlog (es ++ t) <= backlog t)%nat) as Hq.
  { clear E1 Ht. intros t Ht. induction He as [| e es Hx He IH]; [done |].
    destruct IH as ([Hw Hp] & Hpu & Hb). pose proof (tx_other (es ++ t) e).
    assert (writes_fit (e :: es ++ t) = writes_fit (es ++ t) /\ pulled (e :: es ++ t) = pulled (es ++ t) /\
            written (e :: es ++ t) = written (es ++ t)) as (E1 & E2 & E3).
    { destruct e as [| | c | c | c | | |]; try done; by destruct c. }
    cbn [app]. unfold tx_sound. rewrite E1, E2, E3. split_and!; try done. lia. }
  assert (tx_sound (tr s0)) as Hs0 by done.
  destruct (Hq (tr s0) Hs0) as (Hs1 & Hp1 & Hb1). rewrite <- Ht in Hs1, Hp1, Hb1.
  pose proof (tx_other (tr s) (E_call tud_task)) as Hb0.
  unfold bind at 1, sdkv. set (c := ret_of (tr s1) tud_cdc_connected).
  set (s2 := emit (E_ret tud_cdc_connected c) s1).
  pose proof (tx_other (tr s1) (E_ret tud_cdc_connected c)) as Hb2.
  change (tr s0) with (E_call tud_task :: tr s) in Hb1.
  destruct (z2b c) eqn:Hc; cbn [negb].
  - destruct (tx_loop backlog C fuel s2) as (s3 & [] & E3 & Hs3 & _); [unfold s2; vsimp; lia | done |].
    unfold bind. rewrite E3. eexists. split; [reflexivity |]. split; [done |].
    intros H0. unfold c in Hc. by rewrite H0 in Hc.
  - exists s2. split; [done |]. split; [done |]. intros _. exact Hp1.
Qed.

(** A runtime with two frames queued. *)
Fixpoint demo_backlog (t : trace) : nat :=
  match t with
  | [] => 2
  | E_bytes jd_usb_pull _ :: t => pred (demo_backlog t)
  | _ :: t => demo_backlog t
  end.
Definition usb_tx_env : Env :=
  ref_env 0 (fun _ _ => None) (fun _ _ => 64)
    (fun t c => match demo_backlog t with O => [] | S _ => [1; 2; 3] end).

#[export] Instance usb_demo_tx : @CdcTx usb_tx_env demo_backlog.
Proof.
  constructor.
  - intros t. cbn. destruct (demo_backlog t); cbn; lia.
  - intros t bs Hn Hb. cbn in Hb |- *. destruct (demo_backlog t); [congruence | cbn; lia].
  - intros t e. destruct e as [| | | | c | | |]; try done. destruct c; try done. cbn. lia.
Qed.

Lemma jd_usb_process_pipes_witness :
  written (tr (match @jd_usb_process usb_tx_env machine_init with Ret _ s | Stop _ s => s end))
    = [1; 2; 3; 1; 2; 3] /\
  exists s', @jd_usb_process usb_tx_env machine_init = Ret tt s' /\ tx_sound (tr s') /\
    ((forall t, @ret_of usb_tx_env t tud_cdc_connected = 0) -> pulled (tr s') = pulled (tr machine_init)).
Proof.
  split; [vm_compute; reflexivity |].
  apply (@jd_usb_process_pipes usb_tx_env demo_backlog usb_demo_tx machine_init); [| done].
  change (@fuel usb_tx_env) with 1000%nat. cbn. lia.
Defined.
