(* ===== verification/UsbDescriptors.v ===== *)
(** * UsbDescriptors: what the device tells the host, [usb_descriptors.c]

    The descriptors are constants; what can go wrong is that they disagree with
    each other: the HID report descriptor with the report the driver sends, the
    interface and endpoint numbers among themselves, the string indices with
    the strings.  The string descriptors are built on request.  The macros of
    TinyUSB that expand to descriptor bytes stay symbolic. *)

From S2P Require Import Prelude Events Machine RefEnv Hid.

(** ** Definitions *)

Definition USB_VID : Z := 0x2E8A.
Definition USB_PID : Z := 0x420a.
Definition HID_ITF_OFF : Z := 2.
Definition USB_MAX_POWER_MA : Z := 500.
Definition USB_ITF_CDC : Z := 0.
Definition USB_ITF_MAX : Z := HID_ITF_OFF + HID_ITF_TOTAL.
Definition USB_CDC_EP_CMD : Z := 0x81.
Definition USB_CDC_EP_OUT : Z := 0x02.
Definition USB_CDC_EP_IN : Z := 0x82.
Definition USB_CDC_CMD_MAX_SIZE : Z := 8.
Definition USB_CDC_IN_OUT_MAX_SIZE : Z := 64.
Definition HID_EPNUM_OFF : Z := 0x83.
Definition USB_STR_0 : Z := 0x00.
Definition USB_STR_MANUF : Z := 0x01.
Definition USB_STR_PRODUCT : Z := 0x02.
Definition USB_STR_SERIAL : Z := 0x03.
Definition USB_STR_CDC : Z := 0x04.
Definition USB_STR_HID : Z := 0x05.
Definition CFG_TUD_HID_EP_BUFSIZE : Z := 16.

(** Values TinyUSB and the SDK define. *)
Inductive tusb_val :=
| lit (z : Z)
| sizeof_tusb_desc_device_t | TUSB_DESC_DEVICE | TUSB_CLASS_MISC | MISC_SUBCLASS_COMMON
| MISC_PROTOCOL_IAD | CFG_TUD_ENDPOINT0_SIZE.

(** [tusb_desc_device_t] *)
Record tusb_desc_device_t := {
  bLength : tusb_val; bDescriptorType : tusb_val; bcdUSB : Z;
  bDeviceClass : tusb_val; bDeviceSubClass : tusb_val; bDeviceProtocol : tusb_val;
  bMaxPacketSize0 : tusb_val; idVendor : Z; idProduct : Z; bcdDevice : Z;
  iManufacturer : Z; iProduct : Z; iSerialNumber : Z; bNumConfigurations : Z
}.

Definition desc_device : tusb_desc_device_t := {|
  bLength := sizeof_tusb_desc_device_t;
  bDescriptorType := TUSB_DESC_DEVICE;
  bcdUSB := 0x0200;
  bDeviceClass := TUSB_CLASS_MISC;
  bDeviceSubClass := MISC_SUBCLASS_COMMON;
  bDeviceProtocol := MISC_PROTOCOL_IAD;
  bMaxPacketSize0 := CFG_TUD_ENDPOINT0_SIZE;
  idVendor := USB_VID;
  idProduct := USB_PID;
  bcdDevice := 0x0100;
  iManufacturer := USB_STR_MANUF;
  iProduct := USB_STR_PRODUCT;
  iSerialNumber := USB_STR_SERIAL;
  bNumConfigurations := 1
|}.

(** USB: the type code of a string descriptor. *)
Definition TUSB_DESC_STRING : Z := 3.

(** The HID report descriptor of the gamepad. *)
Definition desc_hid_GAMEPAD : list Z := [
  0x05; 0x01;  (* USAGE_PAGE (Generic Desktop) *)
  0x09; 0x05;  (* USAGE (Game Pad) *)
  0xa1; 0x01;  (* COLLECTION (Application) *)
  0x05; 0x02;  (* USAGE_PAGE (Simulation Controls) *)
  0x09; 0xbb;  (* USAGE (Throttle) *)
  0x15; 0x00;  (* LOGICAL_MINIMUM (0) *)
  0x25; 0x1f;  (* LOGICAL_MAXIMUM (31) *)
  0x75; 0x08;  (* REPORT_SIZE (8) *)
  0x95; 0x01;  (* REPORT_COUNT (1) *)
  0x81; 0x02;  (* INPUT (Data,Var,Abs) *)
  0x05; 0x02;  (* USAGE_PAGE (Simulation Controls) *)
  0x09; 0xb0;  (* USAGE (Rudder) *)
  0x15; 0x00;  (* LOGICAL_MINIMUM (0) *)
  0x25; 0x1f;  (* LOGICAL_MAXIMUM (31) *)
  0x75; 0x08;  (* REPORT_SIZE (8) *)
  0x95; 0x01;  (* REPORT_COUNT (1) *)
  0x81; 0x02;  (* INPUT (Data,Var,Abs) *)
  0x05; 0x01;  (* USAGE_PAGE (Generic Desktop) *)
  0xa1; 0x00;  (* COLLECTION (Physical) *)
  0x09; 0x30;  (* USAGE (X) *)
  0x09; 0x31;  (* USAGE (Y) *)
  0x09; 0x32;  (* USAGE (Z) *)
  0x09; 0x35;  (* USAGE (Rz) *)
  0x15; 0x81;  (* LOGICAL_MINIMUM (-127) *)
  0x25; 0x7f;  (* LOGICAL_MAXIMUM (127) *)
  0x75; 0x08;  (* REPORT_SIZE (8) *)
  0x95; 0x04;  (* REPORT_COUNT (4) *)
  0x81; 0x02;  (* INPUT (Data,Var,Abs) *)
  0x05; 0x09;  (* USAGE_PAGE (Button) *)
  0x19; 0x01;  (* USAGE_MINIMUM (Button 1) *)
  0x29; 0x10;  (* USAGE_MAXIMUM (Button 16) *)
  0x15; 0x00;  (* LOGICAL_MINIMUM (0) *)
  0x25; 0x01;  (* LOGICAL_MAXIMUM (1) *)
  0x75; 0x01;  (* REPORT_SIZE (1) *)
  0x95; 0x10;  (* REPORT_COUNT (16) *)
  0x81; 0x02;  (* INPUT (Data,Var,Abs) *)
  0xc0;        (* END_COLLECTION *)
  0xc0         (* END_COLLECTION *)
].

(** The other two come from TinyUSB macros. *)
Inductive hid_desc := TUD_HID_REPORT_DESC_KEYBOARD | TUD_HID_REPORT_DESC_MOUSE | hid_bytes (bs : list Z).

Definition desc_hid_KEYBOARD : hid_desc := TUD_HID_REPORT_DESC_KEYBOARD.
Definition desc_hid_MOUSE : hid_desc := TUD_HID_REPORT_DESC_MOUSE.

(** An array with designated initialisers; what they leave out is NULL. *)
Definition designated {A} (n : Z) (inits : list (Z * A)) : list (option A) :=
  foldl (fun a '(i, x) => <[Z.to_nat i := Some x]> a) (replicate (Z.to_nat n) None) inits.

Definition hid_descs : list (option hid_desc) :=
  designated HID_ITF_TOTAL
    [(HID_ITF_KEYBOARD, desc_hid_KEYBOARD);
     (HID_ITF_MOUSE, desc_hid_MOUSE);
     (HID_ITF_GAMEPAD, hid_bytes desc_hid_GAMEPAD)].

(** [sizeof] of a report descriptor: a number, or the size of what a macro of
    TinyUSB expands to. *)
Inductive hid_size := bytes (n : Z) | sizeof_REPORT_DESC_KEYBOARD | sizeof_REPORT_DESC_MOUSE.
Definition sizeof (d : hid_desc) : hid_size :=
  match d with
  | TUD_HID_REPORT_DESC_KEYBOARD => sizeof_REPORT_DESC_KEYBOARD
  | TUD_HID_REPORT_DESC_MOUSE => sizeof_REPORT_DESC_MOUSE
  | hid_bytes bs => bytes (Z.of_nat (length bs))
  end.

(** The tokens that [HID_DESC] pastes into [HID_ITF_##id] and [desc_hid_##id]. *)
Inductive hid_id := GAMEPAD | KEYBOARD | MOUSE.
Definition HID_ITF (id : hid_id) : Z :=
  match id with GAMEPAD => HID_ITF_GAMEPAD | KEYBOARD => HID_ITF_KEYBOARD | MOUSE => HID_ITF_MOUSE end.
Definition desc_hid (id : hid_id) : hid_desc :=
  match id with GAMEPAD => hid_bytes desc_hid_GAMEPAD | KEYBOARD => desc_hid_KEYBOARD | MOUSE => desc_hid_MOUSE end.

(** The configuration descriptor, macro by macro. *)
Inductive hid_protocol := HID_ITF_PROTOCOL_NONE | HID_ITF_PROTOCOL_KEYBOARD | HID_ITF_PROTOCOL_MOUSE.

(** A length in units of the descriptor macros: how many of each it adds up. *)
Record desc_len := mkLen { n_TUD_CONFIG_DESC_LEN : Z; n_TUD_CDC_DESC_LEN : Z; n_TUD_HID_DESC_LEN : Z }.
Definition len_add (a b : desc_len) : desc_len :=
  mkLen (n_TUD_CONFIG_DESC_LEN a + n_TUD_CONFIG_DESC_LEN b)
    (n_TUD_CDC_DESC_LEN a + n_TUD_CDC_DESC_LEN b) (n_TUD_HID_DESC_LEN a + n_TUD_HID_DESC_LEN b).

(** [TUD_CONFIG_DESC_LEN + TUD_CDC_DESC_LEN + TUD_HID_DESC_LEN * HID_ITF_TOTAL] *)
Definition USB_DESC_LEN : desc_len := mkLen 1 1 HID_ITF_TOTAL.

Inductive tud_desc :=
| TUD_CONFIG_DESCRIPTOR (config itf_count str : Z) (total : desc_len) (attr power : Z)
| TUD_CDC_DESCRIPTOR (itf str ep_cmd cmd_size ep_out ep_in size : Z)
| TUD_HID_DESCRIPTOR (itf str : Z) (proto : hid_protocol) (report_len : hid_size)
    (ep size interval : Z).

Definition HID_DESC (id : hid_id) (proto : hid_protocol) : tud_desc :=
  TUD_HID_DESCRIPTOR (HID_ITF_OFF + HID_ITF id) (USB_STR_HID + HID_ITF id) proto
    (sizeof (desc_hid id)) (HID_EPNUM_OFF + HID_ITF id) CFG_TUD_HID_EP_BUFSIZE 10.

Definition desc_cfg : list tud_desc := [
  TUD_CONFIG_DESCRIPTOR 1 USB_ITF_MAX USB_STR_0 USB_DESC_LEN 0 USB_MAX_POWER_MA;
  TUD_CDC_DESCRIPTOR USB_ITF_CDC USB_STR_CDC USB_CDC_EP_CMD USB_CDC_CMD_MAX_SIZE
    USB_CDC_EP_OUT USB_CDC_EP_IN USB_CDC_IN_OUT_MAX_SIZE;
  HID_DESC GAMEPAD HID_ITF_PROTOCOL_NONE;
  HID_DESC KEYBOARD HID_ITF_PROTOCOL_KEYBOARD;
  HID_DESC MOUSE HID_ITF_PROTOCOL_MOUSE
].

(** A C string: its characters and the terminating zero. *)
Fixpoint chars (s : string) : list Z :=
  match s with
  | EmptyString => []
  | String a s => Z.of_nat (Ascii.nat_of_ascii a) :: chars s
  end.
Definition cstr (s : string) : list Z := chars s ++ [0].

Definition serial_str : var (list Z) := {|
  rd s := f_serial_str (m_usbd s);
  wr v := upd_usbd (fun x => {| f_serial_str := v; f_desc_str := f_desc_str x |}) |}.
Definition desc_str : var (list Z) := {|
  rd s := f_desc_str (m_usbd s);
  wr v := upd_usbd (fun x => {| f_serial_str := f_serial_str x; f_desc_str := v |}) |}.

(** Entry 0 of the table is left NULL; the entries from 5 on are indexed by the
    HID interface. *)
Definition string_descriptors (serial : list Z) : list (option (list Z)) := [
  None;
  Some (cstr "Raspberry Pi");
  Some (cstr "RP2040");
  Some serial;
  Some (cstr "Jacdac CDC");
  Some (cstr "Jacdac Gamepad");
  Some (cstr "Jacdac Keyboard");
  Some (cstr "Jacdac Mouse")
].

Section Operations.
Context {E : Env}.

Definition tud_descriptor_device_cb : M tusb_desc_device_t := ret desc_device.

Definition tud_descriptor_configuration_cb (index : Z) : M (list tud_desc) := ret desc_cfg.

(** The two bytes "JD" and the device id in hexadecimal. *)
Definition fill_serial : M unit :=
  let! s := get serial_str in
  let! c := index s 0 in
  when c =? 0 do
    (let! devid := sdkv jd_device_id in
     store serial_str 0 74 ;;
     store serial_str 1 68 ;;
     let! hex := sdkb (jd_to_hex devid 8) in
     let! s := get serial_str in
     let! s := write_at s 2 hex in
     serial_str <~ s).

(** [for (len = 0; len < 31 && str[len]; len++) desc_str[1 + len] = str[len];] *)
Definition copy_string (str : list Z) : M Z :=
  loop 32 (fun len =>
    if len <? 31 then
      let! c := index str len in
      if c =? 0 then ret (inr len)
      else (store desc_str (1 + len) (u16 c) ;; ret (inl (len + 1)))
    else ret (inr len)) 0.

Definition tud_descriptor_string_cb (idx : Z) : M (option (list Z)) :=
  fill_serial ;;
  let! len :=
    (if idx =? 0 then (store desc_str 1 0x0409 ;; ret (Some 1))
     else
       (let! serial := get serial_str in
        let table := string_descriptors serial in
        if Z.of_nat (length table) <=? idx then ret None
        else
          let! str := index table idx in
          match str with
          | None => ret None
          | Some str => let! len := copy_string str in ret (Some len)
          end)) in
  match len with
  | None => ret None
  | Some len =>
    store desc_str 0 (u16 (Z.lor (Z.shiftl TUSB_DESC_STRING 8) (2 * len + 2))) ;;
    let! d := get desc_str in
    ret (Some d)
  end.

Definition tud_hid_descriptor_report_cb (instance : Z) : M (option hid_desc) :=
  if instance <? HID_ITF_TOTAL then index hid_descs instance else ret None.
End Operations.

(** *** Reading a HID report descriptor *)

(** One short item: tag, type and little-endian data of 0, 1, 2 or 4 bytes. *)
Definition item_size (b : Z) : nat :=
  match Z.land b 3 with 0 => 0%nat | 1 => 1%nat | 2 => 2%nat | _ => 4%nat end.
Fixpoint le_value (bs : list Z) : Z :=
  match bs with [] => 0 | b :: bs => b + 256 * le_value bs end.

Record hid_parse := mkParse { hp_depth : Z; hp_size : Z; hp_count : Z; hp_input : Z }.

Definition parse_item (b v : Z) (p : hid_parse) : option hid_parse :=
  match Z.land b 0xfc with
  | 0xa0 => Some (mkParse (hp_depth p + 1) (hp_size p) (hp_count p) (hp_input p))
  | 0xc0 => if hp_depth p <=? 0 then None
            else Some (mkParse (hp_depth p - 1) (hp_size p) (hp_count p) (hp_input p))
  | 0x74 => Some (mkParse (hp_depth p) v (hp_count p) (hp_input p))
  | 0x94 => Some (mkParse (hp_depth p) (hp_size p) v (hp_input p))
  | 0x80 => Some (mkParse (hp_depth p) (hp_size p) (hp_count p)
                    (hp_input p + hp_size p * hp_count p))
  | _ => Some p
  end.

Fixpoint parse_items (fuel : nat) (bs : list Z) (p : hid_parse) : option hid_parse :=
  match fuel, bs with
  | _, [] => Some p
  | O, _ => None
  | S fuel, b :: bs =>
    let n := item_size b in
    if (length bs <? n)%nat then None
    else match parse_item b (le_value (take n bs)) p with
         | Some p => parse_items fuel (drop n bs) p
         | None => None
         end
  end.

(** The bits of the input report a descriptor declares, if it is well formed. *)
Definition input_bits (bs : list Z) : option Z :=
  match parse_items (S (length bs)) bs (mkParse 0 0 0 0) with
  | Some p => if hp_depth p =? 0 then Some (hp_input p) else None
  | None => None
  end.

(** *** Reading a string descriptor *)

Definition decode_string (d : list Z) : option (list Z) :=
  match d with
  | h :: d =>
    if (Z.shiftr h 8 =? TUSB_DESC_STRING) && (Z.land h 0xff mod 2 =? 0)
    then Some (take (Z.to_nat (Z.land h 0xff / 2 - 1)) d) else None
  | [] => None
  end.

(** What each string index says; [hex] is the device id. *)
Definition usb_text (hex : list Z) (idx : Z) : list Z :=
  match idx with
  | 1 => chars "Raspberry Pi"
  | 2 => chars "RP2040"
  | 3 => [74; 68] ++ hex
  | 4 => chars "Jacdac CDC"
  | 5 => chars "Jacdac Gamepad"
  | 6 => chars "Jacdac Keyboard"
  | 7 => chars "Jacdac Mouse"
  | _ => []
  end.

Definition printable (cs : list Z) : Prop := Forall (fun c => 0 < c < 256) cs.

(** [jd_to_hex] writes two digits per byte and a terminating zero. *)
Class HexOk {E : Env} : Prop := {
  hex_digits t v : exists h, bytes_of t (jd_to_hex v 8) = h ++ [0] /\ length h = 16%nat /\ printable h
}.

(** The serial number is still empty, or complete. *)
Definition serial_is (hex : list Z) (s : machine) : Prop :=
  length hex = 16%nat /\ printable hex /\ rd serial_str s = [74; 68] ++ hex ++ [0].
Definition serial_ok (s : machine) : Prop :=
  rd serial_str s = replicate 19 0 \/ exists hex, serial_is hex s.

(** ** Lemmas *)

Lemma fill_serial_run {E : Env} `{!HexOk} s :
  serial_ok s ->
  exists s' hex, fill_serial s = Ret tt s' /\ serial_is hex s' /\ rd desc_str s' = rd desc_str s /\
    (forall h, serial_is h s -> h = hex /\ s' = s).
Proof.
  intros [Hz | (hex & Hs)].
  - unfold fill_serial. unfold bind at 1, get at 1. rewrite Hz.
    unfold bind at 1. rewrite (index_run _ _ 0) by (lia || done). cbn [Z.eqb].
    unfold bind at 1, sdkv at 1. set (s1 := emit _ s).
    assert (rd serial_str s1 = replicate 19 0) as H1 by done.
    unfold bind at 1. rewrite store_run by (rewrite H1; cbn; lia). rewrite H1.
    set (s2 := wr serial_str _ s1). assert (rd serial_str s2 = 74 :: replicate 18 0) as H2 by done.
    unfold bind at 1. rewrite store_run by (rewrite H2; cbn; lia). rewrite H2.
    set (s3 := wr serial_str _ s2).
    assert (rd serial_str s3 = 74 :: 68 :: replicate 17 0) as H3 by done.
    unfold bind at 1, sdkb.
    destruct (hex_digits (tr s3) (ret_of (tr s) jd_device_id)) as (h & Hh & Hl & Hp).
    rewrite Hh. set (s4 := emit _ s3). assert (rd serial_str s4 = 74 :: 68 :: replicate 17 0) as H4 by done.
    unfold bind at 1, get at 1. rewrite H4. unfold bind at 1, write_at. rewrite length_app, Hl.
    cbn [length replicate Nat.add Nat.leb]. unfold ret, put.
    eexists _, h. split; [reflexivity |]. split.
    + split; [done |]. split; [done |]. vsimp. cbn [take drop app]. by rewrite app_nil_r.
    + split; [by vsimp |]. intros h' (_ & _ & Hs'). rewrite Hs' in Hz. discriminate.
  - pose proof Hs as (Hl & Hp & Hr). exists s, hex. unfold fill_serial, bind, get. rewrite Hr.
    rewrite (index_run _ _ 74) by (lia || done). split; [done |]. split; [done |]. split; [done |].
    intros h (Hl' & _ & Hs'). split; [| done]. rewrite Hr in Hs'. simplify_eq.
    assert (take 16 (h ++ [0]) = take 16 (hex ++ [0])) as Ht by congruence.
    by rewrite !take_app_le, !firstn_all2 in Ht by lia.
Qed.

(** Copying a string: at most 31 characters. *)
Definition copy_round (str : list Z) (len : Z) : M (Z + Z) :=
  if len <? 31 then
    let! c := index str len in
    if c =? 0 then ret (inr len)
    else (store desc_str (1 + len) (u16 c) ;; ret (inl (len + 1)))
  else ret (inr len).

Lemma string_copy_loop cs rest i f s :
  printable cs -> (length cs <= 31)%nat -> (i <= length cs)%nat -> (length cs < i + f)%nat ->
  length (rd desc_str s) = 32%nat ->
  (forall j, (j < i)%nat -> rd desc_str s !! S j = cs !! j) ->
  exists s', loop f (copy_round (cs ++ 0 :: rest)) (Z.of_nat i) s = Ret (Z.of_nat (length cs)) s' /\
    length (rd desc_str s') = 32%nat /\ rd serial_str s' = rd serial_str s /\
    forall j, (j < length cs)%nat -> rd desc_str s' !! S j = cs !! j.
Proof.
  intros Hp Hl. revert i s. induction f as [| f IH]; intros i s Hi Hf Hd Hj; [lia |].
  cbn [loop]. unfold bind at 1, copy_round at 1.
  destruct (decide (i = length cs)) as [-> | Hne].
  - exists s. destruct (Z.ltb_spec (Z.of_nat (length cs)) 31); [| by split_and!].
    unfold bind at 1. rewrite (index_run _ _ 0);
      [by split_and! | lia | rewrite Nat2Z.id, lookup_app_r, Nat.sub_diag by lia; done].
  - rewrite (proj2 (Z.ltb_lt (Z.of_nat i) 31)) by lia.
    destruct (lookup_lt_is_Some_2 cs i) as [c Hc]; [lia |].
    unfold bind at 1. rewrite (index_run _ _ c);
      [| lia | rewrite Nat2Z.id, lookup_app_l by lia; done].
    assert (0 < c < 256) as Hcr by (eapply Forall_lookup_1 in Hp; eauto).
    rewrite (proj2 (Z.eqb_neq c 0)) by lia.
    unfold bind at 1. rewrite store_run by (rewrite Hd; lia). unfold ret.
    replace (Z.of_nat i + 1) with (Z.of_nat (S i)) by lia.
    replace (Z.to_nat (1 + Z.of_nat i)) with (S i) by lia.
    destruct (IH (S i) (wr desc_str (<[S i := u16 c]> (rd desc_str s)) s)) as (s' & E1 & H1 & H2 & H3);
      [lia | lia | vsimp; by rewrite length_insert | | by exists s'].
    intros j Hji. vsimp. destruct (decide (j = i)) as [-> |].
    + rewrite list_lookup_insert_eq by lia. rewrite u16_id by lia. done.
    + rewrite list_lookup_insert_ne by lia. apply Hj. lia.
Qed.

Lemma chars_printable_table idx : 1 <= idx <= 7 -> idx <> 3 ->
  printable (usb_text [] idx) /\ (length (usb_text [] idx) <= 31)%nat /\
  forall serial, string_descriptors serial !! Z.to_nat idx = Some (Some (usb_text [] idx ++ [0])).
Proof.
  intros H1 H3.
  assert (idx = 1 \/ idx = 2 \/ idx = 4 \/ idx = 5 \/ idx = 6 \/ idx = 7) as Hi by lia.
  destruct Hi as [-> | [-> | [-> | [-> | [-> | ->]]]]]; (split; [by repeat constructor |]);
    (split; [vm_compute; lia | reflexivity]).
Qed.

Lemma decode_header n d cs :
  (n <= 31)%nat -> length cs = n -> length d = 32%nat ->
  (forall j, (j < n)%nat -> d !! S j = cs !! j) ->
  decode_string (<[0%nat := u16 (Z.lor (Z.shiftl TUSB_DESC_STRING 8) (2 * Z.of_nat n + 2))]> d) = Some cs.
Proof.
  intros Hn Hl Hd Hj. destruct d as [| h d]; [done |]. cbn [list_insert insert decode_string].
  assert (forallb (fun n => let h := u16 (Z.lor (Z.shiftl TUSB_DESC_STRING 8) (2 * n + 2)) in
    (Z.shiftr h 8 =? TUSB_DESC_STRING) && (Z.land h 0xff mod 2 =? 0) &&
    (Z.land h 0xff / 2 - 1 =? n)) (seqZ_from 0 32) = true) as Hall by (vm_compute; reflexivity).
  apply (forallb_seqZ _ 32) with (i := Z.of_nat n) in Hall; [| lia]. cbv zeta in Hall. b2p.
  set (x := u16 (Z.lor _ _)) in *.
  change (decode_string (x :: d) = Some cs). cbn [decode_string].
  rewrite H, H1, H0, !Z.eqb_refl. cbn [andb]. f_equal. rewrite Nat2Z.id.
  apply list_eq. intros j. destruct (decide (j < n)%nat) as [Hj' | Hj'].
  - rewrite lookup_take_lt by lia. exact (Hj j Hj').
  - rewrite lookup_take_ge by lia. symmetry. apply lookup_ge_None_2. lia.
Qed.

(** Looking a string up, copying it and writing the header. *)
Lemma string_run {E : Env} idx cs s :
  1 <= idx <= 7 -> string_descriptors (rd serial_str s) !! Z.to_nat idx = Some (Some (cs ++ [0])) ->
  printable cs -> (length cs <= 31)%nat -> length (rd desc_str s) = 32%nat ->
  exists d s', (let! serial := get serial_str in
     if Z.of_nat (length (string_descriptors serial)) <=? idx then ret None
     else
       let! str := index (string_descriptors serial) idx in
       match str with
       | None => ret None
       | Some str => let! len := copy_string str in ret (Some len)
       end) s = Ret (Some (Z.of_nat (length cs))) s' /\
    rd serial_str s' = rd serial_str s /\ d = rd desc_str s' /\ length d = 32%nat /\
    forall j, (j < length cs)%nat -> d !! S j = cs !! j.
Proof.
  intros Hi Ht Hp Hl Hd. unfold bind at 1, get at 1. cbv zeta.
  change (length (string_descriptors (rd serial_str s))) with 8%nat.
  rewrite (proj2 (Z.leb_gt (Z.of_nat 8) idx)) by lia.
  assert (0 <= idx) as H0 by lia. unfold bind at 1. rewrite (index_run _ _ _ _ H0 Ht).
  destruct (string_copy_loop cs [] 0 32 s Hp Hl) as (s' & E1 & H1 & H2 & H3);
    [lia | lia | done | intros; lia |].
  unfold bind at 1. change (copy_string (cs ++ [0])) with (loop 32 (copy_round (cs ++ [0])) (Z.of_nat 0)).
  rewrite E1. by exists (rd desc_str s'), s'.
Qed.

(** ** Properties *)

(** C34: the string descriptors.  Every text the device names elsewhere - maker,
    product, serial number, CDC and HID interfaces - is returned as a well
    formed UTF-16 string descriptor that decodes to exactly that text; index 0
    announces one language; any other index is refused.  The serial number is
    "JD" and the device id, built on the first request and kept from then on. *)
Theorem usb_string_roundtrip {E : Env} `{!HexOk} idx s :
  serial_ok s -> length (rd desc_str s) = 32%nat -> 0 <= idx < 256 ->
  exists r s' hex, tud_descriptor_string_cb idx s = Ret r s' /\ serial_is hex s' /\
    (forall h, serial_is h s -> h = hex) /\
    (idx = 0 -> exists d, r = Some d /\ decode_string d = Some [0x0409]) /\
    (1 <= idx <= 7 -> exists d, r = Some d /\ decode_string d = Some (usb_text hex idx)) /\
    (8 <= idx -> r = None).
Proof.
  intros Hs Hd Hi. destruct (fill_serial_run s Hs) as (s1 & hex & E1 & Hs1 & Hd1 & Hk).
  unfold tud_descriptor_string_cb. unfold bind at 1. rewrite E1.
  assert (forall h, serial_is h s -> h = hex) as Hkeep by (intros h Hh; exact (proj1 (Hk h Hh))).
  destruct (Z.eqb_spec idx 0) as [-> | Hn0].
  { unfold bind at 1 2. rewrite store_run by (rewrite Hd1, Hd; lia). unfold ret at 1.
    unfold bind at 1. rewrite store_run by (vsimp; rewrite length_insert, Hd1, Hd; lia).
    mexec. eexists _, _, hex. split; [reflexivity |]. vsimp. split; [exact Hs1 |]. split; [done |].
    split; [| split; intros; lia]. intros _. eexists. split; [reflexivity |].
    apply (decode_header 1); [lia | done | by rewrite length_insert, Hd1, Hd |].
    intros [| j] Hj; [| lia]. rewrite list_lookup_insert_eq by (rewrite Hd1, Hd; lia). done. }
  destruct (Z.le_gt_cases 8 idx) as [H8 | H8].
  { unfold bind at 1 2, get at 1. cbv zeta.
    change (length (string_descriptors (rd serial_str s1))) with 8%nat.
    rewrite (proj2 (Z.leb_le (Z.of_nat 8) idx)) by lia. unfold ret at 1.
    eexists _, _, hex. split; [reflexivity |]. split; [exact Hs1 |]. split; [done |].
    split; [intros; lia |]. split; [intros; lia | done]. }
  assert (exists cs, cs = usb_text hex idx /\ printable cs /\ (length cs <= 31)%nat /\
    string_descriptors (rd serial_str s1) !! Z.to_nat idx = Some (Some (cs ++ [0])))
    as (cs & -> & Hp & Hl & Ht).
  { destruct (decide (idx = 3)) as [-> | H3].
    - destruct Hs1 as (Hl & Hp & ->). eexists. split; [reflexivity |]. split; [by repeat constructor |].
      split; [cbn; lia | done].
    - destruct (chars_printable_table idx) as (H1 & H2 & H3'); [lia | done |].
      exists (usb_text [] idx). split_and!; try done.
      assert (idx = 1 \/ idx = 2 \/ idx = 4 \/ idx = 5 \/ idx = 6 \/ idx = 7) as Hx by lia.
      by destruct Hx as [-> | [-> | [-> | [-> | [-> | ->]]]]]. }
  destruct (string_run idx _ s1 ltac:(lia) Ht Hp Hl ltac:(by rewrite Hd1)) as (d & s2 & E2 & H2 & -> & H4 & H5).
  cbv iota zeta. unfold bind at 1. rewrite E2. unfold bind at 1. rewrite store_run by (rewrite H4; lia).
  mexec. eexists _, _, hex. split; [reflexivity |]. vsimp.
  split; [destruct Hs1 as (? & ? & ?); split_and!; try done; unfold serial_is; vsimp; by rewrite H2 |].
  split; [done |]. split; [intros; lia |]. split; [| intros; lia].
  intros _. eexists. split; [reflexivity |].
  apply (decode_header (length (usb_text hex idx))); done.
Qed.

(** Sixteen digits for the device id. *)
Definition hex_demo_env : Env :=
  ref_env 0 (fun _ _ => None) (fun _ _ => 7)
    (fun _ c => match c with jd_to_hex _ _ => replicate 16 48 ++ [0] | _ => [] end).

#[export] Instance hex_demo : @HexOk hex_demo_env.
Proof.
  constructor. intros t v. exists (replicate 16 48). split_and!; [done | done |]. by repeat constructor.
Qed.

Lemma usb_string_roundtrip_witness :
  exists r s' hex, @tud_descriptor_string_cb hex_demo_env 3 machine_init = Ret r s' /\ serial_is hex s' /\
    (forall h, serial_is h machine_init -> h = hex) /\
    (3 = 0 -> exists d, r = Some d /\ decode_string d = Some [0x0409]) /\
    (1 <= 3 <= 7 -> exists d, r = Some d /\ decode_string d = Some (usb_text hex 3)) /\
    (8 <= 3 -> r = None).
Proof.
  apply (@usb_string_roundtrip hex_demo_env hex_demo 3 machine_init); [by left | reflexivity | lia].
Defined.

(** The HID interfaces of the configuration, in the order TinyUSB numbers them. *)
Fixpoint hid_interfaces (ds : list tud_desc) : list (Z * Z * hid_protocol * hid_size * Z) :=
  match ds with
  | [] => []
  | TUD_HID_DESCRIPTOR itf str proto len ep _ _ :: ds => (itf, str, proto, len, ep) :: hid_interfaces ds
  | _ :: ds => hid_interfaces ds
  end.

(** What the host should find for the device that the driver calls [id]. *)
Definition hid_promise (id : hid_id) : hid_desc * hid_protocol * list Z :=
  match id with
  | GAMEPAD => (hid_bytes desc_hid_GAMEPAD, HID_ITF_PROTOCOL_NONE, chars "Jacdac Gamepad")
  | KEYBOARD => (TUD_HID_REPORT_DESC_KEYBOARD, HID_ITF_PROTOCOL_KEYBOARD, chars "Jacdac Keyboard")
  | MOUSE => (TUD_HID_REPORT_DESC_MOUSE, HID_ITF_PROTOCOL_MOUSE, chars "Jacdac Mouse")
  end.

(** The length of a descriptor macro, and what a configuration announces. *)
Definition desc_length (d : tud_desc) : desc_len :=
  match d with
  | TUD_CONFIG_DESCRIPTOR _ _ _ _ _ _ => mkLen 1 0 0
  | TUD_CDC_DESCRIPTOR _ _ _ _ _ _ _ => mkLen 0 1 0
  | TUD_HID_DESCRIPTOR _ _ _ _ _ _ _ => mkLen 0 0 1
  end.
Definition announced (d : tud_desc) : option desc_len :=
  match d with TUD_CONFIG_DESCRIPTOR _ _ _ total _ _ => Some total | _ => None end.

(** C35: the descriptors agree with each other and with the driver.  The
    gamepad's report descriptor is well formed and declares exactly the 64
    bits of the report that [hid_process] sends.  For each of the three devices,
    the instance under which [hid_process] sends its reports is the HID interface
    with its protocol; a request for that instance returns its report
    descriptor - gamepad, keyboard or mouse - and the interface announces the
    length of that very descriptor; the interface's string names it, its number
    follows the two of CDC, and its endpoint is used by no other interface; any
    other instance is refused.  The configuration announces the length of exactly
    the descriptors it is made of, and the device descriptor's strings are the
    manufacturer, the product and the serial number. *)
Theorem usb_descriptors_consistent {E : Env} s serial :
  input_bits desc_hid_GAMEPAD = Some (8 * Z.of_nat (length gamepad_zero)) /\
  Z.of_nat (length (hid_interfaces desc_cfg)) = HID_ITF_TOTAL /\
  (forall id, let '(report, proto, name) := hid_promise id in
     exists itf str ep, hid_interfaces desc_cfg !! Z.to_nat (HID_ITF id) = Some (itf, str, proto, sizeof report, ep) /\
       tud_hid_descriptor_report_cb (HID_ITF id) s = Ret (Some report) s /\
       itf = 2 + HID_ITF id /\ itf < USB_ITF_MAX /\
       string_descriptors serial !! Z.to_nat str = Some (Some (name ++ [0])) /\
       ep <> USB_CDC_EP_CMD /\ ep <> USB_CDC_EP_IN /\
       (forall k itf' str' proto' len' ep', hid_interfaces desc_cfg !! k = Some (itf', str', proto', len', ep') ->
          ep' = ep -> k = Z.to_nat (HID_ITF id))) /\
  (forall k, HID_ITF_TOTAL <= k -> tud_hid_descriptor_report_cb k s = Ret None s) /\
  head desc_cfg ≫= announced = Some (foldr len_add (mkLen 0 0 0) (map desc_length desc_cfg)) /\
  map (fun i => string_descriptors serial !! Z.to_nat i)
    [iManufacturer desc_device; iProduct desc_device; iSerialNumber desc_device] =
  [Some (Some (cstr "Raspberry Pi")); Some (Some (cstr "RP2040")); Some (Some serial)].
Proof.
  split; [vm_compute; reflexivity |]. split; [reflexivity |]. split; [| split; [| split; reflexivity]].
  - intros []; cbn [hid_promise]; do 3 eexists; (split; [reflexivity |]); (split; [reflexivity |]);
      (split; [reflexivity |]); (split; [reflexivity |]); (split; [reflexivity |]); (split; [discriminate |]);
      (split; [discriminate |]); intros [| [| [| k]]] itf' str' proto' len' ep' H Hep; vm_compute in H;
      simplify_eq; done.
  - intros k Hk. unfold tud_hid_descriptor_report_cb. by rewrite (proj2 (Z.ltb_ge k HID_ITF_TOTAL)).
Qed.

(** The keyboard is instance 1. *)
Lemma usb_descriptors_consistent_witness :
  tud_hid_descriptor_report_cb HID_ITF_KEYBOARD machine_init = Ret (Some TUD_HID_REPORT_DESC_KEYBOARD) machine_init /\
  input_bits desc_hid_GAMEPAD = Some (8 * Z.of_nat (length gamepad_zero)).
Proof.
  destruct (@usb_descriptors_consistent env0 machine_init []) as (H1 & _ & H & _). split; [| exact H1].
  destruct (H KEYBOARD) as (itf & str & ep & _ & H2 & _). exact H2.
Defined.
