(* ===== verification/Alloc.v ===== *)
(** * Alloc: the heap entry points of [platform.c]

    [jd_alloc] returns zeroed memory; the heap itself is the C library's. *)

From S2P Require Import Prelude Events Machine.

(** ** Definitions *)

Section Operations.
Context {E : Env}.

Definition jd_alloc_stack_check : M unit := ret tt.
Definition jd_alloc_init : M unit := ret tt.
Definition jd_alloc (size : Z) : M Z := sdkv (calloc size 1).
Definition jd_free (ptr : addr) : M unit := sdk (free ptr).
Definition jd_alloc_emergency_area (size : Z) : M Z := sdkv (calloc size 1).
End Operations.

(** A pointer held in a variable, as an address. *)
Definition ptr_addr (p : option Z) : addr := match p with Some a => mem a | None => NULL end.

(** An address returned by a call; 0 is NULL. *)
Definition as_ptr (v : Z) : option Z := if v =? 0 then None else Some v.
