(* ===== verification/Wifi.v ===== *)
(** * Wifi: the wireless link of [wifi_impl.c] and [cyw43_fixes.c]

    A table of access points that the driver fills one report at a time, the
    link status turned into "got address" and "lost address" notices, and the
    LED of the Pico W, which hangs off the radio chip.  The CYW43 driver and
    lwIP are polled; while polled they call [scan_result] and the callbacks of
    [LwipSock], so a poll is a call that may re-enter the firmware. *)

From S2P Require Import Prelude Events Machine RefEnv Alloc.

(** ** Definitions *)

(** The driver's link states, interfaces, authentication words and LED pin. *)
Definition CYW43_LINK_DOWN : Z := 0.
Definition CYW43_LINK_JOIN : Z := 1.
Definition CYW43_LINK_NOIP : Z := 2.
Definition CYW43_LINK_UP : Z := 3.
Definition CYW43_LINK_FAIL : Z := -1.
Definition CYW43_LINK_NONET : Z := -2.
Definition CYW43_LINK_BADAUTH : Z := -3.
Definition CYW43_ITF_STA : Z := 0.
Definition CYW43_AUTH_OPEN : Z := 0.
Definition CYW43_AUTH_WPA2_AES_PSK : Z := 0x00400004.
Definition CYW43_WL_GPIO_LED_PIN : Z := 0.
Definition JD_WIFI_APFLAGS_HAS_PASSWORD : Z := 1.

Definition scan_res : var (option (Z * list wifi_result)) := {|
  rd s := f_scan_res (m_wifi s);
  wr v := upd_wifi (fun x => {| f_scan_res := v; f_scan_ptr := f_scan_ptr x; f_scan_size := f_scan_size x;
      f_inited := f_inited x; f_in_scan := f_in_scan x;
      f_prev_status := f_prev_status x; f_is_on := f_is_on x;
      f_cyw43_core_num := f_cyw43_core_num x |}) |}.
Definition scan_ptr : var Z := {|
  rd s := f_scan_ptr (m_wifi s);
  wr v := upd_wifi (fun x => {| f_scan_res := f_scan_res x; f_scan_ptr := v; f_scan_size := f_scan_size x;
      f_inited := f_inited x; f_in_scan := f_in_scan x;
      f_prev_status := f_prev_status x; f_is_on := f_is_on x;
      f_cyw43_core_num := f_cyw43_core_num x |}) |}.
Definition scan_size : var Z := {|
  rd s := f_scan_size (m_wifi s);
  wr v := upd_wifi (fun x => {| f_scan_res := f_scan_res x; f_scan_ptr := f_scan_ptr x; f_scan_size := v;
      f_inited := f_inited x; f_in_scan := f_in_scan x;
      f_prev_status := f_prev_status x; f_is_on := f_is_on x;
      f_cyw43_core_num := f_cyw43_core_num x |}) |}.
Definition inited : var bool := {|
  rd s := f_inited (m_wifi s);
  wr v := upd_wifi (fun x => {| f_scan_res := f_scan_res x; f_scan_ptr := f_scan_ptr x; f_scan_size := f_scan_size x;
      f_inited := v; f_in_scan := f_in_scan x; f_prev_status := f_prev_status x;
      f_is_on := f_is_on x; f_cyw43_core_num := f_cyw43_core_num x |}) |}.
Definition in_scan : var bool := {|
  rd s := f_in_scan (m_wifi s);
  wr v := upd_wifi (fun x => {| f_scan_res := f_scan_res x; f_scan_ptr := f_scan_ptr x; f_scan_size := f_scan_size x;
      f_inited := f_inited x; f_in_scan := v; f_prev_status := f_prev_status x;
      f_is_on := f_is_on x; f_cyw43_core_num := f_cyw43_core_num x |}) |}.
Definition prev_status : var Z := {|
  rd s := f_prev_status (m_wifi s);
  wr v := upd_wifi (fun x => {| f_scan_res := f_scan_res x; f_scan_ptr := f_scan_ptr x; f_scan_size := f_scan_size x;
      f_inited := f_inited x; f_in_scan := f_in_scan x; f_prev_status := v;
      f_is_on := f_is_on x; f_cyw43_core_num := f_cyw43_core_num x |}) |}.
Definition is_on : var bool := {|
  rd s := f_is_on (m_wifi s);
  wr v := upd_wifi (fun x => {| f_scan_res := f_scan_res x; f_scan_ptr := f_scan_ptr x; f_scan_size := f_scan_size x;
      f_inited := f_inited x; f_in_scan := f_in_scan x;
      f_prev_status := f_prev_status x; f_is_on := v;
      f_cyw43_core_num := f_cyw43_core_num x |}) |}.
Definition cyw43_core_num : var Z := {|
  rd s := f_cyw43_core_num (m_wifi s);
  wr v := upd_wifi (fun x => {| f_scan_res := f_scan_res x; f_scan_ptr := f_scan_ptr x; f_scan_size := f_scan_size x;
      f_inited := f_inited x; f_in_scan := f_in_scan x;
      f_prev_status := f_prev_status x; f_is_on := f_is_on x; f_cyw43_core_num := v |}) |}.

Section Operations.
(** The layout of [jd_wifi_results_t]: its size and that of its [ssid] array. *)
Context {E : Env} (sizeof_result : Z) (ssid_size : nat).

(** *** [cyw43_fixes.c] *)

Definition cyw43_arch_init : M Z :=
  let! n := sdkv get_core_num in
  cyw43_core_num <~ u8 n ;;
  sdk cyw43_init ;;
  sdk lwip_init ;;
  ret 0.

Definition cyw43_arch_deinit : M unit := halt Panic.

Definition cyw43_schedule_internal_poll_dispatch : M unit := ret tt.

Definition cyw43_arch_poll : M unit :=
  sdkr sys_check_timeouts ;;
  let! p := sdkv cyw43_poll_ptr in
  when z2b p do sdkr cyw43_poll.

Definition cyw43_thread_check : M unit :=
  let! e := sdkv get_current_exception in
  if z2b e then halt Panic
  else
    let! n := sdkv get_core_num in
    let! core := get cyw43_core_num in
    when negb (n =? core) do halt Panic.

(** *** [wifi_impl.c] *)

(** [scan_res[i]], and storing there. *)
Definition scan_at (i : Z) : M wifi_result :=
  let! r := get scan_res in
  match r with None => halt UB | Some (_, l) => index l i end.

Definition scan_store (i : Z) (ent : wifi_result) : M unit :=
  let! r := get scan_res in
  match r with
  | None => halt UB
  | Some (a, l) =>
    match nth_Z l i with
    | Some _ => scan_res <~ Some (a, <[Z.to_nat i := ent]> l)
    | None => halt UB
    end
  end.

(** [memcmp(a, b, 6) == 0] *)
Definition same_bssid (a b : wifi_result) : bool :=
  bool_decide (take 6 (wr_bssid a) = take 6 (wr_bssid b)).

(** The loop that overwrites an access point already in the table; [n] entries
    are left to look at from index [i]. *)
Fixpoint scan_update (n : nat) (i : Z) (ent : wifi_result) : M bool :=
  match n with
  | O => ret false
  | S n =>
    let! old := scan_at i in
    if same_bssid ent old then (scan_store i ent ;; ret true) else scan_update n (i + 1) ent
  end.

(** An entry of zeroed memory. *)
Definition zero_result : wifi_result := mkWifiResult 0 0 0 (replicate ssid_size 0) (replicate 6 0).

(** The table in a block of the next size: [2 * size + 5] entries, in the
    [uint16_t] of the code. *)
Definition scan_grow : M unit :=
  let! size := get scan_size in
  scan_size <~ u16 (size * 2 + 5) ;;
  let! size := get scan_size in
  let! p := jd_alloc (u32 (sizeof_result * size)) in
  let! old := get scan_res in
  let! n := get scan_ptr in
  let! tmp :=
    (let! bytes := (match old with
                    | Some (_, l) => read_at l (Z.to_nat n)
                    | None => if n =? 0 then ret [] else halt UB
                    end) in
     match as_ptr p with
     | Some a => let! l := write_at (replicate (Z.to_nat size) zero_result) 0 bytes in
                 ret (Some (a, l))
     | None => if n =? 0 then ret None else halt UB
     end) in
  jd_free (ptr_addr (option_map fst old)) ;;
  scan_res <~ tmp.

(** Overwrite the entry with this BSSID, or append. *)
Definition scan_record (ent : wifi_result) : M unit :=
  let! n := get scan_ptr in
  let! found := scan_update (Z.to_nat n) 0 ent in
  when negb found do
    (let! n := get scan_ptr in
     let! size := get scan_size in
     (when size <=? n do scan_grow) ;;
     let! n := get scan_ptr in
     scan_ptr <~ u16 (n + 1) ;;
     scan_store n ent).

Definition scan_result (result : option scan_ev) : M Z :=
  match result with
  | None => ret 0
  | Some r =>
    if ev_ssid_len r =? 0 then ret 0
    else
      let! c := index (ev_ssid r) 0 in
      if c =? 0 then ret 0
      else
        let flags := if z2b (Z.land (ev_auth_mode r) 7) then JD_WIFI_APFLAGS_HAS_PASSWORD else 0 in
        let! name := read_at (ev_ssid r) (Z.to_nat (ev_ssid_len r)) in
        let! ssid := write_at (replicate ssid_size 0) 0 name in
        let! bssid := read_at (ev_bssid r) 6 in
        let ent := mkWifiResult flags (i8 (ev_rssi r)) (u8 (ev_channel r)) ssid bssid in
        scan_record ent ;;
        ret 0
  end.

Definition jd_wifi_start_scan : M Z :=
  let! a := sdkv cyw43_wifi_scan_active in
  if z2b a then ret (-10)
  else (in_scan <~ true ;; sdkv cyw43_wifi_scan).

(** [pw] is a C string or NULL. *)
Definition jd_wifi_connect (ssid : addr) (pw : option (list Z)) : M Z :=
  let! secured := (match pw with
                   | None => ret false
                   | Some p => let! c := index p 0 in ret (z2b c)
                   end) in
  let auth := if secured : bool then CYW43_AUTH_WPA2_AES_PSK else CYW43_AUTH_OPEN in
  let! r := sdkv (cyw43_arch_wifi_connect_async ssid pw auth) in
  sdk (DMESG "connect '%s' -> %d" [r]) ;;
  ret r.

Definition jd_wifi_disconnect : M Z :=
  let! r := sdkv (cyw43_wifi_leave CYW43_ITF_STA) in
  sdk (DMESG "disconnect -> %d" [r]) ;;
  ret r.

Definition status_name (status : Z) : string :=
  if status =? CYW43_LINK_DOWN then "link down"
  else if status =? CYW43_LINK_JOIN then "joining"
  else if status =? CYW43_LINK_NOIP then "no ip"
  else if status =? CYW43_LINK_UP then "link up"
  else if status =? CYW43_LINK_FAIL then "link fail"
  else if status =? CYW43_LINK_NONET then "nonet"
  else if status =? CYW43_LINK_BADAUTH then "bad auth"
  else "unknown".

Definition jd_wifi_rssi : M Z :=
  let! st := sdkv (cyw43_tcpip_link_status CYW43_ITF_STA) in
  ret (if st =? CYW43_LINK_DOWN then -128
       else if st =? CYW43_LINK_JOIN then -122
       else if st =? CYW43_LINK_NOIP then -121
       else if st =? CYW43_LINK_UP then -40
       else if st =? CYW43_LINK_FAIL then -127
       else if st =? CYW43_LINK_NONET then -126
       else if st =? CYW43_LINK_BADAUTH then -125
       else -124).

(** Returns the status and, when it is 0, the MAC address. *)
Definition jd_wifi_init : M (Z * list Z) :=
  sdk (DMESG "start init" []) ;;
  let! r := cyw43_arch_init in
  if z2b r then (sdk (DMESG "! can't init wifi" []) ;; ret (-1, []))
  else
    (sdk cyw43_arch_enable_sta_mode ;;
     let! mac := sdkb cyw43_state_mac in
     let! mac := read_at mac 6 in
     sdk (DMESG "init ok; mac: %-s" mac) ;;
     inited <~ true ;;
     ret (0, mac)).

(** The two halves of [jd_wifi_process] after the poll. *)
Definition process_scan : M unit :=
  let! scanning := get in_scan in
  let! done := (if scanning : bool
                then let! a := sdkv cyw43_wifi_scan_active in ret (negb (z2b a)) else ret false) in
  when done do
    (in_scan <~ false ;;
     sdk (DMESG "scan done!" []) ;;
     let! res := get scan_res in
     let! n := get scan_ptr in
     sdk (jd_wifi_scan_done_cb res n) ;;
     scan_res <~ None ;;
     scan_ptr <~ 0 ;;
     scan_size <~ 0).

Definition process_link : M unit :=
  let! new_status := sdkv (cyw43_tcpip_link_status CYW43_ITF_STA) in
  let! prev := get prev_status in
  when negb (prev =? new_status) do
    (sdk (DMESG (String.append "status: " (status_name new_status)) []) ;;
     let was_up := prev =? CYW43_LINK_UP in
     prev_status <~ new_status ;;
     if new_status =? CYW43_LINK_UP then
       (let! ip := sdkv (cyw43_state_ip_addr CYW43_ITF_STA) in
        sdk (jd_wifi_got_ip_cb ip))
     else if was_up then
       (jd_wifi_disconnect ;;
        sdk jd_wifi_lost_ip_cb)
     else ret tt).

Definition jd_wifi_process : M unit :=
  cyw43_arch_poll ;;
  process_scan ;;
  process_link.

Definition jd_tcpsock_init : M unit := ret tt.

Definition pico_w_set_led (r g b : Z) : M unit :=
  let! ready := get inited in
  if negb ready then ret tt
  else
    let! on := get is_on in
    let should_be_on := (0 <? r) || (0 <? g) || (0 <? b) in
    when negb (Bool.eqb on should_be_on) do
      (is_on <~ should_be_on ;;
       sdk (cyw43_arch_gpio_put CYW43_WL_GPIO_LED_PIN should_be_on)).
End Operations.

(** ** The table of access points *)

Section Table.
Context (ssid_size : nat).

(** Reports that name a network, and the entry made of one. *)
Definition heard (r : scan_ev) : bool :=
  negb (ev_ssid_len r =? 0) && negb (nth 0 (ev_ssid r) 0 =? 0).

Definition entry (r : scan_ev) : wifi_result :=
  let n := Z.to_nat (ev_ssid_len r) in
  mkWifiResult (if z2b (Z.land (ev_auth_mode r) 7) then JD_WIFI_APFLAGS_HAS_PASSWORD else 0)
    (i8 (ev_rssi r)) (u8 (ev_channel r))
    (take n (ev_ssid r) ++ replicate (ssid_size - n) 0) (ev_bssid r).

(** What the driver guarantees of a report. *)
Definition report_ok (r : scan_ev) : Prop :=
  length (ev_ssid r) = 32%nat /\ 0 <= ev_ssid_len r <= 32 /\ length (ev_bssid r) = 6%nat.

(** The specification: one entry per BSSID, in the order of first report,
    holding the latest report. *)
Fixpoint table_insert (e : wifi_result) (l : list wifi_result) : list wifi_result :=
  match l with
  | [] => [e]
  | x :: l => if bool_decide (wr_bssid e = wr_bssid x) then e :: l else x :: table_insert e l
  end.

Definition table_step (l : list wifi_result) (r : scan_ev) : list wifi_result :=
  if heard r then table_insert (entry r) l else l.

Definition table_of (rs : list scan_ev) (l : list wifi_result) : list wifi_result :=
  fold_left table_step rs l.

(** The latest naming report of a BSSID. *)
Fixpoint latest (b : list Z) (rs : list scan_ev) (old : option wifi_result) : option wifi_result :=
  match rs with
  | [] => old
  | r :: rs => latest b rs (if heard r && bool_decide (ev_bssid r = b) then Some (entry r) else old)
  end.

Definition lookup_bssid (b : list Z) (l : list wifi_result) : option wifi_result :=
  List.find (fun e => bool_decide (wr_bssid e = b)) l.

Definition bssids (l : list wifi_result) : list (list Z) := map wr_bssid l.

Lemma lookup_insert_bssid b e l :
  lookup_bssid b (table_insert e l) = if bool_decide (wr_bssid e = b) then Some e else lookup_bssid b l.
Proof.
  unfold lookup_bssid. induction l as [| x l IH]; cbn.
  - by case_bool_decide.
  - destruct (bool_decide_reflect (wr_bssid e = wr_bssid x)) as [Hx | Hx]; cbn.
    + clear IH. rewrite Hx. by case_bool_decide.
    + rewrite IH. repeat case_bool_decide; congruence.
Qed.

Lemma bssids_insert e l b :
  b ∈ bssids (table_insert e l) <-> b = wr_bssid e \/ b ∈ bssids l.
Proof.
  induction l as [| x l IH]; cbn.
  - rewrite list_elem_of_singleton, elem_of_nil. tauto.
  - destruct (bool_decide_reflect (wr_bssid e = wr_bssid x)) as [Hx | Hx]; cbn;
      rewrite !elem_of_cons; [rewrite Hx | rewrite IH]; tauto.
Qed.

Lemma nodup_insert e l : NoDup (bssids l) -> NoDup (bssids (table_insert e l)).
Proof.
  induction l as [| x l IH]; cbn; intros Hd; [apply NoDup_singleton |].
  inversion Hd as [| ? ? Hx Hl]; subst.
  destruct (bool_decide_reflect (wr_bssid e = wr_bssid x)) as [E | E]; cbn; [by rewrite E |].
  constructor; [| by apply IH]. rewrite bssids_insert. intros [Hb | Hb]; [by destruct E | done].
Qed.

Lemma length_insert_bounds e l :
  (length l <= length (table_insert e l))%nat /\ (length (table_insert e l) <= S (length l))%nat.
Proof. induction l as [| x l IH]; cbn; [lia | case_bool_decide; cbn; lia]. Qed.

Lemma length_table_of rs l : (length l <= length (table_of rs l))%nat.
Proof.
  revert l. induction rs as [| r rs IH]; intros l; cbn; [done |].
  etransitivity; [| apply IH]. unfold table_step. destruct (heard r); [apply length_insert_bounds | done].
Qed.

Lemma lookup_table_of b rs l : lookup_bssid b (table_of rs l) = latest b rs (lookup_bssid b l).
Proof.
  revert l. induction rs as [| r rs IH]; intros l; [done |].
  change (table_of (r :: rs) l) with (table_of rs (table_step l r)). rewrite IH. cbn [latest]. f_equal. unfold table_step. destruct (heard r); cbn; [| done].
  rewrite lookup_insert_bssid. cbn. by case_bool_decide.
Qed.

Lemma nodup_table_of rs l : NoDup (bssids l) -> NoDup (bssids (table_of rs l)).
Proof.
  revert l. induction rs as [| r rs IH]; intros l Hl; cbn; [done |].
  apply IH. unfold table_step. destruct (heard r); [by apply nodup_insert | done].
Qed.
End Table.

(** ** The table in memory

    [scan_tab l s]: the first [scan_ptr] entries of the block are [l].  The
    capacity runs through 0, 5, 15, 35, ..., 40955; one more doubling would
    not fit the [uint16_t]. *)

Definition scan_max : Z := 40955.

Definition scan_tab (l : list wifi_result) (s : machine) : Prop :=
  rd scan_ptr s = Z.of_nat (length l) /\
  (exists k, 0 <= k <= 13 /\ rd scan_size s = 5 * (2 ^ k - 1)) /\
  Forall (fun e => length (wr_bssid e) = 6%nat) l /\
  match rd scan_res s with
  | None => l = [] /\ rd scan_size s = 0
  | Some (_, b) => Z.of_nat (length b) = rd scan_size s /\ exists rest, b = l ++ rest
  end.

Section Refinement.
Context {E : Env} (sizeof_result : Z) (ssid_size : nat).
Hypothesis ssid_fits : (32 <= ssid_size)%nat.
Hypothesis heap_ok : forall t n, ret_of t (calloc n 1) <> 0.

Lemma insert_absent e l : wr_bssid e ∉ bssids l -> table_insert e l = l ++ [e].
Proof.
  induction l as [| x l IH]; cbn; intros H; [done |]. rewrite not_elem_of_cons in H. destruct H.
  rewrite bool_decide_eq_false_2 by done. f_equal. by apply IH.
Qed.

Lemma length_insert_present e l :
  wr_bssid e ∈ bssids l -> length (table_insert e l) = length l.
Proof.
  induction l as [| x l IH]; cbn; [by rewrite elem_of_nil |]. rewrite elem_of_cons. intros H.
  case_bool_decide; cbn; [done |]. f_equal. apply IH. by destruct H.
Qed.

Lemma same_bssid_eq a b : length (wr_bssid a) = 6%nat -> length (wr_bssid b) = 6%nat ->
  same_bssid a b = bool_decide (wr_bssid a = wr_bssid b).
Proof. intros Ha Hb. unfold same_bssid. by rewrite !take_ge by lia. Qed.

Lemma lookup_middle {A} (l : list A) x r : (l ++ x :: r) !! Z.to_nat (Z.of_nat (length l)) = Some x.
Proof. rewrite Nat2Z.id, lookup_app_r, Nat.sub_diag by lia. done. Qed.

Lemma scan_update_run e a pre post rest s :
  rd scan_res s = Some (a, pre ++ post ++ rest) ->
  Forall (fun e => length (wr_bssid e) = 6%nat) post -> length (wr_bssid e) = 6%nat ->
  scan_update (length post) (Z.of_nat (length pre)) e s =
    if bool_decide (wr_bssid e ∈ bssids post)
    then Ret true (wr scan_res (Some (a, pre ++ table_insert e post ++ rest)) s) else Ret false s.
Proof.
  intros Hr Hf He. revert pre Hr. induction Hf as [| x post Hx Hf IH]; intros pre Hr; cbn [length scan_update].
  { rewrite bool_decide_eq_false_2; [done | apply not_elem_of_nil]. }
  pose proof (lookup_middle pre x (post ++ rest)) as Hi.
  unfold bind at 1, scan_at, bind at 1, get at 1. rewrite Hr, (index_run _ _ x) by (lia || done).
  rewrite (same_bssid_eq e x) by done. cbn [bssids map table_insert].
  destruct (bool_decide_reflect (wr_bssid e = wr_bssid x)) as [Hb | Hb].
  - rewrite bool_decide_eq_true_2 by (apply elem_of_cons; by left).
    unfold bind at 1, scan_store, bind at 1, get at 1.
    rewrite Hr, (nth_Z_some _ _ x) by (lia || done). unfold put, ret. do 2 f_equal.
    rewrite Nat2Z.id, insert_app_r_alt, Nat.sub_diag by lia. done.
  - rewrite (bool_decide_ext (wr_bssid e ∈ wr_bssid x :: map wr_bssid post) (wr_bssid e ∈ bssids post))
      by (rewrite elem_of_cons; unfold bssids; tauto).
    replace (Z.of_nat (length pre) + 1) with (Z.of_nat (length (pre ++ [x])))
      by (rewrite length_app; cbn; lia).
    rewrite IH by (by rewrite <- app_assoc). by rewrite <- app_assoc.
Qed.

(** Doubling keeps the capacity in the sequence and below 65536. *)
Lemma capacity_step k size : 0 <= k <= 13 -> size = 5 * (2 ^ k - 1) -> size < scan_max ->
  0 <= size /\ 0 <= k + 1 <= 13 /\ size * 2 + 5 = 5 * (2 ^ (k + 1) - 1) /\ size * 2 + 5 < 65536.
Proof.
  intros Hk -> Hs. unfold scan_max in Hs. rewrite Z.pow_add_r by lia.
  destruct (Z.eq_dec k 13) as [-> | Hk']; [vm_compute in Hs; done |].
  pose proof (Z.pow_pos_nonneg 2 k). pose proof (Z.pow_le_mono_r 2 k 12). change (2 ^ 12) with 4096 in *. lia.
Qed.

Definition grown (p : Z) (l : list wifi_result) (size : Z) (s : machine) : machine :=
  wr scan_res (Some (p, l ++ replicate (Z.to_nat size - length l) (zero_result ssid_size)))
    (upd_tr (app [E_call (free (ptr_addr (option_map fst (rd scan_res s))));
                  E_ret (calloc (u32 (sizeof_result * size)) 1) p])
       (wr scan_size size s)).

Lemma scan_grow_run l s :
  scan_tab l s -> (Z.of_nat (length l) = rd scan_size s) -> Z.of_nat (length l) < scan_max ->
  exists p, p <> 0 /\ scan_grow sizeof_result ssid_size s =
    Ret tt (grown p l (rd scan_size s * 2 + 5) s).
Proof.
  intros (Hp & (k & Hk & Hs) & _ & Hr) Hfull Hmax.
  destruct (capacity_step k (rd scan_size s)) as (Hs0 & _ & _ & Hs1); [done | done | lia |].
  assert (0 <= rd scan_size s * 2 + 5 < 65536) as Hn by lia.
  unfold scan_grow. unfold bind at 1, get at 1, bind at 1, put at 1, bind at 1, get at 1.
  rewrite u16_id by done. unfold jd_alloc, bind at 1, sdkv at 1. vsimp.
  set (p := ret_of _ _). assert (p <> 0) as Hp0 by apply heap_ok. exists p. split; [done |].
  unfold bind at 1, get at 1, bind at 1, get at 1. vsimp.
  assert (exists bytes, bytes = l /\ forall s', (match rd scan_res s with
      | Some (_, b) => read_at b (Z.to_nat (rd scan_ptr s))
      | None => if rd scan_ptr s =? 0 then ret [] else halt UB end) s' = Ret bytes s') as (bytes & -> & Hb).
  { exists l. split; [done |]. intros s'. rewrite Hp, Nat2Z.id. destruct (rd scan_res s) as [[a b] |].
    - destruct Hr as (Hb & rest & ->). unfold read_at. rewrite (proj2 (Nat.leb_le _ _)) by (rewrite length_app; lia).
      by rewrite take_app_length.
    - destruct Hr as [-> _]. done. }
  unfold bind at 1 2. rewrite Hb. unfold as_ptr. rewrite (proj2 (Z.eqb_neq p 0)) by done.
  unfold write_at, bind at 1. rewrite length_replicate.
  rewrite (proj2 (Nat.leb_le _ _)) by lia. mexec. unfold grown, jd_free, sdk, log. cbn [take app Nat.add]. rewrite drop_replicate. done.
Qed.

(** Appending to a table with room. *)
Definition scan_append (e : wifi_result) : M unit :=
  let! n := get scan_ptr in scan_ptr <~ u16 (n + 1) ;; scan_store n e.

Lemma scan_append_run e l s a b :
  scan_tab l s -> length (wr_bssid e) = 6%nat -> b <> [] ->
  rd scan_res s = Some (a, l ++ b) -> Z.of_nat (length l) < scan_max ->
  exists s', scan_append e s = Ret tt s' /\ scan_tab (l ++ [e]) s'.
Proof.
  intros (Hp & Hs & Hf & Hr) He Hb Hres Hm. unfold scan_max in Hm. destruct b as [| x b]; [done |].
  unfold scan_append. unfold bind at 1, get at 1, bind at 1, put at 1. rewrite Hp, u16_id by lia.
  unfold scan_store, bind, get at 1. vsimp. rewrite Hres.
  rewrite (nth_Z_some _ _ x) by (lia || apply lookup_middle).
  rewrite Nat2Z.id, insert_app_r_alt, Nat.sub_diag by lia. eexists. split; [reflexivity |].
  rewrite Hres in Hr. destruct Hr as [Hl _]. unfold scan_tab. vsimp.
  split; [rewrite length_app; cbn; lia |].
  split; [exact Hs |]. split; [apply Forall_app; split; [done | by repeat constructor] |].
  rewrite <- Hl. split; [rewrite !length_app; cbn; lia |]. exists b. by rewrite <- app_assoc.
Qed.

(** Making room in a full table. *)
Lemma scan_grow_room l s :
  scan_tab l s -> rd scan_size s <= Z.of_nat (length l) < scan_max ->
  exists s' a b, scan_grow sizeof_result ssid_size s = Ret tt s' /\
    scan_tab l s' /\ rd scan_res s' = Some (a, l ++ b) /\ b <> [].
Proof.
  intros HT [Hfull Hm]. pose proof HT as (Hp & (k & Hk & Hsz) & Hf & Hr).
  assert (Z.of_nat (length l) = rd scan_size s) as Heq.
  { destruct (rd scan_res s) as [[a b] |]; [| destruct Hr as [-> ->]; done].
    destruct Hr as (Hb & rest & ->). rewrite length_app in Hb. lia. }
  destruct (scan_grow_run l s HT Heq Hm) as (p & Hp0 & Eg).
  destruct (capacity_step k (rd scan_size s)) as (G0 & G1 & G2 & G3); [done | done | lia |].
  set (z := replicate (Z.to_nat (rd scan_size s * 2 + 5) - length l) (zero_result ssid_size)).
  assert (length z = (Z.to_nat (rd scan_size s * 2 + 5) - length l)%nat) as Hz by apply length_replicate.
  eexists _, p, z. split; [exact Eg |]. split; [| split; [done | intros C; rewrite C in Hz; change (0 = Z.to_nat (rd scan_size s * 2 + 5) - length l)%nat in Hz; lia]].
  unfold scan_tab, grown. vsimp. split; [done |]. split; [exists (k + 1); by split |].
  split; [done |]. split; [rewrite length_app; fold z; lia | by exists z].
Qed.

Lemma scan_record_present e l s :
  scan_tab l s -> length (wr_bssid e) = 6%nat -> wr_bssid e ∈ bssids l ->
  exists s', scan_record sizeof_result ssid_size e s = Ret tt s' /\ scan_tab (table_insert e l) s'.
Proof.
  intros (Hp & Hs & Hf & Hr) H6 Hin. unfold scan_record, bind at 1, get at 1. rewrite Hp, Nat2Z.id.
  destruct (rd scan_res s) as [[a b] |] eqn:Hres; [| destruct Hr as [-> _]; by apply not_elem_of_nil in Hin].
  destruct Hr as (Hb & rest & ->). unfold bind at 1.
  pose proof (scan_update_run e a [] l rest s Hres Hf H6) as Hu.
  change (Z.of_nat (@length wifi_result [])) with 0 in Hu. rewrite Hu.
  rewrite bool_decide_eq_true_2 by done. eexists. split; [reflexivity |]. unfold scan_tab. vsimp.
  rewrite length_insert_present by done. split; [done |]. split; [done |]. split.
  - clear -Hf H6. induction Hf as [| x l Hx Hf IH]; cbn; [by repeat constructor |].
    case_bool_decide; by constructor.
  - split; [| by exists rest]. by rewrite <- Hb, !length_app, length_insert_present.
Qed.

Lemma scan_record_absent e l s :
  scan_tab l s -> length (wr_bssid e) = 6%nat -> wr_bssid e ∉ bssids l ->
  Z.of_nat (length l) < scan_max ->
  exists s', scan_record sizeof_result ssid_size e s = Ret tt s' /\ scan_tab (l ++ [e]) s'.
Proof.
  intros HT H6 Hout Hm. pose proof HT as (Hp & Hs & Hf & Hr).
  unfold scan_record, bind at 1, get at 1. rewrite Hp, Nat2Z.id. unfold bind at 1.
  assert (scan_update (length l) 0 e s = Ret false s) as ->.
  { destruct (rd scan_res s) as [[a b] |] eqn:Hres; [| by destruct Hr as [-> _]].
    destruct Hr as (Hb & rest & ->).
    pose proof (scan_update_run e a [] l rest s Hres Hf H6) as Hu.
  change (Z.of_nat (@length wifi_result [])) with 0 in Hu.
    by rewrite Hu, bool_decide_eq_false_2. }
  cbn [negb]. unfold bind at 1, get at 1, bind at 1, get at 1. rewrite Hp. fold (scan_append e).
  destruct (Z.leb_spec (rd scan_size s) (Z.of_nat (length l))) as [Hfull | Hroom].
  - destruct (scan_grow_room l s) as (s1 & a & b & Eg & HT1 & Hres & Hb); [done | done |].
    unfold bind at 1. rewrite Eg. by apply (scan_append_run e l s1 a b).
  - destruct (rd scan_res s) as [[a b] |] eqn:Hres; [| destruct Hr as [-> Hz]; rewrite Hz in Hroom; done].
    destruct Hr as (Hb & rest & ->). unfold bind at 1, ret at 1.
    apply (scan_append_run e l s a rest); try done. intros ->. rewrite app_nil_r in Hb. lia.
Qed.

(** One report does what the specification says. *)
Lemma scan_result_run r l s :
  report_ok r -> scan_tab l s -> Z.of_nat (length (table_step ssid_size l r)) <= scan_max ->
  exists s', scan_result sizeof_result ssid_size (Some r) s = Ret 0 s' /\
    scan_tab (table_step ssid_size l r) s'.
Proof.
  intros (Hs1 & Hs2 & Hs3) HT Hmax. unfold scan_result, table_step, heard in *.
  destruct (Z.eqb_spec (ev_ssid_len r) 0) as [| Hn]; cbn [negb andb] in *; [by exists s |].
  destruct (ev_ssid r) as [| c cs] eqn:Hc; [done |].
  unfold bind at 1. rewrite (index_run _ 0 c) by done. cbn [nth] in *.
  destruct (Z.eqb_spec c 0) as [| Hc0]; cbn [negb] in *; [by exists s |].
  rewrite <- Hc in *. unfold read_at, write_at. rewrite length_replicate.
  rewrite (proj2 (Nat.leb_le (Z.to_nat (ev_ssid_len r)) _)) by lia.
  unfold bind at 1, ret at 1. rewrite (proj2 (Nat.leb_le (0 + _) _)) by (rewrite length_take; lia).
  unfold bind at 1, ret at 1. rewrite (proj2 (Nat.leb_le 6 _)) by lia.
  unfold bind at 1, ret at 1. rewrite (take_ge (ev_bssid r)) by lia.
  set (ent := mkWifiResult _ _ _ _ _).
  assert (ent = entry ssid_size r) as He.
  { unfold ent, entry. f_equal. rewrite drop_replicate, length_take, Nat.min_l by lia. done. }
  rewrite <- He in *. clearbody ent. assert (length (wr_bssid ent) = 6%nat) as H6 by by rewrite He.
  assert (exists s', scan_record sizeof_result ssid_size ent s = Ret tt s' /\ scan_tab (table_insert ent l) s')
    as (s' & E1 & HT').
  { destruct (decide (wr_bssid ent ∈ bssids l)); [by apply scan_record_present |].
    rewrite insert_absent in * by done. rewrite length_app in Hmax. cbn in Hmax.
    apply scan_record_absent; done || lia. }
  unfold bind at 1. rewrite E1. by exists s'.
Qed.
End Refinement.

(** ** The link *)

(** The notices the runtime has received: [Some up] when they alternate,
    beginning with an address. *)
Definition notice_step (e : event) (st : option bool) : option bool :=
  match e, st with
  | E_call (jd_wifi_got_ip_cb _), Some false => Some true
  | E_call jd_wifi_lost_ip_cb, Some true => Some false
  | E_call (jd_wifi_got_ip_cb _), _ | E_call jd_wifi_lost_ip_cb, _ => None
  | _, st => st
  end.
Definition notices (t : trace) : option bool := fold_right notice_step (Some false) t.

Definition is_notice (e : event) : bool :=
  match e with E_call (jd_wifi_got_ip_cb _) | E_call jd_wifi_lost_ip_cb => true | _ => false end.

(** The last notice agrees with the last link status seen. *)
Definition link_inv (s : machine) : Prop :=
  notices (tr s) = Some (rd prev_status s =? CYW43_LINK_UP).

(** The notices among some events, and those a change of status calls for. *)
Definition notices_in (es : trace) : trace := List.filter is_notice es.
Definition notices_due (prev st ip : Z) : trace :=
  if prev =? st then []
  else if st =? CYW43_LINK_UP then [E_call (jd_wifi_got_ip_cb ip)]
  else if prev =? CYW43_LINK_UP then [E_call jd_wifi_lost_ip_cb] else [].

(** What the driver, lwIP and the runtime do when polled: they may call back
    into the firmware, but leave the link to [jd_wifi_process]. *)
Class WifiClient {E : Env} : Prop := { poll_keeps_link c : keeps link_inv (reenter c) }.

Lemma notice_other e st : is_notice e = false -> notice_step e st = st.
Proof. destruct e as [| | c | | | | |]; try done. destruct c; done. Qed.

Section Link.
Context {E : Env} {WC : WifiClient}.

Lemma link_emit e s : is_notice e = false -> link_inv s -> link_inv (emit e s).
Proof. intros He Hs. unfold link_inv in *. cbn. by rewrite notice_other. Qed.

Lemma keeps_link_call c : is_notice (E_call c) = false -> keeps link_inv (sdk c).
Proof. intros Hc s Hs. by apply link_emit. Qed.
Lemma keeps_link_ret c : keeps link_inv (sdkv c).
Proof. intros s Hs. by apply link_emit. Qed.
Lemma keeps_link_bytes c : keeps link_inv (sdkb c).
Proof. intros s Hs. by apply link_emit. Qed.
Lemma keeps_link_reenter c : is_notice (E_call c) = false -> keeps link_inv (sdkr c).
Proof. intros Hc s Hs. by apply poll_keeps_link, link_emit. Qed.
Lemma keeps_link_index {A} (l : list A) i : keeps link_inv (index l i).
Proof. unfold index. destruct (nth_Z l i); [apply keeps_ret | apply keeps_halt]. Qed.

(** Assignments to the other variables. *)
Lemma keeps_link_put {A} (x : var A) v :
  (forall s, tr (wr x v s) = tr s) -> (forall s, rd prev_status (wr x v s) = rd prev_status s) ->
  keeps link_inv (x <~ v).
Proof. intros H1 H2 s Hs. unfold link_inv, wpE, put in *. by rewrite H1, H2. Qed.

Hint Resolve keeps_link_ret keeps_link_bytes keeps_link_index : keeps.
Hint Extern 2 (keeps link_inv (sdk _)) => apply keeps_link_call; reflexivity : keeps.
Hint Extern 2 (keeps link_inv (sdkr _)) => apply keeps_link_reenter; reflexivity : keeps.
Hint Extern 2 (keeps link_inv (put _ _)) => apply keeps_link_put; reflexivity : keeps.

Lemma poll_link : keeps link_inv cyw43_arch_poll.
Proof. unfold cyw43_arch_poll. auto 6 with keeps. Qed.

Lemma process_scan_link : keeps link_inv process_scan.
Proof.
  unfold process_scan. apply keeps_bind; [auto with keeps |]. intros scanning.
  apply keeps_bind; [destruct scanning; auto with keeps |]. intros [|]; auto 20 with keeps.
Qed.

(** The second half of [jd_wifi_process], on each branch: the events after the
    status [st] was read, and the notices among them. *)
Lemma process_link_run s (st := ret_of (tr s) (cyw43_tcpip_link_status CYW43_ITF_STA)) :
  exists s' es ip, process_link s = Ret tt s' /\
    rd prev_status s' = st /\ rd scan_res s' = rd scan_res s /\ rd scan_ptr s' = rd scan_ptr s /\
    rd scan_size s' = rd scan_size s /\ rd in_scan s' = rd in_scan s /\
    tr s' = es ++ E_ret (cyw43_tcpip_link_status CYW43_ITF_STA) st :: tr s /\
    notices_in es = notices_due (rd prev_status s) st ip /\
    (In (E_call (jd_wifi_got_ip_cb ip)) es -> In (E_ret (cyw43_state_ip_addr CYW43_ITF_STA) ip) es) /\
    (In (E_call jd_wifi_lost_ip_cb) es -> exists v, In (E_ret (cyw43_wifi_leave CYW43_ITF_STA) v) es).
Proof.
  unfold process_link, jd_wifi_disconnect, notices_due. mexec. vsimp. fold st.
  destruct (Z.eqb_spec (rd prev_status s) st) as [Heq | Hne]; cbn [negb].
  - eexists _, [], 0. split; [reflexivity |]. vsimp. by rewrite Heq.
  - destruct (Z.eqb_spec st CYW43_LINK_UP) as [Hup | Hup].
    + eexists _, [_; _; _], _. split; [reflexivity |]. vsimp. split_and!; try done.
      * intros _. right. by left.
      * intros [|[|[|[]]]]; done.
    + destruct (Z.eqb_spec (rd prev_status s) CYW43_LINK_UP) as [Hp | Hp].
      * eexists _, [_; _; _; _], 0. split; [reflexivity |]. vsimp. split_and!; try done.
        -- intros [|[|[|[|[]]]]]; done.
        -- intros _. eexists. right. right. by left.
      * eexists _, [_], 0. split; [reflexivity |]. vsimp. split_and!; try done; intros [|[]]; done.
Qed.

Lemma notices_app es t :
  notices (es ++ t) = fold_right notice_step (notices t) (notices_in es).
Proof.
  unfold notices, notices_in. induction es as [| e es IH]; [done |]. cbn [app fold_right List.filter].
  rewrite IH. destruct (is_notice e) eqn:He; [done | by rewrite notice_other].
Qed.

Lemma process_link_inv : keeps link_inv process_link.
Proof.
  intros s Hs. destruct (process_link_run s) as (s' & es & ip & E1 & Hst & _ & _ & _ & _ & Ht & Hn & _).
  unfold wpE. rewrite E1. unfold link_inv in *. rewrite Ht, notices_app, Hn. unfold notices_due. cbn [notices fold_right].
  rewrite notice_other by done. fold (notices (tr s)). rewrite Hs, Hst.
  set (st := ret_of _ _) in *.
  destruct (Z.eqb_spec (rd prev_status s) st) as [Heq | Hne]; [by rewrite Heq |].
  destruct (Z.eqb_spec st CYW43_LINK_UP) as [Hup | Hup]; cbn [fold_right notice_step].
  - by rewrite (proj2 (Z.eqb_neq (rd prev_status s) CYW43_LINK_UP)) by congruence.
  - by destruct (Z.eqb_spec (rd prev_status s) CYW43_LINK_UP).
Qed.

Lemma jd_wifi_process_inv : keeps link_inv jd_wifi_process.
Proof. unfold jd_wifi_process. auto using poll_link, process_scan_link, process_link_inv with keeps. Qed.

Lemma scan_store_link i e : keeps link_inv (scan_store i e).
Proof.
  unfold scan_store. apply keeps_bind; [auto with keeps |]. intros [[a l] |]; [| auto with keeps].
  destruct (nth_Z l i); auto with keeps.
Qed.

Lemma scan_update_link n i e : keeps link_inv (scan_update n i e).
Proof.
  revert i. induction n as [| n IH]; intros i; cbn [scan_update]; [auto with keeps |].
  apply keeps_bind.
  - unfold scan_at. apply keeps_bind; [auto with keeps |]. intros [[a l] |]; auto with keeps.
  - intros old. apply keeps_if; [| done]. apply keeps_bind; [apply scan_store_link | auto with keeps].
Qed.

Lemma keeps_link_match {A B} (o : option A) (f : A -> M B) (m : M B) :
  (forall a, keeps link_inv (f a)) -> keeps link_inv m ->
  keeps link_inv (match o with Some a => f a | None => m end).
Proof. destruct o; auto. Qed.

Lemma read_at_link {A} (l : list A) n : keeps link_inv (read_at l n).
Proof. unfold read_at. auto with keeps. Qed.
Lemma write_at_link {A} (l : list A) n bs : keeps link_inv (write_at l n bs).
Proof. unfold write_at. auto with keeps. Qed.

Hint Resolve scan_store_link scan_update_link read_at_link write_at_link : keeps.

Lemma scan_grow_link sz n : keeps link_inv (scan_grow sz n).
Proof.
  unfold scan_grow, jd_alloc, jd_free. do 6 (apply keeps_bind; [auto with keeps | intros ?]).
  apply keeps_bind; [| auto with keeps].
  apply keeps_bind; [apply keeps_link_match; [intros []; auto with keeps | auto with keeps] | intros bytes].
  apply keeps_link_match; auto with keeps.
Qed.

Lemma scan_result_link sz n r : keeps link_inv (scan_result sz n r).
Proof.
  unfold scan_result. destruct r as [r |]; [| auto with keeps]. apply keeps_if; [auto with keeps |].
  apply keeps_bind; [auto with keeps | intros c]. apply keeps_if; [auto with keeps |].
  do 3 (apply keeps_bind; [auto with keeps | intros ?]).
  apply keeps_bind; [| auto with keeps]. unfold scan_record.
  apply keeps_bind; [auto with keeps | intros k]. apply keeps_bind; [auto with keeps | intros found].
  apply keeps_if; [| auto with keeps]. auto 10 using scan_grow_link with keeps.
Qed.

Lemma other_ops_link :
  keeps link_inv jd_wifi_start_scan /\ (forall p q, keeps link_inv (jd_wifi_connect p q)) /\
  keeps link_inv jd_wifi_disconnect /\ keeps link_inv jd_wifi_init /\
  (forall r g b, keeps link_inv (pico_w_set_led r g b)).
Proof.
  unfold jd_wifi_start_scan, jd_wifi_connect, jd_wifi_disconnect, jd_wifi_init, cyw43_arch_init, pico_w_set_led.
  split_and!; intros; auto 12 with keeps; try (apply keeps_if; auto 12 with keeps).
  apply keeps_bind; [destruct q; auto with keeps | auto with keeps].
Qed.
End Link.

(** The operations of the component, in any order. *)
Inductive wifi_step {E : Env} (sz : Z) (n : nat) : machine -> machine -> Prop :=
| step_process s s' : jd_wifi_process s = Ret tt s' -> wifi_step sz n s s'
| step_result r v s s' : scan_result sz n r s = Ret v s' -> wifi_step sz n s s'
| step_scan v s s' : jd_wifi_start_scan s = Ret v s' -> wifi_step sz n s s'
| step_connect p q v s s' : jd_wifi_connect p q s = Ret v s' -> wifi_step sz n s s'
| step_disconnect v s s' : jd_wifi_disconnect s = Ret v s' -> wifi_step sz n s s'
| step_init v s s' : jd_wifi_init s = Ret v s' -> wifi_step sz n s s'
| step_led r g b s s' : pico_w_set_led r g b s = Ret tt s' -> wifi_step sz n s s'.

Lemma wifi_step_link {E : Env} `{!WifiClient} sz n s s' : link_inv s -> wifi_step sz n s s' -> link_inv s'.
Proof.
  destruct other_ops_link as (H1 & H2 & H3 & H4 & H5). intros Hs Hst.
  inversion Hst; subst;
    match goal with H : ?m s = Ret _ s' |- _ => refine (keeps_ret_inv link_inv m s _ s' _ Hs H) end;
    auto using jd_wifi_process_inv, scan_result_link.
Qed.

(** Reports one after the other. *)
Fixpoint scan_results {E : Env} (sz : Z) (n : nat) (rs : list scan_ev) : M unit :=
  match rs with
  | [] => ret tt
  | r :: rs => scan_result sz n (Some r) ;; scan_results sz n rs
  end.

(** ** Properties *)

(** C13: the table of access points.  However many reports arrive, in whatever
    order, the table in memory is the specification's: one entry per BSSID,
    holding the latest report that names a network, as long as there are at
    most 40955 access points and the heap does not run out.  The array grows
    without ever being overrun. *)
Theorem wifi_scan_table {E : Env} sz n rs l s :
  (32 <= n)%nat -> (forall t k, ret_of t (calloc k 1) <> 0) ->
  Forall report_ok rs -> scan_tab l s -> NoDup (bssids l) ->
  Z.of_nat (length (table_of n rs l)) <= scan_max ->
  exists s', scan_results sz n rs s = Ret tt s' /\ scan_tab (table_of n rs l) s' /\
    NoDup (bssids (table_of n rs l)) /\
    forall b, lookup_bssid b (table_of n rs l) = latest n b rs (lookup_bssid b l).
Proof.
  intros Hn Hh Hrs HT Hd Hm.
  assert (exists s', scan_results sz n rs s = Ret tt s' /\ scan_tab (table_of n rs l) s') as (s' & E1 & H1).
  { clear Hd. revert l s HT Hm. induction Hrs as [| r rs Hr Hrs IH]; intros l s HT Hm; [by exists s |].
    change (table_of n (r :: rs) l) with (table_of n rs (table_step n l r)) in *.
    pose proof (length_table_of n rs (table_step n l r)).
    destruct (scan_result_run sz n Hn Hh r l s) as (s1 & E1 & H1); [done | done | lia |].
    destruct (IH (table_step n l r) s1 H1 Hm) as (s2 & E2 & H2). exists s2.
    cbn [scan_results]. unfold bind. by rewrite E1, E2. }
  exists s'. split_and!; auto using nodup_table_of, lookup_table_of.
Qed.

(** A heap that always has room. *)
Definition heap_env : Env :=
  ref_env 0 (fun _ _ => None) (fun _ c => match c with calloc _ _ => 0x20010000 | _ => 0 end) (fun _ _ => []).

Definition demo_report (id rssi : Z) : scan_ev := mkScanEv 4 ([110; 97; 109; 101] ++ replicate 28 0) [0; 0; 0; 0; 0; id] rssi 6 5.

Lemma wifi_scan_table_witness :
  let rs := map (fun i => demo_report i (-60)) [1; 2; 3; 4; 5; 6; 1] in
  exists s', @scan_results heap_env 49 33 rs machine_init = Ret tt s' /\ scan_tab (table_of 33 rs []) s' /\
    NoDup (bssids (table_of 33 rs [])) /\
    forall b, lookup_bssid b (table_of 33 rs []) = latest 33 b rs (lookup_bssid b []).
Proof.
  apply (@wifi_scan_table heap_env 49 33 (map (fun i => demo_report i (-60)) [1; 2; 3; 4; 5; 6; 1]) [] machine_init).
  - lia.
  - done.
  - repeat (constructor; [split_and!; [reflexivity | cbn; lia | cbn; lia | reflexivity] |]). constructor.
  - split; [reflexivity |]. split; [exists 0; split; [lia | reflexivity] |]. by split.
  - constructor.
  - vm_compute. done.
Defined.

(** Polling.  After the radio was polled, a finished scan hands the whole
    table to the runtime exactly once and leaves an empty one; then the link
    status is compared with the last one: a new address is announced exactly
    when the link came up, with the address read at that moment, and its loss
    exactly when it went down, after leaving the network. *)
Theorem wifi_process_cases {E : Env} l s s1 :
  cyw43_arch_poll s = Ret tt s1 -> scan_tab l s1 ->
  exists active st s2 s' es ip, jd_wifi_process s = Ret tt s' /\
    rd prev_status s' = st /\
    (if rd in_scan s1 && negb active
     then tr s2 = E_call (jd_wifi_scan_done_cb (rd scan_res s1) (Z.of_nat (length l)))
                  :: E_call (DMESG "scan done!" []) :: E_ret cyw43_wifi_scan_active 0 :: tr s1 /\
          rd in_scan s' = false /\ scan_tab [] s'
     else notices_in (tr s2) = notices_in (tr s1) /\ rd in_scan s' = rd in_scan s1 /\ scan_tab l s') /\
    tr s' = es ++ E_ret (cyw43_tcpip_link_status CYW43_ITF_STA) st :: tr s2 /\
    notices_in es = notices_due (rd prev_status s1) st ip /\
    (In (E_call (jd_wifi_got_ip_cb ip)) es -> In (E_ret (cyw43_state_ip_addr CYW43_ITF_STA) ip) es) /\
    (In (E_call jd_wifi_lost_ip_cb) es -> exists v, In (E_ret (cyw43_wifi_leave CYW43_ITF_STA) v) es).
Proof.
  intros E1 HT. unfold jd_wifi_process, bind at 1. rewrite E1.
  set (act := z2b (ret_of (tr s1) cyw43_wifi_scan_active)).
  assert (exists s2, process_scan s1 = Ret tt s2 /\ rd prev_status s2 = rd prev_status s1 /\
    if rd in_scan s1 && negb act
    then tr s2 = E_call (jd_wifi_scan_done_cb (rd scan_res s1) (Z.of_nat (length l)))
                  :: E_call (DMESG "scan done!" []) :: E_ret cyw43_wifi_scan_active 0 :: tr s1 /\
          rd in_scan s2 = false /\ scan_tab [] s2
    else notices_in (tr s2) = notices_in (tr s1) /\ rd in_scan s2 = rd in_scan s1 /\ scan_tab l s2)
    as (s2 & E2 & Hp & Hc).
  { unfold process_scan. mexec. vsimp. unfold act. clear act.
    destruct (rd in_scan s1) eqn:Hin; cbn [andb].
    - destruct (z2b (ret_of (tr s1) cyw43_wifi_scan_active)) eqn:Ha; cbn [negb]; eexists; (split; [reflexivity |]); vsimp; (split; [done |]).
      + by split.
      + split; [| split; [done |]].
        * destruct HT as (-> & _). unfold z2b in Ha. b2p. by rewrite Ha.
        * split; [done |]. split; [by exists 0 |]. by split.
    - eexists. split; [reflexivity |]. by split. }
  unfold bind at 1. rewrite E2.
  destruct (process_link_run s2) as (s' & es & ip & E3 & H1 & H2 & H3 & H4 & H5 & H6 & H7 & H8 & H9).
  exists act, (ret_of (tr s2) (cyw43_tcpip_link_status CYW43_ITF_STA)), s2, s', es, ip.
  split; [exact E3 |]. split; [exact H1 |]. rewrite Hp in H7.
  assert (forall k, scan_tab k s2 -> scan_tab k s') as Hk.
  { unfold scan_tab. intros k. by rewrite H2, H3, H4. }
  split_and!; try done. rewrite H5.
  destruct (rd in_scan s1 && negb act); destruct Hc as (? & ? & ?); auto.
Qed.

(** Link up after a scan. *)
Definition link_env : Env :=
  ref_env 0 (fun _ _ => None)
    (fun _ c => match c with cyw43_tcpip_link_status _ => 3 | cyw43_state_ip_addr _ => 0x0100007f | _ => 0 end)
    (fun _ _ => []).

Lemma wifi_process_cases_witness :
  let s := wr in_scan true machine_init in
  exists active st s2 s' es ip, @jd_wifi_process link_env s = Ret tt s' /\
    rd prev_status s' = st /\
    (if rd in_scan (emit (E_ret cyw43_poll_ptr 0) (emit (E_call sys_check_timeouts) s)) && negb active
     then tr s2 = E_call (jd_wifi_scan_done_cb None 0) :: E_call (DMESG "scan done!" [])
                  :: E_ret cyw43_wifi_scan_active 0
                  :: tr (emit (E_ret cyw43_poll_ptr 0) (emit (E_call sys_check_timeouts) s)) /\
          rd in_scan s' = false /\ scan_tab [] s'
     else notices_in (tr s2) = [] /\ rd in_scan s' = true /\ scan_tab [] s') /\
    tr s' = es ++ E_ret (cyw43_tcpip_link_status CYW43_ITF_STA) st :: tr s2 /\
    notices_in es = notices_due (-1000) st ip /\
    (In (E_call (jd_wifi_got_ip_cb ip)) es -> In (E_ret (cyw43_state_ip_addr CYW43_ITF_STA) ip) es) /\
    (In (E_call jd_wifi_lost_ip_cb) es -> exists v, In (E_ret (cyw43_wifi_leave CYW43_ITF_STA) v) es).
Proof.
  apply (@wifi_process_cases link_env [] (wr in_scan true machine_init)
           (emit (E_ret cyw43_poll_ptr 0) (emit (E_call sys_check_timeouts) (wr in_scan true machine_init)))).
  - reflexivity.
  - split; [reflexivity |]. split; [exists 0; split; [lia | reflexivity] |]. by split.
Defined.

(** C36: the runtime's notices alternate.  Over any interleaving of polls, scan
    reports, connects, disconnects and LED changes, "got address" and "lost
    address" strictly alternate beginning with the former, and the last one
    agrees with the last link status. *)
Theorem wifi_notices_alternate {E : Env} `{!WifiClient} sz n s s' :
  link_inv s -> star (wifi_step sz n) s s' ->
  notices (tr s') = Some (rd prev_status s' =? CYW43_LINK_UP).
Proof. intros Hs Hst. exact (star_invariant _ link_inv (wifi_step_link sz n) s s' Hst Hs). Qed.

#[export] Instance wifi_demo : @WifiClient link_env.
Proof. constructor. intros c s Hs. exact Hs. Qed.

Lemma wifi_notices_alternate_witness :
  exists s', @jd_wifi_process link_env machine_init = Ret tt s' /\
    notices (tr s') = Some (rd prev_status s' =? CYW43_LINK_UP).
Proof.
  exists (match @jd_wifi_process link_env machine_init with Ret _ s' => s' | Stop _ s' => s' end).
  split; [vm_compute; reflexivity |].
  apply (@wifi_notices_alternate link_env wifi_demo 49 33 machine_init); [reflexivity |].
  eapply star_step; [apply step_process; vm_compute; reflexivity | apply star_refl].
Defined.
