(* ===== verification/LwipSock.v ===== *)
(** * LwipSock: the one TCP connection of [lwip_sock.c]

    [jd_tcpsock_new] looks a host up, the answer (at once, or from a callback
    of the resolver) opens a connection, received data and state changes go to
    the runtime as events.  The runtime may call back into this file from an
    event, so telling it is a call that may re-enter.  A callback's [void *arg]
    is [&sock_state] or, once the connection was closed, NULL: a bool here. *)

From S2P Require Import Prelude Events Machine RefEnv Alloc.

(** ** Definitions *)

(** lwIP's error codes and write flags. *)
Definition ERR_OK : Z := 0.
Definition ERR_INPROGRESS : Z := -5.
Definition ERR_ABRT : Z := -13.
Definition TCP_WRITE_FLAG_COPY : Z := 1.

(** *** [sock_state] *)

Definition ipaddr : var Z := {|
  rd s := f_ipaddr (m_sock s);
  wr v := upd_sock (fun x => {| f_ipaddr := v; f_hostname := f_hostname x; f_tcp_pcb := f_tcp_pcb x;
      f_port_num := f_port_num x; f_host_found_pending := f_host_found_pending x;
      f_connected := f_connected x; f_connecting := f_connecting x |}) |}.
Definition hostname : var (option Z) := {|
  rd s := f_hostname (m_sock s);
  wr v := upd_sock (fun x => {| f_ipaddr := f_ipaddr x; f_hostname := v; f_tcp_pcb := f_tcp_pcb x;
      f_port_num := f_port_num x; f_host_found_pending := f_host_found_pending x;
      f_connected := f_connected x; f_connecting := f_connecting x |}) |}.
Definition tcp_pcb : var (option Z) := {|
  rd s := f_tcp_pcb (m_sock s);
  wr v := upd_sock (fun x => {| f_ipaddr := f_ipaddr x; f_hostname := f_hostname x; f_tcp_pcb := v;
      f_port_num := f_port_num x; f_host_found_pending := f_host_found_pending x;
      f_connected := f_connected x; f_connecting := f_connecting x |}) |}.
Definition port_num : var Z := {|
  rd s := f_port_num (m_sock s);
  wr v := upd_sock (fun x => {| f_ipaddr := f_ipaddr x; f_hostname := f_hostname x; f_tcp_pcb := f_tcp_pcb x;
      f_port_num := v; f_host_found_pending := f_host_found_pending x;
      f_connected := f_connected x; f_connecting := f_connecting x |}) |}.
Definition host_found_pending : var bool := {|
  rd s := f_host_found_pending (m_sock s);
  wr v := upd_sock (fun x => {| f_ipaddr := f_ipaddr x; f_hostname := f_hostname x; f_tcp_pcb := f_tcp_pcb x;
      f_port_num := f_port_num x; f_host_found_pending := v;
      f_connected := f_connected x; f_connecting := f_connecting x |}) |}.
Definition connected : var bool := {|
  rd s := f_connected (m_sock s);
  wr v := upd_sock (fun x => {| f_ipaddr := f_ipaddr x; f_hostname := f_hostname x; f_tcp_pcb := f_tcp_pcb x;
      f_port_num := f_port_num x; f_host_found_pending := f_host_found_pending x;
      f_connected := v; f_connecting := f_connecting x |}) |}.
Definition connecting : var bool := {|
  rd s := f_connecting (m_sock s);
  wr v := upd_sock (fun x => {| f_ipaddr := f_ipaddr x; f_hostname := f_hostname x; f_tcp_pcb := f_tcp_pcb x;
      f_port_num := f_port_num x; f_host_found_pending := f_host_found_pending x;
      f_connected := f_connected x; f_connecting := v |}) |}.

(** [memset(state, 0, sizeof( *state))] *)
Definition sock_zero : sock_st := {|
  f_ipaddr := 0; f_hostname := None; f_tcp_pcb := None; f_port_num := 0;
  f_host_found_pending := false; f_connected := false; f_connecting := false |}.
Definition clear_state : M unit := fun s => Ret tt (upd_sock (fun _ => sock_zero) s).

(** A received chain of buffers: its address, total length and segments. *)
Record pbuf := mkPbuf { pb_addr : Z; tot_len : Z; segs : list (addr * Z) }.

Section Operations.
Context {E : Env}.

Definition on_event (ev : conn_ev) (data : addr) (size : Z) : M unit :=
  sdkr (jd_tcpsock_on_event ev data size).

Definition jd_tcpsock_close : M unit :=
  let! p := get tcp_pcb in
  (match p with
   | None => ret tt
   | Some pcb =>
     sdk (tcp_arg pcb false) ;;
     sdk (tcp_poll pcb false 0) ;;
     sdk (tcp_sent pcb false) ;;
     sdk (tcp_recv pcb false) ;;
     sdk (tcp_err pcb false) ;;
     let! err := sdkv (tcp_close pcb) in
     (when negb (err =? ERR_OK) do
        (sdk (DMESG "close failed %d" [err]) ;;
         sdk (tcp_abort pcb))) ;;
     tcp_pcb <~ None
   end) ;;
  let! h := get hostname in
  jd_free (ptr_addr h) ;;
  clear_state.

(** [msg] is the format with its arguments, or NULL. *)
Definition raise_error (msg : option (string * list Z)) : M unit :=
  let! c := get connecting in
  if negb c then ret tt
  else
    let! msgfmt := (match msg with
                    | Some (fmt, args) => let! p := sdkv (jd_vsprintf_a fmt args) in ret (as_ptr p)
                    | None => ret None
                    end) in
    jd_tcpsock_close ;;
    (match msgfmt with
     | Some p =>
       let! n := sdkv (strlen (mem p)) in
       on_event JD_CONN_EV_ERROR (mem p) n ;;
       jd_free (mem p)
     | None => ret tt
     end) ;;
    on_event JD_CONN_EV_CLOSE NULL 0.

(** Using [state] when the callback's argument is NULL is undefined. *)
Definition deref (arg : bool) : M unit := if arg then ret tt else halt UB.

Definition tcp_client_connected (arg : bool) (err : Z) : M Z :=
  if negb (err =? ERR_OK) then
    (deref arg ;; raise_error (Some ("connect failed: %d"%string, [err])) ;; ret ERR_OK)
  else
    (sdk (DMESG "connected" []) ;;
     deref arg ;;
     connected <~ true ;;
     on_event JD_CONN_EV_OPEN NULL 0 ;;
     ret ERR_OK).

Definition tcp_client_err (arg : bool) (err : Z) : M unit :=
  when negb (err =? ERR_ABRT) do
    (deref arg ;; raise_error (Some ("sock error: %d"%string, [err]))).

(** The segments one after the other, adding up their lengths. *)
Fixpoint deliver (qs : list (addr * Z)) (len : Z) : M Z :=
  match qs with
  | [] => ret len
  | (payload, n) :: qs =>
    on_event JD_CONN_EV_MESSAGE payload n ;;
    deliver qs (u32 (len + n))
  end.

Definition tcp_client_recv (arg : bool) (tpcb : Z) (p : option pbuf) (err : Z) : M Z :=
  match p with
  | None => deref arg ;; raise_error (Some ("recv without buf?"%string, [])) ;; ret ERR_OK
  | Some p =>
    (when 0 <? tot_len p do
       (let! len := deliver (segs p) 0 in
        JD_ASSERT (len =? tot_len p) ;;
        sdk (tcp_recved tpcb (tot_len p)))) ;;
    sdk (pbuf_free (mem (pb_addr p))) ;;
    ret ERR_OK
  end.

(** The second half of [host_found]: set the callbacks and connect. *)
Definition start_connect (pcb : Z) : M unit :=
  sdk (tcp_arg pcb true) ;;
  sdk (tcp_recv pcb true) ;;
  sdk (tcp_err pcb true) ;;
  let! a := get ipaddr in
  let! port := get port_num in
  let! err := sdkv (tcp_connect pcb a port) in
  when negb (err =? 0) do raise_error (Some ("can't start connect: %d"%string, [err])).

(** [addr] is NULL when the name does not resolve. *)
Definition host_found (addr : option Z) : M unit :=
  match addr with
  | None => halt UB
  | Some a =>
    ipaddr <~ a ;;
    let! port := get port_num in
    sdk (DMESG "connecting to %s:%d (%s)" [port; a]) ;;
    let! ty := sdkv (ip_get_type a) in
    let! p := sdkv (tcp_new_ip_type ty) in
    tcp_pcb <~ as_ptr p ;;
    match as_ptr p with
    | None => raise_error (Some ("can't alloc pcb"%string, []))
    | Some pcb => start_connect pcb
    end
  end.

Definition jd_tcpsock_new (host : addr) (port : Z) : M Z :=
  if (port =? 0) || (0xffff <? u32 port) then ret (-100)
  else
    (jd_tcpsock_close ;;
     port_num <~ u16 port ;;
     let! h := sdkv (jd_strdup host) in
     hostname <~ as_ptr h ;;
     connecting <~ true ;;
     let! err := sdkv (dns_gethostbyname (ptr_addr (as_ptr h))) in
     if err =? ERR_INPROGRESS then ret 0
     else
       ((if err =? ERR_OK then
           (let! a := sdkv (dns_result (ptr_addr (as_ptr h))) in
            ipaddr <~ a ;;
            host_found_pending <~ true)
         else
           (raise_error (Some ("can't resolve '%s': %d"%string, [h; err])) ;;
            jd_tcpsock_close)) ;;
        ret err)).

Definition pcb_arg (p : option Z) : Z := match p with Some a => a | None => 0 end.

Definition jd_tcpsock_write (buf : addr) (size : Z) : M Z :=
  let! c := get connected in
  if negb c then ret (-10)
  else
    (JD_ASSERT (size <? 0xffff) ;;
     let! p := get tcp_pcb in
     let! err := sdkv (tcp_write (pcb_arg p) buf size TCP_WRITE_FLAG_COPY) in
     if negb (err =? 0) then
       (raise_error (Some ("write error: %d"%string, [err])) ;; ret err)
     else
       (let! p := get tcp_pcb in
        let! err := sdkv (tcp_output (pcb_arg p)) in
        (when negb (err =? 0) do raise_error (Some ("flush error: %d"%string, [err]))) ;;
        ret err)).

Definition jd_tcpsock_process : M unit :=
  let! pending := get host_found_pending in
  when pending do
    (host_found_pending <~ true ;;
     let! a := get ipaddr in
     host_found (Some a)).
End Operations.

(** ** Specification *)

(** What the runtime was told, and which connections were opened, closed and
    told to connect, newest first. *)
Fixpoint told (t : trace) : list (conn_ev * addr * Z) :=
  match t with
  | [] => []
  | E_call (jd_tcpsock_on_event ev d n) :: t => (ev, d, n) :: told t
  | _ :: t => told t
  end.
Fixpoint opened (t : trace) : list Z :=
  match t with
  | [] => []
  | E_ret (tcp_new_ip_type _) p :: t => p :: opened t
  | _ :: t => opened t
  end.
Fixpoint closed (t : trace) : list Z :=
  match t with
  | [] => []
  | E_ret (tcp_close p) _ :: t => p :: closed t
  | _ :: t => closed t
  end.

(** What lwIP passes to the callbacks of connection [pcb]: [&sock_state] or NULL,
    as [tcp_arg] said last; a new connection has NULL. *)
Fixpoint attached (t : trace) (pcb : Z) : bool :=
  match t with
  | [] => false
  | E_call (tcp_arg p b) :: t => if p =? pcb then b else attached t pcb
  | _ :: t => attached t pcb
  end.

(** lwIP holds a pointer to the state only for the connection of the state. *)
Definition owned (s : machine) : Prop := forall pcb, attached (tr s) pcb = true -> rd tcp_pcb s = Some pcb.

(** A socket that is not open has no state at all; an open one has a port, and
    a connection if it is connected. *)
Definition sock_inv (s : machine) : Prop :=
  (rd connecting s = false -> m_sock s = sock_zero) /\
  (rd connecting s = true -> 1 <= rd port_num s <= 65535) /\
  (rd connected s = true -> rd tcp_pcb s <> None) /\
  owned s.

(** What a runtime that is told of an event does to the socket. *)
Class SockClient {E : Env} : Prop := { event_keeps_sock c : keeps sock_inv (reenter c) }.

(** *** Errors *)

(** The events of closing the connection [p] with host name [h]. *)
Definition closing {E : Env} (p h : option Z) (t : trace) : trace :=
  E_call (free (ptr_addr h)) ::
  match p with
  | None => []
  | Some pcb =>
    let t1 := E_call (tcp_err pcb false) :: E_call (tcp_recv pcb false) :: E_call (tcp_sent pcb false)
              :: E_call (tcp_poll pcb false 0) :: E_call (tcp_arg pcb false) :: t in
    let err := ret_of t1 (tcp_close pcb) in
    (if err =? ERR_OK then [] else [E_call (tcp_abort pcb); E_call (DMESG "close failed %d" [err])])
    ++ [E_ret (tcp_close pcb) err; E_call (tcp_err pcb false); E_call (tcp_recv pcb false);
        E_call (tcp_sent pcb false); E_call (tcp_poll pcb false 0); E_call (tcp_arg pcb false)]
  end.
Definition closed_at {E : Env} (s : machine) : machine :=
  upd_sock (fun _ => sock_zero) (upd_tr (app (closing (rd tcp_pcb s) (rd hostname s) (tr s))) s).

(** The runtime is told of one event after the other; whatever it does, calling
    back into the socket included, it does before the next. *)
Fixpoint tells {E : Env} (evs : list (conn_ev * addr * Z)) (s : machine) : res unit :=
  match evs with
  | [] => Ret tt s
  | (ev, d, n) :: evs =>
    match reenter (jd_tcpsock_on_event ev d n) (emit (E_call (jd_tcpsock_on_event ev d n)) s) with
    | Ret _ s1 => tells evs s1
    | Stop w s1 => Stop w s1
    end
  end.

(** The report of an error whose message is at [m]: the message, which is freed
    when the runtime has seen it, and then the close; with no memory for a
    message only the close. *)
Definition told_error {E : Env} (m : option Z) (s : machine) : res unit :=
  match m with
  | None => tells [(JD_CONN_EV_CLOSE, NULL, 0)] s
  | Some m =>
    let n := ret_of (tr s) (strlen (mem m)) in
    match tells [(JD_CONN_EV_ERROR, mem m, n)] (emit (E_ret (strlen (mem m)) n) s) with
    | Ret _ s1 => tells [(JD_CONN_EV_CLOSE, NULL, 0)] (emit (E_call (free (mem m))) s1)
    | Stop w s1 => Stop w s1
    end
  end.

(** An error on an open socket: the message is formatted, the socket closed, the
    runtime told; on a closed one nothing. *)
Definition error_outcome {E : Env} (fmt : string) (args : list Z) (s : machine) : res unit :=
  if rd connecting s then
    let m := ret_of (tr s) (jd_vsprintf_a fmt args) in
    told_error (as_ptr m) (closed_at (emit (E_ret (jd_vsprintf_a fmt args) m) s))
  else Ret tt s.

(** The result [v] of an operation that ends with [r]. *)
Definition returning {A} (v : A) (r : res unit) : res A :=
  match r with Ret _ s => Ret v s | Stop w s => Stop w s end.

(** ** Lemmas *)

Lemma zero_inv s : m_sock s = sock_zero -> owned s -> sock_inv s.
Proof.
  intros Hz Ho. unfold sock_inv. split_and!; [done | | | done]; cbn [rd connecting connected]; by rewrite Hz.
Qed.

Lemma close_run {E : Env} s : jd_tcpsock_close s = Ret tt (closed_at s).
Proof.
  unfold jd_tcpsock_close, closed_at, closing, jd_free, clear_state. unfold bind at 1 2, get at 1.
  destruct (rd tcp_pcb s) as [pcb |]; [| reflexivity]. cbv zeta.
  set (t1 := E_call (tcp_err pcb false) :: _). unfold bind, sdk, log, sdkv, put, ret, get.
  vsimp. fold t1. destruct (ret_of t1 (tcp_close pcb) =? ERR_OK); reflexivity.
Qed.

Lemma closing_told {E : Env} p h t : told (closing p h t) = [].
Proof. destruct p; [| done]. cbn. by destruct (_ =? ERR_OK). Qed.

Lemma closing_closed {E : Env} p h t :
  closed (closing p h t) = match p with Some pcb => [pcb] | None => [] end.
Proof. destruct p; [| done]. cbn. by destruct (_ =? ERR_OK). Qed.

Lemma closing_aborts {E : Env} p h t pcb err :
  In (E_ret (tcp_close pcb) err) (closing p h t) -> err <> ERR_OK -> In (E_call (tcp_abort pcb)) (closing p h t).
Proof.
  destruct p as [q |]; [| cbn; intuition discriminate]. unfold closing. cbv zeta.
  set (e := ret_of _ (tcp_close q)). clearbody e.
  destruct (Z.eqb_spec e ERR_OK) as [He | He]; cbn [app In].
  - intros Hin Herr. exfalso. intuition congruence.
  - intros Hin _. right. left. intuition congruence.
Qed.

Lemma told_app t u : told (t ++ u) = told t ++ told u.
Proof. induction t as [| [] t IH]; cbn; try done. destruct c; cbn; rewrite ?IH; done. Qed.
Lemma closed_app t u : closed (t ++ u) = closed t ++ closed u.
Proof. induction t as [| [] t IH]; cbn; try done. destruct c; cbn; rewrite ?IH; done. Qed.

(** The connection [p] allocated for address [a]. *)
Definition found_at (a ty p : Z) (s : machine) : machine :=
  wr tcp_pcb (as_ptr p) (emit (E_ret (tcp_new_ip_type ty) p) (emit (E_ret (ip_get_type a) ty)
    (emit (E_call (DMESG "connecting to %s:%d (%s)" [rd port_num s; a])) (wr ipaddr a s)))).

Lemma found_at_fields a ty p s :
  rd connecting (found_at a ty p s) = rd connecting s /\
  rd port_num (found_at a ty p s) = rd port_num s /\
  rd tcp_pcb (found_at a ty p s) = as_ptr p /\
  rd ipaddr (found_at a ty p s) = a /\
  rd host_found_pending (found_at a ty p s) = rd host_found_pending s /\
  rd connected (found_at a ty p s) = rd connected s /\
  rd hostname (found_at a ty p s) = rd hostname s.
Proof. repeat split. Qed.

Lemma host_found_run {E : Env} a s :
  exists ty t, (forall q, attached t q = attached (tr s) q) /\
    let p := ret_of t (tcp_new_ip_type ty) in host_found (Some a) s =
    match as_ptr p with
    | None => raise_error (Some ("can't alloc pcb"%string, []))
    | Some pcb => start_connect pcb
    end (found_at a ty p s).
Proof.
  set (t := E_call (DMESG "connecting to %s:%d (%s)" [rd port_num s; a]) :: tr s).
  set (ty := ret_of t (ip_get_type a)). by exists ty, (E_ret (ip_get_type a) ty :: t).
Qed.

(** The callbacks installed on [pcb] and the connection requested. *)
Definition connect_at (pcb err : Z) (s : machine) : machine :=
  emit (E_ret (tcp_connect pcb (rd ipaddr s) (rd port_num s)) err)
    (emit (E_call (tcp_err pcb true)) (emit (E_call (tcp_recv pcb true)) (emit (E_call (tcp_arg pcb true)) s))).

Lemma start_connect_run {E : Env} pcb s :
  exists t, let err := ret_of t (tcp_connect pcb (rd ipaddr s) (rd port_num s)) in
  start_connect pcb s =
    (if err =? 0 then ret tt else raise_error (Some ("can't start connect: %d"%string, [err])))
      (connect_at pcb err s).
Proof.
  exists (E_call (tcp_err pcb true) :: E_call (tcp_recv pcb true) :: E_call (tcp_arg pcb true) :: tr s).
  unfold start_connect. unfold bind, sdk, log, get, sdkv. vsimp. cbv zeta.
  match goal with |- context [?x =? 0] => destruct (x =? 0) end; reflexivity.
Qed.

Lemma on_event_tells {E : Env} ev d n s : on_event ev d n s = tells [(ev, d, n)] s.
Proof. cbn [tells]. unfold on_event, sdkr. by destruct (reenter _ _) as [[] |]. Qed.

Lemma raise_error_run {E : Env} fmt args s : raise_error (Some (fmt, args)) s = error_outcome fmt args s.
Proof.
  unfold raise_error, error_outcome. unfold bind at 1, get at 1. destruct (rd connecting s); cbn [negb]; [| done].
  unfold bind at 1 2, sdkv at 1, ret at 1. cbv zeta. set (m := as_ptr _). set (s1 := emit _ s). clearbody m s1.
  unfold bind at 1. rewrite close_run. destruct m as [m |]; unfold told_error.
  - unfold bind at 1 2, sdkv at 1, bind at 1. rewrite on_event_tells. cbv zeta.
    destruct (tells _ _) as [[] s2 |]; [| done]. unfold jd_free, sdk, log. by rewrite on_event_tells.
  - unfold bind at 1, ret at 1. apply on_event_tells.
Qed.

(** Nothing is attached any more to a socket that was closed. *)
Lemma attached_app_closing {E : Env} p h t q :
  attached (closing p h t ++ t) q = if decide (p = Some q) then false else attached t q.
Proof.
  destruct p as [p |]; cbn [closing app attached]; [| by rewrite decide_False].
  destruct (_ =? ERR_OK); cbn [app attached]; (destruct (Z.eqb_spec p q) as [-> | Hne];
    [by rewrite decide_True | by rewrite decide_False by congruence]).
Qed.

Lemma closed_attached {E : Env} s q : owned s -> attached (tr (closed_at s)) q = false.
Proof.
  intros Ho. change (attached (closing (rd tcp_pcb s) (rd hostname s) (tr s) ++ tr s) q = false).
  rewrite attached_app_closing. destruct (decide _) as [| Hne]; [done |].
  destruct (attached (tr s) q) eqn:Ha; [| done]. by apply Ho in Ha.
Qed.

Lemma closed_inv {E : Env} s : owned s -> sock_inv (closed_at s).
Proof. intros Ho. apply zero_inv; [done |]. intros q. by rewrite closed_attached. Qed.

Lemma raise_error_idle {E : Env} msg s : rd connecting s = false -> raise_error msg s = Ret tt s.
Proof. intros Hc. unfold raise_error, bind, get. by rewrite Hc. Qed.

Section Invariant.
Context {E : Env} {SC : SockClient}.

Lemma sock_same s s' : m_sock s' = m_sock s -> (forall q, attached (tr s') q = attached (tr s) q) ->
  sock_inv s -> sock_inv s'.
Proof.
  intros H Ha. unfold sock_inv, owned. cbn [rd connecting connected tcp_pcb port_num]. rewrite H.
  intros (H1 & H2 & H3 & H4). split_and!; try done. intros q. rewrite Ha. apply H4.
Qed.

(** Calls that leave the callbacks' argument alone. *)
Definition keeps_arg (c : call) : bool := match c with tcp_arg _ _ => false | _ => true end.
Lemma attached_call c t q : keeps_arg c = true -> attached (E_call c :: t) q = attached t q.
Proof. by destruct c. Qed.

Lemma keeps_sock_call c : keeps_arg c = true -> keeps sock_inv (sdk c).
Proof. intros Hc s Hs. apply (sock_same s); [done | | done]. intros q. by apply attached_call. Qed.
Lemma keeps_sock_ret c : keeps sock_inv (sdkv c).
Proof. intros s Hs. by apply (sock_same s). Qed.
Lemma tells_inv evs s : sock_inv s -> wpE (tells evs) (fun _ s' => sock_inv s') (fun _ _ => True) s.
Proof.
  revert s. induction evs as [| [[ev d] n] evs IH]; intros s Hs; [done |]. unfold wpE. cbn [tells].
  set (c := jd_tcpsock_on_event ev d n). set (s1 := emit (E_call c) s).
  assert (sock_inv s1) as H1 by by apply (sock_same s). apply (event_keeps_sock c) in H1. unfold wpE in H1.
  destruct (reenter c s1) as [[] s2 |]; [| done]. exact (IH s2 H1).
Qed.
Lemma keeps_sock_event ev d n : keeps sock_inv (on_event ev d n).
Proof. intros s Hs. unfold wpE. rewrite on_event_tells. by apply (tells_inv [(ev, d, n)]). Qed.

Hint Resolve keeps_sock_call keeps_sock_ret keeps_sock_event : keeps.
Hint Extern 1 (keeps_arg _ = true) => reflexivity : keeps.

(** After [raise_error] the invariant holds, whatever held before on an open
    socket, if lwIP holds no pointer to it for another connection. *)
Lemma told_error_inv m s : sock_inv s -> wpE (told_error m) (fun _ s' => sock_inv s') (fun _ _ => True) s.
Proof.
  intros Hs. destruct m as [m |]; [| by apply tells_inv]. unfold wpE, told_error. cbv zeta.
  set (s1 := emit _ s). assert (sock_inv s1) as H1 by by apply (sock_same s).
  apply (tells_inv [(JD_CONN_EV_ERROR, mem m, ret_of (tr s) (strlen (mem m)))]) in H1. unfold wpE in H1.
  destruct (tells _ s1) as [[] s2 |]; [| done]. apply (tells_inv [(JD_CONN_EV_CLOSE, NULL, 0)]).
  by apply (sock_same s2).
Qed.

Lemma raise_error_inv fmt args s : owned s -> (rd connecting s = false -> sock_inv s) ->
  wpE (raise_error (Some (fmt, args))) (fun _ s' => sock_inv s') (fun _ _ => True) s.
Proof.
  intros Ho Hs. unfold wpE. rewrite raise_error_run. unfold error_outcome.
  destruct (rd connecting s) eqn:Hc; [| by apply Hs]. apply told_error_inv, closed_inv. exact Ho.
Qed.

Lemma start_connect_inv pcb s :
  rd connecting s = true -> 1 <= rd port_num s <= 65535 -> rd tcp_pcb s = Some pcb ->
  (forall q, attached (tr s) q = false) ->
  wpE (start_connect pcb) (fun _ s' => sock_inv s') (fun _ _ => True) s.
Proof.
  intros Hc Hp Ht Hno. destruct (start_connect_run pcb s) as (t & E1). cbv zeta in E1.
  set (err := ret_of t _) in E1. clearbody err. apply (wpE_run _ _ _ _ _ _ E1).
  set (s1 := connect_at pcb err s).
  assert (owned s1) as Ho.
  { intros q. change (attached (tr s1) q) with (if pcb =? q then true else attached (tr s) q).
    change (rd tcp_pcb s1) with (rd tcp_pcb s). rewrite Hno.
    destruct (Z.eqb_spec pcb q) as [<- |]; [by intros _ | discriminate]. }
  assert (sock_inv s1) as H1.
  { change (rd connecting s1 = true) in Hc. change (1 <= rd port_num s1 <= 65535) in Hp.
    change (rd tcp_pcb s1 = Some pcb) in Ht. split_and!; [congruence | done | congruence | done]. }
  clearbody s1. destruct (err =? 0); [exact H1 | by apply raise_error_inv].
Qed.

Lemma host_found_inv a s :
  rd connecting s = true -> 1 <= rd port_num s <= 65535 -> rd tcp_pcb s = None -> owned s ->
  wpE (host_found a) (fun _ s' => sock_inv s') (fun _ _ => True) s.
Proof.
  intros Hc Hp Hn Ho. destruct a as [a |]; [| done]. destruct (host_found_run a s) as (ty & t & _ & E1).
  cbv zeta in E1. set (p := ret_of t _) in E1. clearbody p. apply (wpE_run _ _ _ _ _ _ E1).
  destruct (found_at_fields a ty p s) as (F1 & F2 & F3 & _).
  assert (forall q, attached (tr (found_at a ty p s)) q = false) as Hno.
  { intros q. change (attached (tr s) q = false). destruct (attached (tr s) q) eqn:Hq; [| done].
    apply Ho in Hq. congruence. }
  destruct (as_ptr p) as [pcb |] eqn:Hpcb.
  - apply start_connect_inv; congruence || done.
  - apply raise_error_inv; [| congruence]. intros q. by rewrite Hno.
Qed.

(** Reading the rest of an operation after a step that kept the socket. *)
Lemma wpE_after {A B} (m : M A) (k : A -> M B) s s1 a Q X :
  m s = Ret a s1 -> wpE (k a) Q X s1 -> wpE (bind m k) Q X s.
Proof. intros E1 Hk. apply wpE_bind. unfold wpE at 1. by rewrite E1. Qed.

Lemma wpE_then {A B} (m : M A) (k : A -> M B) s :
  wpE m (fun _ s' => sock_inv s') (fun _ _ => True) s -> (forall a, keeps sock_inv (k a)) ->
  wpE (bind m k) (fun _ s' => sock_inv s') (fun _ _ => True) s.
Proof.
  intros Hm Hk. apply wpE_bind. eapply wpE_mono; [exact Hm | | done]. intros a s'. apply Hk.
Qed.

Lemma close_inv s : owned s -> wpE jd_tcpsock_close (fun _ s' => sock_inv s') (fun _ _ => True) s.
Proof. intros Ho. unfold wpE. rewrite close_run. by apply closed_inv. Qed.

Lemma raise_error_keeps fmt args : keeps sock_inv (raise_error (Some (fmt, args))).
Proof. intros s Hs. by apply raise_error_inv; [apply Hs |]. Qed.

Lemma deliver_keeps qs len : keeps sock_inv (deliver qs len).
Proof.
  revert len. induction qs as [| [a n] qs IH]; intros len; cbn [deliver]; [apply keeps_ret |].
  auto with keeps.
Qed.

Hint Resolve raise_error_keeps deliver_keeps : keeps.

Lemma recv_keeps arg pcb p err : keeps sock_inv (tcp_client_recv arg pcb p err).
Proof.
  unfold tcp_client_recv. destruct p as [p |]; [| unfold deref; auto with keeps].
  apply keeps_bind; [| auto with keeps]. apply keeps_if; [| auto with keeps].
  apply keeps_bind; [auto with keeps |]. intros len. apply keeps_bind; [| auto with keeps].
  unfold JD_ASSERT. auto with keeps.
Qed.

Lemma err_keeps arg err : keeps sock_inv (tcp_client_err arg err).
Proof. unfold tcp_client_err, deref. auto with keeps. Qed.

Lemma write_keeps buf n : keeps sock_inv (jd_tcpsock_write buf n).
Proof.
  unfold jd_tcpsock_write. apply keeps_bind; [auto with keeps |]. intros c. apply keeps_if; [auto with keeps |].
  apply keeps_bind; [unfold JD_ASSERT; auto with keeps |]. auto 10 with keeps.
Qed.

(** lwIP passes the pointer only for the connection of the state, so a
    connection that completes is that of an open socket. *)
Lemma connected_keeps pcb err s : sock_inv s ->
  wpE (tcp_client_connected (attached (tr s) pcb) err) (fun _ s' => sock_inv s') (fun _ _ => True) s.
Proof.
  intros Hs. unfold tcp_client_connected, deref. destruct (negb _).
  { generalize (attached (tr s) pcb). intros arg. revert s Hs. change (keeps sock_inv ((if arg then ret tt else halt UB) ;;
      raise_error (Some ("connect failed: %d"%string, [err])) ;; ret ERR_OK)). auto with keeps. }
  eapply wpE_after; [reflexivity |]. destruct (attached (tr s) pcb) eqn:Ha; [| done].
  pose proof Hs as (I1 & I2 & I3 & I4). apply I4 in Ha.
  eapply wpE_after; [reflexivity |]. eapply wpE_after; [reflexivity |].
  apply (keeps_bind sock_inv (on_event JD_CONN_EV_OPEN NULL 0)); [auto with keeps | auto with keeps |].
  set (s1 := emit _ s). change (rd tcp_pcb s1 = Some pcb) in Ha.
  assert (sock_inv s1) as (J1 & J2 & J3 & J4) by by apply (sock_same s). split_and!; [| exact J2 | | exact J4].
  - intros Hc. change (rd connecting s1 = false) in Hc. apply J1 in Hc.
    exfalso. cbn [rd tcp_pcb] in Ha. by rewrite Hc in Ha.
  - intros _. change (rd tcp_pcb s1 <> None). congruence.
Qed.

Lemma process_keeps s : sock_inv s -> (rd host_found_pending s = true -> rd tcp_pcb s = None) ->
  wpE jd_tcpsock_process (fun _ s' => sock_inv s') (fun _ _ => True) s.
Proof.
  intros Hs Hn. unfold jd_tcpsock_process. eapply wpE_after; [reflexivity |].
  destruct (rd host_found_pending s) eqn:Hp; [| exact Hs].
  assert (rd connecting s = true) as Hc.
  { destruct (rd connecting s) eqn:Hc; [done |]. apply (proj1 Hs) in Hc. cbn [rd host_found_pending] in Hp.
    by rewrite Hc in Hp. }
  eapply wpE_after; [reflexivity |]. eapply wpE_after; [reflexivity |].
  apply host_found_inv; [exact Hc | by apply Hs | by apply Hn | apply Hs].
Qed.

Lemma u32_port port : (0xffff <? u32 port) = false -> (port =? 0) = false ->
  -2147483648 <= port < 2147483648 -> 1 <= u16 port <= 65535 /\ u16 port = port.
Proof. intros H1 H2 Hi. b2p. zlia. Qed.

(** An open socket that waits for its address. *)
Lemma asked_inv port s : 1 <= u16 port <= 65535 -> (forall q, attached (tr s) q = false) ->
  rd connecting s = true -> rd port_num s = u16 port -> rd connected s = false -> sock_inv s.
Proof. intros Hp Hno Hc Hq Hd. split_and!; [congruence | lia | congruence |]. intros q. by rewrite Hno. Qed.

(** [jd_tcpsock_new] establishes the invariant again. *)
Lemma new_inv host port s :
  -2147483648 <= port < 2147483648 -> sock_inv s ->
  wpE (jd_tcpsock_new host port) (fun _ s' => sock_inv s') (fun _ _ => True) s.
Proof.
  intros Hi Hs. unfold jd_tcpsock_new. destruct (_ || _) eqn:Hport; [exact Hs |].
  apply orb_false_iff in Hport. destruct Hport as [H0 Hbig].
  destruct (u32_port port Hbig H0 Hi) as [Hr _].
  assert (owned s) as Ho by apply Hs. eapply wpE_after; [apply close_run |].
  pose proof (fun q => closed_attached s q Ho) as Hno.
  assert (rd connected (closed_at s) = false) as Hcon by done. set (s1 := closed_at s) in *. clearbody s1.
  eapply wpE_after; [reflexivity |]. eapply wpE_after; [reflexivity |].
  set (h := ret_of _ _). clearbody h. do 2 (eapply wpE_after; [reflexivity |]).
  eapply wpE_after; [reflexivity |]. set (err := ret_of _ _). clearbody err.
  set (s2 := emit _ _).
  assert (forall q, attached (tr s2) q = false) as Hno2 by exact Hno.
  assert (rd connecting s2 = true /\ rd port_num s2 = u16 port /\ rd connected s2 = false) as (H1 & H2 & H3) by done.
  clearbody s2. destruct (err =? ERR_INPROGRESS).
  { by apply asked_inv with port. }
  apply wpE_then; [| auto with keeps]. destruct (err =? ERR_OK).
  - do 2 (eapply wpE_after; [reflexivity |]). by apply asked_inv with port.
  - apply wpE_bind. eapply wpE_mono; [apply raise_error_inv; [| congruence] | | done].
    + intros q. by rewrite Hno2.
    + intros ? s3 Hs3. apply close_inv, Hs3.
Qed.

(** *** Everything that can happen to the socket *)
Inductive sock_step : machine -> machine -> Prop :=
| step_new host port v s s' : -2147483648 <= port < 2147483648 ->
    jd_tcpsock_new host port s = Ret v s' -> sock_step s s'
| step_close s s' : jd_tcpsock_close s = Ret tt s' -> sock_step s s'
| step_write buf n v s s' : jd_tcpsock_write buf n s = Ret v s' -> sock_step s s'
(* the main loop acts on an address that was known at once - not a second time,
   which would leave the first connection without an owner *)
| step_process s s' : (rd host_found_pending s = true -> rd tcp_pcb s = None) ->
    jd_tcpsock_process s = Ret tt s' -> sock_step s s'
(* the resolver answers, once, while the name it was asked for is wanted *)
| step_resolved a s s' : rd connecting s = true -> rd tcp_pcb s = None -> host_found a s = Ret tt s' -> sock_step s s'
(* lwIP passes what was attached to the connection *)
| step_connected pcb err v s s' : tcp_client_connected (attached (tr s) pcb) err s = Ret v s' -> sock_step s s'
| step_err pcb err s s' : tcp_client_err (attached (tr s) pcb) err s = Ret tt s' -> sock_step s s'
| step_recv pcb p err v s s' : tcp_client_recv (attached (tr s) pcb) pcb p err s = Ret v s' -> sock_step s s'.

Lemma wpE_ret_inv {A} (m : M A) s a s' :
  wpE m (fun _ s' => sock_inv s') (fun _ _ => True) s -> m s = Ret a s' -> sock_inv s'.
Proof. unfold wpE. intros H E1. by rewrite E1 in H. Qed.

Lemma sock_step_inv s s' : sock_inv s -> sock_step s s' -> sock_inv s'.
Proof.
  intros Hs Hst. inversion Hst; subst;
    match goal with H : ?m s = Ret _ s' |- _ => refine (wpE_ret_inv m s _ s' _ H) end.
  - by apply new_inv.
  - apply close_inv, Hs.
  - by apply write_keeps.
  - by apply process_keeps.
  - apply host_found_inv; [done | by apply Hs | done | apply Hs].
  - by apply connected_keeps.
  - by apply err_keeps.
  - by apply recv_keeps.
Qed.
End Invariant.

(** *** Receiving *)

(** The segments arrive in order. *)
Definition message (q : addr * Z) : conn_ev * addr * Z := (JD_CONN_EV_MESSAGE, fst q, snd q).
Definition sum_len (qs : list (addr * Z)) : Z := foldr (fun q n => snd q + n) 0 qs.

Lemma sum_len_pos qs : Forall (fun q => 0 <= snd q) qs -> 0 <= sum_len qs.
Proof. induction 1 as [| q qs Hq _ IH]; [done |]. change (0 <= snd q + sum_len qs). lia. Qed.

Lemma deliver_run {E : Env} qs len s :
  Forall (fun q => 0 <= snd q) qs -> 0 <= len -> len + sum_len qs < 4294967296 ->
  deliver qs len s = returning (len + sum_len qs) (tells (map message qs) s).
Proof.
  intros Hq. revert len s. induction Hq as [| [a n] qs Hn Hq IH]; intros len s Hl Hs.
  - cbn. by rewrite Z.add_0_r.
  - pose proof (sum_len_pos qs Hq). change (sum_len ((a, n) :: qs)) with (n + sum_len qs) in *. cbn [snd] in Hn.
    cbn [deliver map tells]. unfold message at 1. cbn [fst snd]. unfold bind. rewrite on_event_tells. cbn [tells].
    destruct (reenter _ _) as [[] s1 |]; [| done]. rewrite u32_id, IH by lia. f_equal. lia.
Qed.

(** One answer of the resolver with memory and network at hand. *)
Lemma host_found_ok {E : Env} a s :
  (forall t ty, ret_of t (tcp_new_ip_type ty) <> 0) -> (forall t p b k, ret_of t (tcp_connect p b k) = 0) ->
  exists ty p, p <> 0 /\ host_found (Some a) s = Ret tt (connect_at p 0 (found_at a ty p s)) /\
    exists t, p = ret_of t (tcp_new_ip_type ty) /\ forall q, attached t q = attached (tr s) q.
Proof.
  intros Hm Hn. destruct (host_found_run a s) as (ty & t & Ht & E1). cbv zeta in E1.
  pose proof (Hm t ty) as Hp. exists ty, (ret_of t (tcp_new_ip_type ty)). split; [done |]. split; [| by exists t].
  set (p := ret_of t _) in *. clearbody p. rewrite E1. unfold as_ptr at 1. rewrite (proj2 (Z.eqb_neq p 0)) by done.
  destruct (start_connect_run p (found_at a ty p s)) as (u & E2). cbv zeta in E2. rewrite E2, Hn. reflexivity.
Qed.

(** A lookup that is under way. *)
Definition asked (h : option Z) (port : Z) (s : machine) : Prop :=
  rd connecting s = true /\ rd port_num s = port /\ rd hostname s = h /\ rd tcp_pcb s = None /\
  rd host_found_pending s = false.

(** [jd_tcpsock_new] up to the resolver's answer. *)
Lemma new_run {E : Env} host port s : 1 <= port <= 65535 ->
  exists s1 h err, asked (as_ptr h) port s1 /\
    tr s1 = E_ret (dns_gethostbyname (ptr_addr (as_ptr h))) err :: E_ret (jd_strdup host) h ::
      closing (rd tcp_pcb s) (rd hostname s) (tr s) ++ tr s /\
    jd_tcpsock_new host port s =
      (if err =? ERR_INPROGRESS then ret 0
       else (if err =? ERR_OK then
               (let! a := sdkv (dns_result (ptr_addr (as_ptr h))) in ipaddr <~ a ;; host_found_pending <~ true)
             else (raise_error (Some ("can't resolve '%s': %d"%string, [h; err])) ;; jd_tcpsock_close)) ;;
            ret err) s1.
Proof.
  intros Hp. unfold jd_tcpsock_new.
  rewrite (proj2 (Z.eqb_neq port 0)), u32_id, (proj2 (Z.ltb_ge 0xffff port)) by lia. cbn [orb].
  do 3 eexists. split; [| split].
  3: { unfold bind at 1. rewrite close_run. unfold bind at 1, put at 1, bind at 1, sdkv at 1. rewrite u16_id by lia.
       unfold bind at 1, put at 1, bind at 1, put at 1, bind at 1, sdkv at 1. reflexivity. }
  - by split_and!.
  - reflexivity.
Qed.

(** [n] rounds of the main loop. *)
Fixpoint processes {E : Env} (n : nat) : M unit :=
  match n with O => ret tt | S n => jd_tcpsock_process ;; processes n end.

Lemma process_found {E : Env} s : rd host_found_pending s = true ->
  jd_tcpsock_process s = (let s := wr host_found_pending true s in host_found (Some (rd ipaddr s)) s).
Proof. intros Hp. unfold jd_tcpsock_process. unfold bind at 1, get at 1. by rewrite Hp. Qed.

(** Writing to a socket that has no connection. *)
Lemma write_unconnected {E : Env} buf n s : rd connected s = true -> rd connecting s = false ->
  rd tcp_pcb s = None -> n < 0xffff ->
  exists v s' es err, jd_tcpsock_write buf n s = Ret v s' /\
    tr s' = es ++ E_ret (tcp_write 0 buf n TCP_WRITE_FLAG_COPY) err :: tr s.
Proof.
  intros Hd Hc Hp Hn. unfold jd_tcpsock_write. unfold bind at 1, get at 1. rewrite Hd. cbn [negb].
  rewrite (proj2 (Z.ltb_lt n 0xffff)) by done. unfold JD_ASSERT, bind at 1, ret at 1, bind at 1, get at 1.
  rewrite Hp. unfold bind at 1, sdkv at 1. cbn [pcb_arg]. set (err := ret_of _ _). clearbody err.
  set (s1 := emit _ s). destruct (err =? 0); cbn [negb].
  - unfold bind at 1, get at 1. change (rd tcp_pcb s1) with (rd tcp_pcb s). rewrite Hp. unfold bind at 1, sdkv at 1.
    set (fl := ret_of _ _). clearbody fl. set (s2 := emit _ s1). exists fl, s2, [E_ret (tcp_output (pcb_arg None)) fl], err.
    split; [| reflexivity]. destruct (fl =? 0); cbn [negb]; unfold bind, ret; [done |].
    by rewrite raise_error_idle.
  - unfold bind. rewrite raise_error_idle by done. by exists err, s1, [], err.
Qed.

(** ** Properties *)

(** C12: the socket's invariant.  However calls of the runtime - also from
    inside its event handler - and callbacks of lwIP interleave, a socket that
    is not open is entirely zero, an open one has a valid port, a connected one
    has a connection, and lwIP keeps a pointer to the state only for that
    connection - as long as the resolver answers once and only while the name
    is wanted, and the main loop acts once on an address that was known at
    once.  The code ensures neither: [sock_late_answer], [sock_leak_revives]. *)
Theorem sock_state_invariant {E : Env} `{!SockClient} s s' :
  sock_inv s -> star sock_step s s' -> sock_inv s'.
Proof. intros Hs Hst. exact (star_invariant _ sock_inv sock_step_inv s s' Hst Hs). Qed.

(** A resolver that needs time, and a runtime that writes when the connection
    opens and closes it at the first message. *)
Definition sock_rets (t : trace) (c : call) : Z :=
  match c with
  | tcp_connect _ _ _ | tcp_close _ => 0
  | dns_gethostbyname _ => -5
  | jd_vsprintf_a _ _ => 1000 | strlen _ => 14 | jd_strdup _ => 2000
  | tcp_new_ip_type _ => 55 | _ => 0 end.
Definition sock_env : Env := ref_env 0 (fun _ _ => None) sock_rets (fun _ _ => []).
Definition client_env : Env :=
  let e := sock_env in {|
  rd_reg := @rd_reg e; ret_of := @ret_of e; bytes_of := @bytes_of e; xip := @xip e; fuel := @fuel e;
  JD_MIN_MAX_SLEEP := @JD_MIN_MAX_SLEEP e; jd_max_sleep := @jd_max_sleep e;
  jd_line_falling := ret tt; jd_rx_completed _ := ret tt; jd_tx_completed _ := ret tt; client_cb _ := ret tt;
  reenter c := match c with
               | jd_tcpsock_on_event JD_CONN_EV_OPEN _ _ => @jd_tcpsock_write e (mem 4) 2 ;; ret tt
               | jd_tcpsock_on_event JD_CONN_EV_MESSAGE _ _ => @jd_tcpsock_close e
               | _ => ret tt
               end
|}.

#[export] Instance ref_client rets : @SockClient (ref_env 0 (fun _ _ => None) rets (fun _ _ => [])).
Proof. constructor. intros c. apply keeps_ret. Qed.

#[export] Instance busy_client : @SockClient client_env.
Proof.
  constructor. intros c. destruct c; try apply keeps_ret. destruct ev; try apply keeps_ret.
  - apply keeps_bind; [apply (@write_keeps sock_env (ref_client _)) | intros; apply keeps_ret].
  - intros s Hs. apply (@close_inv sock_env), Hs.
Qed.

Definition demo_after {A} (m : M A) (s : machine) : machine := match m s with Ret _ s => s | Stop _ s => s end.
Definition demo_opened : machine := demo_after (@jd_tcpsock_new client_env (mem 100) 443) machine_init.
Definition demo_found : machine := demo_after (@host_found client_env (Some 7)) demo_opened.
Definition demo_connected : machine := demo_after (@tcp_client_connected client_env true ERR_OK) demo_found.
Definition demo_packet : pbuf := mkPbuf 700 30 [(mem 710, 20); (mem 740, 10)].
Definition demo_closed : machine :=
  demo_after (@tcp_client_recv client_env true 55 (Some demo_packet) ERR_OK) demo_connected.

(** Opened, found, connected with a write from the handler, closed by the
    handler between two segments. *)
Lemma sock_state_invariant_witness :
  rd connected demo_connected = true /\ sock_inv demo_connected /\
  told (tr demo_closed) = [(JD_CONN_EV_MESSAGE, mem 740, 10); (JD_CONN_EV_MESSAGE, mem 710, 20);
                           (JD_CONN_EV_OPEN, NULL, 0)] /\
  rd connecting demo_closed = false /\ sock_inv demo_closed.
Proof.
  assert (star (@sock_step client_env) machine_init demo_connected) as Hst.
  { apply star_step with demo_opened;
      [apply (@step_new client_env (mem 100) 443 0); [lia | vm_compute; reflexivity] |].
    apply star_step with demo_found;
      [apply (@step_resolved client_env (Some 7)); vm_compute; reflexivity |].
    apply star_one. apply (@step_connected client_env 55 ERR_OK 0). vm_compute. reflexivity. }
  split; [vm_compute; reflexivity |]. split; [| split; [vm_compute; reflexivity | split; [vm_compute; reflexivity |]]].
  - apply (@sock_state_invariant client_env busy_client machine_init); [by apply zero_inv | exact Hst].
  - apply (@sock_state_invariant client_env busy_client machine_init); [by apply zero_inv |].
    apply (star_trans _ _ _ _ Hst), star_one.
    apply (@step_recv client_env 55 (Some demo_packet) ERR_OK 0). vm_compute. reflexivity.
Defined.

(** C23: errors close the socket, in this order, whatever the runtime does when it
    is told.  On an open socket the message is formatted first, while the state
    it speaks of is there; then the connection is closed exactly once, aborted
    when it cannot be closed, and detached; the host name is freed and the state
    zeroed; only then is the runtime told the message, the message freed, and the
    runtime told of the close - the message being left out when there was no
    memory for it.  On a closed socket an error is ignored, so nothing is
    reported twice. *)
Theorem sock_error_reports {E : Env} fmt args s :
  (rd connecting s = false -> raise_error (Some (fmt, args)) s = Ret tt s) /\
  (rd connecting s = true ->
   let m := ret_of (tr s) (jd_vsprintf_a fmt args) in
   exists s1 es, raise_error (Some (fmt, args)) s = told_error (as_ptr m) s1 /\
     m_sock s1 = sock_zero /\ tr s1 = es ++ E_ret (jd_vsprintf_a fmt args) m :: tr s /\
     closed es = match rd tcp_pcb s with Some p => [p] | None => [] end /\
     In (E_call (free (ptr_addr (rd hostname s)))) es /\ told es = [] /\
     (forall pcb err, In (E_ret (tcp_close pcb) err) es -> err <> ERR_OK -> In (E_call (tcp_abort pcb)) es) /\
     (forall pcb, rd tcp_pcb s = Some pcb -> attached (tr s1) pcb = false)).
Proof.
  rewrite raise_error_run. unfold error_outcome. split; intros Hc; rewrite Hc; [done |]. cbv zeta.
  set (m := ret_of _ _). set (e := E_ret _ m). set (es := closing (rd tcp_pcb s) (rd hostname s) (e :: tr s)).
  exists (closed_at (emit e s)), es. do 3 (split; [reflexivity |]).
  split; [apply closing_closed |]. split; [by left |]. split; [apply closing_told |].
  split; [intros pcb err; apply closing_aborts |]. intros pcb Hp.
  change (attached (es ++ e :: tr s) pcb = false). unfold es. by rewrite attached_app_closing, decide_True.
Qed.

(** A machine with an open, connected socket. *)
Definition connected_demo : machine :=
  wr ipaddr 7 (wr hostname (Some 90) (wr port_num 443 (wr connecting true (wr connected true
    (wr tcp_pcb (Some 55) machine_init))))).

Lemma sock_error_reports_witness :
  exists s1 es, @raise_error sock_env (Some ("sock error: %d"%string, [-14])) connected_demo =
      @told_error sock_env (Some 1000) s1 /\
     m_sock s1 = sock_zero /\ tr s1 = es ++ E_ret (jd_vsprintf_a "sock error: %d" [-14]) 1000 :: [] /\
     closed es = [55] /\ In (E_call (free (mem 90))) es /\ told es = [] /\
     (forall pcb err, In (E_ret (tcp_close pcb) err) es -> err <> ERR_OK -> In (E_call (tcp_abort pcb)) es) /\
     (forall pcb, Some 55 = Some pcb -> attached (tr s1) pcb = false).
Proof. apply (proj2 (@sock_error_reports sock_env "sock error: %d"%string [-14] connected_demo)). reflexivity. Defined.

(** C37: receiving, whatever the runtime does with a message.  A chain of buffers
    is handed to the runtime segment by segment in order; then the window is
    opened by the total, which the lengths add up to, and the chain is freed,
    last.  A chain of length zero is only freed.  This goes on also when the
    runtime closes the socket at one of the segments.  A missing chain is an error
    of the connection - through NULL when it was closed. *)
Theorem sock_recv_delivers {E : Env} arg pcb err s :
  tcp_client_recv true pcb None err s = returning ERR_OK (error_outcome "recv without buf?" [] s) /\
  tcp_client_recv false pcb None err s = Stop UB s /\
  forall p, Forall (fun q => 0 <= snd q) (segs p) -> tot_len p = sum_len (segs p) -> tot_len p < 65536 ->
    let freed s := emit (E_call (pbuf_free (mem (pb_addr p)))) s in
    (0 < tot_len p -> tcp_client_recv arg pcb (Some p) err s =
       match tells (map message (segs p)) s with
       | Ret _ s1 => Ret ERR_OK (freed (emit (E_call (tcp_recved pcb (tot_len p))) s1))
       | Stop w s1 => Stop w s1
       end) /\
    (tot_len p = 0 -> tcp_client_recv arg pcb (Some p) err s = Ret ERR_OK (freed s)).
Proof.
  split; [| split; [reflexivity |]].
  - unfold tcp_client_recv, deref. unfold bind at 1, ret at 1, bind at 1. rewrite raise_error_run.
    by destruct (error_outcome _ _ _) as [[] |].
  - intros p Hq Hs Hm freed. unfold tcp_client_recv. split; intros Hp.
    + rewrite (proj2 (Z.ltb_lt _ _) Hp). unfold bind at 1 2. rewrite deliver_run by (done || lia).
      destruct (tells _ s) as [[] s1 |]; [| done]. cbn [returning]. rewrite Z.add_0_l, <- Hs.
      unfold JD_ASSERT. by rewrite Z.eqb_refl.
    + by rewrite Hp.
Qed.

(** The runtime that closes at the first message is told the second all the same. *)
Lemma sock_recv_delivers_witness :
  exists s1, @tells client_env [(JD_CONN_EV_MESSAGE, mem 710, 20); (JD_CONN_EV_MESSAGE, mem 740, 10)] connected_demo = Ret tt s1 /\
    rd connecting s1 = false /\
    @tcp_client_recv client_env true 55 (Some demo_packet) 0 connected_demo =
      Ret ERR_OK (emit (E_call (pbuf_free (mem 700))) (emit (E_call (tcp_recved 55 30)) s1)).
Proof.
  eexists. split; [vm_compute; reflexivity |]. split; [vm_compute; reflexivity |].
  destruct (@sock_recv_delivers client_env true 55 0 connected_demo) as (_ & _ & H).
  destruct (H demo_packet) as [H1 _];
    [repeat (constructor; [cbn; lia |]); constructor | reflexivity | reflexivity |].
  rewrite H1 by reflexivity. vm_compute. reflexivity.
Defined.

(** Opening.  A port outside 1 to 65535 is refused with nothing done.
    Otherwise whatever connection was open is closed first, and the lookup of
    the copied name decides: pending, the socket is open and waits; resolved at
    once, it is open with the address stored for the main loop; failed, the
    runtime hears of an error and of the close, and the socket is closed again,
    whatever the runtime opened meanwhile. *)
Theorem sock_new_cases {E : Env} host port s :
  -2147483648 <= port < 2147483648 ->
  (~ 1 <= port <= 65535 -> jd_tcpsock_new host port s = Ret (-100) s) /\
  (1 <= port <= 65535 -> exists s1 h err, asked (as_ptr h) port s1 /\
     tr s1 = E_ret (dns_gethostbyname (ptr_addr (as_ptr h))) err :: E_ret (jd_strdup host) h ::
       closing (rd tcp_pcb s) (rd hostname s) (tr s) ++ tr s /\
     (err = ERR_INPROGRESS -> jd_tcpsock_new host port s = Ret 0 s1) /\
     (err = ERR_OK -> let a := ret_of (tr s1) (dns_result (ptr_addr (as_ptr h))) in
        jd_tcpsock_new host port s =
          Ret 0 (wr host_found_pending true (wr ipaddr a (emit (E_ret (dns_result (ptr_addr (as_ptr h))) a) s1)))) /\
     (err <> ERR_OK -> err <> ERR_INPROGRESS -> jd_tcpsock_new host port s =
        match error_outcome "can't resolve '%s': %d" [h; err] s1 with
        | Ret _ s2 => Ret err (closed_at s2) | Stop w s2 => Stop w s2 end)).
Proof.
  intros Hi. split.
  - intros Hp. unfold jd_tcpsock_new. destruct (_ || _) eqn:Hport; [done |].
    apply orb_false_iff in Hport. destruct Hport as [H0 Hbig].
    destruct (u32_port port Hbig H0 Hi). lia.
  - intros Hp. destruct (new_run host port s Hp) as (s1 & h & err & Ha & Ht & E1). exists s1, h, err.
    split; [done |]. split; [done |]. rewrite E1. split; [by intros -> |]. split; [by intros -> |]. intros Hok Hin.
    rewrite (proj2 (Z.eqb_neq err ERR_INPROGRESS)), (proj2 (Z.eqb_neq err ERR_OK)) by done.
    unfold bind at 1 2. rewrite raise_error_run.
    destruct (error_outcome _ _ _) as [[] s2 |]; [| done]. by rewrite close_run.
Qed.

Lemma sock_new_cases_witness :
  exists s1 h err, asked (as_ptr h) 443 s1 /\
     tr s1 = E_ret (dns_gethostbyname (ptr_addr (as_ptr h))) err :: E_ret (jd_strdup (mem 300)) h ::
       @closing sock_env (Some 55) (Some 90) [] ++ [] /\
     (err = ERR_INPROGRESS -> @jd_tcpsock_new sock_env (mem 300) 443 connected_demo = Ret 0 s1) /\
     (err = ERR_OK -> let a := @ret_of sock_env (tr s1) (dns_result (ptr_addr (as_ptr h))) in
        @jd_tcpsock_new sock_env (mem 300) 443 connected_demo =
          Ret 0 (wr host_found_pending true (wr ipaddr a (emit (E_ret (dns_result (ptr_addr (as_ptr h))) a) s1)))) /\
     (err <> ERR_OK -> err <> ERR_INPROGRESS -> @jd_tcpsock_new sock_env (mem 300) 443 connected_demo =
        match @error_outcome sock_env "can't resolve '%s': %d" [h; err] s1 with
        | Ret _ s2 => Ret err (@closed_at sock_env s2) | Stop w s2 => Stop w s2 end).
Proof.
  apply (proj2 (@sock_new_cases sock_env (mem 300) 443 connected_demo ltac:(lia))). lia.
Defined.

(** An immediate answer is acted on again and again.  While memory and
    network last, every round of the main loop opens one more connection to
    the host, closes none, and leaves the request pending. *)
Theorem sock_process_repeats {E : Env} n s :
  (forall t ty, ret_of t (tcp_new_ip_type ty) <> 0) -> (forall t p b k, ret_of t (tcp_connect p b k) = 0) ->
  rd host_found_pending s = true ->
  exists s', processes n s = Ret tt s' /\ length (opened (tr s')) = (n + length (opened (tr s)))%nat /\
    closed (tr s') = closed (tr s) /\ rd host_found_pending s' = true.
Proof.
  intros Hm Hn. revert s. induction n as [| n IH]; intros s Hp; [by exists s |].
  set (s1 := wr host_found_pending true s).
  destruct (host_found_ok (rd ipaddr s1) s1 Hm Hn) as (ty & p & Hp0 & E1 & _).
  set (s2 := connect_at p 0 (found_at (rd ipaddr s1) ty p s1)) in *.
  destruct (IH s2) as (s' & E2 & Ho & Hc & Hpend); [done |].
  exists s'. split; [| split; [rewrite Ho; cbn; lia | by rewrite Hc]].
  cbn [processes]. unfold jd_tcpsock_process. unfold bind at 1 2, get at 1. rewrite Hp.
  unfold bind at 1, put at 1. fold s1. unfold bind at 1, get at 1. by rewrite E1.
Qed.

Lemma sock_process_repeats_witness :
  let s := wr host_found_pending true (wr connecting true (wr port_num 443 (wr ipaddr 7 machine_init))) in
  exists s', @processes sock_env 3 s = Ret tt s' /\ length (opened (tr s')) = (3 + length (opened (tr s)))%nat /\
    closed (tr s') = closed (tr s) /\ rd host_found_pending s' = true.
Proof.
  apply (@sock_process_repeats sock_env 3
           (wr host_found_pending true (wr connecting true (wr port_num 443 (wr ipaddr 7 machine_init))))); done.
Defined.

(** C40: the resolver's answer is not checked against the state.  An answer
    "no such host" is an access through NULL.  An answer that arrives after the
    socket was closed opens a connection - to port 0 - that belongs to no open
    socket: what goes wrong with it is never reported. *)
Theorem sock_late_answer {E : Env} s :
  host_found None s = Stop UB s /\
  (forall a, (forall t ty, ret_of t (tcp_new_ip_type ty) <> 0) ->
     (forall t p b k, ret_of t (tcp_connect p b k) = 0) -> m_sock s = sock_zero ->
     exists s' p, host_found (Some a) s = Ret tt s' /\ rd tcp_pcb s' = Some p /\ rd connecting s' = false /\
       head (tr s') = Some (E_ret (tcp_connect p a 0) 0) /\
       (forall err, tcp_client_err true err s' = Ret tt s') /\
       (forall err, err <> ERR_OK -> tcp_client_connected true err s' = Ret ERR_OK s')).
Proof.
  split; [done |]. intros a Hm Hn Hz. destruct (host_found_ok a s Hm Hn) as (ty & p & Hp & E1 & _).
  set (s' := connect_at p 0 (found_at a ty p s)) in *. exists s', p. split; [exact E1 |].
  assert (rd connecting s' = false) as Hc by (change (f_connecting (m_sock s) = false); by rewrite Hz).
  split; [change (as_ptr p = Some p); unfold as_ptr; by rewrite (proj2 (Z.eqb_neq p 0)) |].
  split; [exact Hc |]. split.
  { change (Some (E_ret (tcp_connect p a (f_port_num (m_sock s))) 0) = Some (E_ret (tcp_connect p a 0) 0)).
    by rewrite Hz. }
  split.
  - intros err. unfold tcp_client_err. destruct (negb _); [| done].
    unfold deref, bind, ret at 1. by apply raise_error_idle.
  - intros err He. unfold tcp_client_connected. rewrite (proj2 (Z.eqb_neq err ERR_OK)) by done. cbn [negb].
    unfold deref. unfold bind at 1, ret at 1. unfold bind at 1. rewrite raise_error_idle by done. reflexivity.
Qed.

Lemma sock_late_answer_witness :
  exists s' p, @host_found sock_env (Some 7) machine_init = Ret tt s' /\ rd tcp_pcb s' = Some p /\
    rd connecting s' = false /\ head (tr s') = Some (E_ret (tcp_connect p 7 0) 0) /\
    (forall err, @tcp_client_err sock_env true err s' = Ret tt s') /\
    (forall err, err <> ERR_OK -> @tcp_client_connected sock_env true err s' = Ret ERR_OK s').
Proof. apply (proj2 (@sock_late_answer sock_env machine_init) 7); done. Defined.

(** C39: a connection without an owner.  After an immediate answer two rounds of
    the main loop open two connections, and only the second is the socket's:
    closing the socket leaves lwIP with a pointer to the state for the first.  When
    that one completes, the closed socket reads as connected, the runtime is told
    that it is open, and a write goes to a connection at NULL. *)
Theorem sock_leak_revives {E : Env} s :
  (forall t ty, ret_of t (tcp_new_ip_type ty) <> 0 /\ attached t (ret_of t (tcp_new_ip_type ty)) = false) ->
  (forall t p b k, ret_of t (tcp_connect p b k) = 0) -> rd host_found_pending s = true ->
  exists s2 p s3, processes 2 s = Ret tt s2 /\ jd_tcpsock_close s2 = Ret tt s3 /\
    m_sock s3 = sock_zero /\ attached (tr s3) p = true /\
    let s4 := wr connected true (emit (E_call (DMESG "connected" [])) s3) in
    tcp_client_connected (attached (tr s3) p) ERR_OK s3 =
      returning ERR_OK (tells [(JD_CONN_EV_OPEN, NULL, 0)] s4) /\
    rd connected s4 = true /\ rd connecting s4 = false /\ rd tcp_pcb s4 = None /\
    forall buf n, n < 0xffff -> exists v s5 es err, jd_tcpsock_write buf n s4 = Ret v s5 /\
      tr s5 = es ++ E_ret (tcp_write 0 buf n TCP_WRITE_FLAG_COPY) err :: tr s4.
Proof.
  intros Hm Hn Hp. set (s0 := wr host_found_pending true s).
  destruct (host_found_ok (rd ipaddr s0) s0 (fun t ty => proj1 (Hm t ty)) Hn) as (ty & p & _ & E1 & _).
  set (s1 := connect_at p 0 (found_at (rd ipaddr s0) ty p s0)) in *. set (s1' := wr host_found_pending true s1).
  destruct (host_found_ok (rd ipaddr s1') s1' (fun t ty => proj1 (Hm t ty)) Hn) as (ty2 & p2 & Hp2 & E2 & t2 & Et & Ht2).
  set (s2 := connect_at p2 0 (found_at (rd ipaddr s1') ty2 p2 s1')) in *.
  assert (attached (tr s1') p = true) as Ha by (cbn; by rewrite Z.eqb_refl).
  assert (p2 <> p) as Hne.
  { intros ->. pose proof (proj2 (Hm t2 ty2)) as Hf. rewrite <- Et, Ht2 in Hf. congruence. }
  assert (rd tcp_pcb s2 = Some p2) as Hpcb
    by (change (as_ptr p2 = Some p2); unfold as_ptr; by rewrite (proj2 (Z.eqb_neq p2 0))).
  exists s2, p, (closed_at s2). split.
  { cbn [processes]. unfold bind at 1. rewrite process_found by done. cbv zeta. fold s0. rewrite E1.
    unfold bind at 1. rewrite process_found by done. cbv zeta. fold s1'. by rewrite E2. }
  split; [apply close_run |]. split; [reflexivity |].
  assert (attached (tr (closed_at s2)) p = true) as Hp1.
  { change (attached (closing (rd tcp_pcb s2) (rd hostname s2) (tr s2) ++ tr s2) p = true).
    rewrite attached_app_closing, Hpcb, decide_False by congruence.
    change ((if p2 =? p then true else attached (tr s1') p) = true). by rewrite (proj2 (Z.eqb_neq p2 p)). }
  split; [exact Hp1 |]. intros s4. rewrite Hp1. split; [| do 3 (split; [reflexivity |]); intros buf n Hl; by apply write_unconnected].
  transitivity ((on_event JD_CONN_EV_OPEN NULL 0 ;; ret ERR_OK) s4); [reflexivity |].
  unfold bind. rewrite on_event_tells. by destruct (tells _ s4) as [[] |].
Qed.

(** lwIP with a heap that hands out what is not in use. *)
Definition fresh (t : trace) : Z :=
  1 + foldr (fun e n => match e with E_call (tcp_arg p _) => Z.max p n | _ => n end) 0 t.
Definition leak_env : Env :=
  ref_env 0 (fun _ _ => None) (fun t c => match c with tcp_new_ip_type _ => fresh t | _ => 0 end) (fun _ _ => []).

Lemma fresh_free t : 0 < fresh t /\ forall p, fresh t <= p -> attached t p = false.
Proof.
  unfold fresh. induction t as [| e t [IH0 IH]]; [by split |]. cbn [foldr].
  destruct e as [| | c | | | | |]; try by split. destruct c; try by split. cbn [attached].
  split; [lia |]. intros q Hq. rewrite (proj2 (Z.eqb_neq _ _)) by lia. apply IH. lia.
Qed.

Definition resolved_demo : machine :=
  demo_after (@jd_tcpsock_new leak_env (mem 100) 443) machine_init.

Lemma sock_leak_revives_witness :
  exists s2 p s3, @processes leak_env 2 resolved_demo = Ret tt s2 /\ @jd_tcpsock_close leak_env s2 = Ret tt s3 /\
    m_sock s3 = sock_zero /\ attached (tr s3) p = true /\
    let s4 := wr connected true (emit (E_call (DMESG "connected" [])) s3) in
    @tcp_client_connected leak_env (attached (tr s3) p) ERR_OK s3 =
      returning ERR_OK (@tells leak_env [(JD_CONN_EV_OPEN, NULL, 0)] s4) /\
    rd connected s4 = true /\ rd connecting s4 = false /\ rd tcp_pcb s4 = None /\
    forall buf n, n < 0xffff -> exists v s5 es err, @jd_tcpsock_write leak_env buf n s4 = Ret v s5 /\
      tr s5 = es ++ E_ret (tcp_write 0 buf n TCP_WRITE_FLAG_COPY) err :: tr s4.
Proof.
  apply (@sock_leak_revives leak_env resolved_demo); [| reflexivity | vm_compute; reflexivity].
  intros t ty. change (fresh t <> 0 /\ attached t (fresh t) = false). destruct (fresh_free t) as [H0 H].
  split; [lia | by apply H].
Defined.
