(* ===== verification/SockWrite.v ===== *)
(** * SockWrite: writing to the socket, and the limits of [lwipopts.h]

    [jd_tcpsock_write] of [lwip_sock.c] on every branch, and what the sizes
    that [lwipopts.h] chooses for lwIP's buffers mean for it. *)

From S2P Require Import Prelude Events Machine RefEnv Alloc LwipSock.

(** ** Definitions *)

(** *** [lwipopts.h] *)

Definition NO_SYS : Z := 1.
(** Defined by neither [CMakeLists.txt]: the build links [pico_cyw43_arch] with
    a header of its own. *)
Definition PICO_CYW43_ARCH_POLL : bool := false.
Definition MEM_LIBC_MALLOC : Z := if PICO_CYW43_ARCH_POLL then 1 else 0.
Definition MEM_ALIGNMENT : Z := 4.
Definition MEM_SIZE : Z := 4000.
Definition MEMP_NUM_TCP_SEG : Z := 32.
Definition PBUF_POOL_SIZE : Z := 24.
Definition TCP_MSS : Z := 1460.
Definition TCP_WND : Z := 8 * TCP_MSS.
Definition TCP_SND_BUF : Z := 8 * TCP_MSS.
Definition TCP_SND_QUEUELEN : Z := (4 * TCP_SND_BUF + (TCP_MSS - 1)) / TCP_MSS.

(** *** lwIP's documented limits *)

Definition ERR_MEM : Z := -1.

(** What one [tcp_write] can take: the send buffer of a connection, and, since
    the data is copied, lwIP's own heap. *)
Definition write_limit : Z := if MEM_LIBC_MALLOC =? 0 then Z.min TCP_SND_BUF MEM_SIZE else TCP_SND_BUF.

(** [tcp_write] fails with [ERR_MEM] when the data exceeds the send buffer or
    cannot be copied. *)
Class LwipTcp {E : Env} : Prop :=
  tcp_write_mem t p buf n : write_limit < n -> ret_of t (tcp_write p buf n TCP_WRITE_FLAG_COPY) = ERR_MEM.

(** ** Lemmas *)

(** lwIP checks these when it starts: a window and a send buffer of at least two
    segments, a queue long enough for the send buffer and no longer than the
    segments there are, sizes that fit its 16-bit fields. *)
Lemma options_sane :
  NO_SYS = 1 /\ 2 * TCP_MSS <= TCP_WND <= 65535 /\ 2 * TCP_MSS <= TCP_SND_BUF <= 65535 /\
  2 * (TCP_SND_BUF / TCP_MSS) <= TCP_SND_QUEUELEN <= MEMP_NUM_TCP_SEG /\
  TCP_WND <= PBUF_POOL_SIZE * TCP_MSS /\ MEM_SIZE mod MEM_ALIGNMENT = 0.
Proof. vm_compute. intuition discriminate. Qed.

(** ** The theorem *)

(** C24: writing, on every branch.  A socket that is not connected refuses with -10
    and nothing else happens; 65535 bytes or more are a panic.  Otherwise the
    bytes are handed to lwIP to be copied and pushed out at once, and the socket
    stays as it was; when either call fails the error is raised - the connection
    closed, then the runtime told - and the code of lwIP returned, whatever the
    runtime does.  In particular, with the buffers of [lwipopts.h] every write of
    more than 4000 bytes ends that way. *)
Theorem sock_write_cases {E : Env} buf n s :
  (rd connected s = false -> jd_tcpsock_write buf n s = Ret (-10) s) /\
  (rd connected s = true -> 0xffff <= n -> jd_tcpsock_write buf n s = Stop Panic s) /\
  (rd connected s = true -> n < 0xffff ->
   let p := pcb_arg (rd tcp_pcb s) in
   let err := ret_of (tr s) (tcp_write p buf n TCP_WRITE_FLAG_COPY) in
   let s1 := emit (E_ret (tcp_write p buf n TCP_WRITE_FLAG_COPY) err) s in
   let flush := ret_of (tr s1) (tcp_output p) in
   let s2 := emit (E_ret (tcp_output p) flush) s1 in
   (err <> 0 -> jd_tcpsock_write buf n s = returning err (error_outcome "write error: %d" [err] s1)) /\
   (err = 0 -> flush = 0 -> jd_tcpsock_write buf n s = Ret 0 s2) /\
   (err = 0 -> flush <> 0 ->
      jd_tcpsock_write buf n s = returning flush (error_outcome "flush error: %d" [flush] s2)) /\
   (LwipTcp -> 4000 < n ->
      jd_tcpsock_write buf n s = returning ERR_MEM (error_outcome "write error: %d" [ERR_MEM] s1))).
Proof.
  split; [| split].
  - intros Hd. unfold jd_tcpsock_write, bind, get. by rewrite Hd.
  - intros Hd Hn. unfold jd_tcpsock_write, bind, get. rewrite Hd. cbn [negb].
    by rewrite (proj2 (Z.ltb_ge n 0xffff)).
  - intros Hd Hn p err s1 flush s2.
    assert (jd_tcpsock_write buf n s =
      (if negb (err =? 0) then raise_error (Some ("write error: %d"%string, [err])) ;; ret err
       else let! p := get tcp_pcb in
            let! err := sdkv (tcp_output (pcb_arg p)) in
            (when negb (err =? 0) do raise_error (Some ("flush error: %d"%string, [err]))) ;; ret err) s1) as Hw.
    { unfold jd_tcpsock_write. unfold bind at 1, get at 1. rewrite Hd. cbn [negb].
      rewrite (proj2 (Z.ltb_lt n 0xffff)) by done. reflexivity. }
    assert (err <> 0 -> jd_tcpsock_write buf n s = returning err (error_outcome "write error: %d" [err] s1)) as Hfail.
    { intros He. rewrite Hw, (proj2 (Z.eqb_neq err 0)) by done. cbn [negb]. unfold bind. rewrite raise_error_run.
      by destruct (error_outcome _ _ s1) as [[] |]. }
    assert (err = 0 -> jd_tcpsock_write buf n s =
      ((when negb (flush =? 0) do raise_error (Some ("flush error: %d"%string, [flush]))) ;; ret flush) s2) as Hok
      by (intros He; rewrite Hw, He; reflexivity).
    split; [exact Hfail |]. split; [intros He Hf; rewrite Hok, Hf by done; unfold s2; by rewrite Hf |]. split.
    + intros He Hf. rewrite Hok, (proj2 (Z.eqb_neq flush 0)) by done. cbn [negb]. unfold bind. rewrite raise_error_run.
      by destruct (error_outcome _ _ s2) as [[] |].
    + intros L Hbig. assert (err = ERR_MEM) as Hm by (apply L; exact Hbig). rewrite <- Hm. apply Hfail. by rewrite Hm.
Qed.

(** lwIP with room for 4000 bytes, and a runtime that opens a new connection
    when it hears of an error. *)
Definition write_env : Env :=
  let e := ref_env 0 (fun _ _ => None)
    (fun _ c => match c with
                | tcp_write _ _ n _ => if write_limit <? n then ERR_MEM else 0
                | jd_vsprintf_a _ _ => 1000 | dns_gethostbyname _ => ERR_INPROGRESS
                | _ => 0 end)
    (fun _ _ => []) in {|
  rd_reg := @rd_reg e; ret_of := @ret_of e; bytes_of := @bytes_of e; xip := @xip e; fuel := @fuel e;
  JD_MIN_MAX_SLEEP := @JD_MIN_MAX_SLEEP e; jd_max_sleep := @jd_max_sleep e;
  jd_line_falling := ret tt; jd_rx_completed _ := ret tt; jd_tx_completed _ := ret tt; client_cb _ := ret tt;
  reenter c := match c with
               | jd_tcpsock_on_event JD_CONN_EV_ERROR _ _ => @jd_tcpsock_new e (mem 8) 80 ;; ret tt
               | _ => ret tt
               end
|}.
#[export] Instance write_lwip : @LwipTcp write_env.
Proof. intros t p buf n Hn. change ((if write_limit <? n then ERR_MEM else 0) = ERR_MEM). by rewrite (proj2 (Z.ltb_lt write_limit n)). Qed.

(** A write of 5000 bytes: error, the new connection, close. *)
Lemma sock_write_cases_witness :
  exists s', @jd_tcpsock_write write_env (mem 64) 5000 connected_demo = Ret ERR_MEM s' /\
    told (tr s') = [(JD_CONN_EV_CLOSE, NULL, 0); (JD_CONN_EV_ERROR, mem 1000, 0)] /\
    closed (tr s') = [55] /\ rd connecting s' = true /\ rd port_num s' = 80.
Proof.
  eexists. split.
  - destruct (proj2 (proj2 (@sock_write_cases write_env (mem 64) 5000 connected_demo)) eq_refl ltac:(lia))
      as (_ & _ & _ & H).
    rewrite (H write_lwip ltac:(lia)). vm_compute. reflexivity.
  - vm_compute. by split_and!.
Defined.
