(* ===== verification/Platform.v ===== *)
(** * Platform: start-up, random numbers, the LED and the panic handler of [platform.c]

    The interrupt lock and the heap entry points of the same file are in [Irq]
    and [Alloc].  Randomness comes one bit at a time from the ring oscillator;
    the LED is a pin of the chip or, on a Pico W, one of the radio's. *)

From S2P Require Import Prelude Events Machine Frame RefEnv Irq Dma Pins Tim Uart Adc Usb Wifi.

(** ** Definitions *)

(** CMSIS: the exception number in ICSR. *)
Definition SCB_ICSR_VECTACTIVE_Msk : Z := 0x1ff.

Definition device_id_ : var Z := {|
  rd s := f_device_id (m_platform s);
  wr v := upd_platform (fun x => {| f_device_id := v; f_irq_disabled := f_irq_disabled x; f_cpu_mhz := f_cpu_mhz x;
      f_is_pico_w := f_is_pico_w x; f_use_pico_led := f_use_pico_led x |}) |}.
Definition cpu_mhz : var Z := {|
  rd s := f_cpu_mhz (m_platform s);
  wr v := upd_platform (fun x => {| f_device_id := f_device_id x; f_irq_disabled := f_irq_disabled x; f_cpu_mhz := v;
      f_is_pico_w := f_is_pico_w x; f_use_pico_led := f_use_pico_led x |}) |}.
Definition is_pico_w : var bool := {|
  rd s := f_is_pico_w (m_platform s);
  wr v := upd_platform (fun x => {| f_device_id := f_device_id x; f_irq_disabled := f_irq_disabled x;
      f_cpu_mhz := f_cpu_mhz x; f_is_pico_w := v; f_use_pico_led := f_use_pico_led x |}) |}.
Definition use_pico_led : var Z := {|
  rd s := f_use_pico_led (m_platform s);
  wr v := upd_platform (fun x => {| f_device_id := f_device_id x; f_irq_disabled := f_irq_disabled x;
      f_cpu_mhz := f_cpu_mhz x; f_is_pico_w := f_is_pico_w x; f_use_pico_led := v |}) |}.

(** The bytes of a little-endian word, and the word of some bytes. *)
Fixpoint le_bytes (n : nat) (v : Z) : list Z :=
  match n with O => [] | S n => u8 v :: le_bytes n (v / 256) end.
Fixpoint le_word (bs : list Z) : Z :=
  match bs with [] => 0 | b :: bs => b + 256 * le_word bs end.

Section Operations.
(** [JD_WIFI] is set by the build for boards with a radio. *)
Context {E : Env} (JD_WIFI : bool).

(** *** Random numbers *)

(** [buf[i]]: [j] more bits are shifted into [b]. *)
Fixpoint random_byte (j : nat) (b : Z) : M Z :=
  match j with
  | O => ret b
  | S j =>
    let b := u8 (Z.shiftl b 1) in
    let! r := load ROSC_RANDOMBIT in
    random_byte j (if z2b r then Z.lor b 1 else b)
  end.

Fixpoint random_bytes (n : nat) : M (list Z) :=
  match n with
  | O => ret []
  | S n =>
    let! b := random_byte 8 0 in
    let! bs := random_bytes n in
    ret (b :: bs)
  end.

Definition hw_random : M Z :=
  let! buf := random_bytes 16 in
  let! h := sdkv (jd_hash_fnv1a buf) in
  ret (u32 h).

(** One round of the loop of [jd_crypto_get_random], at index [i]. *)
Definition crypto_round (size : Z) (st : Z * list Z) : M (Z * list Z + list Z) :=
  let '(i, buf) := st in
  if i <? size then
    let! v := hw_random in
    let n := if u32 (size - i) <? 4 then u32 (size - i) else 4 in
    let! buf := write_at buf (Z.to_nat i) (take (Z.to_nat n) (le_bytes 4 v)) in
    ret (inl (u32 (i + 4), buf))
  else ret (inr buf).

(** [buf] is the caller's memory; the result is its contents afterwards. *)
Definition jd_crypto_get_random (buf : list Z) (size : Z) : M (list Z) :=
  loop (S (Z.to_nat size)) (crypto_round size) (0, buf).

(** *** The board and its LED *)

Definition pico_w_init : M unit :=
  pin_setup_analog_input 29 ;;
  let! v := adc_read_pin 29 in
  (if v <? 3264 then is_pico_w <~ true
   else
     (pin_set 25 0 ;;
      pin_setup_output 25 ;;
      let! v := adc_read_pin 29 in
      (if v <? 3264 then is_pico_w <~ true else is_pico_w <~ false) ;;
      pin_setup_analog_input 25)) ;;
  let! w := get is_pico_w in
  sdk (DMESG (if w : bool then "board is: Pico W" else "board is: Pico") []).

Definition jd_wifi_available : M bool := get is_pico_w.

Definition jd_rgbext_init (type pin : Z) : M unit :=
  when type =? 100 do
    (use_pico_led <~ u8 pin ;;
     let! w := get is_pico_w in
     when negb w do
       (let! led := get use_pico_led in
        pin_setup_output led)).

Definition jd_rgbext_set (r g b : Z) : M unit :=
  let! led := get use_pico_led in
  if led =? 0 then ret tt
  else
    let! w := get is_pico_w in
    if w : bool then when JD_WIFI do pico_w_set_led r g b
    else pin_set led (bool_to_bit ((0 <? r) || (0 <? g) || (0 <? b))).

(** *** Start-up *)

(** The [DMESG] of the code formats the random word; [memcpy] of the eight bytes
    of the board id into a [uint64_t]. *)
Definition platform_init : M unit :=
  sdk (DMESG "start!" []) ;;
  let! led := sdkv (dcfg_get_i32 "led.type" 0) in
  (when led =? 100 do pico_w_init) ;;
  let! r := hw_random in
  sdk (DMESG "rand %x" [r]) ;;
  sdk (jd_seed_random r) ;;
  let! id := sdkb pico_get_unique_board_id in
  JD_ASSERT (8 =? 8) ;;
  let! id := read_at id 8 in
  device_id_ <~ le_word id ;;
  let! hz := sdkv (clock_get_hz clk_sys) in
  cpu_mhz <~ u8 (u32 hz / 1000000) ;;
  tim_init ;;
  uart_init_ ;;
  usb_init.

Definition hw_device_id : M Z := get device_id_.

(** *** The end *)

(** The reset does not return. *)
Definition target_reset : M unit := sdk NVIC_SystemReset ;; halt Reset.

(** The LED of a build: the red pin of an RGB LED ([PIN_LED_R]), one LED between two
    pins ([PIN_LED], [PIN_LED_GND]), or none, as for the boards of the
    repository. *)
Inductive panic_led := led_none | led_rgb (pin_r : Z) | led_pair (pin gnd : Z).
Definition led_panic_blink (led : panic_led) : M unit :=
  match led with
  | led_rgb pin_r =>
    pin_setup_output pin_r ;;
    pin_set pin_r 0 ;;
    target_wait_us 70000 ;;
    pin_set pin_r 1 ;;
    target_wait_us 70000
  | led_pair pin gnd =>
    pin_setup_output pin ;;
    pin_setup_output gnd ;;
    pin_set gnd 0 ;;
    pin_set pin 1 ;;
    target_wait_us 70000 ;;
    pin_set pin 0 ;;
    target_wait_us 70000
  | led_none => target_wait_us 140000
  end.

(** Without [JD_INFINITE_PANIC]. *)
Definition hw_panic (led : panic_led) : M unit :=
  sdk (DMESG "HW PANIC!" []) ;;
  target_disable_irq ;;
  for_ 60 0 (fun _ => led_panic_blink led) ;;
  target_reset.

Definition reboot_to_uf2 : M unit := sdk (reset_usb_boot 0 0) ;; halt Reset.

Definition target_in_irq : M Z :=
  let! v := load SCB_ICSR in
  ret (bool_to_bit (z2b (Z.land v SCB_ICSR_VECTACTIVE_Msk))).

Definition __libc_init_array : M unit := ret tt.
End Operations.

(** ** Lemmas *)

(** *** Random bits *)

(** The bits of a byte, most significant first. *)
Definition byte_bits (b : Z) : list bool := map (fun i => Z.testbit b i) [7; 6; 5; 4; 3; 2; 1; 0].

(** A byte whose bits are [bs], most significant first. *)
Definition bits_word (bs : list bool) (b : Z) : Z :=
  fold_left (fun b x => if x : bool then Z.lor (u8 (Z.shiftl b 1)) 1 else u8 (Z.shiftl b 1)) bs b.

(** The loads of the oscillator that returned [vs]. *)
Definition sampled (vs : list Z) : trace := rev (map (E_read ROSC_RANDOMBIT) vs).

Section Random.
Context {E : Env}.

Lemma sampled_app u v : sampled (u ++ v) = sampled v ++ sampled u.
Proof. unfold sampled. by rewrite map_app, rev_app_distr. Qed.

Lemma random_byte_run j b s :
  exists vs, length vs = j /\
    random_byte j b s = Ret (bits_word (map z2b vs) b) (upd_tr (app (sampled vs)) s).
Proof.
  revert b s. induction j as [| j IH]; intros b s; cbn [random_byte]; [exists []; by destruct s |].
  unfold bind at 1, load at 1. set (v := rd_reg _ _). clearbody v.
  destruct (IH (if z2b v then Z.lor (u8 (Z.shiftl b 1)) 1 else u8 (Z.shiftl b 1)) (emit (E_read ROSC_RANDOMBIT v) s))
    as (vs & Hl & E1).
  exists (v :: vs). split; [cbn; by rewrite Hl |]. rewrite E1. f_equal.
  unfold sampled, upd_tr, emit. cbn. by rewrite <- app_assoc.
Qed.

Lemma byte_roundtrip bs : length bs = 8%nat -> byte_bits (bits_word bs 0) = bs /\ 0 <= bits_word bs 0 < 256.
Proof.
  intros Hl. do 8 (destruct bs as [| ? bs]; [done |]). destruct bs; [| done].
  repeat match goal with b : bool |- _ => destruct b end; split; reflexivity || (vm_compute; by split).
Qed.

Lemma random_bytes_run n s :
  exists bs vs, random_bytes n s = Ret bs (upd_tr (app (sampled vs)) s) /\
    length bs = n /\ length vs = (8 * n)%nat /\ Forall (fun b => 0 <= b < 256) bs /\
    concat (map byte_bits bs) = map z2b vs.
Proof.
  revert s. induction n as [| n IH]; intros s; [exists [], []; by destruct s |].
  cbn [random_bytes]. unfold bind at 1. destruct (random_byte_run 8 0 s) as (vs & Hl & E1). rewrite E1.
  destruct (IH (upd_tr (app (sampled vs)) s)) as (bs & ws & E2 & H1 & H2 & H3 & H4).
  unfold bind at 1. rewrite E2. unfold ret.
  destruct (byte_roundtrip (map z2b vs)) as [Hb Hr]; [by rewrite length_map |].
  exists (bits_word (map z2b vs) 0 :: bs), (vs ++ ws). rewrite sampled_app.
  split; [f_equal; unfold upd_tr; cbn; by rewrite <- app_assoc |].
  cbn [length map concat]. rewrite H1, H4, Hb, map_app, length_app, Hl, H2. split_and!; try done; [lia |].
  by constructor.
Qed.

(** One call: 128 bits are sampled and hashed. *)
Lemma hw_random_run s :
  exists bs vs h, hw_random s = Ret (u32 h) (upd_tr (app (E_ret (jd_hash_fnv1a bs) h :: sampled vs)) s) /\
    length bs = 16%nat /\ length vs = 128%nat /\ Forall (fun b => 0 <= b < 256) bs /\
    concat (map byte_bits bs) = map z2b vs.
Proof.
  destruct (random_bytes_run 16 s) as (bs & vs & E1 & H). exists bs, vs.
  eexists. split; [| exact H]. unfold hw_random, bind at 1. rewrite E1. reflexivity.
Qed.

(** *** Filling a buffer *)

Lemma length_le_bytes n v : length (le_bytes n v) = n.
Proof. revert v. induction n; intros; cbn; auto. Qed.

Lemma write_at_run {A} (l : list A) off bs s : (off + length bs <= length l)%nat ->
  write_at l off bs s = Ret (take off l ++ bs ++ drop (off + length bs) l) s.
Proof. intros H. unfold write_at. by rewrite (proj2 (Nat.leb_le _ _)). Qed.

Lemma u32_small_sub size i : 0 <= i < size -> size < 4294967296 -> u32 (size - i) = size - i.
Proof. intros. apply u32_id. lia. Qed.

Lemma write_at_mid (pre bs rest : list Z) s : (length bs <= length rest)%nat ->
  write_at (pre ++ rest) (length pre) bs s = Ret ((pre ++ bs) ++ drop (length bs) rest) s.
Proof.
  intros H. rewrite write_at_run by (rewrite length_app; lia).
  rewrite take_app_length, <- app_assoc. do 3 f_equal. by rewrite drop_app_add.
Qed.

(** From index [length pre] on: the rest of the buffer up to [size] becomes the
    words the generator returns, little-endian, the last one cut off. *)
Lemma crypto_round_run size pre rest s :
  Z.of_nat (length pre) < size -> size <= 4294967292 -> (Z.to_nat size <= length pre + length rest)%nat ->
  let n := Nat.min 4 (Z.to_nat size - length pre) in
  exists v es, crypto_round size (Z.of_nat (length pre), pre ++ rest) s =
    Ret (inl (Z.of_nat (length pre) + 4, (pre ++ take n (le_bytes 4 v)) ++ drop n rest)) (upd_tr (app es) s).
Proof.
  intros Hlt Hs Hl n. unfold crypto_round. rewrite (proj2 (Z.ltb_lt _ _)) by done.
  destruct (hw_random_run s) as (bs & vs & h & E1 & _).
  exists (u32 h). eexists. unfold bind at 1. rewrite E1, u32_id by lia.
  assert (Z.to_nat (if size - Z.of_nat (length pre) <? 4 then size - Z.of_nat (length pre) else 4) = n) as ->
    by (unfold n; destruct (Z.ltb_spec (size - Z.of_nat (length pre)) 4); lia).
  assert (length (take n (le_bytes 4 (u32 h))) = n) as Hn by (rewrite length_take, length_le_bytes; lia).
  unfold bind at 1. rewrite Nat2Z.id, write_at_mid by lia. rewrite Hn, u32_id by lia. reflexivity.
Qed.

Lemma crypto_loop size f pre rest s :
  Z.of_nat (length pre) <= size -> size <= 4294967292 -> (Z.to_nat size <= length pre + length rest)%nat ->
  (Z.to_nat size - length pre < f)%nat ->
  exists vs es, loop f (crypto_round size) (Z.of_nat (length pre), pre ++ rest) s =
      Ret (pre ++ take (Z.to_nat size - length pre) (concat (map (le_bytes 4) vs))
           ++ drop (Z.to_nat size - length pre) rest) (upd_tr (app es) s) /\
    Z.of_nat (length vs) = (size - Z.of_nat (length pre) + 3) / 4.
Proof.
  intros Hp Hs. revert pre rest s Hp. induction f as [| f IH]; intros pre rest s Hp Hl Hf; [lia |].
  destruct (Z.eq_dec (Z.of_nat (length pre)) size) as [Heq | Hne].
  { exists [], []. cbn [loop]. unfold crypto_round. rewrite (proj2 (Z.ltb_ge _ _)) by lia.
    replace (Z.to_nat size - length pre)%nat with 0%nat by lia.
    split; [by destruct s | cbn [length]; Z.div_mod_to_equations; lia]. }
  destruct (crypto_round_run size pre rest s) as (v & es & E1); [lia | done | done |].
  cbv zeta in E1. set (w := le_bytes 4 v) in E1. assert (length w = 4%nat) as Hw by apply length_le_bytes.
  cbn [loop]. unfold bind at 1. rewrite E1. set (s1 := upd_tr (app es) s).
  set (k := (Z.to_nat size - length pre)%nat) in *.
  destruct (Nat.le_gt_cases k 4) as [Hlast | Hmore].
  - (* the last round: the loop ends *)
    rewrite Nat.min_r by lia. exists [v], es. cbn [map concat]. fold w. rewrite app_nil_r.
    split; [| cbn [length]; unfold k in *; Z.div_mod_to_equations; lia].
    destruct f as [| f]; [lia |]. cbn [loop]. unfold bind at 1, crypto_round at 1.
    rewrite (proj2 (Z.ltb_ge _ _)) by lia. unfold ret. by rewrite <- app_assoc.
  - rewrite Nat.min_l by lia. rewrite (take_ge w) by lia.
    destruct (IH (pre ++ w) (drop 4 rest) s1) as (vs & es' & E2 & Hv);
      rewrite ?length_app, ?length_drop, ?Hw; [lia | lia | lia |].
    rewrite length_app, Hw in E2, Hv.
    replace (Z.of_nat (length pre + 4)) with (Z.of_nat (length pre) + 4) in E2 by lia.
    exists (v :: vs), (es' ++ es). rewrite E2. cbn [map concat length]. fold w.
    split; [| unfold k in *; Z.div_mod_to_equations; lia].
    replace (Z.to_nat size - (length pre + 4))%nat with (k - 4)%nat by lia.
    rewrite drop_drop, <- app_assoc. f_equal; [| unfold s1, upd_tr; cbn; by rewrite <- app_assoc].
    f_equal. rewrite (take_app_ge w) by lia. rewrite Hw, <- app_assoc. do 2 f_equal. f_equal. lia.
Qed.
End Random.

(** *** Panic *)

Section Panic.
Context {E : Env} (now64 : trace -> Z) {CK : ClockOk now64}.

(** [m] returns, adds to the trace and takes at least [n] us. *)
Definition takes (n : Z) (m : M unit) : Prop := forall s, exists es,
  m s = Ret tt (upd_tr (app es) s) /\ now64 (tr s) + n <= now64 (es ++ tr s).
Lemma takes_bind n n' m m' : takes n m -> takes n' m' -> takes (n + n') (m ;; m').
Proof.
  intros Hm Hm' s. destruct (Hm s) as (es & E1 & H1). destruct (Hm' (upd_tr (app es) s)) as (es' & E2 & H2).
  vsimp in H2. exists (es' ++ es). unfold bind. rewrite E1, E2. rewrite <- app_assoc.
  split; [f_equal; unfold upd_tr; cbn; by rewrite <- app_assoc | lia].
Qed.
Lemma takes_quick m : (forall s, exists es, m s = Ret tt (upd_tr (app es) s)) -> takes 0 m.
Proof. intros Hm s. destruct (Hm s) as (es & E1). exists es. split; [done |]. pose proof (clk_mono_app now64 es (tr s)). lia. Qed.
Lemma takes_set p v : 0 <= p < 30 -> takes 0 (pin_set p v).
Proof. intros Hp. apply takes_quick. intros s. exists [E_call (gpio_put p v)]. unfold pin_set. by rewrite valid_pin. Qed.
Lemma takes_output p : 0 <= p < 30 -> takes 0 (pin_setup_output p).
Proof. intros Hp. apply takes_quick. intros s. unfold pin_setup_output, gpio_set_function_. rewrite !valid_pin by done. by eexists [_; _; _]. Qed.

Definition led_ok (led : panic_led) : Prop :=
  match led with led_none => True | led_rgb r => 0 <= r < 30 | led_pair p g => 0 <= p < 30 /\ 0 <= g < 30 end.

Lemma takes_wait k n : progress now64 k -> (k * Z.to_nat 140000 + 2 <= fuel)%nat -> 0 <= n <= 140000 -> takes n (target_wait_us n).
Proof.
  intros Hk Hf Hn s. destruct (target_wait_us_run now64 k n s Hk) as (es & E1 & H1); [| lia | unfold TICK; lia | by exists es].
  assert (k * Z.to_nat n <= k * Z.to_nat 140000)%nat by (apply Nat.mul_le_mono_l; lia). lia.
Qed.
Lemma takes_blink k led : progress now64 k -> (k * Z.to_nat 140000 + 2 <= fuel)%nat -> led_ok led ->
  takes 140000 (led_panic_blink led).
Proof.
  intros Hk Hf Hl. pose proof (fun n => takes_wait k n Hk Hf) as Hw.
  destruct led as [| r | p g]; cbn [led_panic_blink led_ok] in *.
  - apply Hw. lia.
  - change 140000 with (0 + (0 + (70000 + (0 + 70000)))).
    repeat first [apply takes_bind | by apply takes_output | by apply takes_set | apply Hw; lia].
  - destruct Hl. change 140000 with (0 + (0 + (0 + (0 + (70000 + (0 + 70000)))))).
    repeat first [apply takes_bind | by apply takes_output | by apply takes_set | apply Hw; lia].
Qed.

Lemma blinks_run n from m : takes 140000 m -> takes (140000 * Z.of_nat n) (for_ n from (fun _ => m)).
Proof.
  intros Hm. revert from. induction n as [| n IH]; intros from; cbn [for_].
  - intros s. exists []. split; [by destruct s | cbn [app]; lia].
  - replace (140000 * Z.of_nat (S n)) with (140000 + 140000 * Z.of_nat n) by lia. by apply takes_bind.
Qed.
End Panic.

(** *** The LED *)

(** The LED of the radio as it was last set. *)
Fixpoint radio_led (t : trace) : bool :=
  match t with
  | [] => false
  | E_call (cyw43_arch_gpio_put pin b) :: t => if pin =? CYW43_WL_GPIO_LED_PIN then b else radio_led t
  | _ :: t => radio_led t
  end.

(** *** Recognising a Pico W *)

Definition analog_events (p : Z) : trace :=
  [E_call (hw_clear_bits (PADS_IO p) PADS_IE_BITS); E_call (gpio_set_dir p 0);
   E_write (IO_CTRL p) GPIO_FUNC_NULL;
   E_call (hw_write_masked (PADS_IO p) PADS_IE_BITS (Z.lor PADS_IE_BITS PADS_OD_BITS));
   E_call (hw_write_masked (PADS_IO p) 0 (Z.lor (bit PADS_PUE_LSB) (bit PADS_PDE_LSB)))].

Section Detect.
Context {E : Env}.

Lemma analog_input_run p s : is_no_pin p = false ->
  pin_setup_analog_input p s = Ret tt (upd_tr (app (analog_events p)) s).
Proof.
  intros Hp. unfold pin_setup_analog_input, pin_set_pull. rewrite Hp. reflexivity.
Qed.

(** The sample of pin 29 in 16 bits; the converter may be initialised first. *)
Lemma read_29_run s :
  exists v es, (es = [] \/ es = [E_call adc_init]) /\
    adc_read_pin 29 s = Ret (u16 (Z.shiftl (u16 v) 4))
      (wr adc_inited true (upd_tr (app (E_ret adc_read v :: E_call (adc_select_input 3) :: es)) s)).
Proof.
  destruct (init_run s) as (es & E1 & Hes). unfold adc_read_pin. unfold bind at 1. rewrite E1.
  eexists _, es. split; [destruct (rd adc_inited s); auto | reflexivity].
Qed.

(** Reading it again, the converter initialised. *)
Definition read_again (s : machine) : Prop :=
  exists v, adc_read_pin 29 s = Ret (u16 (Z.shiftl (u16 v) 4))
    (upd_tr (app [E_ret adc_read v; E_call (adc_select_input 3)]) (wr adc_inited true s)).
End Detect.

(** *** Start-up leaves the serial port alone until it initialises it *)

Section Boot.
Context {E : Env}.

Lemma quiet_other {A} pin (x : var A) v :
  (forall s, tr (wr x v s) = tr s) -> (forall s, m_uart (wr x v s) = m_uart s) ->
  (forall s, m_pins (wr x v s) = m_pins s) -> (forall s, m_dma (wr x v s) = m_dma s) ->
  quiet pin (x <~ v).
Proof.
  intros H1 H2 H3 H4 h u p s (Hh & Hu & Hp & Hd). unfold wpE, put, at_line. rewrite H1, H2, H3.
  split_and!; try done. unfold rd in *. cbn in *. by rewrite H4.
Qed.

Lemma quiet_analog pin p : quiet pin (pin_setup_analog_input p).
Proof.
  unfold pin_setup_analog_input, gpio_set_input_enabled_, gpio_set_function_. quiet.
Qed.
Lemma total_analog p : total (pin_setup_analog_input p).
Proof. unfold pin_setup_analog_input, gpio_set_input_enabled_. total. Qed.

Lemma quiet_adc pin p : quiet pin (adc_read_pin p).
Proof.
  unfold adc_read_pin, init. quiet.
Qed.
Lemma total_adc p : total (adc_read_pin p).
Proof. unfold adc_read_pin, init. total. Qed.

Lemma quiet_random_byte pin j b : quiet pin (random_byte j b).
Proof. revert b. induction j as [| j IH]; intros b; cbn [random_byte]; quiet; apply IH. Qed.
Lemma quiet_random pin : quiet pin hw_random.
Proof.
  assert (forall n, quiet pin (random_bytes n)) as H.
  { induction n as [| n IH]; cbn [random_bytes]; quiet; apply quiet_random_byte. }
  unfold hw_random. quiet.
Qed.
Lemma total_random : total hw_random.
Proof. intros s. destruct (hw_random_run s) as (bs & vs & h & E1 & _). by do 2 eexists. Qed.

Lemma quiet_detect pin : quiet pin pico_w_init.
Proof.
  unfold pico_w_init. quiet; auto using quiet_analog, quiet_adc.
Qed.
Lemma total_detect : total pico_w_init.
Proof.
  unfold pico_w_init. repeat first [apply total_bind; [| intros ?] | apply total_if
    | apply total_analog | apply total_adc | apply total_pin_set | apply total_output];
    intros s; by do 2 eexists.
Qed.

Lemma quiet_tim pin : quiet pin tim_init.
Proof. unfold tim_init. quiet. Qed.
Lemma total_tim : total tim_init.
Proof.
  unfold tim_init. cbv zeta. repeat (apply total_bind; [| intros ?]); try (intros s; by do 2 eexists).
Qed.

(** Nor does initialising the timer and the serial port touch the rest. *)
Definition plat (d c : Z) (w : bool) (s : machine) : Prop :=
  rd device_id_ s = d /\ rd cpu_mhz s = c /\ rd is_pico_w s = w.

#[local] Instance plat_framed d c w : Framed (plat d c w) (fun _ => true).
Proof. constructor; intros; assumption. Qed.

Lemma tim_init_plat d c w : keeps (plat d c w) tim_init.
Proof.
  unfold tim_init, Dma.ram_irq_set_priority, Dma.ram_irq_set_enabled, Dma.irq_set_mask_enabled_.
  frame.
Qed.

Lemma uart_init_plat d c w : keeps (plat d c w) uart_init_.
Proof.
  unfold uart_init_, jd_tx_program_init, jd_rx_program_init, jd_rx_arm_pin, jd_tx_arm_pin,
    pio_gpio_init_, pio_sm_init_, pio_sm_set_pins_with_mask_, pio_sm_set_pindirs_with_mask_,
    pio_sm_set_consecutive_pindirs_, uart_disable, target_disable_irq, target_enable_irq, exti_set_callback,
    exti_enable, exti_disable, gpio_set_irq_enabled_, _gpio_set_irq_enabled, gpio_acknowledge_irq_,
    ram_irq_set_enabled, ram_irq_set_priority, irq_set_mask_enabled_, pin_set, pin_setup_output,
    pin_setup_input, pin_setup_output_af, pin_set_pull, gpio_set_pulls_, gpio_set_function_, JD_ASSERT.
  frame.
Qed.
End Boot.

(** A step that leaves the serial port alone, on the way to its initialisation. *)
Lemma boot_seq {E : Env} pin {A B} (m : M A) (k : A -> M B) (Q : B -> machine -> Prop) h u p s :
  quiet pin m -> total m -> at_line pin h u p s ->
  (forall a s', m s = Ret a s' -> at_line pin h u p s' -> exists b s2, k a s' = Ret b s2 /\ Q b s2) ->
  exists b s2, bind m k s = Ret b s2 /\ Q b s2.
Proof.
  intros Hq Ht Hs Hk. destruct (Ht s) as (a & s1 & E1).
  destruct (Hk a s1 E1) as (b & s2 & E2 & HQ); [by eapply keeps_ret_inv; [apply Hq | |] |].
  exists b, s2. unfold bind. by rewrite E1.
Qed.

(** ** Properties *)

(** C38: random numbers.  A call to [jd_crypto_get_random] returns, overwrites
    exactly the first [size] bytes of the buffer and leaves the rest; the bytes
    are the little-endian words of as many calls of the generator as needed,
    the last one cut off. *)
Theorem crypto_random_fills {E : Env} buf size s :
  0 <= size <= 4294967292 -> (Z.to_nat size <= length buf)%nat ->
  exists vs es, jd_crypto_get_random buf size s =
      Ret (take (Z.to_nat size) (concat (map (le_bytes 4) vs)) ++ drop (Z.to_nat size) buf) (upd_tr (app es) s) /\
    Z.of_nat (length vs) = (size + 3) / 4.
Proof.
  intros Hs Hb. unfold jd_crypto_get_random.
  destruct (crypto_loop size (S (Z.to_nat size)) [] buf s) as (vs & es & E1 & Hv); cbn [length]; [lia.. |].
  cbn [length] in E1, Hv. rewrite Nat.sub_0_r, Z.sub_0_r in *. by exists vs, es.
Qed.

Lemma crypto_random_fills_witness :
  exists vs es, @jd_crypto_get_random env0 [1; 2; 3; 4; 5; 6; 7] 6 machine_init =
      Ret (take (Z.to_nat 6) (concat (map (le_bytes 4) vs)) ++ drop (Z.to_nat 6) [1; 2; 3; 4; 5; 6; 7])
        (upd_tr (app es) machine_init) /\ Z.of_nat (length vs) = (6 + 3) / 4.
Proof.
  apply (@crypto_random_fills env0 [1; 2; 3; 4; 5; 6; 7] 6 machine_init); [lia | cbn; lia].
Defined.

(** Entropy.  One random word is the hash of sixteen bytes into which 128
    samples of the oscillator were packed, each sample in a bit of its own, in
    order, most significant bit first: nothing sampled is lost. *)
Theorem hw_random_packs {E : Env} s :
  exists bs vs h, hw_random s = Ret (u32 h) (upd_tr (app (E_ret (jd_hash_fnv1a bs) h :: sampled vs)) s) /\
    length bs = 16%nat /\ length vs = 128%nat /\ Forall (fun b => 0 <= b < 256) bs /\
    concat (map byte_bits bs) = map z2b vs.
Proof. apply hw_random_run. Qed.

(** A panic ends in a reset.  With a running clock the panic handler blinks
    the LED of the board, if it has one, for at least 8.4 seconds and then resets the chip; interrupts are masked
    from the start and still are. *)
Theorem hw_panic_resets {E : Env} now64 (CK : ClockOk now64) k led s :
  progress now64 k -> (k * Z.to_nat 140000 + 2 <= fuel)%nat -> led_ok led ->
  exists s', hw_panic led s = Stop Reset s' /\ now64 (tr s) + 60 * 140000 <= now64 (tr s') /\
    primask s' = true /\ head (tr s') = Some (E_call NVIC_SystemReset).
Proof.
  intros Hk Hf Hl. unfold hw_panic. unfold bind at 1, sdk at 1, log at 1. unfold bind at 1.
  rewrite target_disable_irq_run. set (s1 := wr irq_disabled _ _).
  destruct (blinks_run now64 60 0 _ (takes_blink now64 k led Hk Hf Hl) s1) as (es & E1 & H1).
  unfold bind at 1. rewrite E1. unfold target_reset. mexec. eexists. split; [reflexivity |]. vsimp.
  assert (tr s1 = [E_cpsid; E_call (DMESG "HW PANIC!" [])] ++ tr s) as Ht by done.
  rewrite Ht in H1 |- *. pose proof (clk_mono_app now64 [E_cpsid; E_call (DMESG "HW PANIC!" [])] (tr s)).
  split; [| done]. etransitivity; [| apply clk_mono]. lia.
Qed.

(** A clock that advances with every event, and fuel for one blink. *)
Definition panic_env : Env :=
  let e := env0 in {|
  rd_reg := @rd_reg e; ret_of := @ret_of e; bytes_of := @bytes_of e; xip := @xip e;
  fuel := S (S (Z.to_nat 140000));
  JD_MIN_MAX_SLEEP := @JD_MIN_MAX_SLEEP e; jd_max_sleep := @jd_max_sleep e;
  jd_line_falling := ret tt; jd_rx_completed _ := ret tt; jd_tx_completed _ := ret tt; client_cb _ := ret tt;
  reenter _ := ret tt |}.

Lemma panic_clock : @ClockOk panic_env (ref_clock 0).
Proof. destruct (ref_clock_ok 0 (fun _ _ => 0) (fun _ _ => [])); [lia |]. constructor; assumption. Qed.

Lemma hw_panic_resets_witness :
  exists s', @hw_panic panic_env (led_rgb 16) machine_init = Stop Reset s' /\
    ref_clock 0 (tr machine_init) + 60 * 140000 <= ref_clock 0 (tr s') /\
    primask s' = true /\ head (tr s') = Some (E_call NVIC_SystemReset).
Proof.
  apply (@hw_panic_resets panic_env (ref_clock 0) panic_clock 1 (led_rgb 16) machine_init).
  - intros u es Hes. unfold ref_clock. rewrite length_app, Hes. lia.
  - change (@fuel panic_env) with (S (S (Z.to_nat 140000))). lia.
  - cbn. lia.
Defined.

(** The LED.  Without an LED pin nothing happens.  On a plain board the pin
    is driven high exactly when some colour is on.  On a Pico W the radio's LED
    shows it once the radio is up, and a call that changes nothing is not sent
    to the radio. *)
Theorem rgbext_set_shows r g b s
    (want := (0 <? r) || (0 <? g) || (0 <? b)) (led := rd use_pico_led s) :
  radio_led (tr s) = rd is_on s ->
  exists s' es, jd_rgbext_set true r g b s = Ret tt s' /\ tr s' = es ++ tr s /\
    radio_led (tr s') = rd is_on s' /\
    (led = 0 -> s' = s) /\
    (led <> 0 -> rd is_pico_w s = false -> is_no_pin led = false ->
       es = [E_call (gpio_put led (bool_to_bit want))]) /\
    (led <> 0 -> rd is_pico_w s = true -> rd inited s = false -> s' = s) /\
    (led <> 0 -> rd is_pico_w s = true -> rd inited s = true ->
       radio_led (tr s') = want /\ (es = [] <-> radio_led (tr s) = want)).
Proof.
  intros Hl. unfold jd_rgbext_set. fold want. unfold bind at 1, get at 1. fold led.
  destruct (Z.eqb_spec led 0) as [H0 | H0]; [exists s, []; split_and!; done |].
  unfold bind at 1, get at 1. destruct (rd is_pico_w s) eqn:Hw.
  - unfold pico_w_set_led. fold want. unfold bind at 1, get at 1.
    destruct (rd inited s) eqn:Hi; cbn [negb]; [| exists s, []; split_and!; done].
    unfold bind at 1, get at 1. destruct (Bool.eqb (rd is_on s) want) eqn:Hb; cbn [negb].
    + apply eqb_prop in Hb. exists s, []. split_and!; try done; intros; rewrite Hl; done.
    + apply eqb_false_iff in Hb. mexec. eexists _, [_]. split; [reflexivity |].
      vsimp. split_and!; try done. intros _ _ _. split; [done |]. split; [done |].
      intros C. by rewrite Hl in C.
  - unfold pin_set. fold led. destruct (is_no_pin led) eqn:Hn; cbn [negb].
    + exists s, []. split_and!; done.
    + mexec. eexists _, [_]. split; [reflexivity |]. vsimp. split_and!; done.
Qed.

Lemma rgbext_set_shows_witness :
  let s := wr use_pico_led 25 (wr is_pico_w true (wr inited true machine_init)) in
  exists s' es, jd_rgbext_set true 0 9 0 s = Ret tt s' /\ tr s' = es ++ tr s /\
    radio_led (tr s') = rd is_on s' /\
    (25 = 0 -> s' = s) /\
    (25 <> 0 -> rd is_pico_w s = false -> is_no_pin 25 = false ->
       es = [E_call (gpio_put 25 (bool_to_bit true))]) /\
    (25 <> 0 -> rd is_pico_w s = true -> rd inited s = false -> s' = s) /\
    (25 <> 0 -> rd is_pico_w s = true -> rd inited s = true ->
       radio_led (tr s') = true /\ (es = [] <-> radio_led (tr s) = true)).
Proof.
  apply (rgbext_set_shows 0 9 0 (wr use_pico_led 25 (wr is_pico_w true (wr inited true machine_init)))).
  reflexivity.
Defined.

(** Telling a Pico W.  The board is a Pico W exactly when pin 29 reads low,
    at once or after pin 25 was driven low; pin 25 is driven only if the first
    reading was high, and is an input again afterwards. *)
Theorem pico_w_detects {E : Env} s :
  exists v1 es1 s', pico_w_init s = Ret tt s' /\ (es1 = [] \/ es1 = [E_call adc_init]) /\
    let t1 := E_ret adc_read v1 :: E_call (adc_select_input 3) :: es1 ++ analog_events 29 ++ tr s in
    (u16 (Z.shiftl (u16 v1) 4) < 3264 -> rd is_pico_w s' = true /\
       tr s' = E_call (DMESG "board is: Pico W" []) :: t1) /\
    (3264 <= u16 (Z.shiftl (u16 v1) 4) -> exists v2 msg,
       rd is_pico_w s' = (u16 (Z.shiftl (u16 v2) 4) <? 3264) /\
       tr s' = E_call msg :: analog_events 25 ++ E_ret adc_read v2 :: E_call (adc_select_input 3)
               :: E_write (IO_CTRL 25) GPIO_FUNC_SIO
               :: E_call (hw_write_masked (PADS_IO 25) PADS_IE_BITS (Z.lor PADS_IE_BITS PADS_OD_BITS))
               :: E_call (gpio_set_dir 25 1) :: E_call (gpio_put 25 0) :: t1).
Proof.
  unfold pico_w_init. unfold bind at 1. rewrite analog_input_run by done.
  set (s1 := upd_tr _ s). destruct (read_29_run s1) as (v1 & es1 & Hes & E1).
  unfold bind at 1. rewrite E1. set (s2 := wr adc_inited true _).
  assert (tr s2 = E_ret adc_read v1 :: E_call (adc_select_input 3) :: es1 ++ analog_events 29 ++ tr s) as Ht2 by done.
  exists v1, es1. cbv zeta. rewrite <- Ht2.
  destruct (Z.ltb_spec (u16 (Z.shiftl (u16 v1) 4)) 3264) as [Hlow | Hhigh].
  - mexec. eexists. split; [reflexivity |]. split; [exact Hes |]. vsimp. split; [done | lia].
  - unfold bind at 1 2, pin_set at 1. change (is_no_pin 25) with false. cbn [negb]. unfold sdk at 1, log at 1.
    unfold bind at 1, pin_setup_output at 1. change (is_no_pin 25) with false. cbn [negb].
    unfold gpio_set_function_. unfold bind at 1 2, sdk at 1, log at 1. unfold sdk at 1, log at 1, setreg at 1, log at 1.
    set (s3 := emit _ (emit _ (emit _ (emit _ s2)))).
    assert (read_again s3) as (v2 & E2).
    { destruct (init_run s3) as (es & E3 & He). change (rd adc_inited s3) with true in He. subst es.
      eexists. unfold adc_read_pin, bind at 1. rewrite E3. reflexivity. }
    unfold bind at 1. rewrite E2. set (s4 := upd_tr _ _). set (w := u16 (Z.shiftl (u16 v2) 4) <? 3264).
    assert ((if w then is_pico_w <~ true else is_pico_w <~ false) s4 = Ret tt (wr is_pico_w w s4)) as E4
      by (destruct w; reflexivity).
    unfold bind at 1. rewrite E4, analog_input_run by done. mexec. eexists. split; [reflexivity |].
    split; [exact Hes |]. vsimp. split; [lia |]. intros _. exists v2. eexists.
    split; [reflexivity |]. reflexivity.
Qed.

(** Forget the machine before a step. *)
Ltac boot_next :=
  match goal with Hs : at_line _ _ _ _ ?s |- forall a s', _ -> _ -> _ =>
    let s' := fresh "s'" in let Hs' := fresh "Hs'" in
    intros ? s' _ Hs'; clear s Hs; rename s' into s, Hs' into Hs end.

(** The last three steps of [platform_init]. *)
Lemma boot_tail {E : Env} pin v d c w h u p s :
  (forall t, ret_of t (dcfg_get_pin "jacdac.pin") = v) -> u8 v = pin -> 0 <= pin < 30 ->
  (forall t, 0 <= ret_of t (dma_claim_unused_channel true) < 12) ->
  f_smtx u = 0 -> f_smrx u = 1 -> length (f_exti_cb p) = 30%nat -> length (f_exti_ev p) = 30%nat ->
  h = line_off -> at_line pin h u p s -> plat d c w s ->
  exists s', (tim_init ;; uart_init_ ;; usb_init) s = Ret tt s' /\ rd device_id_ s' = d /\ rd cpu_mhz s' = c /\
    uart_inv pin s' /\ rd uart_status s' = STATUS_IDLE /\ head (tr s') = Some (E_call tusb_init).
Proof.
  intros Hcfg Hv Hp Hch U1 U2 P1 P2 -> Hs Hpl.
  destruct (total_tim s) as ([] & s1 & E1).
  destruct (keeps_ret_inv _ _ _ _ _ (quiet_tim pin line_off u p) Hs E1) as (Hh & Hu & Hps & Hdm).
  pose proof (keeps_ret_inv _ _ _ _ _ (tim_init_plat d c w) Hpl E1) as Hpl1.
  assert (rd smtx s1 = 0 /\ rd smrx s1 = 1) as [S1 S2] by (unfold rd; cbn; by rewrite Hu).
  pose proof (uart_init_line pin (X := False) v s1 p Hv Hcfg Hch Hp Hps P1 P2 Hh Hdm S1 S2) as Hw.
  unfold runs, wpE in Hw. destruct (uart_init_ s1) as [[] s2 |] eqn:E2; [| done]. destruct Hw as [Hinv Hst].
  pose proof (keeps_ret_inv _ _ _ _ _ (uart_init_plat d c w) Hpl1 E2) as (D1 & D2 & _).
  unfold bind. rewrite E1, E2. unfold usb_init, sdk, log. eexists. split; [reflexivity |].
  vsimp. split_and!; try done.
Qed.

(** C22: start-up.  From reset, with the serial pin configured and DMA channels
    available, [platform_init] returns; the device id is the board's unique id
    read as a little-endian word, the clock rate is known in MHz, the serial
    driver is initialised and idle with its invariant established, and USB is
    started last. *)
Theorem platform_init_boots {E : Env} pin v id s :
  (forall t, ret_of t (dcfg_get_pin "jacdac.pin") = v) -> u8 v = pin -> 0 <= pin < 30 ->
  (forall t, 0 <= ret_of t (dma_claim_unused_channel true) < 12) ->
  (forall t, bytes_of t pico_get_unique_board_id = id) -> length id = 8%nat ->
  length (rd exti_cb s) = 30%nat -> length (rd exti_ev s) = 30%nat ->
  length (rd dmaHandler s) = 12%nat -> rd smtx s = 0 -> rd smrx s = 1 -> line pin (tr s) = line_off ->
  exists s' t, platform_init s = Ret tt s' /\ rd device_id_ s' = le_word id /\
    rd cpu_mhz s' = u8 (u32 (ret_of t (clock_get_hz clk_sys)) / 1000000) /\
    uart_inv pin s' /\ rd uart_status s' = STATUS_IDLE /\ head (tr s') = Some (E_call tusb_init).
Proof.
  intros Hcfg Hv Hp Hch Hid Hlen H1 H2 H3 H4 H5 Hl.
  assert (at_line pin line_off (m_uart s) (m_pins s) s) as Hs by done.
  set (u := m_uart s) in *. set (p := m_pins s) in *.
  assert (f_smtx u = 0 /\ f_smrx u = 1 /\ length (f_exti_cb p) = 30%nat /\ length (f_exti_ev p) = 30%nat)
    as (U1 & U2 & P1 & P2) by done.
  clearbody u p. clear H1 H2 H3 H4 H5 Hl.
  match goal with |- exists s' t, platform_init s = Ret tt s' /\ @?Q s' t =>
    cut (exists b s', platform_init s = Ret b s' /\ (fun (_ : unit) s' => exists t, Q s' t) b s') end.
  { intros ([] & s' & E1 & t & HQ). by exists s', t. }
  unfold platform_init.
  eapply boot_seq; [quiet | intros x; by do 2 eexists | exact Hs |]. boot_next.
  eapply boot_seq; [quiet | intros x; by do 2 eexists | exact Hs |]. boot_next.
  eapply boot_seq; [apply quiet_if; [apply quiet_detect | quiet] | apply total_if; [apply total_detect | intros x; by do 2 eexists]
    | exact Hs |]. boot_next.
  eapply boot_seq; [apply quiet_random | apply total_random | exact Hs |]. boot_next.
  do 2 (eapply boot_seq; [quiet | intros x; by do 2 eexists | exact Hs |]; boot_next).
  unfold bind at 1, sdkb at 1. rewrite Hid. apply (at_line_emit pin (E_bytes pico_get_unique_board_id id)) in Hs.
  cbn [line_step] in Hs. set (s1 := emit _ s) in *. clearbody s1. clear s. rename s1 into s.
  change (JD_ASSERT (8 =? 8)) with (ret tt). unfold bind at 1, ret at 1.
  unfold bind at 1, read_at. rewrite Hlen. change (8 <=? 8)%nat with true. cbv iota. unfold ret at 1.
  rewrite take_ge by lia. set (d := le_word id).
  eapply boot_seq; [by apply quiet_other | intros x; by do 2 eexists | exact Hs |].
  intros [] s1 Ed Hs1. assert (rd device_id_ s1 = d) as Hd by (by injection Ed as <-).
  clear s Hs Ed. rename s1 into s, Hs1 into Hs.
  unfold bind at 1, sdkv at 1. set (hz := ret_of (tr s) _). set (c := u8 (u32 hz / 1000000)).
  apply (at_line_emit pin (E_ret (clock_get_hz clk_sys) hz)) in Hs. cbn [line_step] in Hs.
  assert (rd device_id_ (emit (E_ret (clock_get_hz clk_sys) hz) s) = d) as Hd1 by done.
  assert (exists t0, hz = ret_of t0 (clock_get_hz clk_sys)) as [t0 Hhz] by (by exists (tr s)).
  set (s1 := emit _ s) in *. clearbody s1 hz. clear s Hd. rename s1 into s.
  eapply boot_seq; [by apply quiet_other | intros x; by do 2 eexists | exact Hs |].
  intros [] s1 Ed Hs1. assert (plat d c (rd is_pico_w s1) s1) as Hpl by (by injection Ed as <-).
  set (w := rd is_pico_w s1) in *. clearbody w. clear s Hs Ed Hd1. rename s1 into s, Hs1 into Hs.
  destruct (boot_tail pin v d c w line_off u p s) as (s' & E1 & D1 & D2 & D3); try done.
  exists tt, s'. split; [exact E1 |]. exists t0. split; [exact D1 |]. split; [by rewrite D2, <- Hhz | exact D3].
Qed.

(** The board id of the witness, on pin 9. *)
Definition boot_env : Env :=
  let e := init_demo_env in {|
  rd_reg := @rd_reg e; ret_of := @ret_of e; bytes_of _ c := match c with pico_get_unique_board_id => [1; 2; 3; 4; 5; 6; 7; 8] | _ => [] end;
  xip := @xip e; fuel := @fuel e; JD_MIN_MAX_SLEEP := @JD_MIN_MAX_SLEEP e; jd_max_sleep := @jd_max_sleep e;
  jd_line_falling := ret tt; jd_rx_completed _ := ret tt; jd_tx_completed _ := ret tt; client_cb _ := ret tt;
  reenter _ := ret tt |}.

Lemma platform_init_boots_witness :
  exists s' t, @platform_init boot_env machine_init = Ret tt s' /\
    rd device_id_ s' = le_word [1; 2; 3; 4; 5; 6; 7; 8] /\
    rd cpu_mhz s' = u8 (u32 (@ret_of boot_env t (clock_get_hz clk_sys)) / 1000000) /\
    uart_inv 9 s' /\ rd uart_status s' = STATUS_IDLE /\ head (tr s') = Some (E_call tusb_init).
Proof.
  apply (@platform_init_boots boot_env 9 9 [1; 2; 3; 4; 5; 6; 7; 8] machine_init); try reflexivity; try done; cbn; lia.
Defined.
