(* ===== verification/Completion.v ===== *)
(** * Completion: the three drivers behind the DMA interrupt

    [dma.c] calls whatever handler a driver stored; here the handlers are those
    of [uart.c], [spi.c] and [uart_log.c], and a transfer is followed from the
    call that starts it through the interrupt to its end. *)

From S2P Require Import Prelude Events Machine Frame RefEnv Irq Dma Pins Tim Uart Spi UartLog.

(** ** Definitions *)

(** The completion handlers behind the pointers that [dma_set_ch_cb] stores. *)
Definition run_handler {E : Env} (f : cb_arg_t) (ctx : option cb_t) : M unit :=
  match f with
  | uart_rx_handler => Uart.rx_handler
  | uart_tx_handler => Uart.tx_handler
  | spi_dma_cb_handler => spi_dma_cb ctx
  | uart_log_tx_handler => UartLog.tx_handler
  end.
#[export] Instance firmware_handlers {E : Env} : DmaClient := run_handler.

(** ** One pending channel *)

Section One.
Context {E : Env} `{DC : !DmaClient} (ch : Z).

Lemma land_bits i j : 0 <= i -> 0 <= j -> z2b (Z.land (bit i) (bit j)) = (j =? i).
Proof. intros Hi Hj. by rewrite Z.land_comm, land_bit, testbit_bit by lia. Qed.

(** The other channels are left alone. *)
Lemma dispatch_skip n from s : 0 <= ch -> 0 <= from -> ch < from \/ from + Z.of_nat n <= ch ->
  for_ n from (dispatch (bit ch)) s = Ret tt s.
Proof.
  intros Hc. revert from. induction n as [| n IH]; intros from Hf Hr; [reflexivity |].
  cbn [for_]. unfold bind, dispatch at 1. rewrite land_bits, (proj2 (Z.eqb_neq ch from)) by lia.
  apply IH; lia.
Qed.

Lemma dispatch_only n from s r : 0 <= from <= ch -> ch < from + Z.of_nat n ->
  dispatch (bit ch) ch s = r -> for_ n from (dispatch (bit ch)) s = r.
Proof.
  revert from. induction n as [| n IH]; intros from Hf Hr Hd; [lia |]. cbn [for_]. unfold bind.
  destruct (decide (from = ch)) as [-> | Hne].
  - rewrite Hd. destruct r as [[] s' |]; [apply dispatch_skip; lia | done].
  - unfold dispatch at 1. rewrite land_bits, (proj2 (Z.eqb_neq ch from)) by lia. apply IH; [lia.. | done].
Qed.

(** The machine in which the handler of channel [ch] is called. *)
Definition served (ctx : option cb_t) (s : machine) : machine :=
  wr dmaHandler (<[Z.to_nat ch := mkDMAHandler ctx None]> (rd dmaHandler s))
    (emit (E_call (dma_channel_set_irq0_enabled ch false))
      (emit (E_write DMA_INTS0 (bit ch)) (emit (E_read DMA_INTS0 (bit ch)) s))).

Lemma isr_one f ctx s : 0 <= ch < 12 -> rd_reg (tr s) DMA_INTS0 = bit ch ->
  rd dmaHandler s !! Z.to_nat ch = Some (mkDMAHandler ctx (Some f)) ->
  isr_dma_0 s = run_cb_arg f ctx (served ctx s).
Proof.
  intros Hch Hm Hh. pose proof (lookup_lt_Some _ _ _ Hh) as Hl.
  change isr_dma_0 with (let! mask := load DMA_INTS0 in DMA_INTS0 <-~ mask ;; for_ 12 0 (dispatch mask)).
  unfold bind at 1, load at 1. rewrite Hm. unfold bind at 1, setreg, log.
  set (s0 := emit _ (emit _ s)). apply dispatch_only; [lia | lia |].
  unfold dispatch. rewrite land_bits, Z.eqb_refl by lia. unfold bind at 1, get at 1, bind at 1.
  change (rd dmaHandler s0) with (rd dmaHandler s). rewrite (index_run _ _ _ _ (proj1 Hch) Hh).
  cbn [handler context]. unfold bind at 1, sdk at 1, log at 1. unfold bind at 1.
  rewrite store_run by (change (rd dmaHandler (emit ?e s0)) with (rd dmaHandler s); lia). reflexivity.
Qed.

Lemma served_free ctx s : (Z.to_nat ch < length (rd dmaHandler s))%nat ->
  rd dmaHandler (served ctx s) !! Z.to_nat ch = Some (mkDMAHandler ctx None).
Proof. intros Hl. by apply list_lookup_insert_eq. Qed.
End One.

(** ** What the drivers leave alone *)

(** The table of handlers and the receive channel of the bus. *)
Definition table_is (tbl : list DMAHandler) (rx : Z) (s : machine) : Prop :=
  rd dmaHandler s = tbl /\ rd Uart.dmachRx s = rx.

#[export] Instance table_framed tbl rx : Framed (table_is tbl rx) (fun _ => true).
Proof. constructor; intros; assumption. Qed.

Section Bus.
Context {E : Env} (pin : Z).

Lemma uart_disable_table tbl rx : keeps (table_is tbl rx) uart_disable.
Proof. frame_all. Qed.
Lemma rx_arm_table tbl rx pio sm p : keeps (table_is tbl rx) (jd_rx_arm_pin pio sm p).
Proof. frame_all. Qed.

(** A reception up to the arming of its channel. *)
Lemma start_rx_head data len s : uart_inv pin s ->
  exists s1, uart_start_rx data len s =
    (dma_set_ch_cb (rd Uart.dmachRx s) (Some uart_rx_handler) None ;;
     let! ch := get Uart.dmachRx in
     sdk (dma_channel_transfer_to_buffer_now ch data len) ;;
     sdk (pio_set_irq0_source_enabled pio0 pis_interrupt1 true)) s1 /\
    rd dmaHandler s1 = rd dmaHandler s /\ rd uart_status s1 = STATUS_RX.
Proof.
  rewrite uart_inv_iff. intros (h & u & p & Hc & Hs & _).
  pose proof Hc as (Hpin & Hj & _ & Hrx & _). pose proof Hs as (_ & Hu & _).
  assert (rd jacdac_pin s = pin) as Hj' by (unfold rd; cbn; by rewrite Hu).
  assert (rd smrx s = 1) as Hrx' by (unfold rd; cbn; by rewrite Hu).
  set (s0 := wr uart_status STATUS_RX s).
  assert (at_line pin h (set_status STATUS_RX u) p s0) as Hs0.
  { destruct Hs as (? & Hu' & ? & ?). split_and!; try done. cbn. by rewrite Hu'. }
  pose proof (rx_arm_line pin (X := False) pio0 1 h _ p s0 (cfg_exti pin _ _ (cfg_status pin STATUS_RX u p Hc)) Hs0) as Hw.
  pose proof (rx_arm_table (rd dmaHandler s) (rd Uart.dmachRx s) pio0 1 pin s0 (conj eq_refl eq_refl)) as Ht.
  unfold runs, wpE in Hw, Ht.
  unfold uart_start_rx. unfold bind at 1, get at 1. rewrite Hj', not_no_pin by done. cbn [negb JD_ASSERT].
  unfold bind at 1, ret at 1, bind at 1, put at 1. fold s0. unfold bind at 1, get at 1.
  change (rd smrx s0) with (rd smrx s). rewrite Hrx'. unfold bind at 1, get at 1.
  change (rd jacdac_pin s0) with (rd jacdac_pin s). rewrite Hj'. unfold bind at 1.
  destruct (jd_rx_arm_pin pio0 1 pin s0) as [[] s2 |]; [| done]. destruct Ht as [Ht1 Ht2].
  set (s3 := emit (E_write (PIO_IRQ pio0) PIO_BREAK_IRQ) (emit (E_call (pio_sm_set_enabled pio0 1 true)) s2)).
  exists s3. split; [| split; [exact Ht1 |]].
  - destruct Hw as (_ & Hu2 & _). assert (rd smrx s2 = 1) as Hrx2 by (unfold rd; cbn; by rewrite Hu2).
    unfold bind at 1, get at 1. rewrite Hrx2. unfold bind at 1, sdk at 1, log at 1, bind at 1, setreg at 1, log at 1.
    fold s3. unfold bind at 1, get at 1. change (rd Uart.dmachRx s3) with (rd Uart.dmachRx s2). by rewrite Ht2.
  - destruct Hw as (_ & Hu2 & _). change (rd uart_status s2 = STATUS_RX). unfold rd. cbn. by rewrite Hu2.
Qed.

(** It panics while the channel's previous completion is armed, and starts when
    it is free. *)
Lemma start_rx_armed data len s ctx f : uart_inv pin s -> 0 <= rd Uart.dmachRx s < 12 ->
  rd dmaHandler s !! Z.to_nat (rd Uart.dmachRx s) = Some (mkDMAHandler ctx (Some f)) ->
  exists s', uart_start_rx data len s = Stop Panic s'.
Proof.
  intros Hi Hr Hh. destruct (start_rx_head data len s Hi) as (s1 & -> & Ht & _). exists s1.
  unfold bind at 1. erewrite dma_set_panic; [done | done |]. rewrite Ht. exact Hh.
Qed.

Lemma start_rx_free data len s ctx : uart_inv pin s -> 0 <= rd Uart.dmachRx s < 12 ->
  rd dmaHandler s !! Z.to_nat (rd Uart.dmachRx s) = Some (mkDMAHandler ctx None) ->
  exists s', uart_start_rx data len s = Ret tt s' /\ rd uart_status s' = STATUS_RX.
Proof.
  intros Hi Hr Hh. destruct (start_rx_head data len s Hi) as (s1 & -> & Ht & Hst).
  unfold bind at 1. rewrite (dma_set_run _ _ None ctx) by (done || by rewrite Ht).
  eexists. split; [reflexivity | exact Hst].
Qed.
End Bus.

(** ** Properties *)

(** The bus driver is idle, with entry [e] of the DMA table at its receive channel. *)
Definition bus_idle (pin rx : Z) (e : DMAHandler) (s : machine) : Prop :=
  uart_inv pin s /\ rd uart_status s = STATUS_IDLE /\
  rd Uart.dmachRx s = rx /\ rd dmaHandler s !! Z.to_nat rx = Some e.

(** What the driver asks of the runtime that is told of a reception's end: it may
    do anything else - set the timer, ask for a turn of the loop, use the other
    drivers - but starts nothing on the bus before it returns. *)
Class RxClient {E : Env} (pin : Z) : Prop :=
  rx_client n rx e : keeps (bus_idle pin rx e) (jd_rx_completed n).

(** C20: a reception that a break ends leaves its DMA completion armed.  The
    break interrupt releases the line and reports the reception, in the middle of
    which, and afterwards until the DMA interrupt has been served for the aborted
    channel, the next reception would panic.  That interrupt disarms the channel
    and reports nothing a second time; then the next reception starts.  The
    runtime may do what it likes when it is told, except start something on the
    bus. *)
Theorem uart_rx_rearms {E : Env} pin {RC : RxClient pin} s (rx := rd Uart.dmachRx s) :
  uart_inv pin s -> rd uart_status s = STATUS_RX -> Z.testbit (rd_reg (tr s) (PIO_IRQ 0)) 1 = true ->
  rd dmaHandler s !! Z.to_nat rx = Some (mkDMAHandler None (Some uart_rx_handler)) ->
  exists s0, isr_pio0_0 s = jd_rx_completed 0 s0 /\ uart_inv pin s0 /\ rd uart_status s0 = STATUS_IDLE /\
    (forall data len, exists x, uart_start_rx data len s0 = Stop Panic x) /\
    forall s1, isr_pio0_0 s = Ret tt s1 ->
      rd uart_status s1 = STATUS_IDLE /\
      (forall data len, exists x, uart_start_rx data len s1 = Stop Panic x) /\
      (rd_reg (tr s1) DMA_INTS0 = bit rx ->
       exists s2, isr_dma_0 s1 = Ret tt s2 /\ uart_inv pin s2 /\ rd uart_status s2 = STATUS_IDLE /\
         tr s2 = [E_call (dma_channel_set_irq0_enabled rx false); E_write DMA_INTS0 (bit rx);
                  E_read DMA_INTS0 (bit rx)] ++ tr s1 /\
         forall data len, exists s3, uart_start_rx data len s2 = Ret tt s3 /\ rd uart_status s3 = STATUS_RX).
Proof.
  intros Hi Hst Hb Hh. set (v := rd_reg (tr s) (PIO_IRQ 0)) in *.
  set (sb := emit (E_write (PIO_IRQ 0) v) (emit (E_read (PIO_IRQ 0) v) s)).
  assert (uart_inv pin sb) as Hib by exact Hi.
  destruct (rx_done_run pin sb Hib Hst) as (s0 & E0 & Ed & Hi0 & Hst0).
  assert (table_is (rd dmaHandler s) rx (wr uart_status 0 sb)) as H0 by done.
  destruct (keeps_ret_inv _ _ _ _ _ (uart_disable_table (rd dmaHandler s) rx) H0 Ed) as [Ht Hc].
  assert (isr_pio0_0 s = jd_rx_completed 0 s0) as Er.
  { transitivity ((when z2b (Z.land v (bit 1)) do rx_done) sb); [reflexivity |]. by rewrite land_bit, Hb, E0 by lia. }
  assert (bus_idle pin rx (mkDMAHandler None (Some uart_rx_handler)) s0) as Hbus by (split_and!; try done; by rewrite Ht).
  assert (forall x, bus_idle pin rx (mkDMAHandler None (Some uart_rx_handler)) x ->
    forall data len, exists y, uart_start_rx data len x = Stop Panic y) as Hpanic.
  { intros x (Hx & _ & Hcx & Hhx) data len. eapply (start_rx_armed pin); [done | apply Hx |]. rewrite Hcx. exact Hhx. }
  exists s0. split; [exact Er |]. split; [done |]. split; [done |]. split; [by apply Hpanic |].
  intros s1 E1. rewrite Er in E1.
  pose proof (keeps_ret_inv _ _ _ _ _ (rx_client 0 rx _) Hbus E1) as Hb1.
  split; [apply Hb1 |]. split; [by apply Hpanic |]. destruct Hb1 as (Hi1 & Hst1 & Hc1 & Hh1). clear Hpanic Hbus.
  assert (0 <= rx < 12) as Hr by (rewrite <- Hc1; apply Hi1). intros Hm.
  rewrite (isr_one _ _ _ _ Hr Hm Hh1). set (s2 := served _ None s1).
  assert (uart_inv pin s2) as Hi2.
  { destruct Hi1 as (Hrdy & Hl). split; [| exact Hl]. unfold uart_ready in *. split_and!; try apply Hrdy.
    unfold s2, served. vsimp. rewrite length_insert. apply Hrdy. }
  exists s2. split; [| split; [done |]; split; [done |]; split; [reflexivity |]].
  - change (rx_done s2 = Ret tt s2). unfold rx_done, bind, get.
    change (rd uart_status s2) with (rd uart_status s1). by rewrite Hst1.
  - assert (rd Uart.dmachRx s2 = rx) as Hc2 by exact Hc1. intros data len.
    apply (start_rx_free pin _ _ s2 None Hi2); rewrite Hc2; [done |]. apply served_free.
    apply lookup_lt_Some in Hh1. exact Hh1.
Qed.

(** Setting the timer leaves the bus alone. *)
Lemma set_timer_quiet {E : Env} pin delta cb : quiet pin (tim_set_timer delta cb).
Proof.
  unfold tim_set_timer, tim_get_micros, target_disable_irq, target_enable_irq. cbv zeta.
  apply quiet_bind; [intros h u p s Hs; exact Hs | intros d].
  quiet; try (intros h u p s Hs; exact Hs).
  intros h u p. apply frame_loop. intros hi. revert h u p.
  change (quiet pin (let! lo := load TIMERAWL in let! next_hi := load TIMERAWH in
    if hi =? next_hi then ret (inr (Z.lor (u64 (Z.shiftl hi 32)) lo)) else ret (inl next_hi))). quiet.
Qed.
Lemma set_timer_table {E : Env} tbl rx delta cb : keeps (table_is tbl rx) (tim_set_timer delta cb).
Proof.
  unfold tim_set_timer. cbv zeta. apply keeps_bind; [intros s Hs; exact Hs | intros d]. frame_all.
Qed.

Lemma quiet_bus {A} pin rx e (m : M A) : quiet pin m -> (forall tbl, keeps (table_is tbl rx) m) ->
  keeps (bus_idle pin rx e) m.
Proof.
  intros Hq Ht s (Hi & Hst & Hc & Hh). apply uart_inv_iff in Hi as (h & u & p & Hcfg & Hs & Ha).
  pose proof (Hq h u p s Hs) as H1. pose proof (Ht _ s (conj eq_refl Hc)) as H2. unfold wpE in *.
  destruct (m s) as [a s' |]; [| done]. destruct H2 as [Ht' Hc']. destruct Hs as (_ & Hu & _).
  pose proof H1 as (_ & Hu' & _). split_and!.
  - apply uart_inv_iff. by exists h, u, p.
  - rewrite <- Hst. unfold rd. cbn. by rewrite Hu, Hu'.
  - done.
  - by rewrite Ht'.
Qed.

(** Channel 3 receives on pin 9; its abort raises the interrupt, and the runtime
    sets its timer when it is told. *)
Definition board_env : Env :=
  ref_env 0 (fun _ r => match r with DMA_INTS0 => Some (bit 3) | _ => None end) (fun _ _ => 0) (fun _ _ => []).
Definition bus_env : Env :=
  let e := board_env in {|
  rd_reg := @rd_reg e; ret_of := @ret_of e; bytes_of := @bytes_of e; xip := @xip e; fuel := @fuel e;
  JD_MIN_MAX_SLEEP := @JD_MIN_MAX_SLEEP e; jd_max_sleep := @jd_max_sleep e;
  jd_line_falling := ret tt; jd_rx_completed _ := @tim_set_timer e 1000 (Some (cb_client 1));
  jd_tx_completed _ := ret tt; client_cb _ := ret tt; reenter _ := ret tt |}.
#[export] Instance bus_client pin : @RxClient bus_env pin.
Proof.
  intros n rx e. change (keeps (bus_idle pin rx e) (@tim_set_timer board_env 1000 (Some (cb_client 1)))).
  apply quiet_bus; [apply set_timer_quiet | intros tbl; apply set_timer_table].
Qed.
Definition receiving : machine := after (@uart_start_rx bus_env (mem 0) 252) uart_demo.
Definition received : machine := after (@isr_pio0_0 bus_env) receiving.

Lemma uart_rx_rearms_witness :
  @isr_pio0_0 bus_env receiving = Ret tt received /\ rd timer_cb received = Some (cb_client 1) /\
  (forall data len, exists x, @uart_start_rx bus_env data len received = Stop Panic x) /\
  exists s2, @isr_dma_0 bus_env (@firmware_handlers bus_env) received = Ret tt s2 /\ uart_inv 9 s2 /\
    rd uart_status s2 = STATUS_IDLE /\
    tr s2 = [E_call (dma_channel_set_irq0_enabled 3 false); E_write DMA_INTS0 (bit 3);
             E_read DMA_INTS0 (bit 3)] ++ tr received /\
    forall data len, exists s3, @uart_start_rx bus_env data len s2 = Ret tt s3 /\ rd uart_status s3 = STATUS_RX.
Proof.
  assert (@isr_pio0_0 bus_env receiving = Ret tt received) as Er by (vm_compute; reflexivity).
  split; [exact Er |]. split; [vm_compute; reflexivity |].
  destruct (@uart_rx_rearms bus_env 9 (bus_client 9) receiving) as (s0 & _ & _ & _ & _ & H);
    [| vm_compute; reflexivity.. |].
  { refine (run_inv (X := True) _ _ _ _ _ (@uart_start_rx_inv bus_env 9 (mem 0) 252 uart_demo uart_demo_inv _) _);
      vm_compute; reflexivity. }
  destruct (H received Er) as (_ & Hp & Hd). split; [exact Hp |]. apply Hd. vm_compute. reflexivity.
Defined.

(** Transfers chain.  From a free driver a transfer starts; when its
    channel completes the DMA interrupt records the callback, the next
    [jd_spi_process] calls it, and in it, with the driver and the channels free
    again, any valid transfer can be started. *)
Theorem spi_transfers_chain {E : Env} tx rx txdata rxdata n f s ctx ctx'
    (ch := done_channel tx rx rxdata) :
  spi_ready tx rx s -> 0 < n <= 4096 -> is_null txdata && is_null rxdata = false ->
  rd dmaHandler s !! Z.to_nat tx = Some (mkDMAHandler ctx None) ->
  rd dmaHandler s !! Z.to_nat rx = Some (mkDMAHandler ctx' None) ->
  exists s1, jd_spi_xfer txdata rxdata n (Some f) s = Ret 0 s1 /\
    (rd_reg (tr s1) DMA_INTS0 = bit ch ->
     exists s2 s3, isr_dma_0 s1 = Ret tt s2 /\ jd_spi_process s2 = run_cb f s3 /\
       tr s3 = [E_call (dma_channel_set_irq0_enabled ch false); E_write DMA_INTS0 (bit ch);
                E_read DMA_INTS0 (bit ch)] ++ tr s1 /\
       forall a b m g, 0 < m <= 4096 -> is_null a && is_null b = false ->
         exists s4, jd_spi_xfer a b m (Some g) s3 = Ret 0 s4).
Proof.
  intros Hr Hn Hnull Htx Hrx. pose proof Hr as (_ & _ & _ & _ & _ & Ht & Hrr & Hl).
  assert (0 <= ch < 12) as Hch by (unfold ch, done_channel; by destruct (is_null rxdata)).
  assert (exists c, rd dmaHandler s !! Z.to_nat ch = Some (mkDMAHandler c None)) as [c Hc]
    by (unfold ch, done_channel; destruct (is_null rxdata); eauto).
  destruct (xfer_run tx rx txdata rxdata n f s c Hr Hn Hnull Hc)
    as (s1 & E1 & Hu1 & Hd1 & Hh1 & Hi1 & Ht1 & Hr1 & _). fold ch in Hh1.
  exists s1. split; [done |]. intros Hm.
  assert (rd dmaHandler s1 !! Z.to_nat ch = Some (mkDMAHandler (Some f) (Some spi_dma_cb_handler))) as He
    by (rewrite Hh1; apply list_lookup_insert_eq; lia).
  set (s2 := wr spi_done_cb (Some f) (served ch (Some f) s1)).
  set (s3 := wr spi_in_use false (wr spi_done_cb None s2)). exists s2, s3.
  split; [| split; [reflexivity | split; [reflexivity |]]].
  - rewrite (isr_one _ _ _ _ Hch Hm He). change (spi_dma_cb (Some f) (served ch (Some f) s1) = Ret tt s2).
    unfold spi_dma_cb, bind, get. change (rd spi_done_cb (served ch (Some f) s1)) with (rd spi_done_cb s1).
    by rewrite Hd1.
  - intros a b m g Hm2 Hab.
    assert (rd dmaHandler s3 = <[Z.to_nat ch := mkDMAHandler (Some f) None]> (rd dmaHandler s)) as Hh3.
    { change (rd dmaHandler s3) with (<[Z.to_nat ch := mkDMAHandler (Some f) None]> (rd dmaHandler s1)).
      by rewrite Hh1, list_insert_insert_eq. }
    assert (spi_ready tx rx s3) as H3.
    { unfold spi_ready. rewrite Hh3, length_insert. destruct Hr as (_ & _ & Hi & _).
      change (rd spi s3) with (rd spi s1). rewrite Hi1.
      change (rd dma_tx s3) with (rd dma_tx s1). change (rd dma_rx s3) with (rd dma_rx s1). split_and!; done || lia. }
    assert (exists c', rd dmaHandler s3 !! Z.to_nat (done_channel tx rx b) = Some (mkDMAHandler c' None)) as [c' Hc'].
    { rewrite Hh3. destruct (decide (Z.to_nat (done_channel tx rx b) = Z.to_nat ch)) as [-> | Hne].
      - eexists. apply list_lookup_insert_eq. lia.
      - rewrite list_lookup_insert_ne by done. unfold done_channel. destruct (is_null b); eauto. }
    destruct (xfer_run tx rx a b m g s3 c' H3 Hm2 Hab Hc') as (s4 & E4 & _). by exists s4.
Qed.

(** Channels 1 and 2; the receive channel completes. *)
Definition spi_bus_env : Env :=
  ref_env 0 (fun _ r => match r with DMA_INTS0 => Some (bit 2) | _ => None end) (fun _ _ => 0) (fun _ _ => []).

Lemma spi_transfers_chain_witness :
  exists s1, jd_spi_xfer (mem 16) (mem 32) 8 (Some (cb_client 5)) spi_demo = Ret 0 s1 /\
    (@rd_reg spi_bus_env (tr s1) DMA_INTS0 = bit (done_channel 1 2 (mem 32)) ->
     exists s2 s3, @isr_dma_0 spi_bus_env (@firmware_handlers spi_bus_env) s1 = Ret tt s2 /\
       @jd_spi_process spi_bus_env s2 = @run_cb spi_bus_env (cb_client 5) s3 /\
       tr s3 = [E_call (dma_channel_set_irq0_enabled 2 false); E_write DMA_INTS0 (bit 2);
                E_read DMA_INTS0 (bit 2)] ++ tr s1 /\
       forall a b m g, 0 < m <= 4096 -> is_null a && is_null b = false ->
         exists s4, jd_spi_xfer a b m (Some g) s3 = Ret 0 s4).
Proof.
  apply (@spi_transfers_chain spi_bus_env 1 2 (mem 16) (mem 32) 8 (cb_client 5) spi_demo None None);
    [| lia | reflexivity | reflexivity | reflexivity].
  unfold spi_ready. split_and!; try reflexivity; try done. by exists 0.
Defined.
