(* ===== verification/Claim.v ===== *)
(** * Claim: the start of a transmission, statement by statement

    [uart_start_tx] claims a line that a falling edge may take away at any
    moment: edges and the ends of transfers interrupt it between any two
    statements.  Here the function is a program counter over its statements, with
    the interrupts of the driver between them; without interrupts it is
    [Uart.uart_start_tx]. *)

From S2P Require Import Prelude Events Machine RefEnv Irq Dma Pins Tim Uart Completion.

(** ** Definitions *)

(** The next statement, once the driver is known to have a pin. *)
Inductive tx_point :=
| tx_disable          (* exti_disable(pin) *)
| tx_test             (* if (uart_status & STATUS_RX) *)
| tx_assert           (* JD_ASSERT(uart_status == 0) *)
| tx_mark             (* uart_status = STATUS_TX *)
| tx_low              (* pin_set(pin, 0) *)
| tx_probe            (* if (!gpio_probe_and_set(...)) *)
| tx_mask | tx_falling | tx_unmask   (* the branch of that if *)
| tx_hold             (* target_wait_us(12) *)
| tx_high             (* pin_set(pin, 1) *)
| tx_gap              (* target_wait_us(49) *)
| tx_arm              (* jd_tx_arm_pin *)
| tx_enable           (* pio_sm_set_enabled *)
| tx_callback         (* dma_set_ch_cb *)
| tx_transfer         (* dma_channel_transfer_from_buffer_now *)
| tx_clear            (* pio0->fdebug = ... *)
| tx_done (r : Z).

Section Operations.
Context {E : Env} (data : addr) (len : Z).

(** One statement, and where it leads; [pin] is the local variable. *)
Definition exec_tx (pin : Z) (p : tx_point) : M tx_point :=
  match p with
  | tx_disable => exti_disable pin ;; ret tx_test
  | tx_test =>
    let! st := get uart_status in
    ret (if z2b (Z.land st STATUS_RX) then tx_done (-1) else tx_assert)
  | tx_assert => let! st := get uart_status in JD_ASSERT (st =? 0) ;; ret tx_mark
  | tx_mark => uart_status <~ STATUS_TX ;; ret tx_low
  | tx_low => pin_set pin 0 ;; ret tx_probe
  | tx_probe =>
    let! m := c_shl1 pin in
    let! v := gpio_probe_and_set m in
    ret (if v =? 0 then tx_mask else tx_hold)
  | tx_mask => target_disable_irq ;; ret tx_falling
  | tx_falling => jd_line_falling ;; ret tx_unmask
  | tx_unmask => target_enable_irq ;; ret (tx_done (-1))
  | tx_hold => target_wait_us 12 ;; ret tx_high
  | tx_high => pin_set pin 1 ;; ret tx_gap
  | tx_gap => target_wait_us 49 ;; ret tx_arm
  | tx_arm => let! sm := get smtx in jd_tx_arm_pin pio0 sm pin ;; ret tx_enable
  | tx_enable => let! sm := get smtx in sdk (pio_sm_set_enabled pio0 sm true) ;; ret tx_callback
  | tx_callback => let! ch := get dmachTx in dma_set_ch_cb ch (Some uart_tx_handler) None ;; ret tx_transfer
  | tx_transfer =>
    let! ch := get dmachTx in sdk (dma_channel_transfer_from_buffer_now ch data len) ;; ret tx_clear
  | tx_clear =>
    let! sm := get smtx in
    let! m := c_shl1 (PIO_FDEBUG_TXSTALL_LSB + sm) in
    PIO_FDEBUG pio0 <-~ m ;;
    ret (tx_done 0)
  | tx_done r => ret (tx_done r)
  end.

(** Statement after statement to the end. *)
Fixpoint to_done (fuel : nat) (pin : Z) (p : tx_point) : M Z :=
  match fuel with
  | O => halt NoFuel
  | S fuel => let! q := exec_tx pin p in match q with tx_done r => ret r | _ => to_done fuel pin q end
  end.
End Operations.

(** What may end a transfer: the two interrupts that end a reception, the
    runtime giving up on one, and the interrupt that ends a transmission. *)
Inductive ending := end_rx_dma | end_break | end_release | end_tx_dma.
Definition run_end {E : Env} (k : ending) : M unit :=
  match k with
  | end_rx_dma | end_tx_dma => isr_dma_0
  | end_break => isr_pio0_0
  | end_release => uart_disable
  end.

(** Channel [ch] raises its interrupt and has handler [f]. *)
Definition dma_raised {E : Env} (ch : Z) (f : cb_arg_t) (s : machine) : Prop :=
  rd_reg (tr s) DMA_INTS0 = bit ch /\
  exists ctx, rd dmaHandler s !! Z.to_nat ch = Some (mkDMAHandler ctx (Some f)).

(** The statements between the edge interrupt being disabled and the last look
    at the status. *)
Definition in_window (p : tx_point) : bool :=
  match p with tx_test | tx_assert => true | _ => false end.

(** The statements at which this call has given nothing to the DMA yet, and no
    earlier one has a transfer under way, the line having been found idle. *)
Definition nothing_sent (p : tx_point) : bool :=
  match p with
  | tx_mark | tx_low | tx_probe | tx_mask | tx_falling
  | tx_hold | tx_high | tx_gap | tx_arm | tx_enable | tx_callback | tx_transfer => true
  | _ => false
  end.

(** When something can end: a reception while there is one - its interrupts may
    come late and find none -, a transmission when one was started. *)
Definition may_end {E : Env} (k : ending) (p : tx_point) (s : machine) : Prop :=
  match k with
  | end_rx_dma => dma_raised (rd dmachRx s) uart_rx_handler s
  | end_break => True
  | end_release => rd uart_status s = STATUS_RX
  | end_tx_dma => dma_raised (rd dmachTx s) uart_tx_handler s /\ nothing_sent p = false
  end.
(** ... and whether it ends a transfer. *)
Definition ends (k : ending) (s : machine) : Prop :=
  match k with end_tx_dma => True | _ => rd uart_status s = STATUS_RX end.

(** Steps of the call and of what interrupts it; [late] allows a transfer to end
    in the window.  Handlers are atomic: the edge, the DMA and the PIO interrupt
    have the same priority.  They strike while interrupts are not masked, an edge
    only while the edge interrupt of the pin is enabled.  What leaves the line
    alone, such as the interrupts of other DMA channels, may happen at any time. *)
Inductive tx_step {E : Env} (data : addr) (len pin : Z) (late : bool) :
    tx_point * machine -> tx_point * machine -> Prop :=
| xs_exec p q s s' : exec_tx data len pin p s = Ret q s' -> tx_step data len pin late (p, s) (q, s')
| xs_edge p s s' : primask s = false -> l_exti (line pin (tr s)) = true ->
    run_cb cb_jd_line_falling s = Ret tt s' -> tx_step data len pin late (p, s) (p, s')
| xs_end k p s s' : primask s = false -> may_end k p s ->
    (in_window p = true -> ends k s -> late = true) ->
    run_end k s = Ret tt s' -> tx_step data len pin late (p, s) (p, s')
| xs_other h u g p s s' : at_line pin h u g s -> at_line pin h u g s' -> tx_step data len pin late (p, s) (p, s').

(** ** A call without interrupts *)

Section Alone.
Context {E : Env} (data : addr) (len : Z).
#[local] Abbreviation exec_tx := (exec_tx data len).
#[local] Abbreviation to_done := (to_done data len).

Lemma to_done_S fuel pin p s :
  to_done (S fuel) pin p s =
  match exec_tx pin p s with
  | Ret (tx_done r) s' => Ret r s'
  | Ret q s' => to_done fuel pin q s'
  | Stop w s' => Stop w s'
  end.
Proof. cbn [Claim.to_done]. unfold bind. by destruct (exec_tx pin p s) as [[] s' |]. Qed.

(** A statement without a result, and what follows it. *)
Lemma to_done_seq {A} fuel pin p q (m : M A) (k : M Z) s :
  (forall s, exec_tx pin p s = (m ;; ret q) s) -> (forall r, q <> tx_done r) ->
  (forall s, to_done fuel pin q s = k s) ->
  to_done (S fuel) pin p s = (m ;; k) s.
Proof.
  intros Hp Hq Hk. rewrite to_done_S, Hp. unfold bind, ret. destruct (m s) as [a s1 |]; [| done].
  rewrite <- Hk. destruct q; try done. by destruct (Hq r).
Qed.

(** The branches after the probe. *)
Lemma lost_statements fuel pin s :
  to_done (3 + fuel) pin tx_mask s =
  (target_disable_irq ;; jd_line_falling ;; target_enable_irq ;; ret (-1)) s.
Proof.
  apply (to_done_seq _ pin tx_mask tx_falling); [done.. |]. clear s. intros s.
  apply (to_done_seq _ pin tx_falling tx_unmask); [done.. |]. clear s. intros s.
  rewrite to_done_S. cbn [Claim.exec_tx]. unfold bind. by destruct (target_enable_irq s) as [[] s1 |].
Qed.

Lemma clear_statements fuel pin s :
  to_done (1 + fuel) pin tx_clear s =
  (let! sm := get smtx in
   let! m := c_shl1 (PIO_FDEBUG_TXSTALL_LSB + sm) in
   PIO_FDEBUG pio0 <-~ m ;; ret 0) s.
Proof.
  cbn [Nat.add]. rewrite to_done_S. cbn [Claim.exec_tx]. rewrite !bind_get. unfold bind.
  by destruct (c_shl1 _ s) as [m s1 |].
Qed.

Lemma send_statements fuel pin s :
  to_done (8 + fuel) pin tx_hold s =
  (target_wait_us 12 ;;
   pin_set pin 1 ;;
   target_wait_us 49 ;;
   let! sm := get smtx in
   jd_tx_arm_pin pio0 sm pin ;;
   let! sm := get smtx in
   sdk (pio_sm_set_enabled pio0 sm true) ;;
   let! ch := get dmachTx in
   dma_set_ch_cb ch (Some uart_tx_handler) None ;;
   let! ch := get dmachTx in
   sdk (dma_channel_transfer_from_buffer_now ch data len) ;;
   let! sm := get smtx in
   let! m := c_shl1 (PIO_FDEBUG_TXSTALL_LSB + sm) in
   PIO_FDEBUG pio0 <-~ m ;;
   ret 0) s.
Proof.
  apply (to_done_seq _ pin tx_hold tx_high); [done.. |]. clear s. intros s.
  apply (to_done_seq _ pin tx_high tx_gap); [done.. |]. clear s. intros s.
  apply (to_done_seq _ pin tx_gap tx_arm); [done.. |]. clear s. intros s. rewrite bind_get.
  cbn [Nat.add]. rewrite to_done_S. cbn [Claim.exec_tx]. rewrite bind_get. unfold bind at 1 2.
  destruct (jd_tx_arm_pin pio0 (rd smtx s) pin s) as [[] s1 |]; [| done]. unfold ret at 1. rewrite bind_get.
  rewrite to_done_S. cbn [Claim.exec_tx]. rewrite bind_get. unfold bind at 1 2, sdk at 1 2, log, ret at 1.
  set (s2 := emit _ s1). rewrite bind_get.
  rewrite to_done_S. cbn [Claim.exec_tx]. rewrite bind_get. unfold bind at 1 2.
  destruct (dma_set_ch_cb (rd dmachTx s2) _ None s2) as [[] s3 |]; [| done]. unfold ret at 1. rewrite bind_get.
  rewrite to_done_S. cbn [Claim.exec_tx]. rewrite bind_get. unfold bind at 1 2, sdk at 1 2, log, ret at 1.
  apply (clear_statements fuel).
Qed.

(** A call that nothing interrupts is [uart_start_tx], from every state. *)
Theorem start_tx_statements s (pin := rd jacdac_pin s) :
  uart_start_tx data len s =
  if pin =? NO_PIN then (jd_tx_completed 0 ;; ret 0) s else to_done 14 pin tx_disable s.
Proof.
  unfold uart_start_tx. rewrite bind_get. fold pin. clearbody pin. destruct (pin =? NO_PIN); [done |]. symmetry.
  apply (to_done_seq _ pin tx_disable tx_test); [done.. |]. clear s. intros s. rewrite bind_get.
  rewrite to_done_S. cbn [Claim.exec_tx]. rewrite bind_get. unfold ret at 1.
  destruct (z2b (Z.land (rd uart_status s) STATUS_RX)); [done |].
  rewrite to_done_S. cbn [Claim.exec_tx]. rewrite bind_get. unfold bind at 1 2.
  destruct (JD_ASSERT (rd uart_status s =? 0) s) as [[] s1 |]; [| done]. unfold ret at 1. clear s.
  apply (to_done_seq _ pin tx_mark tx_low); [done.. |]. clear s1. intros s.
  apply (to_done_seq _ pin tx_low tx_probe); [done.. |]. clear s. intros s.
  rewrite to_done_S. cbn [Claim.exec_tx]. unfold bind at 1 3.
  destruct (c_shl1 pin s) as [m s1 |]; [| done]. unfold bind at 1 2.
  destruct (gpio_probe_and_set m s1) as [v s2 |]; [| done]. unfold ret at 1.
  destruct (v =? 0); [exact (lost_statements 5 pin s2) | exact (send_statements 0 pin s2)].
Qed.
End Alone.

(** ** The line along a call *)

(** The status and the line at every statement. *)
Definition taken (tx : bool) : line_t := mkLine tx false false false false.

Definition fits (p : tx_point) (st : Z) (h : line_t) : Prop :=
  match p with
  | tx_disable | tx_unmask | tx_clear | tx_done _ => line_agrees st h
  | tx_test =>
    l_clash h = false /\
    ((st = STATUS_IDLE /\ h = taken false) \/
     (st = STATUS_TX /\ l_rx h = false /\ l_break h = false /\ l_exti h = false) \/
     (st = STATUS_RX /\ h = mkLine false true true false false))
  | tx_assert =>
    l_clash h = false /\
    ((st = STATUS_IDLE /\ h = taken false) \/
     (st = STATUS_TX /\ l_rx h = false /\ l_break h = false /\ l_exti h = false))
  | tx_mark => st = STATUS_IDLE /\ h = taken false
  | tx_low | tx_probe | tx_mask | tx_falling | tx_hold | tx_high | tx_gap | tx_arm | tx_enable =>
    st = STATUS_TX /\ h = taken false
  | tx_callback | tx_transfer => st = STATUS_TX /\ h = taken true
  end.

(** The statements at which the driver is as between two calls. *)
Definition settled (p : tx_point) : bool :=
  match p with tx_disable | tx_unmask | tx_clear | tx_done _ => true | _ => false end.

Definition point_ok {E : Env} (pin : Z) (p : tx_point) (s : machine) : Prop :=
  exists h u g, cfg_ok pin u g /\ at_line pin h u g s /\ fits p (f_uart_status u) h.

Section Steps.
Context {E : Env} (data : addr) (len pin : Z).

Lemma settled_inv p s : settled p = true -> point_ok pin p s <-> uart_inv pin s.
Proof. intros Hp. rewrite uart_inv_iff. by destruct p. Qed.

(** Away from those the edge interrupt is off, and there is a reception only at
    the test of the status. *)
Lemma fits_claim p st h : settled p = false -> fits p st h ->
  l_exti h = false /\ l_clash h = false /\ (in_window p = false -> st <> STATUS_RX) /\
  (st = STATUS_IDLE \/ st = STATUS_TX \/ st = STATUS_RX).
Proof.
  intros Hp Hf. destruct p; try done; cbn [fits] in Hf;
    repeat match goal with H : _ /\ _ |- _ => destruct H | H : _ \/ _ |- _ => destruct H end; subst;
    split_and!; auto; done.
Qed.

Lemma quiet_exec {A} (m : M A) (q q' : tx_point) h u g s s' :
  quiet pin m -> at_line pin h u g s -> (m ;; ret q) s = Ret q' s' -> q' = q /\ at_line pin h u g s'.
Proof.
  intros Hm Hs Hr. apply bind_inv in Hr as (a & s1 & H1 & [= <- <-]). split; [done |].
  exact (keeps_ret_inv _ _ _ _ _ (Hm h u g) Hs H1).
Qed.

Lemma at_status h u g s : at_line pin h u g s -> rd uart_status s = f_uart_status u.
Proof. intros (_ & Hu & _). unfold rd. cbn. by rewrite Hu. Qed.

(** The DMA interrupt of a channel of the bus calls its handler, which finds the
    line as it was. *)
Lemma dma_run h u g ch f s : at_line pin h u g s -> 0 <= ch < 12 -> dma_raised ch f s ->
  exists ctx s1, isr_dma_0 s = run_handler f ctx s1 /\ at_line pin h u g s1.
Proof.
  intros (Hl & Hu & Hg & Hd) Hc (Hm & ctx & Hh). exists ctx, (served ch ctx s).
  split; [exact (isr_one ch f ctx s Hc Hm Hh) |]. split_and!; try done. unfold served. vsimp. by rewrite length_insert.
Qed.
Lemma at_channels h u g s : cfg_ok pin u g -> at_line pin h u g s ->
  0 <= rd dmachRx s < 12 /\ 0 <= rd dmachTx s < 12.
Proof. intros (_ & _ & _ & _ & Hr & Ht & _) (_ & Hu & _). unfold rd. cbn. by rewrite Hu. Qed.

(** An end that finds no reception leaves the line alone. *)
Lemma quiet_rx_done h u g s s' : f_uart_status u = STATUS_IDLE \/ f_uart_status u = STATUS_TX ->
  at_line pin h u g s -> rx_done s = Ret tt s' -> at_line pin h u g s'.
Proof.
  intros Hst Hs. unfold rx_done. rewrite bind_get, (at_status _ _ _ _ Hs).
  destruct Hst as [-> | ->]; by intros [= <-].
Qed.
Lemma quiet_break h u g s s' : f_uart_status u = STATUS_IDLE \/ f_uart_status u = STATUS_TX ->
  at_line pin h u g s -> isr_pio0_0 s = Ret tt s' -> at_line pin h u g s'.
Proof.
  intros Hst Hs Hr.
  unfold isr_pio0_0 in Hr. apply bind_inv in Hr as (n & s1 & H1 & Hr).
  apply bind_inv in Hr as ([] & s2 & H2 & Hr).
  assert (at_line pin h u g s2) as Hs2.
  { refine (keeps_ret_inv _ _ _ _ _ (quiet_log pin (E_write (PIO_IRQ pio0) n) ltac:(done) h u g) _ H2).
    exact (keeps_ret_inv _ _ _ _ _ (quiet_load pin (PIO_IRQ pio0) h u g) Hs H1). }
  destruct (z2b _) in Hr; [exact (quiet_rx_done _ _ _ _ _ Hst Hs2 Hr) | by injection Hr as <-].
Qed.

Context {PC : PhysClient pin}.
#[local] Abbreviation exec_tx := (exec_tx data len pin).

(** The statements that do not concern the line. *)
Lemma exec_quiet p q s s' h u g (k : tx_point) :
  cfg_ok pin u g -> at_line pin h u g s -> fits k (f_uart_status u) h ->
  (exists A (m : M A), exec_tx p s = (m ;; ret k) s /\ quiet pin m) ->
  exec_tx p s = Ret q s' -> point_ok pin q s'.
Proof.
  intros Hc Hs Hf (A & m & Hm & Hq) Hr. rewrite Hm in Hr.
  destruct (quiet_exec m k q h u g s s' Hq Hs Hr) as [-> Hs']. by exists h, u, g.
Qed.

Lemma disable_ok q s s' : point_ok pin tx_disable s -> exec_tx tx_disable s = Ret q s' -> point_ok pin q s'.
Proof.
  intros (h & u & g & Hc & Hs & Hf) Hr. pose proof Hr as (a & s1 & _ & [= <- ->])%bind_inv.
  eexists _, u, g. split; [done |]. split.
  - refine (run_inv (X := True) (exec_tx tx_disable) _ s tx_test s' _ Hr). clear Hr. cbn [Claim.exec_tx]. lstep. exact Hs.
  - destruct Hf as [Hcl Hf]. split; [done |]. cbn [l_tx l_rx l_break l_exti].
    destruct Hf as [(-> & ->) | [(-> & -> & -> & _) | (-> & ->)]]; [by left | by right; left | by right; right].
Qed.

Lemma test_ok q s s' : point_ok pin tx_test s -> exec_tx tx_test s = Ret q s' -> point_ok pin q s'.
Proof.
  intros (h & u & g & Hc & Hs & Hcl & Hf). cbn [Claim.exec_tx]. rewrite bind_get, (at_status _ _ _ _ Hs).
  intros [= <- <-]. exists h, u, g. split; [done |]. split; [done |].
  destruct Hf as [[-> ->] | [(-> & Hf) | [-> ->]]]; cbn [fits].
  - change (z2b (Z.land STATUS_IDLE STATUS_RX)) with false. split; auto.
  - change (z2b (Z.land STATUS_TX STATUS_RX)) with false. split; auto.
  - change (z2b (Z.land STATUS_RX STATUS_RX)) with true. split; auto.
Qed.

Lemma assert_ok q s s' : point_ok pin tx_assert s -> exec_tx tx_assert s = Ret q s' -> point_ok pin q s'.
Proof.
  intros (h & u & g & Hc & Hs & Hcl & Hf). cbn [Claim.exec_tx]. rewrite bind_get, (at_status _ _ _ _ Hs).
  destruct Hf as [[Hu ->] | [Hu _]]; rewrite Hu; [| done]. intros [= <- <-]. by exists (taken false), u, g.
Qed.

Lemma mark_ok q s s' : point_ok pin tx_mark s -> exec_tx tx_mark s = Ret q s' -> point_ok pin q s'.
Proof.
  intros (h & u & g & Hc & Hs & _ & ->) [= <- <-]. exists (taken false), (set_status STATUS_TX u), g.
  split; [done |]. split; [| done].
  refine (run_inv (X := True) (uart_status <~ STATUS_TX ;; ret tt) _ s tt _ _ eq_refl). lstep. exact Hs.
Qed.

Lemma probe_ok q s s' : point_ok pin tx_probe s -> exec_tx tx_probe s = Ret q s' -> point_ok pin q s'.
Proof.
  intros (h & u & g & Hc & Hs & Hf) Hr. cbn [Claim.exec_tx] in Hr.
  apply bind_inv in Hr as (m & s1 & H1 & Hr). apply bind_inv in Hr as (v & s2 & H2 & [= <- <-]).
  exists h, u, g. split; [done |]. split; [| by destruct (v =? 0)].
  refine (keeps_ret_inv _ _ _ _ _ ((_ : quiet pin (gpio_probe_and_set m)) h u g) _ H2);
    [unfold gpio_probe_and_set; quiet |].
  exact (keeps_ret_inv _ _ _ _ _ ((ltac:(quiet) : quiet pin (c_shl1 pin)) h u g) Hs H1).
Qed.

Lemma falling_ok q s s' : point_ok pin tx_falling s -> exec_tx tx_falling s = Ret q s' -> point_ok pin q s'.
Proof.
  intros (h & u & g & Hc & Hs & Hu & ->) Hr. apply bind_inv in Hr as ([] & s1 & H1 & [= <- <-]).
  apply settled_inv; [done |]. refine (run_inv _ _ _ _ _ (phys_falling s _ _) H1).
  - apply uart_inv_iff. exists (taken false), u, g. split_and!; [done.. |]. split; [done |]. right. left. done.
  - by destruct Hs as (-> & _).
Qed.

Lemma enable_ok q s s' : point_ok pin tx_enable s -> exec_tx tx_enable s = Ret q s' -> point_ok pin q s'.
Proof.
  intros (h & u & g & Hc & Hs & Hu & ->) Hr. pose proof Hc as (_ & _ & Htx & _).
  pose proof Hs as (_ & Hm & _). assert (rd smtx s = 0) as H0 by (unfold rd; cbn; by rewrite Hm).
  cbn [Claim.exec_tx] in Hr. rewrite bind_get, H0 in Hr. injection Hr as <- <-. exists (taken true), u, g.
  split; [done |]. split; [| done].
  exact (at_line_emit pin (E_call (pio_sm_set_enabled pio0 0 true)) _ _ _ _ Hs).
Qed.

Lemma tx_exec_ok p q s s' : point_ok pin p s -> exec_tx p s = Ret q s' -> point_ok pin q s'.
Proof.
  intros Hp. destruct p;
    try (revert Hp; first [apply disable_ok | apply test_ok | apply assert_ok | apply mark_ok | apply probe_ok
                          | apply falling_ok | apply enable_ok]);
    destruct Hp as (h & u & g & Hc & Hs & Hf); cbn [fits] in Hf.
  - apply (exec_quiet _ _ _ _ h u g tx_probe Hc Hs Hf). eexists _, (pin_set pin 0). split; [done | quiet].
  - apply (exec_quiet _ _ _ _ h u g tx_falling Hc Hs Hf). eexists _, target_disable_irq. split; [done | quiet].
  - apply (exec_quiet _ _ _ _ h u g (tx_done (-1)) Hc Hs Hf). eexists _, target_enable_irq. split; [done | quiet].
  - apply (exec_quiet _ _ _ _ h u g tx_high Hc Hs Hf). eexists _, (target_wait_us 12). split; [done | quiet].
  - apply (exec_quiet _ _ _ _ h u g tx_gap Hc Hs Hf). eexists _, (pin_set pin 1). split; [done | quiet].
  - apply (exec_quiet _ _ _ _ h u g tx_arm Hc Hs Hf). eexists _, (target_wait_us 49). split; [done | quiet].
  - apply (exec_quiet _ _ _ _ h u g tx_enable Hc Hs Hf).
    eexists _, (jd_tx_arm_pin pio0 (rd smtx s) pin). split; [done | quiet].
  - apply (exec_quiet _ _ _ _ h u g tx_transfer Hc Hs Hf).
    eexists _, (dma_set_ch_cb (rd dmachTx s) (Some uart_tx_handler) None). split; [done | quiet].
  - apply (exec_quiet _ _ _ _ h u g tx_clear Hc Hs).
    + destruct Hf as [-> ->]. split; [done |]. by right; left.
    + eexists _, (sdk (dma_channel_transfer_from_buffer_now (rd dmachTx s) data len)). split; [done | quiet].
  - apply (exec_quiet _ _ _ _ h u g (tx_done 0) Hc Hs Hf).
    eexists _, (let! m := c_shl1 (PIO_FDEBUG_TXSTALL_LSB + rd smtx s) in PIO_FDEBUG pio0 <-~ m).
    split; [by rewrite bind_assoc | quiet].
  - intros [= <- <-]. by exists h, u, g.
Qed.

(** Interrupts. *)
Lemma settled_end k s s' p : uart_inv pin s -> may_end k p s -> run_end k s = Ret tt s' -> uart_inv pin s'.
Proof.
  intros Hi Hm Hr. pose proof Hi as (h & u & g & Hc & Hs & Ha)%uart_inv_iff.
  destruct k; cbn [run_end may_end] in *.
  1: destruct (dma_run h u g _ _ s Hs (proj1 (at_channels _ _ _ _ Hc Hs)) Hm) as (ctx & s1 & E1 & Hs1).
  4: destruct (dma_run h u g _ _ s Hs (proj2 (at_channels _ _ _ _ Hc Hs)) (proj1 Hm)) as (ctx & s1 & E1 & Hs1).
  1,4: rewrite E1 in Hr; apply (uart_step_inv pin s1); [apply uart_inv_iff; by exists h, u, g |].
  - by apply US_rx_dma.
  - by apply US_tx_dma.
  - apply (uart_step_inv pin s); [done |]. by apply US_break.
  - apply (uart_step_inv pin s); [done |]. by apply US_disable.
Qed.
Lemma end_ok k p s s' : point_ok pin p s -> may_end k p s ->
  (in_window p = true -> ends k s -> False) -> run_end k s = Ret tt s' -> point_ok pin p s'.
Proof.
  intros Hp Hm Hw Hr. destruct (settled p) eqn:Hset.
  { apply settled_inv; [done |]. apply (settled_inv p) in Hp; [| done]. by apply (settled_end k s s' p). }
  destruct Hp as (h & u & g & Hc & Hs & Hf). pose proof (at_status _ _ _ _ Hs) as Hst.
  destruct (fits_claim p _ _ Hset Hf) as (_ & _ & Hno & Hst').
  assert (ends k s -> False) as Hne.
  { intros He. destruct (in_window p) eqn:Hi; [auto |]. specialize (Hno eq_refl).
    destruct k; cbn [ends may_end] in He, Hm; [congruence.. |]. destruct Hm as [_ Hm]. by destruct p. }
  assert (f_uart_status u = STATUS_IDLE \/ f_uart_status u = STATUS_TX) as Hu.
  { destruct Hst' as [H | [H | H]]; [auto | auto |]. exfalso. apply Hne. rewrite H in Hst. by destruct k. }
  exists h, u, g. split; [done |]. split; [| done]. destruct k; cbn [run_end may_end ends] in *.
  - destruct (dma_run h u g _ _ s Hs (proj1 (at_channels _ _ _ _ Hc Hs)) Hm) as (ctx & s1 & E1 & Hs1).
    rewrite E1 in Hr. exact (quiet_rx_done h u g s1 s' Hu Hs1 Hr).
  - exact (quiet_break h u g s s' Hu Hs Hr).
  - by destruct Hne.
  - by destruct Hne.
Qed.

Lemma tx_step_ok x y : point_ok pin (fst x) (snd x) -> tx_step data len pin false x y ->
  point_ok pin (fst y) (snd y).
Proof.
  intros Hx Hst. destruct Hst as [p q s s' Hr | p s s' _ He Hr | k p s s' _ Hm Hw Hr | h u g p s s' H1 H2];
    cbn [fst snd] in Hx |- *.
  - by apply (tx_exec_ok p q s).
  - destruct (settled p) eqn:Hset.
    + apply settled_inv; [done |]. apply (settled_inv p) in Hx; [| done].
      apply (uart_step_inv pin s); [done |]. by apply US_edge.
    + destruct Hx as (h & u & g & Hc & Hs & Hf). destruct (fits_claim p _ _ Hset Hf) as (H0 & _).
      pose proof Hs as (Hh & _). rewrite Hh in He. congruence.
  - apply (end_ok k p s s' Hx Hm); [| done]. intros Hi He. by specialize (Hw Hi He).
  - destruct Hx as (h0 & u0 & g0 & Hc & Hs & Hf). destruct Hs as (? & ? & ? & ?), H1 as (? & ? & ? & ?). simplify_eq.
    by eexists _, _, _.
Qed.
End Steps.

(** ** Concrete runs *)

(** What happens next: a statement, an edge, or an end. *)
Inductive move := go | edge | finish (k : ending).

Definition dma_raisedb {E : Env} (ch : Z) (f : cb_arg_t) (s : machine) : bool :=
  (rd_reg (tr s) DMA_INTS0 =? bit ch) &&
  match rd dmaHandler s !! Z.to_nat ch with
  | Some e => bool_decide (handler e = Some f)
  | None => false
  end.
Definition may_endb {E : Env} (k : ending) (p : tx_point) (s : machine) : bool :=
  match k with
  | end_rx_dma => dma_raisedb (rd dmachRx s) uart_rx_handler s
  | end_break => true
  | end_release => rd uart_status s =? STATUS_RX
  | end_tx_dma => dma_raisedb (rd dmachTx s) uart_tx_handler s && negb (nothing_sent p)
  end.
Definition endsb (k : ending) (s : machine) : bool :=
  match k with end_tx_dma => true | _ => rd uart_status s =? STATUS_RX end.

Section Schedule.
Context {E : Env} (data : addr) (len pin : Z) (late : bool).

Definition move_of (m : move) (x : tx_point * machine) : option (tx_point * machine) :=
  let (p, s) := x in
  match m with
  | go => match exec_tx data len pin p s with Ret q s' => Some (q, s') | Stop _ _ => None end
  | edge =>
    if negb (primask s) && l_exti (line pin (tr s)) then
      match run_cb cb_jd_line_falling s with Ret _ s' => Some (p, s') | Stop _ _ => None end
    else None
  | finish k =>
    if negb (primask s) && may_endb k p s && (negb (in_window p && endsb k s) || late) then
      match run_end k s with Ret _ s' => Some (p, s') | Stop _ _ => None end
    else None
  end.
Fixpoint moves (ms : list move) (x : tx_point * machine) : option (tx_point * machine) :=
  match ms with
  | [] => Some x
  | m :: ms => match move_of m x with Some y => moves ms y | None => None end
  end.

Lemma dma_raisedb_sound ch f s : dma_raisedb ch f s = true -> dma_raised ch f s.
Proof.
  unfold dma_raisedb, dma_raised. intros [Hm Hh]%andb_prop. split; [by apply Z.eqb_eq |].
  destruct (rd dmaHandler s !! Z.to_nat ch) as [[ctx o] |]; [| done]. exists ctx.
  apply bool_decide_eq_true in Hh. cbn in Hh. by rewrite Hh.
Qed.
Lemma may_endb_sound k p s : may_endb k p s = true -> may_end k p s.
Proof.
  destruct k; cbn [may_end may_endb]; [apply dma_raisedb_sound | done | by apply Z.eqb_eq |].
  intros [H1 H2]%andb_prop. split; [by apply dma_raisedb_sound | by apply negb_true_iff].
Qed.
Lemma move_of_sound m x y : move_of m x = Some y -> tx_step data len pin late x y.
Proof.
  destruct x as [p s]. destruct m as [| | k]; cbn [move_of].
  - destruct (exec_tx data len pin p s) as [q s' |] eqn:Hr; [| done]. intros [= <-]. by apply xs_exec.
  - destruct (primask s) eqn:Hp, (l_exti (line pin (tr s))) eqn:Hx; try done. cbn [negb andb].
    destruct (run_cb cb_jd_line_falling s) as [[] s' |] eqn:Hr; [| done]. intros [= <-]. by apply xs_edge.
  - destruct (primask s) eqn:Hp; [done |]. destruct (may_endb k p s) eqn:Hm; [| done]. cbn [negb andb].
    destruct (negb (in_window p && endsb k s) || late) eqn:Hw; [| done].
    destruct (run_end k s) as [[] s' |] eqn:Hr; [| done]. intros [= <-].
    apply (xs_end _ _ _ _ k); [done | | | done].
    + by apply may_endb_sound.
    + intros Hi He. rewrite Hi in Hw. assert (endsb k s = true) as Hb by (destruct k; cbn [ends endsb] in *; first [done | by apply Z.eqb_eq]).
      by rewrite Hb in Hw.
Qed.
Lemma moves_sound ms x y : moves ms x = Some y -> star (tx_step data len pin late) x y.
Proof.
  revert x. induction ms as [| m ms IH]; intros x; cbn [moves]; [by intros [= ->]; apply star_refl |].
  destruct (move_of m x) as [z |] eqn:Hz; [| done]. intros H.
  apply star_step with z; [by apply (move_of_sound m) | by apply IH].
Qed.
End Schedule.

(** Pin 9 reads high; channel 3, the receiver's, has completed. *)
Definition claim_env : Env :=
  phys_env (fun _ r => match r with SIO_GPIO_IN => Some 512 | DMA_INTS0 => Some (bit 3) | _ => None end) (fun _ _ => 0).

Definition demo_moves (late : bool) (ms : list move) : tx_point * machine :=
  default (tx_disable, machine_init) (@moves claim_env (mem 8) 16 9 late ms (tx_disable, uart_demo)).

(** ** The theorems *)

(** C3: the start of a transmission claims the line without a race.  With edges
    and the ends of transfers interrupting it between any two statements - of
    which only an end between the disabling of the edge interrupt and the last
    look at the status is excluded - transmitter and receiver are never enabled
    together; from the moment the status says so until the transfer is handed to
    the DMA the line is the driver's, with the edge interrupt, the break
    interrupt and the receiver off, and the transmitter is on before the
    transfer starts; and whenever the call returns, the driver's invariant
    holds, whether it sent, found a reception or lost the line. *)
Theorem start_tx_claims {E : Env} data len pin {PC : PhysClient pin} s p s' :
  uart_inv pin s -> star (tx_step data len pin false) (tx_disable, s) (p, s') ->
  l_clash (line pin (tr s')) = false /\
  (nothing_sent p = true -> p <> tx_mark ->
     rd uart_status s' = STATUS_TX /\ l_rx (line pin (tr s')) = false /\
     l_break (line pin (tr s')) = false /\ l_exti (line pin (tr s')) = false) /\
  (p = tx_transfer -> l_tx (line pin (tr s')) = true) /\
  (forall r, p = tx_done r -> uart_inv pin s').
Proof.
  intros Hi Hst. assert (point_ok pin p s') as Hp.
  { refine (star_invariant _ (fun x => point_ok pin (fst x) (snd x)) (tx_step_ok data len pin) _ _ Hst _).
    by apply settled_inv. }
  split; [| split; [| split]].
  - destruct Hp as (h & u & g & _ & (-> & _) & Hf). destruct (settled p) eqn:Hset.
    + destruct p; try done; apply Hf.
    + by destruct (fits_claim p _ _ Hset Hf) as (_ & H & _).
  - intros Hn Hm. destruct Hp as (h & u & g & _ & Hs & Hf). rewrite (at_status _ _ _ _ _ Hs).
    destruct Hs as (-> & _). destruct p; try done; destruct Hf as [-> ->]; done.
  - intros ->. destruct Hp as (h & u & g & _ & (-> & _) & _ & ->). done.
  - intros r ->. by apply (settled_inv pin (tx_done r)).
Qed.

(** A stray break interrupt in the window and another while the line is held. *)
Definition demo_claim : list move :=
  [go; finish end_break; go; go; go; go; finish end_break; go; go; go; go; go; go; go; go].

Lemma start_tx_claims_witness (x := demo_moves false demo_claim) :
  fst x = tx_clear /\
  l_clash (line 9 (tr (snd x))) = false /\
  (nothing_sent (fst x) = true -> fst x <> tx_mark ->
     rd uart_status (snd x) = STATUS_TX /\ l_rx (line 9 (tr (snd x))) = false /\
     l_break (line 9 (tr (snd x))) = false /\ l_exti (line 9 (tr (snd x))) = false) /\
  (fst x = tx_transfer -> l_tx (line 9 (tr (snd x))) = true) /\
  (forall r, fst x = tx_done r -> uart_inv 9 (snd x)).
Proof.
  split; [vm_compute; reflexivity |].
  apply (@start_tx_claims claim_env (mem 8) 16 9 (phys_demo _ _ 9) uart_demo); [exact uart_demo_inv |].
  apply (@moves_sound claim_env (mem 8) 16 9 false demo_claim). vm_compute. reflexivity.
Defined.

(** The exclusion is needed.  An edge starts a reception just before the edge
    interrupt is disabled; the reception ends just after, and enables it again;
    the status is idle, the call goes on, and the falling edge that it makes
    itself starts a reception that is still running when the transmitter is
    enabled. *)
Definition demo_race : list move :=
  [edge; go; finish end_rx_dma; go; go; go; go; go; edge; go; go; go; go; go].

Theorem start_tx_window_race :
  exists s', star (@tx_step claim_env (mem 8) 16 9 true) (tx_disable, uart_demo) (tx_callback, s') /\
    rd uart_status s' = STATUS_RX /\ l_clash (line 9 (tr s')) = true.
Proof.
  exists (snd (demo_moves true demo_race)). split; [| split; vm_compute; reflexivity].
  apply (@moves_sound claim_env (mem 8) 16 9 true demo_race). vm_compute. reflexivity.
Qed.
