(* ===== verification/SpiQueue.v ===== *)
(** * SpiQueue: transfers that start the next one

    A client that moves more than one block starts the next transfer in the
    callback of the last.  Here such a client is followed through [jd_spi_xfer],
    the DMA interrupt and [jd_spi_process] of the main loop until nothing is left
    to move. *)

From S2P Require Import Prelude Events Machine Frame RefEnv Dma Spi Completion.

(** ** Specification *)

Record request := mkRequest { r_tx : addr; r_rx : addr; r_len : Z }.
Definition valid_request (r : request) : Prop :=
  0 < r_len r <= 4096 /\ is_null (r_tx r) && is_null (r_rx r) = false.

(** What the driver tells the DMA controller, oldest first. *)
Definition is_transfer (e : event) : bool :=
  match e with
  | E_call (dma_channel_set_read_addr _ _ _) | E_call (dma_channel_set_write_addr _ _ _)
  | E_call (dma_channel_set_trans_count _ _ _) | E_call (dma_start_channel_mask _) => true
  | _ => false
  end.
Definition transfers (t : trace) : list event := rev (List.filter is_transfer t).
Definition transfer_of (tx rx : Z) (r : request) : list event :=
  rev (E_call (dma_start_channel_mask (started tx rx (r_tx r) (r_rx r))) :: programmed tx rx (r_tx r) (r_rx r) (r_len r)).

(** The channel whose interrupt is enabled. *)
Fixpoint irq_on (t : trace) : option Z :=
  match t with
  | [] => None
  | E_call (dma_channel_set_irq0_enabled c b) :: t => if b : bool then Some c else None
  | _ :: t => irq_on t
  end.

(** The client: its [k]-th callback starts the [k]-th request; and the hardware:
    a transfer has ended by the time the interrupt looks. *)
Class SpiQueue {E : Env} (reqs : list request) : Prop := {
  sq_next k r s : reqs !! k = Some r ->
    client_cb (Z.of_nat k) s =
    (jd_spi_xfer (r_tx r) (r_rx r) (r_len r) (Some (cb_client (Z.of_nat (S k)))) ;; ret tt) s;
  sq_end s : client_cb (Z.of_nat (length reqs)) s = Ret tt s;
  sq_ints t : rd_reg t DMA_INTS0 = match irq_on t with Some c => bit c | None => 0 end
}.

(** The interrupt and the main loop, [n] times. *)
Fixpoint spi_rounds {E : Env} (n : nat) : M unit :=
  match n with O => ret tt | S n => isr_dma_0 ;; jd_spi_process ;; spi_rounds n end.

(** ** Lemmas *)

Section Queue.
Context {E : Env} (reqs : list request) {SQ : SpiQueue reqs} (tx rx : Z).

(** A channel nobody waits for. *)
Definition unarmed (ch : Z) (s : machine) : Prop :=
  exists ctx, rd dmaHandler s !! Z.to_nat ch = Some (mkDMAHandler ctx None).
Definition spi_free (s : machine) : Prop := spi_ready tx rx s /\ unarmed tx s /\ unarmed rx s.

(** A transfer is under way, and callback [k] is to follow. *)
Definition spi_moving (k : nat) (s : machine) : Prop :=
  exists ch, (ch = tx \/ ch = rx) /\ irq_on (tr s) = Some ch /\ rd spi_done_cb s = None /\
    rd dmaHandler s !! Z.to_nat ch = Some (mkDMAHandler (Some (cb_client (Z.of_nat k))) (Some spi_dma_cb_handler)) /\
    spi_free (wr spi_in_use false (served ch (Some (cb_client (Z.of_nat k))) s)).

Lemma transfers_app t u : transfers (t ++ u) = transfers u ++ transfers t.
Proof. unfold transfers. by rewrite List.filter_app, rev_app_distr. Qed.

Lemma unarmed_insert ch ch' ctx tbl :
  (exists c, tbl !! Z.to_nat ch = Some (mkDMAHandler c None)) -> (Z.to_nat ch' < length tbl)%nat ->
  exists c, <[Z.to_nat ch' := mkDMAHandler ctx None]> tbl !! Z.to_nat ch = Some (mkDMAHandler c None).
Proof.
  intros Hc Hl. destruct (decide (Z.to_nat ch = Z.to_nat ch')) as [-> | Hne].
  - exists ctx. by apply list_lookup_insert_eq.
  - destruct Hc as [c Hc]. exists c. by rewrite list_lookup_insert_ne.
Qed.

(** The [k]-th callback starts the [k]-th request. *)
Lemma queue_start k r s : reqs !! k = Some r -> valid_request r -> spi_free s ->
  exists s', client_cb (Z.of_nat k) s = Ret tt s' /\ spi_moving (S k) s' /\
    transfers (tr s') = transfers (tr s) ++ transfer_of tx rx r.
Proof.
  intros Hk [Hn Hnull] (Hr & Htx & Hrx). set (ch := done_channel tx rx (r_rx r)).
  assert (ch = tx \/ ch = rx) as Hch by (unfold ch, done_channel; destruct (is_null (r_rx r)); [by left | by right]).
  assert (unarmed ch s) as [c Hc] by (by destruct Hch as [-> | ->]).
  destruct (xfer_run tx rx (r_tx r) (r_rx r) (r_len r) (cb_client (Z.of_nat (S k))) s c Hr Hn Hnull Hc)
    as (s1 & E1 & Hu1 & Hd1 & Hh1 & Hi1 & Ht1 & Hr1 & Htr). fold ch in Hh1, Htr.
  pose proof (lookup_lt_Some _ _ _ Hc) as Hl.
  exists s1. split; [rewrite (sq_next k r s Hk); unfold bind; by rewrite E1 |]. split.
  - exists ch. split; [done |]. split; [by rewrite Htr |]. split; [done |].
    split; [rewrite Hh1; by apply list_lookup_insert_eq |].
    set (s2 := wr spi_in_use false _).
    assert (rd dmaHandler s2 = <[Z.to_nat ch := mkDMAHandler (Some (cb_client (Z.of_nat (S k)))) None]> (rd dmaHandler s)) as Hh2.
    { change (rd dmaHandler s2) with (<[Z.to_nat ch := mkDMAHandler (Some (cb_client (Z.of_nat (S k)))) None]> (rd dmaHandler s1)).
      by rewrite Hh1, list_insert_insert_eq. }
    destruct Hr as (_ & _ & Hi & _ & _ & Hb1 & Hb2 & Hlen).
    split; [| split; unfold unarmed; rewrite Hh2; by apply unarmed_insert].
    unfold spi_ready. rewrite Hh2, length_insert. change (rd spi s2) with (rd spi s1). rewrite Hi1.
    change (rd dma_tx s2) with (rd dma_tx s1). change (rd dma_rx s2) with (rd dma_rx s1).
    change (rd spi_done_cb s2) with (rd spi_done_cb s1). split_and!; done || lia.
  - rewrite Htr. change (E_call ?c :: armed ch ++ ?l) with ([E_call c] ++ armed ch ++ l).
    rewrite !transfers_app. unfold transfer_of. cbn [rev]. change (transfers (armed ch)) with (@nil event).
    rewrite app_nil_r, <- !app_assoc. do 2 f_equal.
    unfold transfers, programmed. by destruct (is_null (r_rx r)), (is_null (r_tx r)).
Qed.

(** The interrupt and [jd_spi_process] call the next callback, with the driver
    free again. *)
Lemma queue_round k s : spi_moving k s ->
  exists s', (forall m : M unit, (isr_dma_0 ;; jd_spi_process ;; m) s = (client_cb (Z.of_nat k) ;; m) s') /\
    spi_free s' /\ transfers (tr s') = transfers (tr s).
Proof.
  intros (ch & Hch & Hirq & Hd & Hh & Hf). set (f := cb_client (Z.of_nat k)) in *.
  assert (0 <= ch < 12) as Hr by (destruct Hf as ((_ & _ & _ & _ & _ & ? & ? & _) & _); by destruct Hch as [-> | ->]).
  set (s1 := served ch (Some f) s) in *.
  exists (wr spi_in_use false (wr spi_done_cb None (wr spi_done_cb (Some f) s1))). split; [| split].
  - intros m. unfold bind at 1. rewrite (isr_one ch spi_dma_cb_handler (Some f)); [| done | by rewrite sq_ints, Hirq | done].
    change (run_cb_arg spi_dma_cb_handler (Some f) (served ch (Some f) s)) with (spi_dma_cb (Some f) s1).
    assert (spi_dma_cb (Some f) s1 = Ret tt (wr spi_done_cb (Some f) s1)) as ->.
    { unfold spi_dma_cb, bind, get. change (rd spi_done_cb s1) with (rd spi_done_cb s). by rewrite Hd. }
    reflexivity.
  - destruct Hf as ((H1 & H2 & H3) & H4). split; [| exact H4]. exact (conj H1 (conj eq_refl H3)).
  - reflexivity.
Qed.

Lemma queue_runs n k s : (k + n = length reqs)%nat -> Forall valid_request reqs -> spi_free s ->
  exists s', (client_cb (Z.of_nat k) ;; spi_rounds n) s = Ret tt s' /\ spi_free s' /\
    transfers (tr s') = transfers (tr s) ++ concat (map (transfer_of tx rx) (drop k reqs)).
Proof.
  revert k s. induction n as [| n IH]; intros k s Hk Hv Hf.
  - assert (k = length reqs) as -> by lia. exists s. rewrite drop_ge by lia. rewrite app_nil_r.
    unfold bind. by rewrite sq_end.
  - destruct (lookup_lt_is_Some_2 reqs k) as [r Hr]; [lia |].
    destruct (queue_start k r s Hr) as (s1 & E1 & H1 & T1); [by apply (Forall_lookup_1 _ _ _ _ Hv Hr) | done |].
    destruct (queue_round (S k) s1 H1) as (s2 & E2 & H2 & T2).
    destruct (IH (S k) s2) as (s' & E3 & H3 & T3); [lia | done | done |].
    exists s'. split; [| split; [done |]].
    + unfold bind at 1. rewrite E1. cbn [spi_rounds]. by rewrite E2.
    + by rewrite T3, T2, T1, (drop_S _ _ _ Hr), <- app_assoc.
Qed.
End Queue.

(** C21: a client whose every callback starts its next transfer gets all of them:
    from a free driver, with any list of valid requests, its first call starts
    the first and [n] rounds of the DMA interrupt and of [jd_spi_process] finish
    all [n].  Each is programmed into the channels and started once, in order,
    nothing else is, no assertion fails on the way, and the driver is free
    again. *)
Theorem spi_queue_completes {E : Env} reqs {SQ : SpiQueue reqs} tx rx s :
  Forall valid_request reqs -> spi_free tx rx s ->
  exists s', (client_cb 0 ;; spi_rounds (length reqs)) s = Ret tt s' /\ spi_free tx rx s' /\
    transfers (tr s') = transfers (tr s) ++ concat (map (transfer_of tx rx) reqs).
Proof. intros Hv Hf. exact (queue_runs reqs tx rx (length reqs) 0 s eq_refl Hv Hf). Qed.

(** Three requests: a write, a read and an exchange. *)
Definition demo_reqs : list request :=
  [mkRequest (mem 16) NULL 4; mkRequest NULL (mem 32) 4096; mkRequest (mem 64) (mem 80) 1].
Definition queue_env : Env :=
  let e := ref_env 0 (fun t r => match r with
      | DMA_INTS0 => Some (match irq_on t with Some c => bit c | None => 0 end)
      | _ => None end) (fun _ _ => 0) (fun _ _ => []) in {|
  rd_reg := @rd_reg e; ret_of := @ret_of e; bytes_of := @bytes_of e; xip := @xip e; fuel := @fuel e;
  JD_MIN_MAX_SLEEP := @JD_MIN_MAX_SLEEP e; jd_max_sleep := @jd_max_sleep e;
  jd_line_falling := ret tt; jd_rx_completed _ := ret tt; jd_tx_completed _ := ret tt;
  client_cb k := match nth_Z demo_reqs k with
    | Some r => jd_spi_xfer (r_tx r) (r_rx r) (r_len r) (Some (cb_client (k + 1))) ;; ret tt
    | None => ret tt
    end;
  reenter _ := ret tt |}.
#[export] Instance demo_queue : @SpiQueue queue_env demo_reqs.
Proof.
  constructor; [| reflexivity | reflexivity].
  intros k r s Hr. cbn [client_cb queue_env]. rewrite (nth_Z_some _ _ r) by (lia || by rewrite Nat2Z.id).
  by rewrite Nat2Z.inj_succ.
Qed.

Lemma spi_queue_completes_witness :
  exists s', (@client_cb queue_env 0 ;; @spi_rounds queue_env 3) spi_demo = Ret tt s' /\ spi_free 1 2 s' /\
    transfers (tr s') = [] ++ concat (map (transfer_of 1 2) demo_reqs).
Proof.
  apply (@spi_queue_completes queue_env demo_reqs demo_queue 1 2 spi_demo).
  - repeat constructor; cbn; lia.
  - split; [| by split; eexists]. unfold spi_ready. split_and!; try reflexivity; try done. by exists 0.
Defined.
