(* ===== verification/SpiSteps.v ===== *)
(** * SpiSteps: an SPI transfer, statement by statement

    The main program starts transfers and runs their callbacks; the DMA interrupt
    ends them in between.  They share [spi_in_use], [spi_done_cb] and an entry of
    the table of handlers.  Here [jd_spi_xfer], with [dma_set_ch_cb] inside it, and
    [jd_spi_process] are program counters that the interrupt may strike between any
    two statements, and together they are refined to a driver that carries out one
    transfer at a time. *)

From S2P Require Import Prelude Events Machine RefEnv Dma Spi Completion.

(** ** Definitions *)

(** The arguments of [jd_spi_xfer]. *)
Record xfer := mkXfer { x_tx : addr; x_rx : addr; x_len : Z; x_fn : option cb_t }.

(** The next statement of the main program.  [m] is [start_ch]; [c] the channel
    [dma_set_ch_cb] was called with. *)
Inductive sp_point :=
| sp_idle                               (* elsewhere, callbacks included *)
(* jd_spi_process *)
| sp_process                            (* f = spi_done_cb; if (f) *)
| sp_take (f : cb_t)                    (* spi_done_cb = NULL *)
| sp_free (f : cb_t)                    (* spi_in_use = 0 *)
| sp_call (f : cb_t)                    (* f() *)
(* jd_spi_xfer *)
| sx_fn (x : xfer)                      (* JD_ASSERT(done_fn != NULL) *)
| sx_ready (x : xfer)                   (* if (!jd_spi_is_ready()) *)
| sx_args (x : xfer)                    (* the checks of numbytes and of the buffers *)
| sx_tx_addr (x : xfer) | sx_tx_count (x : xfer) | sx_tx_mask (x : xfer)
| sx_rx_addr (x : xfer) (m : Z) | sx_rx_count (x : xfer) (m : Z) | sx_rx_mask (x : xfer) (m : Z)
| sx_mark (x : xfer) (m : Z)            (* spi_in_use = true *)
(* dma_set_ch_cb *)
| sx_guard (x : xfer) (m : Z)
| sx_handler (x : xfer) (m c : Z) | sx_context (x : xfer) (m c : Z) | sx_ints (x : xfer) (m c : Z)
| sx_enable (x : xfer) (m c : Z) | sx_icpr (x : xfer) (m c : Z) | sx_iser (x : xfer) (m c : Z)
(* jd_spi_xfer *)
| sx_start (x : xfer) (m c : Z)         (* dma_start_channel_mask(start_ch) *)
| sx_done (r : Z).

Section Operations.
Context {E : Env}.

Definition has_tx (x : xfer) : bool := negb (is_null (x_tx x)).
Definition has_rx (x : xfer) : bool := negb (is_null (x_rx x)).
Definition after_tx (x : xfer) (m : Z) : sp_point := if has_rx x then sx_rx_addr x m else sx_mark x m.

(** One statement, and where it leads.  The call of a callback is only begun. *)
Definition exec_spi (p : sp_point) : M sp_point :=
  match p with
  | sp_idle => ret sp_idle
  | sp_process => let! f := get spi_done_cb in ret (match f with Some f => sp_take f | None => sp_idle end)
  | sp_take f => spi_done_cb <~ None ;; ret (sp_free f)
  | sp_free f => spi_in_use <~ false ;; ret (sp_call f)
  | sp_call f => ret sp_idle
  | sx_fn x => JD_ASSERT (match x_fn x with Some _ => true | None => false end) ;; ret (sx_ready x)
  | sx_ready x => let! ready := jd_spi_is_ready in ret (if negb ready then sx_done (-1) else sx_args x)
  | sx_args x =>
    if BLOCK_SIZE <? x_len x then ret (sx_done (-2))
    else if x_len x =? 0 then ret (sx_done (-3))
    else JD_ASSERT (has_tx x || has_rx x) ;; ret (if has_tx x then sx_tx_addr x else after_tx x 0)
  | sx_tx_addr x =>
    let! ch := get dma_tx in sdk (dma_channel_set_read_addr ch (x_tx x) false) ;; ret (sx_tx_count x)
  | sx_tx_count x =>
    let! ch := get dma_tx in sdk (dma_channel_set_trans_count ch (x_len x) false) ;; ret (sx_tx_mask x)
  | sx_tx_mask x => let! ch := get dma_tx in let! m := c_shl1 ch in ret (after_tx x (Z.lor 0 m))
  | sx_rx_addr x m =>
    let! ch := get dma_rx in sdk (dma_channel_set_write_addr ch (x_rx x) false) ;; ret (sx_rx_count x m)
  | sx_rx_count x m =>
    let! ch := get dma_rx in sdk (dma_channel_set_trans_count ch (x_len x) false) ;; ret (sx_rx_mask x m)
  | sx_rx_mask x m => let! ch := get dma_rx in let! m' := c_shl1 ch in ret (sx_mark x (Z.lor m m'))
  | sx_mark x m => spi_in_use <~ true ;; ret (sx_guard x m)
  | sx_guard x m =>
    let! rx := get dma_rx in
    let! tx := get dma_tx in
    let c := u8 (if has_rx x then rx else tx) in
    if NUM_DMA_CHANNELS <=? c then ret (sx_start x m c)
    else
      let! tbl := get dmaHandler in
      let! e := index tbl c in
      JD_ASSERT (match handler e with Some _ => false | None => true end) ;;
      ret (sx_handler x m c)
  | sx_handler x m c =>
    let! tbl := get dmaHandler in
    let! e := index tbl c in
    store dmaHandler c (mkDMAHandler (context e) (Some spi_dma_cb_handler)) ;;
    ret (sx_context x m c)
  | sx_context x m c =>
    let! tbl := get dmaHandler in
    let! e := index tbl c in
    store dmaHandler c (mkDMAHandler (x_fn x) (handler e)) ;;
    ret (sx_ints x m c)
  | sx_ints x m c => DMA_INTS0 <-~ bit c ;; ret (sx_enable x m c)
  | sx_enable x m c => sdk (dma_channel_set_irq0_enabled c true) ;; ret (sx_icpr x m c)
  | sx_icpr x m c => NVIC_ICPR <-~ bit DMA_IRQ_0 ;; ret (sx_iser x m c)
  | sx_iser x m c => NVIC_ISER <-~ bit DMA_IRQ_0 ;; ret (sx_start x m c)
  | sx_start x m c => sdk (dma_start_channel_mask m) ;; ret (sx_done 0)
  | sx_done r => ret (sx_done r)
  end.

(** Statement after statement to the end of [jd_spi_xfer], and of
    [jd_spi_process] with its callback. *)
Fixpoint to_result (fuel : nat) (p : sp_point) : M Z :=
  match fuel with
  | O => halt NoFuel
  | S fuel => let! q := exec_spi p in match q with sx_done r => ret r | _ => to_result fuel q end
  end.
Fixpoint to_idle (fuel : nat) (p : sp_point) : M unit :=
  match fuel with
  | O => halt NoFuel
  | S fuel =>
    match p with
    | sp_idle => ret tt
    | sp_call f => run_cb f
    | _ => let! q := exec_spi p in to_idle fuel q
    end
  end.
End Operations.

(** *** The specification: one transfer at a time *)

Inductive phase := S_free | S_flying (f : cb_t) | S_done (f : cb_t).
Inductive spi_label := L_start (f : cb_t) | L_end | L_callback (f : cb_t) | L_refused.

Inductive phase_step : spi_label -> phase -> phase -> Prop :=
| ps_start f : phase_step (L_start f) S_free (S_flying f)
| ps_end f : phase_step L_end (S_flying f) (S_done f)
| ps_call f : phase_step (L_callback f) (S_done f) S_free
| ps_refused w : w <> S_free -> phase_step L_refused w w.

(** *** The driver with the DMA interrupt *)

(** Whether the interrupt of channel [ch] is enabled, and whether the channel was
    started since its flag was last cleared. *)
Definition flag_step (ch : Z) (e : event) (fl : bool * bool) : bool * bool :=
  match e with
  | E_call (dma_channel_set_irq0_enabled c b) => if c =? ch then (b, snd fl) else fl
  | E_write DMA_INTS0 m => if Z.testbit m ch then (fst fl, false) else fl
  | E_call (dma_start_channel_mask m) => if Z.testbit m ch then (fst fl, true) else fl
  | _ => fl
  end.
Definition flags (ch : Z) (t : trace) : bool * bool := fold_right (flag_step ch) (false, false) t.

(** A channel interrupts only when enabled, and for a transfer that was started
    since its flag was last cleared. *)
Class SpiDma {E : Env} (tx rx : Z) : Prop :=
  spi_raises t ch : ch = tx \/ ch = rx -> Z.testbit (rd_reg t DMA_INTS0) ch = true -> flags ch t = (true, true).

(** The completion of one of the driver's channels is pending. *)
Definition spi_raised {E : Env} (tx rx ch : Z) (ctx : option cb_t) (s : machine) : Prop :=
  (ch = tx \/ ch = rx) /\ rd_reg (tr s) DMA_INTS0 = bit ch /\
  rd dmaHandler s !! Z.to_nat ch = Some (mkDMAHandler ctx (Some spi_dma_cb_handler)).

(** What the driver sees. *)
Definition spi_view (tx rx : Z) (s : machine) :=
  (m_spi s, length (rd dmaHandler s),
   (rd dmaHandler s !! Z.to_nat tx, flags tx (tr s)), (rd dmaHandler s !! Z.to_nat rx, flags rx (tr s))).

Definition emits (p q : sp_point) : list spi_label :=
  match p, q with
  | sx_start x _ _, _ => match x_fn x with Some f => [L_start f] | None => [] end
  | sp_call f, _ => [L_callback f]
  | sx_ready _, sx_done _ => [L_refused]
  | _, _ => []
  end.

(** The main program starts a transfer or looks for a callback to run, when it is
    elsewhere, which includes its callbacks; anything else - other interrupts,
    other DMA channels - leaves the driver alone. *)
Inductive spi_step {E : Env} (tx rx : Z) : sp_point * machine -> list spi_label -> sp_point * machine -> Prop :=
| ss_xfer x s : spi_step tx rx (sp_idle, s) [] (sx_fn x, s)
| ss_process s : spi_step tx rx (sp_idle, s) [] (sp_process, s)
| ss_exec p q s s' : exec_spi p s = Ret q s' -> spi_step tx rx (p, s) (emits p q) (q, s')
| ss_return r s : spi_step tx rx (sx_done r, s) [] (sp_idle, s)
| ss_irq ch ctx p s s' : spi_raised tx rx ch ctx s -> isr_dma_0 s = Ret tt s' ->
    spi_step tx rx (p, s) [L_end] (p, s')
| ss_other p s s' : spi_view tx rx s' = spi_view tx rx s -> spi_step tx rx (p, s) [] (p, s').

(** ** Calls that nothing interrupts *)

Section Alone.
Context {E : Env}.

Definition is_done (q : sp_point) : bool := match q with sx_done _ => true | _ => false end.
Lemma to_result_ret fuel p q s s' : exec_spi p s = Ret q s' -> is_done q = false ->
  to_result (S fuel) p s = to_result fuel q s'.
Proof. intros He Hq. cbn [to_result]. unfold bind. rewrite He. by destruct q. Qed.
Lemma to_result_done fuel p r s s' : exec_spi p s = Ret (sx_done r) s' -> to_result (S fuel) p s = Ret r s'.
Proof. intros He. cbn [to_result]. unfold bind. by rewrite He. Qed.
Lemma to_result_stop fuel p w s s' : exec_spi p s = Stop w s' -> to_result (S fuel) p s = Stop w s'.
Proof. intros He. cbn [to_result]. unfold bind. by rewrite He. Qed.

Lemma spi_handler_run x m c e s : 0 <= c -> rd dmaHandler s !! Z.to_nat c = Some e ->
  exec_spi (sx_handler x m c) s = Ret (sx_context x m c)
    (wr dmaHandler (<[Z.to_nat c := mkDMAHandler (context e) (Some spi_dma_cb_handler)]> (rd dmaHandler s)) s).
Proof.
  intros Hc He. pose proof (lookup_lt_Some _ _ _ He). cbn [exec_spi]. unfold bind, get.
  rewrite (index_run _ _ e) by done. by rewrite store_run by lia.
Qed.
Lemma spi_context_run x m c e s : 0 <= c -> rd dmaHandler s !! Z.to_nat c = Some e ->
  exec_spi (sx_context x m c) s = Ret (sx_ints x m c)
    (wr dmaHandler (<[Z.to_nat c := mkDMAHandler (x_fn x) (handler e)]> (rd dmaHandler s)) s).
Proof.
  intros Hc He. pose proof (lookup_lt_Some _ _ _ He). cbn [exec_spi]. unfold bind, get.
  rewrite (index_run _ _ e) by done. by rewrite store_run by lia.
Qed.

Lemma ints_statements fuel x m c s : to_result (5 + fuel) (sx_ints x m c) s =
  (DMA_INTS0 <-~ bit c ;; sdk (dma_channel_set_irq0_enabled c true) ;; ram_irq_set_enabled DMA_IRQ_0 true ;;
   sdk (dma_start_channel_mask m) ;; ret 0) s.
Proof. reflexivity. Qed.

Lemma handler_statements fuel x m c e s : 0 <= c -> rd dmaHandler s !! Z.to_nat c = Some e ->
  to_result (7 + fuel) (sx_handler x m c) s =
  (store dmaHandler c (mkDMAHandler (x_fn x) (Some spi_dma_cb_handler)) ;;
   DMA_INTS0 <-~ bit c ;; sdk (dma_channel_set_irq0_enabled c true) ;; ram_irq_set_enabled DMA_IRQ_0 true ;;
   sdk (dma_start_channel_mask m) ;; ret 0) s.
Proof.
  intros Hc He. pose proof (lookup_lt_Some _ _ _ He) as Hl. change (7 + fuel)%nat with (S (S (5 + fuel))).
  erewrite to_result_ret; [| by apply (spi_handler_run x m c e) | done]. set (e1 := mkDMAHandler _ _).
  set (s1 := wr _ _ s). assert (rd dmaHandler s1 = <[Z.to_nat c := e1]> (rd dmaHandler s)) as H1 by done.
  erewrite to_result_ret; [| apply (spi_context_run x m c e1); [done | rewrite H1; by apply list_lookup_insert_eq] | done].
  rewrite ints_statements, H1, list_insert_insert_eq. unfold bind at 5. by rewrite store_run by lia.
Qed.

Lemma guard_statements fuel x m s : to_result (8 + fuel) (sx_guard x m) s =
  (let! rx := get dma_rx in
   let! tx := get dma_tx in
   dma_set_ch_cb (if has_rx x then rx else tx) (Some spi_dma_cb_handler) (x_fn x) ;;
   sdk (dma_start_channel_mask m) ;; ret 0) s.
Proof.
  rewrite !bind_get. unfold dma_set_ch_cb. set (c := u8 _). cbv zeta.
  assert (0 <= c) as Hc by (apply Z.mod_pos_bound; lia). change (8 + fuel)%nat with (S (7 + fuel)).
  destruct (NUM_DMA_CHANNELS <=? c) eqn:Hn.
  { rewrite (to_result_ret _ _ (sx_start x m c) s s); [done | | done]. cbn [exec_spi]. rewrite !bind_get. fold c.
    cbv zeta. by rewrite Hn. }
  rewrite bind_assoc, bind_get. destruct (rd dmaHandler s !! Z.to_nat c) as [e |] eqn:He.
  2:{ assert (index (rd dmaHandler s) c s = Stop UB s) as Hi.
      { unfold index, nth_Z. by rewrite (proj2 (Z.ltb_ge c 0)), He by done. }
      rewrite (to_result_stop _ _ UB s s); [unfold bind at 2; unfold bind at 1; by rewrite Hi |].
      cbn [exec_spi]. rewrite !bind_get. fold c. cbv zeta. rewrite Hn, bind_get. unfold bind. by rewrite Hi. }
  rewrite bind_assoc, (bind_ret (index _ _) _ s e s) by (by apply index_run).
  assert (exec_spi (sx_guard x m) s =
    (JD_ASSERT (match handler e with Some _ => false | None => true end) ;; ret (sx_handler x m c)) s) as Hx.
  { cbn [exec_spi]. rewrite !bind_get. fold c. cbv zeta. rewrite Hn, bind_get.
    by rewrite (bind_ret (index _ _) _ s e s) by (by apply index_run). }
  destruct (handler e) as [h |]; [by rewrite (to_result_stop _ _ Panic s s) |].
  rewrite (to_result_ret _ _ (sx_handler x m c) s s) by done.
  rewrite (handler_statements _ _ _ _ e) by done. pose proof (lookup_lt_Some _ _ _ He).
  unfold bind. cbn [JD_ASSERT]. unfold ret. by rewrite store_run by lia.
Qed.

(** From the end of the channels' programming. *)
Definition start_rest (x : xfer) (m : Z) : M Z :=
  spi_in_use <~ true ;;
  let! rx := get dma_rx in
  let! tx := get dma_tx in
  dma_set_ch_cb (if has_rx x then rx else tx) (Some spi_dma_cb_handler) (x_fn x) ;;
  sdk (dma_start_channel_mask m) ;; ret 0.
Lemma mark_statements fuel x m s : to_result (9 + fuel) (sx_mark x m) s = start_rest x m s.
Proof.
  change (9 + fuel)%nat with (S (8 + fuel)). rewrite (to_result_ret _ _ (sx_guard x m) s (wr spi_in_use true s)) by done.
  apply guard_statements.
Qed.

Definition rx_part (x : xfer) (m : Z) : M Z :=
  if has_rx x then
    let! ch := get dma_rx in
    sdk (dma_channel_set_write_addr ch (x_rx x) false) ;;
    sdk (dma_channel_set_trans_count ch (x_len x) false) ;;
    let! m' := c_shl1 ch in
    ret (Z.lor m m')
  else ret m.
Lemma rx_statements fuel x m s : to_result (12 + fuel) (after_tx x m) s = (let! m := rx_part x m in start_rest x m) s.
Proof.
  unfold after_tx, rx_part. destruct (has_rx x); [| exact (mark_statements (3 + fuel) x m s)].
  change (12 + fuel)%nat with (S (S (S (9 + fuel)))).
  set (s1 := emit (E_call (dma_channel_set_write_addr (rd dma_rx s) (x_rx x) false)) s).
  rewrite (to_result_ret _ _ (sx_rx_count x m) s s1) by done.
  set (s2 := emit (E_call (dma_channel_set_trans_count (rd dma_rx s1) (x_len x) false)) s1).
  rewrite (to_result_ret _ _ (sx_rx_mask x m) s1 s2) by done.
  change ((let! m := _ in start_rest x m) s) with
    ((let! m := (let! m' := c_shl1 (rd dma_rx s2) in ret (Z.lor m m')) in start_rest x m) s2).
  rewrite bind_assoc. unfold bind at 1. destruct (c_shl1 (rd dma_rx s2) s2) as [m' s3 | w s3] eqn:Hm.
  - rewrite (to_result_ret _ _ (sx_mark x (Z.lor m m')) s2 s3); [exact (mark_statements fuel x (Z.lor m m') s3) | | done].
    cbn [exec_spi]. rewrite bind_get. unfold bind. by rewrite Hm.
  - rewrite (to_result_stop _ _ w s2 s3); [done |]. cbn [exec_spi]. rewrite bind_get. unfold bind. by rewrite Hm.
Qed.

Definition tx_part (x : xfer) : M Z :=
  if has_tx x then
    let! ch := get dma_tx in
    sdk (dma_channel_set_read_addr ch (x_tx x) false) ;;
    sdk (dma_channel_set_trans_count ch (x_len x) false) ;;
    let! m := c_shl1 ch in
    ret (Z.lor 0 m)
  else ret 0.
Lemma tx_statements fuel x s :
  to_result (15 + fuel) (if has_tx x then sx_tx_addr x else after_tx x 0) s =
  (let! m := tx_part x in let! m := rx_part x m in start_rest x m) s.
Proof.
  unfold tx_part. destruct (has_tx x); [| exact (rx_statements (3 + fuel) x 0 s)].
  change (15 + fuel)%nat with (S (S (S (12 + fuel)))).
  set (s1 := emit (E_call (dma_channel_set_read_addr (rd dma_tx s) (x_tx x) false)) s).
  rewrite (to_result_ret _ _ (sx_tx_count x) s s1) by done.
  set (s2 := emit (E_call (dma_channel_set_trans_count (rd dma_tx s1) (x_len x) false)) s1).
  rewrite (to_result_ret _ _ (sx_tx_mask x) s1 s2) by done.
  change ((let! m := _ in let! m := rx_part x m in start_rest x m) s) with
    ((let! m := (let! m := c_shl1 (rd dma_tx s2) in ret (Z.lor 0 m)) in let! m := rx_part x m in start_rest x m) s2).
  rewrite bind_assoc. unfold bind at 1. destruct (c_shl1 (rd dma_tx s2) s2) as [m s3 | w s3] eqn:Hm.
  - rewrite (to_result_ret _ _ (after_tx x (Z.lor 0 m)) s2 s3); [exact (rx_statements fuel x (Z.lor 0 m) s3) | |].
    + cbn [exec_spi]. rewrite bind_get. unfold bind. by rewrite Hm.
    + unfold after_tx. by destruct (has_rx x).
  - rewrite (to_result_stop _ _ w s2 s3); [done |]. cbn [exec_spi]. rewrite bind_get. unfold bind. by rewrite Hm.
Qed.

(** Nothing interrupting, the statements are [jd_spi_xfer] and
    [jd_spi_process], from every state. *)
Theorem xfer_statements x s :
  to_result 18 (sx_fn x) s = jd_spi_xfer (x_tx x) (x_rx x) (x_len x) (x_fn x) s.
Proof.
  unfold jd_spi_xfer. destruct (x_fn x) as [f |] eqn:Hf;
    [| by rewrite (to_result_stop _ _ Panic s s) by (cbn [exec_spi]; by rewrite Hf)].
  rewrite (to_result_ret _ _ (sx_ready x) s s) by (try done; cbn [exec_spi]; by rewrite Hf).
  cbn [JD_ASSERT]. unfold bind at 1, ret at 1. assert (exists b, jd_spi_is_ready s = Ret b s) as [b Hb] by (eexists; reflexivity).
  rewrite (bind_ret jd_spi_is_ready _ s b s Hb). destruct b; cbn [negb].
  2:{ apply to_result_done. cbn [exec_spi]. by rewrite (bind_ret jd_spi_is_ready _ s false s Hb). }
  rewrite (to_result_ret _ _ (sx_args x) s s) by (try done; cbn [exec_spi]; by rewrite (bind_ret jd_spi_is_ready _ s true s Hb)).
  destruct (BLOCK_SIZE <? x_len x) eqn:H1; [apply to_result_done; cbn [exec_spi]; by rewrite H1 |].
  destruct (x_len x =? 0) eqn:H2; [apply to_result_done; cbn [exec_spi]; by rewrite H1, H2 |].
  change (negb (is_null (x_tx x)) || negb (is_null (x_rx x))) with (has_tx x || has_rx x).
  destruct (has_tx x || has_rx x) eqn:H3;
    [| by rewrite (to_result_stop _ _ Panic s s) by (cbn [exec_spi]; by rewrite H1, H2, H3)].
  rewrite (to_result_ret _ _ (if has_tx x then sx_tx_addr x else after_tx x 0) s s).
  - etransitivity; [exact (tx_statements 0 x s) |]. unfold tx_part, rx_part, start_rest. by rewrite Hf.
  - cbn [exec_spi]. by rewrite H1, H2, H3.
  - unfold after_tx. by destruct (has_tx x), (has_rx x).
Qed.
Theorem process_statements s : to_idle 4 sp_process s = jd_spi_process s.
Proof.
  unfold jd_spi_process. cbn [to_idle exec_spi]. rewrite bind_assoc, !bind_get. unfold bind, ret, put.
  by destruct (rd spi_done_cb s).
Qed.
End Alone.

(** ** The simulation *)

Section Simulation.
Context {E : Env} (tx rx : Z).

Definition mine (ch : Z) : Prop := ch = tx \/ ch = rx.
Definition set_up (s : machine) : Prop :=
  0 <= tx < 12 /\ 0 <= rx < 12 /\ length (rd dmaHandler s) = 12%nat /\
  rd dma_tx s = tx /\ rd dma_rx s = rx /\ exists i, rd spi s = Some i.

(** Nobody waits for the channel and its interrupt is off. *)
Definition unarmed (ch : Z) (s : machine) : Prop :=
  (exists ctx, rd dmaHandler s !! Z.to_nat ch = Some (mkDMAHandler ctx None)) /\ fst (flags ch (tr s)) = false.
Definition all_quiet (s : machine) : Prop := forall ch, mine ch -> unarmed ch s.
Definition quiet_but (c : Z) (s : machine) : Prop := forall ch, mine ch -> ch <> c -> unarmed ch s.
Definition entry (c : Z) (ctx : option cb_t) (s : machine) : Prop :=
  mine c /\ rd dmaHandler s !! Z.to_nat c = Some (mkDMAHandler ctx (Some spi_dma_cb_handler)) /\ quiet_but c s.

Definition vars (u : bool) (d : option cb_t) (s : machine) : Prop := rd spi_in_use s = u /\ rd spi_done_cb s = d.

Definition phase_ok (w : phase) (s : machine) : Prop :=
  match w with
  | S_free => vars false None s /\ all_quiet s
  | S_flying f => vars true None s /\ exists c, entry c (Some f) s
  | S_done f => vars true (Some f) s /\ all_quiet s
  end.

Definition point_ok (p : sp_point) (w : phase) (s : machine) : Prop :=
  match p with
  | sp_idle | sp_process | sx_fn _ | sx_done _ => phase_ok w s
  | sx_ready x => x_fn x <> None /\ phase_ok w s
  | sp_take f => w = S_done f /\ phase_ok w s
  | sp_free f => w = S_done f /\ vars true None s /\ all_quiet s
  | sp_call f => w = S_done f /\ phase_ok S_free s
  | sx_args x | sx_tx_addr x | sx_tx_count x | sx_tx_mask x
  | sx_rx_addr x _ | sx_rx_count x _ | sx_rx_mask x _ | sx_mark x _ =>
    x_fn x <> None /\ w = S_free /\ phase_ok w s
  | sx_guard x _ => x_fn x <> None /\ w = S_free /\ vars true None s /\ all_quiet s
  | sx_handler x _ c => x_fn x <> None /\ w = S_free /\ vars true None s /\ all_quiet s /\ mine c
  | sx_context x _ c =>
    x_fn x <> None /\ w = S_free /\ vars true None s /\ (exists ctx, entry c ctx s) /\ fst (flags c (tr s)) = false
  | sx_ints x _ c =>
    x_fn x <> None /\ w = S_free /\ vars true None s /\ entry c (x_fn x) s /\ fst (flags c (tr s)) = false
  | sx_enable x _ c | sx_icpr x _ c | sx_iser x _ c | sx_start x _ c =>
    x_fn x <> None /\ w = S_free /\ vars true None s /\ entry c (x_fn x) s /\ snd (flags c (tr s)) = false
  end.
Definition ok (p : sp_point) (w : phase) (s : machine) : Prop := set_up s /\ point_ok p w s.

(** All of this is about the view. *)
Lemma view_at ch s s' : spi_view tx rx s' = spi_view tx rx s -> mine ch ->
  rd dmaHandler s' !! Z.to_nat ch = rd dmaHandler s !! Z.to_nat ch /\ flags ch (tr s') = flags ch (tr s).
Proof. unfold spi_view. intros Hv [-> | ->]; by simplify_eq. Qed.
Lemma view_unarmed ch s s' : spi_view tx rx s' = spi_view tx rx s -> mine ch -> unarmed ch s -> unarmed ch s'.
Proof. intros Hv Hc. unfold unarmed. by destruct (view_at ch s s' Hv Hc) as [-> ->]. Qed.
Lemma view_quiet s s' : spi_view tx rx s' = spi_view tx rx s -> all_quiet s -> all_quiet s'.
Proof. intros Hv Ha ch Hc. apply (view_unarmed ch s); auto. Qed.
Lemma view_entry c ctx s s' : spi_view tx rx s' = spi_view tx rx s -> entry c ctx s -> entry c ctx s'.
Proof.
  intros Hv (Hc & He & Hq). split; [done |]. split; [by destruct (view_at c s s' Hv Hc) as [-> _] |].
  intros ch Hm Hn. apply (view_unarmed ch s); auto.
Qed.
Lemma view_vars u d s s' : spi_view tx rx s' = spi_view tx rx s -> vars u d s -> vars u d s'.
Proof. unfold spi_view, vars, rd. cbn. intros Hv. assert (m_spi s' = m_spi s) as -> by congruence. done. Qed.
Lemma view_set_up s s' : spi_view tx rx s' = spi_view tx rx s -> set_up s -> set_up s'.
Proof.
  unfold spi_view, set_up. intros Hv (? & ? & Hl & ? & ? & ?). assert (m_spi s' = m_spi s) as Hs by congruence.
  assert (length (rd dmaHandler s') = length (rd dmaHandler s)) as -> by congruence.
  unfold rd in *. cbn in *. rewrite Hs. repeat first [assumption | split].
Qed.
Lemma view_flag c s s' : spi_view tx rx s' = spi_view tx rx s -> mine c -> flags c (tr s') = flags c (tr s).
Proof. intros Hv Hc. by destruct (view_at c s s' Hv Hc). Qed.

Lemma view_phase w s s' : spi_view tx rx s' = spi_view tx rx s -> phase_ok w s -> phase_ok w s'.
Proof.
  intros Hv. destruct w; intros [H1 H2]; (split; [by apply (view_vars _ _ s) |]).
  - by apply (view_quiet s).
  - destruct H2 as [c H2]. exists c. by apply (view_entry _ _ s).
  - by apply (view_quiet s).
Qed.
Lemma view_ok p w s s' : spi_view tx rx s' = spi_view tx rx s -> ok p w s -> ok p w s'.
Proof.
  intros Hv [Hset Hp]. split; [by apply (view_set_up s) |].
  pose proof (view_phase) as Hph. pose proof view_quiet as Hq. pose proof view_entry as He. pose proof view_vars as Hx.
  destruct p; cbn [point_ok] in *; try (by apply (Hph w s));
    repeat match goal with H : _ /\ _ |- _ => destruct H | H : exists _, _ |- _ => destruct H end; subst;
    split_and!; try done; try (by eapply Hph); try (by eapply Hq); try (by eapply Hx); try (eexists; by eapply He);
    try (by eapply He);
    match goal with H : entry ?c _ _ |- context [flags ?c _] => by rewrite (view_flag c s s' Hv (proj1 H)) end.
Qed.

(** *** The statements *)

(** An event that is not about the flags of DMA channels. *)
Lemma view_emit e s : (forall ch fl, flag_step ch e fl = fl) -> spi_view tx rx (emit e s) = spi_view tx rx s.
Proof.
  intros He. unfold spi_view.
  change (flags ?ch (tr (emit e s))) with (flag_step ch e (flags ch (tr s))). by rewrite !He.
Qed.
Lemma spi_quiet_exec p q w e s : (forall ch fl, flag_step ch e fl = fl) -> (forall s, point_ok p w s -> point_ok q w s) ->
  ok p w s -> ok q w (emit e s).
Proof.
  intros He Hpq Hok. apply (view_ok q w s); [by apply view_emit |]. destruct Hok as [H1 H2]. split; [done | by apply Hpq].
Qed.

Lemma mine_range s ch : set_up s -> mine ch -> 0 <= ch < 12.
Proof. by intros (? & ? & _) [-> | ->]. Qed.
Lemma testbit_bit_ne i j : 0 <= i -> 0 <= j -> i <> j -> Z.testbit (bit i) j = false.
Proof. intros. rewrite testbit_bit by lia. by apply Z.eqb_neq. Qed.

(** The table with a new entry for [c]. *)
Lemma set_up_table tbl s : length tbl = length (rd dmaHandler s) -> set_up s -> set_up (wr dmaHandler tbl s).
Proof. intros Hl (? & ? & ? & ?). unfold set_up. vsimp. rewrite Hl. repeat first [assumption | split]. Qed.
Lemma spi_unarmed_insert c e ch s : set_up s -> mine c -> mine ch -> ch <> c -> unarmed ch s ->
  unarmed ch (wr dmaHandler (<[Z.to_nat c := e]> (rd dmaHandler s)) s).
Proof.
  intros Hs Hc Hch Hne [[ctx He] Hf]. pose proof (mine_range s c Hs Hc). pose proof (mine_range s ch Hs Hch).
  split; [| done]. exists ctx. vsimp. by rewrite list_lookup_insert_ne by lia.
Qed.
Lemma entry_insert c ctx s : set_up s -> mine c -> quiet_but c s ->
  entry c ctx (wr dmaHandler (<[Z.to_nat c := mkDMAHandler ctx (Some spi_dma_cb_handler)]> (rd dmaHandler s)) s).
Proof.
  intros Hs Hc Hq. split; [done |]. split; [| intros ch H1 H2; apply spi_unarmed_insert; auto].
  pose proof (mine_range s c Hs Hc). destruct Hs as (_ & _ & Hl & _). vsimp. apply list_lookup_insert_eq. lia.
Qed.

Lemma spi_guard_run x m w s : ok (sx_guard x m) w s ->
  exec_spi (sx_guard x m) s = Ret (sx_handler x m (if has_rx x then rx else tx)) s.
Proof.
  intros [Hs (Hf & -> & Hv & Hq)]. pose proof Hs as (H1 & H2 & Hl & H3 & H4 & _). cbn [exec_spi].
  rewrite !bind_get, H3, H4. set (c := if has_rx x then rx else tx).
  assert (mine c) as Hc by (unfold c, mine; destruct (has_rx x); auto). pose proof (mine_range s c Hs Hc).
  rewrite (u8_id c) by lia. cbv zeta. change NUM_DMA_CHANNELS with 12.
  rewrite (proj2 (Z.leb_gt 12 c)), bind_get by lia. destruct (Hq c Hc) as [[ctx He] _].
  rewrite (bind_ret (index _ _) _ s (mkDMAHandler ctx None) s) by (apply index_run; [lia | done]). reflexivity.
Qed.
Lemma guard_sim x m w q s s' : ok (sx_guard x m) w s -> exec_spi (sx_guard x m) s = Ret q s' -> ok q w s'.
Proof.
  intros Hok. rewrite (spi_guard_run x m w s Hok). intros [= <- <-]. destruct Hok as [Hs (Hf & -> & Hv & Hq)].
  split; [done |]. split_and!; try done. unfold mine. destruct (has_rx x); auto.
Qed.

Lemma spi_handler_sim x m c w q s s' : ok (sx_handler x m c) w s -> exec_spi (sx_handler x m c) s = Ret q s' -> ok q w s'.
Proof.
  intros [Hs (Hf & -> & Hv & Hq & Hc)] Hr. destruct (Hq c Hc) as [[ctx He] Hfl].
  rewrite (spi_handler_run x m c (mkDMAHandler ctx None)) in Hr by (done || by apply (mine_range s c Hs)).
  injection Hr as <- <-. split; [apply set_up_table; [by rewrite length_insert | done] |].
  split; [done |]. split; [done |]. split; [exact Hv |]. split; [| exact Hfl].
  exists ctx. apply entry_insert; [done | done |]. intros ch Hm _. by apply Hq.
Qed.
Lemma context_sim x m c w q s s' : ok (sx_context x m c) w s -> exec_spi (sx_context x m c) s = Ret q s' -> ok q w s'.
Proof.
  intros [Hs (Hf & -> & Hv & (ctx & Hc & He & Hq) & Hfl)] Hr.
  rewrite (spi_context_run x m c _ s (proj1 (mine_range s c Hs Hc)) He) in Hr.
  injection Hr as <- <-. split; [apply set_up_table; [by rewrite length_insert | done] |].
  split; [done |]. split; [done |]. split; [exact Hv |]. split; [| exact Hfl]. by apply entry_insert.
Qed.

(** Clearing the flag and enabling the interrupt of [c]. *)
Lemma entry_emit e c ctx s : (forall ch fl, mine ch -> ch <> c -> flag_step ch e fl = fl) ->
  entry c ctx s -> entry c ctx (emit e s).
Proof.
  intros He (Hc & Hh & Hq). split; [done |]. split; [done |]. intros ch Hm Hn. destruct (Hq ch Hm Hn) as [H1 H2].
  split; [done |]. change (flags ch (tr (emit e s))) with (flag_step ch e (flags ch (tr s))). by rewrite He.
Qed.
Lemma ints_sim x m c w s : ok (sx_ints x m c) w s -> ok (sx_enable x m c) w (emit (E_write DMA_INTS0 (bit c)) s).
Proof.
  intros [Hs (Hf & -> & Hv & Hen & Hfl)]. split; [done |]. pose proof (mine_range s c Hs (proj1 Hen)).
  split; [done |]. split; [done |]. split; [exact Hv |]. split.
  - apply entry_emit; [| done]. intros ch fl Hm Hn. cbn [flag_step]. pose proof (mine_range s ch Hs Hm).
    by rewrite testbit_bit_ne by lia.
  - change (flags c (tr (emit ?e s))) with (flag_step c e (flags c (tr s))). cbn [flag_step].
    by rewrite testbit_bit, Z.eqb_refl by lia.
Qed.
Lemma enable_sim x m c w s : ok (sx_enable x m c) w s ->
  ok (sx_icpr x m c) w (emit (E_call (dma_channel_set_irq0_enabled c true)) s).
Proof.
  intros [Hs (Hf & -> & Hv & Hen & Hfl)]. split; [done |]. split; [done |]. split; [done |]. split; [exact Hv |]. split.
  - apply entry_emit; [| done]. intros ch fl Hm Hn. cbn [flag_step]. by rewrite (proj2 (Z.eqb_neq c ch)) by auto.
  - change (flags c (tr (emit ?e s))) with (flag_step c e (flags c (tr s))). cbn [flag_step]. by rewrite Z.eqb_refl.
Qed.
Lemma spi_start_sim x m c w s f : x_fn x = Some f -> ok (sx_start x m c) w s ->
  w = S_free /\ ok (sx_done 0) (S_flying f) (emit (E_call (dma_start_channel_mask m)) s).
Proof.
  intros Hx [Hs (_ & -> & Hv & Hen & _)]. split; [done |]. split; [done |]. split; [exact Hv |]. exists c.
  rewrite Hx in Hen. destruct Hen as (Hc & Hh & Hq). split; [done |]. split; [done |].
  intros ch Hm Hn. destruct (Hq ch Hm Hn) as [H1 H2]. split; [done |].
  change (flags ch (tr (emit ?e s))) with (flag_step ch e (flags ch (tr s))). cbn [flag_step].
  by destruct (Z.testbit m ch).
Qed.

(** A statement that shows no label. *)
Definition silent (p q : sp_point) (w : phase) (s s' : machine) : Prop :=
  ok p w s -> exec_spi p s = Ret q s' -> ok q w s'.

Lemma process_sim w q s s' : silent sp_process q w s s'.
Proof.
  intros [Hs Hp] [= <- <-]. split; [done |]. destruct w as [| f | f]; destruct Hp as [[Hu Hd] Hq];
    unfold rd in Hd; cbn in Hd; rewrite Hd; done.
Qed.
Lemma take_sim f w q s s' : silent (sp_take f) q w s s'.
Proof. intros [Hs (-> & [Hu Hd] & Hq)] [= <- <-]. split; [done |]. by split_and!. Qed.
Lemma free_sim f w q s s' : silent (sp_free f) q w s s'.
Proof. intros [Hs (-> & [Hu Hd] & Hq)] [= <- <-]. split; [done |]. by split_and!. Qed.
Lemma fn_sim x w q s s' : silent (sx_fn x) q w s s'.
Proof. intros [Hs Hp]. cbn [exec_spi]. destruct (x_fn x) eqn:Hf; [| done]. intros [= <- <-]. split; [done |]. split; [by rewrite Hf | done]. Qed.
Lemma after_tx_ok x m w s : x_fn x <> None -> w = S_free -> phase_ok w s -> point_ok (after_tx x m) w s.
Proof. intros. unfold after_tx. destruct (has_rx x); by split_and!. Qed.
Lemma args_sim x w q s s' : silent (sx_args x) q w s s'.
Proof.
  intros [Hs (Hf & Hw & Hp)]. cbn [exec_spi]. destruct (BLOCK_SIZE <? x_len x); [by intros [= <- <-] |].
  destruct (x_len x =? 0); [by intros [= <- <-] |]. destruct (has_tx x || has_rx x); [| done].
  intros [= <- <-]. split; [done |]. destruct (has_tx x); [by split_and! | by apply after_tx_ok].
Qed.
Lemma shl_same n s m s' : c_shl1 n s = Ret m s' -> s' = s.
Proof. unfold c_shl1. destruct (_ && _); [by intros [= _ <-] | done]. Qed.
Lemma tx_mask_sim x w q s s' : silent (sx_tx_mask x) q w s s'.
Proof.
  intros [Hs (Hf & Hw & Hp)]. cbn [exec_spi]. rewrite bind_get. intros (m & s1 & H1%shl_same & [= <- <-])%bind_inv.
  subst s1. split; [done |]. by apply after_tx_ok.
Qed.
Lemma rx_mask_sim x m w q s s' : silent (sx_rx_mask x m) q w s s'.
Proof.
  intros [Hs (Hf & Hw & Hp)]. cbn [exec_spi]. rewrite bind_get. intros (m' & s1 & H1%shl_same & [= <- <-])%bind_inv.
  subst s1. split; [done |]. by split_and!.
Qed.
Lemma mark_sim x m w q s s' : silent (sx_mark x m) q w s s'.
Proof. intros [Hs (Hf & -> & [Hu Hd] & Hq)] [= <- <-]. split; [done |]. by split_and!. Qed.

(** A transfer is refused exactly while another one is under way. *)
Lemma ready_sim x w q s s' : ok (sx_ready x) w s -> exec_spi (sx_ready x) s = Ret q s' ->
  exists w', accepts phase_step (emits (sx_ready x) q) w w' /\ ok q w' s'.
Proof.
  intros [Hs (Hf & Hp)] Hr. pose proof Hs as (_ & _ & _ & _ & _ & i & Hi).
  assert (exec_spi (sx_ready x) s = Ret (if rd spi_in_use s then sx_done (-1) else sx_args x) s) as E1.
  { cbn [exec_spi]. unfold jd_spi_is_ready. rewrite bind_assoc, bind_get, bind_assoc, bind_get, Hi.
    unfold bind, ret. by destruct (rd spi_in_use s). }
  rewrite E1 in Hr. clear E1. exists w.
  destruct w as [| f | f]; pose proof Hp as [[Hu Hd] Hq]; rewrite Hu in Hr; injection Hr as <- <-;
    (split; [first [by apply accepts_one, ps_refused | apply acc_nil] | split; [done |]]); by split_and!.
Qed.

Lemma spi_exec_sim p q w s s' : ok p w s -> exec_spi p s = Ret q s' ->
  exists w', accepts phase_step (emits p q) w w' /\ ok q w' s'.
Proof.
  intros Hok He.
  assert ((emits p q = [] /\ ok q w s') \/ (exists f, p = sp_call f) \/ (exists x, p = sx_ready x) \/
    (exists x m c, p = sx_start x m c)) as [[-> H] | [[f ->] | [[x ->] | (x & m & c & ->)]]].
  { destruct p; eauto 7; left; (split; [by destruct q |]).
    - by injection He as <- <-.
    - by apply (process_sim w q s).
    - by apply (take_sim f w q s).
    - by apply (free_sim f w q s).
    - by apply (fn_sim x w q s).
    - by apply (args_sim x w q s).
    - injection He as <- <-. by apply (spi_quiet_exec (sx_tx_addr x)).
    - injection He as <- <-. by apply (spi_quiet_exec (sx_tx_count x)).
    - by apply (tx_mask_sim x w q s).
    - injection He as <- <-. by apply (spi_quiet_exec (sx_rx_addr x m)).
    - injection He as <- <-. by apply (spi_quiet_exec (sx_rx_count x m)).
    - by apply (rx_mask_sim x m w q s).
    - by apply (mark_sim x m w q s).
    - by apply (guard_sim x m w q s).
    - by apply (spi_handler_sim x m c w q s).
    - by apply (context_sim x m c w q s).
    - injection He as <- <-. by apply ints_sim.
    - injection He as <- <-. by apply enable_sim.
    - injection He as <- <-. by apply (spi_quiet_exec (sx_icpr x m c)).
    - injection He as <- <-. by apply (spi_quiet_exec (sx_iser x m c)).
    - by injection He as <- <-. }
  - exists w. split; [apply acc_nil | done].
  - injection He as <- <-. destruct Hok as [Hs (-> & Hp)]. exists S_free. split; [by apply accepts_one, ps_call | done].
  - by apply (ready_sim x w q s).
  - injection He as <- <-. destruct (x_fn x) as [f |] eqn:Hf; [| by destruct Hok as [_ [Hn _]]].
    destruct (spi_start_sim x m c w s f Hf Hok) as [-> H]. exists (S_flying f). cbn [emits]. rewrite Hf.
    split; [by apply accepts_one, ps_start | exact H].
Qed.

(** *** The interrupt *)

Context {SD : SpiDma tx rx}.

(** It comes only for a transfer under way, between the calls or before a call
    has looked at [spi_in_use]. *)
Lemma quiet_not_raised ch ctx s : unarmed ch s -> spi_raised tx rx ch ctx s -> False.
Proof. intros [[ctx' He] _] (_ & _ & Hh). congruence. Qed.
Lemma entry_not_raised ch c ctx ctx' s : fst (flags c (tr s)) = false \/ snd (flags c (tr s)) = false -> set_up s ->
  entry c ctx s -> spi_raised tx rx ch ctx' s -> False.
Proof.
  intros Hf Hs (Hc & _ & Hq) Hr. pose proof Hr as (Hch & Hm & _). destruct (decide (ch = c)) as [-> | Hn].
  - assert (flags c (tr s) = (true, true)) as Hfl.
    { apply spi_raises; [done |]. pose proof (mine_range s c Hs Hc). rewrite Hm, testbit_bit by lia. apply Z.eqb_refl. }
    rewrite Hfl in Hf. by destruct Hf.
  - exact (quiet_not_raised ch ctx' s (Hq ch Hch Hn) Hr).
Qed.
Lemma raised_flying p w ch ctx s : ok p w s -> spi_raised tx rx ch ctx s ->
  (exists f, w = S_flying f /\ ctx = Some f /\ entry ch (Some f) s /\ vars true None s) /\
  (forall w' s', set_up s' -> phase_ok w' s' -> ok p w' s').
Proof.
  intros [Hs Hp] Hr. pose proof Hr as (Hch & _ & Hh).
  assert (forall u, all_quiet u -> spi_raised tx rx ch ctx u -> False) as Hno
    by (intros u Hq Hu; exact (quiet_not_raised ch ctx u (Hq ch Hch) Hu)).
  assert (phase_ok w s -> exists f, w = S_flying f /\ ctx = Some f /\ entry ch (Some f) s /\ vars true None s) as Hfly.
  { destruct w as [| f | f]; intros [Hv Hq]; [by destruct (Hno s) | | by destruct (Hno s)].
    destruct Hq as [c He]. destruct (decide (ch = c)) as [-> | Hn].
    - exists f. pose proof He as (_ & He' & _). split; [done |]. split; [congruence |]. by split.
    - exfalso. destruct He as (_ & _ & Hq). exact (quiet_not_raised ch ctx s (Hq ch Hch Hn) Hr). }
  destruct p; cbn [point_ok] in Hp;
    repeat match goal with H : _ /\ _ |- _ => destruct H | H : exists _, _ |- _ => destruct H end; subst;
    try (split; [by apply Hfly | intros w' s' H1 H2; by split_and!]); exfalso;
    try (match goal with H : all_quiet s |- _ => exact (Hno s H Hr) end);
    try (match goal with H : phase_ok (S_done _) s |- _ => exact (Hno s (proj2 H) Hr) end);
    try (match goal with H : phase_ok S_free s |- _ => exact (Hno s (proj2 H) Hr) end);
    match goal with H : entry ?c ?x s |- _ => refine (entry_not_raised ch c x ctx s _ Hs H Hr); auto end.
Qed.

Lemma served_quiet ch ctx s : set_up s -> mine ch -> quiet_but ch s -> all_quiet (served ch ctx s).
Proof.
  intros Hs Hm Hq c Hc. pose proof (mine_range s c Hs Hc). pose proof (mine_range s ch Hs Hm).
  destruct (decide (c = ch)) as [-> | Hn].
  - split; [exists ctx; apply (served_free ch ctx s); destruct Hs as (_ & _ & Hl & _); lia |].
    change (flags ch (tr (served ch ctx s))) with
      (flag_step ch (E_call (dma_channel_set_irq0_enabled ch false)) (flag_step ch (E_write DMA_INTS0 (bit ch)) (flags ch (tr s)))).
    cbn [flag_step]. by rewrite Z.eqb_refl.
  - destruct (Hq c Hc Hn) as [[x Hx] Hf]. split.
    + exists x. unfold served. vsimp. by rewrite list_lookup_insert_ne by lia.
    + change (flags c (tr (served ch ctx s))) with
        (flag_step c (E_call (dma_channel_set_irq0_enabled ch false)) (flag_step c (E_write DMA_INTS0 (bit ch)) (flags c (tr s)))).
      cbn [flag_step]. by rewrite (proj2 (Z.eqb_neq ch c)), testbit_bit_ne by auto with lia.
Qed.

Lemma irq_sim p w ch ctx s : ok p w s -> spi_raised tx rx ch ctx s ->
  exists s' w', isr_dma_0 s = Ret tt s' /\ accepts phase_step [L_end] w w' /\ ok p w' s'.
Proof.
  intros Hok Hr. destruct (raised_flying p w ch ctx s Hok Hr) as [(f & -> & -> & He & Hu & Hd) Hp].
  destruct Hok as [Hs _]. pose proof He as (Hm & _ & Hq). pose proof Hr as (_ & Hi & Hh).
  set (s1 := served ch (Some f) s). exists (wr spi_done_cb (Some f) s1), (S_done f).
  split; [| split; [by apply accepts_one, ps_end |]].
  - rewrite (isr_one ch spi_dma_cb_handler (Some f) s (mine_range s ch Hs Hm) Hi Hh).
    change (spi_dma_cb (Some f) s1 = Ret tt (wr spi_done_cb (Some f) s1)). unfold spi_dma_cb, bind, get.
    change (rd spi_done_cb s1) with (rd spi_done_cb s). by rewrite Hd.
  - apply Hp.
    + destruct Hs as (H1 & H2 & Hl & H3 & H4 & H5). unfold s1, served, set_up. vsimp. rewrite length_insert.
      repeat first [assumption | split].
    + split; [by split |]. exact (served_quiet ch (Some f) s Hs Hm Hq).
Qed.

Lemma spi_step_sim x ls y w : spi_step tx rx x ls y -> ok (fst x) w (snd x) ->
  exists w', accepts phase_step ls w w' /\ ok (fst y) w' (snd y).
Proof.
  intros Hst Hok. destruct Hst as [x s | s | p q s s' He | r s | ch ctx p s s' Hr He | p s s' Hv]; cbn [fst snd] in *.
  - exists w. split; [apply acc_nil | exact Hok].
  - exists w. split; [apply acc_nil | exact Hok].
  - by apply (spi_exec_sim p q w s).
  - exists w. split; [apply acc_nil | exact Hok].
  - destruct (irq_sim p w ch ctx s Hok Hr) as (s1 & w' & E1 & Ha & Hok'). rewrite E1 in He. injection He as <-.
    by exists w'.
  - exists w. split; [apply acc_nil | by apply (view_ok p w s)].
Qed.
End Simulation.

(** ** Concrete runs *)

Inductive turn := go_xfer (x : xfer) | go_process | go_exec | go_return | go_irq (ch : Z).

Section Turns.
Context {E : Env} (tx rx : Z).

Definition turn_of (m : turn) (y : sp_point * machine) : option (list spi_label * (sp_point * machine)) :=
  let (p, s) := y in
  match m with
  | go_xfer x => match p with sp_idle => Some ([], (sx_fn x, s)) | _ => None end
  | go_process => match p with sp_idle => Some ([], (sp_process, s)) | _ => None end
  | go_exec => match exec_spi p s with Ret q s' => Some (emits p q, (q, s')) | Stop _ _ => None end
  | go_return => match p with sx_done _ => Some ([], (sp_idle, s)) | _ => None end
  | go_irq ch =>
    match rd dmaHandler s !! Z.to_nat ch with
    | Some (mkDMAHandler ctx (Some spi_dma_cb_handler)) =>
      if ((ch =? tx) || (ch =? rx)) && (rd_reg (tr s) DMA_INTS0 =? bit ch) then
        match isr_dma_0 s with Ret _ s' => Some ([L_end], (p, s')) | Stop _ _ => None end
      else None
    | _ => None
    end
  end.
Fixpoint turns (ms : list turn) (y : sp_point * machine) : option (list spi_label * (sp_point * machine)) :=
  match ms with
  | [] => Some ([], y)
  | m :: ms =>
    match turn_of m y with
    | Some (ls, z) => match turns ms z with Some (ls', u) => Some (ls ++ ls', u) | None => None end
    | None => None
    end
  end.

Lemma spi_turn_of_sound m y ls z : turn_of m y = Some (ls, z) -> spi_step tx rx y ls z.
Proof.
  destruct y as [p s]. destruct m as [x | | | | ch]; cbn [turn_of].
  - destruct p; try done. intros [= <- <-]. apply ss_xfer.
  - destruct p; try done. intros [= <- <-]. apply ss_process.
  - destruct (exec_spi p s) as [q s' |] eqn:He; [| done]. intros [= <- <-]. by apply ss_exec.
  - destruct p; try done. intros [= <- <-]. apply ss_return.
  - destruct (rd dmaHandler s !! Z.to_nat ch) as [[ctx [[] |]] |] eqn:Hh; try done.
    destruct (((ch =? tx) || (ch =? rx)) && _) eqn:Hc; [| done].
    destruct (isr_dma_0 s) as [[] s' |] eqn:He; [| done]. intros [= <- <-].
    apply andb_prop in Hc as [[H1%Z.eqb_eq | H1%Z.eqb_eq]%orb_prop H2%Z.eqb_eq];
      (apply (ss_irq tx rx ch ctx); [| done]); (split; [auto | by split]).
Qed.
Lemma spi_turns_sound ms y ls z : turns ms y = Some (ls, z) -> lrun (spi_step tx rx) y ls z.
Proof.
  revert y ls. induction ms as [| m ms IH]; intros y ls; cbn [turns]; [intros [= <- <-]; apply lrun_nil |].
  destruct (turn_of m y) as [[ls1 u] |] eqn:Hm; [| done]. destruct (turns ms u) as [[ls2 v] |] eqn:Hu; [| done].
  intros [= <- <-]. apply (lrun_cons _ y u v); [by apply (spi_turn_of_sound m) | by apply IH].
Qed.
End Turns.

(** Channels 1 and 2, which end as soon as they are started. *)
Definition done_now (t : trace) : Z :=
  if bool_decide (flags 2 t = (true, true)) then bit 2 else if bool_decide (flags 1 t = (true, true)) then bit 1 else 0.
Definition steps_env : Env :=
  ref_env 0 (fun t r => match r with DMA_INTS0 => Some (done_now t) | _ => None end) (fun _ _ => 0) (fun _ _ => []).
#[export] Instance steps_dma : @SpiDma steps_env 1 2.
Proof.
  intros t ch Hch. change (Z.testbit (done_now t) ch = true -> flags ch t = (true, true)). unfold done_now.
  destruct (bool_decide (flags 2 t = (true, true))) eqn:H2; [apply bool_decide_eq_true in H2 |
    destruct (bool_decide (flags 1 t = (true, true))) eqn:H1; [apply bool_decide_eq_true in H1 |]];
    destruct Hch as [-> | ->]; try done.
Qed.

Definition demo_turns (ms : list turn) : list spi_label * (sp_point * machine) :=
  default ([], (sp_process, machine_init)) (@turns steps_env 1 2 ms (sp_idle, spi_demo)).

(** ** The theorems *)

(** C5: [spi.c] carries out one transfer at a time.  With the DMA interrupt
    striking between any two statements of [jd_spi_xfer], of [dma_set_ch_cb] inside
    it and of [jd_spi_process], and with new transfers asked for at any time in the
    main program, callbacks included: transfers start only when none is under way
    and are refused exactly while one is; each ends once, and its own callback
    runs once, after it has ended and before the next one starts.  The assertions of
    [dma_set_ch_cb] and of the completion handler never fail. *)
Theorem spi_one_transfer {E : Env} tx rx {SD : SpiDma tx rx} ls s p s' :
  set_up tx rx s -> rd spi_in_use s = false -> rd spi_done_cb s = None -> all_quiet tx rx s ->
  lrun (spi_step tx rx) (sp_idle, s) ls (p, s') ->
  exists w', accepts phase_step ls S_free w' /\
    (p = sp_idle -> (rd spi_in_use s' = true <-> w' <> S_free)) /\
    (forall x m, p = sx_guard x m -> exists q s'', exec_spi p s' = Ret q s'') /\
    (forall ch ctx, spi_raised tx rx ch ctx s' -> exists s'', isr_dma_0 s' = Ret tt s'').
Proof.
  intros Hs Hu Hd Hq Hr.
  destruct (lrun_simulates _ phase_step (fun y w => ok tx rx (fst y) w (snd y)) (spi_step_sim tx rx) _ _ _ Hr S_free)
    as (w' & H1 & Hok); [by split_and! |].
  exists w'. split; [done |]. split; [| split].
  - intros ->. destruct Hok as [_ Hp]. destruct w' as [| f | f]; destruct Hp as [[Hb _] _]; cbn [snd] in Hb; rewrite Hb; by split.
  - intros x m ->. rewrite (spi_guard_run tx rx x m w' s' Hok). eauto.
  - intros ch ctx Hi. destruct (irq_sim tx rx p w' ch ctx s' Hok Hi) as (s'' & _ & E1 & _). by exists s''.
Qed.

(** An exchange; another transfer is refused, the completion striking inside the
    refused call; the callback runs, and a second transfer is started. *)
Definition demo_xfer (tx rx : addr) (k : Z) : xfer := mkXfer tx rx 4 (Some (cb_client k)).
Definition demo_transfers : list turn :=
  [go_xfer (demo_xfer (mem 16) (mem 32) 1)] ++ replicate 18 go_exec ++ [go_return] ++
  [go_xfer (demo_xfer (mem 16) NULL 2); go_exec; go_irq 2; go_exec; go_return] ++
  [go_process; go_exec; go_exec; go_exec; go_exec] ++
  [go_xfer (demo_xfer (mem 48) NULL 3)] ++ replicate 15 go_exec ++ [go_irq 1].

Lemma spi_one_transfer_witness (r := demo_turns demo_transfers) :
  fst r = [L_start (cb_client 1); L_end; L_refused; L_callback (cb_client 1); L_start (cb_client 3); L_end] /\
  exists w', accepts phase_step (fst r) S_free w' /\
    (fst (snd r) = sp_idle -> (rd spi_in_use (snd (snd r)) = true <-> w' <> S_free)) /\
    (forall x m, fst (snd r) = sx_guard x m ->
       exists q s'', exec_spi (fst (snd r)) (snd (snd r)) = Ret q s'') /\
    (forall ch ctx, @spi_raised steps_env 1 2 ch ctx (snd (snd r)) ->
       exists s'', @isr_dma_0 steps_env (@firmware_handlers steps_env) (snd (snd r)) = Ret tt s'').
Proof.
  split; [vm_compute; reflexivity |].
  apply (@spi_one_transfer steps_env 1 2 steps_dma (fst r) spi_demo).
  - unfold set_up. split_and!; try done. by exists 0.
  - reflexivity.
  - reflexivity.
  - intros ch [-> | ->]; (split; [by exists None | reflexivity]).
  - apply (@spi_turns_sound steps_env 1 2 demo_transfers). vm_compute. reflexivity.
Defined.
