(* ===== verification/Main.v ===== *)
(** * Main: the program of [main.c] and the composition of the drivers

    Start-up, the service hook, the endless loop, and the copy of the runtime's
    log to the serial log.  This is where the DMA dispatcher meets the handlers
    of the three drivers that use it. *)

From S2P Require Import Prelude Events Machine Frame RefEnv Irq Dma Pins Tim Uart Spi I2c UartLog Platform Completion.
From S2P Require LwipSock.

(** ** Definitions *)

Definition dmesg_ptr : var Z := {|
  rd s := f_dmesg_ptr (m_main s);
  wr v := upd_main (fun x => {| f_dmesg_ptr := v |}) |}.

Section Operations.
(** [JD_WIFI] is set by the build for boards with a radio; [buf] is the address
    of the static buffer of [dmesg_to_stdout]. *)
Context {E : Env} (JD_WIFI : bool) (buf : Z).

Definition app_init_services : M unit :=
  sdkr devs_service_full_init ;;
  uart_log_sync_pin ;;
  let! r := i2c_init_ in
  when r =? 0 do sdkr jd_scan_all.

Definition dmesg_to_stdout : M bool :=
  let! ok := uart_log_can_write in
  if negb ok then ret true
  else
    let! p := get dmesg_ptr in
    let! bs := sdkb (jd_dmesg_read 128 p) in
    let! p := sdkv (jd_dmesg_next 128 p) in
    dmesg_ptr <~ u32 p ;;
    let len := Z.of_nat (length bs) in
    if negb (len =? 0) then (uart_log_write (mem buf) len ;; ret true)
    else ret false.

(** One turn of the endless loop. *)
Definition main_turn : M unit :=
  sdkr jd_process_everything ;;
  sdk (jd_set_max_sleep 1000) ;;
  (when JD_WIFI do LwipSock.jd_tcpsock_process) ;;
  jd_spi_process ;;
  let! more := dmesg_to_stdout in
  if more : bool then ret tt
  else
    let! frame := sdkv jd_rx_has_frame in
    when negb (z2b frame) do log E_wfe.

Fixpoint main_turns (n : nat) : M unit :=
  match n with O => ret tt | S n => main_turn ;; main_turns n end.

(** [main] up to its [n]-th turn. *)
Definition main (n : nat) : M unit :=
  uart_log_init ;;
  platform_init ;;
  sdkr jd_init ;;
  main_turns n.
End Operations.

(** ** The log buffer

    One static buffer is filled from the runtime's log and read by DMA.  The
    trace tells when channel [ch] is reading, what the buffer holds and what
    has been sent. *)

Fixpoint in_flight (ch : Z) (t : trace) : bool :=
  match t with
  | [] => false
  | E_call (dma_channel_transfer_from_buffer_now c _ _) :: t => if c =? ch then true else in_flight ch t
  | E_call (dma_channel_set_irq0_enabled c false) :: t => if c =? ch then false else in_flight ch t
  | _ :: t => in_flight ch t
  end.

(** The buffer was never filled while it was being read. *)
Fixpoint fills_safe (ch : Z) (t : trace) : Prop :=
  match t with
  | [] => True
  | E_bytes (jd_dmesg_read _ _) _ :: t => in_flight ch t = false /\ fills_safe ch t
  | _ :: t => fills_safe ch t
  end.

(** What the buffer holds, and the bytes handed to the channel, oldest first. *)
Fixpoint buffered (t : trace) : list Z :=
  match t with
  | [] => []
  | E_bytes (jd_dmesg_read _ _) bs :: _ => bs
  | _ :: t => buffered t
  end.
Fixpoint shipped (ch : Z) (t : trace) : list Z :=
  match t with
  | [] => []
  | E_call (dma_channel_transfer_from_buffer_now c _ n) :: t =>
    if c =? ch then shipped ch t ++ take (Z.to_nat n) (buffered t) else shipped ch t
  | _ :: t => shipped ch t
  end.

(** Events that concern neither. *)
Definition not_log (e : event) : bool :=
  match e with
  | E_call (dma_channel_transfer_from_buffer_now _ _ _) => false
  | E_call (dma_channel_set_irq0_enabled _ b) => b
  | E_bytes (jd_dmesg_read _ _) _ => false
  | _ => true
  end.

(** The log owns channel [ch]: its flag says whether the channel is reading,
    its handler is installed exactly then, and nowhere else. *)
Definition log_inv (ch : Z) (s : machine) : Prop :=
  0 <= ch < 12 /\ rd UartLog.dmachTx s = ch /\ length (rd dmaHandler s) = 12%nat /\
  in_flight ch (tr s) = rd in_tx s /\ fills_safe ch (tr s) /\
  (exists e, rd dmaHandler s !! Z.to_nat ch = Some e /\
     handler e = if rd in_tx s then Some uart_log_tx_handler else None) /\
  (forall k e, k <> Z.to_nat ch -> rd dmaHandler s !! k = Some e -> handler e <> Some uart_log_tx_handler).

(** What the runtime and the clients do when called back. *)
Class MainClient {E : Env} (ch : Z) : Prop := {
  main_reenter c : keeps (log_inv ch) (reenter c);
  main_client id : keeps (log_inv ch) (client_cb id);
  main_falling : keeps (log_inv ch) jd_line_falling;
  main_rx n : keeps (log_inv ch) (jd_rx_completed n);
  main_tx n : keeps (log_inv ch) (jd_tx_completed n)
}.

(** ** Lemmas *)

Lemma flight_other ch e t : not_log e = true -> in_flight ch (e :: t) = in_flight ch t /\
  (fills_safe ch (e :: t) <-> fills_safe ch t).
Proof.
  intros He. destruct e as [| | c | c v | c bs | | |]; try done; destruct c; try done.
  cbn in He. subst enabled. done.
Qed.

#[export] Instance log_framed ch : Framed (log_inv ch) not_log.
Proof.
  constructor; [| done]. intros e s He (H1 & H2 & H3 & H4 & H5 & H6 & H7).
  destruct (flight_other ch e (tr s) He) as [F1 F2].
  refine (conj H1 (conj H2 (conj H3 (conj _ (conj _ (conj H6 H7)))))).
  - change (in_flight ch (e :: tr s) = rd in_tx s). by rewrite F1.
  - by apply F2.
Qed.

Section Inv.
Context {E : Env} (ch : Z) {MC : MainClient ch}.

Hint Resolve main_reenter main_client main_falling main_rx main_tx : keeps.

Lemma uart_disable_log : keeps (log_inv ch) uart_disable.
Proof.
  unfold uart_disable, target_disable_irq, target_enable_irq, exti_enable, pin_setup_input,
    pin_setup_output_af, pin_set_pull, gpio_set_pulls_, gpio_set_function_. frame.
Qed.

Lemma wait_log n : keeps (log_inv ch) (target_wait_us n).
Proof. unfold target_wait_us. frame. Qed.
Hint Resolve uart_disable_log wait_log : keeps.

Lemma run_cb_log f : keeps (log_inv ch) (run_cb f).
Proof. destruct f; cbn [run_cb]; auto with keeps. Qed.
Hint Resolve run_cb_log : keeps.

(** The handlers of the other drivers. *)
Lemma handler_log f ctx : f <> uart_log_tx_handler -> keeps (log_inv ch) (run_cb_arg f ctx).
Proof.
  intros Hf. unfold run_cb_arg, firmware_handlers, run_handler. destruct f; [| | | done].
  - unfold Uart.rx_handler, rx_done. frame.
  - unfold Uart.tx_handler, pin_set, pin_setup_output, pin_setup_output_af, gpio_set_function_. frame.
  - unfold spi_dma_cb, JD_ASSERT. frame.
Qed.

(** One channel of the DMA interrupt. *)
Lemma dispatch_log mask k : 0 <= k < 12 -> keeps (log_inv ch) (dispatch mask k).
Proof.
  intros Hk s Hs. unfold dispatch. destruct (z2b _); [| exact Hs].
  pose proof Hs as (H1 & H2 & H3 & H4 & H5 & (e0 & He0 & Hh0) & H7).
  destruct (lookup_lt_is_Some_2 (rd dmaHandler s) (Z.to_nat k)) as [e He]; [lia |].
  unfold wpE, bind at 1, get at 1, bind at 1. rewrite (index_run _ _ e) by (done || lia).
  destruct (handler e) as [f |] eqn:Hf; [| exact Hs].
  unfold bind at 1, sdk at 1, log at 1. set (s1 := emit _ s). unfold bind at 1.
  rewrite store_run by (change (rd dmaHandler s1) with (rd dmaHandler s); lia).
  change (rd dmaHandler s1) with (rd dmaHandler s). set (e' := mkDMAHandler (context e) None).
  set (s2 := wr dmaHandler _ s1).
  assert (in_flight ch (tr s2) = if k =? ch then false else in_flight ch (tr s)) as Ht by done.
  assert (forall j x, j <> Z.to_nat ch -> rd dmaHandler s2 !! j = Some x -> handler x <> Some uart_log_tx_handler) as Hno.
  { intros j x Hj Hx. change (rd dmaHandler s2) with (<[Z.to_nat k := e']> (rd dmaHandler s)) in Hx.
    destruct (decide (j = Z.to_nat k)) as [-> | Hjk];
      [rewrite list_lookup_insert_eq in Hx by lia | rewrite list_lookup_insert_ne in Hx by done; by apply (H7 j)].
    by injection Hx as <-. }
  assert (length (rd dmaHandler s2) = 12%nat) as Hl2
    by (change (length (<[Z.to_nat k := e']> (rd dmaHandler s)) = 12%nat); by rewrite length_insert).
  destruct (Z.eqb_spec k ch) as [-> | Hne].
  - (* the log's own transfer has ended *)
    rewrite He0 in He. injection He as <-. destruct (rd in_tx s); [| congruence].
    rewrite Hh0 in Hf. injection Hf as <-.
    refine (conj H1 (conj H2 (conj Hl2 (conj Ht (conj H5 (conj _ Hno)))))).
    exists e'. split; [| done]. apply list_lookup_insert_eq. lia.
  - (* another driver's *)
    refine (handler_log f (context e) _ s2 _).
    { intros ->. apply (H7 (Z.to_nat k) e); [lia | done | done]. }
    refine (conj H1 (conj H2 (conj Hl2 (conj (eq_trans Ht H4) (conj H5 (conj _ Hno)))))).
    exists e0. split; [| done]. change (<[Z.to_nat k := e']> (rd dmaHandler s) !! Z.to_nat ch = Some e0).
    by rewrite list_lookup_insert_ne by lia.
Qed.

Lemma dispatches_log mask n from : 0 <= from -> from + Z.of_nat n <= 12 ->
  keeps (log_inv ch) (for_ n from (dispatch mask)).
Proof.
  revert from. induction n as [| n IH]; intros from H0 H1; cbn [for_]; [apply keeps_ret |].
  apply keeps_bind; [apply dispatch_log; lia | intros _; apply IH; lia].
Qed.

Lemma isr_log : keeps (log_inv ch) isr_dma_0.
Proof.
  change isr_dma_0 with (let! mask := load DMA_INTS0 in DMA_INTS0 <-~ mask ;; for_ 12 0 (dispatch mask)).
  apply keeps_bind; [frame | intros mask]. apply keeps_bind; [frame | intros _]. apply dispatches_log; lia.
Qed.

(** Sending a buffer that is free. *)
Lemma log_sent_fields buf n s :
  rd UartLog.dmachTx (log_sent ch buf n s) = rd UartLog.dmachTx s /\
  rd dmaHandler (log_sent ch buf n s) =
    <[Z.to_nat ch := mkDMAHandler None (Some uart_log_tx_handler)]> (rd dmaHandler s) /\
  rd in_tx (log_sent ch buf n s) = true /\
  in_flight ch (tr (log_sent ch buf n s)) = true /\
  (fills_safe ch (tr s) -> fills_safe ch (tr (log_sent ch buf n s))).
Proof.
  refine (conj eq_refl (conj eq_refl (conj eq_refl (conj _ (fun H => H))))).
  change ((if ch =? ch then true else in_flight ch (tr s)) = true). by rewrite Z.eqb_refl.
Qed.

Lemma log_sent_inv buf n s : rd in_tx s = false -> log_inv ch s -> log_inv ch (log_sent ch buf n s).
Proof.
  intros Hb (H1 & H2 & H3 & H4 & H5 & _ & H7).
  destruct (log_sent_fields buf n s) as (F1 & F2 & F3 & F4 & F5).
  unfold log_inv. rewrite F1, F2, F3, F4, length_insert.
  refine (conj H1 (conj H2 (conj H3 (conj eq_refl (conj (F5 H5) (conj _ _)))))).
  - eexists. split; [apply list_lookup_insert_eq; lia | done].
  - intros k e Hk He. rewrite list_lookup_insert_ne in He by done. by apply (H7 k e Hk).
Qed.

Lemma log_ready s : log_inv ch s -> rd in_tx s = false ->
  exists old, rd dmaHandler s !! Z.to_nat ch = Some (mkDMAHandler old None).
Proof.
  intros (H1 & H2 & H3 & H4 & H5 & ([old h] & He & Hh) & H7) Hb. rewrite Hb in Hh. cbn in Hh. subst h.
  by exists old.
Qed.

(** The machine after a chunk was read from the runtime's log. *)
Definition chunk_read (bs : list Z) (p : Z) (s : machine) : machine :=
  wr dmesg_ptr (u32 p) (emit (E_ret (jd_dmesg_next 128 (rd dmesg_ptr s)) p)
    (emit (E_bytes (jd_dmesg_read 128 (rd dmesg_ptr s)) bs) s)).

Lemma chunk_read_inv bs p s : rd in_tx s = false -> log_inv ch s -> log_inv ch (chunk_read bs p s).
Proof.
  intros Hb (H1 & H2 & H3 & H4 & H5 & H6 & H7).
  refine (conj H1 (conj H2 (conj H3 (conj H4 (conj (conj _ H5) (conj H6 H7)))))). congruence.
Qed.

(** The copy on each branch. *)
Lemma dmesg_run buf s (bs := bytes_of (tr s) (jd_dmesg_read 128 (rd dmesg_ptr s))) :
  log_inv ch s ->
  (rd in_tx s = true -> dmesg_to_stdout buf s = Ret true s) /\
  (rd in_tx s = false -> exists p,
     p = ret_of (E_bytes (jd_dmesg_read 128 (rd dmesg_ptr s)) bs :: tr s) (jd_dmesg_next 128 (rd dmesg_ptr s)) /\
     (bs = [] -> dmesg_to_stdout buf s = Ret false (chunk_read bs p s)) /\
     (bs <> [] -> dmesg_to_stdout buf s =
        Ret true (log_sent ch (mem buf) (Z.of_nat (length bs)) (chunk_read bs p s)))).
Proof.
  intros Hs. split; intros Hb.
  { unfold dmesg_to_stdout, uart_log_can_write, bind, get. rewrite Hb. reflexivity. }
  set (s1 := emit (E_bytes (jd_dmesg_read 128 (rd dmesg_ptr s)) bs) s).
  set (p := ret_of (tr s1) (jd_dmesg_next 128 (rd dmesg_ptr s))).
  assert (dmesg_to_stdout buf s =
    (if negb (Z.of_nat (length bs) =? 0)
     then (uart_log_write (mem buf) (Z.of_nat (length bs)) ;; ret true) else ret false)
    (chunk_read bs p s)) as ->.
  { unfold dmesg_to_stdout, uart_log_can_write. unfold bind at 1 2, get at 1. rewrite Hb. reflexivity. }
  exists p. split; [reflexivity |]. clearbody p bs. pose proof (chunk_read_inv bs p s Hb Hs) as Hs'. split; [by intros -> |].
  intros Hne. destruct (Z.eqb_spec (Z.of_nat (length bs)) 0) as [Hl | Hl].
  { exfalso. apply Hne. apply length_zero_iff_nil. lia. }
  cbn [negb]. destruct (log_ready (chunk_read bs p s) Hs' Hb) as [old Ho].
  unfold bind at 1. rewrite (log_send_run ch old); [done | | | done | done]; by apply Hs'.
Qed.

Lemma dmesg_log buf : keeps (log_inv ch) (dmesg_to_stdout buf).
Proof.
  intros s Hs. destruct (dmesg_run buf s Hs) as [Hbusy Hfree]. unfold wpE.
  destruct (rd in_tx s) eqn:Hb; [by rewrite Hbusy |].
  destruct (Hfree eq_refl) as (p & _ & He & Hn).
  destruct (bytes_of (tr s) (jd_dmesg_read 128 (rd dmesg_ptr s))) as [| b bs] eqn:Hbs.
  - rewrite He by done. by apply chunk_read_inv.
  - rewrite Hn by done. apply log_sent_inv; [done |]. by apply chunk_read_inv.
Qed.
Hint Resolve dmesg_log : keeps.

Lemma sock_process_log : keeps (log_inv ch) LwipSock.jd_tcpsock_process.
Proof.
  assert (keeps (log_inv ch) LwipSock.clear_state) as Hclear by (intros s Hs; exact Hs).
  unfold LwipSock.jd_tcpsock_process, LwipSock.host_found, LwipSock.start_connect, LwipSock.raise_error,
    LwipSock.jd_tcpsock_close, LwipSock.on_event, Alloc.jd_free. frame.
Qed.
Hint Resolve sock_process_log : keeps.

Lemma main_turn_log wifi buf : keeps (log_inv ch) (main_turn wifi buf).
Proof.
  unfold main_turn, jd_spi_process. repeat first [frame_step | eapply frame_log; [exact _ | reflexivity]].
Qed.

Lemma runtime_log : keeps (log_inv ch) (sdkr jd_process_everything).
Proof. frame. Qed.
Lemma spi_process_log : keeps (log_inv ch) jd_spi_process.
Proof. frame_all. Qed.

Lemma isr_pio_log : keeps (log_inv ch) isr_pio0_0.
Proof. frame_all. Qed.

Lemma platform_init_log : keeps (log_inv ch) platform_init.
Proof. frame_all. Qed.

(** The configured pin may move; the channel stays. *)
Lemma sync_pin_log : keeps (log_inv ch) uart_log_sync_pin.
Proof.
  unfold uart_log_sync_pin. apply keeps_bind; [frame | intros p]. apply keeps_bind; [frame | intros q]. cbv zeta.
  destruct (_ =? q); [frame |]. destruct (bad_tx_pin _); [frame |].
  apply keeps_bind; [frame_all | intros []]. apply keeps_bind; [frame | intros []].
  intros s Hs. pose proof (proj1 (proj2 Hs)) as Hd. unfold wpE, bind at 1, get at 1. rewrite Hd.
  rewrite (proj2 (Z.eqb_neq ch (-2))) by (destruct Hs; lia). revert s Hs Hd. intros s Hs _.
  by apply (framed_emit (E_call (gpio_set_function _ _)) s).
Qed.

Lemma app_init_log : keeps (log_inv ch) app_init_services.
Proof.
  unfold app_init_services. apply keeps_bind; [frame | intros []].
  apply keeps_bind; [apply sync_pin_log | intros []]. frame_all.
Qed.
End Inv.

(** *** The reset state *)

(** Initialisation claims the channel and leaves it idle. *)
Lemma log_init_inv {E : Env} p ch s :
  ret_of (tr s) (dcfg_get_pin "log.pinTX") = p -> 0 <= p < 256 -> tx_pin_ok p ->
  ret_of (E_ret (dcfg_get_pin "log.pinTX") p :: tr s) (dma_claim_unused_channel true) = ch -> 0 <= ch < 12 ->
  tr s = [] -> rd in_tx s = false -> rd dmaHandler s = replicate 12 (mkDMAHandler None None) ->
  exists s', uart_log_init s = Ret tt s' /\ log_inv ch s'.
Proof.
  intros Hp Hr Hok Hch Hc Ht Hi Hh. unfold uart_log_init. unfold bind at 1, sdkv at 1. rewrite Hp, u8_id by lia.
  destruct (bad_tx_pin_spec p Hr) as [(-> & [-> | _]) | (_ & _ & Hn)]; [by destruct Hok | | done].
  unfold bind at 1, ret at 1. rewrite (proj2 (Z.eqb_neq p NO_PIN)) by apply Hok.
  unfold bind at 1 2, sdkv at 1. change (tr (emit ?e s)) with (e :: tr s). rewrite Hch.
  eexists. split; [reflexivity |].
  assert (forall k e, rd dmaHandler s !! k = Some e -> handler e = None) as Hnone.
  { intros k e. rewrite Hh, lookup_replicate. by intros [-> _]. }
  split; [done |]. split; [done |]. split; [change (length (rd dmaHandler s) = 12%nat); by rewrite Hh |].
  split; [| split; [| split]].
  - vsimp. cbn [in_flight]. rewrite Ht, Hi. reflexivity.
  - vsimp. cbn [fills_safe]. by rewrite Ht.
  - vsimp. rewrite Hi. exists (mkDMAHandler None None). split; [| done].
    rewrite Hh. apply lookup_replicate. split; [done | lia].
  - intros k e _ He. change (rd dmaHandler s !! k = Some e) in He. by rewrite (Hnone k e He).
Qed.

(** ** Properties *)

(** What may follow start-up: a turn of the loop; one of the calls of a turn, so
    that interrupts may fall between them; an interrupt; the service hook of
    the runtime. *)
Inductive main_step {E : Env} (wifi : bool) (buf : Z) : machine -> machine -> Prop :=
| mst_turn s s' : main_turn wifi buf s = Ret tt s' -> main_step wifi buf s s'
| mst_runtime s s' : sdkr jd_process_everything s = Ret tt s' -> main_step wifi buf s s'
| mst_sock s s' : LwipSock.jd_tcpsock_process s = Ret tt s' -> main_step wifi buf s s'
| mst_spi s s' : jd_spi_process s = Ret tt s' -> main_step wifi buf s s'
| mst_copy more s s' : dmesg_to_stdout buf s = Ret more s' -> main_step wifi buf s s'
| mst_dma s s' : isr_dma_0 s = Ret tt s' -> main_step wifi buf s s'
| mst_pio s s' : isr_pio0_0 s = Ret tt s' -> main_step wifi buf s s'
| mst_services s s' : app_init_services s = Ret tt s' -> main_step wifi buf s s'.

Lemma main_step_log {E : Env} ch {MC : MainClient ch} wifi buf s s' :
  log_inv ch s -> main_step wifi buf s s' -> log_inv ch s'.
Proof.
  intros Hs Hst. destruct Hst as [s s' H | s s' H | s s' H | s s' H | more s s' H | s s' H | s s' H | s s' H];
    refine (keeps_ret_inv _ _ _ _ _ _ Hs H).
  - apply (main_turn_log ch).
  - exact (runtime_log ch).
  - exact (sock_process_log ch).
  - exact (spi_process_log ch).
  - apply (dmesg_log ch).
  - exact (isr_log ch).
  - exact (isr_pio_log ch).
  - exact (app_init_log ch).
Qed.

Lemma boot_inv {E : Env} p ch {MC : MainClient ch} wifi buf s0 :
  ret_of [] (dcfg_get_pin "log.pinTX") = p -> 0 <= p < 256 -> tx_pin_ok p ->
  ret_of [E_ret (dcfg_get_pin "log.pinTX") p] (dma_claim_unused_channel true) = ch -> 0 <= ch < 12 ->
  main wifi buf 0 machine_init = Ret tt s0 -> log_inv ch s0.
Proof.
  intros Hp Hr Hok Hch Hc Hm. destruct (log_init_inv p ch machine_init) as (s1 & E1 & H1); try done.
  unfold main in Hm. unfold bind at 1 in Hm. rewrite E1 in Hm.
  refine (keeps_ret_inv _ (platform_init ;; sdkr jd_init ;; main_turns wifi buf 0) s1 tt s0 _ H1 Hm).
  apply keeps_bind; [exact (platform_init_log ch) | intros []]. apply keeps_bind; [| intros []; apply keeps_ret].
  eapply frame_sdkr; [exact _ | reflexivity | apply main_reenter].
Qed.

(** The static log buffer is never overwritten while DMA is reading it.
    After start-up on a board with a usable log pin, whatever turns of the
    loop, single calls of it, interrupts and service start-ups follow, every fill of the buffer
    found the log's channel idle, and [in_tx] tells exactly whether the channel
    is busy. *)
Theorem log_buffer_safe {E : Env} p ch {MC : MainClient ch} wifi buf s0 s :
  ret_of [] (dcfg_get_pin "log.pinTX") = p -> 0 <= p < 256 -> tx_pin_ok p ->
  ret_of [E_ret (dcfg_get_pin "log.pinTX") p] (dma_claim_unused_channel true) = ch -> 0 <= ch < 12 ->
  main wifi buf 0 machine_init = Ret tt s0 -> star (main_step wifi buf) s0 s ->
  fills_safe ch (tr s) /\ in_flight ch (tr s) = rd in_tx s.
Proof.
  intros Hp Hr Hok Hch Hc Hm Hst.
  pose proof (boot_inv p ch wifi buf s0 Hp Hr Hok Hch Hc Hm) as H0.
  destruct (star_invariant _ (log_inv ch) (fun a b Ha Hab => main_step_log ch wifi buf a b Ha Hab) s0 s Hst H0)
    as (_ & _ & _ & H4 & H5 & _). done.
Qed.

(** A log of 300 bytes on pin 4, channel 6; its transfers have ended by the next
    interrupt.  The serial driver is on pin 9 and channel 3. *)
Definition demo_text : list Z := seqZ_from 1 300.
Definition demo_pending (t : trace) (p : Z) : list Z := drop (Z.to_nat p) demo_text.
Definition demo_next (p : Z) : Z := Z.min (Z.max 0 p + 128) 300.
Definition main_demo_env : Env :=
  let e := phys_env (fun t r => match r with DMA_INTS0 => Some (if in_flight 6 t then bit 6 else 0) | _ => None end)
    (fun t c => match c with
       | dcfg_get_pin k => if String.eqb k "log.pinTX" then 4 else 9
       | dma_claim_unused_channel _ => match t with [_] => 6 | _ => 3 end
       | jd_dmesg_next _ p => demo_next p
       | _ => 0
       end) in {|
  rd_reg := @rd_reg e; ret_of := @ret_of e;
  bytes_of t c := match c with
    | pico_get_unique_board_id => [1; 2; 3; 4; 5; 6; 7; 8]
    | jd_dmesg_read n p => take (Z.to_nat n) (demo_pending t p)
    | _ => []
    end;
  xip := @xip e; fuel := @fuel e; JD_MIN_MAX_SLEEP := @JD_MIN_MAX_SLEEP e; jd_max_sleep := @jd_max_sleep e;
  jd_line_falling := ret tt; jd_rx_completed _ := ret tt; jd_tx_completed _ := ret tt; client_cb _ := ret tt;
  reenter _ := ret tt |}.

#[export] Instance main_demo_client : @MainClient main_demo_env 6.
Proof. constructor; intros; apply keeps_ret. Qed.

Definition demo_booted : machine :=
  match @main main_demo_env false 100 0 machine_init with Ret _ s => s | Stop _ s => s end.
Definition demo_turn (s : machine) : machine :=
  match @main_turn main_demo_env false 100 s with Ret _ s' => s' | Stop _ _ => s end.

Definition demo_dma (s : machine) : machine :=
  match @isr_dma_0 main_demo_env (@firmware_handlers main_demo_env) s with Ret _ s' => s' | Stop _ _ => s end.

(** Two chunks, with the interrupt between them. *)
Lemma log_buffer_safe_witness :
  let s1 := demo_turn demo_booted in let s2 := demo_dma s1 in let s := demo_turn s2 in
  length (shipped 6 (tr s)) = 256%nat /\ fills_safe 6 (tr s) /\ in_flight 6 (tr s) = rd in_tx s.
Proof.
  intros s1 s2 s. split; [vm_compute; reflexivity |].
  apply (@log_buffer_safe main_demo_env 4 6 main_demo_client false 100 demo_booted);
    [reflexivity | lia | split; [discriminate | reflexivity] | reflexivity | lia | vm_compute; reflexivity |].
  apply star_step with s1; [apply (@mst_turn main_demo_env false 100); vm_compute; reflexivity |].
  apply star_step with s2; [apply (@mst_dma main_demo_env false 100); vm_compute; reflexivity |].
  apply star_one. apply (@mst_turn main_demo_env false 100). vm_compute. reflexivity.
Defined.

(** *** The log reaches the wire *)

(** The runtime's log as [jd_dmesg_read] shows it: behind cursor [p] there are the
    bytes [pending t p].  Reading changes nothing in the log - reading twice at one
    cursor gives the same bytes twice - but returns the cursor behind the bytes
    read.  Only code of the runtime adds to the log. *)
Definition not_dmesg (e : event) : bool :=
  match e with
  | E_call (dma_channel_transfer_from_buffer_now _ _ _) | E_call (dma_channel_set_irq0_enabled _ _) => true
  | E_call _ => false
  | _ => true
  end.
Class Dmesg {E : Env} (pending : trace -> Z -> list Z) : Prop := {
  dm_read t p : bytes_of t (jd_dmesg_read 128 p) = take 128 (pending t p);
  dm_next t p : pending t (u32 (ret_of t (jd_dmesg_next 128 p))) = drop 128 (pending t p);
  dm_other e t p : not_dmesg e = true -> pending (e :: t) p = pending t p
}.

(** A transfer has ended by the time the interrupt looks; nothing else is pending. *)
Class LogDma {E : Env} (ch : Z) : Prop :=
  ld_ints t : rd_reg t DMA_INTS0 = if in_flight ch t then bit ch else 0.

(** The loop's copy and the interrupt, [n] times. *)
Fixpoint log_rounds {E : Env} (buf : Z) (n : nat) : M unit :=
  match n with
  | O => ret tt
  | S n => dmesg_to_stdout buf ;; isr_dma_0 ;; log_rounds buf n
  end.

Section Rounds.
Context {E : Env} (ch : Z) {MC : MainClient ch} (pending : trace -> Z -> list Z) {DM : Dmesg pending} {LD : LogDma ch}.

(** The machine after the interrupt that ended a transfer of the log. *)
Definition log_ended (s : machine) : machine := wr in_tx false (served ch None s).

Lemma isr_ended s : log_inv ch s -> rd in_tx s = true ->
  rd dmaHandler s !! Z.to_nat ch = Some (mkDMAHandler None (Some uart_log_tx_handler)) ->
  isr_dma_0 s = Ret tt (log_ended s).
Proof.
  intros (H1 & _ & H3 & H4 & _) Hb He. rewrite (isr_one ch uart_log_tx_handler None); [done | done | | done].
  by rewrite ld_ints, H4, Hb.
Qed.

Lemma isr_idle s : log_inv ch s -> rd in_tx s = false ->
  isr_dma_0 s = Ret tt (emit (E_write DMA_INTS0 0) (emit (E_read DMA_INTS0 0) s)).
Proof.
  intros (_ & _ & _ & H4 & _) Hb.
  change isr_dma_0 with (let! mask := load DMA_INTS0 in DMA_INTS0 <-~ mask ;; for_ 12 0 (dispatch mask)).
  unfold bind at 1, load at 1. rewrite ld_ints, H4, Hb. reflexivity.
Qed.

(** One round moves one chunk. *)
Lemma log_round buf s : log_inv ch s -> rd in_tx s = false ->
  exists s', (dmesg_to_stdout buf ;; isr_dma_0) s = Ret tt s' /\ log_inv ch s' /\ rd in_tx s' = false /\
    pending (tr s') (rd dmesg_ptr s') = drop 128 (pending (tr s) (rd dmesg_ptr s)) /\
    shipped ch (tr s') = shipped ch (tr s) ++ take 128 (pending (tr s) (rd dmesg_ptr s)).
Proof.
  intros Hs Hb. destruct (dmesg_run ch buf s Hs) as [_ Hfree]. destruct (Hfree Hb) as (p & Hpp & Hemp & Hne).
  rewrite (dm_read (pending := pending)) in Hemp, Hne. rewrite (dm_read (pending := pending)) in Hpp.
  set (bs := take 128 (pending (tr s) (rd dmesg_ptr s))) in *.
  pose proof (chunk_read_inv ch bs p s Hb Hs) as Hc.
  assert (pending (tr (chunk_read bs p s)) (u32 p) = drop 128 (pending (tr s) (rd dmesg_ptr s))) as Hp.
  { change (tr (chunk_read bs p s)) with (E_ret (jd_dmesg_next 128 (rd dmesg_ptr s)) p
      :: E_bytes (jd_dmesg_read 128 (rd dmesg_ptr s)) bs :: tr s). rewrite (dm_other (pending := pending)) by done.
    by rewrite Hpp, (dm_next (pending := pending)), (dm_other (pending := pending)). }
  destruct (decide (bs = [])) as [Hbs | Hbs].
  - set (s1 := chunk_read bs p s) in *. unfold bind. rewrite Hemp, isr_idle by done.
    eexists. split; [reflexivity |].
    assert (log_inv ch (emit (E_write DMA_INTS0 0) (emit (E_read DMA_INTS0 0) s1))) as Hi
      by (exact (framed_emit _ _ eq_refl (framed_emit _ _ eq_refl Hc))).
    split; [exact Hi |]. split; [exact Hb |]. vsimp. rewrite !(dm_other (pending := pending)) by done.
    split; [exact Hp |]. change (shipped ch (tr s1) = shipped ch (tr s) ++ bs). rewrite Hbs, app_nil_r. done.
  - set (s1 := chunk_read bs p s) in *. set (s2 := log_sent ch (mem buf) (Z.of_nat (length bs)) s1).
    assert (log_inv ch s2) as H2 by (by apply log_sent_inv).
    destruct (log_sent_fields ch (mem buf) (Z.of_nat (length bs)) s1) as (_ & F2 & F3 & _).
    assert (isr_dma_0 s2 = Ret tt (log_ended s2)) as Ei.
    { apply isr_ended; [done | done |]. fold s2 in F2. rewrite F2. apply list_lookup_insert_eq.
      destruct Hc as (? & _ & Hl & _). lia. }
    unfold bind. rewrite Hne by done. fold s2. rewrite Ei. eexists. split; [reflexivity |].
    split; [exact (keeps_ret_inv _ _ _ _ _ (isr_log ch) H2 Ei) |]. split; [reflexivity |].
    unfold log_ended, served, s2, log_sent. vsimp. rewrite !(dm_other (pending := pending)) by done.
    split; [exact Hp |]. cbn [shipped]. rewrite Z.eqb_refl.
    change (shipped ch (tr s1) ++ take (Z.to_nat (Z.of_nat (length bs))) bs = shipped ch (tr s) ++ bs).
    rewrite Nat2Z.id, take_ge by done. reflexivity.
Qed.
End Rounds.

(** C15: the log drains.  Started with an idle channel, [n] rounds of the loop's
    copy and the DMA interrupt, with at most 128 n bytes behind the loop's cursor,
    hand all of them to the serial log in order, each once, and leave the copy
    nothing to do; no step of it panics or blocks.  Each round goes on at the
    cursor where the one before stopped: the log itself does not forget what was
    read. *)
Theorem main_log_drains {E : Env} ch {MC : MainClient ch} pending {DM : Dmesg pending} {LD : LogDma ch} buf n s :
  log_inv ch s -> rd in_tx s = false -> (length (pending (tr s) (rd dmesg_ptr s)) <= 128 * n)%nat ->
  exists s', log_rounds buf n s = Ret tt s' /\ pending (tr s') (rd dmesg_ptr s') = [] /\
    shipped ch (tr s') = shipped ch (tr s) ++ pending (tr s) (rd dmesg_ptr s) /\
    exists s2, dmesg_to_stdout buf s' = Ret false s2 /\ shipped ch (tr s2) = shipped ch (tr s').
Proof.
  revert s. induction n as [| n IH]; intros s Hs Hb Hl.
  - assert (pending (tr s) (rd dmesg_ptr s) = []) as Hp by (apply length_zero_iff_nil; lia).
    exists s. split; [done |]. split; [done |]. rewrite Hp, app_nil_r. split; [done |].
    destruct (dmesg_run ch buf s Hs) as [_ Hfree]. destruct (Hfree Hb) as (p & _ & Hemp & _).
    rewrite (dm_read (pending := pending)), Hp in Hemp. eexists. split; [exact (Hemp eq_refl) | reflexivity].
  - destruct (log_round ch pending buf s Hs Hb) as (s1 & E1 & H1 & B1 & P1 & S1).
    destruct (IH s1 H1 B1) as (s' & E2 & P2 & S2 & R2); [rewrite P1, length_drop; lia |].
    exists s'. split.
    { cbn [log_rounds]. rewrite <- (bind_assoc (dmesg_to_stdout buf) (fun _ => isr_dma_0)).
      unfold bind at 1. rewrite E1. exact E2. }
    split; [exact P2 |]. split; [| exact R2]. by rewrite S2, S1, P1, <- app_assoc, take_drop.
Qed.

#[export] Instance demo_dmesg : @Dmesg main_demo_env demo_pending.
Proof.
  constructor; [reflexivity | | done].
  intros t p. change (demo_pending t (u32 (demo_next p)) = drop 128 (demo_pending t p)).
  unfold demo_pending. rewrite drop_drop. unfold demo_next.
  rewrite u32_id by lia. destruct (Z.le_gt_cases (Z.max 0 p + 128) 300) as [H | H].
  - rewrite Z.min_l by lia. f_equal. lia.
  - rewrite Z.min_r by lia. rewrite !drop_ge; [done | unfold demo_text; rewrite length_seqZ_from; lia..].
Qed.
#[export] Instance demo_log_dma : @LogDma main_demo_env 6.
Proof. intros t. reflexivity. Qed.

Lemma demo_booted_inv : log_inv 6 demo_booted.
Proof.
  apply (@boot_inv main_demo_env 4 6 main_demo_client false 100 demo_booted);
    [reflexivity | lia | split; [discriminate | reflexivity] | reflexivity | lia | vm_compute; reflexivity].
Qed.

(** The 300 bytes in three rounds. *)
Lemma main_log_drains_witness :
  exists s', @log_rounds main_demo_env 100 3 demo_booted = Ret tt s' /\
    demo_pending (tr s') (rd dmesg_ptr s') = [] /\
    shipped 6 (tr s') = shipped 6 (tr demo_booted) ++ demo_pending (tr demo_booted) (rd dmesg_ptr demo_booted) /\
    exists s2, @dmesg_to_stdout main_demo_env 100 s' = Ret false s2 /\ shipped 6 (tr s2) = shipped 6 (tr s').
Proof.
  apply (@main_log_drains main_demo_env 6 main_demo_client demo_pending demo_dmesg demo_log_dma 100 3 demo_booted);
    [exact demo_booted_inv | vm_compute; reflexivity | apply Nat.leb_le; vm_compute; reflexivity].
Defined.

(** *** When the processor sleeps *)

(** What a turn does before it looks at the log. *)
Definition turn_work {E : Env} (wifi : bool) : M unit :=
  sdkr jd_process_everything ;; sdk (jd_set_max_sleep 1000) ;;
  (when wifi do LwipSock.jd_tcpsock_process) ;; jd_spi_process.

Lemma main_turn_split {E : Env} wifi buf s :
  main_turn wifi buf s = (turn_work wifi ;;
    let! more := dmesg_to_stdout buf in
    if more : bool then ret tt
    else let! frame := sdkv jd_rx_has_frame in when negb (z2b frame) do log E_wfe) s.
Proof.
  unfold main_turn, turn_work. rewrite bind_assoc. apply bind_ext. intros [] s1.
  rewrite bind_assoc. apply bind_ext. intros [] s2. by rewrite bind_assoc.
Qed.

(** After its work a turn executes [wfe] exactly when nothing is left to
    do: the log's channel is idle, the runtime's log is empty and no frame has
    been received.  While a transfer is running it neither sleeps nor reads
    the log; a chunk that was read is handed to the channel at once. *)
Theorem main_sleeps_when_idle {E : Env} ch {MC : MainClient ch} wifi buf s s1
    (bs := bytes_of (tr s1) (jd_dmesg_read 128 (rd dmesg_ptr s1))) :
  turn_work wifi s = Ret tt s1 -> log_inv ch s1 ->
  exists s' es, main_turn wifi buf s = Ret tt s' /\ tr s' = es ++ tr s1 /\
    (rd in_tx s1 = true -> es = []) /\
    (rd in_tx s1 = false -> bs <> [] ->
       head es = Some (E_call (dma_channel_transfer_from_buffer_now ch (mem buf) (Z.of_nat (length bs)))) /\
       ~ In E_wfe es) /\
    (rd in_tx s1 = false -> bs = [] -> exists p v, v = ret_of (tr (chunk_read bs p s1)) jd_rx_has_frame /\
       es = (if z2b v then [] else [E_wfe]) ++ [E_ret jd_rx_has_frame v;
         E_ret (jd_dmesg_next 128 (rd dmesg_ptr s1)) p; E_bytes (jd_dmesg_read 128 (rd dmesg_ptr s1)) bs]).
Proof.
  intros Hw Hs. destruct (dmesg_run ch buf s1 Hs) as [Hbusy Hfree]. fold bs in Hfree.
  rewrite main_turn_split. unfold bind at 1. rewrite Hw. unfold bind at 1.
  destruct (rd in_tx s1) eqn:Hb.
  { rewrite Hbusy by done. exists s1, []. by split_and!. }
  destruct (Hfree eq_refl) as (p & _ & Hemp & Hne). destruct (decide (bs = [])) as [Hbs | Hbs].
  - rewrite Hemp by done. clear Hemp Hne. unfold bind, sdkv. set (v := ret_of _ _).
    set (s2 := emit (E_ret jd_rx_has_frame v) (chunk_read bs p s1)).
    exists (if z2b v then s2 else emit E_wfe s2), ((if z2b v then [] else [E_wfe]) ++ [E_ret jd_rx_has_frame v;
      E_ret (jd_dmesg_next 128 (rd dmesg_ptr s1)) p; E_bytes (jd_dmesg_read 128 (rd dmesg_ptr s1)) bs]).
    split; [by destruct (z2b v) |]. split; [by destruct (z2b v) |]. split; [done |]. split; [done |].
    intros _ _. by exists p, v.
  - rewrite Hne by done. eexists _, (_ :: [_; _; _; _; _; _]). split; [reflexivity |]. split; [reflexivity |].
    split; [done |]. split; [| done]. intros _ _. split; [reflexivity |]. cbn. intuition discriminate.
Qed.

(** Three rounds after start-up the log is empty; the next turn sleeps. *)
Definition demo_idle : machine :=
  demo_dma (demo_turn (demo_dma (demo_turn (demo_dma (demo_turn demo_booted))))).
Lemma demo_turn_inv s : log_inv 6 s -> log_inv 6 (demo_turn s).
Proof.
  intros Hs. unfold demo_turn. destruct (@main_turn main_demo_env false 100 s) as [[] s' |] eqn:Er; [| done].
  exact (keeps_ret_inv _ _ _ _ _ (@main_turn_log main_demo_env 6 main_demo_client false 100) Hs Er).
Qed.
Lemma demo_dma_inv s : log_inv 6 s -> log_inv 6 (demo_dma s).
Proof.
  intros Hs. unfold demo_dma. destruct (isr_dma_0 s) as [[] s' |] eqn:Er; [| done].
  exact (keeps_ret_inv _ _ _ _ _ (@isr_log main_demo_env 6 main_demo_client) Hs Er).
Qed.
Definition demo_worked : machine := emit (E_call (jd_set_max_sleep 1000)) (emit (E_call jd_process_everything) demo_idle).

Lemma main_sleeps_when_idle_witness :
  let s1 := demo_worked in let bs := @bytes_of main_demo_env (tr s1) (jd_dmesg_read 128 (rd dmesg_ptr s1)) in
  rd in_tx s1 = false /\ bs = [] /\
  exists s' es, @main_turn main_demo_env false 100 demo_idle = Ret tt s' /\ tr s' = es ++ tr s1 /\
    (rd in_tx s1 = true -> es = []) /\
    (rd in_tx s1 = false -> bs <> [] ->
       head es = Some (E_call (dma_channel_transfer_from_buffer_now 6 (mem 100) (Z.of_nat (length bs)))) /\
       ~ In E_wfe es) /\
    (rd in_tx s1 = false -> bs = [] -> exists p v,
       v = @ret_of main_demo_env (tr (chunk_read bs p s1)) jd_rx_has_frame /\
       es = (if z2b v then [] else [E_wfe]) ++ [E_ret jd_rx_has_frame v;
         E_ret (jd_dmesg_next 128 (rd dmesg_ptr s1)) p; E_bytes (jd_dmesg_read 128 (rd dmesg_ptr s1)) bs]).
Proof.
  intros s1 bs. split; [vm_compute; reflexivity |]. split; [vm_compute; reflexivity |].
  apply (@main_sleeps_when_idle main_demo_env 6 main_demo_client false 100 demo_idle demo_worked).
  - vm_compute. reflexivity.
  - refine (framed_emit _ _ eq_refl (framed_emit _ _ eq_refl _)). unfold demo_idle.
    do 3 (apply demo_dma_inv; apply demo_turn_inv). exact demo_booted_inv.
Defined.
