(* ===== verification/Loop.v ===== *)
(** * Loop: the endless loop of [main.c], statement by statement

    [Main.main_turn] runs a turn in one piece.  Here the turn is a machine with a
    program counter whose steps are the statements of the loop, of
    [dmesg_to_stdout], of [uart_log_write] and of [dma_set_ch_cb]; interrupts
    strike between any two of them, and [wfe] waits for the event register, as
    the processor defines it.  A turn that no interrupt strikes is
    [Main.main_turn]. *)

From S2P Require Import Prelude Events Machine Frame RefEnv Irq Dma Pins Tim Uart Spi UartLog Platform Completion Main.
From S2P Require LwipSock.

(** ** Definitions *)

(** The next statement.  [n] is the length of the chunk being sent, [c] the
    channel [dma_set_ch_cb] was called with. *)
Inductive point :=
(* main *)
| at_runtime | at_sleep | at_sock | at_spi
(* dmesg_to_stdout *)
| at_check | at_read
(* uart_log_write *)
| at_write (n : Z) | at_busy (n : Z) | at_flag (n : Z)
(* dma_set_ch_cb *)
| at_guard (n : Z) | at_handler (n c : Z) | at_context (n c : Z) | at_clear (n c : Z)
| at_enable (n c : Z) | at_icpr (n : Z) | at_iser (n : Z)
(* uart_log_write *)
| at_start (n : Z)
(* main *)
| at_frame | at_wfe.

Section Operations.
Context {E : Env} (JD_WIFI : bool) (buf : Z).

(** One statement, and where it leads. *)
Definition exec_point (p : point) : M point :=
  match p with
  | at_runtime => sdkr jd_process_everything ;; ret at_sleep
  | at_sleep => sdk (jd_set_max_sleep 1000) ;; ret at_sock
  | at_sock => (when JD_WIFI do LwipSock.jd_tcpsock_process) ;; ret at_spi
  | at_spi => jd_spi_process ;; ret at_check
  | at_check => let! ok := uart_log_can_write in ret (if ok : bool then at_read else at_runtime)
  | at_read =>
    let! p := get dmesg_ptr in
    let! bs := sdkb (jd_dmesg_read 128 p) in
    let! p := sdkv (jd_dmesg_next 128 p) in
    dmesg_ptr <~ u32 p ;;
    let len := Z.of_nat (length bs) in
    ret (if negb (len =? 0) then at_write len else at_frame)
  | at_write n =>
    let! ch := get UartLog.dmachTx in
    if ch =? -2 then ret at_runtime
    else (when ch =? -1 do uart_log_init) ;; ret (at_busy n)
  | at_busy n => let! busy := get in_tx in JD_ASSERT (negb busy) ;; ret (at_flag n)
  | at_flag n => in_tx <~ true ;; ret (at_guard n)
  | at_guard n =>
    let! ch := get UartLog.dmachTx in
    let c := u8 ch in
    if NUM_DMA_CHANNELS <=? c then ret (at_start n)
    else
      let! tbl := get dmaHandler in
      let! e := index tbl c in
      JD_ASSERT (match handler e with Some _ => false | None => true end) ;;
      ret (at_handler n c)
  | at_handler n c =>
    let! tbl := get dmaHandler in
    let! e := index tbl c in
    store dmaHandler c (mkDMAHandler (context e) (Some uart_log_tx_handler)) ;;
    ret (at_context n c)
  | at_context n c =>
    let! tbl := get dmaHandler in
    let! e := index tbl c in
    store dmaHandler c (mkDMAHandler None (handler e)) ;;
    ret (at_clear n c)
  | at_clear n c => DMA_INTS0 <-~ bit c ;; ret (at_enable n c)
  | at_enable n c => sdk (dma_channel_set_irq0_enabled c true) ;; ret (at_icpr n)
  | at_icpr n => NVIC_ICPR <-~ bit DMA_IRQ_0 ;; ret (at_iser n)
  | at_iser n => NVIC_ISER <-~ bit DMA_IRQ_0 ;; ret (at_start n)
  | at_start n =>
    let! ch := get UartLog.dmachTx in
    sdk (dma_channel_transfer_from_buffer_now ch (mem buf) n) ;; ret at_runtime
  | at_frame => let! frame := sdkv jd_rx_has_frame in ret (if z2b frame then at_runtime else at_wfe)
  | at_wfe => log E_wfe ;; ret at_runtime
  end.

(** Statement after statement from [p] to the head of the loop. *)
Fixpoint to_head (fuel : nat) (p : point) : M unit :=
  match fuel with
  | O => halt NoFuel
  | S fuel => let! q := exec_point p in match q with at_runtime => ret tt | _ => to_head fuel q end
  end.

(** The interrupts the firmware enables. *)
Inductive interrupt := IRQ_dma | IRQ_pio | IRQ_timer | IRQ_bank0.
Definition run_irq (i : interrupt) : M unit :=
  match i with
  | IRQ_dma => isr_dma_0
  | IRQ_pio => isr_pio0_0
  | IRQ_timer => tim_handler
  | IRQ_bank0 => isr_io_bank0
  end.

(** The processor runs the loop or waits in [wfe]; [ev] is its event register,
    which every interrupt sets. *)
Inductive mode := running (p : point) | waiting.
Record config := mkConfig { mo : mode; ev : bool; mem_ : machine }.

Inductive loop_step : config -> config -> Prop :=
(* the calls of a statement may themselves be interrupted *)
| ls_exec p q e e' s s' : p <> at_wfe -> (e = true -> e' = true) ->
    exec_point p s = Ret q s' -> loop_step (mkConfig (running p) e s) (mkConfig (running q) e' s')
| ls_wfe_on s q s' : exec_point at_wfe s = Ret q s' ->
    loop_step (mkConfig (running at_wfe) true s) (mkConfig (running q) false s')
| ls_wfe_wait s q s' : exec_point at_wfe s = Ret q s' ->
    loop_step (mkConfig (running at_wfe) false s) (mkConfig waiting false s')
| ls_irq i m e s s' : run_irq i s = Ret tt s' -> loop_step (mkConfig m e s) (mkConfig m true s')
| ls_wake e s : loop_step (mkConfig waiting true s) (mkConfig (running at_runtime) e s).

(** The head of the loop after start-up. *)
Definition loop_start (s : machine) : config := mkConfig (running at_runtime) false s.
End Operations.

(** ** A turn without interrupts *)

Section Turn.
Context {E : Env} (wifi : bool) (buf : Z).
#[local] Abbreviation exec_point := (exec_point wifi buf).
#[local] Abbreviation to_head := (to_head wifi buf).

Lemma to_head_S fuel p s :
  to_head (S fuel) p s =
  match exec_point p s with
  | Ret at_runtime s' => Ret tt s'
  | Ret q s' => to_head fuel q s'
  | Stop w s' => Stop w s'
  end.
Proof. cbn [Loop.to_head]. unfold bind. by destruct (exec_point p s) as [[] s' |]. Qed.


(** The last statements of a write. *)
Lemma head_start fuel n s : to_head (S fuel) (at_start n) s =
  (let! ch := get UartLog.dmachTx in sdk (dma_channel_transfer_from_buffer_now ch (mem buf) n)) s.
Proof. reflexivity. Qed.
Lemma head_clear fuel n c s : to_head (5 + fuel) (at_clear n c) s =
  (DMA_INTS0 <-~ bit c ;; sdk (dma_channel_set_irq0_enabled c true) ;; ram_irq_set_enabled DMA_IRQ_0 true ;;
   let! ch := get UartLog.dmachTx in sdk (dma_channel_transfer_from_buffer_now ch (mem buf) n)) s.
Proof. reflexivity. Qed.

(** The two fields of the handler are stored one after the other. *)
Lemma handler_run n c e s : 0 <= c -> rd dmaHandler s !! Z.to_nat c = Some e ->
  exec_point (at_handler n c) s = Ret (at_context n c)
    (wr dmaHandler (<[Z.to_nat c := mkDMAHandler (context e) (Some uart_log_tx_handler)]> (rd dmaHandler s)) s).
Proof.
  intros Hc He. pose proof (lookup_lt_Some _ _ _ He). cbn [Loop.exec_point]. unfold bind, get.
  rewrite (index_run _ _ e) by done. by rewrite store_run by lia.
Qed.
Lemma context_run n c e s : 0 <= c -> rd dmaHandler s !! Z.to_nat c = Some e ->
  exec_point (at_context n c) s = Ret (at_clear n c)
    (wr dmaHandler (<[Z.to_nat c := mkDMAHandler None (handler e)]> (rd dmaHandler s)) s).
Proof.
  intros Hc He. pose proof (lookup_lt_Some _ _ _ He). cbn [Loop.exec_point]. unfold bind, get.
  rewrite (index_run _ _ e) by done. by rewrite store_run by lia.
Qed.

Lemma head_handler fuel n c e s : 0 <= c -> rd dmaHandler s !! Z.to_nat c = Some e ->
  to_head (7 + fuel) (at_handler n c) s =
  (store dmaHandler c (mkDMAHandler None (Some uart_log_tx_handler)) ;;
   DMA_INTS0 <-~ bit c ;; sdk (dma_channel_set_irq0_enabled c true) ;; ram_irq_set_enabled DMA_IRQ_0 true ;;
   let! ch := get UartLog.dmachTx in sdk (dma_channel_transfer_from_buffer_now ch (mem buf) n)) s.
Proof.
  intros Hc He. pose proof (lookup_lt_Some _ _ _ He) as Hl. change (7 + fuel)%nat with (S (S (5 + fuel))).
  rewrite to_head_S, (handler_run n c e) by done. set (e1 := mkDMAHandler _ (Some _)). set (s1 := wr _ _ s).
  assert (rd dmaHandler s1 = <[Z.to_nat c := e1]> (rd dmaHandler s)) as H1 by done.
  rewrite to_head_S, (context_run n c e1); [| done | rewrite H1; by apply list_lookup_insert_eq].
  rewrite H1, list_insert_insert_eq, head_clear. unfold bind at 5. by rewrite store_run by lia.
Qed.

Lemma head_guard fuel n s : to_head (8 + fuel) (at_guard n) s =
  (let! ch := get UartLog.dmachTx in
   dma_set_ch_cb ch (Some uart_log_tx_handler) None ;;
   let! ch := get UartLog.dmachTx in sdk (dma_channel_transfer_from_buffer_now ch (mem buf) n)) s.
Proof.
  change (8 + fuel)%nat with (S (7 + fuel)). rewrite to_head_S. cbn [Loop.exec_point].
  rewrite !bind_get. unfold dma_set_ch_cb. set (c := u8 _). cbv zeta.
  assert (0 <= c) as Hc by (apply Z.mod_pos_bound; lia).
  destruct (NUM_DMA_CHANNELS <=? c); [reflexivity |]. rewrite bind_assoc, !bind_get.
  destruct (rd dmaHandler s !! Z.to_nat c) as [e |] eqn:He.
  2:{ unfold bind, index, nth_Z. rewrite (proj2 (Z.ltb_ge c 0)), He by done. reflexivity. }
  rewrite bind_assoc, !(bind_ret (index _ _) _ s e s) by (by apply index_run).
  destruct (handler e) as [h |] eqn:Hh; [reflexivity |].
  pose proof (lookup_lt_Some _ _ _ He). transitivity (to_head (7 + fuel) (at_handler n c) s); [reflexivity |].
  rewrite (head_handler _ _ _ e) by done. unfold bind. cbn [JD_ASSERT]. unfold ret.
  by rewrite store_run by lia.
Qed.

Lemma head_write fuel n s : to_head (11 + fuel) (at_write n) s = uart_log_write (mem buf) n s.
Proof.
  change (11 + fuel)%nat with (S (S (S (8 + fuel)))). rewrite to_head_S. cbn [Loop.exec_point].
  unfold uart_log_write. rewrite !bind_get. destruct (rd UartLog.dmachTx s =? -2); [reflexivity |].
  assert (forall s, to_head (S (S (8 + fuel))) (at_busy n) s =
    (let! busy := get in_tx in
     JD_ASSERT (negb busy) ;; in_tx <~ true ;;
     let! ch := get UartLog.dmachTx in
     dma_set_ch_cb ch (Some uart_log_tx_handler) None ;;
     let! ch := get UartLog.dmachTx in sdk (dma_channel_transfer_from_buffer_now ch (mem buf) n)) s) as Hb.
  { intros s1. rewrite to_head_S. cbn [Loop.exec_point]. rewrite !bind_get.
    destruct (rd in_tx s1); [reflexivity |]. cbn [negb JD_ASSERT].
    transitivity (to_head (S (8 + fuel)) (at_flag n) s1); [reflexivity |]. rewrite to_head_S.
    transitivity (to_head (8 + fuel) (at_guard n) (wr in_tx true s1)); [reflexivity |]. by rewrite head_guard. }
  set (m := when rd UartLog.dmachTx s =? -1 do uart_log_init). unfold bind at 1 2.
  destruct (m s) as [[] s1 |]; [| reflexivity]. apply Hb.
Qed.

(** Reading a chunk. *)
Definition chunk (s : machine) : list Z := bytes_of (tr s) (jd_dmesg_read 128 (rd dmesg_ptr s)).
Definition chunk_next (s : machine) : Z :=
  ret_of (E_bytes (jd_dmesg_read 128 (rd dmesg_ptr s)) (chunk s) :: tr s) (jd_dmesg_next 128 (rd dmesg_ptr s)).

Lemma read_run s : exec_point at_read s =
  Ret (if negb (Z.of_nat (length (chunk s)) =? 0) then at_write (Z.of_nat (length (chunk s))) else at_frame)
    (chunk_read (chunk s) (chunk_next s) s).
Proof. reflexivity. Qed.

Lemma dmesg_split s : dmesg_to_stdout buf s =
  (if rd in_tx s then Ret true s
   else (if negb (Z.of_nat (length (chunk s)) =? 0)
         then (uart_log_write (mem buf) (Z.of_nat (length (chunk s))) ;; ret true) else ret false)
     (chunk_read (chunk s) (chunk_next s) s)).
Proof. unfold dmesg_to_stdout, uart_log_can_write, bind at 1 2, get at 1. by destruct (rd in_tx s). Qed.

Lemma head_frame fuel s : to_head (2 + fuel) at_frame s =
  (let! frame := sdkv jd_rx_has_frame in when negb (z2b frame) do log E_wfe) s.
Proof.
  change (2 + fuel)%nat with (S (S fuel)). rewrite to_head_S. cbn [Loop.exec_point]. unfold bind, sdkv, ret.
  by destruct (z2b _).
Qed.

Lemma check_run s : exec_point at_check s = Ret (if rd in_tx s then at_runtime else at_read) s.
Proof. cbn [Loop.exec_point]. unfold uart_log_can_write, bind, get, ret. by destruct (rd in_tx s). Qed.

Lemma head_check fuel s : to_head (13 + fuel) at_check s =
  (let! more := dmesg_to_stdout buf in
   if more : bool then ret tt
   else let! frame := sdkv jd_rx_has_frame in when negb (z2b frame) do log E_wfe) s.
Proof.
  change (13 + fuel)%nat with (S (S (11 + fuel))). rewrite to_head_S, check_run.
  unfold bind at 1. rewrite dmesg_split. destruct (rd in_tx s); [reflexivity |].
  rewrite to_head_S, read_run. set (n := Z.of_nat _). set (s1 := chunk_read _ _ s).
  destruct (n =? 0); cbn [negb]; [exact (head_frame (9 + fuel) s1) |]. rewrite head_write.
  unfold bind. by destruct (uart_log_write (mem buf) n s1) as [[] s2 |].
Qed.

(** A turn of the loop is what its statements do one after the other when no
    interrupt strikes: from the head of the loop, at most 17 statements lead back
    to it, with the same result as [main_turn] from every state, panics and
    undefined behaviour included. *)
Theorem main_turn_statements s : to_head 17 at_runtime s = main_turn wifi buf s.
Proof.
  unfold main_turn. rewrite to_head_S. unfold bind at 1. cbn [Loop.exec_point]. unfold bind at 1.
  destruct (sdkr jd_process_everything s) as [[] s1 |]; [| reflexivity]. unfold ret at 1.
  rewrite to_head_S. cbn [Loop.exec_point]. unfold bind at 1 2, sdk, log, ret at 1. set (s2 := emit _ s1).
  rewrite to_head_S. cbn [Loop.exec_point]. unfold bind at 1 2.
  destruct ((if wifi then _ else ret tt) s2) as [[] s3 |]; [| reflexivity]. unfold ret at 1.
  rewrite to_head_S. cbn [Loop.exec_point]. unfold bind at 1 2.
  destruct (jd_spi_process s3) as [[] s4 |]; [| reflexivity]. exact (head_check 0 s4).
Qed.
End Turn.

(** ** The log with interrupts between the statements *)

(** What a statement of the log sees: [a] is the flag [in_tx], [b] whether the
    handler is installed, [c] whether the channel is reading the buffer. *)
Definition log_st (ch : Z) (a b c : bool) (s : machine) : Prop :=
  0 <= ch < 12 /\ rd UartLog.dmachTx s = ch /\ length (rd dmaHandler s) = 12%nat /\
  rd in_tx s = a /\ in_flight ch (tr s) = c /\ fills_safe ch (tr s) /\
  (exists e, rd dmaHandler s !! Z.to_nat ch = Some e /\ handler e = if b then Some uart_log_tx_handler else None) /\
  (forall k e, k <> Z.to_nat ch -> rd dmaHandler s !! k = Some e -> handler e <> Some uart_log_tx_handler).

Lemma log_inv_st ch s : log_inv ch s <-> log_st ch (rd in_tx s) (rd in_tx s) (rd in_tx s) s.
Proof. unfold log_inv, log_st. split; intros H; destruct_ands; split_and!; try done; congruence. Qed.
Lemma log_st_inv ch a s : log_st ch a a a s -> log_inv ch s.
Proof. intros H. apply log_inv_st. pose proof H as (_ & _ & _ & Ha & _). by rewrite Ha. Qed.

(** What the callbacks of interrupt handlers may do: leave the log alone. *)
Class IrqClient {E : Env} (ch : Z) : Prop := {
  irq_client a b c id : keeps (log_st ch a b c) (client_cb id);
  irq_falling a b c : keeps (log_st ch a b c) jd_line_falling;
  irq_rx a b c n : keeps (log_st ch a b c) (jd_rx_completed n);
  irq_tx a b c n : keeps (log_st ch a b c) (jd_tx_completed n)
}.

(** A channel raises its interrupt only for a transfer it was started on. *)
Class DmaRaises {E : Env} (ch : Z) : Prop :=
  dma_raises t : Z.testbit (rd_reg t DMA_INTS0) ch = true -> in_flight ch t = true.

#[export] Instance log_st_framed ch a b c : Framed (log_st ch a b c) not_log.
Proof.
  constructor; [| done]. intros e s He (H1 & H2 & H3 & H4 & H5 & H6 & H7).
  destruct (flight_other ch e (tr s) He) as [F1 F2].
  refine (conj H1 (conj H2 (conj H3 (conj H4 (conj _ (conj _ H7)))))).
  - change (in_flight ch (e :: tr s) = c). by rewrite F1.
  - by apply F2.
Qed.

Section Interrupts.
Context {E : Env} (ch : Z) {IC : IrqClient ch} {DR : DmaRaises ch}.

Section State.
Context (a b c : bool).
Let I := log_st ch a b c.

Lemma st_disable : keeps (log_st ch a b c) uart_disable.
Proof. frame_all. Qed.
Lemma st_wait n : keeps (log_st ch a b c) (target_wait_us n).
Proof. frame_all. Qed.

Hint Resolve irq_client irq_falling irq_rx irq_tx st_disable st_wait : keeps.

Lemma st_cb f : keeps (log_st ch a b c) (run_cb f).
Proof. destruct f; cbn [run_cb]; auto with keeps. Qed.
Hint Resolve st_cb : keeps.

Lemma st_handler f ctx : f <> uart_log_tx_handler -> keeps (log_st ch a b c) (run_cb_arg f ctx).
Proof.
  intros Hf. unfold run_cb_arg, firmware_handlers, run_handler. destruct f; [| | | done].
  - unfold Uart.rx_handler, rx_done. frame.
  - unfold Uart.tx_handler, pin_set, pin_setup_output, pin_setup_output_af, gpio_set_function_. frame.
  - unfold spi_dma_cb, JD_ASSERT. frame.
Qed.
Lemma st_pio : keeps (log_st ch a b c) isr_pio0_0.
Proof. frame_all. Qed.
Lemma st_timer : keeps (log_st ch a b c) tim_handler.
Proof. frame_all. Qed.
Lemma st_bank0 : keeps (log_st ch a b c) isr_io_bank0.
Proof. frame_all. Qed.

(** Another driver's entry of the table. *)
Lemma st_entry k e' s : k <> Z.to_nat ch -> handler e' <> Some uart_log_tx_handler ->
  log_st ch a b c s -> log_st ch a b c (wr dmaHandler (<[k := e']> (rd dmaHandler s)) s).
Proof.
  intros Hk He' (H1 & H2 & H3 & H4 & H5 & H6 & (e & He & Hh) & H8).
  set (s' := wr dmaHandler _ s). assert (rd dmaHandler s' = <[k := e']> (rd dmaHandler s)) as Ht by done.
  refine (conj H1 (conj H2 (conj _ (conj H4 (conj H5 (conj H6 (conj _ _))))))); rewrite Ht.
  - by rewrite length_insert.
  - exists e. by rewrite list_lookup_insert_ne by done.
  - intros j x Hj Hx. destruct (decide (j = k)) as [-> | Hjk].
    + apply list_lookup_insert_Some in Hx as [(_ & Hx & _) | [Hx _]]; [by subst x | by destruct Hx].
    + rewrite list_lookup_insert_ne in Hx by done. by apply (H8 j).
Qed.

Lemma st_dispatch_other mask k : 0 <= k < 12 -> k <> ch -> keeps (log_st ch a b c) (dispatch mask k).
Proof.
  intros Hk Hne s Hs. unfold dispatch. destruct (z2b _); [| exact Hs].
  pose proof Hs as (H1 & _ & H3 & _ & _ & _ & _ & H8).
  destruct (lookup_lt_is_Some_2 (rd dmaHandler s) (Z.to_nat k)) as [e He]; [lia |].
  unfold wpE. rewrite bind_get, (bind_ret (index _ _) _ s e s) by (apply index_run; [lia | done]).
  destruct (handler e) as [f |] eqn:Hf; [| exact Hs].
  unfold bind at 1, sdk, log. set (s1 := emit _ s). unfold bind.
  rewrite store_run by (change (rd dmaHandler s1) with (rd dmaHandler s); lia).
  apply st_handler; [intros ->; apply (H8 (Z.to_nat k) e); [lia | done | done] |].
  apply st_entry; [lia | done |]. destruct Hs as (G1 & G2 & G3 & G4 & G5 & G6 & G7).
  refine (conj G1 (conj G2 (conj G3 (conj G4 (conj _ (conj G6 G7)))))).
  change ((if k =? ch then false else in_flight ch (tr s)) = c). by rewrite (proj2 (Z.eqb_neq k ch)).
Qed.
End State.

(** The interrupt ends the log's own transfer or leaves the log alone; it ends
    nothing that was not started. *)
Definition after_irq (a b c : bool) (s : machine) : Prop :=
  log_st ch a b c s \/ c = true /\ log_st ch false false false s.

Lemma st_dispatch_own a b c mask : (c = true -> a = true /\ b = true) ->
  (Z.testbit mask ch = true -> c = true) -> keeps (after_irq a b c) (dispatch mask ch).
Proof.
  intros Hc Hm s Hs. assert (0 <= ch < 12) as Hch by (by destruct Hs as [(? & _) | (_ & ? & _)]).
  unfold dispatch. rewrite Z.land_comm, land_bit by lia.
  destruct (Z.testbit mask ch) eqn:Hbit; [| exact Hs]. specialize (Hm eq_refl). subst c.
  destruct (Hc eq_refl) as [-> ->]. unfold wpE. rewrite bind_get.
  destruct Hs as [Hs | [_ Hs]]; pose proof Hs as (_ & H2 & H3 & H4 & H5 & H6 & (e & He & Hh) & H8);
    rewrite (bind_ret (index _ _) _ s e s) by (apply index_run; [lia | done]); rewrite Hh; [| by right].
  unfold bind at 1, sdk, log. set (s1 := emit _ s). unfold bind.
  rewrite store_run by (change (rd dmaHandler s1) with (rd dmaHandler s); lia).
  set (e' := mkDMAHandler _ None). set (s2 := wr dmaHandler _ s1).
  assert (rd dmaHandler s2 = <[Z.to_nat ch := e']> (rd dmaHandler s)) as Ht by done.
  right. split; [done |]. refine (conj Hch (conj H2 (conj _ (conj eq_refl (conj _ (conj H6 (conj _ _))))))).
  - change (length (rd dmaHandler s2) = 12%nat). by rewrite Ht, length_insert.
  - change ((if ch =? ch then false else in_flight ch (tr s)) = false). by rewrite Z.eqb_refl.
  - exists e'. split; [| done]. change (rd dmaHandler s2 !! Z.to_nat ch = Some e'). rewrite Ht.
    apply list_lookup_insert_eq. lia.
  - intros j x Hj Hx. change (rd dmaHandler s2 !! j = Some x) in Hx. rewrite Ht in Hx.
    rewrite list_lookup_insert_ne in Hx by done. by apply (H8 j).
Qed.

Lemma st_dispatch a b c mask k : (c = true -> a = true /\ b = true) ->
  (Z.testbit mask ch = true -> c = true) -> 0 <= k < 12 -> keeps (after_irq a b c) (dispatch mask k).
Proof.
  intros Hc Hm Hk. destruct (decide (k = ch)) as [-> | Hne]; [by apply st_dispatch_own |].
  intros s [Hs | [Ht Hs]].
  - eapply wpE_mono; [exact (st_dispatch_other a b c mask k Hk Hne s Hs) | intros ? ? H; by left | done].
  - eapply wpE_mono; [exact (st_dispatch_other _ _ _ mask k Hk Hne s Hs) | intros ? ? H; by right | done].
Qed.

Lemma st_dma a b c s s' : (c = true -> a = true /\ b = true) -> log_st ch a b c s ->
  isr_dma_0 s = Ret tt s' -> after_irq a b c s'.
Proof.
  intros Hc Hs.
  change isr_dma_0 with (let! mask := load DMA_INTS0 in DMA_INTS0 <-~ mask ;; for_ 12 0 (dispatch mask)).
  unfold bind at 1, load at 1. set (mask := rd_reg _ _). unfold bind at 1, setreg, log.
  set (s1 := emit _ (emit _ s)). intros Hr.
  assert (log_st ch a b c s1) as H1 by (exact (framed_emit _ _ eq_refl (framed_emit _ _ eq_refl Hs))).
  assert (Z.testbit mask ch = true -> c = true) as Hm.
  { intros Hm. apply dma_raises in Hm. by destruct Hs as (_ & _ & _ & _ & <- & _). }
  refine (keeps_ret_inv _ (for_ 12 0 (dispatch mask)) s1 tt s' _ (or_introl H1) Hr).
  assert (forall n from, 0 <= from -> from + Z.of_nat n <= 12 -> keeps (after_irq a b c) (for_ n from (dispatch mask))) as Hf.
  { induction n as [| n IH]; intros from H0 Hn; cbn [for_]; [apply keeps_ret |].
    apply keeps_bind; [apply st_dispatch; [done | done | lia] | intros _; apply IH; lia]. }
  by apply Hf.
Qed.

(** Whatever interrupt strikes. *)
Lemma st_irq i a b c s s' : (c = true -> a = true /\ b = true) -> log_st ch a b c s ->
  run_irq i s = Ret tt s' -> after_irq a b c s'.
Proof.
  intros Hc Hs Hr. destruct i; [by apply (st_dma a b c s) | left.. ]; refine (keeps_ret_inv _ _ _ _ _ _ Hs Hr).
  - apply st_pio.
  - apply st_timer.
  - apply st_bank0.
Qed.
End Interrupts.

(** *** The invariant of the loop *)

(** What a statement relies on: between the check of [in_tx] and the start of the
    transfer the three bits of the log are known; elsewhere they agree. *)
Definition log_phase (p : point) : option (bool * bool * bool) :=
  match p with
  | at_read | at_write _ | at_busy _ | at_flag _ | at_frame | at_wfe => Some (false, false, false)
  | at_guard _ | at_handler _ _ => Some (true, false, false)
  | at_context _ _ | at_clear _ _ | at_enable _ _ | at_icpr _ | at_iser _ | at_start _ => Some (true, true, false)
  | at_runtime | at_sleep | at_sock | at_spi | at_check => None
  end.
Definition on_channel (ch : Z) (p : point) : Prop :=
  match p with
  | at_handler _ c | at_context _ c | at_clear _ c | at_enable _ c => c = ch
  | _ => True
  end.
Definition point_ok (ch : Z) (p : point) (s : machine) : Prop :=
  on_channel ch p /\
  match log_phase p with Some (a, b, c) => log_st ch a b c s | None => log_inv ch s end.

(** Inside [uart_log_write], from the store to [in_tx] to the start. *)
Definition sending (p : point) : bool :=
  match p with
  | at_guard _ | at_handler _ _ | at_context _ _ | at_clear _ _ | at_enable _ _ | at_icpr _ | at_iser _ | at_start _ => true
  | _ => false
  end.
(** The statements of [main.c], [uart_log.c] and [dma.c] that deal with the log;
    the others call the runtime and the other drivers. *)
Definition log_point (p : point) : bool :=
  match p with at_runtime | at_sock | at_spi => false | _ => true end.

(** The last thing that happened, when no interrupt has struck since. *)
Definition undisturbed (m : mode) (t : trace) : Prop :=
  match m with
  | running at_frame => exists ptr next t0, t = [E_ret (jd_dmesg_next 128 ptr) next; E_bytes (jd_dmesg_read 128 ptr) []] ++ t0
  | running at_wfe => exists ptr next t0, t = [E_ret jd_rx_has_frame 0;
      E_ret (jd_dmesg_next 128 ptr) next; E_bytes (jd_dmesg_read 128 ptr) []] ++ t0
  | waiting => exists ptr next t0, t = [E_wfe; E_ret jd_rx_has_frame 0;
      E_ret (jd_dmesg_next 128 ptr) next; E_bytes (jd_dmesg_read 128 ptr) []] ++ t0
  | _ => True
  end.

Definition loop_inv (ch : Z) (x : config) : Prop :=
  match mo x with running p => point_ok ch p (mem_ x) | waiting => log_st ch false false false (mem_ x) end /\
  (ev x = false -> undisturbed (mo x) (tr (mem_ x))).

Section Loop.
Context {E : Env} (ch : Z) {MC : MainClient ch} {IC : IrqClient ch} {DR : DmaRaises ch} (wifi : bool) (buf : Z).

Lemma st_emit a b c e s : not_log e = true -> log_st ch a b c s -> log_st ch a b c (emit e s).
Proof. intros He Hs. by apply framed_emit. Qed.

(** The statements of a write, one by one. *)
Lemma st_chunk_read bs next s : log_st ch false false false s -> log_st ch false false false (chunk_read bs next s).
Proof.
  intros Hs. pose proof (chunk_read_inv ch bs next s) as H. pose proof Hs as (_ & _ & _ & Ha & _).
  specialize (H Ha (log_st_inv _ _ _ Hs)). apply log_inv_st in H.
  change (rd in_tx (chunk_read bs next s)) with (rd in_tx s) in H. by rewrite Ha in H.
Qed.
Lemma st_flag s : log_st ch false false false s -> log_st ch true false false (wr in_tx true s).
Proof. intros (H1 & H2 & H3 & H4 & H5). by refine (conj H1 (conj H2 (conj H3 (conj eq_refl H5)))). Qed.
Lemma st_own a b b' c e' s : handler e' = (if b' : bool then Some uart_log_tx_handler else None) ->
  log_st ch a b c s -> log_st ch a b' c (wr dmaHandler (<[Z.to_nat ch := e']> (rd dmaHandler s)) s).
Proof.
  intros Hh (H1 & H2 & H3 & H4 & H5 & H6 & _ & H8).
  set (s' := wr dmaHandler _ s). assert (rd dmaHandler s' = <[Z.to_nat ch := e']> (rd dmaHandler s)) as Ht by done.
  refine (conj H1 (conj H2 (conj _ (conj H4 (conj H5 (conj H6 (conj _ _))))))); rewrite Ht.
  - by rewrite length_insert.
  - exists e'. split; [apply list_lookup_insert_eq; lia | done].
  - intros j x Hj Hx. rewrite list_lookup_insert_ne in Hx by done. by apply (H8 j).
Qed.
Lemma st_started a n s : log_st ch true true false s ->
  log_inv ch (emit (E_call (dma_channel_transfer_from_buffer_now ch a n)) s).
Proof.
  intros (H1 & H2 & H3 & H4 & H5 & H6 & H7 & H8). set (s' := emit _ s).
  change (rd in_tx s) with (rd in_tx s') in H4.
  unfold log_inv. rewrite H4. refine (conj H1 (conj H2 (conj H3 (conj _ (conj H6 (conj H7 H8)))))).
  change ((if ch =? ch then true else in_flight ch (tr s)) = true). by rewrite Z.eqb_refl.
Qed.

(** What each statement of the log does, and that it is defined. *)
Lemma guard_run n s : log_st ch true false false s ->
  exec_point wifi buf (at_guard n) s = Ret (at_handler n ch) s.
Proof.
  intros (H1 & H2 & H3 & _ & _ & _ & (e & He & Hh) & _). cbn [exec_point]. rewrite bind_get, H2. cbv zeta.
  rewrite u8_id by lia. rewrite (proj2 (Z.leb_gt NUM_DMA_CHANNELS ch)) by (unfold NUM_DMA_CHANNELS; lia).
  rewrite bind_get, (bind_ret (index _ _) _ s e s) by (apply index_run; [lia | done]). by rewrite Hh.
Qed.
Lemma write_run n s : log_st ch false false false s ->
  exec_point wifi buf (at_write n) s = Ret (at_busy n) s.
Proof.
  intros (H1 & H2 & _). cbn [exec_point]. rewrite bind_get, H2.
  by rewrite (proj2 (Z.eqb_neq ch (-2))), (proj2 (Z.eqb_neq ch (-1))) by lia.
Qed.
Lemma assert_run n s : log_st ch false false false s ->
  exec_point wifi buf (at_busy n) s = Ret (at_flag n) s.
Proof. intros (_ & _ & _ & H4 & _). cbn [exec_point]. by rewrite bind_get, H4. Qed.
Lemma start_run n s : log_st ch true true false s ->
  exec_point wifi buf (at_start n) s =
    Ret at_runtime (emit (E_call (dma_channel_transfer_from_buffer_now ch (mem buf) n)) s).
Proof. intros (_ & H2 & _). cbn [exec_point]. by rewrite bind_get, H2. Qed.

(** A statement of the log is executed, and leads where its invariant holds. *)
Lemma log_point_steps p s : log_point p = true -> point_ok ch p s ->
  exists q s', exec_point wifi buf p s = Ret q s' /\ point_ok ch q s'.
Proof.
  intros Hp [Hc Hs]. destruct p; try done; cbn [log_phase on_channel] in Hc, Hs; try subst c.
  - eexists _, _. split; [reflexivity |]. split; [done |]. exact (framed_emit _ _ eq_refl Hs).
  - eexists _, _. split; [apply check_run |]. destruct (rd in_tx s) eqn:Hb; (split; [done |]); [exact Hs |].
    apply log_inv_st in Hs. by rewrite Hb in Hs.
  - eexists _, _. split; [apply read_run |]. destruct (negb _); (split; [done | by apply st_chunk_read]).
  - eexists _, _. split; [by apply write_run |]. by split.
  - eexists _, _. split; [by apply assert_run |]. by split.
  - eexists _, _. split; [reflexivity |]. split; [done |]. by apply st_flag.
  - eexists _, _. split; [by apply guard_run |]. by split.
  - pose proof Hs as (H1 & _ & _ & _ & _ & _ & (e & He & _) & _).
    eexists _, _. split; [apply (handler_run wifi buf n ch e); [lia | done] |]. split; [done |]. by apply (st_own true false true).
  - pose proof Hs as (H1 & _ & _ & _ & _ & _ & (e & He & Hh) & _).
    eexists _, _. split; [apply (context_run wifi buf n ch e); [lia | done] |]. split; [done |]. by apply (st_own true true true).
  - eexists _, _. split; [reflexivity |]. split; [done |]. exact (framed_emit _ _ eq_refl Hs).
  - eexists _, _. split; [reflexivity |]. split; [done |]. exact (framed_emit _ _ eq_refl Hs).
  - eexists _, _. split; [reflexivity |]. split; [done |]. exact (framed_emit _ _ eq_refl Hs).
  - eexists _, _. split; [reflexivity |]. split; [done |]. exact (framed_emit _ _ eq_refl Hs).
  - eexists _, _. split; [by apply start_run |]. split; [done |]. by apply st_started.
  - eexists _, _. split; [reflexivity |]. assert (log_st ch false false false (emit (E_ret jd_rx_has_frame (ret_of (tr s) jd_rx_has_frame)) s)) as H1
      by exact (framed_emit _ _ eq_refl Hs).
    destruct (z2b _); (split; [done |]); [by apply (log_st_inv ch false) | exact H1].
  - eexists _, _. split; [reflexivity |]. split; [done |]. apply (log_st_inv ch false). exact (framed_emit _ _ eq_refl Hs).
Qed.

Lemma exec_ok p q s s' : point_ok ch p s -> exec_point wifi buf p s = Ret q s' -> point_ok ch q s'.
Proof.
  intros Hp Hr. destruct (log_point p) eqn:Hl.
  { destruct (log_point_steps p s Hl Hp) as (q0 & s0 & E0 & H0). rewrite E0 in Hr. by injection Hr as <- <-. }
  destruct Hp as [_ Hs]. destruct p; try done; cbn [log_phase exec_point] in Hs, Hr;
    apply bind_inv in Hr as ([] & s1 & H1 & [= <- <-]); (split; [done |]); cbn [log_phase];
    refine (keeps_ret_inv _ _ _ _ _ _ Hs H1).
  - exact (runtime_log ch).
  - apply keeps_if; [exact (sock_process_log ch) | apply keeps_ret].
  - exact (spi_process_log ch).
Qed.

Lemma irq_state i a b c s s' : (c = true -> a = true /\ b = true) -> log_st ch a b c s ->
  run_irq i s = Ret tt s' -> c = false -> log_st ch a b c s'.
Proof. intros Hc Hs Hr ->. destruct (st_irq ch i a b false s s' Hc Hs Hr) as [H | [H _]]; done. Qed.

Lemma irq_inv i s s' : log_inv ch s -> run_irq i s = Ret tt s' -> log_inv ch s'.
Proof.
  intros Hs Hr. apply log_inv_st in Hs. destruct (rd in_tx s);
    (destruct (fun Hc => st_irq ch i _ _ _ s s' Hc Hs Hr) as [H | [_ H]]; [done | exact (log_st_inv _ _ _ H)..]).
Qed.

Lemma irq_ok i p s s' : point_ok ch p s -> run_irq i s = Ret tt s' -> point_ok ch p s'.
Proof.
  intros [Hc Hs] Hr. split; [done |]. destruct p; cbn [log_phase] in Hs |- *;
    first [by apply (irq_inv i s) | by apply (irq_state i _ _ _ s s')].
Qed.

(** Nothing strikes between the last look at the log and [wfe]. *)
Lemma exec_undisturbed p q s s' : p <> at_wfe -> point_ok ch p s -> exec_point wifi buf p s = Ret q s' ->
  undisturbed (running p) (tr s) -> undisturbed (running q) (tr s').
Proof.
  intros Hw Hp Hr Hu. destruct (log_point p) eqn:Hl.
  2:{ destruct p; try done; cbn [exec_point] in Hr; apply bind_inv in Hr as (? & ? & _ & Hq); by injection Hq as <- <-. }
  destruct Hp as [Hc Hs]. destruct p; try done; cbn [log_phase on_channel] in Hs, Hc; try subst c.
  - by injection Hr as <- <-.
  - rewrite check_run in Hr. destruct (rd in_tx s); by injection Hr as <- <-.
  - rewrite read_run in Hr. destruct (Z.eqb_spec (Z.of_nat (length (chunk s))) 0) as [Hz | Hz]; injection Hr as <- <-; [| done].
    assert (chunk s = []) as Hn by (apply length_zero_iff_nil; lia). exists (rd dmesg_ptr s), (chunk_next s), (tr s).
    change (tr (chunk_read (chunk s) (chunk_next s) s)) with (E_ret (jd_dmesg_next 128 (rd dmesg_ptr s)) (chunk_next s)
      :: E_bytes (jd_dmesg_read 128 (rd dmesg_ptr s)) (chunk s) :: tr s). by rewrite Hn.
  - rewrite write_run in Hr by done. by injection Hr as <- <-.
  - rewrite assert_run in Hr by done. by injection Hr as <- <-.
  - by injection Hr as <- <-.
  - rewrite guard_run in Hr by done. by injection Hr as <- <-.
  - pose proof Hs as (H1 & _ & _ & _ & _ & _ & (e & He & _) & _).
    rewrite (handler_run wifi buf n ch e) in Hr by (done || lia). by injection Hr as <- <-.
  - pose proof Hs as (H1 & _ & _ & _ & _ & _ & (e & He & _) & _).
    rewrite (context_run wifi buf n ch e) in Hr by (done || lia). by injection Hr as <- <-.
  - by injection Hr as <- <-.
  - by injection Hr as <- <-.
  - by injection Hr as <- <-.
  - by injection Hr as <- <-.
  - rewrite start_run in Hr by done. by injection Hr as <- <-.
  - cbn [exec_point] in Hr. unfold bind, sdkv, ret in Hr. injection Hr as <- <-.
    destruct Hu as (ptr & next & t0 & Hu). unfold z2b.
    destruct (Z.eqb_spec (ret_of (tr s) jd_rx_has_frame) 0) as [Hz | Hz]; [| done]. cbn [negb undisturbed].
    exists ptr, next, t0. change (E_ret jd_rx_has_frame (ret_of (tr s) jd_rx_has_frame) :: tr s = [E_ret jd_rx_has_frame 0] ++
      [E_ret (jd_dmesg_next 128 ptr) next; E_bytes (jd_dmesg_read 128 ptr) []] ++ t0). by rewrite Hz, Hu.
Qed.

Lemma loop_step_inv x y : loop_inv ch x -> loop_step wifi buf x y -> loop_inv ch y.
Proof.
  intros Hx Hst. destruct Hst as [p q e e' s s' Hw He Hr | s q s' Hr | s q s' Hr | i m e s s' Hr | e s];
    destruct Hx as [Hx Hu]; cbn [mo ev mem_] in Hx, Hu; unfold loop_inv; cbn [mo ev mem_].
  - split; [by apply (exec_ok p q s) |]. intros Hf. apply (exec_undisturbed p q s s'); [done.. |].
    apply Hu. destruct e; [| done]. by rewrite He in Hf.
  - split; [by apply (exec_ok at_wfe q s) |]. intros _. injection Hr as <- <-. done.
  - injection Hr as <- <-. destruct Hx as [_ Hx]. split; [exact (framed_emit _ _ eq_refl Hx) |].
    intros _. destruct (Hu eq_refl) as (ptr & next & t0 & Ht). exists ptr, next, t0.
    change (E_wfe :: tr s = [E_wfe] ++ [E_ret jd_rx_has_frame 0;
      E_ret (jd_dmesg_next 128 ptr) next; E_bytes (jd_dmesg_read 128 ptr) []] ++ t0). by rewrite Ht.
  - split; [| done]. destruct m as [p |]; [by apply (irq_ok i p s) |]. by apply (irq_state i _ _ _ s s').
  - split; [| done]. split; [done |]. exact (log_st_inv _ _ _ Hx).
Qed.
End Loop.

(** From reset to the head of the loop. *)
Lemma loop_boot {E : Env} p ch {MC : MainClient ch} {IC : IrqClient ch} {DR : DmaRaises ch} wifi buf s0 x :
  ret_of [] (dcfg_get_pin "log.pinTX") = p -> 0 <= p < 256 -> tx_pin_ok p ->
  ret_of [E_ret (dcfg_get_pin "log.pinTX") p] (dma_claim_unused_channel true) = ch -> 0 <= ch < 12 ->
  main wifi buf 0 machine_init = Ret tt s0 -> star (loop_step wifi buf) (loop_start s0) x -> loop_inv ch x.
Proof.
  intros Hp Hr Hok Hch Hc Hm Hst.
  apply (star_invariant _ (loop_inv ch) (loop_step_inv ch wifi buf) _ _ Hst).
  split; [split; [done | exact (boot_inv p ch wifi buf s0 Hp Hr Hok Hch Hc Hm)] | done].
Qed.

(** ** The theorems *)

(** C6: the hand-over of the log between the loop and the DMA interrupt has no
    race.  After start-up on a board with a usable log pin, with interrupts
    between any two statements of the copy: the static buffer is never filled
    while its channel is reading it; outside the hand-over itself [in_tx] says
    exactly whether the channel is busy, so no completion is lost and none comes
    early; and every statement of the hand-over can be executed - the assertions
    of [uart_log_write] and of [dma_set_ch_cb] hold and no access is out of
    bounds. *)
Theorem loop_log_handover {E : Env} p ch {MC : MainClient ch} {IC : IrqClient ch} {DR : DmaRaises ch} wifi buf s0 x :
  ret_of [] (dcfg_get_pin "log.pinTX") = p -> 0 <= p < 256 -> tx_pin_ok p ->
  ret_of [E_ret (dcfg_get_pin "log.pinTX") p] (dma_claim_unused_channel true) = ch -> 0 <= ch < 12 ->
  main wifi buf 0 machine_init = Ret tt s0 -> star (loop_step wifi buf) (loop_start s0) x ->
  fills_safe ch (tr (mem_ x)) /\
  (forall q, mo x = running q -> sending q = false -> in_flight ch (tr (mem_ x)) = rd in_tx (mem_ x)) /\
  (forall q, mo x = running q -> log_point q = true ->
     exists q' s', exec_point wifi buf q (mem_ x) = Ret q' s').
Proof.
  intros Hp Hr Hok Hch Hc Hm Hst.
  destruct (loop_boot p ch wifi buf s0 x Hp Hr Hok Hch Hc Hm Hst) as [Hx _]. split; [| split].
  - destruct (mo x) as [q |]; [destruct Hx as [_ Hx]; destruct (log_phase q) as [[[a b] c] |] |]; apply Hx.
  - intros q Hq Hs. rewrite Hq in Hx. destruct Hx as [_ Hx]. destruct q; try done; cbn [log_phase] in Hx;
      first [exact (proj1 (proj2 (proj2 (proj2 Hx)))) | by destruct Hx as (_ & _ & _ & -> & -> & _)].
  - intros q Hq Hl. rewrite Hq in Hx. destruct (log_point_steps ch wifi buf q _ Hl Hx) as (q' & s' & H & _). eauto.
Qed.

(** C16: no wake-up is lost.  When the processor waits in [wfe] and no interrupt
    has struck since, then the log's channel is idle and the last things that
    happened, with no interrupt from the first of them on, are that the log was
    found empty and that no frame was found; so everything that could give the
    loop work has yet to happen, and comes with an interrupt. *)
Theorem loop_no_lost_wakeup {E : Env} p ch {MC : MainClient ch} {IC : IrqClient ch} {DR : DmaRaises ch} wifi buf s0 s :
  ret_of [] (dcfg_get_pin "log.pinTX") = p -> 0 <= p < 256 -> tx_pin_ok p ->
  ret_of [E_ret (dcfg_get_pin "log.pinTX") p] (dma_claim_unused_channel true) = ch -> 0 <= ch < 12 ->
  main wifi buf 0 machine_init = Ret tt s0 ->
  star (loop_step wifi buf) (loop_start s0) (mkConfig waiting false s) ->
  rd in_tx s = false /\ in_flight ch (tr s) = false /\
  exists ptr next t, tr s = [E_wfe; E_ret jd_rx_has_frame 0;
    E_ret (jd_dmesg_next 128 ptr) next; E_bytes (jd_dmesg_read 128 ptr) []] ++ t.
Proof.
  intros Hp Hr Hok Hch Hc Hm Hst.
  destruct (loop_boot p ch wifi buf s0 _ Hp Hr Hok Hch Hc Hm Hst) as [(_ & _ & _ & Ha & Hf & _) Hu].
  split; [done |]. split; [done |]. exact (Hu eq_refl).
Qed.

(** *** Concrete runs *)

#[export] Instance point_eq_dec : EqDecision point.
Proof. solve_decision. Defined.

(** A run, given by where the interrupts strike. *)
Definition step_of {E : Env} (wifi : bool) (buf : Z) (i : option interrupt) (x : config) : option config :=
  match i, mo x with
  | Some i, m => match run_irq i (mem_ x) with Ret _ s => Some (mkConfig m true s) | Stop _ _ => None end
  | None, running at_wfe =>
    match exec_point wifi buf at_wfe (mem_ x) with
    | Ret q s => Some (mkConfig (if ev x then running q else waiting) false s)
    | Stop _ _ => None
    end
  | None, running p =>
    match exec_point wifi buf p (mem_ x) with Ret q s => Some (mkConfig (running q) (ev x) s) | Stop _ _ => None end
  | None, waiting => if ev x then Some (mkConfig (running at_runtime) false (mem_ x)) else None
  end.
Fixpoint schedule {E : Env} (wifi : bool) (buf : Z) (sch : list (option interrupt)) (x : config) : option config :=
  match sch with
  | [] => Some x
  | i :: sch => match step_of wifi buf i x with Some y => schedule wifi buf sch y | None => None end
  end.

Lemma step_of_sound {E : Env} wifi buf i x y : step_of wifi buf i x = Some y -> loop_step wifi buf x y.
Proof.
  destruct x as [m e s]. unfold step_of. cbn [mo ev mem_]. destruct i as [i |].
  - destruct (run_irq i s) as [[] s' |] eqn:Hr; [| done]. intros [= <-]. by apply (ls_irq wifi buf i).
  - destruct m as [p |].
    + destruct (decide (p = at_wfe)) as [-> | Hp].
      * destruct (exec_point wifi buf at_wfe s) as [q s' |] eqn:Hr; [| done]. intros [= <-].
        destruct e; [by apply ls_wfe_on | by apply (ls_wfe_wait wifi buf s q)].
      * intros H. assert (exists q s', exec_point wifi buf p s = Ret q s' /\ y = mkConfig (running q) e s') as (q & s' & Hr & ->).
        { destruct p; try done; destruct (exec_point wifi buf _ s) as [q s' |] eqn:Hr; try done; injection H as <-; eauto. }
        by apply ls_exec.
    + destruct e; [| done]. intros [= <-]. apply ls_wake.
Qed.
Lemma schedule_sound {E : Env} wifi buf sch x y : schedule wifi buf sch x = Some y -> star (loop_step wifi buf) x y.
Proof.
  revert x. induction sch as [| i sch IH]; intros x; cbn [schedule]; [by intros [= ->]; apply star_refl |].
  destruct (step_of wifi buf i x) as [z |] eqn:Hz; [| done]. intros H.
  apply star_step with z; [by apply (step_of_sound wifi buf i) | by apply IH].
Qed.

#[export] Instance demo_irq_client : @IrqClient main_demo_env 6.
Proof. constructor; intros; apply keeps_ret. Qed.
#[export] Instance demo_dma_raises : @DmaRaises main_demo_env 6.
Proof.
  intros t. change (Z.testbit (if in_flight 6 t then bit 6 else 0) 6 = true -> in_flight 6 t = true).
  by destruct (in_flight 6 t).
Qed.

Definition steps (n : nat) : list (option interrupt) := replicate n None.
Definition demo_run (sch : list (option interrupt)) : config :=
  default (loop_start machine_init) (@schedule main_demo_env false 100 sch (loop_start demo_booted)).

(** Interrupts inside the hand-over of the first chunk, its completion at the
    head of the loop, and a second chunk up to its start. *)
Definition demo_handover : list (option interrupt) :=
  steps 9 ++ [Some IRQ_dma] ++ steps 2 ++ [Some IRQ_timer; Some IRQ_dma] ++ steps 6 ++ [Some IRQ_dma] ++ steps 16.

Lemma loop_log_handover_witness :
  rd dmesg_ptr (mem_ (demo_run demo_handover)) = 256 /\ mo (demo_run demo_handover) = running (at_start 128) /\
  fills_safe 6 (tr (mem_ (demo_run demo_handover))) /\
  (forall q, mo (demo_run demo_handover) = running q -> sending q = false ->
     in_flight 6 (tr (mem_ (demo_run demo_handover))) = rd in_tx (mem_ (demo_run demo_handover))) /\
  (forall q, mo (demo_run demo_handover) = running q -> log_point q = true ->
     exists q' s', @exec_point main_demo_env false 100 q (mem_ (demo_run demo_handover)) = Ret q' s').
Proof.
  split; [vm_compute; reflexivity |]. split; [vm_compute; reflexivity |].
  apply (@loop_log_handover main_demo_env 4 6 main_demo_client demo_irq_client demo_dma_raises false 100 demo_booted);
    [reflexivity | lia | split; [discriminate | reflexivity] | reflexivity | lia | vm_compute; reflexivity |].
  apply (@schedule_sound main_demo_env false 100 demo_handover). vm_compute. reflexivity.
Defined.

(** Three chunks, each completed at the head of the next turn; then the log is
    empty.  The first [wfe] finds the event of the last interrupt; the second
    waits. *)
Definition demo_drained : list (option interrupt) :=
  steps 17 ++ [Some IRQ_dma] ++ steps 17 ++ [Some IRQ_dma] ++ steps 17 ++ [Some IRQ_dma] ++ steps 8 ++ steps 8.

Lemma loop_no_lost_wakeup_witness (s := mem_ (demo_run demo_drained)) :
  rd in_tx s = false /\ in_flight 6 (tr s) = false /\
  exists ptr next t, tr s = [E_wfe; E_ret jd_rx_has_frame 0;
    E_ret (jd_dmesg_next 128 ptr) next; E_bytes (jd_dmesg_read 128 ptr) []] ++ t.
Proof.
  apply (@loop_no_lost_wakeup main_demo_env 4 6 main_demo_client demo_irq_client demo_dma_raises false 100 demo_booted);
    [reflexivity | lia | split; [discriminate | reflexivity] | reflexivity | lia | vm_compute; reflexivity |].
  apply (@schedule_sound main_demo_env false 100 demo_drained). vm_compute. reflexivity.
Defined.
