(* ===== verification/Confine.v ===== *)
(** * Confine: what interrupts leave alone

    Most drivers keep their state in static variables without a lock, and call
    libraries that are not reentrant.  That is sound because the firmware's
    interrupts keep away from both: here their reach is stated, and proved for
    every sequence of them. *)

From S2P Require Import Prelude Events Machine Frame RefEnv Irq Dma Pins Tim Uart Spi UartLog Platform Completion Main Loop.

(** ** Definitions *)

(** Calls into what is not reentrant, or blocks: the flash, the blocking bus
    drivers, the ADC, the heap, TinyUSB, lwIP and the CYW43 driver, and the
    functions that report to the DeviceScript runtime. *)
Definition thread_only (c : call) : bool :=
  match c with
  | flash_range_program _ _ _ | flash_range_erase _ _
  | spi_init _ _ | i2c_init _ _ | i2c_read_blocking _ _ _ _ _ | i2c_write_blocking _ _ _ _ _
  | adc_init | adc_select_input _ | adc_read | adc_set_temp_sensor_enabled _ | uart_init _ _
  | stdio_set_driver_enabled _
  | calloc _ _ | free _ | jd_strdup _ | jd_vsprintf_a _ _
  | tusb_init | tud_task | tud_cdc_available | tud_cdc_read _ | tud_cdc_connected
  | tud_cdc_n_write_available _ | tud_cdc_n_write _ _ | tud_cdc_n_write_flush _
  | tud_hid_n_ready _ | tud_hid_n_keyboard_report _ _ _ _ | tud_hid_n_mouse_report _ _ _ _ _ _ _ | tud_hid_n_report _ _ _
  | jd_dmesg_read _ _ | jd_dmesg_next _ _ | jd_usb_push _ | jd_usb_pull | jd_process_everything
  | jd_tcpsock_on_event _ _ _ | jd_wifi_scan_done_cb _ _ | jd_wifi_got_ip_cb _ | jd_wifi_lost_ip_cb
  | cyw43_init | cyw43_poll | cyw43_wifi_scan_active | cyw43_wifi_scan | cyw43_arch_wifi_connect_async _ _ _
  | cyw43_wifi_leave _ | cyw43_tcpip_link_status _ | cyw43_arch_enable_sta_mode | cyw43_arch_gpio_put _ _
  | lwip_init | sys_check_timeouts | dns_gethostbyname _ | dns_result _ | tcp_new_ip_type _ | tcp_arg _ _
  | tcp_poll _ _ _ | tcp_sent _ _ | tcp_recv _ _ | tcp_err _ _ | tcp_connect _ _ _ | tcp_close _ | tcp_abort _
  | tcp_write _ _ _ _ | tcp_output _ | tcp_recved _ _ | pbuf_free _ => true
  | _ => false
  end.
Definition irq_event (e : event) : bool :=
  match e with
  | E_call c | E_ret c _ | E_bytes c _ => negb (thread_only c)
  | _ => true
  end.

(** The variables of the main program: all of those of [flash.c], [pins.c],
    [i2c.c], [adc.c], [hid.c], [usb_descriptors.c], [lwip_sock.c], [wifi_impl.c],
    [cyw43_fixes.c] and [main.c]; of [spi.c] all but [spi_done_cb], of
    [uart_log.c] all but [in_tx], of [platform.c] all but [irq_disabled]; and of
    [uart.c] the pin, the channels and the state machines. *)
Definition main_vars (s : machine) :=
  (m_flash s, m_pins s, m_i2c s, m_adc s, m_hid s, m_usbd s, m_sock s, m_wifi s, m_main s,
   (rd spi_in_use s, rd dma_claimed s, rd dma_tx s, rd dma_rx s, rd spi s),
   (rd UartLog.dmachTx s, f_prev_tx_pin (m_log s)),
   (f_device_id (m_platform s), f_cpu_mhz (m_platform s), f_is_pico_w (m_platform s), f_use_pico_led (m_platform s)),
   (rd Uart.dmachTx s, rd Uart.dmachRx s, rd txprog s, rd rxprog s, rd smtx s, rd smrx s, rd jacdac_pin s)).

(** What happened since [s0] stays within the reach of an interrupt. *)
Definition confined (s0 s : machine) : Prop :=
  main_vars s = main_vars s0 /\ exists es, tr s = es ++ tr s0 /\ Forall (fun e => irq_event e = true) es.

(** The runtime's callbacks from interrupts: the end of a timer, a falling edge,
    the end of a reception and of a transmission. *)
Class ConfinedClient {E : Env} : Prop := {
  confined_cb s0 id : keeps (confined s0) (client_cb id);
  confined_falling s0 : keeps (confined s0) jd_line_falling;
  confined_rx s0 n : keeps (confined s0) (jd_rx_completed n);
  confined_tx s0 n : keeps (confined s0) (jd_tx_completed n)
}.

Definition irq_step {E : Env} (s s' : machine) : Prop := exists i, run_irq i s = Ret tt s'.

(** ** Lemmas *)

#[export] Instance confined_framed s0 : Framed (confined s0) irq_event.
Proof.
  constructor.
  - intros e s He (Hv & es & Ht & Hes). split; [exact Hv |]. exists (e :: es).
    split; [unfold emit, upd_tr; cbn [tr app]; by rewrite Ht | by constructor].
  - intros b s H. exact H.
Qed.

Section Handlers.
Context {E : Env} {CC : ConfinedClient} (s0 : machine).
#[local] Hint Resolve confined_cb confined_falling confined_rx confined_tx : keeps.

Lemma confined_run_cb f : keeps (confined s0) (run_cb f).
Proof. destruct f; cbn [run_cb]; auto with keeps. Qed.
#[local] Hint Resolve confined_run_cb : keeps.

Lemma confined_disable : keeps (confined s0) uart_disable.
Proof. frame_all. Qed.
Lemma confined_wait n : keeps (confined s0) (target_wait_us n).
Proof. frame_all. Qed.
#[local] Hint Resolve confined_disable confined_wait : keeps.

Lemma confined_handler f ctx : keeps (confined s0) (run_cb_arg f ctx).
Proof.
  unfold run_cb_arg, firmware_handlers, run_handler. destruct f.
  - unfold Uart.rx_handler, rx_done. frame.
  - unfold Uart.tx_handler, pin_set, pin_setup_output, pin_setup_output_af, gpio_set_function_. frame.
  - unfold spi_dma_cb, JD_ASSERT. frame.
  - unfold UartLog.tx_handler. frame.
Qed.
#[local] Hint Resolve confined_handler : keeps.

Lemma confined_irq i : keeps (confined s0) (run_irq i).
Proof. destruct i; cbn [run_irq]; frame_all. Qed.
End Handlers.

(** ** The theorem *)

(** C17: interrupts keep to themselves.  However many interrupts of whatever kind
    come, with whatever is armed: of the static variables of the firmware they
    change only those of [tim.c], the table of DMA handlers, the lock's counter,
    [uart_status], [spi_done_cb] and [in_tx]; and they never call into the flash,
    a blocking bus driver, the ADC, the heap, TinyUSB, lwIP or the CYW43 driver.
    So what the main program does between two points at which it looks at those
    variables - a flash page being collected, a HID report, a socket operation, a
    scan - goes on as if nothing had interrupted it. *)
Theorem interrupts_confined {E : Env} {CC : ConfinedClient} s s' :
  star irq_step s s' ->
  main_vars s' = main_vars s /\ exists es, tr s' = es ++ tr s /\ Forall (fun e => irq_event e = true) es.
Proof.
  intros Hst. change (confined s s'). apply (star_invariant irq_step (confined s)) with s; [| done |].
  - intros s1 s2 Hc [i Hi]. exact (keeps_ret_inv _ _ _ _ _ (confined_irq s i) Hc Hi).
  - split; [done |]. by exists [].
Qed.

#[export] Instance bus_confined : @ConfinedClient bus_env.
Proof.
  constructor; try (intros; apply keeps_ret). intros s0 n.
  change (keeps (confined s0) (@tim_set_timer board_env 1000 (Some (cb_client 1)))).
  unfold tim_set_timer. cbv zeta. apply keeps_bind; [intros s Hs; exact Hs | intros d]. frame_all.
Qed.

(** A reception ends; a break comes late; the timer ticks. *)
Lemma interrupts_confined_witness
  (s1 := after (@isr_dma_0 bus_env (@firmware_handlers bus_env)) receiving) (s2 := after (@isr_pio0_0 bus_env) s1)
  (s3 := after (@tim_handler bus_env) s2) :
  (rd uart_status receiving = STATUS_RX /\ rd uart_status s3 = STATUS_IDLE) /\
  main_vars s3 = main_vars receiving /\
  exists es, tr s3 = es ++ tr receiving /\ Forall (fun e => irq_event e = true) es.
Proof.
  split; [split; vm_compute; reflexivity |].
  apply (@interrupts_confined bus_env bus_confined receiving).
  apply star_step with s1; [exists IRQ_dma; vm_compute; reflexivity |].
  apply star_step with s2; [exists IRQ_pio; vm_compute; reflexivity |].
  apply star_one. exists IRQ_timer. vm_compute. reflexivity.
Defined.
